(* ===== verification/_CoqProject ===== *)
-Q . S2P
Prelude.v
Common.v
Crypto.v
Cmac.v
An10922.v
Pool.v
CredentialData.v
Credential.v
FileStore.v
KeyStore.v
CredentialFacts.v
CredentialSpec.v
KeyRoll.v
Materialize.v
EmulatorData.v
Journal.v
JournalSlots.v
JournalFacts.v
JournalSteps.v
Emulator.v
Access.v
Transaction.v
Atomicity.v
Session.v
