(* ===== verification/Prelude.v ===== *)
(** Placeholder header, replaced at the end of the build. *)

From stdpp Require Export base list numbers option.
From Stdlib Require Export ZArith Lia.

#[global] Open Scope Z_scope.

(** ** Machine integers

    Every C integer is a [Z]; a store into a [w]-bit unsigned object wraps
    modulo [2^w]. [size_t] is the 64-bit type of the hosted build. *)

Definition u8 (z : Z) : Z := z mod 2 ^ 8.
Definition u16 (z : Z) : Z := z mod 2 ^ 16.
Definition u32 (z : Z) : Z := z mod 2 ^ 32.
Definition u64 (z : Z) : Z := z mod 2 ^ 64.

Definition UINT8_MAX : Z := 2 ^ 8 - 1.
Definition UINT16_MAX : Z := 2 ^ 16 - 1.
Definition UINT32_MAX : Z := 2 ^ 32 - 1.
Definition SIZE_MAX : Z := 2 ^ 64 - 1.
Definition INT32_MAX : Z := 2 ^ 31 - 1.
Definition INT32_MIN : Z := - 2 ^ 31.

(** ** Octet strings *)

Abbreviation bytes := (list Z).

Definition byte_ok (b : Z) : Prop := 0 <= b < 2 ^ 8.
Definition bytes_ok (l : bytes) : Prop := Forall byte_ok l.

(** Length of a buffer as the [size_t] the code passes beside the pointer. *)
Definition zlen {A} (l : list A) : Z := Z.of_nat (length l).

(** [byte_at b i] reads [b[i]]; the code only reads inside its buffers. *)
Definition byte_at (b : bytes) (i : Z) : Z := default 0 (b !! Z.to_nat i).

(** [slice b off len] is the [len] octets at [b + off]. *)
Definition slice {A} (b : list A) (off len : Z) : list A :=
  take (Z.to_nat len) (drop (Z.to_nat off) b).

(** [splice b off src] is [b] after [memcpy(b + off, src, len)]. *)
Definition splice {A} (b : list A) (off : Z) (src : list A) : list A :=
  take (Z.to_nat off) b ++ src ++ drop (Z.to_nat off + length src) b.

Definition zeros (n : Z) : bytes := replicate (Z.to_nat n) 0.

(** [memset(b + off, 0, len)] and [dfc_secure_wipe(b + off, len)]. *)
Definition wipe (b : bytes) (off len : Z) : bytes := splice b off (zeros len).

(** [memmove(b + dst, b + src, len)]. *)
Definition memmove {A} (b : list A) (dst src len : Z) : list A :=
  splice b dst (slice b src len).

Definition xor_bytes (a b : bytes) : bytes := zip_with Z.lxor a b.

(** The exact test [l !! i = Some x] on octets, executable. *)
Definition bytes_eqb (a b : bytes) : bool := bool_decide (a = b).

(** ** Notations of the development *)

Declare Scope dfc_scope.
Delimit Scope dfc_scope with dfc.
Notation "b .[ i ]" := (byte_at b i) (at level 1, i at level 200, left associativity, format "b .[ i ]") : dfc_scope.
Notation "b .[ i := v ]" := (splice b i [v])
  (at level 1, i at level 200, v at level 200, left associativity, format "b .[ i  :=  v ]") : dfc_scope.
#[global] Open Scope dfc_scope.

(** Early return of a refused call: [guard! c else r; k] is
    [if(!c) return r; k]. *)
Notation "'guard!' c 'else' r ; k" := (if c then k else r)
  (at level 10, c at level 100, r at level 100, k at level 200, only parsing) : dfc_scope.

(** ** Automation *)

Create HintDb dfc_const.
Create Rewrite HintDb dfc_len.
Create HintDb dfc.

#[export] Hint Unfold u8 u16 u32 u64 UINT8_MAX UINT16_MAX UINT32_MAX SIZE_MAX
  INT32_MAX INT32_MIN zlen byte_ok : dfc_const.

(** Linear arithmetic over the constants and widths of the program. *)
Ltac dlia := autounfold with dfc_const in *; lia.

(** Case analysis on every condition of the code in the goal or a hypothesis. *)
Ltac split_ifs :=
  repeat match goal with
         | |- context [if ?c then _ else _] => destruct c eqn:?
         | H : context [if ?c then _ else _] |- _ => destruct c eqn:?
         end.

(** Turn boolean tests of the code into arithmetic facts. *)
Ltac bool_facts :=
  repeat match goal with
         | H : _ && _ = true |- _ => apply andb_true_iff in H as [? ?]
         | H : _ || _ = false |- _ => apply orb_false_iff in H as [? ?]
         | H : negb _ = true |- _ => apply negb_true_iff in H
         | H : negb _ = false |- _ => apply negb_false_iff in H
         | H : (_ =? _) = true |- _ => apply Z.eqb_eq in H
         | H : (_ =? _) = false |- _ => apply Z.eqb_neq in H
         | H : (_ <? _) = true |- _ => apply Z.ltb_lt in H
         | H : (_ <? _) = false |- _ => apply Z.ltb_ge in H
         | H : (_ <=? _) = true |- _ => apply Z.leb_le in H
         | H : (_ <=? _) = false |- _ => apply Z.leb_gt in H
         | H : bool_decide _ = true |- _ => apply bool_decide_eq_true in H
         | H : bool_decide _ = false |- _ => apply bool_decide_eq_false in H
         end.

(** ** Buffers *)

Section Buffers.
Context {A : Type}.
Implicit Types b src : list A.

Lemma slice_lookup b off len i :
  slice b off len !! i =
  if decide (i < Z.to_nat len)%nat then b !! (Z.to_nat off + i)%nat else None.
Proof.
  unfold slice. destruct (decide (i < Z.to_nat len)%nat).
  - rewrite lookup_take_lt by lia. apply lookup_drop.
  - apply lookup_take_ge; lia.
Qed.

Lemma length_slice b off len :
  0 <= off -> 0 <= len -> off + len <= zlen b -> zlen (slice b off len) = len.
Proof. unfold zlen, slice. rewrite length_take, length_drop. lia. Qed.

Lemma length_splice b off src :
  0 <= off -> off + zlen src <= zlen b -> zlen (splice b off src) = zlen b.
Proof. unfold zlen, splice. rewrite !length_app, length_take, length_drop. lia. Qed.

Lemma splice_lookup b off src i :
  0 <= off -> off + zlen src <= zlen b ->
  splice b off src !! i =
  if decide (i < Z.to_nat off)%nat then b !! i
  else if decide (i < Z.to_nat off + length src)%nat then src !! (i - Z.to_nat off)%nat
  else b !! i.
Proof.
  unfold splice, zlen. intros H0 Hle.
  assert (Hl : length (take (Z.to_nat off) b) = Z.to_nat off) by (rewrite length_take; lia).
  destruct (decide (i < Z.to_nat off)%nat).
  { rewrite lookup_app_l by lia. by rewrite lookup_take_lt by lia. }
  rewrite lookup_app_r by lia. rewrite Hl.
  destruct (decide (i < Z.to_nat off + length src)%nat).
  - by rewrite lookup_app_l by lia.
  - rewrite lookup_app_r by lia. rewrite lookup_drop. f_equal. lia.
Qed.

(** Two slices are equal when they agree octet by octet. *)
Lemma slice_ext b b' off off' len :
  (forall i, (i < Z.to_nat len)%nat ->
     b !! (Z.to_nat off + i)%nat = b' !! (Z.to_nat off' + i)%nat) ->
  slice b off len = slice b' off' len.
Proof.
  intros H. apply list_eq. intros i. rewrite !slice_lookup.
  destruct (decide _); auto.
Qed.

(** A write outside a slice does not change the slice. *)
Lemma slice_splice_disjoint b off src o l :
  0 <= off -> off + zlen src <= zlen b -> 0 <= o -> 0 <= l ->
  o + l <= off \/ off + zlen src <= o ->
  slice (splice b off src) o l = slice b o l.
Proof.
  intros ???? Hd. apply slice_ext. intros i Hi.
  rewrite splice_lookup by done. unfold zlen in *.
  repeat destruct (decide _); auto; lia.
Qed.

(** A slice exactly over a write is what was written. *)
Lemma slice_splice_same b off src :
  0 <= off -> off + zlen src <= zlen b ->
  slice (splice b off src) off (zlen src) = src.
Proof.
  intros. apply list_eq. intros i. rewrite slice_lookup, splice_lookup by done.
  unfold zlen in *. destruct (decide _).
  - rewrite decide_False by lia. rewrite decide_True by lia. f_equal. lia.
  - symmetry. apply lookup_ge_None. lia.
Qed.

(** A write inside a slice is a write to the slice. *)
Lemma slice_splice_inside b off len o src :
  0 <= off -> 0 <= o -> o + zlen src <= len -> off + len <= zlen b ->
  slice (splice b (off + o) src) off len = splice (slice b off len) o src.
Proof.
  intros. pose proof (length_slice b off len) as Hl. apply list_eq. intros i.
  rewrite slice_lookup, !splice_lookup, slice_lookup by (unfold zlen in *; lia).
  unfold zlen in *. repeat destruct (decide _); try lia; try done; f_equal; lia.
Qed.

Lemma slice_slice b off len o l :
  0 <= off -> 0 <= o -> 0 <= l -> o + l <= len ->
  slice (slice b off len) o l = slice b (off + o) l.
Proof.
  intros. apply list_eq. intros i. rewrite !slice_lookup.
  repeat destruct (decide _); auto; try lia. f_equal. lia.
Qed.

Lemma slice_all b : slice b 0 (zlen b) = b.
Proof. unfold slice, zlen. rewrite drop_0. apply take_ge. lia. Qed.

Lemma slice_nil b off : slice b off 0 = [].
Proof. done. Qed.
End Buffers.

(** An invariant of a loop over a buffer. *)
Lemma fold_left_inv {S A} (P : S -> Prop) (Q : A -> Prop) (f : S -> A -> S) (l : list A) (s : S) :
  (forall s x, P s -> Q x -> P (f s x)) -> Forall Q l -> P s -> P (fold_left f l s).
Proof.
  intros Hf Hl. revert s. induction Hl as [|x l Hx Hl IH]; intros s Hs; [done|].
  apply IH. by apply Hf.
Qed.

Lemma length_zeros n : 0 <= n -> zlen (zeros n) = n.
Proof. unfold zlen, zeros. rewrite length_replicate. lia. Qed.

Lemma zlen_nonneg {A} (l : list A) : 0 <= zlen l.
Proof. unfold zlen. lia. Qed.

Lemma zlen_app {A} (l k : list A) : zlen (l ++ k) = zlen l + zlen k.
Proof. unfold zlen. rewrite length_app. lia. Qed.

Lemma zlen_cons {A} (x : A) l : zlen (x :: l) = 1 + zlen l.
Proof. unfold zlen. simpl. lia. Qed.

#[export] Hint Rewrite @length_app @length_take @length_drop @length_replicate
  @length_zip_with @length_fmap @length_cons @length_insert : dfc_len.

(** Solve a length side condition. *)
Ltac len_solve :=
  unfold zlen, slice, splice, zeros, wipe, memmove, xor_bytes in *;
  repeat (autorewrite with dfc_len in *; cbn [length] in *); dlia.

Lemma bytes_ok_app a b : bytes_ok (a ++ b) <-> bytes_ok a /\ bytes_ok b.
Proof. apply Forall_app. Qed.

Lemma u8_byte_ok z : byte_ok (u8 z).
Proof. unfold byte_ok, u8. apply Z.mod_pos_bound. lia. Qed.

Lemma u8_id z : byte_ok z -> u8 z = z.
Proof. unfold byte_ok, u8. apply Z.mod_small. Qed.

Lemma u16_range z : 0 <= u16 z < 2 ^ 16.
Proof. unfold u16. apply Z.mod_pos_bound. lia. Qed.

Lemma u32_range z : 0 <= u32 z < 2 ^ 32.
Proof. unfold u32. apply Z.mod_pos_bound. lia. Qed.

Lemma u16_id z : 0 <= z < 2 ^ 16 -> u16 z = z.
Proof. apply Z.mod_small. Qed.

Lemma u32_id z : 0 <= z < 2 ^ 32 -> u32 z = z.
Proof. apply Z.mod_small. Qed.

#[export] Hint Resolve u8_byte_ok zlen_nonneg : dfc.

(** ** Bit arithmetic *)

Lemma Z_bounded_testbit w z :
  0 <= w -> 0 <= z -> (forall i, w <= i -> Z.testbit z i = false) -> z < 2 ^ w.
Proof.
  intros Hw Hz Hb. destruct (Z.eq_dec z 0) as [->|Hnz].
  { apply Z.pow_pos_nonneg; lia. }
  destruct (Z.lt_ge_cases z (2 ^ w)) as [?|Hge]; [done|].
  assert (w <= Z.log2 z) by (apply Z.log2_le_pow2; lia).
  specialize (Hb (Z.log2 z) ltac:(lia)). rewrite Z.bit_log2 in Hb by lia. done.
Qed.

Lemma testbit_high w z i : 0 <= z < 2 ^ w -> w <= i -> Z.testbit z i = false.
Proof.
  intros [H0 H1] Hi. destruct (Z.eq_dec z 0) as [->|]; [apply Z.testbit_0_l|].
  apply Z.bits_above_log2; [lia|].
  assert (0 <= w). { destruct (Z.lt_ge_cases w 0); [|lia]. rewrite Z.pow_neg_r in H1; lia. }
  apply Z.log2_lt_pow2 in H1; lia.
Qed.

Lemma lxor_bounded w a b : 0 <= w -> 0 <= a < 2 ^ w -> 0 <= b < 2 ^ w -> 0 <= Z.lxor a b < 2 ^ w.
Proof.
  intros Hw Ha Hb. split.
  - apply Z.lxor_nonneg. lia.
  - apply Z_bounded_testbit; [done| apply Z.lxor_nonneg; lia |].
    intros i Hi. rewrite Z.lxor_spec, (testbit_high w a), (testbit_high w b) by done. done.
Qed.

Lemma lor_bounded w a b : 0 <= w -> 0 <= a < 2 ^ w -> 0 <= b < 2 ^ w -> 0 <= Z.lor a b < 2 ^ w.
Proof.
  intros Hw Ha Hb. split.
  - apply Z.lor_nonneg. lia.
  - apply Z_bounded_testbit; [done| apply Z.lor_nonneg; lia |].
    intros i Hi. rewrite Z.lor_spec, (testbit_high w a), (testbit_high w b) by done. done.
Qed.

Lemma land_bounded w a b : 0 <= w -> 0 <= a -> 0 <= b < 2 ^ w -> 0 <= Z.land a b < 2 ^ w.
Proof.
  intros Hw Ha Hb. split.
  - apply Z.land_nonneg. lia.
  - apply Z_bounded_testbit; [done| apply Z.land_nonneg; lia |].
    intros i Hi. rewrite Z.land_spec, (testbit_high w b) by done. apply andb_false_r.
Qed.

Lemma shiftr_all w z k : 0 <= z < 2 ^ w -> 0 <= w <= k -> Z.shiftr z k = 0.
Proof.
  intros Hz Hk. rewrite Z.shiftr_div_pow2 by lia. apply Z.div_small.
  split; [lia|]. eapply Z.lt_le_trans; [apply Hz|]. apply Z.pow_le_mono_r; lia.
Qed.

Lemma shiftr_range w k z : 0 <= k <= w -> 0 <= z < 2 ^ w -> 0 <= Z.shiftr z k < 2 ^ (w - k).
Proof.
  intros Hk Hz. rewrite Z.shiftr_div_pow2 by lia. split; [apply Z.div_pos; lia|].
  apply Z.div_lt_upper_bound; [lia|]. rewrite <- Z.pow_add_r by lia.
  replace (k + (w - k)) with w by lia. lia.
Qed.

Lemma lxor_eq_0 a b : Z.lxor a b = 0 <-> a = b.
Proof. split; [apply Z.lxor_eq | intros ->; apply Z.lxor_nilpotent]. Qed.

Lemma xor_bytes_ok a b : bytes_ok a -> bytes_ok b -> bytes_ok (xor_bytes a b).
Proof.
  intros Ha. revert b. induction Ha as [|x a Hx Ha IH]; intros b Hb; [constructor|].
  destruct Hb as [|y b Hy Hb]; [constructor|].
  constructor; [apply (lxor_bounded 8); [lia|done..]| by apply IH].
Qed.

Lemma length_xor_bytes a b : length (xor_bytes a b) = Nat.min (length a) (length b).
Proof. apply length_zip_with. Qed.

Lemma xor_bytes_cancel a b : length a = length b -> xor_bytes (xor_bytes a b) b = a.
Proof.
  revert b. induction a as [|x a IH]; intros [|y b] Hl; simpl in *; try done.
  f_equal; [|apply IH; lia].
  by rewrite Z.lxor_assoc, Z.lxor_nilpotent, Z.lxor_0_r.
Qed.

Lemma xor_bytes_comm a b : xor_bytes a b = xor_bytes b a.
Proof.
  revert b. induction a as [|x a IH]; intros [|y b]; simpl; try done.
  f_equal; [apply Z.lxor_comm | apply IH].
Qed.

(** ** Arrays updated in place *)

Lemma take_alter_comm {A} (f : A -> A) i n (l : list A) : take n (alter f i l) = alter f i (take n l).
Proof.
  revert i n. induction l as [|x l IH]; intros [|i] [|n]; try done; cbn; f_equal. apply IH.
Qed.

Lemma list_alter_lookup {A} (f : A -> A) i (l : list A) x :
  l !! i = Some x -> alter f i l = <[i := f x]> l.
Proof. revert i. induction l as [|y l IH]; intros [|i] Hi; simplify_eq/=; [done|]. f_equal. by apply IH. Qed.

Lemma alter_compose_same {A} (f g : A -> A) i (l : list A) : alter f i (alter g i l) = alter (f ∘ g) i l.
Proof. revert i. induction l as [|x l IH]; intros [|i]; cbn; try done. f_equal. apply IH. Qed.

Lemma delete_insert_same {A} i (x : A) (l : list A) : delete i (<[i := x]> l) = delete i l.
Proof.
  apply list_eq. intros j. rewrite !list_lookup_delete.
  case_decide; rewrite list_lookup_insert_ne by lia; done.
Qed.

Lemma alter_ge {A} (f : A -> A) i (l : list A) : (length l <= i)%nat -> alter f i l = l.
Proof. revert i. induction l as [|x l IH]; intros [|i] Hi; cbn in *; try done; [lia|]. f_equal. apply IH. lia. Qed.

Lemma take_succ_alter {A} (l : list A) n x :
  (n < length l)%nat -> take (S n) (alter (fun _ => x) n l) = take n l ++ [x].
Proof.
  intros Hn. destruct (lookup_lt_is_Some_2 l n Hn) as [y Hy].
  rewrite (list_alter_lookup _ _ _ _ Hy). rewrite (take_S_r _ _ x).
  - by rewrite take_insert_ge.
  - by apply list_lookup_insert_eq.
Qed.

(** [memmove] of an array over one slot, seen below the new count. *)
Lemma take_memmove_delete {A} (l : list A) (i n : Z) :
  0 <= i < n -> n <= zlen l ->
  take (Z.to_nat (n - 1)) (if i + 1 <? n then memmove l i (i + 1) (n - i - 1) else l) =
  delete (Z.to_nat i) (take (Z.to_nat n) l).
Proof.
  intros Hi Hn. unfold zlen in Hn. rewrite delete_take_drop, take_take, skipn_firstn_comm.
  rewrite (Nat.min_l (Z.to_nat i)) by lia. destruct (i + 1 <? n) eqn:E; bool_facts.
  - unfold memmove, splice, slice. rewrite app_assoc, take_app_length'.
    + f_equal. replace (Z.to_nat (i + 1)) with (S (Z.to_nat i)) by lia. f_equal. lia.
    + rewrite length_app, !length_take, length_drop. lia.
  - replace (Z.to_nat (n - 1)) with (Z.to_nat i) by lia.
    replace (Z.to_nat n - S (Z.to_nat i))%nat with O by lia. by rewrite take_0, app_nil_r.
Qed.

Lemma length_memmove {A} (l : list A) dst src len :
  0 <= dst -> 0 <= src -> 0 <= len -> dst + len <= zlen l -> src + len <= zlen l ->
  length (memmove l dst src len) = length l.
Proof.
  intros. unfold memmove. apply Nat2Z.inj. apply (length_splice l); [done|].
  rewrite length_slice by done. done.
Qed.

(** One slot of an array leaves, the count drops, and the vacated slot is reset. *)
Lemma remove_slot_delete {A} (l : list A) (i n : Z) (x : A) :
  0 <= i < n -> n <= zlen l ->
  let l' := alter (fun _ => x) (Z.to_nat (n - 1))
              (if i + 1 <? n then memmove l i (i + 1) (n - i - 1) else l) in
  length l' = length l /\ l' !! Z.to_nat (n - 1) = Some x /\
  delete (Z.to_nat (n - 1)) l' = delete (Z.to_nat i) l.
Proof.
  intros Hi Hn l'. pose proof (take_memmove_delete l i n Hi Hn) as Ht. unfold l'.
  set (m := if i + 1 <? n then memmove l i (i + 1) (n - i - 1) else l) in *. unfold zlen in Hn.
  assert (Hm : length m = length l /\ drop (Z.to_nat n) m = drop (Z.to_nat n) l).
  { unfold m. destruct (i + 1 <? n) eqn:E; bool_facts; [|done].
    split; [apply length_memmove; unfold zlen; lia|]. unfold memmove, splice, slice.
    rewrite app_assoc, drop_app_ge; rewrite !length_app, !length_take, length_drop; [|lia].
    rewrite drop_drop. f_equal. lia. }
  destruct Hm as [Hml Hmd]. rewrite length_alter. split_and!; [done| |].
  - rewrite list_lookup_alter_eq. destruct (lookup_lt_is_Some_2 m (Z.to_nat (n - 1))) as [y ->]; [lia|done].
  - rewrite !delete_take_drop. replace (S (Z.to_nat (n - 1))) with (Z.to_nat n) by lia.
    assert (Hd : drop (Z.to_nat n) (alter (fun _ => x) (Z.to_nat (n - 1)) m) = drop (Z.to_nat n) m).
    { apply list_eq. intros k. rewrite !lookup_drop, list_lookup_alter_ne by lia. done. }
    rewrite Hd, Hmd, take_alter_comm, alter_ge, Ht by (rewrite length_take; lia).
    rewrite delete_take_drop, take_take, skipn_firstn_comm, <- app_assoc. f_equal; [f_equal; lia|].
    rewrite <- (take_drop (Z.to_nat n - S (Z.to_nat i)) (drop (S (Z.to_nat i)) l)) at 2.
    rewrite drop_drop. f_equal. f_equal. lia.
Qed.
