(* ===== verification/Common.v ===== *)
(** Shared format and protocol rules: [src/src/dfc_common.h] and
    [src/src/dfc_common.c].

    Constants keep the names of the header. [Module Rules] holds the validators
    the codecs, command builders and emulator share; [Module Crc] the two
    checksums; [Module Frames] the frame builders; [Module Session] the
    session-key derivation. *)

From S2P Require Import Prelude.
From Stdlib Require String.
Import Stdlib.Strings.String.StringSyntax.
#[local] Open Scope string_scope.
#[local] Open Scope list_scope.
#[local] Open Scope Z_scope.

(** ** Constants of [dfc_common.h] *)

Definition DFC_CMD_AUTHENTICATE_LEGACY : Z := 0x0A.
Definition DFC_CMD_AUTHENTICATE_ISO : Z := 0x1A.
Definition DFC_CMD_AUTHENTICATE_AES : Z := 0xAA.
Definition DFC_AUTH_COMMAND_D40 : Z := 1.
Definition DFC_AUTH_COMMAND_ISO_NATIVE : Z := 2.
Definition DFC_AUTH_COMMAND_AES : Z := 4.
Definition DFC_AUTH_COMMAND_EV2_FIRST : Z := 8.
Definition DFC_AUTH_COMMAND_EV2_NON_FIRST : Z := 16.
Definition DFC_AUTH_COMMAND_ISO7816 : Z := 32.
Definition DFC_CMD_GET_VERSION : Z := 0x60.
Definition DFC_CMD_SELECT_APPLICATION : Z := 0x5A.
Definition DFC_CMD_READ_DATA : Z := 0xBD.
Definition DFC_CMD_READ_DATA_ISO : Z := 0xAD.
Definition DFC_CMD_WRITE_DATA : Z := 0x3D.
Definition DFC_CMD_WRITE_DATA_ISO : Z := 0x8D.
Definition DFC_CMD_WRITE_RECORD : Z := 0x3B.
Definition DFC_CMD_WRITE_RECORD_ISO : Z := 0x8B.
Definition DFC_CMD_READ_RECORDS : Z := 0xBB.
Definition DFC_CMD_READ_RECORDS_ISO : Z := 0xAB.
Definition DFC_CMD_UPDATE_RECORD : Z := 0xDB.
Definition DFC_CMD_UPDATE_RECORD_ISO : Z := 0xBA.
Definition DFC_ISO7816_CLA_WRAPPER : Z := 0x90.

Definition DFC_ACCESS_FREE : Z := 0x0E.
Definition DFC_ACCESS_DENY : Z := 0x0F.

Definition DFC_KEY_TYPE_DES_2K3DES : Z := 0x00.
Definition DFC_KEY_TYPE_3K3DES : Z := 0x40.
Definition DFC_KEY_TYPE_AES : Z := 0x80.
Definition DFC_KEY_TYPE_MASK : Z := 0xC0.
Definition DFC_NUM_KEYS_MASK : Z := 0x0F.
Definition DFC_KEY_SET_TYPE_2K3DES : Z := 0x00.
Definition DFC_KEY_SET_TYPE_3K3DES : Z := 0x01.
Definition DFC_KEY_SET_TYPE_AES : Z := 0x02.
Definition DFC_KEY_SET_MAXIMUM_16_BYTE : Z := 0x10.
Definition DFC_KEY_SET_MAXIMUM_24_BYTE : Z := 0x18.

Definition DFC_COMM_MODE_MASK : Z := 0x03.
Definition DFC_FILE_OPTION_ADDITIONAL_RIGHTS : Z := 0x80.
Definition DFC_SDM_ENABLED_MASK : Z := 0x40.
Definition DFC_TRANSACTION_MAC_KEY_TYPE_AES : Z := 0x02.

Definition DFC_DESFIRE_UID_LEN : Z := 7.
Definition DFC_DESFIRE_UID_MAX_LENGTH : Z := 10.
Definition DFC_DESFIRE_UID_SHORT_LEN : Z := 4.
Definition DFC_DESFIRE_UID_LONG_LEN : Z := 10.
Definition DFC_DESFIRE_UID_FIRST_BYTE : Z := 0x04.
Definition DFC_WIRE_MAC_LENGTH : Z := 8.
Definition DFC_AES_CMAC_LENGTH : Z := 16.
Definition DFC_AES_KEY_LENGTH : Z := 16.

#[export] Hint Unfold DFC_CMD_AUTHENTICATE_LEGACY DFC_CMD_AUTHENTICATE_ISO
  DFC_CMD_AUTHENTICATE_AES DFC_ACCESS_FREE DFC_ACCESS_DENY DFC_KEY_TYPE_DES_2K3DES
  DFC_KEY_TYPE_3K3DES DFC_KEY_TYPE_AES DFC_KEY_TYPE_MASK DFC_NUM_KEYS_MASK
  DFC_KEY_SET_TYPE_2K3DES DFC_KEY_SET_TYPE_3K3DES DFC_KEY_SET_TYPE_AES
  DFC_KEY_SET_MAXIMUM_16_BYTE DFC_KEY_SET_MAXIMUM_24_BYTE DFC_COMM_MODE_MASK
  DFC_FILE_OPTION_ADDITIONAL_RIGHTS DFC_SDM_ENABLED_MASK DFC_DESFIRE_UID_LEN
  DFC_DESFIRE_UID_MAX_LENGTH DFC_DESFIRE_UID_SHORT_LEN DFC_DESFIRE_UID_LONG_LEN
  DFC_WIRE_MAC_LENGTH DFC_AES_CMAC_LENGTH DFC_AES_KEY_LENGTH : dfc_const.

Module Rules.

(** ** Command classification *)

Definition dfc_file_command_base (command : Z) : Z :=
  if command =? DFC_CMD_READ_DATA_ISO then DFC_CMD_READ_DATA
  else if command =? DFC_CMD_WRITE_DATA_ISO then DFC_CMD_WRITE_DATA
  else if command =? DFC_CMD_READ_RECORDS_ISO then DFC_CMD_READ_RECORDS
  else if command =? DFC_CMD_WRITE_RECORD_ISO then DFC_CMD_WRITE_RECORD
  else if command =? DFC_CMD_UPDATE_RECORD_ISO then DFC_CMD_UPDATE_RECORD
  else command.

Definition dfc_command_uses_iso_dep_request_chaining (command : Z) : bool :=
  (command =? DFC_CMD_WRITE_DATA_ISO) || (command =? DFC_CMD_WRITE_RECORD_ISO) ||
  (command =? DFC_CMD_UPDATE_RECORD_ISO).

Definition dfc_command_uses_iso_dep_response_chaining (command : Z) : bool :=
  (command =? DFC_CMD_READ_DATA_ISO) || (command =? DFC_CMD_READ_RECORDS_ISO).

(** ** Validators *)

Definition dfc_uid_length_is_valid (length : Z) : bool :=
  (length =? DFC_DESFIRE_UID_SHORT_LEN) || (length =? DFC_DESFIRE_UID_LEN) ||
  (length =? DFC_DESFIRE_UID_LONG_LEN).

Definition dfc_iso_file_id_is_reserved (value : Z) : bool :=
  (value =? 0x0000) || (value =? 0x3F00) || (value =? 0x3FFF) || (value =? 0xFFFF).

(** The build enables secure dynamic messaging, so bit 6 is a legal flag. The
    complement is taken on [int] and cast to an octet. *)
Definition dfc_communication_settings_is_valid (value : Z) : bool :=
  let flags := Z.lor DFC_FILE_OPTION_ADDITIONAL_RIGHTS DFC_SDM_ENABLED_MASK in
  Z.land value (u8 (Z.lnot (Z.lor flags DFC_COMM_MODE_MASK))) =? 0.

Definition access_nibble_is_valid (value key_count : Z) : bool :=
  (DFC_ACCESS_FREE <=? value) || (value <? key_count).

Definition dfc_access_nibble (access_rights shift : Z) : Z :=
  u8 (Z.land (Z.shiftr access_rights shift) 0x0F).

(** [for(shift = 0; shift < 16; shift += 4)]: the four iterations in order. *)
Definition dfc_access_rights_are_valid (rights key_count : Z) : bool :=
  forallb (fun shift => access_nibble_is_valid (Z.land (u8 (Z.shiftr rights shift)) 0x0F) key_count)
    [0; 4; 8; 12].

Definition dfc_transaction_mac_access_rights_are_valid (rights key_count : Z) : bool :=
  dfc_access_rights_are_valid rights key_count &&
  (dfc_access_nibble rights 8 =? DFC_ACCESS_DENY).

Definition dfc_sdm_access_rights_are_valid (rights key_count : Z) : bool :=
  let meta_read := u8 (Z.shiftr rights 12) in
  let file_read := dfc_access_nibble rights 8 in
  let reserved := dfc_access_nibble rights 4 in
  let counter_read := Z.land (u8 rights) 0x0F in
  access_nibble_is_valid meta_read key_count && access_nibble_is_valid file_read key_count &&
  (reserved =? DFC_ACCESS_DENY) && access_nibble_is_valid counter_read key_count.

Definition dfc_transaction_mac_key_type_is_valid (value : Z) : bool :=
  value =? DFC_TRANSACTION_MAC_KEY_TYPE_AES.

Definition dfc_key_set_type_length (type : Z) : Z :=
  if type =? DFC_KEY_SET_TYPE_3K3DES then DFC_KEY_SET_MAXIMUM_24_BYTE
  else if (type =? DFC_KEY_SET_TYPE_2K3DES) || (type =? DFC_KEY_SET_TYPE_AES)
  then DFC_KEY_SET_MAXIMUM_16_BYTE
  else 0.

Definition dfc_key_type_for_set_type (type : Z) : Z :=
  if type =? DFC_KEY_SET_TYPE_3K3DES then DFC_KEY_TYPE_3K3DES
  else if type =? DFC_KEY_SET_TYPE_AES then DFC_KEY_TYPE_AES
  else DFC_KEY_TYPE_DES_2K3DES.

(** ** Constant-time comparison: the difference accumulates over every octet. *)

Fixpoint ct_difference (difference : Z) (left right : bytes) (length : nat) {struct length} : Z :=
  match length, left, right with
  | S n, l :: left', r :: right' =>
      ct_difference (u8 (Z.lor difference (Z.lxor l r))) left' right' n
  | _, _, _ => difference
  end.

Definition dfc_ct_equal (left right : bytes) (length : Z) : bool :=
  ct_difference 0 left right (Z.to_nat length) =? 0.

Definition dfc_truncate_aes_wire_mac (full : bytes) : bytes :=
  map (fun i => full.[i * 2 + 1]) (seqZ 0 DFC_WIRE_MAC_LENGTH).

Definition dfc_secure_wipe (buffer : bytes) : bytes := map (fun _ => 0) buffer.

(** ** Authentication modes and identifiers *)

Definition dfc_key_len_for_cipher (cipher : Z) : Z :=
  if cipher =? DFC_CMD_AUTHENTICATE_AES then 16 else 8.

Definition dfc_block_size_for_cipher (cipher : Z) : Z :=
  if cipher =? DFC_CMD_AUTHENTICATE_AES then 16 else 8.

Definition dfc_desfire_uid_is_detectable (uid : bytes) (uid_len : Z) : bool :=
  ((uid_len =? DFC_DESFIRE_UID_LEN) || (uid_len =? DFC_DESFIRE_UID_MAX_LENGTH)) &&
  (uid.[0] =? DFC_DESFIRE_UID_FIRST_BYTE).

Definition dfc_authentication_mode_to_string (auth_command : Z) : String.string :=
  if auth_command =? DFC_CMD_AUTHENTICATE_LEGACY then "D40"
  else if auth_command =? DFC_CMD_AUTHENTICATE_ISO then "ISO"
  else if auth_command =? DFC_CMD_AUTHENTICATE_AES then "AES"
  else "D40".

Definition dfc_authentication_mode_from_string (value : String.string) : option Z :=
  if String.eqb value "D40" || String.eqb value "Legacy" ||
     String.eqb value "NativeD40" || String.eqb value "Native-D40"
  then Some DFC_CMD_AUTHENTICATE_LEGACY
  else if String.eqb value "ISO" then Some DFC_CMD_AUTHENTICATE_ISO
  else if String.eqb value "AES" then Some DFC_CMD_AUTHENTICATE_AES
  else None.

Definition dfc_authentication_mode_matches_key_settings (auth_command key_settings_2 : Z) : bool :=
  let key_type := Z.land key_settings_2 DFC_KEY_TYPE_MASK in
  if key_type =? DFC_KEY_TYPE_AES then auth_command =? DFC_CMD_AUTHENTICATE_AES
  else if key_type =? DFC_KEY_TYPE_3K3DES then auth_command =? DFC_CMD_AUTHENTICATE_ISO
  else (auth_command =? DFC_CMD_AUTHENTICATE_LEGACY) || (auth_command =? DFC_CMD_AUTHENTICATE_ISO).

End Rules.

Module Crc.

(** One octet of [dfc_crc16_iso14443_extend]. *)
Definition crc16_octet (crc octet : Z) : Z :=
  let byte := u8 (Z.lxor octet (Z.land crc 0xFF)) in
  let byte := u8 (Z.lxor byte (Z.shiftl byte 4)) in
  u16 (Z.lxor (Z.lxor (Z.lxor (Z.shiftr crc 8) (Z.shiftl byte 8)) (Z.shiftl byte 3))
         (Z.shiftr byte 4)).

Definition dfc_crc16_iso14443_extend (crc : Z) (data : bytes) : Z :=
  fold_left crc16_octet data crc.

Definition dfc_crc16_iso14443 (data : bytes) : Z := dfc_crc16_iso14443_extend 0x6363 data.

(** One pass of the inner loop of [dfc_crc32_extend]. *)
Definition crc32_bit (crc : Z) : Z :=
  let mask := u32 (0 - Z.land crc 1) in
  Z.lxor (Z.shiftr crc 1) (Z.land 0xEDB88320 mask).

Definition crc32_octet (crc octet : Z) : Z := Nat.iter 8 crc32_bit (Z.lxor crc octet).

Definition dfc_crc32_extend (crc : Z) (data : bytes) : Z := fold_left crc32_octet data crc.

Definition dfc_crc32 (data : bytes) : Z := dfc_crc32_extend 0xFFFFFFFF data.

End Crc.

Module Frames.

(** [dfc_write_uint32_le], and the three octets the frame builders write. *)
Definition dfc_write_uint32_le (value : Z) : bytes :=
  [u8 value; u8 (Z.shiftr value 8); u8 (Z.shiftr value 16); u8 (Z.shiftr value 24)].

Definition dfc_encode_standard_data_file_settings
    (file_type communication_settings access_rights file_size : Z) : bytes :=
  [ file_type; communication_settings;
    u8 (Z.land access_rights 0xFF); u8 (Z.shiftr access_rights 8);
    u8 (Z.land file_size 0xFF); u8 (Z.land (Z.shiftr file_size 8) 0xFF);
    u8 (Z.land (Z.shiftr file_size 16) 0xFF) ].

Definition dfc_build_select_application_frame (aid : bytes) : bytes :=
  [DFC_CMD_SELECT_APPLICATION; aid.[2]; aid.[1]; aid.[0]].

Definition dfc_build_read_data_frame (file_number offset length : Z) : bytes :=
  [ DFC_CMD_READ_DATA; file_number;
    u8 (Z.land offset 0xFF); u8 (Z.land (Z.shiftr offset 8) 0xFF);
    u8 (Z.land (Z.shiftr offset 16) 0xFF);
    u8 (Z.land length 0xFF); u8 (Z.land (Z.shiftr length 8) 0xFF);
    u8 (Z.land (Z.shiftr length 16) 0xFF) ].

Definition dfc_build_wrapped_get_version_frame : bytes :=
  [DFC_ISO7816_CLA_WRAPPER; DFC_CMD_GET_VERSION; 0x00; 0x00; 0x00].

(** The response buffer is not read, only filled from its start. *)
Definition dfc_wrap_native_response_as_iso7816
    (native_response : bytes) (prefix_len output_capacity : Z) : option bytes :=
  if zlen native_response <=? prefix_len then None else
  let native_status := native_response.[prefix_len] in
  let native_data_len := zlen native_response - prefix_len - 1 in
  let required_len := prefix_len + native_data_len + 2 in
  if output_capacity <? required_len then None else
  let prefix := if 0 <? prefix_len then slice native_response 0 prefix_len else [] in
  let data := if 0 <? native_data_len
              then slice native_response (prefix_len + 1) native_data_len else [] in
  Some (prefix ++ data ++ [0x91; native_status]).

Definition dfc_rotate_left (buffer : bytes) : bytes :=
  if zlen buffer =? 0 then buffer else
  let first := buffer.[0] in
  let moved := memmove buffer 0 1 (zlen buffer - 1) in
  moved.[zlen buffer - 1 := first].

End Frames.

Module Session.

(** [key] is [None] for a NULL key pointer. *)
Definition dfc_key_is_degenerate_des (key : option bytes) (key_len : Z) : bool :=
  match key with
  | None => false
  | Some k => (key_len =? 16) && bytes_eqb (slice k 0 8) (slice k 8 8)
  end.

(** Returns the octets written to [session_key]; their count is [out_len]. *)
Definition dfc_derive_session_key
    (cipher : Z) (key : option bytes) (key_len : Z) (rnd_a rnd_b : bytes) : bytes :=
  if cipher =? DFC_CMD_AUTHENTICATE_AES then
    slice rnd_a 0 4 ++ slice rnd_b 0 4 ++ slice rnd_a 12 4 ++ slice rnd_b 12 4
  else if key_len =? 24 then
    slice rnd_a 0 4 ++ slice rnd_b 0 4 ++ slice rnd_a 6 4 ++ slice rnd_b 6 4 ++
    slice rnd_a 12 4 ++ slice rnd_b 12 4
  else if (key_len =? 16) && negb (dfc_key_is_degenerate_des key key_len) then
    slice rnd_a 0 4 ++ slice rnd_b 0 4 ++ slice rnd_a 4 4 ++ slice rnd_b 4 4
  else
    slice rnd_a 0 4 ++ slice rnd_b 0 4.

End Session.

(** ** Checksums *)

Section CrcFacts.
Import Crc.

(** The bit-serial CRC_A register of ISO/IEC 14443-3 (reflected polynomial
    [x^16 + x^12 + x^5 + 1]), the reference the nibble trick is compared with. *)
Definition crc16_reference_bit (crc : Z) : Z :=
  if Z.odd crc then Z.lxor (Z.shiftr crc 1) 0x8408 else Z.shiftr crc 1.

Definition crc16_reference_octet (crc octet : Z) : Z :=
  Nat.iter 8 crc16_reference_bit (Z.lxor crc octet).

(** The high octet of the register is shifted down unchanged, so the two
    registers only need comparing on the 256 low octets. *)
Lemma crc16_reference_bits_high n h l :
  Nat.iter n crc16_reference_bit (Z.lxor (Z.shiftl h (Z.of_nat n)) l) =
  Z.lxor h (Nat.iter n crc16_reference_bit l).
Proof.
  revert l. induction n as [|n IH]; intros l; [by rewrite Z.shiftl_0_r|].
  rewrite !Nat.iter_succ_r, <- IH. f_equal. unfold crc16_reference_bit.
  assert (Ho : Z.odd (Z.lxor (Z.shiftl h (Z.of_nat (S n))) l) = Z.odd l).
  { rewrite <- !Z.bit0_odd, Z.lxor_spec, Z.shiftl_spec_low by lia. apply xorb_false_l. }
  assert (Hs : Z.shiftr (Z.lxor (Z.shiftl h (Z.of_nat (S n))) l) 1 =
               Z.lxor (Z.shiftl h (Z.of_nat n)) (Z.shiftr l 1)).
  { rewrite Z.shiftr_lxor. f_equal. rewrite Z.shiftr_shiftl_l by lia. f_equal. lia. }
  rewrite Ho, Hs. destruct (Z.odd l); [apply Z.lxor_assoc | done].
Qed.

Lemma crc16_octet_high h l :
  0 <= h < 2 ^ 8 -> byte_ok l ->
  crc16_octet (Z.lxor (Z.shiftl h 8) l) 0 = Z.lxor h (crc16_octet l 0).
Proof.
  intros Hh Hl. unfold crc16_octet.
  assert (Hlow : Z.land (Z.lxor (Z.shiftl h 8) l) 0xFF = Z.land l 0xFF).
  { change 0xFF with (Z.ones 8). apply Z.bits_inj'. intros i Hi.
    rewrite !Z.land_spec, Z.lxor_spec. destruct (Z.lt_ge_cases i 8).
    - rewrite Z.shiftl_spec_low by lia. by rewrite xorb_false_l.
    - by rewrite Z.ones_spec_high, !andb_false_r by lia. }
  rewrite Hlow, Z.shiftr_lxor, (Z.shiftr_shiftl_l h), Z.shiftl_0_r by lia.
  unfold u16. rewrite <- !Z.land_ones by lia.
  apply Z.bits_inj'. intros i Hi. rewrite !Z.land_spec, !Z.lxor_spec, !Z.land_spec.
  destruct (Z.lt_ge_cases i 16).
  - rewrite Z.ones_spec_low, !Z.lxor_spec by lia. by rewrite !andb_true_r, !xorb_assoc.
  - rewrite Z.ones_spec_high by lia. by rewrite !andb_false_r, (testbit_high 8 h) by (done || lia).
Qed.

Lemma crc16_agrees_low :
  forallb (fun l => crc16_octet l 0 =? crc16_reference_octet l 0) (seqZ 0 256) = true.
Proof. vm_compute. reflexivity. Qed.

Lemma crc16_octet_zero crc :
  0 <= crc < 2 ^ 16 -> crc16_octet crc 0 = crc16_reference_octet crc 0.
Proof.
  intros H. pose proof (Z.mod_pos_bound crc 256 ltac:(lia)) as Hl.
  assert (Hh : 0 <= crc / 256 < 2 ^ 8).
  { split; [apply Z.div_pos; lia | apply Z.div_lt_upper_bound; lia]. }
  assert (Hx : crc = Z.lxor (Z.shiftl (crc / 256) 8) (crc mod 256)).
  { rewrite (Z.div_mod crc 256) at 1 by lia. rewrite Z.mul_comm.
    rewrite Z.add_nocarry_lxor; [by rewrite Z.shiftl_mul_pow2 by lia|].
    change 256 with (2 ^ 8). rewrite <- Z.shiftl_mul_pow2, <- (Z.land_ones crc) by lia.
    apply Z.bits_inj'. intros i Hi. rewrite !Z.land_spec, Z.testbit_0_l.
    destruct (Z.lt_ge_cases i 8).
    - by rewrite Z.shiftl_spec_low by lia.
    - by rewrite Z.ones_spec_high, !andb_false_r by lia. }
  pose proof crc16_agrees_low as Hall. rewrite forallb_forall in Hall.
  specialize (Hall (crc mod 256)). rewrite Z.eqb_eq, <- list_elem_of_In in Hall.
  unfold crc16_reference_octet in *. rewrite Z.lxor_0_r in *. rewrite Hx at 1 2.
  rewrite crc16_octet_high by dlia.
  rewrite (crc16_reference_bits_high 8). rewrite Hall; [done|]. apply elem_of_seqZ. lia.
Qed.

(** An input octet only enters the register by exclusive or. *)
Lemma crc16_octet_absorb crc octet :
  0 <= crc -> byte_ok octet -> crc16_octet crc octet = crc16_octet (Z.lxor crc octet) 0.
Proof.
  intros Hc Hb. unfold crc16_octet.
  assert (Hs : Z.shiftr (Z.lxor crc octet) 8 = Z.shiftr crc 8).
  { rewrite Z.shiftr_lxor, (Z.shiftr_div_pow2 octet), Z.div_small by dlia. apply Z.lxor_0_r. }
  assert (Hl : Z.land (Z.lxor crc octet) 0xFF = Z.lxor octet (Z.land crc 0xFF)).
  { change 0xFF with (Z.ones 8). apply Z.bits_inj'. intros i Hi.
    rewrite Z.land_spec, !Z.lxor_spec, Z.land_spec.
    destruct (Z.lt_ge_cases i 8).
    - rewrite Z.ones_spec_low by lia. rewrite !andb_true_r. apply xorb_comm.
    - rewrite Z.ones_spec_high by lia. rewrite (testbit_high 8 octet) by (done || lia).
      by rewrite !andb_false_r. }
  by rewrite Hs, Hl, Z.lxor_0_l.
Qed.

Lemma crc16_octet_range crc octet : 0 <= crc16_octet crc octet < 2 ^ 16.
Proof. unfold crc16_octet, u16. apply Z.mod_pos_bound. lia. Qed.

Lemma crc16_extend_range crc data :
  0 <= crc < 2 ^ 16 -> 0 <= dfc_crc16_iso14443_extend crc data < 2 ^ 16.
Proof.
  intros Hc. apply (fold_left_inv (fun c => 0 <= c < 2 ^ 16) (fun _ => True)); [|by apply Forall_true|done].
  intros. apply crc16_octet_range.
Qed.

Lemma crc16_octet_reference crc octet :
  0 <= crc < 2 ^ 16 -> byte_ok octet -> crc16_octet crc octet = crc16_reference_octet crc octet.
Proof.
  intros Hc Hb. rewrite crc16_octet_absorb by (done || lia).
  rewrite crc16_octet_zero by (apply lxor_bounded; dlia).
  unfold crc16_reference_octet. by rewrite Z.lxor_0_r.
Qed.

#[local] Strategy 200 [crc32_bit crc16_reference_bit].

Lemma crc32_bit_even crc : Z.even crc = true -> crc32_bit crc = Z.shiftr crc 1.
Proof.
  intros He. unfold crc32_bit.
  replace (Z.land crc 1) with (crc mod 2) by (symmetry; apply (Z.land_ones crc 1); lia).
  rewrite Zeven_mod in He. apply Z.eqb_eq in He. rewrite He. change (u32 (0 - 0)) with 0.
  by rewrite Z.land_0_r, Z.lxor_0_r.
Qed.

Lemma crc32_bits_shift n crc :
  0 <= crc -> crc mod 2 ^ Z.of_nat n = 0 -> Nat.iter n crc32_bit crc = Z.shiftr crc (Z.of_nat n).
Proof.
  revert crc. induction n as [|n IH]; intros crc H0 Hm; [by rewrite Z.shiftr_0_r|].
  rewrite Nat.iter_succ_r.
  rewrite Nat2Z.inj_succ, Z.pow_succ_r in Hm by lia.
  assert (He : Z.even crc = true).
  { rewrite Zeven_mod. apply Z.eqb_eq.
    apply Z.mod_divide in Hm; [|lia]. destruct Hm as [k ->].
    rewrite Z.mul_comm, <- Z.mul_assoc, Z.mul_comm. apply Z.mod_mul. lia. }
  rewrite crc32_bit_even by done. rewrite IH.
  - rewrite Z.shiftr_shiftr by lia. f_equal. lia.
  - by apply Z.shiftr_nonneg.
  - rewrite Z.shiftr_div_pow2 by lia. change (2 ^ 1) with 2.
    apply Z.mod_divide in Hm; [|lia]. destruct Hm as [k ->].
    replace (k * (2 * 2 ^ Z.of_nat n)) with (k * 2 ^ Z.of_nat n * 2) by ring.
    rewrite Z.div_mul by lia. apply Z.mod_mul. lia.
Qed.

(** Absorbing the register's own low octet shifts it out. *)
Lemma crc32_octet_self crc : 0 <= crc -> crc32_octet crc (u8 crc) = Z.shiftr crc 8.
Proof.
  intros H. unfold crc32_octet.
  assert (Hx : Z.lxor crc (u8 crc) = Z.shiftl (Z.shiftr crc 8) 8).
  { unfold u8. rewrite <- Z.land_ones by lia. apply Z.bits_inj'. intros i Hi.
    rewrite Z.lxor_spec, Z.land_spec.
    destruct (Z.lt_ge_cases i 8).
    - rewrite Z.ones_spec_low, Z.shiftl_spec_low by lia. rewrite andb_true_r. apply xorb_nilpotent.
    - rewrite Z.ones_spec_high, Z.shiftl_spec, Z.shiftr_spec by lia.
      rewrite andb_false_r, xorb_false_r. f_equal. lia. }
  rewrite Hx, crc32_bits_shift.
  - change (Z.of_nat 8) with 8. rewrite Z.shiftr_shiftl_l by lia. apply Z.shiftl_0_r.
  - apply Z.shiftl_nonneg, Z.shiftr_nonneg. done.
  - change (Z.of_nat 8) with 8. rewrite Z.shiftl_mul_pow2 by lia. apply Z.mod_mul. lia.
Qed.

Lemma crc16_octet_self crc : 0 <= crc < 2 ^ 16 -> crc16_octet crc (u8 crc) = Z.shiftr crc 8.
Proof.
  intros H. unfold crc16_octet. change 0xFF with (Z.ones 8). rewrite Z.land_ones by lia.
  unfold u8 at 2. rewrite Z.lxor_nilpotent.
  change (u8 (Z.lxor (u8 0) (Z.shiftl (u8 0) 4))) with 0.
  rewrite !Z.shiftl_0_l, Z.shiftr_0_l, !Z.lxor_0_r. unfold u16. apply Z.mod_small.
  rewrite Z.shiftr_div_pow2 by lia. split; [apply Z.div_pos; lia|].
  apply Z.div_lt_upper_bound; lia.
Qed.

Lemma crc32_bit_range crc : 0 <= crc < 2 ^ 32 -> 0 <= crc32_bit crc < 2 ^ 32.
Proof.
  intros H. unfold crc32_bit. apply lxor_bounded; [lia| |].
  - rewrite Z.shiftr_div_pow2 by lia. split; [apply Z.div_pos; lia|].
    apply Z.div_lt_upper_bound; lia.
  - rewrite Z.land_comm. apply land_bounded; [lia| apply u32_range | lia].
Qed.

Lemma crc32_bits_range n crc :
  0 <= crc < 2 ^ 32 -> 0 <= Nat.iter n crc32_bit crc < 2 ^ 32.
Proof. intros H. induction n; simpl; [done|]. by apply crc32_bit_range. Qed.

Lemma crc32_octet_range crc octet :
  0 <= crc < 2 ^ 32 -> byte_ok octet -> 0 <= crc32_octet crc octet < 2 ^ 32.
Proof.
  intros Hc Hb. unfold crc32_octet. apply crc32_bits_range, lxor_bounded; dlia.
Qed.

Lemma crc32_extend_range crc data :
  0 <= crc < 2 ^ 32 -> bytes_ok data -> 0 <= dfc_crc32_extend crc data < 2 ^ 32.
Proof.
  intros Hc Hd. apply (fold_left_inv (fun c => 0 <= c < 2 ^ 32) byte_ok); [|done..].
  apply crc32_octet_range.
Qed.
End CrcFacts.

(** C1: the nibble-at-a-time CRC_A update of [dfc_crc16_iso14443_extend] computes
    the same register as the bit-serial CRC of ISO/IEC 14443-3, for every 16-bit
    starting value and every octet string. *)
Theorem crc16_equals_bit_serial (crc : Z) (data : bytes)
    (Hcrc : 0 <= crc < 2 ^ 16) (Hdata : bytes_ok data) :
  Crc.dfc_crc16_iso14443_extend crc data = fold_left crc16_reference_octet data crc.
Proof.
  revert crc Hcrc. induction Hdata as [|b data Hb Hd IH]; intros crc Hcrc; simpl; [done|].
  rewrite crc16_octet_reference by done. apply IH.
  rewrite <- crc16_octet_reference by done. apply crc16_octet_range.
Qed.

Lemma crc16_equals_bit_serial_witness :
  Crc.dfc_crc16_iso14443_extend 0x6363 [0x12; 0x34] =
  fold_left crc16_reference_octet [0x12; 0x34] 0x6363.
Proof.
  apply (crc16_equals_bit_serial 0x6363 [0x12; 0x34]); [lia|].
  repeat constructor; lia.
Defined.

(** C2: both checksums are self-cancelling: appending the checksum of a message to
    it, least significant octet first, drives the register to zero whatever the
    starting value, which is what makes a receiver's check over data and CRC
    equivalent to comparing the two. *)
Theorem crc_residue_zero (crc16 crc32 : Z) (data : bytes)
    (H16 : 0 <= crc16 < 2 ^ 16) (H32 : 0 <= crc32 < 2 ^ 32) (Hdata : bytes_ok data) :
  (let c := Crc.dfc_crc16_iso14443_extend crc16 data in
   Crc.dfc_crc16_iso14443_extend crc16 (data ++ [u8 c; u8 (Z.shiftr c 8)]) = 0) /\
  (let c := Crc.dfc_crc32_extend crc32 data in
   Crc.dfc_crc32_extend crc32 (data ++ Frames.dfc_write_uint32_le c) = 0).
Proof.
  split; cbv zeta.
  - pose proof (crc16_extend_range crc16 data H16) as Hr.
    unfold Crc.dfc_crc16_iso14443_extend at 1. rewrite fold_left_app.
    fold (Crc.dfc_crc16_iso14443_extend crc16 data).
    set (c := Crc.dfc_crc16_iso14443_extend crc16 data) in *. cbn [fold_left].
    assert (Hs : 0 <= Z.shiftr c 8 < 2 ^ 8) by (apply (shiftr_range 16 8); lia).
    rewrite crc16_octet_self by done. rewrite crc16_octet_self by lia. apply (shiftr_all 8); lia.
  - pose proof (crc32_extend_range crc32 data H32 Hdata) as Hr.
    unfold Crc.dfc_crc32_extend at 1. rewrite fold_left_app.
    fold (Crc.dfc_crc32_extend crc32 data).
    set (c := Crc.dfc_crc32_extend crc32 data) in *. cbn [fold_left Frames.dfc_write_uint32_le].
    assert (Hn : forall k, 0 <= Z.shiftr c k) by (intros; apply Z.shiftr_nonneg; lia).
    rewrite crc32_octet_self by lia.
    repeat (rewrite crc32_octet_self by auto; rewrite ?Z.shiftr_shiftr by lia).
    apply (shiftr_all 32); lia.
Qed.

Lemma crc_residue_zero_witness :
  (let c := Crc.dfc_crc16_iso14443_extend 0x6363 [1; 2; 3] in
   Crc.dfc_crc16_iso14443_extend 0x6363 ([1; 2; 3] ++ [u8 c; u8 (Z.shiftr c 8)]) = 0) /\
  (let c := Crc.dfc_crc32_extend 0xFFFFFFFF [1; 2; 3] in
   Crc.dfc_crc32_extend 0xFFFFFFFF ([1; 2; 3] ++ Frames.dfc_write_uint32_le c) = 0).
Proof.
  apply (crc_residue_zero 0x6363 0xFFFFFFFF [1; 2; 3]); [lia | lia |].
  repeat constructor; lia.
Defined.

(** ** Constant-time comparison *)

Lemma ct_difference_zero n d l r :
  byte_ok d -> bytes_ok l -> bytes_ok r -> (n <= length l)%nat -> (n <= length r)%nat ->
  Rules.ct_difference d l r n = 0 <-> d = 0 /\ take n l = take n r.
Proof.
  revert d l r. induction n as [|n IH]; intros d l r Hd Hl Hr Hll Hlr; simpl.
  { rewrite !take_0. split; [intros ->; done | by intros [-> _]]. }
  destruct Hl as [|x l Hx Hl], Hr as [|y r Hy Hr]; simpl in *; try lia.
  assert (Hor : byte_ok (Z.lor d (Z.lxor x y))).
  { apply lor_bounded; [lia|done|]. by apply lxor_bounded. }
  rewrite u8_id by done. rewrite IH by (done || lia).
  rewrite Z.lor_eq_0_iff, lxor_eq_0.
  split; [by intros [[-> ->] ->] | by intros [-> [= -> ->]]].
Qed.

(** C3: [dfc_ct_equal] answers true exactly when the two buffers agree on their
    first [length] octets: accumulating differences loses none and invents none. *)
Theorem dfc_ct_equal_iff (left right : bytes) (n : Z)
    (Hl : bytes_ok left) (Hr : bytes_ok right) (Hn : 0 <= n <= zlen left) (Hm : n <= zlen right) :
  Rules.dfc_ct_equal left right n = true <-> slice left 0 n = slice right 0 n.
Proof.
  unfold Rules.dfc_ct_equal. rewrite Z.eqb_eq.
  rewrite ct_difference_zero by (done || unfold zlen in *; dlia).
  unfold slice. rewrite !drop_0. tauto.
Qed.

Lemma dfc_ct_equal_iff_witness :
  Rules.dfc_ct_equal [7; 8; 9] [7; 8; 200] 2 = true <->
  slice [7; 8; 9] 0 2 = slice [7; 8; 200] 0 2.
Proof.
  apply (dfc_ct_equal_iff [7; 8; 9] [7; 8; 200] 2); [repeat constructor; lia | repeat constructor; lia | |];
    unfold zlen; simpl; lia.
Defined.

(** ** Access rights *)

Lemma access_loop_nibble rights shift :
  0 <= rights < 2 ^ 16 -> 0 <= shift ->
  Z.land (u8 (Z.shiftr rights shift)) 0x0F = Rules.dfc_access_nibble rights shift.
Proof.
  intros Hr Hs. unfold Rules.dfc_access_nibble, u8. change 0x0F with (Z.ones 4).
  rewrite <- !Z.land_ones by lia.
  apply Z.bits_inj'. intros i Hi. rewrite !Z.land_spec.
  destruct (Z.lt_ge_cases i 8).
  - rewrite (Z.ones_spec_low 8) by lia. by rewrite !andb_true_r.
  - rewrite (Z.ones_spec_high 4) by lia. by rewrite !andb_false_r.
Qed.

(** The reading of one access-right nibble: free, denied, or a key the
    application has. *)
Definition nibble_names_access (key_count nibble : Z) : Prop :=
  nibble = DFC_ACCESS_FREE \/ nibble = DFC_ACCESS_DENY \/ 0 <= nibble < key_count.

Lemma dfc_access_nibble_range rights shift : 0 <= Rules.dfc_access_nibble rights shift < 16.
Proof.
  unfold Rules.dfc_access_nibble, u8. change 0x0F with (Z.ones 4). rewrite Z.land_ones by lia.
  pose proof (Z.mod_pos_bound (Z.shiftr rights shift) (2 ^ 4) ltac:(lia)).
  rewrite Z.mod_small; lia.
Qed.

Lemma access_nibble_is_valid_iff v k :
  0 <= v < 16 -> Rules.access_nibble_is_valid v k = true <-> nibble_names_access k v.
Proof.
  intros Hv. unfold Rules.access_nibble_is_valid, nibble_names_access.
  rewrite orb_true_iff, Z.leb_le, Z.ltb_lt. dlia.
Qed.

(** C4: a rights word is accepted exactly when each of the read, write,
    read-and-write and change nibbles is free, denied, or names one of the
    application's keys. *)
Theorem dfc_access_rights_are_valid_iff (rights key_count : Z) (Hr : 0 <= rights < 2 ^ 16) :
  Rules.dfc_access_rights_are_valid rights key_count = true <->
  Forall (fun shift => nibble_names_access key_count (Rules.dfc_access_nibble rights shift))
    [12; 8; 4; 0].
Proof.
  unfold Rules.dfc_access_rights_are_valid. cbn [forallb].
  rewrite !access_loop_nibble, !andb_true_iff by lia.
  rewrite !access_nibble_is_valid_iff by apply dfc_access_nibble_range.
  rewrite !List.Forall_cons_iff.
  assert (Hnil : forall P, Forall P (@nil Z) <-> True) by (split; [done | constructor]).
  rewrite Hnil. tauto.
Qed.

Lemma dfc_access_rights_are_valid_iff_witness :
  Rules.dfc_access_rights_are_valid 0xE2F0 3 = true <->
  Forall (fun shift => nibble_names_access 3 (Rules.dfc_access_nibble 0xE2F0 shift)) [12; 8; 4; 0].
Proof. apply (dfc_access_rights_are_valid_iff 0xE2F0 3). lia. Defined.
