(* ===== verification/Crypto.v ===== *)
(** The block-cipher adapter: [src/src/dfc_crypto_internal.h],
    [src/src/dfc_crypto.c] (mbedTLS backend) and [src/src/dfc_crypto_des_chain.c].

    mbedTLS is not part of the repository: its calls are the fields of the class
    [Mbedtls], one field per library function the adapter calls, each returning
    [None] for a non-zero result. [MbedtlsLaws] states the documented behaviour
    the theorems rely on; [xor_mbedtls] is a concrete instance of both. *)

From S2P Require Import Prelude Common.

Class Mbedtls := {
  mbedtls_aes_context : Type;
  mbedtls_aes_setkey_enc : bytes -> option mbedtls_aes_context;
  mbedtls_aes_setkey_dec : bytes -> option mbedtls_aes_context;
  (** One block, [MBEDTLS_AES_ENCRYPT]. *)
  mbedtls_aes_crypt_ecb : mbedtls_aes_context -> bytes -> option bytes;
  (** Direction, iv and input give the output and the updated iv. *)
  mbedtls_aes_crypt_cbc : mbedtls_aes_context -> bool -> bytes -> bytes -> option (bytes * bytes);
  mbedtls_des_context : Type;
  mbedtls_des_setkey_enc : bytes -> option mbedtls_des_context;
  mbedtls_des_setkey_dec : bytes -> option mbedtls_des_context;
  mbedtls_des_crypt_ecb : mbedtls_des_context -> bytes -> option bytes;
  mbedtls_des_crypt_cbc : mbedtls_des_context -> bool -> bytes -> bytes -> option (bytes * bytes);
  mbedtls_des3_context : Type;
  mbedtls_des3_set2key_enc : bytes -> option mbedtls_des3_context;
  mbedtls_des3_set2key_dec : bytes -> option mbedtls_des3_context;
  mbedtls_des3_set3key_enc : bytes -> option mbedtls_des3_context;
  mbedtls_des3_set3key_dec : bytes -> option mbedtls_des3_context;
  mbedtls_des3_crypt_ecb : mbedtls_des3_context -> bytes -> option bytes;
  mbedtls_des3_crypt_cbc : mbedtls_des3_context -> bool -> bytes -> bytes -> option (bytes * bytes);
}.

Section Adapter.
Context `{Mbedtls}.

(** ** Block contexts of [dfc_crypto_internal.h]

    A zeroed context object is [None]. *)

Record DfcCryptoAesBlock := {
  aes_context : option mbedtls_aes_context;
  aes_initialized : bool;
}.

Definition aes_block_zero : DfcCryptoAesBlock :=
  {| aes_context := None; aes_initialized := false |}.

(** The union of the single and triple DES contexts. *)
Inductive des_context :=
| Des (c : mbedtls_des_context)
| Des3 (c : mbedtls_des3_context).

Record DfcCryptoDesBlock := {
  des_ctx : option des_context;
  des_key_len : Z;
  des_encrypt : bool;
  des_initialized : bool;
}.

Definition des_block_zero : DfcCryptoDesBlock :=
  {| des_ctx := None; des_key_len := 0; des_encrypt := false; des_initialized := false |}.

(** ** AES *)

(** [None] is a refused call. [key] is [None] for a NULL pointer; the first
    [key_len] octets of the buffer are the key. *)
Definition dfc_crypto_aes_block_init (key : option bytes) (key_len : Z)
  : option DfcCryptoAesBlock :=
  match key with
  | None => None
  | Some k =>
      guard! key_len =? 16 else None;
      match mbedtls_aes_setkey_enc (slice k 0 16) with
      | None => None
      | Some c => Some {| aes_context := Some c; aes_initialized := true |}
      end
  end.

Definition dfc_crypto_aes_block_encrypt (block : DfcCryptoAesBlock) (input : bytes)
  : option bytes :=
  guard! aes_initialized block else None;
  c ← aes_context block; mbedtls_aes_crypt_ecb c input.

Definition dfc_crypto_aes_block_clear (block : DfcCryptoAesBlock) : DfcCryptoAesBlock :=
  aes_block_zero.

(** Output and updated iv. *)
Definition dfc_crypto_aes_cbc (encrypt : bool) (key : option bytes) (key_len : Z)
    (iv : option bytes) (input : option bytes) (length : Z) : option (bytes * bytes) :=
  match key, iv with
  | Some k, Some v =>
      guard! (key_len =? 16) && (length mod 16 =? 0) else None;
      match input with
      | None => guard! length =? 0 else None;
          c ← (if encrypt then mbedtls_aes_setkey_enc (slice k 0 16)
               else mbedtls_aes_setkey_dec (slice k 0 16));
          mbedtls_aes_crypt_cbc c encrypt v []
      | Some i =>
          c ← (if encrypt then mbedtls_aes_setkey_enc (slice k 0 16)
               else mbedtls_aes_setkey_dec (slice k 0 16));
          mbedtls_aes_crypt_cbc c encrypt v (slice i 0 length)
      end
  | _, _ => None
  end.

(** ** DES and TDEA *)

Definition dfc_crypto_des_block_init (encrypt : bool) (key : option bytes) (key_len : Z)
  : option DfcCryptoDesBlock :=
  match key with
  | None => None
  | Some k =>
      guard! (key_len =? 8) || (key_len =? 16) || (key_len =? 24) else None;
      let result :=
        if key_len =? 8 then
          Des <$> (if encrypt then mbedtls_des_setkey_enc (slice k 0 8)
                   else mbedtls_des_setkey_dec (slice k 0 8))
        else if key_len =? 24 then
          Des3 <$> (if encrypt then mbedtls_des3_set3key_enc (slice k 0 24)
                    else mbedtls_des3_set3key_dec (slice k 0 24))
        else
          Des3 <$> (if encrypt then mbedtls_des3_set2key_enc (slice k 0 16)
                    else mbedtls_des3_set2key_dec (slice k 0 16)) in
      match result with
      | None => None
      | Some c => Some {| des_ctx := Some c; des_key_len := key_len; des_encrypt := encrypt;
                          des_initialized := true |}
      end
  end.

Definition dfc_crypto_des_block_crypt (block : DfcCryptoDesBlock) (input : bytes)
  : option bytes :=
  guard! des_initialized block else None;
  match des_ctx block with
  | Some (Des c) => mbedtls_des_crypt_ecb c input
  | Some (Des3 c) => mbedtls_des3_crypt_ecb c input
  | None => None
  end.

Definition dfc_crypto_des_block_clear (block : DfcCryptoDesBlock) : DfcCryptoDesBlock :=
  des_block_zero.

(** The tail of [dfc_crypto_des_cbc] once its arguments are accepted. *)
Definition des_cbc_run (encrypt : bool) (key : option bytes) (key_len : Z) (iv data : bytes)
  : option (bytes * bytes) :=
  block ← dfc_crypto_des_block_init encrypt key key_len;
  match des_ctx block with
  | Some (Des c) => mbedtls_des_crypt_cbc c encrypt iv data
  | Some (Des3 c) => mbedtls_des3_crypt_cbc c encrypt iv data
  | None => None
  end.

Definition dfc_crypto_des_cbc (encrypt : bool) (key : option bytes) (key_len : Z)
    (iv : option bytes) (input : option bytes) (length : Z) : option (bytes * bytes) :=
  match key, iv with
  | Some _, Some v =>
      guard! ((key_len =? 8) || (key_len =? 16) || (key_len =? 24)) && (length mod 8 =? 0)
        else None;
      match input with
      | None => guard! length =? 0 else None; des_cbc_run encrypt key key_len v []
      | Some i => des_cbc_run encrypt key key_len v (slice i 0 length)
      end
  | _, _ => None
  end.

Definition dfc_crypto_des_ecb (encrypt : bool) (key : option bytes) (key_len : Z)
    (input : bytes) : option bytes :=
  block ← dfc_crypto_des_block_init encrypt key key_len;
  dfc_crypto_des_block_crypt block input.

(** The worker wrappers of [dfc_common.c]. *)
Definition dfc_worker_aes_cbc_decrypt (key : bytes) (key_len : Z) (iv : bytes) (length : Z)
    (encrypted : bytes) : option (bytes * bytes) :=
  dfc_crypto_aes_cbc false (Some key) key_len (Some iv) (Some encrypted) length.

Definition dfc_worker_aes_cbc_encrypt (key : bytes) (key_len : Z) (iv : bytes) (length : Z)
    (clear : bytes) : option (bytes * bytes) :=
  dfc_crypto_aes_cbc true (Some key) key_len (Some iv) (Some clear) length.

Definition dfc_worker_des_cbc_decrypt (key : bytes) (key_len : Z) (iv : bytes) (length : Z)
    (encrypted : bytes) : option (bytes * bytes) :=
  dfc_crypto_des_cbc false (Some key) key_len (Some iv) (Some encrypted) length.

Definition dfc_worker_des_cbc_encrypt (key : bytes) (key_len : Z) (iv : bytes) (length : Z)
    (clear : bytes) : option (bytes * bytes) :=
  dfc_crypto_des_cbc true (Some key) key_len (Some iv) (Some clear) length.

(** ** The prepared-primitive chain *)

Inductive DfcCryptoDesChainDirection :=
| DfcCryptoDesChainForward
| DfcCryptoDesChainReverse.

(** One pass of the loop: the output block and the next [previous]. *)
Definition des_chain_step (cipher : DfcCryptoDesBlock)
    (direction : DfcCryptoDesChainDirection) (previous input : bytes)
  : option (bytes * bytes) :=
  match direction with
  | DfcCryptoDesChainForward =>
      let block := xor_bytes input previous in
      output ← dfc_crypto_des_block_crypt cipher block;
      Some (output, output)
  | DfcCryptoDesChainReverse =>
      let block := input in
      output ← dfc_crypto_des_block_crypt cipher block;
      Some (xor_bytes output previous, block)
  end.

(** The loop over [n] blocks of the input. *)
Fixpoint des_chain_loop (cipher : DfcCryptoDesBlock) (direction : DfcCryptoDesChainDirection)
    (previous input : bytes) (n : nat) : option bytes :=
  match n with
  | O => Some []
  | S n' =>
      '(output, previous') ← des_chain_step cipher direction previous (take 8 input);
      rest ← des_chain_loop cipher direction previous' (drop 8 input) n';
      Some (output ++ rest)
  end.

(** Success flag and the output buffer: every failure wipes all [length] octets. *)
Definition dfc_crypto_des_chain (primitive_encrypt : bool)
    (direction : DfcCryptoDesChainDirection) (key : option bytes) (key_len : Z)
    (iv input : bytes) (length : Z) : bool * bytes :=
  let run :=
    guard! length mod 8 =? 0 else None;
    cipher ← dfc_crypto_des_block_init primitive_encrypt key key_len;
    des_chain_loop cipher direction iv input (Z.to_nat (length / 8)) in
  match run with
  | Some output => (true, output)
  | None => (false, zeros length)
  end.
End Adapter.

(** ** What the theorems rely on

    A block call keeps the block length and octets, and, under the same key, the
    decryption primitive inverts the encryption primitive and conversely. *)

Class MbedtlsLaws (M : Mbedtls) : Prop := {
  aes_ecb_block : forall c b o, mbedtls_aes_crypt_ecb c b = Some o -> length o = 16%nat;
  des_ecb_block : forall c b o, mbedtls_des_crypt_ecb c b = Some o -> length o = 8%nat;
  des3_ecb_block : forall c b o, mbedtls_des3_crypt_ecb c b = Some o -> length o = 8%nat;
  des_ecb_inverse : forall k ce cd b o, mbedtls_des_setkey_enc k = Some ce ->
    mbedtls_des_setkey_dec k = Some cd -> length b = 8%nat ->
    (mbedtls_des_crypt_ecb ce b = Some o -> mbedtls_des_crypt_ecb cd o = Some b) /\
    (mbedtls_des_crypt_ecb cd b = Some o -> mbedtls_des_crypt_ecb ce o = Some b);
  des3_ecb_inverse2 : forall k ce cd b o, mbedtls_des3_set2key_enc k = Some ce ->
    mbedtls_des3_set2key_dec k = Some cd -> length b = 8%nat ->
    (mbedtls_des3_crypt_ecb ce b = Some o -> mbedtls_des3_crypt_ecb cd o = Some b) /\
    (mbedtls_des3_crypt_ecb cd b = Some o -> mbedtls_des3_crypt_ecb ce o = Some b);
  des3_ecb_inverse3 : forall k ce cd b o, mbedtls_des3_set3key_enc k = Some ce ->
    mbedtls_des3_set3key_dec k = Some cd -> length b = 8%nat ->
    (mbedtls_des3_crypt_ecb ce b = Some o -> mbedtls_des3_crypt_ecb cd o = Some b) /\
    (mbedtls_des3_crypt_ecb cd b = Some o -> mbedtls_des3_crypt_ecb ce o = Some b);
}.

(** A concrete backend: the block is masked with the head of the key, which is its
    own inverse. It instantiates every hypothesis on the library. *)
Definition xor_block (n : nat) (k b : bytes) : option bytes :=
  Some (xor_bytes (take n (b ++ repeat 0 n)) (take n (k ++ repeat 0 n))).

Fixpoint xor_cbc (n : nat) (blocks : nat) (encrypt : bool) (k iv data : bytes) : bytes * bytes :=
  match blocks with
  | O => ([], iv)
  | S m =>
      let p := take n data in
      let o := if encrypt then xor_bytes (xor_bytes p iv) (take n k)
               else xor_bytes (xor_bytes p (take n k)) iv in
      let (rest, iv') := xor_cbc n m encrypt k (if encrypt then o else p) (drop n data) in
      (o ++ rest, iv')
  end.

Instance xor_mbedtls : Mbedtls := {|
  mbedtls_aes_context := bytes;
  mbedtls_aes_setkey_enc k := Some k;
  mbedtls_aes_setkey_dec k := Some k;
  mbedtls_aes_crypt_ecb := xor_block 16;
  mbedtls_aes_crypt_cbc c e iv d := Some (xor_cbc 16 (length d / 16) e c iv d);
  mbedtls_des_context := bytes;
  mbedtls_des_setkey_enc k := Some k;
  mbedtls_des_setkey_dec k := Some k;
  mbedtls_des_crypt_ecb := xor_block 8;
  mbedtls_des_crypt_cbc c e iv d := Some (xor_cbc 8 (length d / 8) e c iv d);
  mbedtls_des3_context := bytes;
  mbedtls_des3_set2key_enc k := Some k;
  mbedtls_des3_set2key_dec k := Some k;
  mbedtls_des3_set3key_enc k := Some k;
  mbedtls_des3_set3key_dec k := Some k;
  mbedtls_des3_crypt_ecb := xor_block 8;
  mbedtls_des3_crypt_cbc c e iv d := Some (xor_cbc 8 (length d / 8) e c iv d);
|}.

Lemma xor_block_length n k b o : xor_block n k b = Some o -> length o = n.
Proof.
  intros [= <-]. rewrite length_xor_bytes, !length_take, !length_app, !repeat_length. lia.
Qed.

Lemma xor_block_involutive n k b o :
  length b = n -> xor_block n k b = Some o -> xor_block n k o = Some b.
Proof.
  intros Hb Ho. pose proof (xor_block_length _ _ _ _ Ho) as Hl.
  injection Ho as Ho. unfold xor_block. f_equal.
  rewrite (take_app_length' o) by done. rewrite <- Ho.
  rewrite (take_app_length' b) by done. apply xor_bytes_cancel.
  rewrite length_take, length_app, repeat_length. lia.
Qed.

Instance xor_mbedtls_laws : MbedtlsLaws xor_mbedtls.
Proof.
  constructor; cbn; try (intros; eapply xor_block_length; eassumption).
  all: intros k ce cd b o [= <-] [= <-] Hb; split; by apply xor_block_involutive.
Qed.

(** ** The chain inverts itself *)

Section ChainFacts.
Context {M : Mbedtls} {ML : MbedtlsLaws M}.

Definition opposite (d : DfcCryptoDesChainDirection) : DfcCryptoDesChainDirection :=
  match d with
  | DfcCryptoDesChainForward => DfcCryptoDesChainReverse
  | DfcCryptoDesChainReverse => DfcCryptoDesChainForward
  end.

(** Two prepared blocks invert each other on eight octets. *)
Definition blocks_inverse (c c' : DfcCryptoDesBlock) : Prop :=
  forall b o, length b = 8%nat ->
    dfc_crypto_des_block_crypt c b = Some o -> dfc_crypto_des_block_crypt c' o = Some b.

Lemma des_block_crypt_length c b o :
  dfc_crypto_des_block_crypt c b = Some o -> length o = 8%nat.
Proof.
  unfold dfc_crypto_des_block_crypt. split_ifs; [|done].
  destruct (des_ctx c) as [[?|?]|]; [apply des_ecb_block | apply des3_ecb_block | done].
Qed.

Lemma des_block_init_inverse e key key_len c c' :
  dfc_crypto_des_block_init e key key_len = Some c ->
  dfc_crypto_des_block_init (negb e) key key_len = Some c' ->
  blocks_inverse c c'.
Proof.
  unfold dfc_crypto_des_block_init, blocks_inverse, dfc_crypto_des_block_crypt.
  destruct key as [k|]; [|done]. intros H1 H2 b o Hb. revert H1 H2.
  destruct ((key_len =? 8) || (key_len =? 16) || (key_len =? 24)); [|done].
  destruct (key_len =? 8); [|destruct (key_len =? 24)]; destruct e; cbn [negb];
    repeat match goal with
    | |- context [_ <$> ?x] => destruct x eqn:?; cbn [fmap option_fmap option_map]
    end; intros H1 H2; simplify_eq; cbn [des_ctx des_initialized]; intros Ho.
  all: first
    [ eapply des_ecb_inverse with (ce := m) (cd := m0); eassumption
    | eapply des_ecb_inverse with (ce := m0) (cd := m); eassumption
    | eapply des3_ecb_inverse3 with (ce := m) (cd := m0); eassumption
    | eapply des3_ecb_inverse3 with (ce := m0) (cd := m); eassumption
    | eapply des3_ecb_inverse2 with (ce := m) (cd := m0); eassumption
    | eapply des3_ecb_inverse2 with (ce := m0) (cd := m); eassumption ].
Qed.

Lemma des_chain_step_inverse c c' d previous input out next :
  blocks_inverse c c' -> length previous = 8%nat -> length input = 8%nat ->
  des_chain_step c d previous input = Some (out, next) ->
  length out = 8%nat /\ length next = 8%nat /\
  des_chain_step c' (opposite d) previous out = Some (input, next).
Proof.
  intros Hinv Hp Hi. destruct d; cbn [des_chain_step opposite];
    destruct (dfc_crypto_des_block_crypt c _) as [o|] eqn:Hc; cbn [mbind option_bind];
    intros [= <- <-]; pose proof (des_block_crypt_length _ _ _ Hc) as Ho.
  - apply Hinv in Hc; [|rewrite length_xor_bytes; lia]. rewrite Hc. cbn.
    rewrite xor_bytes_cancel by lia. done.
  - rewrite xor_bytes_cancel by lia. apply Hinv in Hc; [|done]. rewrite Hc. cbn.
    rewrite length_xor_bytes. split_and!; [lia|done|done].
Qed.

Lemma des_chain_loop_inverse c c' d n previous input out :
  blocks_inverse c c' -> length previous = 8%nat -> length input = (8 * n)%nat ->
  des_chain_loop c d previous input n = Some out ->
  length out = (8 * n)%nat /\ des_chain_loop c' (opposite d) previous out n = Some input.
Proof.
  intros Hinv. revert previous input out. induction n as [|n IH]; intros previous input out Hp Hi.
  { intros [= <-]. destruct input; [done|]. cbn in Hi. lia. }
  cbn [des_chain_loop].
  destruct (des_chain_step c d previous (take 8 input)) as [[o next]|] eqn:Hs; [|done].
  cbn [mbind option_bind].
  destruct (des_chain_loop c d next (drop 8 input) n) as [rest|] eqn:Hl; [|done].
  cbn [mbind option_bind]. intros [= <-].
  apply (des_chain_step_inverse _ c') in Hs as (Ho & Hn & Hs); [|done|done|rewrite length_take; lia].
  apply IH in Hl as [Hrest Hl]; [|done|rewrite length_drop; lia].
  rewrite length_app. split; [lia|].
  rewrite take_app_length' by done. rewrite drop_app_length' by done. rewrite Hs. cbn.
  rewrite Hl. cbn. by rewrite take_drop.
Qed.
End ChainFacts.

(** C5: a successful DES/TDEA chain is undone by the chain of the opposite
    direction over the inverse primitive, with the same key and iv: what one side
    protects, forward or reverse, the other side recovers exactly. *)
Theorem des_chain_roundtrip (M : Mbedtls) (ML : MbedtlsLaws M) (primitive : bool)
    (d : DfcCryptoDesChainDirection) (key iv input out : bytes) (key_len : Z)
    (Hiv : zlen iv = 8)
    (Hrun : dfc_crypto_des_chain primitive d (Some key) key_len iv input (zlen input) = (true, out))
    (Hkey : is_Some (dfc_crypto_des_block_init (negb primitive) (Some key) key_len)) :
  zlen out = zlen input /\
  dfc_crypto_des_chain (negb primitive) (opposite d) (Some key) key_len iv out (zlen out) =
    (true, input).
Proof.
  unfold dfc_crypto_des_chain in *.
  destruct (zlen input mod 8 =? 0) eqn:Hm; [|done]. bool_facts.
  destruct Hkey as [c' Hc']. rewrite Hc'.
  destruct (dfc_crypto_des_block_init primitive _ _) as [c|] eqn:Hc; cbn [mbind option_bind] in *; [|done].
  pose proof (des_block_init_inverse _ _ _ _ _ Hc Hc') as Hinv.
  destruct (des_chain_loop c d iv input _) as [o|] eqn:Hl; simplify_eq.
  assert (Hlen : length input = (8 * Z.to_nat (zlen input / 8))%nat).
  { unfold zlen in *. pose proof (Z.div_mod (Z.of_nat (length input)) 8). lia. }
  destruct (des_chain_loop_inverse c c' d _ iv input out Hinv
              ltac:(unfold zlen in *; lia) Hlen Hl) as [Ho Hback].
  assert (Hz : zlen out = zlen input) by (unfold zlen in *; lia).
  rewrite Hz, Hm. cbn [Z.eqb mbind option_bind]. by rewrite Hback.
Qed.

Lemma des_chain_roundtrip_witness :
  let key := [1; 2; 3; 4; 5; 6; 7; 8] in
  let iv := [9; 9; 9; 9; 9; 9; 9; 9] in
  let input := [1; 1; 1; 1; 2; 2; 2; 2; 3; 3; 3; 3; 4; 4; 4; 4] in
  let out := snd (dfc_crypto_des_chain true DfcCryptoDesChainForward (Some key) 8 iv input 16) in
  zlen out = zlen input /\
  dfc_crypto_des_chain false DfcCryptoDesChainReverse (Some key) 8 iv out (zlen out) = (true, input).
Proof.
  intros key iv input out.
  apply (des_chain_roundtrip xor_mbedtls xor_mbedtls_laws true DfcCryptoDesChainForward
           key iv input out 8).
  - reflexivity.
  - vm_compute. reflexivity.
  - eexists. reflexivity.
Defined.
