(* ===== verification/Cmac.v ===== *)
(** CMAC over caller-owned segments: [src/src/cmac_internal.h],
    [src/src/cmac_common.h], [src/src/aes_cmac.c] and [src/src/des_cmac.c].

    The two C files differ only in [BLOCK_SIZE], the subkey constant and the block
    primitive, so [Section Engine] translates the shared text once over those
    three, and [Module AesCmac] and [Module DesCmac] instantiate it. The file also
    states CMAC over one message, the reference the segmented engine refines. *)

From S2P Require Import Prelude Common Crypto.

Inductive DfcCmacFinalMode :=
| DfcCmacFinalStandard
| DfcCmacFinalPrePadded.

(** [data] is [None] for a NULL pointer; only the first [seg_length] octets of the
    buffer belong to the segment. *)
Record DfcCryptoSegment := { seg_data : option bytes; seg_length : Z }.

Definition segment_of (message : bytes) : DfcCryptoSegment :=
  {| seg_data := Some message; seg_length := zlen message |}.

(** The octets of a segment. *)
Definition segment_octets (s : DfcCryptoSegment) : bytes :=
  match seg_data s with
  | Some d => slice d 0 (seg_length s)
  | None => []
  end.

(** A segment whose buffer is as long as it says. *)
Definition segment_ok (s : DfcCryptoSegment) : Prop :=
  0 <= seg_length s /\
  match seg_data s with Some d => seg_length s <= zlen d | None => True end.

Section Engine.
(** [BLOCK_SIZE], the constant xored into a subkey on overflow, and the prepared
    cipher with its one-block call. *)
Variable block_size : nat.
Variable subkey_constant : Z.
Context {cipher_block : Type}.
Variable encrypt : cipher_block -> bytes -> option bytes.

Record CmacContext := {
  cipher : cipher_block;
  subkey1 : bytes;
  subkey2 : bytes;
  initialized : bool;
}.

(** [aes_cmac_padBlock]: [block[len] = 0x80]. *)
Definition cmac_padBlock (block : bytes) (len : Z) : bytes := block.[len := 0x80].

(** [aes_cmac_bitShiftLeft]: each octet takes the top bit of the next. *)
Fixpoint cmac_bitShiftLeft (input : bytes) : bytes :=
  match input with
  | [] => []
  | [x] => [u8 (Z.shiftl x 1)]
  | x :: ((y :: _) as rest) =>
      (let out := u8 (Z.shiftl x 1) in
       if Z.land y 0x80 =? 0 then out else u8 (out + 0x01)) :: cmac_bitShiftLeft rest
  end.

(** The doubling of one value: shift, then reduce when its top bit was set. *)
Definition cmac_double (value : bytes) : bytes :=
  let shifted := cmac_bitShiftLeft value in
  let last := Z.of_nat block_size - 1 in
  if Z.land value.[0] 0x80 =? 0 then shifted
  else shifted.[last := Z.lxor shifted.[last] subkey_constant].

Definition cmac_generateSubkeys (c : cipher_block) : option (bytes * bytes) :=
  l ← encrypt c (replicate block_size 0);
  let k1 := cmac_double l in
  let k2 := cmac_double k1 in
  Some (k1, k2).

(** Given the block context the cipher adapter prepared. *)
Definition cmac_context_init (block : option cipher_block) : option CmacContext :=
  c ← block;
  '(k1, k2) ← cmac_generateSubkeys c;
  Some {| cipher := c; subkey1 := k1; subkey2 := k2; initialized := true |}.

(** The loop state: the block being filled, its fill and the chaining value. *)
Record cmac_state := { pending : bytes; pending_len : Z; x : bytes }.

(** The argument loop: the total length, or refusal. *)
Fixpoint cmac_total_length (segments : list DfcCryptoSegment) (total_len : Z) : option Z :=
  match segments with
  | [] => Some total_len
  | s :: rest =>
      guard! negb ((negb (seg_length s =? 0) && bool_decide (seg_data s = None)) ||
                   (SIZE_MAX - total_len <? seg_length s)) else None;
      cmac_total_length rest (total_len + seg_length s)
  end.

(** A full pending block is chained before it is refilled. *)
Definition cmac_flush (c : cipher_block) (st : cmac_state) : option cmac_state :=
  if pending_len st =? Z.of_nat block_size then
    x' ← encrypt c (xor_bytes (x st) (pending st));
    Some {| pending := pending st; pending_len := 0; x := x' |}
  else Some st.

(** [memcpy(pending + pending_len, data, take)] and the new fill. *)
Definition cmac_fill (st : cmac_state) (taken : Z) (data : bytes) : cmac_state :=
  {| pending := splice (pending st) (pending_len st) (take (Z.to_nat taken) data);
     pending_len := pending_len st + taken;
     x := x st |}.

(** [while(remaining)] over one segment; [remaining] is the length of [data].
    Every pass consumes at least one octet, so [length data] passes are enough. *)
Fixpoint cmac_absorb (fuel : nat) (c : cipher_block) (st : cmac_state) (data : bytes)
  : option cmac_state :=
  match fuel, data with
  | _, [] => Some st
  | O, _ => None
  | S fuel', _ =>
      let remaining := zlen data in
      if (pending_len st =? 0) && (Z.of_nat block_size <? remaining) then
        x' ← encrypt c (xor_bytes (x st) (take block_size data));
        cmac_absorb fuel' c
          {| pending := pending st; pending_len := pending_len st; x := x' |}
          (drop block_size data)
      else
        st1 ← cmac_flush c st;
        let room := Z.of_nat block_size - pending_len st1 in
        let taken := if remaining <? room then remaining else room in
        cmac_absorb fuel' c (cmac_fill st1 taken data) (drop (Z.to_nat taken) data)
  end.

(** The loop over the segments. *)
Fixpoint cmac_absorb_segments (c : cipher_block) (st : cmac_state)
    (segments : list DfcCryptoSegment) : option cmac_state :=
  match segments with
  | [] => Some st
  | s :: rest =>
      let data := segment_octets s in
      st' ← cmac_absorb (length data) c st data;
      cmac_absorb_segments c st' rest
  end.

(** The last block with its subkey mixed in. *)
Definition cmac_final_block (ctx : CmacContext) (final_mode : DfcCmacFinalMode)
    (total_len : Z) (st : cmac_state) : option bytes :=
  match final_mode with
  | DfcCmacFinalPrePadded =>
      guard! negb ((total_len =? 0) || negb (pending_len st =? Z.of_nat block_size)) else None;
      Some (xor_bytes (pending st) (subkey2 ctx))
  | DfcCmacFinalStandard =>
      if negb (total_len =? 0) && (pending_len st =? Z.of_nat block_size) then
        Some (xor_bytes (pending st) (subkey1 ctx))
      else
        let cleared := wipe (pending st) (pending_len st) (Z.of_nat block_size - pending_len st) in
        let padded := cmac_padBlock cleared (pending_len st) in
        Some (xor_bytes padded (subkey2 ctx))
  end.

(** Success flag and the MAC buffer, zeroed on every failure. *)
Definition cmac_context_compute (ctx : CmacContext) (segments : list DfcCryptoSegment)
    (iv : bytes) (final_mode : DfcCmacFinalMode) : bool * bytes :=
  let run :=
    guard! initialized ctx else None;
    total_len ← cmac_total_length segments 0;
    guard! total_len <=? SIZE_MAX - (Z.of_nat block_size - 1) else None;
    st ← cmac_absorb_segments (cipher ctx)
           {| pending := replicate block_size 0; pending_len := 0; x := iv |} segments;
    last ← cmac_final_block ctx final_mode total_len st;
    encrypt (cipher ctx) (xor_bytes (x st) last) in
  match run with
  | Some mac => (true, mac)
  | None => (false, replicate block_size 0)
  end.

(** ** CMAC of one message

    The reference: whole blocks but the last are chained, the last block, full
    or padded, takes the subkey the mode selects. *)

(** Chain the first [n] blocks; the chaining value and what is left. *)
Fixpoint chain_blocks (n : nat) (c : cipher_block) (value message : bytes)
  : option (bytes * bytes) :=
  match n with
  | O => Some (value, message)
  | S n' =>
      value' ← encrypt c (xor_bytes value (take block_size message));
      chain_blocks n' c value' (drop block_size message)
  end.

Definition chain_message (c : cipher_block) (value message : bytes) : option (bytes * bytes) :=
  chain_blocks ((length message - 1) / block_size)%nat c value message.

Definition cmac_reference (ctx : CmacContext) (final_mode : DfcCmacFinalMode)
    (iv message : bytes) : option bytes :=
  '(value, rest) ← chain_message (cipher ctx) iv message;
  last ← match final_mode with
         | DfcCmacFinalPrePadded =>
             if decide (length rest = block_size /\ message <> []) then
               Some (xor_bytes rest (subkey2 ctx))
             else None
         | DfcCmacFinalStandard =>
             if decide (length rest = block_size /\ message <> []) then
               Some (xor_bytes rest (subkey1 ctx))
             else
               Some (xor_bytes (rest ++ 0x80 :: replicate (block_size - length rest - 1) 0)
                       (subkey2 ctx))
         end;
  encrypt (cipher ctx) (xor_bytes value last).
End Engine.

Arguments CmacContext : clear implicits.
Arguments cipher {cipher_block} _.
Arguments subkey1 {cipher_block} _.
Arguments subkey2 {cipher_block} _.
Arguments initialized {cipher_block} _.
Arguments Build_CmacContext {cipher_block} _ _ _ _.

(** ** The instances *)

Module AesCmac.
Section AesCmac.
Context `{Mbedtls}.

Definition BLOCK_SIZE : nat := 16.

Definition DfcAesCmacContext : Type := CmacContext DfcCryptoAesBlock.

Definition aes_cmac_padBlock (block : bytes) (len : Z) : bytes := cmac_padBlock block len.

Definition aes_cmac_bitShiftLeft (input : bytes) : bytes := cmac_bitShiftLeft input.

Definition aes_cmac_generateSubkeys (cipher : DfcCryptoAesBlock) : option (bytes * bytes) :=
  cmac_generateSubkeys BLOCK_SIZE 0x87 dfc_crypto_aes_block_encrypt cipher.

Definition dfc_aes_cmac_context_init (key : option bytes) (key_len : Z)
  : option DfcAesCmacContext :=
  cmac_context_init BLOCK_SIZE 0x87 dfc_crypto_aes_block_encrypt
    (dfc_crypto_aes_block_init key key_len).

Definition dfc_aes_cmac_context_compute (context : DfcAesCmacContext)
    (segments : list DfcCryptoSegment) (iv : bytes) (final_mode : DfcCmacFinalMode)
  : bool * bytes :=
  cmac_context_compute BLOCK_SIZE dfc_crypto_aes_block_encrypt context segments iv final_mode.

Definition aes_cmac_segments_with_iv (key : option bytes) (key_len : Z)
    (segments : list DfcCryptoSegment) (iv : bytes) : bool * bytes :=
  match dfc_aes_cmac_context_init key key_len with
  | None => (false, replicate BLOCK_SIZE 0)
  | Some context => dfc_aes_cmac_context_compute context segments iv DfcCmacFinalStandard
  end.

Definition aes_cmac_with_iv (key : option bytes) (key_len : Z) (message iv : bytes)
  : bool * bytes :=
  aes_cmac_segments_with_iv key key_len [segment_of message] iv.

Definition aes_cmac (key : option bytes) (key_len : Z) (message : bytes) : bool * bytes :=
  aes_cmac_with_iv key key_len message (replicate BLOCK_SIZE 0).

(** [dfc_aes_wire_mac] of [dfc_common.c]: the output is zeroed first, so a
    failure leaves zeros. *)
Definition dfc_aes_wire_mac (key : option bytes) (input : option bytes) (input_len : Z)
  : bool * bytes :=
  match key, input with
  | None, _ => (false, zeros DFC_WIRE_MAC_LENGTH)
  | Some _, None =>
      guard! input_len =? 0 else (false, zeros DFC_WIRE_MAC_LENGTH);
      let (success, full) := aes_cmac key DFC_AES_KEY_LENGTH [] in
      (success, if success then Rules.dfc_truncate_aes_wire_mac full else zeros DFC_WIRE_MAC_LENGTH)
  | Some _, Some m =>
      let (success, full) := aes_cmac key DFC_AES_KEY_LENGTH (slice m 0 input_len) in
      (success, if success then Rules.dfc_truncate_aes_wire_mac full else zeros DFC_WIRE_MAC_LENGTH)
  end.
End AesCmac.
End AesCmac.

Module DesCmac.
Section DesCmac.
Context `{Mbedtls}.

Definition BLOCK_SIZE : nat := 8.

Definition DfcDesCmacContext : Type := CmacContext DfcCryptoDesBlock.

Definition des_cmac_padBlock (block : bytes) (len : Z) : bytes := cmac_padBlock block len.

Definition des_cmac_bitShiftLeft (input : bytes) : bytes := cmac_bitShiftLeft input.

Definition des_cmac_generateSubkeys (cipher : DfcCryptoDesBlock) : option (bytes * bytes) :=
  cmac_generateSubkeys BLOCK_SIZE 0x1b dfc_crypto_des_block_crypt cipher.

Definition dfc_des_cmac_context_init (key : option bytes) (key_len : Z)
  : option DfcDesCmacContext :=
  cmac_context_init BLOCK_SIZE 0x1b dfc_crypto_des_block_crypt
    (dfc_crypto_des_block_init true key key_len).

Definition dfc_des_cmac_context_compute (context : DfcDesCmacContext)
    (segments : list DfcCryptoSegment) (iv : bytes) (final_mode : DfcCmacFinalMode)
  : bool * bytes :=
  cmac_context_compute BLOCK_SIZE dfc_crypto_des_block_crypt context segments iv final_mode.

Definition des_cmac_segments_with_iv (key : option bytes) (key_len : Z)
    (segments : list DfcCryptoSegment) (iv : bytes) : bool * bytes :=
  match dfc_des_cmac_context_init key key_len with
  | None => (false, replicate BLOCK_SIZE 0)
  | Some context => dfc_des_cmac_context_compute context segments iv DfcCmacFinalStandard
  end.

Definition des_cmac_with_iv (key : option bytes) (key_len : Z) (message iv : bytes)
  : bool * bytes :=
  des_cmac_segments_with_iv key key_len [segment_of message] iv.

Definition des_cmac (key : option bytes) (key_len : Z) (message : bytes) : bool * bytes :=
  des_cmac_with_iv key key_len message (replicate BLOCK_SIZE 0).
End DesCmac.
End DesCmac.

(** ** The segmented engine computes CMAC of the concatenated message *)

Section EngineFacts.
Context (bs : nat) (Hbs : (0 < bs)%nat).
Context {C : Type} (encrypt : C -> bytes -> option bytes).

#[local] Abbreviation chain_blocks := (chain_blocks bs encrypt).
#[local] Abbreviation chain_message := (chain_message bs encrypt).
#[local] Abbreviation absorb := (cmac_absorb bs encrypt).

Lemma chain_blocks_app n c v m d :
  (n * bs <= length m)%nat ->
  chain_blocks n c v (m ++ d) = '(v', r) ← chain_blocks n c v m; Some (v', r ++ d).
Proof.
  revert v m. induction n as [|n IH]; intros v m Hm; [done|]. cbn in Hm |- *.
  rewrite take_app_le, drop_app_le by lia.
  destruct (encrypt c _) as [v'|]; [|done]. cbn. apply IH. rewrite length_drop. lia.
Qed.

Lemma chain_blocks_add n k c v m :
  chain_blocks (n + k) c v m = '(v', r) ← chain_blocks n c v m; chain_blocks k c v' r.
Proof.
  revert v m. induction n as [|n IH]; intros v m; [done|]. cbn.
  destruct (encrypt c _) as [v'|]; [|done]. cbn. apply IH.
Qed.

Lemma chain_blocks_length n c v m v' r :
  (n * bs <= length m)%nat -> chain_blocks n c v m = Some (v', r) ->
  (length r + n * bs)%nat = length m.
Proof.
  revert v m. induction n as [|n IH]; intros v m Hm.
  { intros [= <- <-]. lia. }
  cbn in Hm |- *. destruct (encrypt c _) as [w|]; [|done]. cbn. intros Hr.
  apply IH in Hr; rewrite length_drop in *; lia.
Qed.

(** How many whole blocks come before the last, possibly partial, one. *)
Lemma blocks_before_last_bound (m : bytes) : ((length m - 1) / bs * bs <= length m)%nat.
Proof. pose proof (Nat.Div0.mul_div_le (length m - 1) bs). lia. Qed.

Lemma chain_message_short c v m : (length m <= bs)%nat -> chain_message c v m = Some (v, m).
Proof.
  intros Hm. unfold Cmac.chain_message.
  rewrite Nat.div_small; [done|]. lia.
Qed.

(** A first block followed by more data is chained at once. *)
Lemma chain_message_block c v b d :
  length b = bs -> d <> [] ->
  chain_message c v (b ++ d) = v' ← encrypt c (xor_bytes v b); chain_message c v' d.
Proof.
  intros Hb Hd. unfold Cmac.chain_message.
  assert (Hl : (0 < length d)%nat) by (destruct d; [done|cbn; lia]).
  replace (length (b ++ d) - 1)%nat with (1 * bs + (length d - 1))%nat
    by (rewrite length_app; lia).
  rewrite Nat.div_add_l by lia. cbn [Nat.add Cmac.chain_blocks].
  by rewrite take_app_length', drop_app_length' by done.
Qed.

Lemma chain_message_app c v m d :
  chain_message c v (m ++ d) = '(v', r) ← chain_message c v m; chain_message c v' (r ++ d).
Proof.
  set (n := ((length m - 1) / bs)%nat).
  change (Cmac.chain_message bs encrypt c v m) with (Cmac.chain_blocks bs encrypt n c v m).
  unfold Cmac.chain_message at 1.
  pose proof (blocks_before_last_bound m) as Hn. fold n in Hn.
  assert (Hk : exists k, ((length (m ++ d) - 1) / bs = n + k)%nat).
  { exists ((length (m ++ d) - 1) / bs - n)%nat.
    assert (n <= (length (m ++ d) - 1) / bs)%nat; [|lia].
    apply Nat.Div0.div_le_mono. rewrite length_app. lia. }
  destruct Hk as [k Hk]. rewrite Hk, chain_blocks_add, chain_blocks_app by done.
  destruct (Cmac.chain_blocks bs encrypt n c v m) as [[v' r]|] eqn:Hc; [|done].
  cbn [mbind option_bind]. apply chain_blocks_length in Hc; [|done].
  unfold Cmac.chain_message. f_equal. rewrite !length_app in *.
  destruct (decide (length m + length d = 0)%nat) as [He|He].
  { replace (length r + length d - 1)%nat with 0%nat by lia.
    replace (length m + length d - 1)%nat with 0%nat in Hk by lia.
    rewrite Nat.Div0.div_0_l in *. lia. }
  destruct (decide (length r + length d = 0)%nat) as [Hr|Hr].
  { assert (n = 0)%nat; [|nia]. unfold n. apply Nat.div_small.
    pose proof (Nat.div_mod_eq (length m - 1) bs). fold n in H.
    assert (length m = n * bs)%nat by lia.
    destruct n; nia. }
  replace (length m + length d - 1)%nat with (n * bs + (length r + length d - 1))%nat in Hk by lia.
  rewrite Nat.div_add_l in Hk by lia. lia.
Qed.

(** The part of the message the pending block holds. *)
Definition buffered (st : cmac_state) : bytes := take (Z.to_nat (pending_len st)) (pending st).

Definition state_ok (st : cmac_state) : Prop :=
  length (pending st) = bs /\ 0 <= pending_len st <= Z.of_nat bs.

Lemma length_buffered st : state_ok st -> length (buffered st) = Z.to_nat (pending_len st).
Proof. intros [Hp Hl]. unfold buffered. rewrite length_take. lia. Qed.

(** What the engine still owes: chaining everything buffered and to come. *)
Definition absorbs_to (c : C) (st : cmac_state) (data : bytes) (res : option cmac_state) : Prop :=
  match res with
  | Some st' => state_ok st' /\
      chain_message c (x st) (buffered st ++ data) = Some (x st', buffered st')
  | None => chain_message c (x st) (buffered st ++ data) = None
  end.

(** Moving octets into the pending block does not change what is owed. *)
Lemma buffered_fill st taken data :
  state_ok st -> 0 <= taken -> taken <= zlen data -> pending_len st + taken <= Z.of_nat bs ->
  state_ok (cmac_fill st taken data) /\
  buffered (cmac_fill st taken data) = buffered st ++ take (Z.to_nat taken) data.
Proof.
  intros [Hp Hl] H0 H1 H2.
  assert (Ht : length (take (Z.to_nat taken) data) = Z.to_nat taken).
  { rewrite length_take. unfold zlen in *. lia. }
  split.
  - split; [|cbn; lia]. cbn. apply Nat2Z.inj. change (zlen (splice (pending st) (pending_len st)
      (take (Z.to_nat taken) data)) = Z.of_nat bs).
    rewrite length_splice; unfold zlen; lia.
  - unfold buffered, cmac_fill, splice; cbn [pending pending_len].
    rewrite app_assoc. apply take_app_length'. rewrite length_app, length_take. lia.
Qed.

(** Nor does chaining a full pending block. *)
Lemma flush_owes c st data :
  state_ok st -> data <> [] ->
  match cmac_flush bs encrypt c st with
  | Some st1 => state_ok st1 /\ pending_len st1 < Z.of_nat bs /\
      chain_message c (x st) (buffered st ++ data) = chain_message c (x st1) (buffered st1 ++ data)
  | None => chain_message c (x st) (buffered st ++ data) = None
  end.
Proof.
  intros Hst Hne. unfold cmac_flush.
  destruct (pending_len st =? Z.of_nat bs) eqn:Ef; bool_facts.
  - assert (Hbuf : buffered st = pending st).
    { unfold buffered. apply take_ge. destruct Hst. lia. }
    rewrite Hbuf, chain_message_block by (done || apply Hst).
    destruct (encrypt c _) as [x'|]; [|done]. cbn [mbind option_bind].
    destruct Hst. split_and!; [split; cbn; lia | cbn; lia | done].
  - destruct Hst. split_and!; [done | lia | done].
Qed.

(** Chaining straight from the segment. *)
Lemma direct_owes c st data :
  pending_len st = 0 -> Z.of_nat bs < zlen data ->
  chain_message c (x st) (buffered st ++ data) =
  v' ← encrypt c (xor_bytes (x st) (take bs data)); chain_message c v' (drop bs data).
Proof.
  intros Hp Hl. replace (buffered st) with (@nil Z) by (unfold buffered; rewrite Hp; done).
  rewrite app_nil_l. rewrite <- (take_drop bs data) at 1. unfold zlen in Hl.
  apply chain_message_block; [rewrite length_take; lia|].
  intros E. apply (f_equal length) in E. rewrite length_drop in E. cbn in E. lia.
Qed.

Lemma absorbs_to_nil c st : state_ok st -> absorbs_to c st [] (Some st).
Proof.
  intros Hst. split; [done|]. rewrite app_nil_r.
  apply chain_message_short. rewrite length_buffered by done. destruct Hst. lia.
Qed.

Lemma cmac_absorb_correct fuel c st data :
  state_ok st -> (length data <= fuel)%nat -> absorbs_to c st data (absorb fuel c st data).
Proof.
  revert st data. induction fuel as [|fuel IH]; intros st [|d0 data0] Hst Hf;
    try (by apply absorbs_to_nil); [cbn in Hf; lia|].
  cbn [cmac_absorb]. set (data := d0 :: data0) in *.
  assert (Hpos : 0 < zlen data) by (unfold data; rewrite zlen_cons; pose proof (zlen_nonneg data0); lia).
  destruct ((pending_len st =? 0) && (Z.of_nat bs <? zlen data)) eqn:Edirect; bool_facts.
  - unfold absorbs_to. rewrite direct_owes by done.
    destruct (encrypt c _) as [x'|]; [|done]. cbn [mbind option_bind].
    specialize (IH {| pending := pending st; pending_len := pending_len st; x := x' |} (drop bs data)).
    unfold absorbs_to, buffered in IH. cbn [x pending pending_len] in IH.
    rewrite H, take_0, app_nil_l in IH. rewrite H. apply IH; [by rewrite <- H|].
    rewrite length_drop. lia.
  - clear Edirect. pose proof (flush_owes c st data Hst ltac:(done)) as Hfl.
    destruct (cmac_flush bs encrypt c st) as [st1|]; [|done].
    destruct Hfl as (Hst1 & Hlt & Hmsg). cbn [mbind option_bind]. cbv zeta.
    set (room := Z.of_nat bs - pending_len st1).
    set (taken := if zlen data <? room then zlen data else room).
    assert (Htk : 0 < taken <= zlen data /\ pending_len st1 + taken <= Z.of_nat bs).
    { unfold taken. destruct (zlen data <? room) eqn:Er; bool_facts; unfold room in *; lia. }
    destruct (buffered_fill st1 taken data) as [Hst2 Hbuf2]; [done|lia|lia|lia|].
    specialize (IH _ (drop (Z.to_nat taken) data) Hst2). unfold absorbs_to in *. rewrite Hmsg.
    rewrite Hbuf2, <- app_assoc, take_drop in IH. apply IH. rewrite length_drop. lia.
Qed.

Lemma cmac_absorb_segments_correct c st segments :
  state_ok st ->
  absorbs_to c st (concat (map segment_octets segments))
    (cmac_absorb_segments bs encrypt c st segments).
Proof.
  revert st. induction segments as [|s segments IH]; intros st Hst; cbn.
  { split; [done|]. rewrite app_nil_r.
    apply chain_message_short. rewrite length_buffered by done. destruct Hst. lia. }
  pose proof (cmac_absorb_correct (length (segment_octets s)) c st (segment_octets s) Hst (le_n _)) as Ha.
  unfold absorbs_to in *. rewrite app_assoc, chain_message_app.
  destruct (cmac_absorb _ _ _ _ _ _) as [st1|]; [|by rewrite Ha].
  destruct Ha as [Hst1 ->]. cbn [mbind option_bind]. by apply IH.
Qed.

(** Arguments the engine accepts: readable segments whose total leaves room for
    rounding up to a block. *)
Definition segments_accepted (segments : list DfcCryptoSegment) : Prop :=
  Forall (fun s => segment_ok s /\ (seg_data s = None -> seg_length s = 0)) segments /\
  zlen (concat (map segment_octets segments)) <= SIZE_MAX - (Z.of_nat bs - 1).

Lemma segment_octets_length s :
  segment_ok s -> (seg_data s = None -> seg_length s = 0) -> zlen (segment_octets s) = seg_length s.
Proof.
  unfold segment_ok, segment_octets. intros [H0 Hd] Hn.
  destruct (seg_data s); [apply length_slice; lia | by rewrite Hn].
Qed.

Lemma cmac_total_length_correct segments total :
  Forall (fun s => segment_ok s /\ (seg_data s = None -> seg_length s = 0)) segments ->
  total + zlen (concat (map segment_octets segments)) <= SIZE_MAX ->
  cmac_total_length segments total =
    Some (total + zlen (concat (map segment_octets segments))).
Proof.
  intros Hs. revert total. induction Hs as [|s segments [Hok Hn] Hs IH]; intros total Ht.
  { cbn [map concat cmac_total_length]. change (zlen (@nil Z)) with 0. f_equal. lia. }
  cbn [map concat cmac_total_length] in *. rewrite zlen_app in *.
  rewrite segment_octets_length in * by done. destruct Hok as [Hpos _].
  pose proof (zlen_nonneg (concat (map segment_octets segments))) as Hz.
  assert (Hg : (negb (seg_length s =? 0) && bool_decide (seg_data s = None)) ||
               (SIZE_MAX - total <? seg_length s) = false).
  { apply orb_false_iff. split; [|apply Z.ltb_ge; lia]. apply andb_false_iff.
    destruct (decide (seg_data s = None)) as [E|E].
    - left. rewrite Hn by done. done.
    - right. by apply bool_decide_eq_false. }
  rewrite Hg. cbn [negb]. rewrite IH by lia. f_equal. lia.
Qed.

Lemma padded_block st :
  state_ok st -> pending_len st < Z.of_nat bs ->
  cmac_padBlock (wipe (pending st) (pending_len st) (Z.of_nat bs - pending_len st)) (pending_len st)
  = buffered st ++ 0x80 :: replicate (bs - length (buffered st) - 1) 0.
Proof.
  intros Hst Hlt. rewrite length_buffered by done. destruct Hst as [Hp Hl].
  unfold cmac_padBlock, wipe, splice, zeros, buffered.
  set (p := Z.to_nat (pending_len st)).
  assert (Hb : (p < bs)%nat) by lia.
  replace (Z.to_nat (Z.of_nat bs - pending_len st)) with (S (bs - p - 1)) by lia.
  assert (Hbl : length (take p (pending st)) = p) by (rewrite length_take; lia).
  rewrite take_app_length' by done. cbn [length replicate].
  rewrite drop_app_ge by lia. rewrite Hbl.
  replace (p + 1 - p)%nat with 1%nat by lia. cbn [app drop]. rewrite drop_0.
  rewrite drop_ge; [by rewrite app_nil_r|]. rewrite length_replicate. lia.
Qed.

Lemma cmac_final_block_correct (ctx : CmacContext C) mode st (message : bytes) :
  state_ok st -> (message = [] -> pending_len st = 0) ->
  cmac_final_block bs ctx mode (zlen message) st =
  match mode with
  | DfcCmacFinalPrePadded =>
      if decide (length (buffered st) = bs /\ message <> []) then
        Some (xor_bytes (buffered st) (subkey2 ctx)) else None
  | DfcCmacFinalStandard =>
      if decide (length (buffered st) = bs /\ message <> []) then
        Some (xor_bytes (buffered st) (subkey1 ctx))
      else Some (xor_bytes (buffered st ++ 0x80 :: replicate (bs - length (buffered st) - 1) 0)
                   (subkey2 ctx))
  end.
Proof.
  intros Hst Hm. pose proof (length_buffered st Hst) as Hlb. destruct Hst as [Hp Hl] eqn:Est.
  assert (Hz : zlen message = 0 <-> message = []).
  { unfold zlen. destruct message; cbn; split; (done || lia). }
  assert (Hfull : pending_len st = Z.of_nat bs -> buffered st = pending st).
  { intros E. unfold buffered. apply take_ge. lia. }
  unfold cmac_final_block. destruct mode;
    destruct (decide _) as [[Hf Hne]|Hno];
    destruct (zlen message =? 0) eqn:Ez, (pending_len st =? Z.of_nat bs) eqn:Ep;
    cbn [negb andb orb]; bool_facts;
    try (exfalso; clear Hfull; tauto || (apply Hno; split; [lia|tauto]) || lia);
    try (by rewrite Hfull); try done; rewrite padded_block; try done; try lia.
  specialize (Hm (proj1 Hz Ez)). lia.
Qed.

Lemma cmac_context_compute_correct ctx segments iv mode :
  initialized ctx = true -> segments_accepted segments ->
  cmac_context_compute bs encrypt ctx segments iv mode =
  match cmac_reference bs encrypt ctx mode iv (concat (map segment_octets segments)) with
  | Some mac => (true, mac)
  | None => (false, replicate bs 0)
  end.
Proof.
  intros Hi [Hs Ht]. unfold cmac_context_compute, cmac_reference. rewrite Hi.
  set (message := concat (map segment_octets segments)) in *.
  rewrite cmac_total_length_correct by (done || fold message; lia). cbn [mbind option_bind].
  fold message. rewrite Z.add_0_l, (proj2 (Z.leb_le _ _)) by lia.
  set (st0 := {| pending := replicate bs 0; pending_len := 0; x := iv |}).
  assert (Hst0 : state_ok st0) by (split; cbn; [apply length_replicate | lia]).
  pose proof (cmac_absorb_segments_correct (cipher ctx) st0 segments Hst0) as Ha.
  unfold absorbs_to in Ha. fold message in Ha. change (x st0) with iv in Ha.
  replace (buffered st0) with (@nil Z) in Ha by done. rewrite app_nil_l in Ha.
  destruct (cmac_absorb_segments bs encrypt (cipher ctx) st0 segments) as [st|].
  2: { by rewrite Ha. }
  destruct Ha as [Hst Heq]. rewrite Heq. cbn [mbind option_bind].
  rewrite cmac_final_block_correct; [by destruct mode | done |].
  intros E. rewrite E, chain_message_short in Heq by (cbn; lia).
  injection Heq as _ Hb. pose proof (length_buffered st Hst) as Hl. rewrite <- Hb in Hl.
  destruct Hst. cbn in Hl. lia.
Qed.
End EngineFacts.

(** C6: for every way of cutting a message into segments, every final mode and
    every starting value, the AES and DES engines answer exactly CMAC of the
    concatenated message, and a refused final mode or a failed cipher call leaves
    an all-zero MAC. *)
Theorem cmac_segments_refine (M : Mbedtls) (segments : list DfcCryptoSegment) (iv : bytes)
    (mode : DfcCmacFinalMode) (aes : AesCmac.DfcAesCmacContext) (des : DesCmac.DfcDesCmacContext)
    (Haes : initialized aes = true) (Hdes : initialized des = true)
    (Hsegments : segments_accepted AesCmac.BLOCK_SIZE segments) :
  let message := concat (map segment_octets segments) in
  AesCmac.dfc_aes_cmac_context_compute aes segments iv mode =
    match cmac_reference AesCmac.BLOCK_SIZE dfc_crypto_aes_block_encrypt aes mode iv message with
    | Some mac => (true, mac)
    | None => (false, replicate AesCmac.BLOCK_SIZE 0)
    end /\
  DesCmac.dfc_des_cmac_context_compute des segments iv mode =
    match cmac_reference DesCmac.BLOCK_SIZE dfc_crypto_des_block_crypt des mode iv message with
    | Some mac => (true, mac)
    | None => (false, replicate DesCmac.BLOCK_SIZE 0)
    end.
Proof.
  split.
  - apply cmac_context_compute_correct; [unfold AesCmac.BLOCK_SIZE; lia | done | done].
  - apply cmac_context_compute_correct; [unfold DesCmac.BLOCK_SIZE; lia | done |].
    destruct Hsegments as [Hs Ht]. split; [done|].
    unfold AesCmac.BLOCK_SIZE, DesCmac.BLOCK_SIZE in *. lia.
Qed.

Lemma cmac_segments_refine_witness :
  let segments := [segment_of (repeat 7 20); segment_of []; segment_of (repeat 9 13)] in
  let aes := Build_CmacContext {| aes_context := Some (repeat 3 16); aes_initialized := true |}
               (repeat 1 16) (repeat 2 16) true in
  let des := Build_CmacContext {| des_ctx := Some (Des (repeat 3 8)); des_key_len := 8;
                                  des_encrypt := true; des_initialized := true |}
               (repeat 1 8) (repeat 2 8) true in
  let message := concat (map segment_octets segments) in
  AesCmac.dfc_aes_cmac_context_compute aes segments (repeat 0 16) DfcCmacFinalStandard =
    match cmac_reference AesCmac.BLOCK_SIZE dfc_crypto_aes_block_encrypt aes
            DfcCmacFinalStandard (repeat 0 16) message with
    | Some mac => (true, mac)
    | None => (false, replicate AesCmac.BLOCK_SIZE 0)
    end /\
  DesCmac.dfc_des_cmac_context_compute des segments (repeat 0 16) DfcCmacFinalStandard =
    match cmac_reference DesCmac.BLOCK_SIZE dfc_crypto_des_block_crypt des
            DfcCmacFinalStandard (repeat 0 16) message with
    | Some mac => (true, mac)
    | None => (false, replicate DesCmac.BLOCK_SIZE 0)
    end.
Proof.
  intros segments aes des message.
  apply (cmac_segments_refine xor_mbedtls segments (repeat 0 16) DfcCmacFinalStandard aes des);
    [reflexivity | reflexivity |].
  split; [|vm_compute; discriminate].
  repeat constructor; cbn; try lia; discriminate.
Defined.
