(* ===== verification/An10922.v ===== *)
(** Key diversification of NXP AN10922: [src/src/dfc_an10922.c].

    The three algorithms derive a key from a master key and an identifier by CMAC
    over a padded, labelled message. *)

From S2P Require Import Prelude Common Crypto Cmac.

(** The enum values; any other integer is an unknown algorithm. *)
Definition DfcAn10922Aes128 : Z := 0.
Definition DfcAn10922Tdea2 : Z := 1.
Definition DfcAn10922Tdea3 : Z := 2.

Definition AN10922_AES_INPUT_MAX : Z := 31.
Definition AN10922_TDEA_INPUT_MAX : Z := 15.

#[export] Hint Unfold DfcAn10922Aes128 DfcAn10922Tdea2 DfcAn10922Tdea3
  AN10922_AES_INPUT_MAX AN10922_TDEA_INPUT_MAX : dfc_const.

Section Diversify.
Context `{Mbedtls}.

Definition dfc_an10922_key_length (algorithm : Z) : Z :=
  if (algorithm =? DfcAn10922Aes128) || (algorithm =? DfcAn10922Tdea2) then 16
  else if algorithm =? DfcAn10922Tdea3 then 24
  else 0.

(** The zeroed message buffer with its label, the input and, when there is room,
    the padding marker. *)
Definition an10922_message (size label input_max : Z) (input : bytes) : bytes :=
  let message := zeros size in
  let message := message.[0 := label] in
  let message := splice message 1 input in
  if zlen input <? input_max then message.[zlen input + 1 := 0x80] else message.

Definition diversify_aes128 (master_key input : bytes) : bool * bytes :=
  let padded := zlen input <? AN10922_AES_INPUT_MAX in
  let message := an10922_message 32 0x01 AN10922_AES_INPUT_MAX input in
  match AesCmac.dfc_aes_cmac_context_init (Some master_key) 16 with
  | None => (false, zeros 16)
  | Some context =>
      AesCmac.dfc_aes_cmac_context_compute context [segment_of message] (zeros 16)
        (if padded then DfcCmacFinalPrePadded else DfcCmacFinalStandard)
  end.

(** The parts still to derive, each one CMAC; the loop stops at a failure. *)
Fixpoint diversify_tdea_parts (context : DesCmac.DfcDesCmacContext) (key_len : Z)
    (input : bytes) (part : Z) (count : nat) : option bytes :=
  match count with
  | O => Some []
  | S count' =>
      let padded := zlen input <? AN10922_TDEA_INPUT_MAX in
      let label := u8 (if key_len =? 16 then 0x21 + part else 0x31 + part) in
      let message := an10922_message 16 label AN10922_TDEA_INPUT_MAX input in
      let (success, mac) :=
        DesCmac.dfc_des_cmac_context_compute context [segment_of message] (zeros 8)
          (if padded then DfcCmacFinalPrePadded else DfcCmacFinalStandard) in
      guard! success else None;
      rest ← diversify_tdea_parts context key_len input (part + 1) count';
      Some (mac ++ rest)
  end.

(** The low bit of each of the first eight octets is the master key's. *)
Definition keep_version_bits (master_key output : bytes) : bytes :=
  imap (fun i o => if decide (i < 8)%nat
                   then u8 (Z.lor (Z.land o 0xfe) (Z.land master_key.[Z.of_nat i] 0x01))
                   else o) output.

Definition diversify_tdea (master_key : bytes) (key_len : Z) (input : bytes) : option bytes :=
  let part_count := key_len / 8 in
  context ← DesCmac.dfc_des_cmac_context_init (Some master_key) key_len;
  output ← diversify_tdea_parts context key_len input 0 (Z.to_nat part_count);
  Some (keep_version_bits master_key output).

(** Success flag and the octets written at [diversified_key]; [None] when the
    buffer is not touched. *)
Definition dfc_an10922_diversify (algorithm : Z) (master_key : option bytes)
    (master_key_len : Z) (diversification_input : option bytes)
    (diversification_input_len : Z) (diversified_key : bool)
    (diversified_key_capacity : Z) : bool * option bytes :=
  let key_len := dfc_an10922_key_length algorithm in
  let input_max := if algorithm =? DfcAn10922Aes128 then AN10922_AES_INPUT_MAX
                   else AN10922_TDEA_INPUT_MAX in
  let output_available := diversified_key && negb (key_len =? 0) &&
                          (key_len <=? diversified_key_capacity) in
  match master_key, diversification_input with
  | Some mk, Some di =>
      guard! negb ((key_len =? 0) || negb (master_key_len =? key_len) ||
                   (diversification_input_len =? 0) ||
                   (input_max <? diversification_input_len) || negb output_available)
        else (false, if output_available then Some (zeros key_len) else None);
      let mk := slice mk 0 master_key_len in
      let di := slice di 0 diversification_input_len in
      let candidate :=
        if algorithm =? DfcAn10922Aes128 then
          let (success, key) := diversify_aes128 mk di in
          guard! success else None; Some key
        else diversify_tdea mk key_len di in
      match candidate with
      | Some key => (true, Some key)
      | None => (false, Some (zeros key_len))
      end
  | _, _ => (false, if output_available then Some (zeros key_len) else None)
  end.
End Diversify.

(** ** The message and the two-block form *)

(** AN10922's padded message: label and input, completed to two blocks by the
    marker 80 and zeros when it is shorter. *)
Definition an10922_padded (size : nat) (label : Z) (input : bytes) : bytes :=
  let m := label :: input in
  if decide (length m < size)%nat then m ++ 0x80 :: replicate (size - length m - 1) 0 else m.

Lemma an10922_message_padded size label input :
  (2 <= size)%nat -> (1 <= length input <= size - 1)%nat ->
  an10922_message (Z.of_nat size) label (Z.of_nat size - 1) input = an10922_padded size label input.
Proof.
  intros Hs Hi. unfold an10922_message, an10922_padded.
  destruct size as [|size]; [lia|].
  replace (zeros (Z.of_nat (S size))) with (0 :: replicate size 0)
    by (unfold zeros; rewrite Nat2Z.id; done).
  assert (H0 : splice (0 :: replicate size 0) 0 [label] = label :: replicate size 0).
  { unfold splice. cbn [Z.to_nat take app length Nat.add drop]. reflexivity. }
  assert (H1 : splice (label :: replicate size 0) 1 input =
               label :: input ++ replicate (size - length input) 0).
  { unfold splice. change (Z.to_nat 1) with 1%nat. cbn [take app drop Nat.add].
    by rewrite drop_replicate. }
  rewrite H0, H1. cbn [length].
  destruct (zlen input <? Z.of_nat (S size) - 1) eqn:E; bool_facts; unfold zlen in *.
  - rewrite decide_True by lia. unfold splice.
    replace (Z.to_nat (Z.of_nat (length input) + 1)) with (S (length input)) by lia.
    cbn [take app length drop]. rewrite take_app_length.
    replace (S (length input) + 1)%nat with (S (S (length input))) by lia. cbn [drop].
    rewrite drop_app_ge by lia. replace (S (length input) - length input)%nat with 1%nat by lia.
    rewrite drop_replicate. cbn [app]. do 4 f_equal.
  - rewrite decide_False by lia. replace (size - length input)%nat with 0%nat by lia.
    cbn. by rewrite app_nil_r.
Qed.

Lemma length_an10922_padded size label input :
  (2 <= size)%nat -> (1 <= length input <= size - 1)%nat ->
  length (an10922_padded size label input) = size.
Proof.
  intros. unfold an10922_padded. cbn [length]. destruct (decide _).
  - rewrite !length_app. cbn [length]. rewrite length_replicate. lia.
  - cbn [length]. lia.
Qed.

(** CMAC of exactly two blocks: both block calls written out. *)
Definition cmac_two_blocks {C} (bs : nat) (encrypt : C -> bytes -> option bytes)
    (ctx : CmacContext C) (subkey iv message : bytes) : option bytes :=
  value ← encrypt (cipher ctx) (xor_bytes iv (take bs message));
  encrypt (cipher ctx) (xor_bytes value (xor_bytes (drop bs message) subkey)).

Lemma cmac_reference_two_blocks {C} bs (encrypt : C -> bytes -> option bytes) ctx mode iv message :
  (0 < bs)%nat -> length message = (2 * bs)%nat ->
  cmac_reference bs encrypt ctx mode iv message =
  cmac_two_blocks bs encrypt ctx
    match mode with DfcCmacFinalStandard => subkey1 ctx | DfcCmacFinalPrePadded => subkey2 ctx end
    iv message.
Proof.
  intros Hbs Hl. unfold cmac_reference, cmac_two_blocks, chain_message.
  replace ((length message - 1) / bs)%nat with 1%nat
    by (rewrite Hl; apply (Nat.div_unique _ _ 1 (bs - 1)); lia).
  cbn [chain_blocks]. destruct (encrypt _ _) as [v|]; [|done]. cbn [mbind option_bind].
  assert (Hd : length (drop bs message) = bs /\ message <> []).
  { split; [rewrite length_drop; lia|]. intros ->. cbn in Hl. lia. }
  by destruct mode; rewrite decide_True by done.
Qed.

Lemma segment_of_accepted bs message :
  zlen message <= SIZE_MAX - (Z.of_nat bs - 1) -> segments_accepted bs [segment_of message].
Proof.
  intros Hm. split.
  - repeat constructor; cbn; [apply zlen_nonneg | lia | discriminate].
  - cbn. rewrite app_nil_r. unfold segment_octets, segment_of. cbn. by rewrite slice_all.
Qed.

Lemma segment_of_octets message : concat (map segment_octets [segment_of message]) = message.
Proof. cbn. rewrite app_nil_r. apply slice_all. Qed.

(** C7: AES-128 diversification is AN10922's formula: for every input of 1 to 31
    octets the derived key is the two-block CMAC, from a zero vector, of
    [01 || input] padded to 32 octets, its last block masked by K2 when padding
    was added and by K1 when the input filled the message; a cipher failure
    publishes zeros. *)
Theorem dfc_an10922_aes128_formula (M : Mbedtls) (master_key input : bytes)
    (ctx : AesCmac.DfcAesCmacContext)
    (Hkey : zlen master_key = 16) (Hinput : 1 <= zlen input <= 31)
    (Hctx : AesCmac.dfc_aes_cmac_context_init (Some master_key) 16 = Some ctx) :
  dfc_an10922_diversify DfcAn10922Aes128 (Some master_key) 16 (Some input) (zlen input) true 16 =
  match cmac_two_blocks AesCmac.BLOCK_SIZE dfc_crypto_aes_block_encrypt ctx
          (if zlen input <? 31 then subkey2 ctx else subkey1 ctx)
          (zeros 16) (an10922_padded 32 0x01 input) with
  | Some key => (true, Some key)
  | None => (false, Some (zeros 16))
  end.
Proof.
  unfold dfc_an10922_diversify.
  change (dfc_an10922_key_length DfcAn10922Aes128) with 16.
  change (DfcAn10922Aes128 =? DfcAn10922Aes128) with true. unfold AN10922_AES_INPUT_MAX.
  rewrite (proj2 (Z.eqb_neq (zlen input) 0)), (proj2 (Z.ltb_ge 31 (zlen input))) by lia.
  change (16 =? 0) with false. change (16 =? 16) with true. change (16 <=? 16) with true.
  cbn [negb andb orb].
  replace (slice master_key 0 16) with master_key by (rewrite <- Hkey; symmetry; apply slice_all).
  rewrite slice_all. unfold diversify_aes128. rewrite Hctx. unfold AN10922_AES_INPUT_MAX.
  rewrite (an10922_message_padded 32) by (unfold zlen in *; lia).
  assert (Hlen : length (an10922_padded 32 0x01 input) = 32%nat)
    by (apply length_an10922_padded; unfold zlen in *; lia).
  unfold AesCmac.dfc_aes_cmac_context_compute.
  rewrite cmac_context_compute_correct.
  - rewrite segment_of_octets, cmac_reference_two_blocks by (unfold AesCmac.BLOCK_SIZE; lia).
    destruct (zlen input <? 31); by destruct (cmac_two_blocks _ _ _ _ _ _).
  - unfold AesCmac.BLOCK_SIZE. lia.
  - revert Hctx. unfold AesCmac.dfc_aes_cmac_context_init, cmac_context_init.
    destruct (dfc_crypto_aes_block_init _ _) as [c|]; [|done]. cbn [mbind option_bind].
    destruct (cmac_generateSubkeys _ _ _ _) as [[k1 k2]|]; [|done]. by intros [= <-].
  - apply segment_of_accepted. unfold zlen, AesCmac.BLOCK_SIZE, SIZE_MAX. rewrite Hlen. lia.
Qed.

Lemma dfc_an10922_aes128_formula_witness :
  let key := repeat 0x11 16 in
  let input := [0x04; 0x78; 0x2E; 0x21; 0x80; 0x1D; 0x80] in
  exists ctx, AesCmac.dfc_aes_cmac_context_init (Some key) 16 = Some ctx /\
  dfc_an10922_diversify DfcAn10922Aes128 (Some key) 16 (Some input) 7 true 16 =
  match cmac_two_blocks AesCmac.BLOCK_SIZE dfc_crypto_aes_block_encrypt ctx
          (subkey2 ctx) (zeros 16) (an10922_padded 32 0x01 input) with
  | Some k => (true, Some k)
  | None => (false, Some (zeros 16))
  end.
Proof.
  intros key input. eexists. split; [reflexivity|].
  apply (dfc_an10922_aes128_formula xor_mbedtls key input); [reflexivity | vm_compute; split; discriminate | reflexivity].
Defined.

(** ** TDEA *)

Lemma version_bit_merge o m :
  Z.testbit (u8 (Z.lor (Z.land o 0xfe) (Z.land m 0x01))) 0 = Z.testbit m 0.
Proof.
  unfold u8. rewrite <- Z.land_ones by lia.
  rewrite Z.land_spec, Z.lor_spec, !Z.land_spec. cbn.
  by rewrite andb_false_r, !andb_true_r.
Qed.

Lemma diversify_tdea_parts_length {M : Mbedtls} {ML : MbedtlsLaws M} ctx key_len input part n out :
  diversify_tdea_parts ctx key_len input part n = Some out -> length out = (8 * n)%nat.
Proof.
  revert part out. induction n as [|n IH]; intros part out; [by intros [= <-]|].
  cbn [diversify_tdea_parts]. cbv zeta.
  destruct (DesCmac.dfc_des_cmac_context_compute _ _ _ _) as [ok mac] eqn:Hc. destruct ok; [|done].
  destruct (diversify_tdea_parts _ _ _ _ n) as [rest|] eqn:Hr; [|done]. intros [= <-].
  apply IH in Hr. rewrite length_app, Hr.
  enough (length mac = 8)%nat by lia. revert Hc.
  unfold DesCmac.dfc_des_cmac_context_compute, cmac_context_compute.
  match goal with |- context [match ?r with Some _ => _ | None => _ end] => destruct r eqn:E end; [|done].
  intros [= <-]. revert E. destruct (initialized ctx); [|done].
  destruct (cmac_total_length _ _) as [t|]; [|done]. cbn [mbind option_bind].
  destruct (t <=? _); [|done].
  destruct (cmac_absorb_segments _ _ _ _ _) as [st|]; [|done]. cbn [mbind option_bind].
  destruct (cmac_final_block _ _ _ _ _) as [lastb|]; [|done]. apply des_block_crypt_length.
Qed.

(** C8: every successful two- or three-key TDEA diversification publishes exactly
    16 or 24 octets, and the version bit (bit 0) of each of the first eight is the
    master key's: diversification never changes the DESFire key version. *)
Theorem dfc_an10922_tdea_keeps_version (M : Mbedtls) (ML : MbedtlsLaws M) (algorithm : Z)
    (master_key input key : bytes) (capacity : Z)
    (Halg : algorithm = DfcAn10922Tdea2 \/ algorithm = DfcAn10922Tdea3)
    (Hrun : dfc_an10922_diversify algorithm (Some master_key) (zlen master_key)
              (Some input) (zlen input) true capacity = (true, Some key)) :
  zlen key = dfc_an10922_key_length algorithm /\ zlen master_key = zlen key /\
  forall i, 0 <= i < 8 -> Z.testbit key.[i] 0 = Z.testbit master_key.[i] 0.
Proof.
  assert (Hk : dfc_an10922_key_length algorithm = 16 \/ dfc_an10922_key_length algorithm = 24)
    by (destruct Halg as [-> | ->]; [left | right]; reflexivity).
  revert Hrun. unfold dfc_an10922_diversify.
  replace (algorithm =? DfcAn10922Aes128) with false
    by (destruct Halg as [-> | ->]; reflexivity).
  set (key_len := dfc_an10922_key_length algorithm) in *.
  destruct (negb (_ || _ || _ || _ || negb _)) eqn:Hg; [|done]. bool_facts.
  rewrite !slice_all.
  destruct (diversify_tdea master_key key_len input) as [k|] eqn:Hd; [|done]. intros [= ->].
  revert Hd. unfold diversify_tdea.
  destruct (DesCmac.dfc_des_cmac_context_init _ _) as [ctx|]; [|done]. cbn [mbind option_bind].
  destruct (diversify_tdea_parts _ _ _ _ _) as [out|] eqn:Hp; [|done]. intros [= <-].
  apply diversify_tdea_parts_length in Hp.
  assert (Hlen : length (keep_version_bits master_key out) = length out) by apply length_imap.
  assert (Hout : Z.of_nat (length out) = key_len)
    by (rewrite Hp; destruct Hk as [-> | ->]; reflexivity).
  assert (Hz : zlen (keep_version_bits master_key out) = key_len) by (unfold zlen; lia).
  split_and!; [lia | lia |].
  intros i Hi. destruct (lookup_lt_is_Some_2 out (Z.to_nat i)) as [o Ho].
  { destruct Hk; lia. }
  unfold byte_at at 1. unfold keep_version_bits. rewrite list_lookup_imap, Ho.
  cbn [fmap option_fmap option_map default]. rewrite decide_True by lia.
  rewrite Z2Nat.id by lia. apply version_bit_merge.
Qed.

Lemma dfc_an10922_tdea_keeps_version_witness :
  let master_key := repeat 0x55 8 ++ repeat 0xAA 8 in
  let input := [0x04; 0x78; 0x2E; 0x21; 0x80; 0x1D; 0x80] in
  let key := default [] (snd (dfc_an10922_diversify DfcAn10922Tdea2 (Some master_key) 16
                                (Some input) 7 true 16)) in
  zlen key = dfc_an10922_key_length DfcAn10922Tdea2 /\ zlen master_key = zlen key /\
  forall i, 0 <= i < 8 -> Z.testbit key.[i] 0 = Z.testbit master_key.[i] 0.
Proof.
  intros master_key input key.
  apply (dfc_an10922_tdea_keeps_version xor_mbedtls xor_mbedtls_laws DfcAn10922Tdea2
           master_key input key 16); [by left | vm_compute; reflexivity].
Defined.
