(* ===== verification/Pool.v ===== *)
(** The bump pool with compaction shared by file contents, key material and
    key-set metadata ([src/src/dfc_credential.c]).

    Each of the three pools keeps its octets in a fixed array below a used mark,
    hands a record the next free octets, and on release moves the tail down over
    the hole, wipes what it vacated and lowers the offset of every record past the
    hole. [Section Operations] is that code once, over the octets and the used
    mark; [Section Invariant] states when a pool and the slices its records hold
    are consistent, and what a release and an allocation do to every other record. *)

From S2P Require Import Prelude.

(** [DFC_FILE_POOL_NONE], [DFC_KEY_POOL_NONE] and [DFC_KEY_SET_METADATA_POOL_NONE]
    in the default capacities. *)
Definition POOL_NONE : Z := UINT16_MAX.

#[export] Hint Unfold POOL_NONE : dfc_const.

(** A record's slice: offset and length. *)
Abbreviation pool_slice := (Z * Z)%type.

Section Operations.

(** The octets and the used mark of a pool after [freed_len] octets at
    [freed_offset] are released. *)
Definition pool_compact (pool : bytes) (used freed_offset freed_len : Z) : bytes * Z :=
  let tail := used - (freed_offset + freed_len) in
  let pool := if 0 <? tail
              then memmove pool freed_offset (freed_offset + freed_len) tail else pool in
  let used := u16 (used - freed_len) in
  (wipe pool used freed_len, used).

(** The new offset of a record of a compacted pool. *)
Definition shift_offset (freed_offset freed_len offset : Z) : Z :=
  if negb (offset =? POOL_NONE) && (freed_offset <? offset)
  then u16 (offset - freed_len) else offset.

Definition shift_slice (freed_offset freed_len : Z) (s : pool_slice) : pool_slice :=
  (shift_offset freed_offset freed_len (fst s), snd s).

(** [dfc_pool_slice_resolve]: the offset of a usable slice, [POOL_NONE] for an
    empty one, refusal for one that does not lie in the used part. *)
Definition dfc_pool_slice_resolve (offset length used none : Z) : option Z :=
  if length =? 0 then
    if negb (offset =? 0) && negb (offset =? none) then None else Some none
  else if (offset =? none) || (used <? offset) || (used - offset <? length) then None
  else Some offset.

End Operations.

Section Invariant.

(** An empty slice has no octets; a held one lies inside the used part. *)
Definition slice_ok (used : Z) (s : pool_slice) : Prop :=
  (snd s = 0 /\ (fst s = POOL_NONE \/ fst s = 0)) \/
  (0 < snd s /\ 0 <= fst s /\ fst s + snd s <= used).

Definition slices_disjoint (slices : list pool_slice) : Prop :=
  forall i j a b, i <> j -> slices !! i = Some a -> slices !! j = Some b ->
    0 < snd a -> 0 < snd b -> fst a + snd a <= fst b \/ fst b + snd b <= fst a.

Fixpoint total_length (slices : list pool_slice) : Z :=
  match slices with [] => 0 | s :: rest => snd s + total_length rest end.

(** A pool of [size] octets and the slices its records hold: slices lie inside the
    used part and do not overlap, the used mark is exactly their total, and every
    octet above it is zero. *)
Record pool_ok (size : Z) (pool : bytes) (used : Z) (slices : list pool_slice) : Prop := {
  pool_size : zlen pool = size;
  pool_bound : 0 <= used <= size;
  pool_none : size < POOL_NONE;
  pool_slices : Forall (slice_ok used) slices;
  pool_disjoint : slices_disjoint slices;
  pool_total : total_length slices = used;
  pool_clean : forall k, used <= Z.of_nat k < size -> pool !! k = Some 0;
}.

(** What a record reads through its slice. *)
Definition slice_contents (pool : bytes) (s : pool_slice) : bytes := slice pool (fst s) (snd s).

Lemma total_length_insert slices i a b :
  slices !! i = Some a ->
  total_length (<[i:=b]> slices) = total_length slices - snd a + snd b.
Proof.
  revert i. induction slices as [|s slices IH]; intros [|i] Hi; simplify_eq/=; [lia|].
  rewrite IH by done. lia.
Qed.

Lemma total_length_shift off len slices :
  total_length (map (shift_slice off len) slices) = total_length slices.
Proof. induction slices; simpl; congruence. Qed.

Lemma pool_compact_used pool used off len :
  0 <= off -> 0 <= len -> off + len <= used -> used < POOL_NONE ->
  snd (pool_compact pool used off len) = used - len.
Proof. intros. cbn. apply u16_id. dlia. Qed.

Lemma pool_compact_lookup pool used off len k :
  0 <= off -> 0 < len -> off + len <= used -> used <= zlen pool -> used < POOL_NONE ->
  fst (pool_compact pool used off len) !! k =
  if decide (Z.of_nat k < off) then pool !! k
  else if decide (Z.of_nat k < used - len) then pool !! (k + Z.to_nat len)%nat
  else if decide (Z.of_nat k < used) then Some 0
  else pool !! k.
Proof.
  intros H0 Hl Hu Hz Hn. cbn [fst pool_compact].
  rewrite u16_id by dlia. unfold wipe.
  set (moved := if 0 <? used - (off + len) then _ else _).
  assert (Hm : zlen moved = zlen pool /\ forall k, moved !! k =
    if decide (off <= Z.of_nat k < used - len) then pool !! (k + Z.to_nat len)%nat else pool !! k).
  { unfold moved. destruct (0 <? used - (off + len)) eqn:E; bool_facts.
    - unfold memmove.
      assert (Hs : zlen (slice pool (off + len) (used - (off + len))) = used - (off + len))
        by (apply length_slice; lia).
      split; [apply length_splice; lia|]. intros j. rewrite splice_lookup by lia.
      rewrite slice_lookup. unfold zlen in Hs.
      repeat destruct (decide _); try lia; try done. f_equal. lia.
    - split; [done|]. intros j. destruct (decide _); [lia|done]. }
  destruct Hm as [Hml Hm]. pose proof (length_zeros len ltac:(lia)) as Hzl.
  rewrite splice_lookup by lia. rewrite Hm. unfold zeros, zlen in *.
  repeat destruct (decide _); try lia; try done.
  apply lookup_replicate_2. lia.
Qed.

Lemma length_pool_compact pool used off len :
  0 <= off -> 0 < len -> off + len <= used -> used <= zlen pool -> used < POOL_NONE ->
  zlen (fst (pool_compact pool used off len)) = zlen pool.
Proof.
  intros. cbn [fst pool_compact]. rewrite u16_id by dlia. unfold wipe.
  pose proof (length_zeros len ltac:(lia)).
  assert (Hm : zlen (if 0 <? used - (off + len) then memmove pool off (off + len) (used - (off + len))
               else pool) = zlen pool).
  { destruct (0 <? _) eqn:E; [|done]. bool_facts. unfold memmove.
    apply length_splice; [lia|]. rewrite length_slice; lia. }
  rewrite length_splice; [done|lia|]. rewrite Hm. lia.
Qed.

Lemma shift_slice_cases off len used s :
  0 <= off -> 0 < len -> off + len <= used -> used < POOL_NONE -> slice_ok used s ->
  (0 < snd s -> fst s + snd s <= off \/ off + len <= fst s) ->
  shift_slice off len s =
  if decide (0 < snd s /\ off + len <= fst s) then (fst s - len, snd s) else s.
Proof.
  intros H0 Hl Hu Hn Hs Hd. destruct s as [o l]. unfold shift_slice, shift_offset. cbn [fst snd] in *.
  destruct Hs as [[Hz Ho] | (Hp & Ho & Hub)]; cbn [fst snd] in *.
  - rewrite decide_False by lia. destruct Ho as [-> | ->]; cbn [fst snd].
    + by rewrite Z.eqb_refl.
    + rewrite (proj2 (Z.ltb_ge off 0)) by lia. by rewrite andb_false_r.
  - specialize (Hd Hp). rewrite (proj2 (Z.eqb_neq o POOL_NONE)) by lia. cbn [negb andb].
    destruct (decide _) as [[_ Hge]|Hno].
    + rewrite (proj2 (Z.ltb_lt off o)) by lia. rewrite u16_id by dlia. done.
    + rewrite (proj2 (Z.ltb_ge off o)) by lia. done.
Qed.

(** Slices after the record [i], holding [off] and [len], let go of them. *)
Definition slices_release (slices : list pool_slice) (i : nat) (off len : Z) : list pool_slice :=
  map (shift_slice off len) (<[i := (POOL_NONE, 0)]> slices).

Lemma slices_release_lookup slices i j off len s :
  j <> i -> slices !! j = Some s -> slices_release slices i off len !! j = Some (shift_slice off len s).
Proof.
  intros Hij Hj. unfold slices_release. rewrite list_lookup_fmap, list_lookup_insert_ne by done.
  by rewrite Hj.
Qed.

Lemma pool_release_slice size pool used slices i off len s j :
  pool_ok size pool used slices -> slices !! i = Some (off, len) -> 0 < len ->
  j <> i -> slices !! j = Some s ->
  shift_slice off len s = if decide (0 < snd s /\ off + len <= fst s) then (fst s - len, snd s) else s.
Proof.
  intros [Hz Hb Hn Hs Hd Ht Hc] Hi Hl Hij Hj.
  pose proof (Forall_lookup_1 _ _ _ _ Hs Hi) as Hsi.
  destruct Hsi as [[? _]|(_ & Ho & Hu)]; cbn [fst snd] in *; [lia|].
  apply (shift_slice_cases _ _ used); try lia; [by apply (Forall_lookup_1 _ _ _ _ Hs Hj)|].
  intros Hp. destruct (Hd i j (off, len) s); cbn [fst snd] in *; try done; lia.
Qed.

(** A release keeps the pool consistent. *)
Lemma pool_release_ok size pool used slices i off len :
  pool_ok size pool used slices -> slices !! i = Some (off, len) -> 0 < len ->
  pool_ok size (fst (pool_compact pool used off len)) (snd (pool_compact pool used off len))
    (slices_release slices i off len).
Proof.
  intros Hok Hi Hl. pose proof Hok as [Hz Hb Hn Hs Hd Ht Hc].
  pose proof (Forall_lookup_1 _ _ _ _ Hs Hi) as Hsi.
  destruct Hsi as [[? _]|(_ & Ho & Hu)]; cbn [fst snd] in *; [lia|].
  rewrite pool_compact_used by lia.
  assert (Hshift : forall j a, slices_release slices i off len !! j = Some a ->
    a = (POOL_NONE, 0) \/ exists s, j <> i /\ slices !! j = Some s /\
      (a = if decide (0 < snd s /\ off + len <= fst s) then (fst s - len, snd s) else s)).
  { intros j a Ha. unfold slices_release in Ha. rewrite list_lookup_fmap in Ha.
    destruct (decide (j = i)) as [->|Hij].
    - rewrite list_lookup_insert_eq in Ha by (eapply lookup_lt_Some; done). left.
      injection Ha as <-. reflexivity.
    - rewrite list_lookup_insert_ne in Ha by done.
      destruct (slices !! j) as [s|] eqn:Hj; [|done]. injection Ha as <-. right. exists s.
      split_and!; [done|done|]. by eapply pool_release_slice. }
  assert (Hdis : forall j s, j <> i -> slices !! j = Some s -> 0 < snd s ->
    fst s + snd s <= off \/ off + len <= fst s).
  { intros j s Hij Hj Hp. destruct (Hd i j (off, len) s); cbn [fst snd] in *; try done; lia. }
  constructor.
  - rewrite length_pool_compact; lia.
  - lia.
  - lia.
  - apply Forall_lookup_2. intros j a Ha. destruct (Hshift j a Ha) as [-> | (s & Hij & Hj & ->)].
    { left. split; [done|by left]. }
    pose proof (Forall_lookup_1 _ _ _ _ Hs Hj) as [Hs0|Hs1]; [left|right].
    + rewrite decide_False by lia. done.
    + pose proof (Hdis j s Hij Hj). destruct (decide _); cbn [fst snd]; lia.
  - intros j k a b Hjk Ha Hb'. destruct (Hshift j a Ha) as [-> | (s & Hij & Hj & ->)]; [cbn; lia|].
    destruct (Hshift k b Hb') as [-> | (t & Hik & Hk & ->)]; [cbn; lia|].
    pose proof (Hd j k s t Hjk Hj Hk). pose proof (Hdis j s Hij Hj). pose proof (Hdis k t Hik Hk).
    repeat destruct (decide _); cbn [fst snd]; lia.
  - unfold slices_release. rewrite total_length_shift, (total_length_insert _ _ (off, len)) by done.
    cbn [snd]. lia.
  - intros k Hk. rewrite pool_compact_lookup by lia.
    repeat destruct (decide _); try lia; [done|]. apply Hc. lia.
Qed.

(** A release leaves what every other record reads unchanged. *)
Lemma pool_release_contents size pool used slices i j off len s :
  pool_ok size pool used slices -> slices !! i = Some (off, len) -> 0 < len ->
  j <> i -> slices !! j = Some s ->
  slice_contents (fst (pool_compact pool used off len)) (shift_slice off len s) = slice_contents pool s.
Proof.
  intros Hok Hi Hl Hij Hj. rewrite (pool_release_slice _ _ _ _ _ _ _ _ _ Hok Hi Hl Hij Hj).
  pose proof Hok as [Hz Hb Hn Hs Hd Ht Hc].
  destruct (Forall_lookup_1 _ _ _ _ Hs Hi) as [[? _]|(_ & Ho & Hu)]; cbn [fst snd] in *; [lia|].
  unfold slice_contents.
  destruct (Forall_lookup_1 _ _ _ _ Hs Hj) as [[Hz0 _]|(Hp & Ho' & Hu')].
  { rewrite decide_False by lia. by rewrite Hz0, !slice_nil. }
  pose proof (Hd i j (off, len) s) as Hdj. cbn [fst snd] in Hdj.
  destruct (decide _) as [[_ Hge]|Hno]; cbn [fst snd]; apply slice_ext; intros k Hk;
    rewrite pool_compact_lookup by lia; repeat destruct (decide _); try lia; try done.
  f_equal. lia.
  all: exfalso; destruct Hdj as [?|?]; try done; lia.
Qed.

(** Slices after the empty record [i] is handed the next [want] octets. *)
Lemma pool_allocate_ok size pool used slices i o want :
  pool_ok size pool used slices -> slices !! i = Some (o, 0) -> 0 < want -> used + want <= size ->
  pool_ok size (wipe pool used want) (used + want) (<[i := (used, want)]> slices).
Proof.
  intros [Hz Hb Hn Hs Hd Ht Hc] Hi Hw Hf. pose proof (length_zeros want ltac:(lia)) as Hzl.
  assert (Hlk : forall j a, <[i := (used, want)]> slices !! j = Some a ->
    (j = i /\ a = (used, want)) \/ (j <> i /\ slices !! j = Some a)).
  { intros j a Ha. destruct (decide (j = i)) as [->|Hij].
    - rewrite list_lookup_insert_eq in Ha by (eapply lookup_lt_Some; done). left. naive_solver.
    - rewrite list_lookup_insert_ne in Ha by done. by right. }
  constructor.
  - unfold wipe. rewrite length_splice; lia.
  - lia.
  - lia.
  - apply Forall_lookup_2. intros j a Ha. destruct (Hlk j a Ha) as [[_ ->]|[Hij Hj]].
    + right. cbn. lia.
    + destruct (Forall_lookup_1 _ _ _ _ Hs Hj) as [?|?]; [by left | right; lia].
  - intros j k a b Hjk Ha Hb'.
    destruct (Hlk j a Ha) as [[-> ->]|[Hij Hj]], (Hlk k b Hb') as [[-> ->]|[Hik Hk]]; cbn [fst snd];
      intros; try done.
    + destruct (Forall_lookup_1 _ _ _ _ Hs Hk) as [?|?]; lia.
    + destruct (Forall_lookup_1 _ _ _ _ Hs Hj) as [?|?]; lia.
    + by apply (Hd j k).
  - rewrite (total_length_insert _ _ (o, 0)) by done. cbn. lia.
  - intros k Hk. unfold wipe. rewrite splice_lookup by lia.
    unfold zlen in *. repeat destruct (decide _); try lia; apply Hc; lia.
Qed.

Lemma pool_allocate_contents size pool used slices i j o want s :
  pool_ok size pool used slices -> slices !! i = Some (o, 0) -> 0 < want -> used + want <= size ->
  j <> i -> slices !! j = Some s ->
  slice_contents (wipe pool used want) s = slice_contents pool s.
Proof.
  intros [Hz Hb Hn Hs Hd Ht Hc] Hi Hw Hf Hij Hj. pose proof (length_zeros want ltac:(lia)) as Hzl.
  unfold slice_contents, wipe. destruct (Forall_lookup_1 _ _ _ _ Hs Hj) as [[-> _]|?].
  { by rewrite !slice_nil. }
  apply slice_splice_disjoint; lia.
Qed.

(** The new slice reads as zeros. *)
Lemma pool_allocate_zero pool used want :
  0 <= used -> 0 < want -> used + want <= zlen pool ->
  slice_contents (wipe pool used want) (used, want) = zeros want.
Proof.
  intros. unfold slice_contents, wipe. cbn [fst snd].
  pose proof (length_zeros want ltac:(lia)) as Hzl. rewrite <- Hzl at 2.
  apply slice_splice_same; lia.
Qed.

(** A slice a record really holds resolves to its offset. *)
Lemma slice_resolve_ok used s :
  used < POOL_NONE -> slice_ok used s ->
  dfc_pool_slice_resolve (fst s) (snd s) used POOL_NONE =
  Some (if snd s =? 0 then POOL_NONE else fst s).
Proof.
  intros Hn Hs. unfold dfc_pool_slice_resolve. destruct s as [o l]; cbn [fst snd] in *.
  destruct Hs as [[Hz Ho] | (Hp & Ho & Hu)]; cbn [fst snd] in *.
  - subst l. cbn. destruct Ho as [-> | ->]; done.
  - rewrite (proj2 (Z.eqb_neq l 0)), (proj2 (Z.eqb_neq o POOL_NONE)),
      (proj2 (Z.ltb_ge used o)), (proj2 (Z.ltb_ge (used - o) l)) by lia. done.
Qed.


(** An empty record may hold either marker of emptiness. *)
Lemma pool_set_empty size pool used slices i s s' :
  pool_ok size pool used slices -> slices !! i = Some s ->
  snd s = 0 -> snd s' = 0 -> (fst s' = POOL_NONE \/ fst s' = 0) ->
  pool_ok size pool used (<[i := s']> slices).
Proof.
  intros [Hz Hb Hn Hs Hd Ht Hc] Hi H0 H0' Ho. constructor; try done.
  - apply Forall_insert; [done|]. by left.
  - intros j k a b Hjk Ha Hb' Hpa Hpb.
    apply list_lookup_insert_Some in Ha as [(-> & <- & _)|[_ Ha]]; [lia|].
    apply list_lookup_insert_Some in Hb' as [(-> & <- & _)|[_ Hb']]; [lia|].
    by apply (Hd j k).
  - rewrite (total_length_insert _ _ s) by done. lia.
Qed.

Lemma total_length_app l k : total_length (l ++ k) = total_length l + total_length k.
Proof. induction l as [|s l IH]; simpl; [done|]. rewrite IH. lia. Qed.

Lemma total_length_delete slices i s :
  slices !! i = Some s -> total_length (delete i slices) = total_length slices - snd s.
Proof.
  revert i. induction slices as [|t slices IH]; intros [|i] Hi; simplify_eq/=; [lia|].
  rewrite (IH i) by done. lia.
Qed.

(** A record without octets may leave the pool. *)
Lemma pool_delete_ok size pool used slices i s :
  pool_ok size pool used slices -> slices !! i = Some s -> snd s = 0 ->
  pool_ok size pool used (delete i slices).
Proof.
  intros [Hz Hb Hn Hs Hd Ht Hc] Hi H0. constructor; try done.
  - by apply Forall_delete.
  - intros j k a b Hjk Ha Hb' Hpa Hpb. rewrite !list_lookup_delete in Ha, Hb'.
    eapply Hd; [|exact Ha|exact Hb'|done|done]. repeat case_decide; lia.
  - rewrite (total_length_delete _ _ s) by done. lia.
Qed.

(** A record without octets may join it. *)
Lemma pool_snoc_ok size pool used slices :
  pool_ok size pool used slices -> pool_ok size pool used (slices ++ [(POOL_NONE, 0)]).
Proof.
  intros [Hz Hb Hn Hs Hd Ht Hc]. constructor; try done.
  - apply Forall_app. split; [done|]. constructor; [|done]. left. split; [done|by left].
  - intros j k a b Hjk Ha Hb' Hpa Hpb.
    apply lookup_app_Some in Ha as [Ha|[_ Ha]]; [|apply list_lookup_singleton_Some in Ha as [_ <-]; cbn in *; lia].
    apply lookup_app_Some in Hb' as [Hb'|[_ Hb']]; [|apply list_lookup_singleton_Some in Hb' as [_ <-]; cbn in *; lia].
    by apply (Hd j k).
  - rewrite total_length_app. cbn. lia.
Qed.

(** A record without octets may sit anywhere in the array. *)
Lemma pool_undelete_ok size pool used slices i s :
  pool_ok size pool used (delete i slices) -> slices !! i = Some s -> snd s = 0 ->
  (fst s = POOL_NONE \/ fst s = 0) -> pool_ok size pool used slices.
Proof.
  intros [Hz Hb Hn Hs Hd Ht Hc] Hi H0 Ho.
  assert (Hlk : forall j a, slices !! j = Some a -> j <> i ->
    delete i slices !! (if decide (j < i)%nat then j else pred j) = Some a).
  { intros j a Ha Hj. rewrite list_lookup_delete. repeat case_decide; try lia; [done|].
    by replace (S (pred j)) with j by lia. }
  constructor; try done.
  - apply Forall_lookup_2. intros j a Ha. destruct (decide (j = i)) as [->|Hj].
    + simplify_eq. left. done.
    + by apply (Forall_lookup_1 _ _ _ _ Hs (Hlk j a Ha Hj)).
  - intros j k a b Hjk Ha Hb' Hpa Hpb.
    destruct (decide (j = i)) as [->|Hj]; [simplify_eq; lia|].
    destruct (decide (k = i)) as [->|Hk]; [simplify_eq; lia|].
    eapply Hd; [|exact (Hlk j a Ha Hj)|exact (Hlk k b Hb' Hk)|done|done].
    repeat case_decide; lia.
  - rewrite (total_length_delete _ _ s Hi) in Ht. lia.
Qed.

(** *** The last slice grows in place *)

Section Extend.
Context (size : Z) (pool : bytes) (used : Z) (slices : list pool_slice) (i : nat) (off len grow : Z).
Hypothesis Hok : pool_ok size pool used slices.
Hypothesis Hi : slices !! i = Some (off, len).
Hypothesis Hpos : 0 < len.
Hypothesis Hlast : off + len = used.
Hypothesis Hgrow : 0 < grow.
Hypothesis Hfit : used + grow <= size.

Lemma pool_extend_ok :
  pool_ok size (wipe pool used grow) (used + grow) (<[i := (off, len + grow)]> slices).
Proof.
  destruct Hok as [Hz Hb Hn Hs Hd Ht Hc]. pose proof (length_zeros grow ltac:(lia)) as Hzl.
  destruct (Forall_lookup_1 _ _ _ _ Hs Hi) as [[? _]|(_ & Ho & _)]; cbn [fst snd] in *; [lia|].
  assert (Hlk : forall j a, <[i := (off, len + grow)]> slices !! j = Some a ->
    (j = i /\ a = (off, len + grow)) \/ (j <> i /\ slices !! j = Some a)).
  { intros j a Ha. destruct (decide (j = i)) as [->|Hij].
    - rewrite list_lookup_insert_eq in Ha by (eapply lookup_lt_Some; done). left. naive_solver.
    - rewrite list_lookup_insert_ne in Ha by done. by right. }
  assert (Hdis : forall j a, j <> i -> slices !! j = Some a -> 0 < snd a -> fst a + snd a <= off).
  { intros j a Hj Ha Hp. pose proof (Hd i j (off, len) a) as Hij. cbn [fst snd] in Hij.
    destruct (Forall_lookup_1 _ _ _ _ Hs Ha) as [?|?]; [lia|].
    destruct Hij as [?|?]; try done; try lia. }
  constructor.
  - unfold wipe. rewrite length_splice; lia.
  - lia.
  - lia.
  - apply Forall_lookup_2. intros j a Ha. destruct (Hlk j a Ha) as [[_ ->]|[Hij Hj]].
    + right. cbn. lia.
    + destruct (Forall_lookup_1 _ _ _ _ Hs Hj) as [?|?]; [by left | right; lia].
  - intros j k a b Hjk Ha Hb'.
    destruct (Hlk j a Ha) as [[-> ->]|[Hij Hj]], (Hlk k b Hb') as [[-> ->]|[Hik Hk]]; cbn [fst snd];
      intros; try done.
    + right. by eapply Hdis.
    + left. by eapply Hdis.
    + by apply (Hd j k).
  - rewrite (total_length_insert _ _ (off, len)) by done. cbn. lia.
  - intros k Hk. unfold wipe. rewrite splice_lookup by lia.
    unfold zlen in *. repeat destruct (decide _); try lia; apply Hc; lia.
Qed.

Lemma pool_extend_others j s :
  j <> i -> slices !! j = Some s -> slice_contents (wipe pool used grow) s = slice_contents pool s.
Proof.
  destruct Hok as [Hz Hb Hn Hs Hd Ht Hc]. intros Hij Hj. pose proof (length_zeros grow ltac:(lia)) as Hzl.
  unfold slice_contents, wipe. destruct (Forall_lookup_1 _ _ _ _ Hs Hj) as [[-> _]|?].
  { by rewrite !slice_nil. }
  apply slice_splice_disjoint; lia.
Qed.

(** Its octets keep, zeros follow. *)
Lemma pool_extend_self :
  slice_contents (wipe pool used grow) (off, len + grow) = slice_contents pool (off, len) ++ zeros grow.
Proof.
  destruct Hok as [Hz Hb Hn Hs Hd Ht Hc]. pose proof (length_zeros grow ltac:(lia)) as Hzl.
  destruct (Forall_lookup_1 _ _ _ _ Hs Hi) as [[? _]|(_ & Ho & _)]; cbn [fst snd] in *; [lia|].
  unfold slice_contents, wipe. cbn [fst snd].
  assert (Hl : zlen (slice pool off len) = len) by (apply length_slice; lia).
  apply list_eq. intros k. rewrite slice_lookup, splice_lookup by lia. unfold zlen in *.
  destruct (decide (Z.of_nat k < len)).
  - rewrite decide_True, decide_True, lookup_app_l, slice_lookup, decide_True by lia. done.
  - rewrite lookup_app_r by lia. destruct (decide (Z.of_nat k < len + grow)).
    + rewrite decide_True, decide_False, decide_True by lia. f_equal. lia.
    + rewrite decide_False by lia. symmetry. apply lookup_ge_None. lia.
Qed.

End Extend.

(** *** Pools after a reset *)

Lemma zeros_lookup n k : Z.of_nat k < n -> zeros n !! k = Some 0.
Proof. intros. apply lookup_replicate_2. lia. Qed.

Lemma total_length_empty slices : Forall (eq (POOL_NONE, 0)) slices -> total_length slices = 0.
Proof. induction 1 as [|s slices <- _ IH]; cbn; lia. Qed.

(** A wiped pool whose records are all empty. *)
Lemma pool_empty_ok size slices :
  0 <= size < POOL_NONE -> Forall (eq (POOL_NONE, 0)) slices -> pool_ok size (zeros size) 0 slices.
Proof.
  intros Hs He. constructor; try lia.
  - apply length_zeros. lia.
  - eapply Forall_impl; [|exact He]. intros s <-. left. split; [done|by left].
  - intros i j a b _ Ha _ Hp. pose proof (Forall_lookup_1 _ _ _ _ He Ha) as <-. cbn in Hp. lia.
  - by apply total_length_empty.
  - intros k Hk. apply zeros_lookup. lia.
Qed.

(** A pool whose first record alone holds octets, at its head. *)
Lemma pool_first_ok size d slices :
  0 < zlen d <= size -> size < POOL_NONE -> Forall (eq (POOL_NONE, 0)) slices ->
  pool_ok size (d ++ zeros (size - zlen d)) (zlen d) ((0, zlen d) :: slices).
Proof.
  intros Hd Hs He. constructor; try lia.
  - rewrite zlen_app, length_zeros; lia.
  - constructor; [right; cbn; lia|]. eapply Forall_impl; [|exact He]. intros s <-. left.
    split; [done|by left].
  - intros i j a b Hij Ha Hb Hpa Hpb.
    assert (Hz : forall i a, ((0, zlen d) :: slices) !! i = Some a -> 0 < snd a -> i = O).
    { intros [|i'] a' Ha' Hp'; [done|]. cbn in Ha'. pose proof (Forall_lookup_1 _ _ _ _ He Ha') as <-.
      cbn in Hp'. lia. }
    rewrite (Hz i a Ha Hpa), (Hz j b Hb Hpb) in Hij. done.
  - cbn [total_length snd]. rewrite total_length_empty by done. lia.
  - intros k Hk. unfold zlen in *. rewrite lookup_app_r by lia. apply zeros_lookup. lia.
Qed.

(** Wiping the used part of a consistent pool clears it. *)
Lemma pool_wipe_all size pool used slices :
  pool_ok size pool used slices -> (if 0 <? used then wipe pool 0 used else pool) = zeros size.
Proof.
  intros [Hz Hb Hn Hs Hd Ht Hc].
  assert (Hall : forall k, Z.of_nat k < size -> (if 0 <? used then wipe pool 0 used else pool) !! k = Some 0).
  { intros k Hk. destruct (0 <? used) eqn:E; bool_facts; [|apply Hc; lia].
    unfold wipe. pose proof (length_zeros used ltac:(lia)) as Hl. rewrite splice_lookup by lia.
    unfold zlen in *. repeat case_decide; try lia; [|apply Hc; lia]. apply zeros_lookup. lia. }
  assert (Hlen : zlen (if 0 <? used then wipe pool 0 used else pool) = size).
  { destruct (0 <? used); [|done]. unfold wipe. rewrite length_splice; [done|lia|].
    rewrite length_zeros; lia. }
  unfold zlen in Hlen. apply list_eq. intros k. destruct (decide (Z.of_nat k < size)).
  - rewrite Hall, zeros_lookup by done. done.
  - rewrite !(proj2 (lookup_ge_None _ _)); [done| |lia].
    pose proof (length_zeros size ltac:(lia)) as Hl. unfold zlen in Hl. lia.
Qed.

End Invariant.
