(* ===== verification/CredentialData.v ===== *)
(** The credential data model: the structs of [src/src/dfc_credential.h] in the
    default build (full EV3 profile, every feature compiled in).

    Structs are records with the C field names, prefixed by [file_], [app_] or
    [picc_] where two structs share one. The file-state union is a sum: its arm is
    the one the file type selects, and a zeroed union reads as zero through every
    arm. Arrays keep their C capacity, so slots past [num_apps] and [num_files]
    exist. The PICC settings no function of [dfc_credential.c] computes with are
    grouped in [DfcPiccConfiguration]. Each [set_*] is one field assignment. *)

From S2P Require Import Prelude Common Pool.

Definition DFC_MAX_KEYS : Z := 14.
Definition DFC_MAX_KEY_LEN : Z := 24.
Definition DFC_MAX_APPS : Z := 28.
Definition DFC_MAX_FILES : Z := 32.
Definition DFC_FILE_POOL_SIZE : Z := 8192.
Definition DFC_MAX_FILE_DATA : Z := 2048.
Definition DFC_KEY_POOL_SIZE : Z := 4096.
Definition DFC_KEY_SET_METADATA_POOL_SIZE : Z :=
  DFC_KEY_POOL_SIZE / 32 * 7 + (DFC_KEY_POOL_SIZE mod 32 * 7 + 31) / 32.
Definition DFC_BLANK_FILE_SIZE : Z := 256.
Definition DFC_DEFAULT_CARD_STORAGE : Z := 2048.
Definition DFC_PICC_ATS_MAX : Z := 20.
Definition DFC_EV1_MAX_KEYS_PER_APP : Z := 14.
Definition DFC_KEY_SET_MINIMUM_COUNT : Z := 2.
Definition DFC_MAX_KEY_SETS : Z := 16.
Definition DFC_FILE_OWNER_PICC : Z := UINT8_MAX.
Definition DFC_COMM_PLAIN : Z := 0x00.
Definition DFC_FILE_TYPE_STANDARD_DATA : Z := 0x00.
Definition DFC_FILE_TYPE_BACKUP_DATA : Z := 0x01.
Definition DFC_FILE_TYPE_VALUE : Z := 0x02.
Definition DFC_FILE_TYPE_LINEAR_RECORD : Z := 0x03.
Definition DFC_FILE_TYPE_CYCLIC_RECORD : Z := 0x04.
Definition DFC_FILE_TYPE_TRANSACTION_MAC : Z := 0x05.
Definition DFC_FILE_POOL_NONE : Z := POOL_NONE.
Definition DFC_KEY_POOL_NONE : Z := POOL_NONE.
Definition DFC_KEY_SET_METADATA_POOL_NONE : Z := POOL_NONE.

#[export] Hint Unfold DFC_MAX_KEYS DFC_MAX_KEY_LEN DFC_MAX_APPS DFC_MAX_FILES
  DFC_FILE_POOL_SIZE DFC_MAX_FILE_DATA DFC_KEY_POOL_SIZE DFC_KEY_SET_METADATA_POOL_SIZE
  DFC_BLANK_FILE_SIZE DFC_EV1_MAX_KEYS_PER_APP DFC_KEY_SET_MINIMUM_COUNT DFC_MAX_KEY_SETS
  DFC_FILE_OWNER_PICC DFC_FILE_POOL_NONE DFC_KEY_POOL_NONE
  DFC_KEY_SET_METADATA_POOL_NONE : dfc_const.

(** ** File states *)

(** Secure dynamic messaging settings of a standard data file. *)
Record DfcSdmSettings := {
  sdm_flags : Z;
  sdm_options : Z;
  sdm_access_rights : Z;
  uid_offset : Z;
  counter_offset : Z;
  picc_data_offset : Z;
  mac_input_offset : Z;
  encrypted_file_offset : Z;
  encrypted_file_length : Z;
  mac_offset : Z;
  counter_limit : Z;
}.

Definition set_sdm_flags (v : Z) (r : DfcSdmSettings) : DfcSdmSettings :=
  Build_DfcSdmSettings v (sdm_options r) (sdm_access_rights r) (uid_offset r)
    (counter_offset r) (picc_data_offset r) (mac_input_offset r) (encrypted_file_offset r)
    (encrypted_file_length r) (mac_offset r) (counter_limit r).

(** A value file: its limits, its value and the pending transaction on it. *)
Record DfcValueFileState := {
  lower_limit : Z;
  upper_limit : Z;
  current : Z;
  pending_delta : Z;
  pending_value : Z;
  limited_credit_value : Z;
  limited_credit_pending : Z;
  limited_credit : Z;
  value_pending : bool;
  pending_absolute : bool;
}.

(** A record file. *)
Record DfcRecordFileState := {
  record_size : Z;
  max_records : Z;
  record_count : Z;
}.

(** A transaction MAC file. *)
Record DfcTransactionMacFileState := {
  tmac_counter : Z;
  tmac_key : bytes;
  tmac_mac : bytes;
  previous_reader_id : bytes;
  tmac_key_type : Z;
  tmac_key_version : Z;
}.

(** A standard or backup data file. *)
Record DfcDataFileState := {
  declared_size : Z;
  sdm : DfcSdmSettings;
  sdm_read_counter : Z;
}.

Definition set_declared_size (v : Z) (r : DfcDataFileState) : DfcDataFileState :=
  Build_DfcDataFileState v (sdm r) (sdm_read_counter r).

Definition set_sdm (v : DfcSdmSettings) (r : DfcDataFileState) : DfcDataFileState :=
  Build_DfcDataFileState (declared_size r) v (sdm_read_counter r).

Definition zero_sdm : DfcSdmSettings := Build_DfcSdmSettings 0 0 0 0 0 0 0 0 0 0 0.
Definition zero_data : DfcDataFileState := Build_DfcDataFileState 0 zero_sdm 0.
Definition zero_record : DfcRecordFileState := Build_DfcRecordFileState 0 0 0.

(** The union: [StateZero] is the union after [memset]. *)
Inductive DfcFileState :=
| StateZero
| StateData (d : DfcDataFileState)
| StateValue (v : DfcValueFileState)
| StateRecord (r : DfcRecordFileState)
| StateTransactionMac (t : DfcTransactionMacFileState).

Definition state_data (s : DfcFileState) : DfcDataFileState :=
  match s with StateData d => d | _ => zero_data end.

Definition state_record (s : DfcFileState) : DfcRecordFileState :=
  match s with StateRecord r => r | _ => zero_record end.

(** A file: its owner, its slice of the file pool and its settings. *)
Record DfcFile := {
  file_app_index : Z;
  data_offset : Z;
  data_len : Z;
  access_rights : Z;
  file_iso_file_id : Z;
  number : Z;
  file_type : Z;
  comm_settings : Z;
  file_has_iso_file_id : bool;
  contents_complete : bool;
  transaction_pending : bool;
  state : DfcFileState;
}.

Definition set_file_app_index (v : Z) (r : DfcFile) : DfcFile :=
  Build_DfcFile v (data_offset r) (data_len r) (access_rights r) (file_iso_file_id r)
    (number r) (file_type r) (comm_settings r) (file_has_iso_file_id r) (contents_complete
    r) (transaction_pending r) (state r).

Definition set_data_offset (v : Z) (r : DfcFile) : DfcFile :=
  Build_DfcFile (file_app_index r) v (data_len r) (access_rights r) (file_iso_file_id r)
    (number r) (file_type r) (comm_settings r) (file_has_iso_file_id r) (contents_complete
    r) (transaction_pending r) (state r).

Definition set_data_len (v : Z) (r : DfcFile) : DfcFile :=
  Build_DfcFile (file_app_index r) (data_offset r) v (access_rights r) (file_iso_file_id r)
    (number r) (file_type r) (comm_settings r) (file_has_iso_file_id r) (contents_complete
    r) (transaction_pending r) (state r).

Definition set_access_rights (v : Z) (r : DfcFile) : DfcFile :=
  Build_DfcFile (file_app_index r) (data_offset r) (data_len r) v (file_iso_file_id r)
    (number r) (file_type r) (comm_settings r) (file_has_iso_file_id r) (contents_complete
    r) (transaction_pending r) (state r).

Definition set_number (v : Z) (r : DfcFile) : DfcFile :=
  Build_DfcFile (file_app_index r) (data_offset r) (data_len r) (access_rights r)
    (file_iso_file_id r) v (file_type r) (comm_settings r) (file_has_iso_file_id r)
    (contents_complete r) (transaction_pending r) (state r).

Definition set_file_type (v : Z) (r : DfcFile) : DfcFile :=
  Build_DfcFile (file_app_index r) (data_offset r) (data_len r) (access_rights r)
    (file_iso_file_id r) (number r) v (comm_settings r) (file_has_iso_file_id r)
    (contents_complete r) (transaction_pending r) (state r).

Definition set_comm_settings (v : Z) (r : DfcFile) : DfcFile :=
  Build_DfcFile (file_app_index r) (data_offset r) (data_len r) (access_rights r)
    (file_iso_file_id r) (number r) (file_type r) v (file_has_iso_file_id r)
    (contents_complete r) (transaction_pending r) (state r).

Definition set_contents_complete (v : bool) (r : DfcFile) : DfcFile :=
  Build_DfcFile (file_app_index r) (data_offset r) (data_len r) (access_rights r)
    (file_iso_file_id r) (number r) (file_type r) (comm_settings r) (file_has_iso_file_id r)
    v (transaction_pending r) (state r).

Definition set_state (v : DfcFileState) (r : DfcFile) : DfcFile :=
  Build_DfcFile (file_app_index r) (data_offset r) (data_len r) (access_rights r)
    (file_iso_file_id r) (number r) (file_type r) (comm_settings r) (file_has_iso_file_id r)
    (contents_complete r) (transaction_pending r) v.

Definition zero_file : DfcFile := Build_DfcFile 0 0 0 0 0 0 0 0 false false false StateZero.

(** An application: its key slice, its key-set metadata slice and its settings. *)
Record DfcApplication := {
  app_key_offset : Z;
  app_key_pool_len : Z;
  iso_aid_len : Z;
  app_num_keys : Z;
  app_key_len : Z;
  app_key_storage_len : Z;
  key_set_metadata_offset : Z;
  key_set_metadata_len : Z;
  app_iso_file_id : Z;
  delegated_slot_number : Z;
  delegated_quota_limit : Z;
  delegated_free_blocks : Z;
  delegated_slot_version : Z;
  delegated : bool;
  delegated_format_disabled : bool;
  aid : bytes;
  iso_aid : bytes;
  app_has_iso_file_id : bool;
  app_key_settings_1 : Z;
  app_key_settings_2 : Z;
  app_auth_command : Z;
  has_auth_commands : bool;
  auth_commands : Z;
  has_preferred_auth_command : bool;
  preferred_auth_command : Z;
  has_sm_disable : bool;
  sm_disable : Z;
  app_key_versions : bytes;
  num_key_sets : Z;
  max_key_size : Z;
  key_set_settings : Z;
  has_capability_data : bool;
  capability_data : bytes;
}.

Definition set_app_key_offset (v : Z) (r : DfcApplication) : DfcApplication :=
  Build_DfcApplication v (app_key_pool_len r) (iso_aid_len r) (app_num_keys r) (app_key_len
    r) (app_key_storage_len r) (key_set_metadata_offset r) (key_set_metadata_len r)
    (app_iso_file_id r) (delegated_slot_number r) (delegated_quota_limit r)
    (delegated_free_blocks r) (delegated_slot_version r) (delegated r)
    (delegated_format_disabled r) (aid r) (iso_aid r) (app_has_iso_file_id r)
    (app_key_settings_1 r) (app_key_settings_2 r) (app_auth_command r) (has_auth_commands r)
    (auth_commands r) (has_preferred_auth_command r) (preferred_auth_command r)
    (has_sm_disable r) (sm_disable r) (app_key_versions r) (num_key_sets r) (max_key_size r)
    (key_set_settings r) (has_capability_data r) (capability_data r).

Definition set_app_key_pool_len (v : Z) (r : DfcApplication) : DfcApplication :=
  Build_DfcApplication (app_key_offset r) v (iso_aid_len r) (app_num_keys r) (app_key_len r)
    (app_key_storage_len r) (key_set_metadata_offset r) (key_set_metadata_len r)
    (app_iso_file_id r) (delegated_slot_number r) (delegated_quota_limit r)
    (delegated_free_blocks r) (delegated_slot_version r) (delegated r)
    (delegated_format_disabled r) (aid r) (iso_aid r) (app_has_iso_file_id r)
    (app_key_settings_1 r) (app_key_settings_2 r) (app_auth_command r) (has_auth_commands r)
    (auth_commands r) (has_preferred_auth_command r) (preferred_auth_command r)
    (has_sm_disable r) (sm_disable r) (app_key_versions r) (num_key_sets r) (max_key_size r)
    (key_set_settings r) (has_capability_data r) (capability_data r).

Definition set_app_num_keys (v : Z) (r : DfcApplication) : DfcApplication :=
  Build_DfcApplication (app_key_offset r) (app_key_pool_len r) (iso_aid_len r) v
    (app_key_len r) (app_key_storage_len r) (key_set_metadata_offset r)
    (key_set_metadata_len r) (app_iso_file_id r) (delegated_slot_number r)
    (delegated_quota_limit r) (delegated_free_blocks r) (delegated_slot_version r)
    (delegated r) (delegated_format_disabled r) (aid r) (iso_aid r) (app_has_iso_file_id r)
    (app_key_settings_1 r) (app_key_settings_2 r) (app_auth_command r) (has_auth_commands r)
    (auth_commands r) (has_preferred_auth_command r) (preferred_auth_command r)
    (has_sm_disable r) (sm_disable r) (app_key_versions r) (num_key_sets r) (max_key_size r)
    (key_set_settings r) (has_capability_data r) (capability_data r).

Definition set_app_key_len (v : Z) (r : DfcApplication) : DfcApplication :=
  Build_DfcApplication (app_key_offset r) (app_key_pool_len r) (iso_aid_len r) (app_num_keys
    r) v (app_key_storage_len r) (key_set_metadata_offset r) (key_set_metadata_len r)
    (app_iso_file_id r) (delegated_slot_number r) (delegated_quota_limit r)
    (delegated_free_blocks r) (delegated_slot_version r) (delegated r)
    (delegated_format_disabled r) (aid r) (iso_aid r) (app_has_iso_file_id r)
    (app_key_settings_1 r) (app_key_settings_2 r) (app_auth_command r) (has_auth_commands r)
    (auth_commands r) (has_preferred_auth_command r) (preferred_auth_command r)
    (has_sm_disable r) (sm_disable r) (app_key_versions r) (num_key_sets r) (max_key_size r)
    (key_set_settings r) (has_capability_data r) (capability_data r).

Definition set_app_key_storage_len (v : Z) (r : DfcApplication) : DfcApplication :=
  Build_DfcApplication (app_key_offset r) (app_key_pool_len r) (iso_aid_len r) (app_num_keys
    r) (app_key_len r) v (key_set_metadata_offset r) (key_set_metadata_len r)
    (app_iso_file_id r) (delegated_slot_number r) (delegated_quota_limit r)
    (delegated_free_blocks r) (delegated_slot_version r) (delegated r)
    (delegated_format_disabled r) (aid r) (iso_aid r) (app_has_iso_file_id r)
    (app_key_settings_1 r) (app_key_settings_2 r) (app_auth_command r) (has_auth_commands r)
    (auth_commands r) (has_preferred_auth_command r) (preferred_auth_command r)
    (has_sm_disable r) (sm_disable r) (app_key_versions r) (num_key_sets r) (max_key_size r)
    (key_set_settings r) (has_capability_data r) (capability_data r).

Definition set_key_set_metadata_offset (v : Z) (r : DfcApplication) : DfcApplication :=
  Build_DfcApplication (app_key_offset r) (app_key_pool_len r) (iso_aid_len r) (app_num_keys
    r) (app_key_len r) (app_key_storage_len r) v (key_set_metadata_len r) (app_iso_file_id
    r) (delegated_slot_number r) (delegated_quota_limit r) (delegated_free_blocks r)
    (delegated_slot_version r) (delegated r) (delegated_format_disabled r) (aid r) (iso_aid
    r) (app_has_iso_file_id r) (app_key_settings_1 r) (app_key_settings_2 r)
    (app_auth_command r) (has_auth_commands r) (auth_commands r) (has_preferred_auth_command
    r) (preferred_auth_command r) (has_sm_disable r) (sm_disable r) (app_key_versions r)
    (num_key_sets r) (max_key_size r) (key_set_settings r) (has_capability_data r)
    (capability_data r).

Definition set_key_set_metadata_len (v : Z) (r : DfcApplication) : DfcApplication :=
  Build_DfcApplication (app_key_offset r) (app_key_pool_len r) (iso_aid_len r) (app_num_keys
    r) (app_key_len r) (app_key_storage_len r) (key_set_metadata_offset r) v
    (app_iso_file_id r) (delegated_slot_number r) (delegated_quota_limit r)
    (delegated_free_blocks r) (delegated_slot_version r) (delegated r)
    (delegated_format_disabled r) (aid r) (iso_aid r) (app_has_iso_file_id r)
    (app_key_settings_1 r) (app_key_settings_2 r) (app_auth_command r) (has_auth_commands r)
    (auth_commands r) (has_preferred_auth_command r) (preferred_auth_command r)
    (has_sm_disable r) (sm_disable r) (app_key_versions r) (num_key_sets r) (max_key_size r)
    (key_set_settings r) (has_capability_data r) (capability_data r).

Definition set_aid (v : bytes) (r : DfcApplication) : DfcApplication :=
  Build_DfcApplication (app_key_offset r) (app_key_pool_len r) (iso_aid_len r) (app_num_keys
    r) (app_key_len r) (app_key_storage_len r) (key_set_metadata_offset r)
    (key_set_metadata_len r) (app_iso_file_id r) (delegated_slot_number r)
    (delegated_quota_limit r) (delegated_free_blocks r) (delegated_slot_version r)
    (delegated r) (delegated_format_disabled r) v (iso_aid r) (app_has_iso_file_id r)
    (app_key_settings_1 r) (app_key_settings_2 r) (app_auth_command r) (has_auth_commands r)
    (auth_commands r) (has_preferred_auth_command r) (preferred_auth_command r)
    (has_sm_disable r) (sm_disable r) (app_key_versions r) (num_key_sets r) (max_key_size r)
    (key_set_settings r) (has_capability_data r) (capability_data r).

Definition set_app_key_settings_1 (v : Z) (r : DfcApplication) : DfcApplication :=
  Build_DfcApplication (app_key_offset r) (app_key_pool_len r) (iso_aid_len r) (app_num_keys
    r) (app_key_len r) (app_key_storage_len r) (key_set_metadata_offset r)
    (key_set_metadata_len r) (app_iso_file_id r) (delegated_slot_number r)
    (delegated_quota_limit r) (delegated_free_blocks r) (delegated_slot_version r)
    (delegated r) (delegated_format_disabled r) (aid r) (iso_aid r) (app_has_iso_file_id r)
    v (app_key_settings_2 r) (app_auth_command r) (has_auth_commands r) (auth_commands r)
    (has_preferred_auth_command r) (preferred_auth_command r) (has_sm_disable r) (sm_disable
    r) (app_key_versions r) (num_key_sets r) (max_key_size r) (key_set_settings r)
    (has_capability_data r) (capability_data r).

Definition set_app_key_settings_2 (v : Z) (r : DfcApplication) : DfcApplication :=
  Build_DfcApplication (app_key_offset r) (app_key_pool_len r) (iso_aid_len r) (app_num_keys
    r) (app_key_len r) (app_key_storage_len r) (key_set_metadata_offset r)
    (key_set_metadata_len r) (app_iso_file_id r) (delegated_slot_number r)
    (delegated_quota_limit r) (delegated_free_blocks r) (delegated_slot_version r)
    (delegated r) (delegated_format_disabled r) (aid r) (iso_aid r) (app_has_iso_file_id r)
    (app_key_settings_1 r) v (app_auth_command r) (has_auth_commands r) (auth_commands r)
    (has_preferred_auth_command r) (preferred_auth_command r) (has_sm_disable r) (sm_disable
    r) (app_key_versions r) (num_key_sets r) (max_key_size r) (key_set_settings r)
    (has_capability_data r) (capability_data r).

Definition set_app_auth_command (v : Z) (r : DfcApplication) : DfcApplication :=
  Build_DfcApplication (app_key_offset r) (app_key_pool_len r) (iso_aid_len r) (app_num_keys
    r) (app_key_len r) (app_key_storage_len r) (key_set_metadata_offset r)
    (key_set_metadata_len r) (app_iso_file_id r) (delegated_slot_number r)
    (delegated_quota_limit r) (delegated_free_blocks r) (delegated_slot_version r)
    (delegated r) (delegated_format_disabled r) (aid r) (iso_aid r) (app_has_iso_file_id r)
    (app_key_settings_1 r) (app_key_settings_2 r) v (has_auth_commands r) (auth_commands r)
    (has_preferred_auth_command r) (preferred_auth_command r) (has_sm_disable r) (sm_disable
    r) (app_key_versions r) (num_key_sets r) (max_key_size r) (key_set_settings r)
    (has_capability_data r) (capability_data r).

Definition set_app_key_versions (v : bytes) (r : DfcApplication) : DfcApplication :=
  Build_DfcApplication (app_key_offset r) (app_key_pool_len r) (iso_aid_len r) (app_num_keys
    r) (app_key_len r) (app_key_storage_len r) (key_set_metadata_offset r)
    (key_set_metadata_len r) (app_iso_file_id r) (delegated_slot_number r)
    (delegated_quota_limit r) (delegated_free_blocks r) (delegated_slot_version r)
    (delegated r) (delegated_format_disabled r) (aid r) (iso_aid r) (app_has_iso_file_id r)
    (app_key_settings_1 r) (app_key_settings_2 r) (app_auth_command r) (has_auth_commands r)
    (auth_commands r) (has_preferred_auth_command r) (preferred_auth_command r)
    (has_sm_disable r) (sm_disable r) v (num_key_sets r) (max_key_size r) (key_set_settings
    r) (has_capability_data r) (capability_data r).

Definition set_num_key_sets (v : Z) (r : DfcApplication) : DfcApplication :=
  Build_DfcApplication (app_key_offset r) (app_key_pool_len r) (iso_aid_len r) (app_num_keys
    r) (app_key_len r) (app_key_storage_len r) (key_set_metadata_offset r)
    (key_set_metadata_len r) (app_iso_file_id r) (delegated_slot_number r)
    (delegated_quota_limit r) (delegated_free_blocks r) (delegated_slot_version r)
    (delegated r) (delegated_format_disabled r) (aid r) (iso_aid r) (app_has_iso_file_id r)
    (app_key_settings_1 r) (app_key_settings_2 r) (app_auth_command r) (has_auth_commands r)
    (auth_commands r) (has_preferred_auth_command r) (preferred_auth_command r)
    (has_sm_disable r) (sm_disable r) (app_key_versions r) v (max_key_size r)
    (key_set_settings r) (has_capability_data r) (capability_data r).

Definition set_max_key_size (v : Z) (r : DfcApplication) : DfcApplication :=
  Build_DfcApplication (app_key_offset r) (app_key_pool_len r) (iso_aid_len r) (app_num_keys
    r) (app_key_len r) (app_key_storage_len r) (key_set_metadata_offset r)
    (key_set_metadata_len r) (app_iso_file_id r) (delegated_slot_number r)
    (delegated_quota_limit r) (delegated_free_blocks r) (delegated_slot_version r)
    (delegated r) (delegated_format_disabled r) (aid r) (iso_aid r) (app_has_iso_file_id r)
    (app_key_settings_1 r) (app_key_settings_2 r) (app_auth_command r) (has_auth_commands r)
    (auth_commands r) (has_preferred_auth_command r) (preferred_auth_command r)
    (has_sm_disable r) (sm_disable r) (app_key_versions r) (num_key_sets r) v
    (key_set_settings r) (has_capability_data r) (capability_data r).

Definition set_key_set_settings (v : Z) (r : DfcApplication) : DfcApplication :=
  Build_DfcApplication (app_key_offset r) (app_key_pool_len r) (iso_aid_len r) (app_num_keys
    r) (app_key_len r) (app_key_storage_len r) (key_set_metadata_offset r)
    (key_set_metadata_len r) (app_iso_file_id r) (delegated_slot_number r)
    (delegated_quota_limit r) (delegated_free_blocks r) (delegated_slot_version r)
    (delegated r) (delegated_format_disabled r) (aid r) (iso_aid r) (app_has_iso_file_id r)
    (app_key_settings_1 r) (app_key_settings_2 r) (app_auth_command r) (has_auth_commands r)
    (auth_commands r) (has_preferred_auth_command r) (preferred_auth_command r)
    (has_sm_disable r) (sm_disable r) (app_key_versions r) (num_key_sets r) (max_key_size r)
    v (has_capability_data r) (capability_data r).

Definition zero_application : DfcApplication :=
  Build_DfcApplication 0 0 0 0 0 0 0 0 0 0 0 0 0 false false (zeros 3) (zeros 16) false 0 0
    0 false 0 false 0 false 0 (zeros 14) 0 0 0 false (zeros 10).

Inductive DfcGeneration :=
| DfcGenerationEv1
| DfcGenerationEv2
| DfcGenerationEv3.

(** The enum's integer, which the code compares with [>=]. *)
Definition generation_value (g : DfcGeneration) : Z :=
  match g with DfcGenerationEv1 => 1 | DfcGenerationEv2 => 2 | DfcGenerationEv3 => 3 end.

Inductive DfcUidProvenance :=
| DfcUidProvenanceReal
| DfcUidProvenanceRandom
| DfcUidProvenanceUnknown.

(** The card a credential presents. *)
Record DfcCard := {
  generation : DfcGeneration;
  storage : Z;
  uid_provenance : DfcUidProvenance;
  has_hardware_version : bool;
  has_software_version : bool;
  hardware_version : bytes;
  software_version : bytes;
}.

(** The PICC settings of [DfcCredential] this file does not compute with. *)
Record DfcPiccConfiguration := {
  picc_ats_len : Z;
  virtual_card_installation_id_len : Z;
  virtual_card_uid_len : Z;
  picc_proximity_published_response_time : Z;
  picc_has_proximity_key : bool;
  picc_proximity_key : bytes;
  picc_proximity_option : Z;
  picc_has_proximity_bitrate : bool;
  picc_proximity_bitrate : Z;
  picc_has_auth_commands : bool;
  picc_auth_commands : Z;
  picc_has_preferred_auth_command : bool;
  picc_preferred_auth_command : Z;
  picc_key_versions : bytes;
  picc_random_id : bool;
  picc_random_id_legacy : bool;
  picc_format_disabled : bool;
  picc_ats : bytes;
  picc_has_sak : bool;
  picc_sak : Z;
  picc_has_atqa : bool;
  picc_atqa : bytes;
  picc_has_sm_disable : bool;
  picc_sm_disable : Z;
  picc_has_ev2_capabilities : bool;
  picc_ev2_capabilities : bytes;
  picc_has_static_signature : bool;
  picc_static_signature : bytes;
  virtual_card_configured : bool;
  virtual_card_installation_id : bytes;
  virtual_card_information : Z;
  virtual_card_capabilities : bytes;
  virtual_card_uid : bytes;
  virtual_card_select_mac_key : bytes;
  virtual_card_select_encryption_key : bytes;
  virtual_card_authentication_mandatory : bool;
  virtual_card_proximity_mandatory : bool;
  picc_has_dam_keys : bool;
  picc_dam_auth_key : bytes;
  picc_dam_mac_key : bytes;
  picc_dam_encryption_key : bytes;
}.

Definition zero_picc : DfcPiccConfiguration :=
  Build_DfcPiccConfiguration 0 0 0 0 false (zeros 16) 0 false 0 false 0 false 0 (zeros 14)
    false false false (zeros 20) false 0 false (zeros 2) false 0 false (zeros 6) false
    (zeros 56) false (zeros 16) 0 (zeros 2) (zeros 10) (zeros 16) (zeros 16) false false
    false (zeros 16) (zeros 16) (zeros 16).

(** The credential: three pools and the records that index them. *)
Record DfcCredential := {
  uid_len : Z;
  picc_key_offset : Z;
  picc_key_pool_len : Z;
  picc_num_keys : Z;
  picc_key_len : Z;
  num_apps : Z;
  num_files : Z;
  file_pool_used : Z;
  key_pool_used : Z;
  apps : list DfcApplication;
  files : list DfcFile;
  card : DfcCard;
  uid : bytes;
  picc_key_settings_1 : Z;
  picc_key_settings_2 : Z;
  picc_auth_command : Z;
  picc : DfcPiccConfiguration;
  file_pool : bytes;
  key_pool : bytes;
  key_set_metadata_pool : bytes;
  key_set_metadata_pool_used : Z;
  dirty : bool;
}.

Definition set_uid_len (v : Z) (r : DfcCredential) : DfcCredential :=
  Build_DfcCredential v (picc_key_offset r) (picc_key_pool_len r) (picc_num_keys r)
    (picc_key_len r) (num_apps r) (num_files r) (file_pool_used r) (key_pool_used r) (apps
    r) (files r) (card r) (uid r) (picc_key_settings_1 r) (picc_key_settings_2 r)
    (picc_auth_command r) (picc r) (file_pool r) (key_pool r) (key_set_metadata_pool r)
    (key_set_metadata_pool_used r) (dirty r).

Definition set_picc_key_offset (v : Z) (r : DfcCredential) : DfcCredential :=
  Build_DfcCredential (uid_len r) v (picc_key_pool_len r) (picc_num_keys r) (picc_key_len r)
    (num_apps r) (num_files r) (file_pool_used r) (key_pool_used r) (apps r) (files r) (card
    r) (uid r) (picc_key_settings_1 r) (picc_key_settings_2 r) (picc_auth_command r) (picc
    r) (file_pool r) (key_pool r) (key_set_metadata_pool r) (key_set_metadata_pool_used r)
    (dirty r).

Definition set_picc_key_pool_len (v : Z) (r : DfcCredential) : DfcCredential :=
  Build_DfcCredential (uid_len r) (picc_key_offset r) v (picc_num_keys r) (picc_key_len r)
    (num_apps r) (num_files r) (file_pool_used r) (key_pool_used r) (apps r) (files r) (card
    r) (uid r) (picc_key_settings_1 r) (picc_key_settings_2 r) (picc_auth_command r) (picc
    r) (file_pool r) (key_pool r) (key_set_metadata_pool r) (key_set_metadata_pool_used r)
    (dirty r).

Definition set_picc_num_keys (v : Z) (r : DfcCredential) : DfcCredential :=
  Build_DfcCredential (uid_len r) (picc_key_offset r) (picc_key_pool_len r) v (picc_key_len
    r) (num_apps r) (num_files r) (file_pool_used r) (key_pool_used r) (apps r) (files r)
    (card r) (uid r) (picc_key_settings_1 r) (picc_key_settings_2 r) (picc_auth_command r)
    (picc r) (file_pool r) (key_pool r) (key_set_metadata_pool r)
    (key_set_metadata_pool_used r) (dirty r).

Definition set_picc_key_len (v : Z) (r : DfcCredential) : DfcCredential :=
  Build_DfcCredential (uid_len r) (picc_key_offset r) (picc_key_pool_len r) (picc_num_keys
    r) v (num_apps r) (num_files r) (file_pool_used r) (key_pool_used r) (apps r) (files r)
    (card r) (uid r) (picc_key_settings_1 r) (picc_key_settings_2 r) (picc_auth_command r)
    (picc r) (file_pool r) (key_pool r) (key_set_metadata_pool r)
    (key_set_metadata_pool_used r) (dirty r).

Definition set_num_apps (v : Z) (r : DfcCredential) : DfcCredential :=
  Build_DfcCredential (uid_len r) (picc_key_offset r) (picc_key_pool_len r) (picc_num_keys
    r) (picc_key_len r) v (num_files r) (file_pool_used r) (key_pool_used r) (apps r) (files
    r) (card r) (uid r) (picc_key_settings_1 r) (picc_key_settings_2 r) (picc_auth_command
    r) (picc r) (file_pool r) (key_pool r) (key_set_metadata_pool r)
    (key_set_metadata_pool_used r) (dirty r).

Definition set_num_files (v : Z) (r : DfcCredential) : DfcCredential :=
  Build_DfcCredential (uid_len r) (picc_key_offset r) (picc_key_pool_len r) (picc_num_keys
    r) (picc_key_len r) (num_apps r) v (file_pool_used r) (key_pool_used r) (apps r) (files
    r) (card r) (uid r) (picc_key_settings_1 r) (picc_key_settings_2 r) (picc_auth_command
    r) (picc r) (file_pool r) (key_pool r) (key_set_metadata_pool r)
    (key_set_metadata_pool_used r) (dirty r).

Definition set_file_pool_used (v : Z) (r : DfcCredential) : DfcCredential :=
  Build_DfcCredential (uid_len r) (picc_key_offset r) (picc_key_pool_len r) (picc_num_keys
    r) (picc_key_len r) (num_apps r) (num_files r) v (key_pool_used r) (apps r) (files r)
    (card r) (uid r) (picc_key_settings_1 r) (picc_key_settings_2 r) (picc_auth_command r)
    (picc r) (file_pool r) (key_pool r) (key_set_metadata_pool r)
    (key_set_metadata_pool_used r) (dirty r).

Definition set_key_pool_used (v : Z) (r : DfcCredential) : DfcCredential :=
  Build_DfcCredential (uid_len r) (picc_key_offset r) (picc_key_pool_len r) (picc_num_keys
    r) (picc_key_len r) (num_apps r) (num_files r) (file_pool_used r) v (apps r) (files r)
    (card r) (uid r) (picc_key_settings_1 r) (picc_key_settings_2 r) (picc_auth_command r)
    (picc r) (file_pool r) (key_pool r) (key_set_metadata_pool r)
    (key_set_metadata_pool_used r) (dirty r).

Definition set_apps (v : list DfcApplication) (r : DfcCredential) : DfcCredential :=
  Build_DfcCredential (uid_len r) (picc_key_offset r) (picc_key_pool_len r) (picc_num_keys
    r) (picc_key_len r) (num_apps r) (num_files r) (file_pool_used r) (key_pool_used r) v
    (files r) (card r) (uid r) (picc_key_settings_1 r) (picc_key_settings_2 r)
    (picc_auth_command r) (picc r) (file_pool r) (key_pool r) (key_set_metadata_pool r)
    (key_set_metadata_pool_used r) (dirty r).

Definition set_files (v : list DfcFile) (r : DfcCredential) : DfcCredential :=
  Build_DfcCredential (uid_len r) (picc_key_offset r) (picc_key_pool_len r) (picc_num_keys
    r) (picc_key_len r) (num_apps r) (num_files r) (file_pool_used r) (key_pool_used r)
    (apps r) v (card r) (uid r) (picc_key_settings_1 r) (picc_key_settings_2 r)
    (picc_auth_command r) (picc r) (file_pool r) (key_pool r) (key_set_metadata_pool r)
    (key_set_metadata_pool_used r) (dirty r).

Definition set_card (v : DfcCard) (r : DfcCredential) : DfcCredential :=
  Build_DfcCredential (uid_len r) (picc_key_offset r) (picc_key_pool_len r) (picc_num_keys
    r) (picc_key_len r) (num_apps r) (num_files r) (file_pool_used r) (key_pool_used r)
    (apps r) (files r) v (uid r) (picc_key_settings_1 r) (picc_key_settings_2 r)
    (picc_auth_command r) (picc r) (file_pool r) (key_pool r) (key_set_metadata_pool r)
    (key_set_metadata_pool_used r) (dirty r).

Definition set_uid (v : bytes) (r : DfcCredential) : DfcCredential :=
  Build_DfcCredential (uid_len r) (picc_key_offset r) (picc_key_pool_len r) (picc_num_keys
    r) (picc_key_len r) (num_apps r) (num_files r) (file_pool_used r) (key_pool_used r)
    (apps r) (files r) (card r) v (picc_key_settings_1 r) (picc_key_settings_2 r)
    (picc_auth_command r) (picc r) (file_pool r) (key_pool r) (key_set_metadata_pool r)
    (key_set_metadata_pool_used r) (dirty r).

Definition set_picc_key_settings_1 (v : Z) (r : DfcCredential) : DfcCredential :=
  Build_DfcCredential (uid_len r) (picc_key_offset r) (picc_key_pool_len r) (picc_num_keys
    r) (picc_key_len r) (num_apps r) (num_files r) (file_pool_used r) (key_pool_used r)
    (apps r) (files r) (card r) (uid r) v (picc_key_settings_2 r) (picc_auth_command r)
    (picc r) (file_pool r) (key_pool r) (key_set_metadata_pool r)
    (key_set_metadata_pool_used r) (dirty r).

Definition set_picc_key_settings_2 (v : Z) (r : DfcCredential) : DfcCredential :=
  Build_DfcCredential (uid_len r) (picc_key_offset r) (picc_key_pool_len r) (picc_num_keys
    r) (picc_key_len r) (num_apps r) (num_files r) (file_pool_used r) (key_pool_used r)
    (apps r) (files r) (card r) (uid r) (picc_key_settings_1 r) v (picc_auth_command r)
    (picc r) (file_pool r) (key_pool r) (key_set_metadata_pool r)
    (key_set_metadata_pool_used r) (dirty r).

Definition set_picc_auth_command (v : Z) (r : DfcCredential) : DfcCredential :=
  Build_DfcCredential (uid_len r) (picc_key_offset r) (picc_key_pool_len r) (picc_num_keys
    r) (picc_key_len r) (num_apps r) (num_files r) (file_pool_used r) (key_pool_used r)
    (apps r) (files r) (card r) (uid r) (picc_key_settings_1 r) (picc_key_settings_2 r) v
    (picc r) (file_pool r) (key_pool r) (key_set_metadata_pool r)
    (key_set_metadata_pool_used r) (dirty r).

Definition set_file_pool (v : bytes) (r : DfcCredential) : DfcCredential :=
  Build_DfcCredential (uid_len r) (picc_key_offset r) (picc_key_pool_len r) (picc_num_keys
    r) (picc_key_len r) (num_apps r) (num_files r) (file_pool_used r) (key_pool_used r)
    (apps r) (files r) (card r) (uid r) (picc_key_settings_1 r) (picc_key_settings_2 r)
    (picc_auth_command r) (picc r) v (key_pool r) (key_set_metadata_pool r)
    (key_set_metadata_pool_used r) (dirty r).

Definition set_key_pool (v : bytes) (r : DfcCredential) : DfcCredential :=
  Build_DfcCredential (uid_len r) (picc_key_offset r) (picc_key_pool_len r) (picc_num_keys
    r) (picc_key_len r) (num_apps r) (num_files r) (file_pool_used r) (key_pool_used r)
    (apps r) (files r) (card r) (uid r) (picc_key_settings_1 r) (picc_key_settings_2 r)
    (picc_auth_command r) (picc r) (file_pool r) v (key_set_metadata_pool r)
    (key_set_metadata_pool_used r) (dirty r).

Definition set_key_set_metadata_pool (v : bytes) (r : DfcCredential) : DfcCredential :=
  Build_DfcCredential (uid_len r) (picc_key_offset r) (picc_key_pool_len r) (picc_num_keys
    r) (picc_key_len r) (num_apps r) (num_files r) (file_pool_used r) (key_pool_used r)
    (apps r) (files r) (card r) (uid r) (picc_key_settings_1 r) (picc_key_settings_2 r)
    (picc_auth_command r) (picc r) (file_pool r) (key_pool r) v (key_set_metadata_pool_used
    r) (dirty r).

Definition set_key_set_metadata_pool_used (v : Z) (r : DfcCredential) : DfcCredential :=
  Build_DfcCredential (uid_len r) (picc_key_offset r) (picc_key_pool_len r) (picc_num_keys
    r) (picc_key_len r) (num_apps r) (num_files r) (file_pool_used r) (key_pool_used r)
    (apps r) (files r) (card r) (uid r) (picc_key_settings_1 r) (picc_key_settings_2 r)
    (picc_auth_command r) (picc r) (file_pool r) (key_pool r) (key_set_metadata_pool r) v
    (dirty r).

Definition set_dirty (v : bool) (r : DfcCredential) : DfcCredential :=
  Build_DfcCredential (uid_len r) (picc_key_offset r) (picc_key_pool_len r) (picc_num_keys
    r) (picc_key_len r) (num_apps r) (num_files r) (file_pool_used r) (key_pool_used r)
    (apps r) (files r) (card r) (uid r) (picc_key_settings_1 r) (picc_key_settings_2 r)
    (picc_auth_command r) (picc r) (file_pool r) (key_pool r) (key_set_metadata_pool r)
    (key_set_metadata_pool_used r) v.

Definition zero_card : DfcCard :=
  Build_DfcCard DfcGenerationEv1 0 DfcUidProvenanceReal false false (zeros 7) (zeros 7).

(** The credential after [memset] or [dfc_secure_wipe]. The zero of the generation
    enum names no generation; the only function that leaves a wiped credential
    stores one before anything reads it. *)
Definition zero_credential : DfcCredential :=
  Build_DfcCredential 0 0 0 0 0 0 0 0 0 (replicate (Z.to_nat DFC_MAX_APPS) zero_application)
    (replicate (Z.to_nat DFC_MAX_FILES) zero_file) zero_card (zeros DFC_DESFIRE_UID_MAX_LENGTH)
    0 0 0 zero_picc (zeros DFC_FILE_POOL_SIZE) (zeros DFC_KEY_POOL_SIZE)
    (zeros DFC_KEY_SET_METADATA_POOL_SIZE) 0 false.

(** ** Inline helpers of [dfc_credential.h] *)

Definition dfc_file_type_is_data (type : Z) : bool :=
  (type =? DFC_FILE_TYPE_STANDARD_DATA) || (type =? DFC_FILE_TYPE_BACKUP_DATA).

Definition dfc_file_set_declared_size (file : DfcFile) (size : Z) : option DfcFile :=
  guard! dfc_file_type_is_data (file_type file) else None;
  Some (set_state (StateData (set_declared_size size (state_data (state file)))) file).

Definition dfc_file_get_declared_size (file : DfcFile) : option Z :=
  guard! dfc_file_type_is_data (file_type file) else None;
  Some (declared_size (state_data (state file))).

Definition dfc_sdm_flag_is_set (settings : DfcSdmSettings) (flag : Z) : bool :=
  negb (Z.land (sdm_flags settings) (u8 flag) =? 0).

Definition dfc_sdm_flag_set (settings : DfcSdmSettings) (flag : Z) (value : bool) : DfcSdmSettings :=
  if value then set_sdm_flags (u8 (Z.lor (sdm_flags settings) (u8 flag))) settings
  else set_sdm_flags (u8 (Z.land (sdm_flags settings) (u8 (Z.lnot flag)))) settings.

Definition dfc_file_sdm_flag_is_set (file : DfcFile) (flag : Z) : bool :=
  (file_type file =? DFC_FILE_TYPE_STANDARD_DATA) &&
  dfc_sdm_flag_is_set (sdm (state_data (state file))) flag.

Definition dfc_file_sdm_flag_set (file : DfcFile) (flag : Z) (value : bool) : DfcFile :=
  guard! file_type file =? DFC_FILE_TYPE_STANDARD_DATA else file;
  let data := state_data (state file) in
  set_state (StateData (set_sdm (dfc_sdm_flag_set (sdm data) flag value) data)) file.
