(* ===== verification/Credential.v ===== *)
(** Operations on the credential model: [src/src/dfc_credential.c].

    A pointer to an application or a file is its index in the array; a NULL
    application pointer, which selects the PICC record, is [None]. A pointer into a
    pool is an offset into that pool. Operations take the credential by value and
    return it with their result: a NULL credential has no counterpart. *)

From S2P Require Import Prelude Common Pool CredentialData.
Import Rules Frames.

(** ** Array access *)

Definition app_at (c : DfcCredential) (i : Z) : DfcApplication :=
  default zero_application (apps c !! Z.to_nat i).

Definition update_app (f : DfcApplication -> DfcApplication) (i : Z) (c : DfcCredential)
  : DfcCredential := set_apps (alter f (Z.to_nat i) (apps c)) c.

Definition file_at (c : DfcCredential) (i : Z) : DfcFile :=
  default zero_file (files c !! Z.to_nat i).

Definition update_file (f : DfcFile -> DfcFile) (i : Z) (c : DfcCredential) : DfcCredential :=
  set_files (alter f (Z.to_nat i) (files c)) c.

(** [for(i = 0; i < n; i++) if(p(a[i])) return &a[i]; return NULL]. *)
Fixpoint find_from {A} (p : A -> bool) (l : list A) (i : Z) : option Z :=
  match l with
  | [] => None
  | a :: rest => if p a then Some i else find_from p rest (i + 1)
  end.

Definition find_index {A} (p : A -> bool) (l : list A) (n : Z) : option Z :=
  find_from p (take (Z.to_nat n) l) 0.

(** ** Authentication commands *)

Definition dfc_credential_find_transaction_mac_file (c : DfcCredential) (app_index : Z) : option Z :=
  find_index (fun f => (file_app_index f =? app_index) &&
                       (file_type f =? DFC_FILE_TYPE_TRANSACTION_MAC)) (files c) (num_files c).

Definition dfc_credential_compiled_auth_commands : Z :=
  Z.lor DFC_AUTH_COMMAND_D40 (Z.lor DFC_AUTH_COMMAND_ISO_NATIVE (Z.lor DFC_AUTH_COMMAND_AES
    (Z.lor (Z.lor DFC_AUTH_COMMAND_EV2_FIRST DFC_AUTH_COMMAND_EV2_NON_FIRST)
       DFC_AUTH_COMMAND_ISO7816))).

Definition dfc_credential_possible_auth_commands (key_settings_2 : Z) (g : DfcGeneration) : Z :=
  let key_type := Z.land key_settings_2 DFC_KEY_TYPE_MASK in
  if key_type =? DFC_KEY_TYPE_AES then
    Z.lor DFC_AUTH_COMMAND_AES
      (if generation_value DfcGenerationEv2 <=? generation_value g
       then Z.lor DFC_AUTH_COMMAND_EV2_FIRST DFC_AUTH_COMMAND_EV2_NON_FIRST else 0)
  else if key_type =? DFC_KEY_TYPE_3K3DES then DFC_AUTH_COMMAND_ISO_NATIVE
  else Z.lor DFC_AUTH_COMMAND_D40 DFC_AUTH_COMMAND_ISO_NATIVE.

Definition dfc_credential_default_auth_commands (key_settings_2 : Z) (g : DfcGeneration) : Z :=
  Z.land (dfc_credential_possible_auth_commands key_settings_2 g)
    dfc_credential_compiled_auth_commands.

Definition dfc_credential_picc_auth_commands (c : DfcCredential) : Z :=
  if picc_has_auth_commands (picc c) then picc_auth_commands (picc c)
  else dfc_credential_default_auth_commands (picc_key_settings_2 c) (generation (card c)).

Definition dfc_credential_app_auth_commands (c : DfcCredential) (a : DfcApplication) : Z :=
  if has_auth_commands a then auth_commands a
  else dfc_credential_default_auth_commands (app_key_settings_2 a) (generation (card c)).

(** ** Lookup *)

Definition dfc_credential_reset_application (a : DfcApplication) : DfcApplication :=
  set_key_set_metadata_offset DFC_KEY_SET_METADATA_POOL_NONE
    (set_num_key_sets 1 (set_app_key_offset DFC_KEY_POOL_NONE zero_application)).

Definition dfc_application_clear (a : DfcApplication) : DfcApplication :=
  dfc_credential_reset_application a.

Definition dfc_credential_get_application (c : DfcCredential) (app_index : Z) : option Z :=
  if num_apps c <=? app_index then None else Some app_index.

Definition dfc_credential_get_primary_application (c : DfcCredential) : option Z :=
  dfc_credential_get_application c 0.

Definition dfc_credential_find_application (c : DfcCredential) (a : bytes) : option Z :=
  find_index (fun app => bytes_eqb (aid app) (slice a 0 3)) (apps c) (num_apps c).

Definition dfc_credential_find_application_desfire_order (c : DfcCredential) (a : bytes) : option Z :=
  find_index (fun app => (a.[0] =? (aid app).[2]) && (a.[1] =? (aid app).[1]) &&
                         (a.[2] =? (aid app).[0])) (apps c) (num_apps c).

Definition dfc_credential_application_index (c : DfcCredential) (application : option Z) : Z :=
  match application with
  | None => SIZE_MAX
  | Some p => if (0 <=? p) && (p <? num_apps c) then p else SIZE_MAX
  end.

Definition dfc_credential_find_file_in_app (c : DfcCredential) (app_index n : Z) : option Z :=
  find_index (fun f => (file_app_index f =? app_index) && (number f =? n)) (files c) (num_files c).

Definition dfc_credential_find_file (c : DfcCredential) (n : Z) : option Z :=
  dfc_credential_find_file_in_app c 0 n.

Definition dfc_credential_count_files_in_app (c : DfcCredential) (app_index : Z) : Z :=
  fold_left (fun count f => if file_app_index f =? app_index then count + 1 else count)
    (take (Z.to_nat (num_files c)) (files c)) 0.

(** ** The file pool *)

Definition dfc_file_pool_compact_after_release (c : DfcCredential) (freed_offset freed_len : Z)
  : DfcCredential :=
  guard! negb ((freed_len =? 0) || (freed_offset =? DFC_FILE_POOL_NONE)) else c;
  let (pool, used) := pool_compact (file_pool c) (file_pool_used c) freed_offset freed_len in
  let shift f := set_data_offset (shift_offset freed_offset freed_len (data_offset f)) f in
  let n := Z.to_nat (num_files c) in
  set_files (map shift (take n (files c)) ++ drop n (files c))
    (set_file_pool_used used (set_file_pool pool c)).

(** Offset of the file's octets in the pool. *)
Definition dfc_file_data_const (c : DfcCredential) (f : DfcFile) : option Z :=
  if (data_offset f =? DFC_FILE_POOL_NONE) || (data_len f =? 0) then None
  else if file_pool_used c <? data_offset f + data_len f then None
  else Some (data_offset f).

Definition dfc_file_data (c : DfcCredential) (i : Z) : option Z := dfc_file_data_const c (file_at c i).

Definition detach_file (f : DfcFile) : DfcFile := set_data_len 0 (set_data_offset DFC_FILE_POOL_NONE f).

Definition dfc_file_resize (c : DfcCredential) (i : Z) (want : Z) : bool * DfcCredential :=
  let f := file_at c i in
  guard! negb (DFC_MAX_FILE_DATA <? want) else (false, c);
  guard! negb (DFC_FILE_POOL_SIZE <? want) else (false, c);
  guard! negb (DFC_FILE_POOL_SIZE <? file_pool_used c) else (false, c);
  match dfc_pool_slice_resolve (data_offset f) (data_len f) (file_pool_used c) DFC_FILE_POOL_NONE with
  | None => (false, c)
  | Some old_offset =>
      let held := negb (old_offset =? DFC_FILE_POOL_NONE) in
      if held && (data_len f =? want) then (true, c) else
      guard! negb (held && (file_pool_used c <? data_len f)) else (false, c);
      let used_without_old := if held then file_pool_used c - data_len f else file_pool_used c in
      guard! negb (DFC_FILE_POOL_SIZE - used_without_old <? want) else (false, c);
      let c := if held
               then dfc_file_pool_compact_after_release (update_file detach_file i c)
                      old_offset (data_len f)
               else c in
      if want =? 0 then (true, update_file detach_file i c) else
      let used := file_pool_used c in
      let c := update_file (fun f => set_data_len (u16 want) (set_data_offset (u16 used) f)) i c in
      let c := set_file_pool (wipe (file_pool c) (u16 used) want) c in
      (true, set_file_pool_used (u16 (used + want)) c)
  end.

Definition dfc_file_release (c : DfcCredential) (i : Z) : DfcCredential :=
  let f := file_at c i in
  if data_offset f =? DFC_FILE_POOL_NONE then update_file (set_data_len 0) i c else
  dfc_file_pool_compact_after_release (update_file detach_file i c) (data_offset f) (data_len f).

Definition dfc_credential_file_pool_free (c : DfcCredential) : Z :=
  if DFC_FILE_POOL_SIZE <=? file_pool_used c then 0 else DFC_FILE_POOL_SIZE - file_pool_used c.

Definition dfc_credential_create_file (c : DfcCredential) (app_index n : Z) : option Z * DfcCredential :=
  guard! negb (num_apps c <=? app_index) else (None, c);
  guard! negb (DFC_MAX_FILES <=? num_files c) else (None, c);
  match dfc_credential_find_file_in_app c app_index n with
  | Some _ => (None, c)
  | None =>
      let i := num_files c in
      let fresh := set_data_len 0 (set_data_offset DFC_FILE_POOL_NONE
                     (set_number n (set_file_app_index (u8 app_index) zero_file))) in
      (Some i, set_num_files (u8 (i + 1)) (update_file (fun _ => fresh) i c))
  end.

(** [memmove] of the file array over slot [i], then the vacated slot is zeroed. *)
Definition remove_file_slot (c : DfcCredential) (i : Z) : DfcCredential :=
  let c := if i + 1 <? num_files c
           then set_files (memmove (files c) i (i + 1) (num_files c - i - 1)) c else c in
  let c := set_num_files (u8 (num_files c - 1)) c in
  update_file (fun _ => zero_file) (num_files c) c.

Definition dfc_credential_delete_file (c : DfcCredential) (app_index n : Z) : bool * DfcCredential :=
  match dfc_credential_find_file_in_app c app_index n with
  | None => (false, c)
  | Some i => (true, remove_file_slot (dfc_file_release c i) i)
  end.

Definition dfc_file_set_data_size (c : DfcCredential) (i size : Z) : bool * DfcCredential :=
  guard! dfc_file_type_is_data (file_type (file_at c i)) else (false, c);
  let (ok, c) := dfc_file_resize c i size in
  guard! ok else (false, c);
  match dfc_file_set_declared_size (file_at c i) size with
  | None => (false, c)
  | Some f => (true, update_file (fun _ => set_contents_complete true f) i c)
  end.

(** ** Key-set metadata *)

Definition dfc_key_set_metadata_length (num_key_sets num_keys : Z) : Z :=
  if (num_key_sets <? DFC_KEY_SET_MINIMUM_COUNT) || (DFC_MAX_KEY_SETS <? num_key_sets) ||
     (num_keys =? 0) || (DFC_MAX_KEYS <? num_keys)
  then 0
  else 2 * num_key_sets + 2 + (num_key_sets - 1) * num_keys.

(** Offset of the application's metadata in its pool. *)
Definition dfc_key_set_metadata_slice (c : DfcCredential) (a : DfcApplication) : option Z :=
  if (num_key_sets a <? DFC_KEY_SET_MINIMUM_COUNT) ||
     (DFC_KEY_SET_METADATA_POOL_SIZE <? key_set_metadata_pool_used c)
  then None else
  let expected := dfc_key_set_metadata_length (num_key_sets a) (app_num_keys a) in
  let offset := key_set_metadata_offset a in
  if (expected =? 0) || negb (key_set_metadata_len a =? expected) ||
     (offset =? DFC_KEY_SET_METADATA_POOL_NONE) ||
     (DFC_KEY_SET_METADATA_POOL_SIZE <? offset) ||
     (DFC_KEY_SET_METADATA_POOL_SIZE - offset <? expected) ||
     (key_set_metadata_pool_used c <? offset) ||
     (key_set_metadata_pool_used c - offset <? expected)
  then None else Some offset.

Definition dfc_key_set_metadata_compact_after_release (c : DfcCredential)
    (freed_offset freed_len : Z) : DfcCredential :=
  guard! negb ((freed_len =? 0) || (freed_offset =? DFC_KEY_SET_METADATA_POOL_NONE)) else c;
  let (pool, used) := pool_compact (key_set_metadata_pool c) (key_set_metadata_pool_used c)
                        freed_offset freed_len in
  let shift a :=
    set_key_set_metadata_offset (shift_offset freed_offset freed_len (key_set_metadata_offset a)) a in
  set_apps (map shift (apps c))
    (set_key_set_metadata_pool_used used (set_key_set_metadata_pool pool c)).

Definition detach_metadata (a : DfcApplication) : DfcApplication :=
  set_key_set_metadata_len 0 (set_key_set_metadata_offset DFC_KEY_SET_METADATA_POOL_NONE a).

Definition dfc_key_set_metadata_release (c : DfcCredential) (i : Z) : DfcCredential :=
  let old_offset := key_set_metadata_offset (app_at c i) in
  let old_len := key_set_metadata_len (app_at c i) in
  let c := update_app detach_metadata i c in
  if (old_offset =? DFC_KEY_SET_METADATA_POOL_NONE) || (old_len =? 0) then c else
  if (key_set_metadata_pool_used c <? old_offset) ||
     (key_set_metadata_pool_used c - old_offset <? old_len) then c else
  dfc_key_set_metadata_compact_after_release c old_offset old_len.

Definition dfc_key_set_metadata_can_resize (c : DfcCredential) (i want : Z) : bool :=
  let a := app_at c i in
  if (DFC_KEY_SET_METADATA_POOL_SIZE <? want) ||
     (DFC_KEY_SET_METADATA_POOL_SIZE <? key_set_metadata_pool_used c) then false else
  match dfc_pool_slice_resolve (key_set_metadata_offset a) (key_set_metadata_len a)
          (key_set_metadata_pool_used c) DFC_KEY_SET_METADATA_POOL_NONE with
  | None => false
  | Some old_offset =>
      let used_without_old :=
        if negb (old_offset =? DFC_KEY_SET_METADATA_POOL_NONE)
        then key_set_metadata_pool_used c - key_set_metadata_len a
        else key_set_metadata_pool_used c in
      want <=? DFC_KEY_SET_METADATA_POOL_SIZE - used_without_old
  end.

Definition dfc_key_set_metadata_resize (c : DfcCredential) (i want : Z) : bool * DfcCredential :=
  guard! dfc_key_set_metadata_can_resize c i want else (false, c);
  let c := dfc_key_set_metadata_release c i in
  if want =? 0 then (true, c) else
  let used := key_set_metadata_pool_used c in
  let c := update_app (fun a => set_key_set_metadata_len (u16 want)
                                  (set_key_set_metadata_offset (u16 used) a)) i c in
  let c := set_key_set_metadata_pool (wipe (key_set_metadata_pool c) used want) c in
  (true, set_key_set_metadata_pool_used (u16 (used + want)) c).

Definition dfc_key_set_metadata_mutable (c : DfcCredential) (i : Z) : option Z :=
  dfc_key_set_metadata_slice c (app_at c i).

(** Offsets of one octet of the metadata. *)
Definition dfc_credential_key_set_version (c : DfcCredential) (i key_set_number : Z) : option Z :=
  data ← dfc_key_set_metadata_mutable c i;
  if key_set_number <? num_key_sets (app_at c i) then Some (data + key_set_number) else None.

Definition dfc_credential_key_set_type (c : DfcCredential) (i key_set_number : Z) : option Z :=
  data ← dfc_key_set_metadata_mutable c i;
  if key_set_number <? num_key_sets (app_at c i)
  then Some (data + num_key_sets (app_at c i) + key_set_number) else None.

(** The little-endian mask of initialised sets. *)
Definition metadata_mask (pool : bytes) (at_offset : Z) : Z :=
  u16 (Z.lor pool.[at_offset] (u16 (Z.shiftl pool.[at_offset + 1] 8))).

Definition store_metadata_mask (pool : bytes) (at_offset mask : Z) : bytes :=
  (pool.[at_offset := u8 mask]).[at_offset + 1 := u8 (Z.shiftr mask 8)].

Definition dfc_credential_key_set_is_initialized (c : DfcCredential) (i key_set_number : Z) : bool :=
  let a := app_at c i in
  if num_key_sets a <=? key_set_number then false
  else if num_key_sets a <? DFC_KEY_SET_MINIMUM_COUNT then key_set_number =? 0
  else match dfc_key_set_metadata_slice c a with
       | None => false
       | Some data =>
           let mask := metadata_mask (key_set_metadata_pool c) (data + 2 * num_key_sets a) in
           negb (Z.land mask (u16 (Z.shiftl 1 key_set_number)) =? 0)
       end.

Definition dfc_credential_key_set_set_initialized (c : DfcCredential) (i key_set_number : Z)
    (initialized : bool) : bool * DfcCredential :=
  let a := app_at c i in
  match dfc_key_set_metadata_mutable c i with
  | None => (false, c)
  | Some data =>
      if num_key_sets a <=? key_set_number then (false, c) else
      let mask_offset := data + 2 * num_key_sets a in
      let mask := metadata_mask (key_set_metadata_pool c) mask_offset in
      let bit := u16 (Z.shiftl 1 key_set_number) in
      let mask := if initialized then u16 (Z.lor mask bit) else u16 (Z.land mask (u16 (Z.lnot bit))) in
      (true, set_key_set_metadata_pool (store_metadata_mask (key_set_metadata_pool c) mask_offset mask) c)
  end.

(** ** The key pool *)

Definition dfc_credential_stored_key_length (key_len : Z) : Z := if key_len =? 24 then 24 else 16.

(** The accessors that serve an application or, for [None], the PICC record. *)
Definition key_offset_of (c : DfcCredential) (app : option Z) : Z :=
  match app with Some i => app_key_offset (app_at c i) | None => picc_key_offset c end.

Definition set_key_offset (c : DfcCredential) (app : option Z) (offset : Z) : DfcCredential :=
  match app with
  | Some i => update_app (set_app_key_offset offset) i c
  | None => set_picc_key_offset offset c
  end.

Definition num_keys_of (c : DfcCredential) (app : option Z) : Z :=
  match app with Some i => app_num_keys (app_at c i) | None => picc_num_keys c end.

Definition set_num_keys (c : DfcCredential) (app : option Z) (count : Z) : DfcCredential :=
  match app with
  | Some i => update_app (set_app_num_keys count) i c
  | None => set_picc_num_keys count c
  end.

Definition key_len_of (c : DfcCredential) (app : option Z) : Z :=
  match app with Some i => app_key_len (app_at c i) | None => picc_key_len c end.

Definition set_key_len (c : DfcCredential) (app : option Z) (length : Z) : DfcCredential :=
  match app with
  | Some i => update_app (set_app_key_len length) i c
  | None => set_picc_key_len length c
  end.

Definition key_pool_len_of (c : DfcCredential) (app : option Z) : Z :=
  match app with Some i => app_key_pool_len (app_at c i) | None => picc_key_pool_len c end.

Definition set_key_pool_len (c : DfcCredential) (app : option Z) (length : Z) : DfcCredential :=
  match app with
  | Some i => update_app (set_app_key_pool_len length) i c
  | None => set_picc_key_pool_len length c
  end.

(** [if(app) app->key_storage_len = length]. *)
Definition set_key_storage_len (c : DfcCredential) (app : option Z) (length : Z) : DfcCredential :=
  match app with
  | Some i => update_app (set_app_key_storage_len length) i c
  | None => c
  end.

Definition dfc_key_pool_compact_after_release (c : DfcCredential) (freed_offset freed_len : Z)
  : DfcCredential :=
  guard! negb ((freed_len =? 0) || (freed_offset =? DFC_KEY_POOL_NONE)) else c;
  let (pool, used) := pool_compact (key_pool c) (key_pool_used c) freed_offset freed_len in
  let shift a := set_app_key_offset (shift_offset freed_offset freed_len (app_key_offset a)) a in
  set_picc_key_offset (shift_offset freed_offset freed_len (picc_key_offset c))
    (set_apps (map shift (apps c)) (set_key_pool_used used (set_key_pool pool c))).

(** Offset of one key in the pool. *)
Definition dfc_credential_key_at (c : DfcCredential) (offset pool_len num_keys key_len slot : Z)
  : option Z :=
  if (offset =? DFC_KEY_POOL_NONE) || (pool_len =? 0) then None
  else if num_keys <=? slot then None
  else
    let stride := dfc_credential_stored_key_length key_len in
    if pool_len <? (slot + 1) * stride then None
    else if key_pool_used c <? offset + pool_len then None
    else Some (offset + slot * stride).

(** The length a slot is stored with: an application's own storage length. *)
Definition storage_key_len_of (c : DfcCredential) (app : option Z) : Z :=
  match app with Some i => app_key_storage_len (app_at c i) | None => picc_key_len c end.

Definition dfc_credential_key (c : DfcCredential) (app : option Z) (slot : Z) : option Z :=
  dfc_credential_key_at c (key_offset_of c app) (key_pool_len_of c app) (num_keys_of c app)
    (storage_key_len_of c app) slot.

Definition dfc_credential_keys_release (c : DfcCredential) (app : option Z) : DfcCredential :=
  let old_offset := key_offset_of c app in
  let old_len := key_pool_len_of c app in
  let c := set_key_offset c app DFC_KEY_POOL_NONE in
  let c := set_key_pool_len c app 0 in
  let c := set_num_keys c app 0 in
  let c := set_key_len c app 0 in
  let c := match app with
           | Some i => dfc_key_set_metadata_release (set_key_storage_len c app 0) i
           | None => c
           end in
  if negb (old_offset =? DFC_KEY_POOL_NONE) && (0 <? old_len)
  then dfc_key_pool_compact_after_release c old_offset old_len else c.

Definition dfc_credential_keys_resize_total (c : DfcCredential) (app : option Z)
    (num_keys allocated_keys key_len storage_key_len : Z) : bool * DfcCredential :=
  guard! negb (DFC_MAX_KEYS <? num_keys) else (false, c);
  guard! negb ((DFC_MAX_KEY_LEN <? key_len) || (DFC_MAX_KEY_LEN <? storage_key_len)) else (false, c);
  guard! negb (allocated_keys <? num_keys) else (false, c);
  let offset := key_offset_of c app in
  let pool_len := key_pool_len_of c app in
  let stride := dfc_credential_stored_key_length storage_key_len in
  guard! negb (DFC_KEY_POOL_SIZE / stride <? allocated_keys) else (false, c);
  let want := allocated_keys * stride in
  guard! negb (DFC_KEY_POOL_SIZE <? want) else (false, c);
  guard! negb (DFC_KEY_POOL_SIZE <? key_pool_used c) else (false, c);
  match dfc_pool_slice_resolve offset pool_len (key_pool_used c) DFC_KEY_POOL_NONE with
  | None => (false, c)
  | Some old_offset =>
      let held := negb (old_offset =? DFC_KEY_POOL_NONE) in
      if held && (pool_len =? want) && (0 <? want) then
        (true, set_key_storage_len (set_key_len (set_num_keys c app (u8 num_keys)) app (u8 key_len))
                 app (u8 storage_key_len))
      else
      guard! negb (held && (key_pool_used c <? pool_len)) else (false, c);
      let used_without_old := if held then key_pool_used c - pool_len else key_pool_used c in
      guard! negb (DFC_KEY_POOL_SIZE - used_without_old <? want) else (false, c);
      let c := dfc_credential_keys_release c app in
      if want =? 0 then (true, set_key_len (set_num_keys c app (u8 num_keys)) app (u8 key_len)) else
      let used := key_pool_used c in
      let c := set_key_offset c app (u16 used) in
      let c := set_key_pool_len c app (u16 want) in
      let c := set_key_pool (wipe (key_pool c) used want) c in
      let c := set_key_pool_used (u16 (used + want)) c in
      let c := set_num_keys c app (u8 num_keys) in
      let c := set_key_len c app (u8 key_len) in
      (true, set_key_storage_len c app (u8 storage_key_len))
  end.

Definition dfc_credential_keys_resize (c : DfcCredential) (app : option Z) (num_keys key_len : Z)
  : bool * DfcCredential :=
  let (ok, c) := dfc_credential_keys_resize_total c app num_keys num_keys key_len key_len in
  guard! ok else (false, c);
  match app with
  | None => (true, c)
  | Some i =>
      let c := update_app (fun a => set_key_set_settings 0 (set_max_key_size 0 (set_num_key_sets 1 a)))
                 i c in
      dfc_key_set_metadata_resize c i 0
  end.

Definition dfc_credential_key_sets_resize (c : DfcCredential) (i num_key_sets num_keys
    active_key_len max_key_size : Z) : bool * DfcCredential :=
  guard! negb ((num_key_sets <? DFC_KEY_SET_MINIMUM_COUNT) || (DFC_MAX_KEY_SETS <? num_key_sets))
    else (false, c);
  guard! negb (SIZE_MAX / num_key_sets <? num_keys) else (false, c);
  let metadata_len := dfc_key_set_metadata_length num_key_sets num_keys in
  guard! negb ((metadata_len =? 0) || negb (dfc_key_set_metadata_can_resize c i metadata_len))
    else (false, c);
  let (ok, c) := dfc_credential_keys_resize_total c (Some i) num_keys (num_keys * num_key_sets)
                   active_key_len max_key_size in
  guard! ok else (false, c);
  let (ok, c) := dfc_key_set_metadata_resize c i metadata_len in
  guard! ok else (false, c);
  let c := update_app (fun a => set_max_key_size (u8 max_key_size)
                                  (set_num_key_sets (u8 num_key_sets) a)) i c in
  match dfc_key_set_metadata_mutable c i with
  | None => (false, c)
  | Some metadata =>
      let mask := if num_key_sets =? 16 then UINT16_MAX
                  else u16 (u16 (Z.shiftl 1 num_key_sets) - 1) in
      (true, set_key_set_metadata_pool
               (store_metadata_mask (key_set_metadata_pool c) (metadata + 2 * num_key_sets) mask) c)
  end.

Definition dfc_credential_key_pool_free (c : DfcCredential) : Z :=
  if DFC_KEY_POOL_SIZE <=? key_pool_used c then 0 else DFC_KEY_POOL_SIZE - key_pool_used c.

Definition dfc_credential_key_in_set (c : DfcCredential) (i key_set_number slot : Z) : option Z :=
  let a := app_at c i in
  if (num_key_sets a <=? key_set_number) || (app_num_keys a <=? slot) then None else
  dfc_credential_key_at c (app_key_offset a) (app_key_pool_len a)
    (app_num_keys a * num_key_sets a) (app_key_storage_len a) (key_set_number * app_num_keys a + slot).

(** A key version lives in the application for the active set, in the metadata for
    the others. *)
Inductive key_version_ref :=
| VersionInApplication (slot : Z)
| VersionInMetadata (offset : Z).

Definition dfc_credential_key_version_in_set (c : DfcCredential) (i key_set_number slot : Z)
  : option key_version_ref :=
  let a := app_at c i in
  if (num_key_sets a <=? key_set_number) || (app_num_keys a <=? slot) then None
  else if key_set_number =? 0 then Some (VersionInApplication slot)
  else metadata ← dfc_key_set_metadata_slice c a;
       Some (VersionInMetadata (metadata + (2 * num_key_sets a + 2 +
                                            (key_set_number - 1) * app_num_keys a + slot))).


(** ** Rolling key sets *)

(** One rotation of the per-set metadata: the versions of the active set's keys move
    to the tail of the additional ones, and set versions, types and the mask of
    initialised sets rotate by one. *)
Definition dfc_credential_rotate_key_set_metadata (c : DfcCredential) (i : Z)
  : bool * DfcCredential :=
  match dfc_key_set_metadata_mutable c i with
  | None => (false, c)
  | Some metadata =>
      let a := app_at c i in
      let sets := num_key_sets a in
      let keys := app_num_keys a in
      let set_types := metadata + sets in
      let mask_offset := metadata + 2 * sets in
      let pool := key_set_metadata_pool c in
      let initialized_mask := metadata_mask pool mask_offset in
      let additional := mask_offset + 2 in
      let first_versions := app_key_versions a in
      let versions := splice (app_key_versions a) 0 (slice pool additional keys) in
      let pool := if DFC_KEY_SET_MINIMUM_COUNT <? sets
                  then memmove pool additional (additional + keys)
                         ((sets - DFC_KEY_SET_MINIMUM_COUNT) * keys)
                  else pool in
      let pool := splice pool (additional + (sets - DFC_KEY_SET_MINIMUM_COUNT) * keys)
                    (slice first_versions 0 keys) in
      let first_set_version := pool.[metadata] in
      let first_set_type := pool.[set_types] in
      let first_initialized := negb (Z.land initialized_mask 1 =? 0) in
      let pool := memmove pool metadata (metadata + 1) (sets - 1) in
      let pool := memmove pool set_types (set_types + 1) (sets - 1) in
      let pool := pool.[metadata + (sets - 1) := first_set_version] in
      let pool := pool.[set_types + (sets - 1) := first_set_type] in
      let mask := u16 (Z.shiftr initialized_mask 1) in
      let mask := if first_initialized
                  then u16 (Z.lor mask (u16 (Z.shiftl 1 (sets - 1)))) else mask in
      (true, set_key_set_metadata_pool (store_metadata_mask pool mask_offset mask)
               (update_app (set_app_key_versions versions) i c))
  end.

(** The loop runs at most [b] times: the remainder decreases. *)
Fixpoint gcd_loop (fuel : nat) (a b : Z) : Z :=
  match fuel with
  | O => a
  | S fuel => if b =? 0 then a else gcd_loop fuel b (a mod b)
  end.

Definition dfc_greatest_common_divisor (a b : Z) : Z := gcd_loop (S (Z.to_nat b)) a b.

(** [memcpy(blocks + i * width, blocks + j * width, width)]. *)
Definition copy_block (pool : bytes) (base width i j : Z) : bytes :=
  splice pool (base + i * width) (slice pool (base + j * width) width).

(** The inner loop of one cycle: it visits each block of the cycle once, so the
    block count bounds it. *)
Fixpoint rotate_cycle (fuel : nat) (pool : bytes) (base count width shift cycle current : Z)
  : bytes * Z :=
  match fuel with
  | O => (pool, current)
  | S fuel =>
      let next := (current + shift) mod count in
      if next =? cycle then (pool, current)
      else rotate_cycle fuel (copy_block pool base width current next) base count width shift
             cycle next
  end.

Definition rotate_one_cycle (base count width shift : Z) (pool : bytes) (cycle : Z) : bytes :=
  let scratch := slice pool (base + cycle * width) width in
  let (pool, current) := rotate_cycle (Z.to_nat count) pool base count width shift cycle cycle in
  splice pool (base + current * width) scratch.

(** The blocks start at offset [base] of [pool]. *)
Definition dfc_rotate_key_blocks_left (pool : bytes) (base block_count block_width shift : Z)
  : bytes :=
  let cycles := dfc_greatest_common_divisor block_count shift in
  fold_left (rotate_one_cycle base block_count block_width shift) (seqZ 0 cycles) pool.

(** [rotation] calls of [dfc_credential_rotate_key_set_metadata]. *)
Fixpoint rotate_metadata_times (rotation : nat) (c : DfcCredential) (i : Z)
  : bool * DfcCredential :=
  match rotation with
  | O => (true, c)
  | S rotation =>
      let (ok, c) := dfc_credential_rotate_key_set_metadata c i in
      guard! ok else (false, c);
      rotate_metadata_times rotation c i
  end.

Definition dfc_credential_roll_key_set (c : DfcCredential) (i key_set_number : Z)
  : bool * DfcCredential :=
  let a := app_at c i in
  guard! negb ((key_set_number =? 0) || (num_key_sets a <=? key_set_number)) else (false, c);
  match dfc_key_set_metadata_mutable c i with
  | None => (false, c)
  | Some _ =>
      let key_width := dfc_credential_stored_key_length (app_key_storage_len a) in
      let block_count := app_num_keys a * num_key_sets a in
      let shift := key_set_number * app_num_keys a in
      let c := set_key_pool (dfc_rotate_key_blocks_left (key_pool c) (app_key_offset a)
                               block_count key_width shift) c in
      let (ok, c) := rotate_metadata_times (Z.to_nat key_set_number) c i in
      guard! ok else (false, c);
      match dfc_credential_key_set_type c i 0 with
      | None => (false, c)
      | Some at_type =>
          let active_type := (key_set_metadata_pool c).[at_type] in
          (true, update_app (fun a =>
             set_app_key_settings_2
               (u8 (Z.lor (Z.land (app_key_settings_2 a) (Z.lnot DFC_KEY_TYPE_MASK))
                          (dfc_key_type_for_set_type active_type)))
               (set_app_key_len (u8 (dfc_key_set_type_length active_type)) a)) i c)
      end
  end.

(** ** Applications *)

Definition dfc_credential_key_length (key_settings_2 : Z) : Z :=
  let key_type := Z.land key_settings_2 DFC_KEY_TYPE_MASK in
  if key_type =? DFC_KEY_TYPE_3K3DES then 24
  else if key_type =? DFC_KEY_TYPE_AES then 16
  else 16.

(** The authentication command a new application answers to. *)
Definition auth_command_for (key_settings_2 : Z) : Z :=
  let key_type := Z.land key_settings_2 DFC_KEY_TYPE_MASK in
  if key_type =? DFC_KEY_TYPE_AES then DFC_CMD_AUTHENTICATE_AES
  else if key_type =? DFC_KEY_TYPE_3K3DES then DFC_CMD_AUTHENTICATE_ISO
  else DFC_CMD_AUTHENTICATE_LEGACY.

Definition dfc_credential_create_application_desfire_order (c : DfcCredential) (a : bytes)
    (key_settings_1 key_settings_2 : Z) : option Z * DfcCredential :=
  guard! negb (DFC_MAX_APPS <=? num_apps c) else (None, c);
  match dfc_credential_find_application_desfire_order c a with
  | Some _ => (None, c)
  | None =>
      let num_keys := Z.land key_settings_2 DFC_NUM_KEYS_MASK in
      guard! negb ((num_keys =? 0) || (DFC_EV1_MAX_KEYS_PER_APP <? num_keys) ||
                   (DFC_MAX_KEYS <? num_keys)) else (None, c);
      let i := num_apps c in
      let c := update_app dfc_application_clear i c in
      let (ok, c) := dfc_credential_keys_resize c (Some i) num_keys
                       (dfc_credential_key_length key_settings_2) in
      guard! ok else (None, c);
      let c := set_num_apps (u8 (num_apps c + 1)) c in
      (Some i, update_app (fun app =>
         set_app_auth_command (auth_command_for key_settings_2)
           (set_app_key_settings_2 key_settings_2
              (set_app_key_settings_1 key_settings_1
                 (set_aid [a.[2]; a.[1]; a.[0]] app)))) i c)
  end.

(** Renumbering of a file that stays when application [app_index] goes. *)
Definition renumber_file (app_index : Z) (f : DfcFile) : DfcFile :=
  if negb (file_app_index f =? DFC_FILE_OWNER_PICC) && (app_index <? file_app_index f)
  then set_file_app_index (u8 (file_app_index f - 1)) f else f.

(** Every step lowers [num_files - i] by one, so the file count bounds the loop. *)
Fixpoint delete_application_files (fuel : nat) (c : DfcCredential) (app_index i : Z)
  : DfcCredential :=
  match fuel with
  | O => c
  | S fuel =>
      if i <? num_files c then
        if file_app_index (file_at c i) =? app_index then
          delete_application_files fuel (remove_file_slot (dfc_file_release c i) i) app_index i
        else
          delete_application_files fuel (update_file (renumber_file app_index) i c) app_index (i + 1)
      else c
  end.

(** [memmove] of the application array over slot [app_index], then the vacated slot
    is reset. *)
Definition remove_app_slot (c : DfcCredential) (app_index : Z) : DfcCredential :=
  let c := if app_index + 1 <? num_apps c
           then set_apps (memmove (apps c) app_index (app_index + 1) (num_apps c - app_index - 1)) c
           else c in
  let c := set_num_apps (u8 (num_apps c - 1)) c in
  update_app dfc_credential_reset_application (num_apps c) c.

Definition dfc_credential_delete_application_at (c : DfcCredential) (app_index : Z)
  : bool * DfcCredential :=
  guard! negb (num_apps c <=? app_index) else (false, c);
  let c := dfc_credential_keys_release c (Some app_index) in
  let c := delete_application_files (Z.to_nat (num_files c)) c app_index 0 in
  (true, remove_app_slot c app_index).

(** The PICC key slice moved to the head of the pool, or dropped when it does not
    lie in the used part. *)
Definition format_picc_keys (c : DfcCredential) : DfcCredential :=
  let old_key_used := key_pool_used c in
  let c :=
    if negb (picc_key_offset c =? DFC_KEY_POOL_NONE) && (0 <? picc_key_pool_len c) &&
       (picc_key_offset c <=? old_key_used) &&
       (picc_key_pool_len c <=? old_key_used - picc_key_offset c)
    then
      let c := if 0 <? picc_key_offset c
               then set_key_pool (memmove (key_pool c) 0 (picc_key_offset c) (picc_key_pool_len c)) c
               else c in
      set_key_pool_used (picc_key_pool_len c) (set_picc_key_offset 0 c)
    else set_key_pool_used 0 (set_picc_key_pool_len 0 (set_picc_key_offset DFC_KEY_POOL_NONE c)) in
  if key_pool_used c <? old_key_used
  then set_key_pool (wipe (key_pool c) (key_pool_used c) (old_key_used - key_pool_used c)) c
  else c.

Definition dfc_credential_format_picc (c : DfcCredential) : DfcCredential :=
  let c := format_picc_keys c in
  let c := if 0 <? key_set_metadata_pool_used c
           then set_key_set_metadata_pool_used 0
                  (set_key_set_metadata_pool
                     (wipe (key_set_metadata_pool c) 0 (key_set_metadata_pool_used c)) c)
           else c in
  let c := set_apps (map dfc_credential_reset_application (apps c)) c in
  let c := if 0 <? num_files c
           then set_files (splice (files c) 0 (replicate (Z.to_nat (num_files c)) zero_file)) c
           else c in
  let c := if 0 <? file_pool_used c
           then set_file_pool (wipe (file_pool c) 0 (file_pool_used c)) c else c in
  set_file_pool_used 0 (set_num_files 0 (set_num_apps 0 c)).

(** ** Whole credential *)

Definition dfc_credential_copy_model (c loaded : DfcCredential) : DfcCredential := loaded.

Definition dfc_credential_mark_dirty (c : DfcCredential) : DfcCredential := set_dirty true c.

Definition dfc_credential_clear_dirty (c : DfcCredential) : DfcCredential := set_dirty false c.

Definition dfc_credential_picc_ats_is_consistent (c : DfcCredential) : bool :=
  if picc_ats_len (picc c) =? 0 then true
  else if DFC_PICC_ATS_MAX <? picc_ats_len (picc c) then false
  else (picc_ats (picc c)).[0] =? u8 (picc_ats_len (picc c)).

Definition dfc_credential_uid_is_detectable (c : DfcCredential) : bool :=
  dfc_desfire_uid_is_detectable (uid c) (uid_len c).

(** What a file's pool slice should hold, for the types that have one. *)
Definition wanted_contents (f : DfcFile) : option Z :=
  if (file_type f =? 0) || (file_type f =? 1) then dfc_file_get_declared_size f
  else if (file_type f =? 3) || (file_type f =? 4)
  then Some (record_count (state_record (state f)) * record_size (state_record (state f)))
  else None.

(** The known octets of a file copied to the caller's scratch. *)
Definition park_contents (c : DfcCredential) (f : DfcFile) (scratch : bytes) : bytes :=
  match dfc_file_data_const c f with
  | Some src => if 0 <? data_len f
                then splice scratch 0 (slice (file_pool c) src (data_len f)) else scratch
  | None => scratch
  end.

(** And back, over the first octets of the resized file. *)
Definition restore_contents (c : DfcCredential) (i : Z) (known : bytes) : DfcCredential :=
  match dfc_file_data c i with
  | Some dst => if 0 <? zlen known then set_file_pool (splice (file_pool c) dst known) c else c
  | None => c
  end.

(** One file of [dfc_credential_materialize_contents]: whether it is complete, the
    credential and the caller's scratch. *)
Definition materialize_file (c : DfcCredential) (scratch : bytes) (i : Z)
  : bool * DfcCredential * bytes :=
  let f := file_at c i in
  let complete := update_file (set_contents_complete true) i in
  match wanted_contents f with
  | None => (true, c, scratch)
  | Some want =>
      if want <=? data_len f then (true, complete c, scratch) else
      let known_len := data_len f in
      if zlen scratch <? known_len then (false, c, scratch) else
      if (0 <? known_len) && negb (data_offset f =? DFC_FILE_POOL_NONE) &&
         (data_offset f + known_len =? file_pool_used c) && (want <=? DFC_MAX_FILE_DATA) &&
         (want - known_len <=? dfc_credential_file_pool_free c)
      then
        let grow := want - known_len in
        let c := set_file_pool (wipe (file_pool c) (file_pool_used c) grow) c in
        let c := set_file_pool_used (u16 (file_pool_used c + grow)) c in
        (true, complete (update_file (set_data_len (u16 want)) i c), scratch)
      else
      let scratch := park_contents c f scratch in
      let (ok, c) := dfc_file_resize c i want in
      if negb ok then (false, c, scratch) else
      (true, complete (restore_contents c i (slice scratch 0 known_len)), scratch)
  end.

Definition dfc_credential_materialize_contents (c : DfcCredential) (scratch : bytes)
  : bool * DfcCredential * bytes :=
  fold_left (fun '(complete, c, scratch) i =>
               let '(ok, c, scratch) := materialize_file c scratch i in
               (complete && ok, c, scratch))
    (seqZ 0 (num_files c)) (true, c, scratch).

(** An application slot as [dfc_credential_clear] leaves it after the wipe. *)
Definition cleared_application : DfcApplication :=
  set_key_set_metadata_offset DFC_KEY_SET_METADATA_POOL_NONE
    (set_num_key_sets 1 (set_app_key_offset DFC_KEY_POOL_NONE zero_application)).

Definition dfc_credential_clear (c : DfcCredential) : bool * DfcCredential :=
  let c := zero_credential in
  let c := set_picc_key_settings_1 0x0F c in
  let c := set_picc_key_settings_2 (Z.lor DFC_KEY_TYPE_DES_2K3DES 1) c in
  let c := set_picc_auth_command DFC_CMD_AUTHENTICATE_LEGACY c in
  let c := set_card (Build_DfcCard DfcGenerationEv1 DFC_DEFAULT_CARD_STORAGE DfcUidProvenanceReal
                       false false (zeros 7) (zeros 7)) c in
  let c := set_apps (replicate (Z.to_nat DFC_MAX_APPS) cleared_application) c in
  let c := set_picc_key_offset DFC_KEY_POOL_NONE c in
  let (_, c) := dfc_credential_keys_resize c None 1 8 in
  (true, c).

(** [random] is what [dfc_random_fill] writes, [None] when it fails. *)
Definition dfc_credential_init_factory (c : DfcCredential) (random : option bytes)
  : bool * DfcCredential :=
  match random with
  | None => (false, c)
  | Some r =>
      let (_, c) := dfc_credential_clear c in
      let c := set_uid_len DFC_DESFIRE_UID_LEN c in
      let c := set_uid (splice (uid c) 0 r) c in
      (true, set_uid ((uid c).[0 := DFC_DESFIRE_UID_FIRST_BYTE]) c)
  end.

Definition dfc_credential_init_blank (c : DfcCredential) (random : option bytes)
  : bool * DfcCredential :=
  let (ok, c) := dfc_credential_init_factory c random in
  guard! ok else (false, c);
  let (app, c) := dfc_credential_create_application_desfire_order c [0x01; 0x00; 0x00] 0x0F
                    (Z.lor DFC_KEY_TYPE_DES_2K3DES 1) in
  guard! bool_decide (is_Some app) else (false, c);
  match dfc_credential_create_file c 0 0x00 with
  | (None, c) => (false, c)
  | (Some file, c) =>
      let c := update_file (fun f =>
                 detach_file (set_access_rights 0 (set_comm_settings DFC_COMM_PLAIN
                   (set_file_type 0 (set_number 0 f))))) file c in
      let (ok, c) := dfc_file_set_data_size c file DFC_BLANK_FILE_SIZE in
      if ok then (true, c) else
      let c := update_file detach_file file c in
      (false, update_file (fun f => default f (dfc_file_set_declared_size f 0)) file c)
  end.
