(* ===== verification/FileStore.v ===== *)
(** The file store of the credential refines an array of files that each own their
    octets.

    [abs_files] forgets the pool: every live file becomes its settings paired with
    the octets its slice reads. Under [files_wf] each operation of
    [src/src/dfc_credential.c] on files is then an update of that list alone: a
    resize sets one entry to zeros, a deletion removes one entry, and no other file
    sees the compaction that happened under it. [sans_files] is everything an
    operation on files must leave alone. *)

From S2P Require Import Prelude Common Pool CredentialData Credential.

Definition live_files (c : DfcCredential) : list DfcFile := take (Z.to_nat (num_files c)) (files c).

Definition file_slice (f : DfcFile) : pool_slice := (data_offset f, data_len f).

Definition sans_slice (f : DfcFile) : DfcFile := set_data_len 0 (set_data_offset 0 f).

Definition file_view (c : DfcCredential) (f : DfcFile) : DfcFile * bytes :=
  (sans_slice f, slice_contents (file_pool c) (file_slice f)).

(** The abstract state: files with their own octets. *)
Definition abs_files (c : DfcCredential) : list (DfcFile * bytes) := map (file_view c) (live_files c).

Record files_wf (c : DfcCredential) : Prop := {
  fw_length : length (files c) = Z.to_nat DFC_MAX_FILES;
  fw_count : 0 <= num_files c <= DFC_MAX_FILES;
  fw_pool : pool_ok DFC_FILE_POOL_SIZE (file_pool c) (file_pool_used c)
              (map file_slice (live_files c));
}.

(** The part of the credential outside the file store. *)
Definition sans_files (c : DfcCredential) : DfcCredential :=
  set_files [] (set_file_pool [] (set_file_pool_used 0 (set_num_files 0 c))).

(** ** Live files *)

Lemma live_files_update (g : DfcFile -> DfcFile) i c :
  live_files (update_file g i c) = alter g (Z.to_nat i) (live_files c).
Proof. apply take_alter_comm. Qed.

Lemma file_at_live c i f : live_files c !! i = Some f -> file_at c (Z.of_nat i) = f.
Proof.
  intros Hi. apply lookup_take_Some in Hi as [Hi _]. unfold file_at. by rewrite Nat2Z.id, Hi.
Qed.

Lemma live_files_lt c i f : live_files c !! i = Some f -> Z.of_nat i < num_files c.
Proof. intros Hi. apply lookup_take_Some in Hi as [_ ?]. lia. Qed.

Lemma length_live_files c : files_wf c -> zlen (live_files c) = num_files c.
Proof. intros [Hl Hn _]. unfold zlen, live_files. rewrite length_take. dlia. Qed.

(** ** Compaction *)

Definition shift_file (off len : Z) (f : DfcFile) : DfcFile :=
  set_data_offset (shift_offset off len (data_offset f)) f.

Lemma live_files_compact c off len :
  (Z.to_nat (num_files c) <= length (files c))%nat -> 0 < len -> off <> POOL_NONE ->
  live_files (dfc_file_pool_compact_after_release c off len) = map (shift_file off len) (live_files c).
Proof.
  intros Hn Hl Ho. unfold dfc_file_pool_compact_after_release.
  rewrite (proj2 (Z.eqb_neq len 0)), (proj2 (Z.eqb_neq off DFC_FILE_POOL_NONE)) by (done || lia).
  cbn [orb negb]. unfold pool_compact, live_files. cbn -[take drop map].
  rewrite take_app_length'; [done|]. rewrite length_map, length_take. lia.
Qed.

Lemma compact_fields c off len :
  0 < len -> off <> POOL_NONE ->
  let c' := dfc_file_pool_compact_after_release c off len in
  let p := pool_compact (file_pool c) (file_pool_used c) off len in
  file_pool c' = fst p /\ file_pool_used c' = snd p /\ num_files c' = num_files c /\
  length (files c') = length (files c) /\ sans_files c' = sans_files c.
Proof.
  intros Hl Ho. cbv zeta. unfold dfc_file_pool_compact_after_release.
  rewrite (proj2 (Z.eqb_neq len 0)), (proj2 (Z.eqb_neq off DFC_FILE_POOL_NONE)) by (done || lia).
  cbn [orb negb]. destruct (pool_compact _ _ _ _) as [p u]. split_and!; try done.
  cbn -[take drop map]. rewrite length_app, length_map, length_take, length_drop. lia.
Qed.

Lemma map_shift_slice off len l :
  map file_slice (map (shift_file off len) l) = map (shift_slice off len) (map file_slice l).
Proof. rewrite !map_map. done. Qed.

Lemma file_slice_ok c i f :
  files_wf c -> live_files c !! i = Some f -> slice_ok (file_pool_used c) (file_slice f).
Proof.
  intros [_ _ Hp] Hi. apply (Forall_lookup_1 _ _ i _ (pool_slices _ _ _ _ Hp)).
  by rewrite list_lookup_fmap, Hi.
Qed.

(** A held slice lies in the pool. *)
Lemma file_held c i f :
  files_wf c -> live_files c !! i = Some f -> 0 < data_len f ->
  0 <= data_offset f /\ data_offset f + data_len f <= file_pool_used c /\
  file_pool_used c <= DFC_FILE_POOL_SIZE.
Proof.
  intros Hwf Hi Hl. pose proof (pool_bound _ _ _ _ (fw_pool _ Hwf)).
  destruct (file_slice_ok c i f Hwf Hi) as [[? _]|?]; cbn in *; lia.
Qed.

Lemma file_unheld c i f :
  files_wf c -> live_files c !! i = Some f -> data_len f <= 0 ->
  data_len f = 0 /\ (data_offset f = POOL_NONE \/ data_offset f = 0).
Proof. intros Hwf Hi Hl. destruct (file_slice_ok c i f Hwf Hi) as [?|?]; cbn in *; [done|lia]. Qed.

(** What a step on the file at [i] did: the store is still consistent, and the
    abstract list changed at [i] only. *)
Record file_step (c c' : DfcCredential) (i : nat) (entry : DfcFile * bytes) : Prop := {
  fs_wf : files_wf c';
  fs_abs : abs_files c' = <[i := entry]> (abs_files c);
  fs_count : num_files c' = num_files c;
  fs_frame : sans_files c' = sans_files c;
}.

Lemma abs_files_ext c c' i f' :
  (i < length (live_files c))%nat ->
  length (live_files c') = length (live_files c) ->
  live_files c' !! i = Some f' ->
  (forall j f, j <> i -> live_files c !! j = Some f ->
     exists g, live_files c' !! j = Some g /\ file_view c' g = file_view c f) ->
  abs_files c' = <[i := file_view c' f']> (abs_files c).
Proof.
  intros Hi Hlen Hf' Hothers. unfold abs_files. apply list_eq. intros j.
  destruct (decide (j = i)) as [->|Hj].
  - rewrite list_lookup_insert_eq by (rewrite length_map; done).
    rewrite list_lookup_fmap, Hf'. done.
  - rewrite list_lookup_insert_ne by done. rewrite !list_lookup_fmap.
    destruct (live_files c !! j) as [f|] eqn:Hj'.
    + destruct (Hothers j f Hj Hj') as (g & -> & Hg). cbn. by f_equal.
    + apply lookup_ge_None in Hj'. rewrite (proj2 (lookup_ge_None _ _)); [done|lia].
Qed.

(** A record that lets go of the slice it holds. *)
Lemma file_compact_correct c i f :
  files_wf c -> live_files c !! i = Some f -> 0 < data_len f ->
  let c' := dfc_file_pool_compact_after_release (update_file detach_file (Z.of_nat i) c)
              (data_offset f) (data_len f) in
  file_step c c' i (sans_slice f, []) /\
  live_files c' !! i = Some (detach_file f) /\
  file_pool_used c' = file_pool_used c - data_len f.
Proof.
  intros Hwf Hi Hl c'. pose proof (file_held c i f Hwf Hi Hl) as (Ho & Hu & Hsz).
  pose proof Hwf as [Hlen Hnum Hp].
  assert (Hne : data_offset f <> POOL_NONE) by dlia.
  set (c1 := update_file detach_file (Z.of_nat i) c) in *.
  assert (Hl1 : live_files c1 = <[i := detach_file f]> (live_files c)).
  { unfold c1. rewrite live_files_update, Nat2Z.id. by apply list_alter_lookup. }
  pose proof (compact_fields c1 _ _ Hl Hne) as (Hfp & Hfu & Hfn & Hfl & Hff). fold c' in Hfp, Hfu, Hfn, Hfl, Hff.
  assert (Hlf : length (files c1) = length (files c)) by apply length_alter.
  assert (Hlc : live_files c' = map (shift_file (data_offset f) (data_len f)) (live_files c1)).
  { apply live_files_compact; [|done|done]. rewrite Hlf, Hlen. change (num_files c1) with (num_files c). dlia. }
  assert (Hsl : map file_slice (live_files c) !! i = Some (data_offset f, data_len f))
    by (by rewrite list_lookup_fmap, Hi).
  assert (Hshift : map file_slice (live_files c') =
    slices_release (map file_slice (live_files c)) i (data_offset f) (data_len f)).
  { rewrite Hlc, map_shift_slice, Hl1. unfold slices_release. f_equal. by rewrite list_fmap_insert. }
  change (file_pool c1) with (file_pool c) in Hfp. change (file_pool_used c1) with (file_pool_used c) in Hfu, Hfp.
  assert (Hi' : live_files c' !! i = Some (detach_file f)).
  { rewrite Hlc, list_lookup_fmap, Hl1, list_lookup_insert_eq by (by eapply lookup_lt_Some). done. }
  split_and!; [|done|].
  - constructor.
    + constructor; [congruence|rewrite Hfn; exact Hnum|].
      rewrite Hshift, Hfp, Hfu. by apply pool_release_ok.
    + replace (sans_slice f, []) with (file_view c' (detach_file f)) by done.
      apply abs_files_ext; [by eapply lookup_lt_Some| |done|].
      { by rewrite Hlc, length_map, Hl1, length_insert. }
      intros j g Hj Hg. exists (shift_file (data_offset f) (data_len f) g). split.
      { by rewrite Hlc, list_lookup_fmap, Hl1, list_lookup_insert_ne, Hg. }
      unfold file_view. f_equal. rewrite Hfp. unfold slice_contents at 1.
      change (file_slice (shift_file (data_offset f) (data_len f) g)) with
        (shift_slice (data_offset f) (data_len f) (file_slice g)).
      eapply (pool_release_contents _ _ _ _ i j); [exact Hp|exact Hsl|done|done|].
      by rewrite list_lookup_fmap, Hg.
    + done.
    + rewrite Hff. done.
  - rewrite Hfu. apply pool_compact_used; dlia.
Qed.

(** Write of a whole record at a live index. *)
Lemma live_files_set c i f g :
  live_files c !! i = Some f ->
  live_files (update_file (fun _ => g) (Z.of_nat i) c) = <[i := g]> (live_files c).
Proof.
  intros Hi. rewrite live_files_update, Nat2Z.id. by erewrite list_alter_lookup by done.
Qed.

Lemma update_file_const h c i f :
  live_files c !! i = Some f ->
  update_file h (Z.of_nat i) c = update_file (fun _ => h f) (Z.of_nat i) c.
Proof.
  intros Hi. unfold update_file. rewrite Nat2Z.id. apply lookup_take_Some in Hi as [Hi _].
  by rewrite !(list_alter_lookup _ _ _ _ Hi).
Qed.

(** An update that changes neither the length held nor the pool. *)
Lemma file_update_correct c i f g :
  files_wf c -> live_files c !! i = Some f ->
  data_len g = data_len f ->
  (data_len f = 0 -> data_offset g = POOL_NONE \/ data_offset g = 0) ->
  (0 < data_len f -> data_offset g = data_offset f) ->
  file_step c (update_file (fun _ => g) (Z.of_nat i) c) i
    (sans_slice g, slice_contents (file_pool c) (file_slice f)).
Proof.
  intros Hwf Hi Hlen Hz Hp. pose proof Hwf as [Hfl Hfn Hpool].
  pose proof (live_files_set c i f g Hi) as Hl. set (c' := update_file _ _ _) in *.
  assert (Hsi : map file_slice (live_files c) !! i = Some (file_slice f))
    by (by rewrite list_lookup_fmap, Hi).
  assert (Hcase : file_slice g = file_slice f \/ (data_len f = 0 /\ data_len g = 0 /\
                    (data_offset g = POOL_NONE \/ data_offset g = 0))).
  { destruct (Z.lt_ge_cases 0 (data_len f)) as [Hpos|Hle].
    - left. unfold file_slice. by rewrite (Hp Hpos), Hlen.
    - destruct (file_unheld c i f Hwf Hi Hle) as [H0 _]. right. rewrite Hlen. tauto. }
  assert (Hview : file_view c' g = (sans_slice g, slice_contents (file_pool c) (file_slice f))).
  { unfold file_view. f_equal. destruct Hcase as [->|(H0 & H1 & _)]; [done|].
    unfold slice_contents. cbn [file_slice snd fst]. by rewrite H0, H1. }
  rewrite <- Hview. constructor; [constructor| | |]; try done.
  - unfold c'. cbn. by rewrite length_alter.
  - rewrite Hl, list_fmap_insert. change (file_pool c') with (file_pool c).
    change (file_pool_used c') with (file_pool_used c).
    destruct Hcase as [->|(H0 & Hg)]; [by rewrite list_insert_id|].
    destruct Hg. by apply (pool_set_empty _ _ _ _ i (file_slice f)).
  - apply abs_files_ext; [by eapply lookup_lt_Some| | |].
    + by rewrite Hl, length_insert.
    + rewrite Hl. apply list_lookup_insert_eq. by eapply lookup_lt_Some.
    + intros j h Hj Hh. exists h. by rewrite Hl, list_lookup_insert_ne.
Qed.

(** A file lets go of its octets, whatever it held. *)
Lemma dfc_file_release_correct c i f :
  files_wf c -> live_files c !! i = Some f ->
  let c' := dfc_file_release c (Z.of_nat i) in
  file_step c c' i (sans_slice f, []) /\
  (exists g, live_files c' !! i = Some g /\ data_len g = 0) /\
  file_pool_used c' = file_pool_used c - data_len f.
Proof.
  intros Hwf Hi. cbv zeta. unfold dfc_file_release. rewrite (file_at_live _ _ _ Hi).
  destruct (Z.lt_ge_cases 0 (data_len f)) as [Hpos|Hle].
  - pose proof (file_held c i f Hwf Hi Hpos).
    rewrite (proj2 (Z.eqb_neq _ _)) by dlia.
    destruct (file_compact_correct c i f Hwf Hi Hpos) as (Hs & Hl & Hu). split_and!; [done| |done].
    by exists (detach_file f).
  - destruct (file_unheld c i f Hwf Hi Hle) as [H0 Ho].
    assert (Hgo : forall g, data_len g = 0 -> (data_offset g = POOL_NONE \/ data_offset g = 0) ->
      sans_slice g = sans_slice f ->
      let c' := update_file (fun _ => g) (Z.of_nat i) c in
      file_step c c' i (sans_slice f, []) /\
      (exists g, live_files c' !! i = Some g /\ data_len g = 0) /\
      file_pool_used c' = file_pool_used c - data_len f).
    { intros g Hg0 Hgo Hgs. cbv zeta. split_and!.
      - rewrite <- Hgs.
        replace [] with (slice_contents (file_pool c) (file_slice f))
          by (unfold slice_contents; cbn [file_slice snd fst]; by rewrite H0).
        apply file_update_correct; try done; lia.
      - exists g. rewrite (live_files_set _ _ _ _ Hi). split; [|done].
        apply list_lookup_insert_eq. by eapply lookup_lt_Some.
      - cbn. lia. }
    pose proof (fun h => update_file_const h _ _ _ Hi) as Hconst.
    destruct (data_offset f =? DFC_FILE_POOL_NONE) eqn:E; bool_facts.
    + rewrite Hconst. by apply Hgo.
    + unfold dfc_file_pool_compact_after_release.
      rewrite (proj2 (Z.eqb_eq (data_len f) 0) H0). cbn [orb negb].
      rewrite Hconst. apply Hgo; [done|by left|done].
Qed.

Lemma file_step_trans c c1 c2 i e1 e2 :
  file_step c c1 i e1 -> file_step c1 c2 i e2 -> file_step c c2 i e2.
Proof.
  intros [_ Ha1 Hn1 Hf1] [Hw2 Ha2 Hn2 Hf2]. constructor; [done| |congruence|congruence].
  by rewrite Ha2, Ha1, list_insert_insert_eq.
Qed.

(** An empty file is handed the next [want] octets, zeroed. *)
Lemma file_allocate_correct c i f want :
  files_wf c -> live_files c !! i = Some f -> data_len f = 0 -> 0 < want ->
  file_pool_used c + want <= DFC_FILE_POOL_SIZE ->
  let used := file_pool_used c in
  let c1 := update_file (fun f => set_data_len (u16 want) (set_data_offset (u16 used) f))
              (Z.of_nat i) c in
  let c2 := set_file_pool (wipe (file_pool c1) (u16 used) want) c1 in
  file_step c (set_file_pool_used (u16 (used + want)) c2) i (sans_slice f, zeros want).
Proof.
  intros Hwf Hi H0 Hw Hfit used c1 c2. set (c3 := set_file_pool_used _ _).
  pose proof Hwf as [Hfl Hfn Hp]. pose proof (pool_bound _ _ _ _ Hp) as Hb.
  assert (Hu : u16 used = used) by (apply u16_id; unfold used; dlia).
  assert (Huw : u16 (used + want) = used + want) by (apply u16_id; unfold used; dlia).
  assert (Hw16 : u16 want = want) by (apply u16_id; unfold used; dlia).
  set (g := set_data_len want (set_data_offset used f)).
  assert (Hl : live_files c3 = <[i := g]> (live_files c)).
  { change (live_files c3) with (live_files c1). unfold c1. rewrite (update_file_const _ _ _ _ Hi).
    rewrite (live_files_set _ _ _ _ Hi), Hu, Hw16. done. }
  assert (Hpool : file_pool c3 = wipe (file_pool c) used want).
  { unfold c3, c2. cbn -[wipe]. by rewrite Hu. }
  assert (Hused : file_pool_used c3 = used + want) by exact Huw.
  assert (Hsi : map file_slice (live_files c) !! i = Some (data_offset f, 0))
    by (by rewrite list_lookup_fmap, Hi, <- H0).
  replace (sans_slice f, zeros want) with (file_view c3 g).
  2: { unfold file_view. f_equal. rewrite Hpool. apply pool_allocate_zero; [unfold used; lia|done|].
       rewrite (pool_size _ _ _ _ Hp). done. }
  constructor; [constructor| | |]; try done.
  - cbn. by rewrite length_alter.
  - rewrite Hl, list_fmap_insert, Hpool, Hused.
    by apply (pool_allocate_ok _ _ _ _ i (data_offset f)).
  - apply abs_files_ext; [by eapply lookup_lt_Some| | |].
    + by rewrite Hl, length_insert.
    + rewrite Hl. apply list_lookup_insert_eq. by eapply lookup_lt_Some.
    + intros j h Hj Hh. exists h. rewrite Hl, list_lookup_insert_ne by done. split; [done|].
      unfold file_view. f_equal. rewrite Hpool.
      eapply (pool_allocate_contents _ _ _ _ i j); [exact Hp|exact Hsi|done|done|done|].
      by rewrite list_lookup_fmap, Hh.
Qed.

(** The octets a file reads after a resize: the same octets for the same length,
    zeros otherwise. *)
Definition resized_contents (c : DfcCredential) (f : DfcFile) (want : Z) : bytes :=
  if want =? data_len f then slice_contents (file_pool c) (file_slice f) else zeros want.

Definition resize_fits (c : DfcCredential) (f : DfcFile) (want : Z) : bool :=
  (want <=? DFC_MAX_FILE_DATA) && (file_pool_used c - data_len f + want <=? DFC_FILE_POOL_SIZE).

Lemma file_slice_resolve c i f :
  files_wf c -> live_files c !! i = Some f ->
  dfc_pool_slice_resolve (data_offset f) (data_len f) (file_pool_used c) DFC_FILE_POOL_NONE =
  Some (if data_len f =? 0 then POOL_NONE else data_offset f).
Proof.
  intros Hwf Hi. apply (slice_resolve_ok _ (file_slice f)); [|by eapply file_slice_ok].
  destruct Hwf as [_ _ Hp]. pose proof (pool_bound _ _ _ _ Hp). dlia.
Qed.

(** The end of a resize, once the file holds no octets. *)
Lemma file_resize_tail c c1 i f f1 want e :
  file_step c c1 i e -> live_files c1 !! i = Some f1 -> data_len f1 = 0 -> sans_slice f1 = sans_slice f ->
  file_pool_used c1 = file_pool_used c - data_len f ->
  0 <= want -> file_pool_used c1 + want <= DFC_FILE_POOL_SIZE ->
  let '(ok, c') :=
    (if want =? 0 then (true, update_file detach_file (Z.of_nat i) c1) else
     let used := file_pool_used c1 in
     let c := update_file (fun f => set_data_len (u16 want) (set_data_offset (u16 used) f))
                (Z.of_nat i) c1 in
     let c := set_file_pool (wipe (file_pool c) (u16 used) want) c in
     (true, set_file_pool_used (u16 (used + want)) c)) in
  ok = true /\ (ok = false -> c' = c) /\
  (ok = true -> file_step c c' i (sans_slice f, zeros want) /\
                file_pool_used c' = file_pool_used c - data_len f + want).
Proof.
  intros Hst Hl Hl0 Hss Hu Hw Hfit. pose proof (fs_wf _ _ _ _ Hst) as Hwf1.
  destruct (want =? 0) eqn:E; bool_facts.
  - subst want. split_and!; [done..|]. intros _. split; [|cbn; lia].
    eapply file_step_trans; [exact Hst|]. rewrite (update_file_const _ _ _ _ Hl), <- Hss.
    change (sans_slice f1) with (sans_slice (detach_file f1)).
    replace (zeros 0) with (slice_contents (file_pool c1) (file_slice f1))
      by (unfold slice_contents; cbn [file_slice snd fst]; by rewrite Hl0).
    apply file_update_correct; try done; [by left|lia].
  - split_and!; [done..|]. intros _. split.
    + eapply file_step_trans; [exact Hst|]. rewrite <- Hss.
      apply file_allocate_correct; (done || lia).
    + cbn. rewrite u16_id; [lia|]. destruct Hwf1 as [_ _ Hp]. pose proof (pool_bound _ _ _ _ Hp). dlia.
Qed.

(** [dfc_file_resize] succeeds exactly when the octets fit once the old ones are
    counted as free, and refuses without a change otherwise. *)
Lemma dfc_file_resize_correct c i f want :
  files_wf c -> live_files c !! i = Some f -> 0 <= want ->
  let '(ok, c') := dfc_file_resize c (Z.of_nat i) want in
  ok = resize_fits c f want /\
  (ok = false -> c' = c) /\
  (ok = true -> file_step c c' i (sans_slice f, resized_contents c f want) /\
                file_pool_used c' = file_pool_used c - data_len f + want).
Proof.
  intros Hwf Hi Hw. pose proof Hwf as [_ _ Hp]. pose proof (pool_bound _ _ _ _ Hp) as Hb.
  pose proof (file_slice_ok _ _ _ Hwf Hi) as Hs.
  assert (Hle : 0 <= data_len f <= file_pool_used c)
    by (destruct Hs as [[? _]|?]; cbn in *; lia).
  unfold dfc_file_resize, resize_fits. rewrite (file_at_live _ _ _ Hi), (file_slice_resolve _ _ _ Hwf Hi).
  destruct (DFC_MAX_FILE_DATA <? want) eqn:E1; cbn [negb]; bool_facts.
  { rewrite (proj2 (Z.leb_gt want _)) by lia. done. }
  rewrite (proj2 (Z.leb_le want _)) by lia. cbn [andb].
  rewrite (proj2 (Z.ltb_ge DFC_FILE_POOL_SIZE want)) by dlia.
  rewrite (proj2 (Z.ltb_ge DFC_FILE_POOL_SIZE (file_pool_used c))) by lia. cbn [negb].
  destruct (Z.lt_ge_cases 0 (data_len f)) as [Hpos|Hle0].
  - pose proof (file_held c i f Hwf Hi Hpos) as (Ho & Hu & _).
    rewrite (proj2 (Z.eqb_neq (data_len f) 0)) by lia.
    rewrite (proj2 (Z.eqb_neq (data_offset f) DFC_FILE_POOL_NONE)) by dlia. cbn [negb andb].
    destruct (data_len f =? want) eqn:E2; bool_facts.
    { rewrite (proj2 (Z.leb_le _ _)) by lia. split_and!; [done..|]. intros _. split; [|lia].
      unfold resized_contents. rewrite (proj2 (Z.eqb_eq want _)) by lia.
      constructor; [done| |done|done]. symmetry. apply list_insert_id.
      unfold abs_files. by rewrite list_lookup_fmap, Hi. }
    rewrite (proj2 (Z.ltb_ge (file_pool_used c) (data_len f))) by lia. cbn [negb].
    destruct (DFC_FILE_POOL_SIZE - _ <? want) eqn:E3; cbn [negb]; bool_facts.
    { rewrite (proj2 (Z.leb_gt _ _)) by lia. done. }
    rewrite (proj2 (Z.leb_le _ _)) by lia.
    destruct (file_compact_correct c i f Hwf Hi Hpos) as (Hst & Hl & Hu1).
    set (c1 := dfc_file_pool_compact_after_release _ _ _) in *.
    unfold resized_contents. rewrite (proj2 (Z.eqb_neq want (data_len f))) by lia.
    apply (file_resize_tail c c1 i f (detach_file f) want _ Hst Hl); (done || lia).
  - assert (H0 : data_len f = 0) by lia. rewrite (proj2 (Z.eqb_eq (data_len f) 0) H0).
    change (POOL_NONE =? DFC_FILE_POOL_NONE) with true. cbn [negb andb].
    destruct (DFC_FILE_POOL_SIZE - _ <? want) eqn:E3; cbn [negb]; bool_facts.
    { rewrite (proj2 (Z.leb_gt _ _)) by lia. done. }
    rewrite (proj2 (Z.leb_le _ _)) by lia.
    replace (resized_contents c f want) with (zeros want).
    2: { unfold resized_contents, slice_contents. cbn [file_slice fst snd].
         destruct (want =? data_len f) eqn:E; bool_facts; [|done]. by rewrite E, H0. }
    apply (file_resize_tail c c i f f want (sans_slice f, [])); try (done || lia).
    constructor; try done. symmetry. apply list_insert_id. unfold abs_files.
    rewrite list_lookup_fmap, Hi. cbn. unfold file_view, slice_contents. cbn [file_slice fst snd].
    by rewrite H0.
Qed.

(** ** Creating and deleting files *)

(** A file without octets leaves the array. *)
Lemma remove_file_slot_correct c i f :
  files_wf c -> live_files c !! i = Some f -> data_len f = 0 ->
  let c' := remove_file_slot c (Z.of_nat i) in
  files_wf c' /\ abs_files c' = delete i (abs_files c) /\
  num_files c' = num_files c - 1 /\ sans_files c' = sans_files c.
Proof.
  intros Hwf Hi H0 c'. pose proof Hwf as [Hfl Hfn Hp]. pose proof (live_files_lt _ _ _ Hi) as Hlt.
  assert (Hz : zlen (files c) = DFC_MAX_FILES) by (unfold zlen; rewrite Hfl; done).
  assert (Hn : num_files c' = num_files c - 1).
  { unfold c', remove_file_slot. destruct (_ <? _); cbn; apply u8_id; dlia. }
  assert (Hl : live_files c' = delete i (live_files c)).
  { unfold live_files at 1. rewrite Hn. unfold live_files.
    replace (delete i) with (delete (Z.to_nat (Z.of_nat i)) : list DfcFile -> list DfcFile)
      by (by rewrite Nat2Z.id).
    rewrite <- take_memmove_delete by lia. unfold c', remove_file_slot, update_file.
    destruct (_ <? _) eqn:E; cbn [files set_files set_num_files num_files];
      rewrite take_alter_comm; rewrite u8_id by dlia;
      apply alter_ge; rewrite length_take; lia. }
  assert (Hlen : length (files c') = length (files c)).
  { unfold c', remove_file_slot, update_file. destruct (_ <? _) eqn:E; bool_facts; cbn;
      rewrite length_alter; [apply length_memmove; lia|done]. }
  assert (Hpool : file_pool c' = file_pool c /\ file_pool_used c' = file_pool_used c /\
                  sans_files c' = sans_files c).
  { unfold c', remove_file_slot, update_file. by destruct (_ <? _). }
  destruct Hpool as (Hp1 & Hp2 & Hfr). split_and!; try done.
  - constructor; [congruence|lia|].
    rewrite Hl, Hp1, Hp2, list_fmap_delete.
    apply (pool_delete_ok _ _ _ _ i (file_slice f)); [done| |exact H0].
    by rewrite list_lookup_fmap, Hi.
  - unfold abs_files. rewrite Hl, <- list_fmap_delete. unfold file_view. by rewrite Hp1.
Qed.

(** A file leaves the store with its octets. *)
Lemma drop_file_correct c i f :
  files_wf c -> live_files c !! i = Some f ->
  let c' := remove_file_slot (dfc_file_release c (Z.of_nat i)) (Z.of_nat i) in
  files_wf c' /\ abs_files c' = delete i (abs_files c) /\
  num_files c' = num_files c - 1 /\ sans_files c' = sans_files c.
Proof.
  intros Hwf Hi. destruct (dfc_file_release_correct c i f Hwf Hi) as ([Hw1 Ha1 Hn1 Hf1] & (g & Hg & H0) & _).
  destruct (remove_file_slot_correct _ i g Hw1 Hg H0) as (Hw & Ha & Hn & Hf).
  split_and!; [done| |lia|congruence]. by rewrite Ha, Ha1, delete_insert_same.
Qed.

(** *** Lookup by application and number *)

Lemma find_from_spec {A} (p : A -> bool) l i :
  match find_from p l i with
  | Some k => exists j x, k = i + Z.of_nat j /\ l !! j = Some x /\ p x = true /\
                (forall j' y, (j' < j)%nat -> l !! j' = Some y -> p y = false)
  | None => Forall (fun x => p x = false) l
  end.
Proof.
  revert i. induction l as [|a l IH]; intros i; cbn; [constructor|].
  destruct (p a) eqn:E.
  - exists O, a. split_and!; [lia|done|done|lia].
  - specialize (IH (i + 1)). destruct (find_from p l (i + 1)) as [k|]; [|by constructor].
    destruct IH as (j & x & -> & Hj & Hx & Hbefore). exists (S j), x. split_and!; [lia|done|done|].
    intros [|j'] y Hj' Hy; simplify_eq/=; [done|]. eapply Hbefore; [|done]. lia.
Qed.

(** The identity a file is looked up by. *)
Definition file_key (f : DfcFile) : Z * Z := (file_app_index f, number f).

Definition owns (app_index n : Z) (f : DfcFile) : bool :=
  (file_app_index f =? app_index) && (number f =? n).

Lemma owns_iff app_index n f : owns app_index n f = true <-> file_key f = (app_index, n).
Proof.
  unfold owns, file_key. rewrite andb_true_iff, !Z.eqb_eq. split; [by intros [-> ->]|].
  by injection 1.
Qed.

Lemma find_file_spec c app_index n :
  match dfc_credential_find_file_in_app c app_index n with
  | Some k => exists j f, k = Z.of_nat j /\ live_files c !! j = Some f /\ file_key f = (app_index, n)
  | None => Forall (fun f => file_key f <> (app_index, n)) (live_files c)
  end.
Proof.
  pose proof (find_from_spec (owns app_index n) (live_files c) 0) as H.
  change (dfc_credential_find_file_in_app c app_index n) with
    (find_from (owns app_index n) (live_files c) 0). destruct (find_from _ _ 0) as [k|].
  - destruct H as (j & f & -> & Hj & Hf & _). exists j, f. split_and!; [lia|done|by apply owns_iff].
  - eapply Forall_impl; [|exact H]. intros f Hf Hk. apply owns_iff in Hk. cbn in *. congruence.
Qed.

(** The file a successful creation appends. *)
Definition fresh_file (app_index n : Z) : DfcFile :=
  set_number n (set_file_app_index (u8 app_index) zero_file).

Lemma create_file_correct c app_index n i c' :
  files_wf c -> dfc_credential_create_file c app_index n = (Some i, c') ->
  i = num_files c /\ app_index < num_apps c /\
  Forall (fun f => file_key f <> (app_index, n)) (live_files c) /\
  files_wf c' /\ abs_files c' = abs_files c ++ [(fresh_file app_index n, [])] /\
  num_files c' = num_files c + 1 /\ sans_files c' = sans_files c.
Proof.
  intros Hwf Hc. pose proof Hwf as [Hfl Hfn Hp]. unfold dfc_credential_create_file in Hc.
  destruct (num_apps c <=? app_index) eqn:E1; [done|]. cbn [negb] in Hc.
  destruct (DFC_MAX_FILES <=? num_files c) eqn:E2; [done|]. cbn [negb] in Hc. bool_facts.
  pose proof (find_file_spec c app_index n) as Hfind.
  destruct (dfc_credential_find_file_in_app _ _ _); [done|]. injection Hc as <- <-.
  set (g := set_data_len _ _). set (c' := set_num_files _ _).
  assert (Hn : num_files c' = num_files c + 1) by (apply u8_id; dlia).
  assert (Hl : live_files c' = live_files c ++ [g]).
  { unfold live_files at 1. rewrite Hn, Z2Nat.inj_add, Nat.add_comm by lia.
    apply take_succ_alter. dlia. }
  split_and!; try done.
  - constructor; [cbn; by rewrite length_alter|lia|].
    rewrite Hl, map_app. by apply pool_snoc_ok.
  - unfold abs_files. rewrite Hl, map_app. done.
Qed.

(** Deletion removes the first file of that identity and its octets. *)
Lemma delete_file_correct c app_index n :
  files_wf c ->
  let '(ok, c') := dfc_credential_delete_file c app_index n in
  (ok = false -> c' = c /\ Forall (fun f => file_key f <> (app_index, n)) (live_files c)) /\
  (ok = true -> exists j f, live_files c !! j = Some f /\ file_key f = (app_index, n) /\
     files_wf c' /\ abs_files c' = delete j (abs_files c) /\
     num_files c' = num_files c - 1 /\ sans_files c' = sans_files c).
Proof.
  intros Hwf. unfold dfc_credential_delete_file. pose proof (find_file_spec c app_index n) as Hfind.
  destruct (dfc_credential_find_file_in_app _ _ _) as [k|]; [|done].
  destruct Hfind as (j & f & -> & Hj & Hk). split; [done|]. intros _. exists j, f.
  destruct (drop_file_correct c j f Hwf Hj) as (? & ? & ? & ?). done.
Qed.

(** *** The files of a deleted application *)

Definition entry_owner (e : DfcFile * bytes) : Z := file_app_index (fst e).

Definition renumber_entry (app_index : Z) (e : DfcFile * bytes) : DfcFile * bytes :=
  (renumber_file app_index (fst e), snd e).

(** The files that stay when an application goes. *)
Definition files_without (app_index : Z) (l : list (DfcFile * bytes)) : list (DfcFile * bytes) :=
  map (renumber_entry app_index) (base.filter (fun e => entry_owner e <> app_index) l).

Lemma sans_slice_renumber app_index f :
  sans_slice (renumber_file app_index f) = renumber_file app_index (sans_slice f).
Proof. unfold renumber_file. cbn [sans_slice file_app_index set_data_len set_data_offset]. by destruct (_ && _). Qed.

Lemma renumber_slice app_index f : file_slice (renumber_file app_index f) = file_slice f.
Proof. unfold renumber_file. by destruct (_ && _). Qed.

Lemma files_without_stop app_index i (l : list (DfcFile * bytes)) :
  (length l <= i)%nat -> l = take i l ++ files_without app_index (drop i l).
Proof. intros. rewrite drop_ge, take_ge by lia. cbn. by rewrite app_nil_r. Qed.

Lemma delete_application_files_correct fuel c app_index (i : nat) :
  files_wf c -> num_files c - Z.of_nat i <= Z.of_nat fuel ->
  let c' := delete_application_files fuel c app_index (Z.of_nat i) in
  files_wf c' /\ sans_files c' = sans_files c /\
  abs_files c' = take i (abs_files c) ++ files_without app_index (drop i (abs_files c)).
Proof.
  revert c i. induction fuel as [|fuel IH]; intros c i Hwf Hfuel; cbn [delete_application_files];
    pose proof (length_live_files c Hwf) as Hlen; unfold zlen in Hlen;
    assert (Hal : length (abs_files c) = length (live_files c)) by apply length_map.
  { split_and!; [done|done|]. apply files_without_stop. lia. }
  destruct (Z.of_nat i <? num_files c) eqn:E; bool_facts.
  2: { split_and!; [done|done|]. apply files_without_stop. lia. }
  destruct (lookup_lt_is_Some_2 (live_files c) i) as [f Hf]; [lia|].
  assert (Ha : abs_files c !! i = Some (file_view c f)) by (unfold abs_files; by rewrite list_lookup_fmap, Hf).
  rewrite (file_at_live _ _ _ Hf), (drop_S _ _ _ Ha). unfold files_without. rewrite filter_cons.
  change (entry_owner (file_view c f)) with (file_app_index f).
  destruct (file_app_index f =? app_index) eqn:Eo; bool_facts.
  - destruct (drop_file_correct c _ f Hwf Hf) as (Hw1 & Ha1 & Hn1 & Hf1).
    destruct (IH _ i Hw1) as (Hw & Hfr & Habs); [lia|].
    split_and!; [done|congruence|]. rewrite Habs, Ha1, decide_False by tauto.
    rewrite delete_take_drop.
    rewrite take_app_length', drop_app_length' by (rewrite length_take; lia). done.
  - assert (Hsl : data_len (renumber_file app_index f) = data_len f /\
                  data_offset (renumber_file app_index f) = data_offset f).
    { pose proof (renumber_slice app_index f) as Hs. by injection Hs. }
    destruct Hsl as [Hsl1 Hsl2].
    destruct (file_update_correct c i f (renumber_file app_index f)) as [Hw1 Ha1 Hn1 Hf1];
      [done|done|done| |done|].
    { intros H0. rewrite Hsl2. by apply (file_unheld c i f); [..|lia]. }
    rewrite <- (update_file_const _ _ _ _ Hf) in Hw1, Ha1, Hn1, Hf1.
    destruct (IH _ (S i) Hw1) as (Hw & Hfr & Habs); [lia|].
    replace (Z.of_nat i + 1) with (Z.of_nat (S i)) by lia.
    split_and!; [done|congruence|]. rewrite Habs, Ha1, decide_True by done.
    rewrite sans_slice_renumber, drop_insert_lt by lia.
    erewrite take_S_r by (apply list_lookup_insert_eq; lia).
    rewrite take_insert_ge, <- app_assoc by lia. done.
Qed.

(** ** Declared size *)

(** The settings of a data file given a new size. *)
Definition sized_file (f : DfcFile) (size : Z) : DfcFile :=
  set_contents_complete true
    (set_state (StateData (set_declared_size size (state_data (state f)))) f).

Lemma set_data_size_correct c i f size :
  files_wf c -> live_files c !! i = Some f -> 0 <= size ->
  let '(ok, c') := dfc_file_set_data_size c (Z.of_nat i) size in
  ok = dfc_file_type_is_data (file_type f) && resize_fits c f size /\
  (ok = false -> c' = c) /\
  (ok = true -> file_step c c' i (sized_file (sans_slice f) size, resized_contents c f size)).
Proof.
  intros Hwf Hi Hs. unfold dfc_file_set_data_size. rewrite (file_at_live _ _ _ Hi).
  destruct (dfc_file_type_is_data (file_type f)) eqn:Et; [|done]. cbn [andb].
  pose proof (dfc_file_resize_correct c i f size Hwf Hi Hs) as H.
  destruct (dfc_file_resize _ _ _) as [ok c1]. destruct H as (-> & Hno & Hyes).
  destruct (resize_fits c f size); [|by rewrite Hno]. destruct (Hyes eq_refl) as [Hst _].
  pose proof (fs_wf _ _ _ _ Hst) as Hw1.
  assert (Hlt : (i < length (live_files c1))%nat).
  { pose proof (length_live_files _ Hwf). pose proof (length_live_files _ Hw1).
    pose proof (fs_count _ _ _ _ Hst). pose proof (lookup_lt_Some _ _ _ Hi). unfold zlen in *. lia. }
  destruct (lookup_lt_is_Some_2 _ _ Hlt) as [g Hg]. rewrite (file_at_live _ _ _ Hg).
  assert (Hv : file_view c1 g = (sans_slice f, resized_contents c f size)).
  { pose proof (f_equal (fun l => l !! i) (fs_abs _ _ _ _ Hst)) as Hl. cbn beta in Hl.
    rewrite list_lookup_insert_eq in Hl
      by (unfold abs_files; rewrite length_map; by eapply lookup_lt_Some).
    unfold abs_files in Hl. rewrite list_lookup_fmap, Hg in Hl. by apply (inj Some) in Hl. }
  pose proof (f_equal fst Hv : sans_slice g = sans_slice f) as Hsans.
  pose proof (f_equal snd Hv : slice_contents (file_pool c1) (file_slice g) = _) as Hcont. cbn [snd] in Hcont.
  assert (Htype : file_type g = file_type f) by exact (f_equal file_type Hsans).
  unfold dfc_file_set_declared_size. rewrite Htype, Et. split_and!; [done..|]. intros _.
  eapply file_step_trans; [exact Hst|]. rewrite <- Hcont, <- Hsans.
  apply (file_update_correct c1 i g (sized_file g size)); try done.
  intros H0. by apply (file_unheld c1 i g Hw1 Hg); lia.
Qed.

(** ** Writing a file's octets *)

(** A write inside the octets of one file. *)
Lemma file_write_correct c i f o src :
  files_wf c -> live_files c !! i = Some f -> 0 < data_len f -> 0 <= o -> o + zlen src <= data_len f ->
  file_step c (set_file_pool (splice (file_pool c) (data_offset f + o) src) c) i
    (sans_slice f, splice (slice_contents (file_pool c) (file_slice f)) o src).
Proof.
  intros Hwf Hi Hpos Ho Hin. pose proof (file_held c i f Hwf Hi Hpos) as (H0 & Hu & Hs).
  pose proof Hwf as [Hfl Hfn Hp]. destruct Hp as [Hz Hb Hn Hsl Hd Ht Hc]. pose proof (zlen_nonneg src).
  set (c' := set_file_pool _ _). assert (Hl : live_files c' = live_files c) by done.
  assert (Hself : slice_contents (file_pool c') (file_slice f) =
                  splice (slice_contents (file_pool c) (file_slice f)) o src)
    by (apply slice_splice_inside; cbn; lia).
  rewrite <- Hself. change (sans_slice f, _) with (file_view c' f). constructor; [constructor| | |]; try done.
  - constructor; try done.
    + cbn. rewrite length_splice; lia.
    + intros k Hk. cbn. rewrite splice_lookup by lia. unfold zlen in *. cbn in Hk.
      repeat case_decide; try lia; apply Hc; lia.
  - apply abs_files_ext; [by eapply lookup_lt_Some|done|done|]. intros j g Hj Hg. exists g. split; [done|].
    unfold file_view. f_equal. unfold slice_contents. cbn [file_slice fst snd].
    pose proof (file_slice_ok c j g Hwf Hg) as [[Hg0 _]|(Hgp & Hgo & Hgu)]; cbn [file_slice fst snd] in *.
    { by rewrite Hg0. }
    destruct (Hd i j (file_slice f) (file_slice g)) as [Hdis|Hdis]; cbn [file_slice fst snd] in *; try done.
    + by rewrite list_lookup_fmap, Hi.
    + by rewrite list_lookup_fmap, Hg.
    + apply slice_splice_disjoint; lia.
    + apply slice_splice_disjoint; lia.
Qed.
