(* ===== verification/KeyStore.v ===== *)
(** The key store of the credential refines an array of applications that each own
    their key material and key-set metadata, beside the PICC record's own keys.

    [abs_apps] and [abs_picc_keys] forget the two pools of
    [src/src/dfc_credential.c]: an application slot becomes its settings, the octets
    its key slice reads and the octets its metadata slice reads. Under [keys_wf] a
    release, a resize or a format is an update of one entry of that abstract state.
    [sans_keys] is everything an operation on keys must leave alone. *)

From S2P Require Import Prelude Common Pool CredentialData Credential.

Definition key_slice (a : DfcApplication) : pool_slice := (app_key_offset a, app_key_pool_len a).

Definition meta_slice (a : DfcApplication) : pool_slice :=
  (key_set_metadata_offset a, key_set_metadata_len a).

Definition picc_slice (c : DfcCredential) : pool_slice := (picc_key_offset c, picc_key_pool_len c).

(** The PICC record indexes the key pool beside the applications. *)
Definition key_slices (c : DfcCredential) : list pool_slice := picc_slice c :: map key_slice (apps c).

Definition app_sans (a : DfcApplication) : DfcApplication :=
  set_app_key_offset 0 (set_app_key_pool_len 0
    (set_key_set_metadata_offset 0 (set_key_set_metadata_len 0 a))).

(** An application with its own octets. *)
Record AppEntry := mk_entry { entry_app : DfcApplication; entry_keys : bytes; entry_meta : bytes }.

Definition app_view (c : DfcCredential) (a : DfcApplication) : AppEntry :=
  mk_entry (app_sans a) (slice_contents (key_pool c) (key_slice a))
    (slice_contents (key_set_metadata_pool c) (meta_slice a)).

Definition abs_apps (c : DfcCredential) : list AppEntry := map (app_view c) (apps c).

Definition abs_picc_keys (c : DfcCredential) : bytes := slice_contents (key_pool c) (picc_slice c).

Record keys_wf (c : DfcCredential) : Prop := {
  kw_length : length (apps c) = Z.to_nat DFC_MAX_APPS;
  kw_keys : pool_ok DFC_KEY_POOL_SIZE (key_pool c) (key_pool_used c) (key_slices c);
  kw_meta : pool_ok DFC_KEY_SET_METADATA_POOL_SIZE (key_set_metadata_pool c)
              (key_set_metadata_pool_used c) (map meta_slice (apps c));
}.

(** The part of the credential outside the key store. *)
Definition sans_keys (c : DfcCredential) : DfcCredential :=
  set_apps [] (set_key_pool [] (set_key_pool_used 0 (set_key_set_metadata_pool []
    (set_key_set_metadata_pool_used 0 (set_picc_key_offset 0 (set_picc_key_pool_len 0
      (set_picc_num_keys 0 (set_picc_key_len 0 c)))))))).

(** What a step on the application at [i] did. *)
Record app_step (c c' : DfcCredential) (i : nat) (entry : AppEntry) : Prop := {
  as_wf : keys_wf c';
  as_abs : abs_apps c' = <[i := entry]> (abs_apps c);
  as_picc : abs_picc_keys c' = abs_picc_keys c;
  as_counts : picc_num_keys c' = picc_num_keys c /\ picc_key_len c' = picc_key_len c;
  as_frame : sans_keys c' = sans_keys c;
}.

Lemma app_step_trans c c1 c2 i e1 e2 : app_step c c1 i e1 -> app_step c1 c2 i e2 -> app_step c c2 i e2.
Proof.
  intros [_ Ha1 Hp1 [Hc1 Hd1] Hf1] [Hw2 Ha2 Hp2 [Hc2 Hd2] Hf2].
  constructor; [done| |congruence|split; congruence|congruence].
  by rewrite Ha2, Ha1, list_insert_insert_eq.
Qed.

Lemma app_at_lookup c i a : apps c !! i = Some a -> app_at c (Z.of_nat i) = a.
Proof. intros Hi. unfold app_at. by rewrite Nat2Z.id, Hi. Qed.

Lemma apps_update g c i a :
  apps c !! i = Some a -> apps (update_app g (Z.of_nat i) c) = <[i := g a]> (apps c).
Proof. intros Hi. cbn. rewrite Nat2Z.id. by apply list_alter_lookup. Qed.

Lemma abs_apps_ext c c' i a' :
  (i < length (apps c))%nat -> length (apps c') = length (apps c) ->
  apps c' !! i = Some a' ->
  (forall j a, j <> i -> apps c !! j = Some a ->
     exists b, apps c' !! j = Some b /\ app_view c' b = app_view c a) ->
  abs_apps c' = <[i := app_view c' a']> (abs_apps c).
Proof.
  intros Hi Hlen Ha' Hothers. unfold abs_apps. apply list_eq. intros j.
  destruct (decide (j = i)) as [->|Hj].
  - rewrite list_lookup_insert_eq by (by rewrite length_map). by rewrite list_lookup_fmap, Ha'.
  - rewrite list_lookup_insert_ne by done. rewrite !list_lookup_fmap.
    destruct (apps c !! j) as [a|] eqn:Hj'.
    + destruct (Hothers j a Hj Hj') as (b & -> & Hb). cbn. by f_equal.
    + apply lookup_ge_None in Hj'. rewrite (proj2 (lookup_ge_None _ _)); [done|lia].
Qed.

(** ** Slices of a consistent store *)

Lemma key_slice_ok c i a :
  keys_wf c -> apps c !! i = Some a -> slice_ok (key_pool_used c) (key_slice a).
Proof.
  intros [_ Hp _] Hi. apply (Forall_lookup_1 _ _ (S i) _ (pool_slices _ _ _ _ Hp)).
  change (map key_slice (apps c) !! i = Some (key_slice a)). by rewrite list_lookup_fmap, Hi.
Qed.

Lemma picc_slice_ok c : keys_wf c -> slice_ok (key_pool_used c) (picc_slice c).
Proof. intros [_ Hp _]. by apply (Forall_lookup_1 _ _ O _ (pool_slices _ _ _ _ Hp)). Qed.

Lemma meta_slice_ok c i a :
  keys_wf c -> apps c !! i = Some a -> slice_ok (key_set_metadata_pool_used c) (meta_slice a).
Proof.
  intros [_ _ Hp] Hi. apply (Forall_lookup_1 _ _ i _ (pool_slices _ _ _ _ Hp)).
  by rewrite list_lookup_fmap, Hi.
Qed.

Lemma meta_pool_size : DFC_KEY_SET_METADATA_POOL_SIZE = 896.
Proof. reflexivity. Qed.

(** ** The metadata pool *)

Definition shift_meta (off len : Z) (a : DfcApplication) : DfcApplication :=
  set_key_set_metadata_offset (shift_offset off len (key_set_metadata_offset a)) a.

Lemma meta_compact_fields c off len :
  0 < len -> off <> POOL_NONE ->
  let c' := dfc_key_set_metadata_compact_after_release c off len in
  let p := pool_compact (key_set_metadata_pool c) (key_set_metadata_pool_used c) off len in
  c' = set_apps (map (shift_meta off len) (apps c))
         (set_key_set_metadata_pool_used (snd p) (set_key_set_metadata_pool (fst p) c)).
Proof.
  intros Hl Ho. cbv zeta. unfold dfc_key_set_metadata_compact_after_release.
  rewrite (proj2 (Z.eqb_neq len 0)), (proj2 (Z.eqb_neq off DFC_KEY_SET_METADATA_POOL_NONE))
    by (done || lia).
  cbn [orb negb]. by destruct (pool_compact _ _ _ _) as [p u].
Qed.

(** What releasing the metadata of the application at [i] did: its own slice is
    gone, and every other application reads the same metadata at a new offset. *)
Record meta_released (c c' : DfcCredential) (i : nat) (a : DfcApplication) : Prop := {
  mr_pool : pool_ok DFC_KEY_SET_METADATA_POOL_SIZE (key_set_metadata_pool c')
              (key_set_metadata_pool_used c') (map meta_slice (apps c'));
  mr_length : length (apps c') = length (apps c);
  mr_self : apps c' !! i = Some (detach_metadata a);
  mr_other : forall j b, j <> i -> apps c !! j = Some b -> exists o,
    apps c' !! j = Some (set_key_set_metadata_offset o b) /\
    slice_contents (key_set_metadata_pool c') (meta_slice (set_key_set_metadata_offset o b)) =
    slice_contents (key_set_metadata_pool c) (meta_slice b);
  mr_used : key_set_metadata_pool_used c' = key_set_metadata_pool_used c - key_set_metadata_len a;
  mr_frame : c' = set_apps (apps c') (set_key_set_metadata_pool_used (key_set_metadata_pool_used c')
                    (set_key_set_metadata_pool (key_set_metadata_pool c') c));
}.

Section MetaRelease.
Context (c : DfcCredential) (i : nat) (a : DfcApplication).
Hypothesis Hm : pool_ok DFC_KEY_SET_METADATA_POOL_SIZE (key_set_metadata_pool c)
                  (key_set_metadata_pool_used c) (map meta_slice (apps c)).
Hypothesis Hi : apps c !! i = Some a.

Lemma meta_slice_lookup : map meta_slice (apps c) !! i = Some (meta_slice a).
Proof. by rewrite list_lookup_fmap, Hi. Qed.

Lemma meta_slice_held :
  (key_set_metadata_len a = 0 /\
   (key_set_metadata_offset a = POOL_NONE \/ key_set_metadata_offset a = 0)) \/
  (0 < key_set_metadata_len a /\ 0 <= key_set_metadata_offset a /\
   key_set_metadata_offset a + key_set_metadata_len a <= key_set_metadata_pool_used c).
Proof. exact (Forall_lookup_1 _ _ i _ (pool_slices _ _ _ _ Hm) meta_slice_lookup). Qed.

Lemma meta_release_held :
  0 < key_set_metadata_len a ->
  meta_released c
    (dfc_key_set_metadata_compact_after_release (update_app detach_metadata (Z.of_nat i) c)
       (key_set_metadata_offset a) (key_set_metadata_len a)) i a.
Proof.
  intros Hpos. pose proof (pool_bound _ _ _ _ Hm) as Hb. pose proof meta_pool_size as Hsz.
  destruct meta_slice_held as [[? _]|(_ & Ho & Hu)]; [lia|].
  rewrite meta_compact_fields by dlia. pose proof (apps_update detach_metadata c i a Hi) as Ha1.
  set (c1 := update_app _ _ _) in *. set (off := key_set_metadata_offset a) in *.
  set (len := key_set_metadata_len a) in *. set (p := pool_compact _ _ _ _). set (c2 := set_apps _ _).
  assert (Ha2 : apps c2 = map (shift_meta off len) (<[i := detach_metadata a]> (apps c)))
    by (unfold c2; cbn [apps set_apps]; by rewrite Ha1).
  constructor; [| | | | |done].
  - replace (map meta_slice (apps c2)) with (slices_release (map meta_slice (apps c)) i off len);
      [apply pool_release_ok; [done|exact meta_slice_lookup|done]|].
    rewrite Ha2. unfold slices_release. change (POOL_NONE, 0) with (meta_slice (detach_metadata a)).
    change (map meta_slice (apps c)) with (meta_slice <$> apps c).
    rewrite <- list_fmap_insert, map_map. symmetry. apply map_map.
  - by rewrite Ha2, length_map, length_insert.
  - by rewrite Ha2, list_lookup_fmap, list_lookup_insert_eq by (by eapply lookup_lt_Some).
  - intros j b Hj Hb'. eexists. split.
    { rewrite Ha2, list_lookup_fmap, list_lookup_insert_ne, Hb' by done. reflexivity. }
    eapply (pool_release_contents _ _ _ _ i j _ _ (meta_slice b));
      [exact Hm|exact meta_slice_lookup|done|done|]. by rewrite list_lookup_fmap, Hb'.
  - unfold c2. cbn -[pool_compact]. apply pool_compact_used; dlia.
Qed.

Lemma meta_release_empty :
  key_set_metadata_len a = 0 -> meta_released c (update_app detach_metadata (Z.of_nat i) c) i a.
Proof.
  intros H0. pose proof (apps_update detach_metadata c i a Hi) as Ha1.
  constructor; [| | | | |done]; rewrite ?Ha1.
  - rewrite list_fmap_insert.
    apply (pool_set_empty _ _ _ _ i (meta_slice a)); [done|exact meta_slice_lookup|done|done|by left].
  - by rewrite length_insert.
  - apply list_lookup_insert_eq. by eapply lookup_lt_Some.
  - intros j b Hj Hb. exists (key_set_metadata_offset b). rewrite list_lookup_insert_ne by done.
    destruct b; done.
  - cbn. lia.
Qed.

(** An application lets go of its metadata, whatever it held. *)
Lemma meta_release_correct : meta_released c (dfc_key_set_metadata_release c (Z.of_nat i)) i a.
Proof.
  unfold dfc_key_set_metadata_release. rewrite (app_at_lookup _ _ _ Hi).
  pose proof (pool_bound _ _ _ _ Hm) as Hb. pose proof meta_pool_size as Hsz.
  destruct meta_slice_held as [[H0 Ho]|(Hpos & Ho & Hu)].
  - rewrite (proj2 (Z.eqb_eq (key_set_metadata_len a) 0) H0), orb_true_r. by apply meta_release_empty.
  - rewrite (proj2 (Z.eqb_neq (key_set_metadata_offset a) _)) by dlia.
    rewrite (proj2 (Z.eqb_neq (key_set_metadata_len a) 0)) by lia. cbn [orb].
    change (key_set_metadata_pool_used (update_app _ _ _)) with (key_set_metadata_pool_used c).
    rewrite (proj2 (Z.ltb_ge (key_set_metadata_pool_used c) _)) by lia.
    rewrite (proj2 (Z.ltb_ge (_ - _) _)) by lia. cbn [orb]. by apply meta_release_held.
Qed.

End MetaRelease.

(** Metadata moves leave the key slices alone. *)
Lemma meta_released_key_slices c c' i a :
  apps c !! i = Some a -> meta_released c c' i a -> key_slices c' = key_slices c.
Proof.
  intros Hi [_ Hl Hs Ho _ Hf]. unfold key_slices. f_equal; [by rewrite Hf|].
  apply list_eq. intros j. rewrite !list_lookup_fmap. destruct (decide (j = i)) as [->|Hj].
  - by rewrite Hs, Hi.
  - destruct (apps c !! j) as [b|] eqn:Hb.
    + destruct (Ho j b Hj Hb) as (o & -> & _). done.
    + apply lookup_ge_None in Hb. rewrite (proj2 (lookup_ge_None _ _)); [done|lia].
Qed.

Lemma meta_release_step c i a :
  keys_wf c -> apps c !! i = Some a ->
  app_step c (dfc_key_set_metadata_release c (Z.of_nat i)) i
    (mk_entry (app_sans a) (slice_contents (key_pool c) (key_slice a)) []).
Proof.
  intros [Hlen Hk Hm] Hi. pose proof (meta_release_correct c i a Hm Hi) as Hr.
  pose proof (meta_released_key_slices _ _ _ _ Hi Hr) as Hks. destruct Hr as [Hp Hl Hs Ho Hu Hf].
  set (c' := dfc_key_set_metadata_release _ _) in *.
  assert (Hkp : key_pool c' = key_pool c) by (by rewrite Hf).
  assert (Hku : key_pool_used c' = key_pool_used c) by (by rewrite Hf).
  constructor.
  - constructor; [congruence| |done]. by rewrite Hks, Hkp, Hku.
  - replace (mk_entry _ _ _) with (app_view c' (detach_metadata a))
      by (unfold app_view; by rewrite Hkp).
    apply abs_apps_ext; [by eapply lookup_lt_Some|done|done|]. intros j b Hj Hb.
    destruct (Ho j b Hj Hb) as (o & Hb' & Hc). eexists. split; [exact Hb'|].
    unfold app_view. rewrite Hkp, Hc. done.
  - unfold abs_picc_keys. rewrite Hkp, Hf. done.
  - by rewrite Hf.
  - by rewrite Hf.
Qed.

(** ** The key pool *)

Definition shift_keys (off len : Z) (a : DfcApplication) : DfcApplication :=
  set_app_key_offset (shift_offset off len (app_key_offset a)) a.

Lemma key_compact_fields c off len :
  0 < len -> off <> POOL_NONE ->
  let p := pool_compact (key_pool c) (key_pool_used c) off len in
  dfc_key_pool_compact_after_release c off len =
  set_picc_key_offset (shift_offset off len (picc_key_offset c))
    (set_apps (map (shift_keys off len) (apps c)) (set_key_pool_used (snd p) (set_key_pool (fst p) c))).
Proof.
  intros Hl Ho. cbv zeta. unfold dfc_key_pool_compact_after_release.
  rewrite (proj2 (Z.eqb_neq len 0)), (proj2 (Z.eqb_neq off DFC_KEY_POOL_NONE)) by (done || lia).
  cbn [orb negb]. by destruct (pool_compact _ _ _ _) as [p u].
Qed.

(** The last statement of [dfc_credential_keys_release]. *)
Definition close_hole (c : DfcCredential) (off len : Z) : DfcCredential :=
  if negb (off =? DFC_KEY_POOL_NONE) && (0 <? len)
  then dfc_key_pool_compact_after_release c off len else c.

(** [n] is the position of a record among [key_slices]: 0 is the PICC. After the
    record at [n] is emptied in [c1], compacting its hole restores the pool. *)
Section KeyCompact.
Context (c c1 : DfcCredential) (n : nat) (off len : Z).
Hypothesis Hk : pool_ok DFC_KEY_POOL_SIZE (key_pool c) (key_pool_used c) (key_slices c).
Hypothesis Hn : key_slices c !! n = Some (off, len).
Hypothesis Hslices : key_slices c1 = <[n := (POOL_NONE, 0)]> (key_slices c).
Hypothesis Hpool : key_pool c1 = key_pool c.
Hypothesis Hused : key_pool_used c1 = key_pool_used c.

#[local] Abbreviation c2 := (close_hole c1 off len).

Lemma key_slice_held :
  (len = 0 /\ (off = POOL_NONE \/ off = 0)) \/
  (0 < len /\ 0 <= off /\ off + len <= key_pool_used c /\ key_pool_used c <= DFC_KEY_POOL_SIZE).
Proof.
  pose proof (pool_bound _ _ _ _ Hk).
  destruct (Forall_lookup_1 _ _ _ _ (pool_slices _ _ _ _ Hk) Hn) as [?|?]; cbn in *; [by left|lia].
Qed.

(** The hole is closed, or there was none. *)
Lemma key_compact_cases :
  (len = 0 /\ c2 = c1) \/
  (0 < len /\ c2 = set_picc_key_offset (shift_offset off len (picc_key_offset c1))
     (set_apps (map (shift_keys off len) (apps c1))
        (set_key_pool_used (snd (pool_compact (key_pool c) (key_pool_used c) off len))
           (set_key_pool (fst (pool_compact (key_pool c) (key_pool_used c) off len)) c1)))).
Proof.
  unfold close_hole. destruct key_slice_held as [[-> _]|(Hpos & Ho & Hu & Hsz)].
  - left. by rewrite andb_false_r.
  - right. rewrite (proj2 (Z.eqb_neq off _)) by dlia. rewrite (proj2 (Z.ltb_lt 0 len)) by done.
    cbn [negb andb]. rewrite key_compact_fields by dlia. by rewrite Hpool, Hused.
Qed.

Lemma key_compact_slices c3 :
  picc_slice c3 = shift_slice off len (picc_slice c1) ->
  apps c3 = map (shift_keys off len) (apps c1) ->
  key_slices c3 = slices_release (key_slices c) n off len.
Proof.
  intros Hp Ha. unfold slices_release. rewrite <- Hslices. unfold key_slices.
  cbn [map]. rewrite Hp, Ha, !map_map. done.
Qed.

Lemma key_compact_pool : pool_ok DFC_KEY_POOL_SIZE (key_pool c2) (key_pool_used c2) (key_slices c2).
Proof.
  destruct key_compact_cases as [[H0 ->]|[Hpos ->]].
  - rewrite Hslices, Hpool, Hused.
    apply (pool_set_empty _ _ _ _ n (off, len)); [done|done|done|done|by left].
  - set (c3 := set_picc_key_offset _ _).
    replace (key_slices c3) with (slices_release (key_slices c) n off len); [by apply pool_release_ok|].
    symmetry. by apply key_compact_slices.
Qed.

Lemma key_compact_used : key_pool_used c2 = key_pool_used c - len.
Proof.
  destruct key_compact_cases as [[H0 ->]|[Hpos ->]]; [lia|].
  cbn -[pool_compact]. destruct key_slice_held as [?|?]; [lia|]. apply pool_compact_used; dlia.
Qed.

(** Every other record reads the same keys. *)
Lemma key_compact_contents m s :
  m <> n -> key_slices c !! m = Some s ->
  exists s', key_slices c2 !! m = Some s' /\ slice_contents (key_pool c2) s' = slice_contents (key_pool c) s.
Proof.
  intros Hmn Hm. destruct key_compact_cases as [[H0 ->]|[Hpos ->]].
  - exists s. by rewrite Hslices, list_lookup_insert_ne, Hpool.
  - set (c3 := set_picc_key_offset _ _). exists (shift_slice off len s). split.
    + replace (key_slices c3) with (slices_release (key_slices c) n off len);
        [by apply slices_release_lookup|]. symmetry. by apply key_compact_slices.
    + by apply (pool_release_contents DFC_KEY_POOL_SIZE _ _ (key_slices c) n m).
Qed.

(** The records keep everything but their key offset. *)
Lemma key_compact_apps j b :
  apps c1 !! j = Some b -> exists o, apps c2 !! j = Some (set_app_key_offset o b).
Proof.
  intros Hb. destruct key_compact_cases as [[H0 ->]|[Hpos ->]].
  - exists (app_key_offset b). rewrite Hb. by destruct b.
  - eexists. cbn [apps set_apps set_picc_key_offset]. rewrite list_lookup_fmap, Hb. reflexivity.
Qed.

Lemma key_compact_frame :
  length (apps c2) = length (apps c1) /\
  c2 = set_apps (apps c2) (set_picc_key_offset (picc_key_offset c2)
         (set_key_pool_used (key_pool_used c2) (set_key_pool (key_pool c2) c1))) /\
  map meta_slice (apps c2) = map meta_slice (apps c1).
Proof.
  destruct key_compact_cases as [[H0 ->]|[Hpos ->]]; [by destruct c1|].
  split_and!; [by cbn -[pool_compact]; rewrite length_map|done|].
  cbn [apps set_apps set_picc_key_offset]. by rewrite map_map.
Qed.

End KeyCompact.

(** ** Releasing keys *)

(** The settings of an application that let go of its keys. *)
Definition released_app (a : DfcApplication) : DfcApplication :=
  set_app_key_storage_len 0 (set_app_key_len 0 (set_app_num_keys 0
    (set_app_key_pool_len 0 (set_app_key_offset DFC_KEY_POOL_NONE a)))).

Lemma update_app_compose f g i c : update_app f i (update_app g i c) = update_app (f ∘ g) i c.
Proof. unfold update_app. cbn [apps set_apps]. by rewrite alter_compose_same. Qed.

(** The credential once the application at [i] dropped its settings and metadata but
    the key pool still has its hole. *)
Record app_emptied (c c1 : DfcCredential) (i : nat) (a : DfcApplication) : Prop := {
  ae_slices : key_slices c1 = <[S i := (POOL_NONE, 0)]> (key_slices c);
  ae_pool : key_pool c1 = key_pool c;
  ae_used : key_pool_used c1 = key_pool_used c;
  ae_length : length (apps c1) = length (apps c);
  ae_self : apps c1 !! i = Some (detach_metadata (released_app a));
  ae_other : forall j b, j <> i -> apps c !! j = Some b -> exists o,
    apps c1 !! j = Some (set_key_set_metadata_offset o b) /\
    slice_contents (key_set_metadata_pool c1) (meta_slice (set_key_set_metadata_offset o b)) =
    slice_contents (key_set_metadata_pool c) (meta_slice b);
  ae_meta : pool_ok DFC_KEY_SET_METADATA_POOL_SIZE (key_set_metadata_pool c1)
              (key_set_metadata_pool_used c1) (map meta_slice (apps c1));
  ae_meta_used : key_set_metadata_pool_used c1 = key_set_metadata_pool_used c - key_set_metadata_len a;
  ae_frame : sans_keys c1 = sans_keys c /\ picc_slice c1 = picc_slice c /\
             picc_num_keys c1 = picc_num_keys c /\ picc_key_len c1 = picc_key_len c;
}.

Lemma app_empty c i a :
  keys_wf c -> apps c !! i = Some a ->
  app_emptied c (dfc_key_set_metadata_release (update_app released_app (Z.of_nat i) c) (Z.of_nat i)) i a.
Proof.
  intros [Hlen Hk Hm] Hi. set (c0 := update_app _ _ _).
  assert (Ha0 : apps c0 = <[i := released_app a]> (apps c)) by (by apply apps_update).
  assert (Hi0 : apps c0 !! i = Some (released_app a))
    by (rewrite Ha0; apply list_lookup_insert_eq; by eapply lookup_lt_Some).
  assert (Hr : meta_released c0 (dfc_key_set_metadata_release c0 (Z.of_nat i)) i (released_app a)).
  { apply meta_release_correct; [|done]. replace (map meta_slice (apps c0)) with (map meta_slice (apps c));
      [exact Hm|]. rewrite Ha0, list_fmap_insert. symmetry. apply list_insert_id.
    by rewrite list_lookup_fmap, Hi. }
  pose proof (meta_released_key_slices _ _ _ _ Hi0 Hr) as Hks. destruct Hr as [Hp1 Hl1 Hs1 Ho1 Hu1 Hf1].
  set (c1 := dfc_key_set_metadata_release _ _) in *. constructor; try done.
  - rewrite Hks. unfold key_slices. rewrite Ha0, list_fmap_insert. done.
  - by rewrite Hf1.
  - by rewrite Hf1.
  - by rewrite Hl1, Ha0, length_insert.
  - intros j b Hj Hb. apply Ho1; [done|]. by rewrite Ha0, list_lookup_insert_ne.
  - by rewrite Hf1.
Qed.

(** An application lets go of its keys and metadata, whatever it held. *)
Lemma keys_release_app c i a :
  keys_wf c -> apps c !! i = Some a ->
  let c' := dfc_credential_keys_release c (Some (Z.of_nat i)) in
  app_step c c' i (mk_entry (app_sans (released_app a)) [] []) /\
  (exists b, apps c' !! i = Some b /\ app_key_pool_len b = 0 /\ key_set_metadata_len b = 0 /\
             app_sans b = app_sans (released_app a)) /\
  key_pool_used c' = key_pool_used c - app_key_pool_len a /\
  key_set_metadata_pool_used c' = key_set_metadata_pool_used c - key_set_metadata_len a.
Proof.
  intros Hwf Hi. cbv zeta. unfold dfc_credential_keys_release.
  cbn [key_offset_of key_pool_len_of set_key_offset set_key_pool_len set_num_keys set_key_len
       set_key_storage_len]. rewrite !update_app_compose, (app_at_lookup _ _ _ Hi).
  change (update_app _ _ _) with (update_app released_app (Z.of_nat i) c).
  destruct (app_empty c i a Hwf Hi) as [Hsl Hp Hu Hl Hs Ho Hmp Hmu (Hfr & Hps & Hpn & Hpl)].
  set (c1 := dfc_key_set_metadata_release _ _) in *. destruct Hwf as [Hlen Hk Hm].
  assert (Hn : key_slices c !! S i = Some (app_key_offset a, app_key_pool_len a)).
  { change (map key_slice (apps c) !! i = Some (key_slice a)). by rewrite list_lookup_fmap, Hi. }
  pose proof (key_compact_pool c c1 _ _ _ Hk Hn Hsl Hp Hu) as Hpool2.
  pose proof (key_compact_used c c1 _ _ _ Hk Hn Hp Hu) as Hused2.
  pose proof (key_compact_contents c c1 _ _ _ Hk Hn Hsl Hp Hu) as Hcont2.
  pose proof (key_compact_apps c c1 _ _ _ Hk Hn Hp Hu) as Happs2.
  destruct (key_compact_frame c c1 _ _ _ Hk Hn Hsl Hp Hu) as (Hlen2 & Hframe2 & Hmeta2).
  fold (close_hole c1 (app_key_offset a) (app_key_pool_len a)). set (c2 := close_hole _ _ _) in *.
  assert (Hmpool : key_set_metadata_pool c2 = key_set_metadata_pool c1) by (by rewrite Hframe2).
  assert (Hmused : key_set_metadata_pool_used c2 = key_set_metadata_pool_used c1) by (by rewrite Hframe2).
  destruct (Happs2 i _ Hs) as [oi Hi2]. split_and!; [|by eexists|done|congruence].
  constructor.
  - constructor; [congruence|done|]. by rewrite Hmpool, Hmused, Hmeta2.
  - replace (mk_entry _ _ _) with (app_view c2 (set_app_key_offset oi (detach_metadata (released_app a)))) by done.
    apply abs_apps_ext; [by eapply lookup_lt_Some|congruence|done|]. intros j b Hj Hb.
    destruct (Ho j b Hj Hb) as (o & Hb1 & Hc1). destruct (Happs2 j _ Hb1) as [o2 Hb2].
    eexists. split; [exact Hb2|]. unfold app_view. f_equal; [|by rewrite Hmpool].
    destruct (Hcont2 (S j) (key_slice b)) as (s' & Hs' & <-); [lia| |].
    { change (map key_slice (apps c) !! j = Some (key_slice b)). by rewrite list_lookup_fmap, Hb. }
    f_equal. change (map key_slice (apps c2) !! j = Some s') in Hs'.
    rewrite list_lookup_fmap, Hb2 in Hs'. by injection Hs'.
  - destruct (Hcont2 O (picc_slice c)) as (s' & Hs' & Hc'); [lia|done|]. unfold abs_picc_keys.
    rewrite <- Hc'. by injection Hs' as <-.
  - rewrite Hframe2. done.
  - rewrite Hframe2. done.
Qed.

(** ** Resizing keys *)

(** The counts a resize stores in an application. *)
Definition sized_app (num_keys key_len storage_key_len : Z) (a : DfcApplication) : DfcApplication :=
  set_app_key_storage_len (u8 storage_key_len) (set_app_key_len (u8 key_len)
    (set_app_num_keys (u8 num_keys) a)).

(** An update of settings that moves no slice. *)
Lemma app_update_correct c i a g :
  keys_wf c -> apps c !! i = Some a -> key_slice (g a) = key_slice a -> meta_slice (g a) = meta_slice a ->
  app_step c (update_app g (Z.of_nat i) c) i
    (mk_entry (app_sans (g a)) (slice_contents (key_pool c) (key_slice a))
       (slice_contents (key_set_metadata_pool c) (meta_slice a))).
Proof.
  intros [Hlen Hk Hm] Hi Hks Hms. pose proof (apps_update g c i a Hi) as Ha.
  set (c' := update_app _ _ _) in *. constructor; try done.
  - constructor; [by rewrite Ha, length_insert| |].
    + unfold key_slices. rewrite Ha, list_fmap_insert, Hks, list_insert_id; [done|].
      by rewrite list_lookup_fmap, Hi.
    + rewrite Ha, list_fmap_insert, Hms, list_insert_id; [done|]. by rewrite list_lookup_fmap, Hi.
  - replace (mk_entry _ _ _) with (app_view c' (g a)) by (unfold app_view; by rewrite Hks, Hms).
    apply abs_apps_ext; [by eapply lookup_lt_Some|by rewrite Ha, length_insert| |].
    + rewrite Ha. apply list_lookup_insert_eq. by eapply lookup_lt_Some.
    + intros j b Hj Hb. exists b. by rewrite Ha, list_lookup_insert_ne.
Qed.

(** An application without keys is handed the next [want] octets, zeroed. *)
Lemma app_allocate c i b want nk kl sl :
  keys_wf c -> apps c !! i = Some b -> app_key_pool_len b = 0 -> 0 < want ->
  key_pool_used c + want <= DFC_KEY_POOL_SIZE ->
  let used := key_pool_used c in
  let g := sized_app nk kl sl ∘ set_app_key_pool_len (u16 want) ∘ set_app_key_offset (u16 used) in
  app_step c (update_app g (Z.of_nat i)
                (set_key_pool_used (u16 (used + want)) (set_key_pool (wipe (key_pool c) used want) c))) i
    (mk_entry (app_sans (sized_app nk kl sl b)) (zeros want)
       (slice_contents (key_set_metadata_pool c) (meta_slice b))).
Proof.
  intros [Hlen Hk Hm] Hi H0 Hw Hfit used g. pose proof (pool_bound _ _ _ _ Hk) as Hb.
  assert (Hu : u16 used = used) by (apply u16_id; unfold used; dlia).
  assert (Huw : u16 (used + want) = used + want) by (apply u16_id; unfold used; dlia).
  assert (Hw16 : u16 want = want) by (apply u16_id; unfold used; dlia).
  set (c0 := set_key_pool_used _ _). pose proof (apps_update g c0 i b Hi) as Ha.
  set (c' := update_app _ _ _) in *. change (apps c0) with (apps c) in Ha.
  assert (Hg : key_slice (g b) = (used, want)) by (unfold g, key_slice; cbn; by rewrite Hu, Hw16).
  assert (Hks : key_slices c' = <[S i := (used, want)]> (key_slices c)).
  { unfold key_slices. rewrite Ha, list_fmap_insert, Hg. done. }
  assert (Hn : key_slices c !! S i = Some (app_key_offset b, 0)).
  { change (map key_slice (apps c) !! i = Some (app_key_offset b, 0)). rewrite list_lookup_fmap, Hi.
    unfold key_slice. cbn. by rewrite H0. }
  constructor; try done.
  - constructor; [by rewrite Ha, length_insert| |].
    + rewrite Hks. change (key_pool_used c') with (u16 (used + want)). rewrite Huw.
      by apply (pool_allocate_ok _ _ _ _ (S i) (app_key_offset b)).
    + rewrite Ha, list_fmap_insert, list_insert_id; [done|]. by rewrite list_lookup_fmap, Hi.
  - replace (mk_entry _ _ _) with (app_view c' (g b)).
    2: { unfold app_view. rewrite Hg. change (key_pool c') with (wipe (key_pool c) used want).
         rewrite pool_allocate_zero; [done|unfold used; lia|done|].
         rewrite (pool_size _ _ _ _ Hk). done. }
    apply abs_apps_ext; [by eapply lookup_lt_Some|by rewrite Ha, length_insert| |].
    + rewrite Ha. apply list_lookup_insert_eq. by eapply lookup_lt_Some.
    + intros j d Hj Hd. exists d. rewrite Ha, list_lookup_insert_ne by done. split; [done|].
      unfold app_view. f_equal.
      eapply (pool_allocate_contents _ _ _ _ (S i) (S j)); [exact Hk|exact Hn|done|done|lia|].
      change (map key_slice (apps c) !! j = Some (key_slice d)). by rewrite list_lookup_fmap, Hd.
  - eapply (pool_allocate_contents _ _ _ _ (S i) O); (done || exact Hk || exact Hn).
Qed.

(** When [dfc_credential_keys_resize_total] accepts a request against a slice of
    [old_len] octets. *)
Definition total_fits (used old_len num_keys allocated_keys key_len storage_key_len : Z) : bool :=
  (num_keys <=? DFC_MAX_KEYS) && (key_len <=? DFC_MAX_KEY_LEN) &&
  (storage_key_len <=? DFC_MAX_KEY_LEN) && (num_keys <=? allocated_keys) &&
  (used - old_len + allocated_keys * dfc_credential_stored_key_length storage_key_len
     <=? DFC_KEY_POOL_SIZE).

(** What a successful resize leaves in the application: the same octets for the same
    footprint, otherwise fresh zeros and no metadata. *)
Definition resized_app (c : DfcCredential) (a : DfcApplication)
    (num_keys allocated_keys key_len storage_key_len : Z) : AppEntry :=
  let want := allocated_keys * dfc_credential_stored_key_length storage_key_len in
  if (app_key_pool_len a =? want) && (0 <? want) then
    mk_entry (app_sans (sized_app num_keys key_len storage_key_len a))
      (slice_contents (key_pool c) (key_slice a))
      (slice_contents (key_set_metadata_pool c) (meta_slice a))
  else mk_entry (app_sans (sized_app num_keys key_len (if want =? 0 then 0 else storage_key_len) a))
         (zeros want) [].

Lemma stored_key_length_range k : 16 <= dfc_credential_stored_key_length k <= 24.
Proof. unfold dfc_credential_stored_key_length. destruct (_ =? _); lia. Qed.

(** The refusals of [dfc_credential_keys_resize_total], in one test. *)
Lemma total_fits_guards used old_len nk ak kl sl :
  0 <= old_len <= used -> used <= DFC_KEY_POOL_SIZE -> 0 <= ak ->
  total_fits used old_len nk ak kl sl =
  negb (DFC_MAX_KEYS <? nk) && negb ((DFC_MAX_KEY_LEN <? kl) || (DFC_MAX_KEY_LEN <? sl)) &&
  negb (ak <? nk) && negb (DFC_KEY_POOL_SIZE / dfc_credential_stored_key_length sl <? ak) &&
  negb (DFC_KEY_POOL_SIZE <? ak * dfc_credential_stored_key_length sl) &&
  negb (DFC_KEY_POOL_SIZE <? used) &&
  negb (DFC_KEY_POOL_SIZE - (used - old_len) <? ak * dfc_credential_stored_key_length sl).
Proof.
  intros Ho Hu Ha. pose proof (stored_key_length_range sl) as Hs. unfold total_fits.
  set (w := dfc_credential_stored_key_length sl) in *.
  assert (Hd : DFC_KEY_POOL_SIZE / w < ak <-> DFC_KEY_POOL_SIZE < ak * w).
  { split; intros H.
    - apply Z.lt_le_trans with (w * Z.succ (DFC_KEY_POOL_SIZE / w)); [apply Z.mul_succ_div_gt; lia|nia].
    - apply Z.div_lt_upper_bound; lia. }
  rewrite !Z.leb_antisym. destruct (DFC_KEY_POOL_SIZE / w <? ak) eqn:E1, (DFC_KEY_POOL_SIZE <? ak * w) eqn:E2;
    bool_facts; try (exfalso; tauto || lia).
  - cbn [negb andb]. rewrite !andb_false_r. cbn [andb].
    rewrite (proj2 (Z.ltb_lt DFC_KEY_POOL_SIZE _)) by lia. by rewrite andb_false_r.
  - rewrite (proj2 (Z.ltb_ge DFC_KEY_POOL_SIZE used)) by lia. cbn [negb]. rewrite !andb_true_r.
    rewrite negb_orb, !andb_assoc. f_equal. f_equal. apply eq_true_iff_eq. rewrite !Z.ltb_lt. lia.
Qed.

Section ResizeTotal.
Context (c : DfcCredential) (i : nat) (a : DfcApplication) (nk ak kl sl : Z).
Hypothesis Hwf : keys_wf c.
Hypothesis Hi : apps c !! i = Some a.
Hypothesis Hak : 0 <= ak.
Hypothesis Hnk : 0 <= nk.
Hypothesis Hkl : 0 <= kl.
Hypothesis Hsl : 0 <= sl.

Lemma app_len_range : 0 <= app_key_pool_len a <= key_pool_used c /\ key_pool_used c <= DFC_KEY_POOL_SIZE.
Proof.
  pose proof (key_slice_ok c i a Hwf Hi) as Hs. pose proof (pool_bound _ _ _ _ (kw_keys _ Hwf)).
  destruct Hs as [[H0 _]|H0]; cbn in H0; lia.
Qed.

Lemma app_held_test :
  negb ((if app_key_pool_len a =? 0 then POOL_NONE else app_key_offset a) =? DFC_KEY_POOL_NONE) =
  negb (app_key_pool_len a =? 0).
Proof.
  pose proof app_len_range. pose proof (key_slice_ok c i a Hwf Hi) as Hs.
  destruct (app_key_pool_len a =? 0) eqn:E; [done|]. bool_facts.
  destruct Hs as [[? _]|(_ & ? & ?)]; cbn in *; [done|].
  by rewrite (proj2 (Z.eqb_neq (app_key_offset a) _)) by dlia.
Qed.

(** The tail of a resize once the old octets are gone. *)
Lemma resize_total_fresh :
  let want := ak * dfc_credential_stored_key_length sl in
  key_pool_used c - app_key_pool_len a + want <= DFC_KEY_POOL_SIZE ->
  let c1 := dfc_credential_keys_release c (Some (Z.of_nat i)) in
  let app := Some (Z.of_nat i) in
  let c' := if want =? 0 then set_key_len (set_num_keys c1 app (u8 nk)) app (u8 kl) else
            let used := key_pool_used c1 in
            let c := set_key_offset c1 app (u16 used) in
            let c := set_key_pool_len c app (u16 want) in
            let c := set_key_pool (wipe (key_pool c) used want) c in
            let c := set_key_pool_used (u16 (used + want)) c in
            let c := set_num_keys c app (u8 nk) in
            let c := set_key_len c app (u8 kl) in
            set_key_storage_len c app (u8 sl) in
  app_step c c' i (mk_entry (app_sans (sized_app nk kl (if want =? 0 then 0 else sl) a)) (zeros want) []).
Proof.
  intros want Hfit c1 app c'. pose proof (stored_key_length_range sl) as Hr.
  destruct (keys_release_app c i a Hwf Hi) as (Hst & (b & Hb & Hk0 & Hm0 & Hsans) & Hu & _).
  fold c1 in Hst, Hb, Hu. pose proof (as_wf _ _ _ _ Hst) as Hw1.
  assert (Hmeta : slice_contents (key_set_metadata_pool c1) (meta_slice b) = [])
    by (unfold slice_contents, meta_slice; cbn [fst snd]; by rewrite Hm0).
  assert (Hkeys : slice_contents (key_pool c1) (key_slice b) = [])
    by (unfold slice_contents, key_slice; cbn [fst snd]; by rewrite Hk0).
  eapply app_step_trans; [exact Hst|]. unfold c'. destruct (want =? 0) eqn:E; bool_facts.
  - cbn [set_key_len set_num_keys app]. rewrite update_app_compose, E. cbn [zeros].
    replace (app_sans (sized_app nk kl 0 a)) with
      (app_sans ((set_app_key_len (u8 kl) ∘ set_app_num_keys (u8 nk)) b)).
    + pose proof (app_update_correct c1 i b (set_app_key_len (u8 kl) ∘ set_app_num_keys (u8 nk))
                    Hw1 Hb eq_refl eq_refl) as Hup.
      rewrite Hmeta, Hkeys in Hup. exact Hup.
    + change (set_app_key_len (u8 kl) (set_app_num_keys (u8 nk) (app_sans b)) =
              app_sans (sized_app nk kl 0 a)).
      rewrite Hsans. reflexivity.
  - replace (app_sans (sized_app nk kl sl a)) with (app_sans (sized_app nk kl sl b)).
    + rewrite <- Hmeta. cbn [set_key_offset set_key_pool_len set_num_keys set_key_len set_key_storage_len app].
      pose proof (app_allocate c1 i b want nk kl sl Hw1 Hb Hk0) as Hal. cbv zeta in Hal.
      unfold update_app in *. cbn [apps set_apps set_key_pool set_key_pool_used] in *.
      rewrite !alter_compose_same. apply Hal; lia.
    + change (sized_app nk kl sl (app_sans b) = app_sans (sized_app nk kl sl a)). rewrite Hsans. reflexivity.
Qed.

(** A resize succeeds exactly when its counts are in range and the octets fit once
    the old ones are counted as free; a refusal changes nothing. *)
Lemma resize_total_correct :
  let '(ok, c') := dfc_credential_keys_resize_total c (Some (Z.of_nat i)) nk ak kl sl in
  ok = total_fits (key_pool_used c) (app_key_pool_len a) nk ak kl sl /\
  (ok = false -> c' = c) /\
  (ok = true -> app_step c c' i (resized_app c a nk ak kl sl)).
Proof.
  pose proof app_len_range as [Hlen Hused]. pose proof (stored_key_length_range sl) as Hr.
  rewrite (total_fits_guards _ _ nk ak kl sl Hlen Hused Hak).
  unfold dfc_credential_keys_resize_total.
  destruct (negb (DFC_MAX_KEYS <? nk)); [|done]. cbn [andb].
  destruct (negb ((DFC_MAX_KEY_LEN <? kl) || (DFC_MAX_KEY_LEN <? sl))); [|done]. cbn [andb].
  destruct (negb (ak <? nk)); [|done]. cbn [andb].
  destruct (negb (DFC_KEY_POOL_SIZE / _ <? ak)); [|done]. cbn [andb].
  destruct (negb (DFC_KEY_POOL_SIZE <? ak * _)); [|done]. cbn [andb].
  rewrite (proj2 (Z.ltb_ge DFC_KEY_POOL_SIZE (key_pool_used c))) by lia. cbn [negb andb].
  cbn [key_offset_of key_pool_len_of]. rewrite (app_at_lookup _ _ _ Hi).
  rewrite (slice_resolve_ok _ (key_slice a)); [|dlia|by eapply key_slice_ok]. cbn [key_slice fst snd].
  set (want := ak * _). assert (Hwant : 0 <= want) by (unfold want; nia).
  unfold resized_app. fold want.
  rewrite app_held_test. pose proof resize_total_fresh as Hfresh. cbv zeta in Hfresh. fold want in Hfresh.
  destruct (negb (app_key_pool_len a =? 0) && (app_key_pool_len a =? want) && (0 <? want)) eqn:Esame.
  { bool_facts. rewrite (proj2 (Z.ltb_ge _ want)) by lia.
    rewrite (proj2 (Z.eqb_eq (app_key_pool_len a) want)), (proj2 (Z.ltb_lt 0 want)) by lia.
    split_and!; [done..|]. intros _. cbn [set_key_storage_len set_key_len set_num_keys andb].
    rewrite !update_app_compose. by apply app_update_correct. }
  assert (Hnew : (app_key_pool_len a =? want) && (0 <? want) = false).
  { destruct (app_key_pool_len a =? 0) eqn:E0; [|exact Esame]. bool_facts.
    destruct (app_key_pool_len a =? want) eqn:E1; [|done]. bool_facts. cbn. apply Z.ltb_ge. lia. }
  rewrite Hnew, (proj2 (Z.ltb_ge (key_pool_used c) (app_key_pool_len a))), andb_false_r by lia. cbn [negb].
  replace (if negb (app_key_pool_len a =? 0) then key_pool_used c - app_key_pool_len a else key_pool_used c)
    with (key_pool_used c - app_key_pool_len a)
    by (destruct (app_key_pool_len a =? 0) eqn:E0; cbn; bool_facts; lia).
  destruct (DFC_KEY_POOL_SIZE - _ <? want) eqn:Efit; cbn [negb]; [done|]. bool_facts.
  destruct (want =? 0) eqn:Ew; (split_and!; [done..|]; intros _; apply Hfresh; lia).
Qed.

End ResizeTotal.

(** ** The PICC record's keys *)

(** What a step on the PICC record did: its keys and counts change, no application
    does. *)
Record picc_step (c c' : DfcCredential) (keys : bytes) (num_keys key_len : Z) : Prop := {
  ps_wf : keys_wf c';
  ps_keys : abs_picc_keys c' = keys;
  ps_counts : picc_num_keys c' = num_keys /\ picc_key_len c' = key_len;
  ps_apps : abs_apps c' = abs_apps c;
  ps_frame : sans_keys c' = sans_keys c;
}.

Lemma abs_apps_ext_all c c' :
  length (apps c') = length (apps c) ->
  (forall j a, apps c !! j = Some a -> exists b, apps c' !! j = Some b /\ app_view c' b = app_view c a) ->
  abs_apps c' = abs_apps c.
Proof.
  intros Hl H. unfold abs_apps. apply list_eq. intros j. rewrite !list_lookup_fmap.
  destruct (apps c !! j) as [a|] eqn:Hj.
  - destruct (H j a Hj) as (b & -> & Hb). cbn. by f_equal.
  - apply lookup_ge_None in Hj. rewrite (proj2 (lookup_ge_None _ _)); [done|lia].
Qed.

Lemma keys_release_picc c :
  keys_wf c ->
  let c' := dfc_credential_keys_release c None in
  picc_step c c' [] 0 0 /\ picc_key_pool_len c' = 0 /\
  key_pool_used c' = key_pool_used c - picc_key_pool_len c.
Proof.
  intros Hwf. pose proof Hwf as [Hlen Hk Hm]. cbv zeta. unfold dfc_credential_keys_release.
  cbn [key_offset_of key_pool_len_of set_key_offset set_key_pool_len set_num_keys set_key_len].
  set (c1 := set_picc_key_len _ _). fold (close_hole c1 (picc_key_offset c) (picc_key_pool_len c)).
  assert (Hn : key_slices c !! O = Some (picc_key_offset c, picc_key_pool_len c)) by done.
  assert (Hsl : key_slices c1 = <[O := (POOL_NONE, 0)]> (key_slices c)) by done.
  pose proof (key_compact_pool c c1 _ _ _ Hk Hn Hsl eq_refl eq_refl) as Hpool2.
  pose proof (key_compact_used c c1 _ _ _ Hk Hn eq_refl eq_refl) as Hused2.
  pose proof (key_compact_contents c c1 _ _ _ Hk Hn Hsl eq_refl eq_refl) as Hcont2.
  pose proof (key_compact_apps c c1 _ _ _ Hk Hn eq_refl eq_refl) as Happs2.
  destruct (key_compact_frame c c1 _ _ _ Hk Hn Hsl eq_refl eq_refl) as (Hlen2 & Hframe2 & Hmeta2).
  set (c2 := close_hole _ _ _) in *.
  assert (Hp0 : picc_key_pool_len c2 = 0) by (by rewrite Hframe2).
  split_and!; [|done|done]. constructor.
  - constructor; [rewrite Hlen2; exact Hlen|done|]. rewrite Hmeta2.
    replace (key_set_metadata_pool c2) with (key_set_metadata_pool c) by (by rewrite Hframe2).
    replace (key_set_metadata_pool_used c2) with (key_set_metadata_pool_used c) by (by rewrite Hframe2).
    exact Hm.
  - unfold abs_picc_keys, slice_contents, picc_slice. cbn [fst snd]. by rewrite Hp0.
  - by rewrite Hframe2.
  - apply abs_apps_ext_all; [done|]. intros j b Hb. destruct (Happs2 j b Hb) as [o Hb2].
    eexists. split; [exact Hb2|]. unfold app_view. f_equal; [|by rewrite Hframe2].
    destruct (Hcont2 (S j) (key_slice b)) as (s' & Hs' & <-); [lia| |].
    { change (map key_slice (apps c) !! j = Some (key_slice b)). by rewrite list_lookup_fmap, Hb. }
    f_equal. change (map key_slice (apps c2) !! j = Some s') in Hs'.
    rewrite list_lookup_fmap, Hb2 in Hs'. by injection Hs'.
  - by rewrite Hframe2.
Qed.

(** The PICC record without keys is handed the next [want] octets, zeroed. *)
Lemma picc_allocate c want nk kl :
  keys_wf c -> picc_key_pool_len c = 0 -> 0 < want -> key_pool_used c + want <= DFC_KEY_POOL_SIZE ->
  let used := key_pool_used c in
  let c' := set_picc_key_len kl (set_picc_num_keys nk (set_key_pool_used (u16 (used + want))
              (set_key_pool (wipe (key_pool c) used want)
                 (set_picc_key_pool_len (u16 want) (set_picc_key_offset (u16 used) c))))) in
  picc_step c c' (zeros want) nk kl.
Proof.
  intros [Hlen Hk Hm] H0 Hw Hfit used c'. pose proof (pool_bound _ _ _ _ Hk) as Hb.
  assert (Hu : u16 used = used) by (apply u16_id; unfold used; dlia).
  assert (Huw : u16 (used + want) = used + want) by (apply u16_id; unfold used; dlia).
  assert (Hw16 : u16 want = want) by (apply u16_id; unfold used; dlia).
  assert (Hps : picc_slice c' = (used, want)) by (unfold picc_slice; cbn; by rewrite Hu, Hw16).
  assert (Hks : key_slices c' = <[O := (used, want)]> (key_slices c)).
  { unfold key_slices. rewrite Hps. done. }
  assert (Hn : key_slices c !! O = Some (picc_key_offset c, 0)) by (cbn; unfold picc_slice; by rewrite H0).
  constructor; try done.
  - constructor; [done| |done]. rewrite Hks. change (key_pool_used c') with (u16 (used + want)).
    rewrite Huw. by apply (pool_allocate_ok _ _ _ _ O (picc_key_offset c)).
  - unfold abs_picc_keys. rewrite Hps. apply pool_allocate_zero; [unfold used; lia|done|].
    rewrite (pool_size _ _ _ _ Hk). done.
  - apply abs_apps_ext_all; [done|]. intros j b Hj. exists b. split; [done|]. unfold app_view. f_equal.
    eapply (pool_allocate_contents _ _ _ _ O (S j)); [exact Hk|exact Hn|done|done|lia|].
    change (map key_slice (apps c) !! j = Some (key_slice b)). by rewrite list_lookup_fmap, Hj.
Qed.

(** Keys of the PICC record after a first allocation. *)
Lemma keys_resize_picc_fresh c nk kl :
  keys_wf c -> picc_key_pool_len c = 0 -> 0 < nk <= DFC_MAX_KEYS -> 0 <= kl <= DFC_MAX_KEY_LEN ->
  key_pool_used c + nk * dfc_credential_stored_key_length kl <= DFC_KEY_POOL_SIZE ->
  exists c', dfc_credential_keys_resize c None nk kl = (true, c') /\
    picc_step c c' (zeros (nk * dfc_credential_stored_key_length kl)) (u8 nk) (u8 kl).
Proof.
  intros Hwf H0 Hnk Hkl Hfit. pose proof (stored_key_length_range kl) as Hr.
  pose proof (pool_bound _ _ _ _ (kw_keys _ Hwf)) as Hb. pose proof (picc_slice_ok c Hwf) as Hps.
  unfold dfc_credential_keys_resize, dfc_credential_keys_resize_total.
  rewrite (proj2 (Z.ltb_ge DFC_MAX_KEYS nk)), (proj2 (Z.ltb_ge DFC_MAX_KEY_LEN kl)),
    (proj2 (Z.ltb_ge nk nk)) by lia. cbn [negb orb key_offset_of key_pool_len_of].
  set (w := dfc_credential_stored_key_length kl) in *.
  rewrite (proj2 (Z.ltb_ge (DFC_KEY_POOL_SIZE / w) nk))
    by (apply Z.div_le_lower_bound; lia).
  rewrite (proj2 (Z.ltb_ge DFC_KEY_POOL_SIZE (nk * w))), (proj2 (Z.ltb_ge DFC_KEY_POOL_SIZE _)) by lia.
  rewrite (slice_resolve_ok _ (picc_slice c)) by (done || dlia). cbn [negb picc_slice fst snd].
  rewrite (proj2 (Z.eqb_eq (picc_key_pool_len c) 0) H0).
  change (POOL_NONE =? DFC_KEY_POOL_NONE) with true. cbn [negb andb].
  rewrite (proj2 (Z.ltb_ge _ (nk * w))) by lia. cbn [negb].
  rewrite (proj2 (Z.eqb_neq (nk * w) 0)) by nia.
  destruct (keys_release_picc c Hwf) as (Hst & Hl & Hu). set (c1 := dfc_credential_keys_release c None) in *.
  eexists. split; [reflexivity|].
  destruct (picc_allocate c1 (nk * w) (u8 nk) (u8 kl) (ps_wf _ _ _ _ _ Hst) Hl) as [Hw2 Hk2 Hc2 Ha2 Hf2];
    [nia|lia|]. destruct Hst as [_ _ _ Ha1 Hf1].
  constructor; [exact Hw2|exact Hk2|exact Hc2|etransitivity; [exact Ha2|exact Ha1]|
                etransitivity; [exact Hf2|exact Hf1]].
Qed.

(** ** [dfc_credential_keys_resize] on an application *)

Definition single_set (a : DfcApplication) : DfcApplication :=
  set_key_set_settings 0 (set_max_key_size 0 (set_num_key_sets 1 a)).

Lemma meta_can_resize c i a want :
  keys_wf c -> apps c !! i = Some a -> 0 <= want ->
  dfc_key_set_metadata_can_resize c (Z.of_nat i) want =
  (key_set_metadata_pool_used c - key_set_metadata_len a + want <=? DFC_KEY_SET_METADATA_POOL_SIZE).
Proof.
  intros Hwf Hi Hw. pose proof (pool_bound _ _ _ _ (kw_meta _ Hwf)) as Hb.
  pose proof (meta_slice_ok c i a Hwf Hi) as Hs. pose proof meta_pool_size as Hsz.
  unfold dfc_key_set_metadata_can_resize. rewrite (app_at_lookup _ _ _ Hi).
  rewrite (slice_resolve_ok _ (meta_slice a)) by (done || dlia). cbn [meta_slice fst snd].
  assert (Hlen : 0 <= key_set_metadata_len a <= key_set_metadata_pool_used c)
    by (destruct Hs as [[H0 _]|H0]; cbn in H0; lia).
  replace (if negb _ then _ else _) with (key_set_metadata_pool_used c - key_set_metadata_len a).
  2: { destruct (key_set_metadata_len a =? 0) eqn:E; bool_facts;
         [change (POOL_NONE =? _) with true; cbn; lia|].
       destruct Hs as [[? _]|(_ & ? & ?)]; cbn in *; [done|].
       by rewrite (proj2 (Z.eqb_neq (key_set_metadata_offset a) _)) by dlia. }
  rewrite (proj2 (Z.ltb_ge _ (key_set_metadata_pool_used c))) by lia. rewrite orb_false_r.
  destruct (_ <? want) eqn:E; bool_facts.
  - symmetry. apply Z.leb_gt. lia.
  - apply eq_true_iff_eq. rewrite !Z.leb_le. lia.
Qed.

(** What [dfc_credential_keys_resize] leaves in the application: one key set, no
    metadata. *)
Definition resized_single (c : DfcCredential) (a : DfcApplication) (num_keys key_len : Z) : AppEntry :=
  let e := resized_app c a num_keys num_keys key_len key_len in
  mk_entry (single_set (entry_app e)) (entry_keys e) [].

Lemma keys_resize_app c i a nk kl :
  keys_wf c -> apps c !! i = Some a -> 0 <= nk -> 0 <= kl ->
  let '(ok, c') := dfc_credential_keys_resize c (Some (Z.of_nat i)) nk kl in
  ok = total_fits (key_pool_used c) (app_key_pool_len a) nk nk kl kl /\
  (ok = false -> c' = c) /\
  (ok = true -> app_step c c' i (resized_single c a nk kl)).
Proof.
  intros Hwf Hi Hnk Hkl. unfold dfc_credential_keys_resize.
  pose proof (resize_total_correct c i a nk nk kl kl Hwf Hi Hnk) as Ht.
  destruct (dfc_credential_keys_resize_total _ _ _ _ _ _) as [ok c1]. destruct Ht as (-> & Hf & Ht).
  destruct (total_fits _ _ _ _ _ _); [|by rewrite Hf]. specialize (Ht eq_refl).
  pose proof (as_wf _ _ _ _ Ht) as Hw1. destruct (lookup_lt_is_Some_2 (apps c1) i) as [b Hb].
  { rewrite (kw_length _ Hw1), <- (kw_length _ Hwf). by eapply lookup_lt_Some. }
  assert (Hview : app_view c1 b = resized_app c a nk nk kl kl).
  { pose proof (f_equal (fun l => l !! i) (as_abs _ _ _ _ Ht)) as Hl. cbn beta in Hl.
    rewrite list_lookup_insert_eq in Hl by (unfold abs_apps; rewrite length_map; by eapply lookup_lt_Some).
    unfold abs_apps in Hl. rewrite list_lookup_fmap, Hb in Hl. by injection Hl. }
  pose proof (app_update_correct c1 i b single_set Hw1 Hb eq_refl eq_refl) as Hup.
  change (update_app (fun a => set_key_set_settings 0 _) _ c1) with (update_app single_set (Z.of_nat i) c1).
  set (c2 := update_app single_set (Z.of_nat i) c1) in *. pose proof (as_wf _ _ _ _ Hup) as Hw2.
  assert (Hb2 : apps c2 !! i = Some (single_set b)).
  { unfold c2. rewrite (apps_update _ _ _ _ Hb). apply list_lookup_insert_eq. by eapply lookup_lt_Some. }
  unfold dfc_key_set_metadata_resize. rewrite (meta_can_resize c2 i _ 0 Hw2 Hb2) by lia.
  pose proof (meta_slice_ok c2 i _ Hw2 Hb2) as Hms. pose proof (pool_bound _ _ _ _ (kw_meta _ Hw2)).
  rewrite (proj2 (Z.leb_le _ _)) by (destruct Hms as [[H0 _]|H0]; cbn in *; lia).
  split_and!; [done..|]. intros _. eapply app_step_trans; [exact Ht|].
  eapply app_step_trans; [exact Hup|]. unfold resized_single. rewrite <- Hview.
  exact (meta_release_step c2 i (single_set b) Hw2 Hb2).
Qed.
