(* ===== verification/CredentialFacts.v ===== *)
(** The credential as a whole: its invariant and the operations that move both
    stores ([src/src/dfc_credential.c]).

    [cred_wf] joins the consistency of the file pool, the key pool and the metadata
    pool with the numbering the lookups rely on: unused application slots are blank,
    a file belongs to an existing application or to the PICC, no two files share
    application and number, no two applications share an identifier. The abstract
    state of a credential is [abs_picc_keys], [live_entries] and [abs_files]: the
    lemmas say what each operation does to it, on success and on refusal. *)

From S2P Require Import Prelude Common Pool CredentialData Credential FileStore KeyStore.

Definition blank_entry : AppEntry := mk_entry (app_sans cleared_application) [] [].

(** The created applications, each with its own keys and metadata. *)
Definition live_entries (c : DfcCredential) : list AppEntry :=
  take (Z.to_nat (num_apps c)) (abs_apps c).

Definition owner_ok (apps : Z) (owner : Z) : Prop := owner = DFC_FILE_OWNER_PICC \/ 0 <= owner < apps.

Definition entry_key (e : DfcFile * bytes) : Z * Z := file_key (fst e).

Definition entry_aid (e : AppEntry) : bytes := aid (entry_app e).

Record cred_wf (c : DfcCredential) : Prop := {
  cw_files : files_wf c;
  cw_keys : keys_wf c;
  cw_count : 0 <= num_apps c <= DFC_MAX_APPS;
  cw_unused : Forall (eq blank_entry) (drop (Z.to_nat (num_apps c)) (abs_apps c));
  cw_owners : Forall (fun e => owner_ok (num_apps c) (entry_owner e)) (abs_files c);
  cw_file_keys : NoDup (map entry_key (abs_files c));
  cw_aids : NoDup (map entry_aid (live_entries c));
}.

(** ** Frames *)

(** Operations on files leave the key store alone, and conversely. *)
Lemma sans_files_keys c c' :
  sans_files c' = sans_files c -> keys_wf c ->
  keys_wf c' /\ abs_apps c' = abs_apps c /\ abs_picc_keys c' = abs_picc_keys c /\
  num_apps c' = num_apps c.
Proof.
  intros H [Hl Hk Hm]. pose proof (f_equal apps H) as Ha. pose proof (f_equal key_pool H) as Hkp.
  pose proof (f_equal key_pool_used H) as Hku. pose proof (f_equal picc_slice H) as Hps.
  pose proof (f_equal key_set_metadata_pool H) as Hmp.
  pose proof (f_equal key_set_metadata_pool_used H) as Hmu. pose proof (f_equal num_apps H) as Hn.
  cbn in Ha, Hkp, Hku, Hmp, Hmu, Hn. change (picc_slice c' = picc_slice c) in Hps.
  split_and!; [|unfold abs_apps, app_view; by rewrite Ha, Hkp, Hmp|
               unfold abs_picc_keys; by rewrite Hkp, Hps|done].
  constructor; unfold key_slices; rewrite ?Ha, ?Hkp, ?Hku, ?Hmp, ?Hmu, ?Hps; done.
Qed.

Lemma sans_keys_files c c' :
  sans_keys c' = sans_keys c -> files_wf c ->
  files_wf c' /\ abs_files c' = abs_files c /\ num_apps c' = num_apps c /\ num_files c' = num_files c.
Proof.
  intros H [Hl Hn Hp]. pose proof (f_equal files H) as Hf. pose proof (f_equal file_pool H) as Hfp.
  pose proof (f_equal file_pool_used H) as Hfu. pose proof (f_equal num_files H) as Hnf.
  pose proof (f_equal num_apps H) as Hna. cbn in Hf, Hfp, Hfu, Hnf, Hna.
  assert (Hlive : live_files c' = live_files c) by (unfold live_files; by rewrite Hf, Hnf).
  split_and!; [|unfold abs_files, file_view; by rewrite Hlive, Hfp|done|done].
  constructor; rewrite ?Hlive, ?Hf, ?Hnf, ?Hfp, ?Hfu; done.
Qed.

(** An operation on files keeps the invariant when the new list of files does. *)
Lemma cred_wf_files c c' :
  cred_wf c -> files_wf c' -> sans_files c' = sans_files c ->
  Forall (fun e => owner_ok (num_apps c) (entry_owner e)) (abs_files c') ->
  NoDup (map entry_key (abs_files c')) ->
  cred_wf c' /\ live_entries c' = live_entries c /\ abs_picc_keys c' = abs_picc_keys c.
Proof.
  intros [Hf Hk Hn Hu Ho Hfk Ha] Hf' Hs Ho' Hfk'.
  destruct (sans_files_keys c c' Hs Hk) as (Hk' & Habs & Hpk & Hna).
  assert (Hle : live_entries c' = live_entries c) by (unfold live_entries; by rewrite Hna, Habs).
  split_and!; [|done|done]. constructor; try done; rewrite ?Hna, ?Habs, ?Hle; done.
Qed.

(** An operation that changes the octets of one file only. *)
Lemma cred_wf_file_step c c' i f g d :
  cred_wf c -> live_files c !! i = Some f -> file_step c c' i (g, d) -> file_key g = file_key f ->
  cred_wf c' /\ live_entries c' = live_entries c /\ abs_picc_keys c' = abs_picc_keys c.
Proof.
  intros Hwf Hi [Hf' Ha' _ Hs] Hg.
  assert (Hai : abs_files c !! i = Some (file_view c f)) by (unfold abs_files; by rewrite list_lookup_fmap, Hi).
  apply cred_wf_files; try done.
  - rewrite Ha'. apply Forall_insert; [apply (cw_owners _ Hwf)|].
    change (owner_ok (num_apps c) (fst (file_key g))). rewrite Hg.
    exact (Forall_lookup_1 _ _ _ _ (cw_owners _ Hwf) Hai).
  - rewrite Ha', list_fmap_insert, list_insert_id; [apply (cw_file_keys _ Hwf)|].
    rewrite list_lookup_fmap, Hai. cbn. unfold entry_key. cbn [fst file_view]. by rewrite Hg.
Qed.

(** ** Application slots *)

Lemma slice_contents_nil size pool used s :
  zlen pool = size -> used <= size -> slice_ok used s -> slice_contents pool s = [] -> snd s = 0.
Proof.
  intros Hz Hu [[H0 _]|(Hp & Ho & Hb)] Hc; [done|].
  assert (Hl : zlen (slice pool (fst s) (snd s)) = snd s) by (apply length_slice; lia).
  unfold slice_contents in Hc. rewrite Hc in Hl. unfold zlen in Hl. cbn in Hl. lia.
Qed.

(** A slot whose abstract entry is blank holds no octets. *)
Lemma blank_slot c i a :
  keys_wf c -> apps c !! i = Some a -> entry_keys (app_view c a) = [] -> entry_meta (app_view c a) = [] ->
  app_key_pool_len a = 0 /\ key_set_metadata_len a = 0.
Proof.
  intros Hwf Hi Hk Hm. pose proof Hwf as [_ Hkp Hmp]. split.
  - apply (slice_contents_nil _ (key_pool c) _ (key_slice a) (pool_size _ _ _ _ Hkp)
             (proj2 (pool_bound _ _ _ _ Hkp))); [by eapply key_slice_ok|done].
  - apply (slice_contents_nil _ (key_set_metadata_pool c) _ (meta_slice a) (pool_size _ _ _ _ Hmp)
             (proj2 (pool_bound _ _ _ _ Hmp))); [by eapply meta_slice_ok|done].
Qed.

(** A slot without octets may be reset. *)
Lemma app_reset_correct c i a :
  keys_wf c -> apps c !! i = Some a -> app_key_pool_len a = 0 -> key_set_metadata_len a = 0 ->
  app_step c (update_app dfc_credential_reset_application (Z.of_nat i) c) i blank_entry.
Proof.
  intros [Hlen Hk Hm] Hi Hk0 Hm0. pose proof (apps_update dfc_credential_reset_application c i a Hi) as Ha.
  set (c' := update_app _ _ _) in *. constructor; try done.
  - constructor; [by rewrite Ha, length_insert| |].
    + unfold key_slices. rewrite Ha, list_fmap_insert.
      apply (pool_set_empty _ _ _ _ (S i) (key_slice a) (POOL_NONE, 0)) in Hk; [exact Hk| |done|done|by left].
      change (map key_slice (apps c) !! i = Some (key_slice a)). by rewrite list_lookup_fmap, Hi.
    + rewrite Ha, list_fmap_insert.
      apply (pool_set_empty _ _ _ _ i (meta_slice a)); [done| |done|done|by left].
      by rewrite list_lookup_fmap, Hi.
  - replace blank_entry with (app_view c' (dfc_credential_reset_application a)) by done.
    apply abs_apps_ext; [by eapply lookup_lt_Some|by rewrite Ha, length_insert| |].
    + rewrite Ha. apply list_lookup_insert_eq. by eapply lookup_lt_Some.
    + intros j b Hj Hb. exists b. by rewrite Ha, list_lookup_insert_ne.
Qed.

(** The slot a creation takes. *)
Lemma next_slot c :
  cred_wf c -> num_apps c < DFC_MAX_APPS ->
  exists a, apps c !! Z.to_nat (num_apps c) = Some a /\ app_view c a = blank_entry /\
            app_key_pool_len a = 0 /\ key_set_metadata_len a = 0.
Proof.
  intros Hwf Hn. pose proof (cw_keys _ Hwf) as Hk. pose proof (cw_count _ Hwf) as Hc.
  destruct (lookup_lt_is_Some_2 (apps c) (Z.to_nat (num_apps c))) as [a Ha].
  { rewrite (kw_length _ Hk). dlia. }
  assert (Hv : app_view c a = blank_entry).
  { symmetry. apply (Forall_lookup_1 _ _ O _ (cw_unused _ Hwf)).
    unfold abs_apps. rewrite lookup_drop, Nat.add_0_r, list_lookup_fmap, Ha. done. }
  exists a. split_and!; [done|done|..]; apply (blank_slot c (Z.to_nat (num_apps c)) a Hk Ha); by rewrite Hv.
Qed.

Lemma length_abs_apps c : keys_wf c -> length (abs_apps c) = Z.to_nat DFC_MAX_APPS.
Proof. intros [Hl _ _]. unfold abs_apps. by rewrite length_map. Qed.

(** ** Creating an application *)

(** The application a successful creation appends, with its zeroed keys. *)
Definition created_entry (a : bytes) (key_settings_1 key_settings_2 : Z) : AppEntry :=
  let num_keys := Z.land key_settings_2 DFC_NUM_KEYS_MASK in
  let key_len := dfc_credential_key_length key_settings_2 in
  mk_entry
    (set_app_auth_command (auth_command_for key_settings_2) (set_app_key_settings_2 key_settings_2
       (set_app_key_settings_1 key_settings_1 (set_aid [a.[2]; a.[1]; a.[0]]
          (single_set (app_sans (sized_app num_keys key_len key_len cleared_application)))))))
    (zeros (num_keys * dfc_credential_stored_key_length key_len)) [].

Lemma key_length_cases k : dfc_credential_key_length k = 16 \/ dfc_credential_key_length k = 24.
Proof. unfold dfc_credential_key_length. repeat destruct (_ =? _); auto. Qed.

Lemma find_application_fresh c a :
  keys_wf c -> dfc_credential_find_application_desfire_order c a = None ->
  Forall (fun e => entry_aid e <> [a.[2]; a.[1]; a.[0]]) (live_entries c).
Proof.
  intros _ H. unfold dfc_credential_find_application_desfire_order, find_index in H.
  pose proof (find_from_spec (fun app => (a.[0] =? (aid app).[2]) && (a.[1] =? (aid app).[1]) &&
    (a.[2] =? (aid app).[0])) (take (Z.to_nat (num_apps c)) (apps c)) 0) as Hs.
  rewrite H in Hs. unfold live_entries, abs_apps. rewrite <- fmap_take. apply Forall_fmap.
  eapply Forall_impl; [|exact Hs]. intros app Happ Haid. cbn in Haid.
  unfold entry_aid in Haid. cbn in Haid. cbn beta in Happ. rewrite Haid in Happ.
  unfold byte_at in Happ. cbn in Happ. rewrite !Z.eqb_refl in Happ. done.
Qed.

(** Appending to the live applications. *)
Lemma live_entries_snoc c c' e :
  cred_wf c -> num_apps c < DFC_MAX_APPS -> num_apps c' = num_apps c + 1 ->
  abs_apps c' = <[Z.to_nat (num_apps c) := e]> (abs_apps c) ->
  live_entries c' = live_entries c ++ [e] /\
  Forall (eq blank_entry) (drop (Z.to_nat (num_apps c')) (abs_apps c')).
Proof.
  intros Hwf Hn Hn' Ha. pose proof (cw_count _ Hwf) as Hc. pose proof (length_abs_apps _ (cw_keys _ Hwf)) as Hl.
  unfold live_entries. rewrite Hn', Ha. replace (Z.to_nat (num_apps c + 1)) with (S (Z.to_nat (num_apps c))) by lia.
  split.
  - erewrite take_S_r by (apply list_lookup_insert_eq; dlia). by rewrite take_insert_ge by lia.
  - rewrite drop_insert_lt by lia. pose proof (cw_unused _ Hwf) as Hu.
    rewrite <- Nat.add_1_r, <- drop_drop. by apply Forall_drop.
Qed.

(** The invariant after an application joined. *)
Lemma cred_wf_snoc c c' e :
  cred_wf c -> num_apps c < DFC_MAX_APPS -> num_apps c' = num_apps c + 1 -> keys_wf c' ->
  abs_apps c' = <[Z.to_nat (num_apps c) := e]> (abs_apps c) ->
  files_wf c' -> abs_files c' = abs_files c ->
  Forall (fun e' => entry_aid e' <> entry_aid e) (live_entries c) -> cred_wf c'.
Proof.
  intros Hwf Hn Hn' Hk' Ha Hf' Hfs Haid.
  destruct (live_entries_snoc c c' e Hwf Hn Hn' Ha) as [Hlive Hunused].
  pose proof (cw_count _ Hwf). constructor; try done; rewrite ?Hfs; try apply Hwf; [lia|..].
  - eapply Forall_impl; [|apply (cw_owners _ Hwf)]. intros x [?|?]; [by left|right; lia].
  - rewrite Hlive, map_app. apply list_relations.list.NoDup_app. split_and!; [apply Hwf| |apply NoDup_singleton].
    intros x Hx Hx'. apply list_elem_of_fmap in Hx as (e' & -> & He').
    apply list_elem_of_singleton in Hx'. apply list_elem_of_lookup in He' as [k Hk].
    exact (Forall_lookup_1 _ _ _ _ Haid Hk Hx').
Qed.

(** Everything the abstract state says, unchanged. *)
Definition same_abs (c c' : DfcCredential) : Prop :=
  abs_picc_keys c' = abs_picc_keys c /\ live_entries c' = live_entries c /\
  abs_files c' = abs_files c /\ num_apps c' = num_apps c.

(** A step that leaves every application's entry as it was. *)
Lemma cred_wf_same c c' :
  cred_wf c -> keys_wf c' -> abs_apps c' = abs_apps c -> abs_picc_keys c' = abs_picc_keys c ->
  sans_keys c' = sans_keys c -> cred_wf c' /\ same_abs c c'.
Proof.
  intros Hwf Hk Ha Hp Hs. destruct (sans_keys_files c c' Hs (cw_files _ Hwf)) as (Hf & Hfs & Hn & _).
  assert (Hl : live_entries c' = live_entries c) by (unfold live_entries; by rewrite Hn, Ha).
  split; [|done]. constructor; try done; rewrite ?Hn, ?Ha, ?Hfs, ?Hl; apply Hwf.
Qed.

Section CreateApplication.
Context (c : DfcCredential) (a : bytes) (key_settings_1 key_settings_2 : Z).
Hypothesis Hwf : cred_wf c.
Hypothesis Hn : num_apps c < DFC_MAX_APPS.

#[local] Abbreviation i := (Z.to_nat (num_apps c)).
#[local] Abbreviation num_keys := (Z.land key_settings_2 DFC_NUM_KEYS_MASK).
#[local] Abbreviation key_len := (dfc_credential_key_length key_settings_2).

(** The slot is cleared before its keys are reserved. *)
Lemma create_clear :
  let c1 := update_app dfc_application_clear (num_apps c) c in
  app_step c c1 i blank_entry /\ cred_wf c1 /\ same_abs c c1 /\
  apps c1 !! i = Some cleared_application.
Proof.
  destruct (next_slot c Hwf Hn) as (b & Hb & Hv & Hk0 & Hm0). pose proof (cw_count _ Hwf) as Hc.
  pose proof (app_reset_correct c i b (cw_keys _ Hwf) Hb Hk0 Hm0) as Hst.
  rewrite Z2Nat.id in Hst by lia. cbv zeta.
  change dfc_application_clear with dfc_credential_reset_application.
  set (c1 := update_app _ _ _) in *. split; [done|].
  assert (Hsame : abs_apps c1 = abs_apps c).
  { rewrite (as_abs _ _ _ _ Hst). apply list_insert_id. unfold abs_apps.
    rewrite list_lookup_fmap, Hb. cbn. by rewrite Hv. }
  destruct (cred_wf_same c c1 Hwf (as_wf _ _ _ _ Hst) Hsame (as_picc _ _ _ _ Hst) (as_frame _ _ _ _ Hst)).
  split_and!; [done|done|]. pose proof (apps_update dfc_credential_reset_application c i b Hb) as Hup.
  rewrite Z2Nat.id in Hup by lia. fold c1 in Hup. rewrite Hup.
  apply list_lookup_insert_eq. by eapply lookup_lt_Some.
Qed.

(** The fields stored once the keys are reserved. *)
Lemma create_fill c2 e g :
  app_step (update_app dfc_application_clear (num_apps c) c) c2 i e ->
  (forall app, key_slice (g app) = key_slice app /\ meta_slice (g app) = meta_slice app /\
               app_sans (g app) = g (app_sans app)) ->
  let c' := update_app g (num_apps c) (set_num_apps (u8 (num_apps c2 + 1)) c2) in
  let e' := mk_entry (g (entry_app e)) (entry_keys e) (entry_meta e) in
  num_apps c' = num_apps c + 1 /\ keys_wf c' /\ files_wf c' /\ abs_files c' = abs_files c /\
  abs_apps c' = <[i := e']> (abs_apps c) /\ abs_picc_keys c' = abs_picc_keys c /\
  uid c' = uid c /\ uid_len c' = uid_len c.
Proof.
  intros Hst Hg c' e'. destruct create_clear as (Hst1 & _). pose proof (cw_count _ Hwf) as Hc.
  pose proof (app_step_trans _ _ _ _ _ _ Hst1 Hst) as [Hw2 Ha2 Hp2 _ Hf2].
  destruct (sans_keys_files c c2 Hf2 (cw_files _ Hwf)) as (Hfw & Hfs & Hn2 & _).
  assert (Hi2 : (i < length (apps c2))%nat) by (rewrite (kw_length _ Hw2); dlia).
  destruct (lookup_lt_is_Some_2 _ _ Hi2) as [b Hb].
  assert (Hv : app_view c2 b = e).
  { pose proof (f_equal (fun l => l !! i) Ha2) as Hl. cbn beta in Hl.
    rewrite list_lookup_insert_eq in Hl by (rewrite (length_abs_apps _ (cw_keys _ Hwf)); dlia).
    unfold abs_apps in Hl. rewrite list_lookup_fmap, Hb in Hl. by injection Hl. }
  destruct (Hg b) as (Hg1 & Hg2 & Hg3).
  assert (Hw3 : keys_wf (set_num_apps (u8 (num_apps c2 + 1)) c2)) by (destruct Hw2; by constructor).
  pose proof (app_update_correct _ i b g Hw3 Hb Hg1 Hg2) as Hst3. rewrite Z2Nat.id in Hst3 by lia.
  fold c' in Hst3. destruct Hst3 as [Hw' Ha' Hp' _ Hf'].
  destruct (sans_keys_files _ c' Hf') as (Hfw' & Hfs' & _ & _); [destruct Hfw; by constructor|].
  split_and!; [|done|done|by rewrite Hfs'| | |exact (f_equal uid Hf2)|exact (f_equal uid_len Hf2)].
  - cbn. rewrite Hn2. apply u8_id. dlia.
  - rewrite Ha'. change (abs_apps (set_num_apps _ c2)) with (abs_apps c2). rewrite Ha2, list_insert_insert_eq.
    f_equal. unfold e'. rewrite Hg3, <- Hv. done.
  - rewrite Hp'. exact Hp2.
Qed.

Lemma create_resized :
  0 < num_keys ->
  resized_single (update_app dfc_application_clear (num_apps c) c) cleared_application num_keys key_len =
  mk_entry (single_set (app_sans (sized_app num_keys key_len key_len cleared_application)))
    (zeros (num_keys * dfc_credential_stored_key_length key_len)) [].
Proof.
  intros Hk. pose proof (stored_key_length_range key_len) as Hr. unfold resized_single, resized_app.
  change (app_key_pool_len cleared_application) with 0.
  rewrite (proj2 (Z.eqb_neq 0 _)) by nia. cbn [andb].
  by rewrite (proj2 (Z.eqb_neq (_ * _) 0)) by nia.
Qed.

End CreateApplication.

(** Why a creation is refused. *)
Definition create_refused (c : DfcCredential) (a : bytes) (key_settings_2 : Z) : Prop :=
  let num_keys := Z.land key_settings_2 DFC_NUM_KEYS_MASK in
  DFC_MAX_APPS <= num_apps c \/
  is_Some (dfc_credential_find_application_desfire_order c a) \/
  num_keys = 0 \/ DFC_MAX_KEYS < num_keys \/
  DFC_KEY_POOL_SIZE < key_pool_used c +
    num_keys * dfc_credential_stored_key_length (dfc_credential_key_length key_settings_2).

Lemma create_keys_fit used nk k :
  1 <= nk <= DFC_MAX_KEYS ->
  total_fits used 0 nk nk (dfc_credential_key_length k) (dfc_credential_key_length k) =
  (used + nk * dfc_credential_stored_key_length (dfc_credential_key_length k) <=? DFC_KEY_POOL_SIZE).
Proof.
  intros Hnk. unfold total_fits. rewrite Z.sub_0_r.
  rewrite (proj2 (Z.leb_le nk nk)), (proj2 (Z.leb_le nk _)) by lia.
  destruct (key_length_cases k) as [-> | ->]; done.
Qed.

(** Creating an application either appends one entry, with a fresh zeroed key
    slice and the requested settings, to the live applications and leaves the PICC
    keys, every other application and every file as they were, or is refused for a
    stated reason and leaves the whole abstract state unchanged. The credential stays
    well formed either way. *)
Lemma create_application_correct c a key_settings_1 key_settings_2 :
  cred_wf c ->
  let '(r, c') := dfc_credential_create_application_desfire_order c a key_settings_1 key_settings_2 in
  cred_wf c' /\
  match r with
  | Some i =>
      ~ create_refused c a key_settings_2 /\
      i = num_apps c /\ num_apps c' = num_apps c + 1 /\
      live_entries c' = live_entries c ++ [created_entry a key_settings_1 key_settings_2] /\
      abs_files c' = abs_files c /\ abs_picc_keys c' = abs_picc_keys c /\
      uid c' = uid c /\ uid_len c' = uid_len c
  | None => create_refused c a key_settings_2 /\ same_abs c c'
  end.
Proof.
  intros Hwf. unfold dfc_credential_create_application_desfire_order, create_refused.
  destruct (DFC_MAX_APPS <=? num_apps c) eqn:E1; cbn [negb]; bool_facts; [by split_and!; [|left|..]|].
  destruct (dfc_credential_find_application_desfire_order c a) as [k|] eqn:Ef.
  { split_and!; [done|right; left; by eexists|done..]. }
  set (nk := Z.land key_settings_2 DFC_NUM_KEYS_MASK).
  destruct (_ || _ || _) eqn:E2; cbn [negb].
  { apply orb_true_iff in E2 as [E2|E2]; [apply orb_true_iff in E2 as [E2|E2]|]; bool_facts;
      (split_and!; [done|right; right; dlia|done..]). }
  bool_facts. assert (Hnk : 0 <= nk) by (unfold nk; apply Z.land_nonneg; dlia).
  destruct (create_clear c Hwf E1) as (Hst1 & Hwf1 & Hsame1 & Hslot1).
  set (c1 := update_app dfc_application_clear (num_apps c) c) in *.
  pose proof (key_length_cases key_settings_2) as Hkl.
  pose proof (keys_resize_app c1 _ _ nk (dfc_credential_key_length key_settings_2)
                (as_wf _ _ _ _ Hst1) Hslot1 Hnk ltac:(lia)) as Hr.
  pose proof (cw_count _ Hwf) as Hc. rewrite Z2Nat.id in Hr by lia.
  destruct (dfc_credential_keys_resize _ _ _ _) as [ok c2]. destruct Hr as (-> & Hno & Hyes).
  change (app_key_pool_len cleared_application) with 0 in *.
  rewrite create_keys_fit in * by (dlia).
  change (key_pool_used c1) with (key_pool_used c) in *.
  destruct (_ <=? DFC_KEY_POOL_SIZE) eqn:Efit; bool_facts.
  - specialize (Hyes eq_refl). unfold c1, nk in Hyes. rewrite create_resized in Hyes by (fold nk; lia).
    destruct (create_fill c Hwf E1 c2 _ (fun app =>
      set_app_auth_command (auth_command_for key_settings_2) (set_app_key_settings_2 key_settings_2
        (set_app_key_settings_1 key_settings_1 (set_aid [a.[2]; a.[1]; a.[0]] app)))) Hyes)
      as (Hn' & Hk' & Hf' & Hfs & Ha' & Hp' & Hu' & Hul'); [done|].
    pose proof (live_entries_snoc c _ _ Hwf E1 Hn' Ha') as [Hlive _].
    split_and!; [| |done|exact Hn'|exact Hlive|exact Hfs|exact Hp'|exact Hu'|exact Hul'];
      [|intros [?|[[? ?]|[?|[?|?]]]]; done || dlia].
    eapply cred_wf_snoc; [exact Hwf|done|exact Hn'|exact Hk'|exact Ha'|exact Hf'|exact Hfs|].
    exact (find_application_fresh c a (cw_keys _ Hwf) Ef).
  - rewrite (Hno eq_refl). split_and!; [done|do 4 right; lia|done].
Qed.

(** ** Deleting an application *)

(** The array closes over the slot [k] of an application that holds no octets. *)
Lemma remove_app_slot_correct c k b :
  keys_wf c -> files_wf c -> (k < Z.to_nat (num_apps c))%nat -> num_apps c <= DFC_MAX_APPS ->
  apps c !! k = Some b -> app_key_pool_len b = 0 -> key_set_metadata_len b = 0 ->
  let c' := remove_app_slot c (Z.of_nat k) in
  let last := Z.to_nat (num_apps c - 1) in
  keys_wf c' /\ files_wf c' /\ num_apps c' = num_apps c - 1 /\
  abs_apps c' !! last = Some blank_entry /\ delete last (abs_apps c') = delete k (abs_apps c) /\
  abs_files c' = abs_files c /\ abs_picc_keys c' = abs_picc_keys c.
Proof.
  intros [Hlen Hkp Hmp] Hf Hk Hn Hb Hk0 Hm0 c' last.
  assert (Hz : zlen (apps c) = DFC_MAX_APPS) by (unfold zlen; rewrite Hlen; done).
  destruct (remove_slot_delete (apps c) (Z.of_nat k) (num_apps c) cleared_application) as (Hl & Hx & Hd);
    [lia|lia|]. rewrite Nat2Z.id in Hd. fold last in Hl, Hx, Hd.
  assert (Happs : apps c' = alter (fun _ => cleared_application) last
    (if Z.of_nat k + 1 <? num_apps c
     then memmove (apps c) (Z.of_nat k) (Z.of_nat k + 1) (num_apps c - Z.of_nat k - 1) else apps c)).
  { unfold c', remove_app_slot, update_app, last. destruct (_ <? _); cbn;
      rewrite u8_id by dlia; done. }
  rewrite <- Happs in Hl, Hx, Hd.
  assert (Hsame : num_apps c' = num_apps c - 1 /\ key_pool c' = key_pool c /\
    key_pool_used c' = key_pool_used c /\ key_set_metadata_pool c' = key_set_metadata_pool c /\
    key_set_metadata_pool_used c' = key_set_metadata_pool_used c /\ picc_slice c' = picc_slice c /\
    files_wf c' /\ abs_files c' = abs_files c).
  { unfold c', remove_app_slot, update_app. destruct (_ <? _); cbn;
      (rewrite u8_id by dlia; destruct Hf; split_and!; by try constructor). }
  destruct Hsame as (Hn' & E1 & E2 & E3 & E4 & E5 & Hf' & Hfs).
  split_and!; try done.
  - constructor; [congruence| |].
    + apply (pool_undelete_ok _ _ _ _ (S last) (key_slice cleared_application));
        [|change (map key_slice (apps c') !! last = Some (key_slice cleared_application));
          by rewrite list_lookup_fmap, Hx|done|by left].
      change (delete (S last) (key_slices c')) with (picc_slice c' :: delete last (map key_slice (apps c'))).
      rewrite <- list_fmap_delete, Hd, list_fmap_delete, E1, E2, E5.
      apply (pool_delete_ok _ _ _ _ (S k) (key_slice b)) in Hkp; [exact Hkp| |done].
      change (map key_slice (apps c) !! k = Some (key_slice b)). by rewrite list_lookup_fmap, Hb.
    + apply (pool_undelete_ok _ _ _ _ last (meta_slice cleared_application));
        [|by rewrite list_lookup_fmap, Hx|done|by left].
      rewrite <- list_fmap_delete, Hd, list_fmap_delete, E3, E4.
      apply (pool_delete_ok _ _ _ _ k (meta_slice b)); [done| |done]. by rewrite list_lookup_fmap, Hb.
  - unfold abs_apps. rewrite list_lookup_fmap, Hx. done.
  - unfold abs_apps. rewrite <- !list_fmap_delete, Hd. unfold app_view. by rewrite E1, E3.
  - unfold abs_picc_keys. by rewrite E1, E5.
Qed.

(** *** Numbering of the files that stay *)

Definition renumber_key (app_index : Z) (k : Z * Z) : Z * Z :=
  (if negb (fst k =? DFC_FILE_OWNER_PICC) && (app_index <? fst k) then u8 (fst k - 1) else fst k, snd k).

Lemma entry_key_renumber app_index e :
  entry_key (renumber_entry app_index e) = renumber_key app_index (entry_key e).
Proof.
  destruct e as [f d]. unfold entry_key, renumber_entry, renumber_file, renumber_key, file_key.
  cbn [fst snd]. by destruct (_ && _).
Qed.

Section Renumber.
Context (apps app_index : Z).
Hypothesis Hrange : 0 <= app_index < apps.
Hypothesis Hmax : apps <= DFC_MAX_APPS.

Lemma renumber_owner k :
  owner_ok apps (fst k) -> fst k <> app_index -> owner_ok (apps - 1) (fst (renumber_key app_index k)).
Proof.
  intros Ho Hne. unfold renumber_key, owner_ok in *. cbn [fst].
  destruct (fst k =? DFC_FILE_OWNER_PICC) eqn:E1; cbn [negb andb]; bool_facts; [by left|].
  destruct (app_index <? fst k) eqn:E2; bool_facts; [|right; lia].
  right. rewrite u8_id by dlia. lia.
Qed.

(** Renumbering keeps distinct files distinct. *)
Lemma renumber_key_inj k k' :
  owner_ok apps (fst k) -> owner_ok apps (fst k') -> fst k <> app_index -> fst k' <> app_index ->
  renumber_key app_index k = renumber_key app_index k' -> k = k'.
Proof.
  destruct k as [o n], k' as [o' n']. unfold renumber_key, owner_ok. cbn [fst snd].
  intros Ho Ho' Hne Hne' [= Heq ->]. f_equal.
  destruct (o =? DFC_FILE_OWNER_PICC) eqn:E1, (o' =? DFC_FILE_OWNER_PICC) eqn:E1'; cbn [negb andb] in Heq;
    destruct (app_index <? o) eqn:E2, (app_index <? o') eqn:E2'; bool_facts;
    rewrite ?u8_id in Heq by dlia; dlia.
Qed.

Lemma files_without_owners l :
  Forall (fun e => owner_ok apps (entry_owner e)) l ->
  Forall (fun e => owner_ok (apps - 1) (entry_owner e)) (files_without app_index l).
Proof.
  intros H. unfold files_without. apply Forall_fmap. apply Forall_lookup_2. intros j e He.
  apply list_elem_of_lookup_2, list_elem_of_filter in He as [Hne He].
  apply list_elem_of_lookup in He as [j' He]. pose proof (Forall_lookup_1 _ _ _ _ H He) as Ho.
  cbn. change (owner_ok (apps - 1) (fst (entry_key (renumber_entry app_index e)))).
  rewrite entry_key_renumber. by apply renumber_owner.
Qed.

Lemma files_without_keys l :
  Forall (fun e => owner_ok apps (entry_owner e)) l -> NoDup (map entry_key l) ->
  NoDup (map entry_key (files_without app_index l)).
Proof.
  intros Ho Hd. unfold files_without. rewrite map_map.
  rewrite (map_ext _ (fun e => renumber_key app_index (entry_key e))) by apply entry_key_renumber.
  rewrite <- map_map. apply NoDup_fmap_2_strong.
  - intros k k' Hk Hk' Heq.
    apply list_elem_of_fmap in Hk as (e & -> & He). apply list_elem_of_fmap in Hk' as (e' & -> & He').
    apply list_elem_of_filter in He as [Hne He]. apply list_elem_of_filter in He' as [Hne' He'].
    apply list_elem_of_lookup in He as [j He]. apply list_elem_of_lookup in He' as [j' He'].
    apply renumber_key_inj in Heq; [done| | |exact Hne|exact Hne'];
      [exact (Forall_lookup_1 _ _ _ _ Ho He)|exact (Forall_lookup_1 _ _ _ _ Ho He')].
  - eapply sublist_NoDup; [exact Hd|]. apply fmap_sublist, sublist_filter.
Qed.

End Renumber.

(** The array of entries after [last] was vacated and the rest closed up. *)
Lemma closed_entries (l l' : list AppEntry) (k n : nat) :
  (k < n)%nat -> (n <= length l)%nat -> delete (n - 1)%nat l' = delete k l -> l' !! (n - 1)%nat = Some blank_entry ->
  Forall (eq blank_entry) (drop n l) ->
  take (n - 1)%nat l' = delete k (take n l) /\ Forall (eq blank_entry) (drop (n - 1)%nat l').
Proof.
  intros Hk Hn Hd Hx Hu. rewrite !delete_take_drop in Hd. assert (Hl : (n - 1 < length l')%nat)
    by (by eapply lookup_lt_Some). replace (S (n - 1)%nat) with n in Hd by lia.
  assert (Ht : take (n - 1)%nat l' = take k l ++ take (n - S k)%nat (drop (S k) l)).
  { pose proof (f_equal (take (n - 1)%nat) Hd) as H. rewrite take_app_length' in H by (rewrite length_take; lia).
    rewrite H, take_app, take_take, length_take. f_equal; [f_equal; lia|f_equal; lia]. }
  split.
  - rewrite delete_take_drop, take_take, skipn_firstn_comm, Ht. f_equal. f_equal. lia.
  - rewrite (drop_S _ _ _ Hx). replace (S (n - 1)%nat) with n by lia. constructor; [done|].
    pose proof (f_equal (drop (n - 1)%nat) Hd) as H. rewrite drop_app_length' in H by (rewrite length_take; lia).
    rewrite H, drop_app, length_take, drop_drop, (drop_ge (take k l)) by (rewrite length_take; lia).
    cbn [app]. replace (S k + (n - 1 - k `min` length l))%nat with n by lia. done.
Qed.

(** Deleting an application removes exactly its entry and its files: every other
    application keeps its keys, metadata and settings, every other file keeps its
    octets and follows its application's new index, PICC files and keys are
    untouched, and the credential stays well formed. An index past the last
    application is refused without a change. *)
Lemma delete_application_correct c k :
  cred_wf c -> 0 <= k ->
  let '(ok, c') := dfc_credential_delete_application_at c k in
  ok = (k <? num_apps c) /\
  (ok = false -> c' = c) /\
  (ok = true -> cred_wf c' /\ num_apps c' = num_apps c - 1 /\
     live_entries c' = delete (Z.to_nat k) (live_entries c) /\
     abs_files c' = files_without k (abs_files c) /\
     abs_picc_keys c' = abs_picc_keys c).
Proof.
  intros Hwf Hk0. pose proof (cw_count _ Hwf) as Hc. unfold dfc_credential_delete_application_at.
  rewrite Z.leb_antisym, negb_involutive. destruct (k <? num_apps c) eqn:E; [|done]. bool_facts.
  split_and!; [done..|]. intros _. set (n := Z.to_nat k). rewrite <- (Z2Nat.id k Hk0). fold n.
  assert (Hn : (n < length (apps c))%nat) by (rewrite (kw_length _ (cw_keys _ Hwf)); dlia).
  destruct (lookup_lt_is_Some_2 _ _ Hn) as [a Ha].
  destruct (keys_release_app c n a (cw_keys _ Hwf) Ha) as ([Hw1 Ha1 Hp1 _ Hf1] & (b & Hb & Hb0 & Hm0 & _) & _).
  set (c1 := dfc_credential_keys_release _ _) in *.
  destruct (sans_keys_files c c1 Hf1 (cw_files _ Hwf)) as (Hfw1 & Hfs1 & Hn1 & Hnf1).
  destruct (delete_application_files_correct (Z.to_nat (num_files c1)) c1 (Z.of_nat n) O Hfw1) as (Hfw2 & Hs2 & Hfs2);
    [lia|]. change (Z.of_nat 0) with 0 in *. set (c2 := delete_application_files _ _ _ _) in *.
  rewrite take_0, drop_0 in Hfs2. cbn [app] in Hfs2.
  destruct (sans_files_keys c1 c2 Hs2 Hw1) as (Hw2 & Ha2 & Hp2 & Hn2).
  assert (Hb2 : apps c2 !! n = Some b) by (pose proof (f_equal apps Hs2) as Heq; cbn in Heq; by rewrite Heq).
  destruct (remove_app_slot_correct c2 n b Hw2 Hfw2) as (Hw3 & Hfw3 & Hn3 & Hx3 & Hd3 & Hfs3 & Hp3);
    [lia|lia|done..|]. set (c3 := remove_app_slot _ _) in *.
  assert (Hnum : num_apps c3 = num_apps c - 1) by lia.
  rewrite Ha2, Ha1, delete_insert_same in Hd3.
  replace (Z.to_nat (num_apps c2 - 1)) with (Z.to_nat (num_apps c) - 1)%nat in * by lia.
  destruct (closed_entries (abs_apps c) (abs_apps c3) n (Z.to_nat (num_apps c))) as [Hlive Hunused];
    [lia|rewrite (length_abs_apps _ (cw_keys _ Hwf)); dlia|done|done|apply Hwf|].
  assert (Hlv : live_entries c3 = delete n (live_entries c)).
  { unfold live_entries. rewrite Hnum, <- Hlive. f_equal. lia. }
  split_and!; [|done|done|congruence|congruence].
  assert (Hr : 0 <= Z.of_nat n < num_apps c) by lia.
  rewrite Hfs1 in Hfs2.
  constructor; rewrite ?Hnum, ?Hfs3, ?Hfs2, ?Hlv; try done; [lia|..].
  - replace (Z.to_nat (num_apps c - 1)) with (Z.to_nat (num_apps c) - 1)%nat by lia. done.
  - apply files_without_owners; [done|apply Hwf|apply Hwf].
  - apply (files_without_keys (num_apps c)); [done|apply Hwf..].
  - eapply sublist_NoDup; [apply (cw_aids _ Hwf)|]. apply fmap_sublist, sublist_delete.
Qed.

(** ** Formatting the PICC *)

(** A held slice moved to the head of its pool, everything after it wiped. *)
Lemma pool_move_to_head size pool used slices off len :
  pool_ok size pool used slices -> 0 <= off -> 0 < len -> off + len <= used ->
  let m := if 0 <? off then memmove pool 0 off len else pool in
  (if len <? used then wipe m len (used - len) else m) = slice pool off len ++ zeros (size - len).
Proof.
  intros [Hz Hb Hn Hs Hd Ht Hc] Ho Hl Hu m.
  assert (Hsl : zlen (slice pool off len) = len) by (apply length_slice; lia).
  assert (Hm : zlen m = size /\ forall k, m !! k = if decide (Z.of_nat k < len) then pool !! (k + Z.to_nat off)%nat else pool !! k).
  { unfold m. destruct (0 <? off) eqn:E; bool_facts.
    - unfold memmove. split; [rewrite length_splice; lia|]. intros k. rewrite splice_lookup by lia.
      rewrite slice_lookup. unfold zlen in Hsl. repeat case_decide; try lia; f_equal; lia.
    - split; [done|]. intros k. case_decide; f_equal; lia. }
  destruct Hm as [Hml Hm]. pose proof (length_zeros (used - len) ltac:(lia)) as Hzl.
  assert (Hr : zlen (if len <? used then wipe m len (used - len) else m) = size).
  { destruct (len <? used); [|done]. unfold wipe. rewrite length_splice; lia. }
  apply list_eq. intros k.
  assert (Hk : (if len <? used then wipe m len (used - len) else m) !! k =
    if decide (Z.of_nat k < len) then pool !! (k + Z.to_nat off)%nat
    else if decide (Z.of_nat k < size) then Some 0 else None).
  { destruct (decide (Z.of_nat k < size)) as [Hlt|Hge].
    - destruct (len <? used) eqn:E; bool_facts.
      + unfold wipe. rewrite splice_lookup by lia. rewrite Hm. unfold zlen in Hzl.
        repeat case_decide; try lia; try done; [apply zeros_lookup; lia|apply Hc; lia].
      + rewrite Hm. repeat case_decide; try lia; [done|]. apply Hc. lia.
    - rewrite (proj2 (lookup_ge_None _ _)) by (unfold zlen in Hr; lia). by case_decide; [lia|]. }
  rewrite Hk. unfold zlen in Hsl. case_decide.
  - rewrite lookup_app_l by lia. rewrite slice_lookup, decide_True by lia. f_equal. lia.
  - rewrite lookup_app_r by lia. symmetry. case_decide; [apply zeros_lookup; lia|].
    apply lookup_ge_None. unfold zeros. rewrite length_replicate. lia.
Qed.

Lemma format_picc_keys_correct c :
  keys_wf c ->
  let c' := format_picc_keys c in
  let d := abs_picc_keys c in
  key_pool c' = d ++ zeros (DFC_KEY_POOL_SIZE - zlen d) /\ key_pool_used c' = zlen d /\
  picc_slice c' = (if zlen d =? 0 then (POOL_NONE, 0) else (0, zlen d)) /\
  zlen d <= DFC_KEY_POOL_SIZE /\
  c' = set_key_pool (key_pool c') (set_key_pool_used (key_pool_used c')
         (set_picc_key_pool_len (picc_key_pool_len c') (set_picc_key_offset (picc_key_offset c') c))).
Proof.
  intros Hwf c' d. pose proof (picc_slice_ok c Hwf) as Hs. pose proof (kw_keys _ Hwf) as Hk.
  pose proof (pool_bound _ _ _ _ Hk) as Hb. pose proof (pool_size _ _ _ _ Hk) as Hz.
  unfold picc_slice in Hs. destruct Hs as [[H0 _]|(Hpos & Ho & Hu)]; cbn [fst snd] in *.
  - assert (Hd : d = []) by (unfold d, abs_picc_keys, slice_contents, picc_slice; cbn; by rewrite H0).
    rewrite Hd. unfold zlen. cbn [length Z.of_nat Z.eqb app]. rewrite Z.sub_0_r.
    pose proof (pool_wipe_all _ _ _ _ Hk) as Hwipe.
    unfold c', format_picc_keys. rewrite H0. change (0 <? 0) with false. rewrite andb_false_r. cbn [andb].
    cbn [key_pool_used set_key_pool_used set_picc_key_pool_len set_picc_key_offset key_pool].
    rewrite Z.sub_0_r. destruct (0 <? key_pool_used c); (split_and!; [exact Hwipe|done|done|dlia|done]).
  - assert (Hd : d = slice (key_pool c) (picc_key_offset c) (picc_key_pool_len c)) by done.
    assert (Hdl : zlen d = picc_key_pool_len c) by (rewrite Hd; apply length_slice; lia).
    pose proof (pool_move_to_head _ _ _ _ _ _ Hk Ho Hpos Hu) as Hmove. cbv zeta in Hmove.
    rewrite Hdl, Hd, (proj2 (Z.eqb_neq (picc_key_pool_len c) 0)) by lia. rewrite <- Hmove.
    unfold c', format_picc_keys.
    rewrite (proj2 (Z.eqb_neq (picc_key_offset c) _)), (proj2 (Z.ltb_lt 0 (picc_key_pool_len c))),
      (proj2 (Z.leb_le (picc_key_offset c) _)), (proj2 (Z.leb_le (picc_key_pool_len c) _)) by dlia.
    cbn [negb andb]. destruct (0 <? picc_key_offset c); cbn -[memmove wipe DFC_KEY_POOL_SIZE];
      destruct (picc_key_pool_len c <? key_pool_used c); (split_and!; [done|done|done|lia|done]).
Qed.

(** A credential with no application, no file, and only the PICC record's keys. *)
Lemma cred_wf_only_picc c d :
  length (apps c) = Z.to_nat DFC_MAX_APPS -> Forall (eq cleared_application) (apps c) ->
  length (files c) = Z.to_nat DFC_MAX_FILES -> num_apps c = 0 -> num_files c = 0 ->
  file_pool c = zeros DFC_FILE_POOL_SIZE -> file_pool_used c = 0 ->
  key_set_metadata_pool c = zeros DFC_KEY_SET_METADATA_POOL_SIZE -> key_set_metadata_pool_used c = 0 ->
  key_pool c = d ++ zeros (DFC_KEY_POOL_SIZE - zlen d) -> key_pool_used c = zlen d ->
  zlen d <= DFC_KEY_POOL_SIZE ->
  picc_slice c = (if zlen d =? 0 then (POOL_NONE, 0) else (0, zlen d)) ->
  cred_wf c /\ abs_picc_keys c = d /\ live_entries c = [] /\ abs_files c = [].
Proof.
  intros Hla Happs Hlf Hna Hnf Hfp Hfu Hmp Hmu Hkp Hku Hd Hps.
  assert (Hks : Forall (eq (POOL_NONE, 0)) (map key_slice (apps c)))
    by (apply Forall_fmap; eapply Forall_impl; [|exact Happs]; intros a <-; done).
  assert (Hms : Forall (eq (POOL_NONE, 0)) (map meta_slice (apps c)))
    by (apply Forall_fmap; eapply Forall_impl; [|exact Happs]; intros a <-; done).
  assert (Hlive : live_files c = []) by (unfold live_files; by rewrite Hnf).
  assert (Habs : Forall (eq blank_entry) (abs_apps c)).
  { unfold abs_apps. apply Forall_fmap. eapply Forall_impl; [|exact Happs]. intros a <-. done. }
  assert (Hf : abs_files c = []) by (unfold abs_files; by rewrite Hlive).
  assert (Hle : live_entries c = []) by (unfold live_entries; by rewrite Hna).
  pose proof (zlen_nonneg d) as Hd0. pose proof meta_pool_size as Hsz.
  assert (Hpk : abs_picc_keys c = d).
  { unfold abs_picc_keys. rewrite Hps, Hkp. unfold zlen. destruct d as [|x d]; [done|].
    rewrite (proj2 (Z.eqb_neq _ 0)) by (cbn; lia). unfold slice_contents, slice. cbn [fst snd].
    rewrite drop_0, Nat2Z.id. by apply take_app_length'. }
  split_and!; try done. constructor; rewrite ?Hf, ?Hle, ?Hna; try constructor; try done; try dlia.
  - rewrite Hlive, Hfp, Hfu. apply pool_empty_ok; [dlia|constructor].
  - unfold key_slices. rewrite Hps, Hkp, Hku. destruct (zlen d =? 0) eqn:E; bool_facts.
    + assert (d = []) as -> by (destruct d; [done|unfold zlen in E; cbn in E; lia]).
      apply pool_empty_ok; [dlia|by constructor].
    + apply pool_first_ok; [lia|dlia|done].
  - rewrite Hmp, Hmu. apply pool_empty_ok; [dlia|done].
Qed.

(** The part of a format that follows the PICC keys, field by field. *)
Lemma format_tail c :
  0 <= key_set_metadata_pool_used (format_picc_keys c) ->
  let k := format_picc_keys c in
  let c' := dfc_credential_format_picc c in
  apps c' = map dfc_credential_reset_application (apps k) /\
  files c' = (if 0 <? num_files k
              then splice (files k) 0 (replicate (Z.to_nat (num_files k)) zero_file) else files k) /\
  num_apps c' = 0 /\ num_files c' = 0 /\
  file_pool c' = (if 0 <? file_pool_used k then wipe (file_pool k) 0 (file_pool_used k) else file_pool k) /\
  file_pool_used c' = 0 /\
  key_set_metadata_pool c' =
    (if 0 <? key_set_metadata_pool_used k
     then wipe (key_set_metadata_pool k) 0 (key_set_metadata_pool_used k) else key_set_metadata_pool k) /\
  key_set_metadata_pool_used c' = 0 /\
  key_pool c' = key_pool k /\ key_pool_used c' = key_pool_used k /\ picc_slice c' = picc_slice k.
Proof.
  cbv zeta. unfold dfc_credential_format_picc. set (k := format_picc_keys c). clearbody k. intros H0.
  destruct (0 <? key_set_metadata_pool_used k) eqn:Em, (0 <? num_files k) eqn:En,
    (0 <? file_pool_used k) eqn:Ef;
    cbn -[map splice wipe]; rewrite ?En, ?Ef; cbn -[map splice wipe]; rewrite ?En, ?Ef; bool_facts;
    (split_and!; (reflexivity || (change (key_set_metadata_pool_used k = 0); lia))).
Qed.

(** Formatting keeps exactly the PICC record's keys. No application and no file
    survives, and no octet of their keys, metadata or contents is left in any of the
    three pools: past the PICC keys, which now head the key pool, everything is zero. *)
Lemma format_picc_correct c :
  cred_wf c ->
  let c' := dfc_credential_format_picc c in
  cred_wf c' /\ abs_picc_keys c' = abs_picc_keys c /\ live_entries c' = [] /\ abs_files c' = [] /\
  key_pool c' = abs_picc_keys c ++ zeros (DFC_KEY_POOL_SIZE - zlen (abs_picc_keys c)) /\
  file_pool c' = zeros DFC_FILE_POOL_SIZE /\
  key_set_metadata_pool c' = zeros DFC_KEY_SET_METADATA_POOL_SIZE /\
  Forall (eq zero_file) (take (Z.to_nat (num_files c)) (files c')).
Proof.
  intros Hwf c'. pose proof (cw_files _ Hwf) as [Hlf Hnf Hfp]. pose proof (cw_keys _ Hwf) as Hk.
  destruct (format_picc_keys_correct c Hk) as (Hkp & Hku & Hps & Hle & Hframe).
  pose proof (pool_wipe_all _ _ _ _ Hfp) as Hfwipe. pose proof (pool_wipe_all _ _ _ _ (kw_meta _ Hk)) as Hmwipe.
  pose proof (pool_bound _ _ _ _ (kw_meta _ Hk)) as Hmb.
  set (k := format_picc_keys c) in *.
  assert (Hk1 : apps k = apps c /\ files k = files c /\ num_files k = num_files c /\
    file_pool k = file_pool c /\ file_pool_used k = file_pool_used c /\
    key_set_metadata_pool k = key_set_metadata_pool c /\
    key_set_metadata_pool_used k = key_set_metadata_pool_used c) by (by rewrite Hframe).
  destruct Hk1 as (E1 & E2 & E3 & E4 & E5 & E6 & E7).
  rewrite <- E4, <- E5 in Hfwipe. rewrite <- E6, <- E7 in Hmwipe. rewrite <- E7 in Hmb.
  destruct (format_tail c) as (T1 & T2 & T3 & T4 & T5 & T6 & T7 & T8 & T9 & T10 & T11); [fold k; lia|].
  fold k c' in T1, T2, T3, T4, T5, T6, T7, T8, T9, T10, T11.
  assert (Hlfiles : length (files c') = length (files c) /\
    Forall (eq zero_file) (take (Z.to_nat (num_files c)) (files c'))).
  { rewrite T2, E2, E3. destruct (0 <? num_files c) eqn:E; bool_facts.
    - split.
      + apply Nat2Z.inj, length_splice; [lia|]. unfold zlen. rewrite length_replicate, Hlf. dlia.
      + unfold splice. change (Z.to_nat 0) with O. rewrite take_0, app_nil_l.
        rewrite take_app_length' by (by rewrite length_replicate). by apply Forall_replicate.
    - split; [done|]. replace (num_files c) with 0 by lia. constructor. }
  destruct Hlfiles as [Hlfiles Hzfiles].
  destruct (cred_wf_only_picc c' (abs_picc_keys c)) as (Hwf' & Hpk & Hle' & Hfs');
    try congruence; [by rewrite T1, length_map, E1, (kw_length _ Hk)| |].
  { rewrite T1. apply Forall_fmap. by apply Forall_true. }
  split_and!; congruence || done.
Qed.
