(* ===== verification/CredentialSpec.v ===== *)
(** The contract of the credential store, and the proof that [dfc_credential.c]
    implements it.

    The specification knows no pool: a credential is the PICC record's keys, a list of
    applications that own their keys and metadata, and a list of files that own their
    octets ([AbsCred]). [spec] says for each operation what the next such state is, or
    that the request is refused; its capacity tests count the octets of that state
    alone. [exec_refines] is the simulation: from any well-formed credential the code
    accepts and refuses exactly what [spec] does, and abstraction commutes with the
    step. [reachable_wf] closes the invariant over every sequence of operations. *)

From S2P Require Import Prelude Common Pool CredentialData Credential FileStore KeyStore CredentialFacts.
Import Rules Frames.

Record AbsCred := mk_abs {
  ab_picc : bytes;
  ab_apps : list AppEntry;
  ab_files : list (DfcFile * bytes);
}.

Definition abs (c : DfcCredential) : AbsCred := mk_abs (abs_picc_keys c) (live_entries c) (abs_files c).

(** ** Operations *)

Inductive cred_op :=
| OpCreateApplication (a : bytes) (key_settings_1 key_settings_2 : Z)
| OpDeleteApplication (k : nat)
| OpResizeKeys (k : nat) (num_keys key_len : nat)
| OpCreateFile (k : nat) (n : Z)
| OpDeleteFile (k : nat) (n : Z)
| OpResizeFile (k : nat) (n : Z) (want : nat)
| OpFormat.

(** The calls of the code, a file being looked up before it is resized. *)
Definition exec (op : cred_op) (c : DfcCredential) : bool * DfcCredential :=
  match op with
  | OpCreateApplication a s1 s2 =>
      let (r, c) := dfc_credential_create_application_desfire_order c a s1 s2 in
      (bool_decide (is_Some r), c)
  | OpDeleteApplication k => dfc_credential_delete_application_at c (Z.of_nat k)
  | OpResizeKeys k num_keys key_len =>
      match dfc_credential_get_application c (Z.of_nat k) with
      | Some i => dfc_credential_keys_resize c (Some i) (Z.of_nat num_keys) (Z.of_nat key_len)
      | None => (false, c)
      end
  | OpCreateFile k n =>
      let (r, c) := dfc_credential_create_file c (Z.of_nat k) n in (bool_decide (is_Some r), c)
  | OpDeleteFile k n => dfc_credential_delete_file c (Z.of_nat k) n
  | OpResizeFile k n want =>
      match dfc_credential_find_file_in_app c (Z.of_nat k) n with
      | Some i => dfc_file_resize c i (Z.of_nat want)
      | None => (false, c)
      end
  | OpFormat => (true, dfc_credential_format_picc c)
  end.

(** ** Specification *)

(** Octets the abstract state holds. *)
Definition sum_len {A} (len : A -> Z) (l : list A) : Z := foldr (fun x n => len x + n) 0 l.

Definition files_total (s : AbsCred) : Z := sum_len (fun e => zlen (snd e)) (ab_files s).

Definition keys_total (s : AbsCred) : Z :=
  zlen (ab_picc s) + sum_len (fun e => zlen (entry_keys e)) (ab_apps s).

(** The identifier of a request, in the order the application stores it. *)
Definition aid_matches (a : bytes) (e : AppEntry) : bool :=
  (a.[0] =? (entry_aid e).[2]) && (a.[1] =? (entry_aid e).[1]) && (a.[2] =? (entry_aid e).[0]).

Definition has_key (k : Z * Z) (e : DfcFile * bytes) : bool := bool_decide (entry_key e = k).

(** Position of the file of an identity. *)
Fixpoint file_position (k : Z * Z) (l : list (DfcFile * bytes)) : option nat :=
  match l with
  | [] => None
  | e :: rest => if has_key k e then Some O else S <$> file_position k rest
  end.

Definition set_ab_apps (l : list AppEntry) (s : AbsCred) : AbsCred := mk_abs (ab_picc s) l (ab_files s).
Definition set_ab_files (l : list (DfcFile * bytes)) (s : AbsCred) : AbsCred :=
  mk_abs (ab_picc s) (ab_apps s) l.

Definition spec_create_application (a : bytes) (s1 s2 : Z) (s : AbsCred) : option AbsCred :=
  let num_keys := Z.land s2 DFC_NUM_KEYS_MASK in
  let width := dfc_credential_stored_key_length (dfc_credential_key_length s2) in
  guard! negb (DFC_MAX_APPS <=? zlen (ab_apps s)) else None;
  guard! negb (existsb (aid_matches a) (ab_apps s)) else None;
  guard! (1 <=? num_keys) && (num_keys <=? DFC_MAX_KEYS) else None;
  guard! keys_total s + num_keys * width <=? DFC_KEY_POOL_SIZE else None;
  Some (set_ab_apps (ab_apps s ++ [created_entry a s1 s2]) s).

Definition spec_delete_application (k : nat) (s : AbsCred) : option AbsCred :=
  guard! Z.of_nat k <? zlen (ab_apps s) else None;
  Some (mk_abs (ab_picc s) (delete k (ab_apps s)) (files_without (Z.of_nat k) (ab_files s))).

(** Same octets for the same footprint, zeros otherwise; one key set either way. *)
Definition spec_resize_keys (k num_keys key_len : nat) (s : AbsCred) : option AbsCred :=
  let nk := Z.of_nat num_keys in
  let kl := Z.of_nat key_len in
  e ← ab_apps s !! k;
  let want := nk * dfc_credential_stored_key_length kl in
  guard! (nk <=? DFC_MAX_KEYS) && (kl <=? DFC_MAX_KEY_LEN) &&
         (keys_total s - zlen (entry_keys e) + want <=? DFC_KEY_POOL_SIZE) else None;
  let keep := (zlen (entry_keys e) =? want) && (0 <? want) in
  let storage := if want =? 0 then 0 else kl in
  let e' := mk_entry (single_set (sized_app nk kl storage (entry_app e)))
              (if keep then entry_keys e else zeros want) [] in
  Some (set_ab_apps (<[k := e']> (ab_apps s)) s).

Definition spec_create_file (k : nat) (n : Z) (s : AbsCred) : option AbsCred :=
  guard! Z.of_nat k <? zlen (ab_apps s) else None;
  guard! zlen (ab_files s) <? DFC_MAX_FILES else None;
  match file_position (Z.of_nat k, n) (ab_files s) with
  | Some _ => None
  | None => Some (set_ab_files (ab_files s ++ [(fresh_file (Z.of_nat k) n, [])]) s)
  end.

Definition spec_delete_file (k : nat) (n : Z) (s : AbsCred) : option AbsCred :=
  j ← file_position (Z.of_nat k, n) (ab_files s);
  Some (set_ab_files (delete j (ab_files s)) s).

Definition spec_resize_file (k : nat) (n : Z) (want : nat) (s : AbsCred) : option AbsCred :=
  let w := Z.of_nat want in
  j ← file_position (Z.of_nat k, n) (ab_files s);
  e ← ab_files s !! j;
  guard! (w <=? DFC_MAX_FILE_DATA) && (files_total s - zlen (snd e) + w <=? DFC_FILE_POOL_SIZE)
    else None;
  let d := if w =? zlen (snd e) then snd e else zeros w in
  Some (set_ab_files (<[j := (fst e, d)]> (ab_files s)) s).

Definition spec (op : cred_op) (s : AbsCred) : option AbsCred :=
  match op with
  | OpCreateApplication a s1 s2 => spec_create_application a s1 s2 s
  | OpDeleteApplication k => spec_delete_application k s
  | OpResizeKeys k num_keys key_len => spec_resize_keys k num_keys key_len s
  | OpCreateFile k n => spec_create_file k n s
  | OpDeleteFile k n => spec_delete_file k n s
  | OpResizeFile k n want => spec_resize_file k n want s
  | OpFormat => Some (mk_abs (ab_picc s) [] [])
  end.

(** ** Capacity seen from the abstract state *)

Lemma sum_len_app {A} (len : A -> Z) l k : sum_len len (l ++ k) = sum_len len l + sum_len len k.
Proof. unfold sum_len. induction l as [|x l IH]; [done|]. cbn. rewrite IH. lia. Qed.

Lemma slice_contents_length size pool used slices s :
  pool_ok size pool used slices -> slice_ok used s -> zlen (slice_contents pool s) = snd s.
Proof.
  intros Hp [[H0 _]|(Hpos & Ho & Hu)].
  - unfold slice_contents. rewrite H0. done.
  - pose proof (pool_size _ _ _ _ Hp). pose proof (pool_bound _ _ _ _ Hp).
    apply length_slice; lia.
Qed.

(** The octets read through the slices add up to the slices. *)
Lemma sum_len_slices {A B} (view : A -> B) (len : B -> Z) (slice_of : A -> pool_slice) pool used size slices l :
  pool_ok size pool used slices -> Forall (slice_ok used) (map slice_of l) ->
  (forall x, len (view x) = zlen (slice_contents pool (slice_of x))) ->
  sum_len len (map view l) = total_length (map slice_of l).
Proof.
  intros Hp Hs Hl. induction l as [|x l IH]; [done|]. cbn [map] in *.
  apply List.Forall_cons_iff in Hs as [Hx Hs]. unfold sum_len in *. cbn [foldr total_length].
  rewrite Hl, IH, (slice_contents_length _ _ _ _ _ Hp Hx) by done. done.
Qed.

Lemma files_total_used c : files_wf c -> files_total (abs c) = file_pool_used c.
Proof.
  intros [_ _ Hp]. rewrite <- (pool_total _ _ _ _ Hp). unfold files_total, abs. cbn [ab_files].
  unfold abs_files. eapply sum_len_slices; [exact Hp|apply Hp|done].
Qed.

Lemma sum_len_blank l : Forall (eq blank_entry) l -> sum_len (fun e => zlen (entry_keys e)) l = 0.
Proof. unfold sum_len. induction 1 as [|e l <- _ IH]; [done|]. cbn. by rewrite IH. Qed.

Lemma keys_total_used c : cred_wf c -> keys_total (abs c) = key_pool_used c.
Proof.
  intros Hwf. pose proof (kw_keys _ (cw_keys _ Hwf)) as Hp. rewrite <- (pool_total _ _ _ _ Hp).
  unfold keys_total, abs. cbn [ab_picc ab_apps].
  assert (Hall : sum_len (fun e => zlen (entry_keys e)) (abs_apps c) = total_length (map key_slice (apps c))).
  { eapply (sum_len_slices _ _ key_slice); [exact Hp| |done].
    pose proof (pool_slices _ _ _ _ Hp) as Hs. by apply List.Forall_cons_iff in Hs as [_ Hs]. }
  rewrite <- (take_drop (Z.to_nat (num_apps c)) (abs_apps c)), sum_len_app in Hall.
  rewrite (sum_len_blank (drop _ _)) in Hall by apply Hwf.
  unfold live_entries, abs_picc_keys.
  rewrite (slice_contents_length _ _ _ _ _ Hp (picc_slice_ok c (cw_keys _ Hwf))).
  cbn [key_slices total_length]. lia.
Qed.

Lemma zlen_live_entries c : cred_wf c -> zlen (live_entries c) = num_apps c.
Proof.
  intros Hwf. pose proof (length_abs_apps _ (cw_keys _ Hwf)) as Hl. pose proof (cw_count _ Hwf).
  unfold zlen, live_entries. rewrite length_take. dlia.
Qed.

Lemma zlen_abs_files c : cred_wf c -> zlen (abs_files c) = num_files c.
Proof.
  intros Hwf. rewrite <- (length_live_files c (cw_files _ Hwf)). unfold zlen, abs_files.
  by rewrite length_map.
Qed.

(** ** Lookups seen from the abstract state *)

Lemma find_from_none {A} (p : A -> bool) l i : find_from p l i = None <-> existsb p l = false.
Proof.
  revert i. induction l as [|x l IH]; intros i; cbn; [done|]. destruct (p x); [done|]. apply IH.
Qed.

Lemma existsb_map {A B} (f : A -> B) (p : B -> bool) l : existsb p (map f l) = existsb (fun x => p (f x)) l.
Proof. induction l as [|x l IH]; cbn; [done|]. by rewrite IH. Qed.

Lemma find_application_abs c a :
  bool_decide (is_Some (dfc_credential_find_application_desfire_order c a)) =
  existsb (aid_matches a) (live_entries c).
Proof.
  unfold live_entries, abs_apps. rewrite <- fmap_take. change (app_view c <$> ?l) with (map (app_view c) l).
  rewrite existsb_map. unfold dfc_credential_find_application_desfire_order, find_index.
  set (p := fun app => _). change (fun x => aid_matches a (app_view c x)) with p.
  destruct (existsb p (take (Z.to_nat (num_apps c)) (apps c))) eqn:E.
  - apply bool_decide_eq_true. destruct (find_from p _ 0) eqn:F; [by eexists|].
    apply find_from_none in F. congruence.
  - apply find_from_none with (i := 0) in E. by rewrite E.
Qed.

Lemma find_from_position app_index n c l i :
  find_from (owns app_index n) l i =
  (fun j => i + Z.of_nat j) <$> file_position (app_index, n) (map (file_view c) l).
Proof.
  revert i. induction l as [|f l IH]; intros i; [done|]. cbn [find_from map file_position].
  unfold has_key at 1. change (entry_key (file_view c f)) with (file_key f).
  destruct (owns app_index n f) eqn:E.
  - rewrite bool_decide_eq_true_2 by (by apply owns_iff). cbn. f_equal. lia.
  - rewrite bool_decide_eq_false_2 by (intros H; apply owns_iff in H; congruence).
    rewrite IH. destruct (file_position _ _); cbn; [|done]. f_equal. lia.
Qed.

Lemma find_file_abs c app_index n :
  dfc_credential_find_file_in_app c app_index n =
  Z.of_nat <$> file_position (app_index, n) (abs_files c).
Proof.
  change (dfc_credential_find_file_in_app c app_index n) with
    (find_from (owns app_index n) (live_files c) 0).
  rewrite (find_from_position app_index n c). done.
Qed.

Lemma file_position_lookup k l j :
  file_position k l = Some j -> exists e, l !! j = Some e /\ entry_key e = k.
Proof.
  revert j. induction l as [|e l IH]; intros j; cbn; [done|]. unfold has_key.
  destruct (bool_decide (entry_key e = k)) eqn:E.
  - intros [= <-]. exists e. split; [done|]. by apply bool_decide_eq_true in E.
  - destruct (file_position k l) as [j'|]; [|done]. intros [= <-]. by apply IH.
Qed.

Lemma file_position_none k l : file_position k l = None -> Forall (fun e => entry_key e <> k) l.
Proof.
  induction l as [|e l IH]; cbn; [constructor|]. unfold has_key.
  destruct (bool_decide (entry_key e = k)) eqn:E; [done|]. apply bool_decide_eq_false in E.
  destruct (file_position k l); [done|]. constructor; auto.
Qed.

(** ** The simulation *)

(** One step of the code against one step of the specification. *)
Definition refines (op : cred_op) (c : DfcCredential) : Prop :=
  let '(ok, c') := exec op c in
  cred_wf c' /\ if ok then spec op (abs c) = Some (abs c') else spec op (abs c) = None /\ abs c' = abs c.

Lemma spec_create_application_refused c a s1 s2 :
  cred_wf c ->
  (create_refused c a s2 -> spec_create_application a s1 s2 (abs c) = None) /\
  (~ create_refused c a s2 -> spec_create_application a s1 s2 (abs c) =
     Some (set_ab_apps (live_entries c ++ [created_entry a s1 s2]) (abs c))).
Proof.
  intros Hwf. unfold spec_create_application, create_refused.
  rewrite (zlen_live_entries c Hwf : zlen (ab_apps (abs c)) = _), (keys_total_used c Hwf).
  cbn [abs ab_apps]. rewrite <- find_application_abs.
  assert (Hnk : 0 <= Z.land s2 DFC_NUM_KEYS_MASK) by (apply Z.land_nonneg; dlia).
  destruct (DFC_MAX_APPS <=? num_apps c) eqn:E1; cbn [negb]; bool_facts; [split; [done|tauto]|].
  destruct (bool_decide _) eqn:E2; cbn [negb]; bool_facts; [split; [done|tauto]|].
  destruct (_ && _) eqn:E3.
  - bool_facts. destruct (_ <=? DFC_KEY_POOL_SIZE) eqn:E4; bool_facts.
    + split; [|done]. intros [?|[?|[?|[?|?]]]]; (lia || tauto).
    + split; [done|]. intros []. do 4 right. lia.
  - split; [done|]. intros []. apply andb_false_iff in E3 as [E3|E3]; bool_facts; do 2 right; lia.
Qed.

Lemma refines_create_application c a s1 s2 : cred_wf c -> refines (OpCreateApplication a s1 s2) c.
Proof.
  intros Hwf. unfold refines, exec, spec. pose proof (create_application_correct c a s1 s2 Hwf) as H.
  destruct (spec_create_application_refused c a s1 s2 Hwf) as [Hno Hyes].
  destruct (dfc_credential_create_application_desfire_order _ _ _ _) as [[i|] c']; cbn.
  - destruct H as (Hwf' & Hr & -> & Hn & Hlive & Hfs & Hp & _). split; [done|]. rewrite (Hyes Hr).
    unfold set_ab_apps, abs. cbn. by rewrite Hlive, Hfs, Hp.
  - destruct H as (Hwf' & Hr & Hp & Hlive & Hfs & _). split; [done|]. rewrite (Hno Hr).
    unfold abs. by rewrite Hlive, Hfs, Hp.
Qed.

Lemma refines_delete_application c k : cred_wf c -> refines (OpDeleteApplication k) c.
Proof.
  intros Hwf. unfold refines, exec, spec, spec_delete_application.
  pose proof (delete_application_correct c (Z.of_nat k) Hwf ltac:(lia)) as H.
  rewrite (zlen_live_entries c Hwf : zlen (ab_apps (abs c)) = _).
  destruct (dfc_credential_delete_application_at _ _) as [ok c']. destruct H as (-> & Hno & Hyes).
  destruct (Z.of_nat k <? num_apps c).
  - destruct (Hyes eq_refl) as (Hwf' & _ & Hlive & Hfs & Hp). split; [done|].
    unfold abs. cbn. by rewrite Hlive, Hfs, Hp, Nat2Z.id.
  - by rewrite (Hno eq_refl).
Qed.

Lemma refines_format c : cred_wf c -> refines OpFormat c.
Proof.
  intros Hwf. unfold refines, exec, spec. destruct (format_picc_correct c Hwf) as (? & Hp & Hl & Hf & _).
  split; [done|]. unfold abs. cbn. by rewrite Hp, Hl, Hf.
Qed.

(** Steps on files leave the applications and the PICC keys alone. *)
Lemma abs_files_only c c' l :
  live_entries c' = live_entries c -> abs_picc_keys c' = abs_picc_keys c -> abs_files c' = l ->
  abs c' = set_ab_files l (abs c).
Proof. intros Hl Hp <-. unfold abs, set_ab_files. cbn. by rewrite Hl, Hp. Qed.

Lemma refines_create_file c k n : cred_wf c -> refines (OpCreateFile k n) c.
Proof.
  intros Hwf. unfold refines, exec, spec, spec_create_file.
  pose proof (create_file_correct c (Z.of_nat k) n) as H.
  rewrite (zlen_live_entries c Hwf : zlen (ab_apps (abs c)) = _).
  rewrite (zlen_abs_files c Hwf : zlen (ab_files (abs c)) = _). cbn [abs ab_files].
  unfold dfc_credential_create_file in *. rewrite !find_file_abs in *.
  rewrite Z.ltb_antisym. destruct (num_apps c <=? Z.of_nat k) eqn:E1; [done|].
  rewrite Z.ltb_antisym. destruct (DFC_MAX_FILES <=? num_files c) eqn:E2; [done|]. cbn [negb] in *.
  destruct (file_position _ _) as [j|] eqn:E3; [done|]. cbn [fmap option_fmap option_map] in *.
  bool_facts. destruct (H _ _ (cw_files _ Hwf) eq_refl) as (_ & _ & _ & Hfw & Hfs & _ & Hfr).
  destruct (cred_wf_files c _ Hwf Hfw Hfr) as (Hwf' & Hl & Hp).
  - rewrite Hfs. apply Forall_app. split; [apply Hwf|]. constructor; [|done]. right.
    cbn. pose proof (cw_count _ Hwf). rewrite u8_id by dlia. lia.
  - rewrite Hfs, map_app. apply list_relations.list.NoDup_app.
    split_and!; [apply Hwf| |apply NoDup_singleton]. intros x Hx Hx'.
    apply list_elem_of_singleton in Hx'. apply list_elem_of_fmap in Hx as (e & -> & He).
    apply list_elem_of_lookup in He as [j He].
    apply (Forall_lookup_1 _ _ _ _ (file_position_none _ _ E3) He). rewrite Hx'.
    unfold entry_key, file_key. cbn. pose proof (cw_count _ Hwf). rewrite u8_id by dlia. done.
  - split; [done|]. cbn [bool_decide is_Some]. f_equal. symmetry. by apply abs_files_only.
Qed.

(** A found file is a live one. *)
Lemma file_position_live c k n j :
  file_position (k, n) (abs_files c) = Some j ->
  exists f, live_files c !! j = Some f /\ abs_files c !! j = Some (file_view c f) /\ file_key f = (k, n).
Proof.
  intros H. destruct (file_position_lookup _ _ _ H) as (e & He & Hk). unfold abs_files in *.
  rewrite list_lookup_fmap in *. destruct (live_files c !! j) as [f|]; [|done]. injection He as <-.
  by exists f.
Qed.

Lemma refines_delete_file c k n : cred_wf c -> refines (OpDeleteFile k n) c.
Proof.
  intros Hwf. unfold refines, exec, spec, spec_delete_file, dfc_credential_delete_file.
  rewrite find_file_abs. cbn [abs ab_files].
  destruct (file_position _ _) as [j|] eqn:E; cbn [fmap option_fmap option_map mbind option_bind]; [|done].
  destruct (file_position_live _ _ _ _ E) as (f & Hf & _ & _).
  destruct (drop_file_correct c j f (cw_files _ Hwf) Hf) as (Hfw & Hfs & _ & Hfr).
  destruct (cred_wf_files c _ Hwf Hfw Hfr) as (Hwf' & Hl & Hp).
  - rewrite Hfs. apply Forall_delete, Hwf.
  - rewrite Hfs. eapply sublist_NoDup; [apply (cw_file_keys _ Hwf)|]. apply fmap_sublist, sublist_delete.
  - split; [done|]. f_equal. symmetry. by apply abs_files_only.
Qed.

Lemma refines_resize_file c k n want : cred_wf c -> refines (OpResizeFile k n want) c.
Proof.
  intros Hwf. unfold refines, exec, spec, spec_resize_file. rewrite find_file_abs.
  rewrite (files_total_used c (cw_files _ Hwf)). cbn [abs ab_files].
  destruct (file_position _ _) as [j|] eqn:E; cbn [fmap option_fmap option_map mbind option_bind]; [|done].
  destruct (file_position_live _ _ _ _ E) as (f & Hf & Ha & _). rewrite Ha. cbn [mbind option_bind].
  assert (Hlen : zlen (snd (file_view c f)) = data_len f).
  { apply (slice_contents_length _ _ _ _ (file_slice f) (fw_pool _ (cw_files _ Hwf))).
    exact (file_slice_ok _ _ _ (cw_files _ Hwf) Hf). }
  rewrite Hlen. pose proof (dfc_file_resize_correct c j f (Z.of_nat want) (cw_files _ Hwf) Hf ltac:(lia)) as H.
  destruct (dfc_file_resize _ _ _) as [ok c']. destruct H as (-> & Hno & Hyes). unfold resize_fits in *.
  destruct (_ && _); [|by rewrite (Hno eq_refl)]. destruct (Hyes eq_refl) as [Hst _].
  destruct (cred_wf_file_step c c' j f _ _ Hwf Hf Hst eq_refl) as (Hwf' & Hl & Hp).
  split; [done|]. f_equal. symmetry. apply abs_files_only; [done|done|]. exact (fs_abs _ _ _ _ Hst).
Qed.

(** A step on a live application that keeps its identifier. *)
Lemma cred_wf_app_step c c' k e e' :
  cred_wf c -> live_entries c !! k = Some e -> app_step c c' k e' -> entry_aid e' = entry_aid e ->
  cred_wf c' /\ abs c' = set_ab_apps (<[k := e']> (live_entries c)) (abs c).
Proof.
  intros Hwf Hk [Hw' Ha' Hp' _ Hf'] Haid. pose proof (lookup_lt_Some _ _ _ Hk) as Hlt.
  unfold live_entries in Hlt. rewrite length_take in Hlt.
  destruct (sans_keys_files c c' Hf' (cw_files _ Hwf)) as (Hfw & Hfs & Hn & _).
  assert (Hl : live_entries c' = <[k := e']> (live_entries c)).
  { unfold live_entries. rewrite Hn, Ha'. apply take_insert_lt. lia. }
  split; [|unfold abs, set_ab_apps; cbn; by rewrite Hl, Hfs, Hp'].
  constructor; rewrite ?Hn, ?Hfs, ?Hl; try apply Hwf; try done.
  - rewrite Ha', drop_insert_lt by lia. apply Hwf.
  - rewrite list_fmap_insert, Haid, list_insert_id; [apply Hwf|]. by rewrite list_lookup_fmap, Hk.
Qed.

Lemma refines_resize_keys c k nk kl : cred_wf c -> refines (OpResizeKeys k nk kl) c.
Proof.
  intros Hwf. unfold refines, exec, spec, spec_resize_keys, dfc_credential_get_application.
  rewrite (keys_total_used c Hwf). cbn [abs ab_apps]. pose proof (zlen_live_entries c Hwf) as Hn.
  destruct (num_apps c <=? Z.of_nat k) eqn:E; bool_facts.
  { rewrite (proj2 (lookup_ge_None _ _)); [done|]. unfold zlen in Hn. lia. }
  destruct (lookup_lt_is_Some_2 (live_entries c) k) as [e He]; [unfold zlen in Hn; lia|].
  rewrite He. cbn [mbind option_bind]. pose proof He as Hae. unfold live_entries in Hae.
  apply lookup_take_Some in Hae as [Hae _]. unfold abs_apps in Hae. rewrite list_lookup_fmap in Hae.
  destruct (apps c !! k) as [a|] eqn:Ha; [|done]. injection Hae as <-.
  assert (Hlen : zlen (entry_keys (app_view c a)) = app_key_pool_len a).
  { apply (slice_contents_length _ _ _ _ (key_slice a) (kw_keys _ (cw_keys _ Hwf))).
    exact (key_slice_ok _ _ _ (cw_keys _ Hwf) Ha). }
  rewrite Hlen. pose proof (keys_resize_app c k a (Z.of_nat nk) (Z.of_nat kl) (cw_keys _ Hwf) Ha
    ltac:(lia) ltac:(lia)) as H.
  destruct (dfc_credential_keys_resize _ _ _ _) as [ok c']. destruct H as (-> & Hno & Hyes).
  unfold total_fits in *. rewrite (proj2 (Z.leb_le (Z.of_nat nk) (Z.of_nat nk))), andb_true_r in * by lia.
  rewrite <- (andb_assoc (Z.of_nat nk <=? _)), andb_diag in *.
  destruct (_ && _); [|by rewrite (Hno eq_refl)]. specialize (Hyes eq_refl).
  destruct (cred_wf_app_step c c' k _ _ Hwf He Hyes) as [Hwf' Habs].
  { unfold resized_single, resized_app. by destruct (_ && _). }
  split; [done|]. rewrite Habs. f_equal. f_equal. f_equal. unfold resized_single, resized_app.
  destruct (_ && _) eqn:Ekeep; [|done]. bool_facts.
  by rewrite (proj2 (Z.eqb_neq (_ * _) 0)) by lia.
Qed.

(** C9: the credential store refines its specification. From every well-formed
    credential, creating or deleting an application, resizing its keys, creating,
    deleting or resizing a file and formatting the card succeed exactly when the
    specification of independently owned octets allows it, lead to the state it
    prescribes, leave the abstract state unchanged when refused, and keep the
    credential well formed. *)
Theorem exec_refines op c :
  cred_wf c ->
  let '(ok, c') := exec op c in
  cred_wf c' /\
  if ok then spec op (abs c) = Some (abs c') else spec op (abs c) = None /\ abs c' = abs c.
Proof.
  intros Hwf. change (refines op c). destruct op;
    auto using refines_create_application, refines_delete_application, refines_resize_keys,
      refines_create_file, refines_delete_file, refines_resize_file, refines_format.
Qed.

(** ** Initial credentials *)

(** A cleared credential, whatever it held before. *)
Lemma clear_correct c :
  let '(ok, c') := dfc_credential_clear c in
  ok = true /\ cred_wf c' /\ abs c' = mk_abs (zeros 16) [] [] /\
  picc_num_keys c' = 1 /\ picc_key_len c' = 8 /\ num_apps c' = 0 /\
  uid c' = zeros DFC_DESFIRE_UID_MAX_LENGTH.
Proof.
  unfold dfc_credential_clear. set (c0 := set_picc_key_offset _ _).
  destruct (cred_wf_only_picc c0 []) as (Hwf & Hp & Hl & Hf);
    [reflexivity|by apply Forall_replicate|reflexivity..|unfold zlen; cbn; dlia|reflexivity|].
  destruct (keys_resize_picc_fresh c0 1 8 (cw_keys _ Hwf)) as (c1 & Hr & Hst); [done|done|done|done|].
  rewrite Hr. destruct Hst as [Hw1 Hk1 [Hn1 Hl1] Ha1 Hf1].
  destruct (sans_keys_files c0 c1 Hf1 (cw_files _ Hwf)) as (Hfw & Hfs & Hna & _).
  assert (Hle : live_entries c1 = live_entries c0) by (unfold live_entries; by rewrite Hna, Ha1).
  split_and!; [done| |unfold abs; by rewrite Hle, Hl, Hfs, Hf, Hk1|done|done|done|].
  - constructor; rewrite ?Hna, ?Ha1, ?Hfs, ?Hle; try apply Hwf; done.
  - exact (f_equal uid Hf1).
Qed.

(** Changing the UID touches neither store. *)
Lemma cred_wf_uid c l u : cred_wf c -> cred_wf (set_uid u (set_uid_len l c)).
Proof.
  intros [[Hf1 Hf2 Hf3] [Hk1 Hk2 Hk3] Hn Hu Ho Hd Ha].
  constructor; [by constructor|by constructor|exact Hn|exact Hu|exact Ho|exact Hd|exact Ha].
Qed.

Lemma init_factory_correct c r :
  length r = 7%nat ->
  let '(ok, c') := dfc_credential_init_factory c (Some r) in
  ok = true /\ cred_wf c' /\ abs c' = mk_abs (zeros 16) [] [] /\ num_apps c' = 0 /\
  uid_len c' = 7 /\ uid c' = DFC_DESFIRE_UID_FIRST_BYTE :: tail r ++ zeros 3.
Proof.
  intros Hr. unfold dfc_credential_init_factory. pose proof (clear_correct c) as H.
  destruct (dfc_credential_clear c) as [ok c1]. destruct H as (_ & Hwf & Habs & _ & _ & Hn & Hu).
  split_and!; try done.
  - by apply cred_wf_uid.
  - cbn. rewrite Hu. destruct r as [|r0 r]; [done|]. unfold splice. cbn -[drop zeros].
    injection Hr as Hr. do 6 (destruct r as [|? r]; [done|]). by destruct r.
Qed.

(** The application and the file of a blank credential. *)
Definition blank_application : AppEntry := created_entry [0x01; 0x00; 0x00] 0x0F 0x01.

Definition blank_file : DfcFile :=
  sized_file (set_access_rights 0 (set_comm_settings DFC_COMM_PLAIN (set_file_type 0 (fresh_file 0 0))))
    DFC_BLANK_FILE_SIZE.

Lemma blank_application_created c :
  cred_wf c -> abs c = mk_abs (zeros 16) [] [] -> num_apps c = 0 ->
  exists c', dfc_credential_create_application_desfire_order c [0x01; 0x00; 0x00] 0x0F 0x01 = (Some 0, c') /\
    cred_wf c' /\ abs c' = mk_abs (zeros 16) [blank_application] [] /\ num_apps c' = 1 /\
    uid c' = uid c /\ uid_len c' = uid_len c.
Proof.
  intros Hwf Habs Hn. pose proof (create_application_correct c [0x01; 0x00; 0x00] 0x0F 0x01 Hwf) as H.
  destruct (dfc_credential_create_application_desfire_order _ _ _ _) as [[i|] c'].
  - destruct H as (Hwf' & _ & -> & Hn' & Hlive & Hfs & Hp & Hu & Hul). exists c'. injection Habs as Hp0 Hl0 Hf0.
    rewrite Hn in *. split_and!; [done|done| |done..]. unfold abs. rewrite Hlive, Hfs, Hp, Hp0, Hl0, Hf0. done.
  - destruct H as (_ & Hr & _). exfalso. unfold create_refused in Hr. rewrite Hn in Hr.
    rewrite <- (keys_total_used c Hwf), Habs in Hr.
    assert (Hfind : ~ is_Some (dfc_credential_find_application_desfire_order c [0x01; 0x00; 0x00])).
    { intros Hs. apply (bool_decide_eq_true_2 _) in Hs. rewrite find_application_abs in Hs.
      injection Habs as _ Hl0 _. by rewrite Hl0 in Hs. }
    destruct Hr as [Hr|[Hr|[Hr|[Hr|Hr]]]]; try done.
Qed.

(** The only file of a credential. *)
Lemma abs_singleton_file c f0 d :
  files_wf c -> abs_files c = [(f0, d)] ->
  exists f, live_files c !! O = Some f /\ sans_slice f = f0 /\ zlen d = data_len f /\
            slice_contents (file_pool c) (file_slice f) = d.
Proof.
  intros Hwf Ha. destruct (live_files c) as [|f l] eqn:Hl; unfold abs_files in Ha; rewrite Hl in Ha; [done|].
  injection Ha as Hs Hd Hrest. exists f. split_and!; [done|done| |done].
  rewrite <- Hd. apply (slice_contents_length _ _ _ _ (file_slice f) (fw_pool _ Hwf)).
  apply (file_slice_ok c O); [done|by rewrite Hl].
Qed.

(** The file of a blank credential, once its application exists. *)
Lemma blank_file_created c :
  cred_wf c -> abs c = mk_abs (zeros 16) [blank_application] [] -> num_apps c = 1 ->
  exists c1, dfc_credential_create_file c 0 0 = (Some 0, c1) /\
    let c2 := update_file (fun f => detach_file (set_access_rights 0 (set_comm_settings DFC_COMM_PLAIN
                (set_file_type 0 (set_number 0 f))))) 0 c1 in
    exists c3, dfc_file_set_data_size c2 0 DFC_BLANK_FILE_SIZE = (true, c3) /\ cred_wf c3 /\
      abs c3 = mk_abs (zeros 16) [blank_application] [(blank_file, zeros DFC_BLANK_FILE_SIZE)] /\
      uid c3 = uid c /\ uid_len c3 = uid_len c.
Proof.
  intros Hwf Habs Hn. pose proof (refines_create_file c 0 0 Hwf) as H. unfold refines, exec in H.
  pose proof (create_file_correct c 0 0) as Hcr. change (Z.of_nat 0) with 0 in H.
  destruct (dfc_credential_create_file c 0 0) as [[i|] c1]; cbn in H; rewrite Habs in H.
  2: { destruct H as (_ & H & _). vm_compute in H. done. }
  destruct H as [Hwf1 Hsp]. destruct (Hcr i c1 (cw_files _ Hwf) eq_refl) as (-> & _ & _ & _ & Hfs1 & _ & Hfr1).
  assert (Hn0 : num_files c = 0) by (rewrite <- (zlen_abs_files c Hwf), (f_equal ab_files Habs : abs_files c = _); done).
  rewrite Hn0 in *. exists c1. split; [done|]. cbv zeta. set (g := fun f => detach_file _).
  destruct (abs_singleton_file c1 (fresh_file 0 0) []) as (f & Hf & Hsans & Hlen & Hcont);
    [apply Hwf1|rewrite Hfs1, (f_equal ab_files Habs : abs_files c = _); done|].
  assert (Hupd : file_step c1 (update_file g 0 c1) O (sans_slice (g f), [])).
  { change (update_file g 0 c1) with (update_file g (Z.of_nat O) c1).
    rewrite (update_file_const _ _ _ _ Hf), <- Hcont.
    change (0 = data_len f) in Hlen.
    apply file_update_correct; [apply Hwf1|exact Hf|exact Hlen|by left|lia]. }
  set (c2 := update_file g 0 c1) in *.
  assert (Hf2 : live_files c2 !! O = Some (g f)).
  { unfold c2. rewrite live_files_update. change (Z.to_nat 0) with O. by rewrite list_lookup_alter_eq, Hf. }
  destruct (cred_wf_file_step c1 c2 O f _ _ Hwf1 Hf Hupd) as (Hwf2 & Hl2 & Hp2).
  { pose proof (f_equal file_key Hsans) as Hk. change (file_key f = (0, 0)) in Hk. rewrite Hk.
    change (file_key (sans_slice (g f))) with (file_app_index f, 0). by injection Hk as ->. }
  assert (Hu2 : file_pool_used c2 = 0).
  { rewrite <- (files_total_used _ (cw_files _ Hwf2)). unfold files_total, abs. cbn [ab_files].
    by rewrite (fs_abs _ _ _ _ Hupd), Hfs1, (f_equal ab_files Habs : abs_files c = _). }
  pose proof (set_data_size_correct c2 O (g f) DFC_BLANK_FILE_SIZE (cw_files _ Hwf2) Hf2 ltac:(done)) as Hsz.
  change (Z.of_nat 0) with 0 in Hsz.
  destruct (dfc_file_set_data_size c2 0 DFC_BLANK_FILE_SIZE) as [ok c3]. destruct Hsz as (Hok & _ & Hst).
  unfold resize_fits in Hok. rewrite Hu2 in Hok. change (data_len (g f)) with 0 in Hok.
  vm_compute in Hok. subst ok. specialize (Hst eq_refl). exists c3. split; [done|].
  destruct (cred_wf_file_step c2 c3 O (g f) _ _ Hwf2 Hf2 Hst eq_refl) as (Hwf3 & Hl3 & Hp3).
  assert (Hfr : sans_files c3 = sans_files c)
    by (rewrite (fs_frame _ _ _ _ Hst), (fs_frame _ _ _ _ Hupd); exact Hfr1).
  split_and!; [done| |exact (f_equal uid Hfr)|exact (f_equal uid_len Hfr)].
  unfold abs. rewrite Hl3, Hl2, Hp3, Hp2, (fs_abs _ _ _ _ Hst), (fs_abs _ _ _ _ Hupd), Hfs1.
  apply (inj Some) in Hsp. rewrite <- (f_equal ab_apps Hsp : _ = live_entries c1),
    <- (f_equal ab_picc Hsp : _ = abs_picc_keys c1), (f_equal ab_files Habs : abs_files c = _).
  change (sans_slice (g f)) with (set_access_rights 0 (set_comm_settings DFC_COMM_PLAIN
    (set_file_type 0 (set_number 0 (sans_slice f))))). rewrite Hsans. reflexivity.
Qed.

(** C12: with seven random octets a blank credential is built from whatever the
    memory held: one DES application with one zero key, one free standard file of 256
    zero octets, one zero PICC key, and a UID a DESFire reader detects. Without random
    octets the credential is left as it was. *)
Theorem init_blank_correct c random :
  (forall r, random = Some r -> length r = 7%nat) ->
  let '(ok, c') := dfc_credential_init_blank c random in
  ok = bool_decide (is_Some random) /\
  (ok = false -> c' = c) /\
  (ok = true -> cred_wf c' /\ dfc_credential_uid_is_detectable c' = true /\
     abs c' = mk_abs (zeros 16) [blank_application] [(blank_file, zeros DFC_BLANK_FILE_SIZE)]).
Proof.
  intros Hr. unfold dfc_credential_init_blank. destruct random as [r|]; [|done].
  pose proof (init_factory_correct c r (Hr r eq_refl)) as H.
  destruct (dfc_credential_init_factory c (Some r)) as [ok c1].
  destruct H as (-> & Hwf1 & Habs1 & Hn1 & Hul & Hu).
  destruct (blank_application_created c1 Hwf1 Habs1 Hn1) as (c2 & Hc2 & Hwf2 & Habs2 & Hn2 & Hu2 & Hul2).
  destruct (blank_file_created c2 Hwf2 Habs2 Hn2) as (c3 & Hc3 & c4 & Hc4 & Hwf4 & Habs4 & Hu4 & Hul4).
  change (Z.lor DFC_KEY_TYPE_DES_2K3DES 1) with 1. rewrite Hc2. cbn [bool_decide is_Some_dec decide_rel].
  rewrite Hc3, Hc4. split_and!; [done..|]. intros _. split_and!; [done| |done].
  unfold dfc_credential_uid_is_detectable, dfc_desfire_uid_is_detectable.
  rewrite Hu4, Hul4, Hu2, Hul2, Hu, Hul. done.
Qed.

(** ** Reachable credentials *)

Inductive reachable : DfcCredential -> Prop :=
| reachable_clear c : reachable (snd (dfc_credential_clear c))
| reachable_factory c r : length r = 7%nat -> reachable (snd (dfc_credential_init_factory c (Some r)))
| reachable_step op c : reachable c -> reachable (snd (exec op c)).

Lemma reachable_cred_wf c : reachable c -> cred_wf c.
Proof.
  induction 1 as [c|c r Hr|op c _ IH].
  - pose proof (clear_correct c) as H. destruct (dfc_credential_clear c). tauto.
  - pose proof (init_factory_correct c r Hr) as H. destruct (dfc_credential_init_factory _ _). tauto.
  - assert (H : refines op c) by (destruct op; auto using refines_create_application,
      refines_delete_application, refines_resize_keys, refines_create_file, refines_delete_file,
      refines_resize_file, refines_format).
    unfold refines in H. destruct (exec op c). tauto.
Qed.

(** C10: no sequence of operations makes two records share memory. In every credential
    reachable from a cleared or a factory one, the invariant holds, a file with octets
    is read inside the pool, and the octets of two files, of two applications, or of
    an application and the PICC record never overlap. *)
Theorem reachable_no_aliasing c :
  reachable c ->
  cred_wf c /\
  (forall i f, live_files c !! i = Some f -> 0 < data_len f ->
     dfc_file_data c (Z.of_nat i) = Some (data_offset f) /\
     0 <= data_offset f /\ data_offset f + data_len f <= DFC_FILE_POOL_SIZE) /\
  (forall i j f g, i <> j -> live_files c !! i = Some f -> live_files c !! j = Some g ->
     0 < data_len f -> 0 < data_len g ->
     data_offset f + data_len f <= data_offset g \/ data_offset g + data_len g <= data_offset f) /\
  slices_disjoint (key_slices c) /\ slices_disjoint (map meta_slice (apps c)).
Proof.
  intros Hr. apply reachable_cred_wf in Hr as Hwf. pose proof (cw_files _ Hwf) as Hf.
  split_and!; [done| | |apply (pool_disjoint _ _ _ _ (kw_keys _ (cw_keys _ Hwf)))|
               apply (pool_disjoint _ _ _ _ (kw_meta _ (cw_keys _ Hwf)))].
  - intros i f Hi Hl. pose proof (file_held c i f Hf Hi Hl) as (H0 & H1 & H2).
    unfold dfc_file_data, dfc_file_data_const. rewrite (file_at_live _ _ _ Hi).
    rewrite (proj2 (Z.eqb_neq (data_offset f) _)), (proj2 (Z.eqb_neq (data_len f) 0)),
      (proj2 (Z.ltb_ge _ _)) by dlia. split_and!; [done|done|lia].
  - intros i j f g Hij Hi Hj. apply (pool_disjoint _ _ _ _ (fw_pool _ Hf) i j (file_slice f) (file_slice g));
      [done|by rewrite list_lookup_fmap, Hi|by rewrite list_lookup_fmap, Hj].
Qed.


(** ** Witnesses *)

Definition cleared : DfcCredential := snd (dfc_credential_clear zero_credential).

Lemma cleared_reachable : reachable cleared.
Proof. exact (reachable_clear zero_credential). Qed.

(** A credential with two applications and a file of each, one of them deleted. *)
Definition sample_history : list cred_op :=
  [OpCreateApplication [1; 0; 0] 0x0F 0x82; OpCreateApplication [2; 0; 0] 0x0F 0x43;
   OpCreateFile 0 1; OpResizeFile 0 1 64; OpCreateFile 1 2; OpResizeFile 1 2 32; OpDeleteApplication 0].

Definition sample : DfcCredential := fold_left (fun c op => snd (exec op c)) sample_history cleared.

Lemma sample_reachable : reachable sample.
Proof. unfold sample, sample_history, fold_left. repeat apply reachable_step. apply cleared_reachable. Qed.

Lemma exec_refines_witness :
  cred_wf sample /\
  let '(ok, c') := exec (OpResizeFile 0 2 48) sample in
  cred_wf c' /\ if ok then spec (OpResizeFile 0 2 48) (abs sample) = Some (abs c')
                else spec (OpResizeFile 0 2 48) (abs sample) = None /\ abs c' = abs sample.
Proof.
  split; [exact (reachable_cred_wf _ sample_reachable)|].
  exact (exec_refines (OpResizeFile 0 2 48) sample (reachable_cred_wf _ sample_reachable)).
Defined.

Lemma reachable_no_aliasing_witness :
  reachable sample /\ cred_wf sample /\ slices_disjoint (key_slices sample).
Proof.
  split; [exact sample_reachable|]. pose proof (reachable_no_aliasing sample sample_reachable) as H.
  split; [exact (proj1 H)|exact (proj1 (proj2 (proj2 (proj2 H))))].
Defined.


Lemma init_blank_correct_witness :
  let '(ok, c') := dfc_credential_init_blank zero_credential (Some (replicate 7 0x5A)) in
  ok = true /\ cred_wf c'.
Proof.
  pose proof (init_blank_correct zero_credential (Some (replicate 7 0x5A))
                (fun r H => ltac:(injection H as <-; reflexivity))) as H.
  destruct (dfc_credential_init_blank _ _) as [ok c']. destruct H as (-> & _ & H).
  split; [reflexivity|exact (proj1 (H eq_refl))].
Defined.
