(* ===== verification/KeyRoll.v ===== *)
(** Rolling key sets: the in-place block rotation of [dfc_rotate_key_blocks_left]
    ([src/src/dfc_credential.c]) is the rotation of the list of blocks.

    The code follows each cycle of the permutation [j -> (j + shift) mod count] with
    one block of scratch, and runs one cycle per residue modulo
    [gcd(count, shift)]. [block] is the view of the pool as blocks; the proof tracks
    which positions a cycle has rewritten ([rotate_cycle_spec]) and that the cycles
    partition the positions ([orbit_iff]). *)

From S2P Require Import Prelude Common Pool CredentialData Credential FileStore KeyStore.
Import Rules Frames.

(** ** The greatest common divisor *)

Lemma gcd_loop_correct fuel a b : 0 <= a -> 0 <= b < Z.of_nat fuel -> gcd_loop fuel a b = Z.gcd a b.
Proof.
  revert a b. induction fuel as [|fuel IH]; intros a b Ha Hb; [lia|]. cbn.
  destruct (b =? 0) eqn:E; bool_facts.
  - subst b. rewrite Z.gcd_0_r. lia.
  - pose proof (Z.mod_pos_bound a b ltac:(lia)) as Hm. rewrite IH by lia.
    rewrite Z.gcd_comm, Z.gcd_mod by lia. apply Z.gcd_comm.
Qed.

Lemma greatest_common_divisor_correct a b :
  0 <= a -> 0 <= b -> dfc_greatest_common_divisor a b = Z.gcd a b.
Proof. intros Ha Hb. apply gcd_loop_correct; lia. Qed.

(** ** Orbits of the rotation *)

(** [n] positions, a shift of [s]: [g] cycles of [len] positions each. *)
Lemma gcd_split n s :
  0 < s < n -> exists len t,
  n = len * Z.gcd n s /\ s = t * Z.gcd n s /\ 0 < Z.gcd n s /\ 0 < len /\ Z.gcd len t = 1.
Proof.
  intros Hs. destruct (Z.gcd_divide_l n s) as [len Hl]. destruct (Z.gcd_divide_r n s) as [t Ht].
  pose proof (Z.gcd_nonneg n s) as H0. pose proof (Z.gcd_div_gcd n s (Z.gcd n s)) as H1.
  assert (Hg : Z.gcd n s <> 0) by (intros Hz; apply Z.gcd_eq_0_l in Hz; lia).
  specialize (H1 Hg eq_refl). set (g := Z.gcd n s) in *. clearbody g. exists len, t.
  rewrite Hl, Ht, !Z.div_mul in H1 by lia. split_and!; [done|done|lia|nia|done].
Qed.

(** The position reached after [k] steps of the cycle of [c]. *)
Definition orbit (n s c k : Z) : Z := (c + k * s) mod n.

Lemma orbit_range n s c k : 0 < n -> 0 <= orbit n s c k < n.
Proof. intros. apply Z.mod_pos_bound. lia. Qed.

Lemma orbit_succ n s c k : 0 < n -> (orbit n s c k + s) mod n = orbit n s c (k + 1).
Proof. intros. unfold orbit. rewrite Z.add_mod_idemp_l by lia. f_equal. lia. Qed.

Section Orbits.
Context (n s g len t : Z).
Hypothesis Hn : n = len * g.
Hypothesis Hs : s = t * g.
Hypothesis Hg : 0 < g.
Hypothesis Hlen : 0 < len.
Hypothesis Hrp : Z.gcd len t = 1.
Hypothesis Hrange : 0 < s < n.

(** Two steps of a cycle meet exactly when they differ by a multiple of its length. *)
Lemma orbit_eq_iff c k k' : orbit n s c k = orbit n s c k' <-> (len | k - k').
Proof.
  unfold orbit. split.
  - intros Heq. assert (Hz : (n | (k - k') * s)).
    { apply Z.mod_divide; [lia|]. replace ((k - k') * s) with ((c + k * s) - (c + k' * s)) by lia.
      rewrite Zminus_mod, Heq, Z.sub_diag. apply Z.mod_0_l. lia. }
    apply (Z.gauss _ t); [|done]. destruct Hz as [q Hq]. exists q.
    apply (Z.mul_reg_r _ _ g); [lia|]. rewrite Hn, Hs in Hq. lia.
  - intros [q Hq]. replace (c + k * s) with (c + k' * s + q * t * n) by (rewrite Hn, Hs; nia).
    apply Z.mod_add. lia.
Qed.

(** The cycle of [c] is the residue class of [c]. *)
Lemma orbit_iff c p :
  0 <= c < g -> 0 <= p < n -> p mod g = c <-> exists k, 0 <= k < len /\ p = orbit n s c k.
Proof.
  intros Hc Hp. split.
  - intros Hm. destruct (Z.gcd_bezout len t 1 Hrp) as (u & v & Huv).
    pose proof (Z.div_mod p g ltac:(lia)) as Hdm. rewrite Hm in Hdm.
    set (w := v * (p / g)). exists (w mod len). split; [apply Z.mod_pos_bound; lia|].
    assert (Hw : orbit n s c (w mod len) = orbit n s c w).
    { apply orbit_eq_iff. exists (- (w / len)). rewrite (Z.mod_eq w len) by lia. ring. }
    rewrite Hw. unfold orbit. rewrite <- (Z.mod_small p n Hp) at 1.
    replace (c + w * s) with (p + (- (u * (p / g))) * n); [symmetry; apply Z.mod_add; lia|].
    unfold w. rewrite Hn, Hs. set (q := p / g) in *. nia.
  - intros (k & _ & ->). unfold orbit. rewrite Hn, Hs, Z.mul_comm.
    rewrite Z.mod_mod_divide by (exists len; lia).
    replace (c + t * g * k) with (c + (t * k) * g) by ring. rewrite Z.mod_add by lia.
    apply Z.mod_small. lia.
Qed.

End Orbits.

(** ** Blocks of a pool *)

Section Blocks.
Context (base n width size : Z).
Hypothesis Hbase : 0 <= base.
Hypothesis Hwidth : 0 < width.
Hypothesis Hfit : base + n * width <= size.

Definition block (pool : bytes) (k : Z) : bytes := slice pool (base + k * width) width.

Lemma block_bounds k : 0 <= k < n -> base <= base + k * width /\ base + k * width + width <= base + n * width.
Proof. intros. nia. Qed.

Lemma length_block pool k : zlen pool = size -> 0 <= k < n -> zlen (block pool k) = width.
Proof. intros Hz Hk. pose proof (block_bounds k Hk). apply length_slice; lia. Qed.

(** One block written over another's place. *)
Lemma block_store pool i d k :
  zlen pool = size -> 0 <= i < n -> 0 <= k < n -> zlen d = width ->
  block (splice pool (base + i * width) d) k = if k =? i then d else block pool k.
Proof.
  intros Hz Hi Hk Hd. pose proof (block_bounds i Hi). pose proof (block_bounds k Hk). unfold block.
  destruct (k =? i) eqn:E; bool_facts.
  - subst k. pose proof (slice_splice_same pool (base + i * width) d) as Hx. rewrite Hd in Hx. apply Hx; lia.
  - apply slice_splice_disjoint; try lia.
    destruct (Z.lt_ge_cases k i); [left|right]; nia.
Qed.

(** What a rotation never touches. *)
Definition same_outside (pool pool' : bytes) : Prop :=
  zlen pool' = zlen pool /\
  forall o l, 0 <= o -> 0 <= l -> o + l <= base \/ base + n * width <= o -> slice pool' o l = slice pool o l.

Lemma same_outside_store pool pool' i d :
  zlen pool = size -> same_outside pool pool' -> 0 <= i < n -> zlen d = width ->
  same_outside pool (splice pool' (base + i * width) d).
Proof.
  intros Hz [Hl Ho] Hi Hd. pose proof (block_bounds i Hi). split.
  - rewrite length_splice; lia.
  - intros o l H0 H1 Hout. rewrite slice_splice_disjoint by lia. by apply Ho.
Qed.

End Blocks.

(** ** One cycle *)

Section Cycle.
Context (base n width size s g len t : Z).
Hypothesis Hbase : 0 <= base.
Hypothesis Hwidth : 0 < width.
Hypothesis Hfit : base + n * width <= size.
Hypothesis Hn : n = len * g.
Hypothesis Hs : s = t * g.
Hypothesis Hg : 0 < g.
Hypothesis Hlen : 0 < len.
Hypothesis Hrp : Z.gcd len t = 1.
Hypothesis Hrange : 0 < s < n.

#[local] Abbreviation orb := (orbit n s).
#[local] Abbreviation blk := (block base width).

(** After [k] copies of the cycle of [c]: the first [k] positions of the cycle hold
    their successor's old block [f], every other position its own. *)
Definition progress (f : Z -> bytes) (c k : Z) (pool : bytes) : Prop :=
  (forall i, 0 <= i < k -> blk pool (orb c i) = f (orb c (i + 1))) /\
  (forall p, 0 <= p < n -> (forall i, 0 <= i < k -> p <> orb c i) -> blk pool p = f p).

Lemma cycle_le : g <= n.
Proof. rewrite Hn. nia. Qed.

Lemma orbit_start c : 0 <= c < g -> c = orb c 0.
Proof.
  intros Hc. pose proof cycle_le. unfold orbit. rewrite Z.mul_0_l, Z.add_0_r, Z.mod_small; lia.
Qed.

(** Positions of one cycle are distinct. *)
Lemma orbit_distinct c i k : 0 <= i -> i < k -> k < len -> orb c k <> orb c i.
Proof.
  intros Hi Hik Hk Heq. apply (orbit_eq_iff n s g len t) in Heq as [q Hq]; try done.
  assert (q = 0 \/ 1 <= q \/ q <= -1) as [|[|]] by lia; nia.
Qed.

(** One more position of the cycle receives its successor's block. *)
Lemma progress_step f c k pool :
  zlen pool = size -> 0 <= k < len -> progress f c k pool ->
  forall d, zlen d = width -> d = f (orb c (k + 1)) ->
  progress f c (k + 1) (splice pool (base + orb c k * width) d).
Proof.
  intros Hz Hk [Hdone Hrest] d Hd Hdf. assert (Hor : forall k, 0 <= orb c k < n) by (intros; apply orbit_range; lia).
  split.
  - intros i Hi. rewrite (block_store base n width size) by auto. destruct (orb c i =? orb c k) eqn:E; bool_facts.
    + destruct (Z.eq_dec i k) as [->|Hne]; [done|].
      symmetry in E. apply orbit_distinct in E; [done|lia..].
    + apply Hdone. split; [lia|]. destruct (Z.eq_dec i k) as [->|]; [done|lia].
  - intros p Hp Hnot. rewrite (block_store base n width size) by auto.
    rewrite (proj2 (Z.eqb_neq p _)) by (apply Hnot; lia). apply Hrest; [done|]. intros i Hi. apply Hnot. lia.
Qed.

(** The inner loop runs to the last position of the cycle. *)
Lemma rotate_cycle_spec fuel pool0 f c k pool :
  zlen pool0 = size -> same_outside base n width pool0 pool -> 0 <= c < g -> 0 <= k < len ->
  len - k <= Z.of_nat fuel -> progress f c k pool ->
  let '(pool', current) := rotate_cycle fuel pool base n width s c (orb c k) in
  current = orb c (len - 1) /\ same_outside base n width pool0 pool' /\ progress f c (len - 1) pool'.
Proof.
  intros Hz. revert k pool. induction fuel as [|fuel IH]; intros k pool Hout Hc Hk Hfuel Hp; [lia|].
  cbn [rotate_cycle]. rewrite (orbit_succ n s) by lia.
  pose proof (orbit_start c Hc) as Hc0.
  destruct (orb c (k + 1) =? c) eqn:E; bool_facts.
  - assert (Hlast : k = len - 1).
    { rewrite Hc0 in E at 2. apply (orbit_eq_iff n s g len t) in E as [q Hq]; try done.
      assert (q <= 0 \/ q = 1 \/ 2 <= q) as [|[->|]] by lia; nia. }
    subst k. done.
  - assert (Hk1 : k + 1 < len).
    { destruct (Z.eq_dec (k + 1) len) as [Heq|]; [|lia]. destruct E. rewrite Hc0 at 2.
      apply (orbit_eq_iff n s g len t); try done. exists 1. lia. }
    assert (Hpz : zlen pool = size) by (destruct Hout; lia).
    assert (Hor : forall k, 0 <= orb c k < n) by (intros; apply orbit_range; lia).
    assert (Hnext : blk pool (orb c (k + 1)) = f (orb c (k + 1))).
    { apply Hp; [auto|]. intros i Hi. apply orbit_distinct; lia. }
    assert (Hbl : zlen (blk pool (orb c (k + 1))) = width) by (by apply (length_block base n width size)).
    apply IH; try lia.
    + by apply (same_outside_store base n width size).
    + by apply progress_step.
Qed.

(** One whole cycle. *)
Lemma rotate_one_cycle_spec pool0 pool c :
  zlen pool0 = size -> same_outside base n width pool0 pool -> 0 <= c < g ->
  let pool' := rotate_one_cycle base n width s pool c in
  same_outside base n width pool0 pool' /\
  forall p, 0 <= p < n -> blk pool' p = blk pool (if p mod g =? c then (p + s) mod n else p).
Proof.
  intros Hz Hout Hc. cbv zeta. unfold rotate_one_cycle.
  assert (Hpz : zlen pool = size) by (destruct Hout; lia).
  assert (Hcn : 0 <= c < n) by (pose proof cycle_le; lia).
  pose proof (orbit_start c Hc) as Hc0.
  pose proof (rotate_cycle_spec (Z.to_nat n) pool0 (blk pool) c 0 pool Hz Hout Hc) as H.
  rewrite <- Hc0 in H. specialize (H ltac:(lia) ltac:(nia)).
  destruct (rotate_cycle _ _ _ _ _ _ _ _) as [pool1 current].
  destruct H as (-> & Hout1 & Hp1); [by split; [lia|]|].
  assert (Hp2 : progress (blk pool) c len (splice pool1 (base + orb c (len - 1) * width) (blk pool c))).
  { replace len with (len - 1 + 1) at 1 by lia. apply progress_step; [destruct Hout1; lia|lia|done| |].
    - by apply (length_block base n width size).
    - f_equal. rewrite Hc0 at 1. apply (orbit_eq_iff n s g len t); try done. exists (-1). lia. }
  split; [apply (same_outside_store base n width size); try done; [apply orbit_range; lia|
          by apply (length_block base n width size)]|].
  destruct Hp2 as [Hdone Hrest]. intros p Hp. destruct (p mod g =? c) eqn:E; bool_facts.
  - apply (orbit_iff n s g len t) in E as (k & Hk & ->); try done. rewrite (orbit_succ n s) by lia. by apply Hdone.
  - apply Hrest; [done|]. intros i Hi ->. destruct E. apply (orbit_iff n s g len t); try done. by exists i.
Qed.

End Cycle.

(** ** The whole rotation *)

Lemma rotate_key_blocks_left_correct pool base n width s :
  0 <= base -> 0 < width -> base + n * width <= zlen pool -> 0 < s < n ->
  let pool' := dfc_rotate_key_blocks_left pool base n width s in
  same_outside base n width pool pool' /\
  forall p, 0 <= p < n -> block base width pool' p = block base width pool ((p + s) mod n).
Proof.
  intros Hb Hw Hf Hs. cbv zeta. unfold dfc_rotate_key_blocks_left.
  rewrite greatest_common_divisor_correct by lia.
  destruct (gcd_split n s Hs) as (len & t & Hn & Ht & Hg & Hl & Hrp). set (g := Z.gcd n s) in *. clearbody g.
  assert (Hinv : forall m, Z.of_nat m <= g ->
    let pool' := fold_left (rotate_one_cycle base n width s) (seqZ 0 (Z.of_nat m)) pool in
    same_outside base n width pool pool' /\
    forall p, 0 <= p < n -> block base width pool' p =
      block base width pool (if p mod g <? Z.of_nat m then (p + s) mod n else p)).
  { induction m as [|m IH]; intros Hm.
    - split; [done|]. intros p Hp. rewrite (proj2 (Z.ltb_ge _ _)); [done|].
      pose proof (Z.mod_pos_bound p g). lia.
    - destruct IH as [Hout Hblk]; [lia|]. rewrite seqZ_S, fold_left_app. cbn [fold_left].
      rewrite Z.add_0_l. set (pool1 := fold_left _ _ _) in *.
      destruct (rotate_one_cycle_spec base n width (zlen pool) s g len t Hb Hw Hf Hn Ht Hg Hl Hrp Hs
                  pool pool1 (Z.of_nat m) eq_refl Hout ltac:(lia)) as [Hout' Hblk'].
      split; [done|]. intros p Hp. rewrite Hblk' by done. pose proof (Z.mod_pos_bound p g Hg) as Hpm.
      destruct (p mod g =? Z.of_nat m) eqn:E; bool_facts.
      + rewrite Hblk by (apply Z.mod_pos_bound; lia). rewrite (proj2 (Z.ltb_ge _ _)).
        * by rewrite (proj2 (Z.ltb_lt _ _)) by lia.
        * rewrite Hn, Z.mul_comm, Z.mod_mod_divide by (exists len; lia).
          rewrite Ht, Z.mod_add by lia. lia.
      + rewrite Hblk by done. destruct (p mod g <? Z.of_nat m) eqn:E2; bool_facts.
        * by rewrite (proj2 (Z.ltb_lt _ _)) by lia.
        * by rewrite (proj2 (Z.ltb_ge _ _)) by lia. }
  destruct (Hinv (Z.to_nat g)) as [Hout Hblk]; [lia|]. rewrite Z2Nat.id in * by lia. split; [done|].
  intros p Hp. rewrite Hblk by done. pose proof (Z.mod_pos_bound p g Hg).
  by rewrite (proj2 (Z.ltb_lt _ _)) by lia.
Qed.

(** ** Octets of a spliced buffer *)

Lemma byte_splice b off src x :
  0 <= off -> off + zlen src <= zlen b -> 0 <= x ->
  (splice b off src).[x] = if (off <=? x) && (x <? off + zlen src) then src.[x - off] else b.[x].
Proof.
  intros Ho Hl Hx. unfold byte_at. rewrite splice_lookup by done. unfold zlen in *.
  destruct (off <=? x) eqn:E1, (x <? off + Z.of_nat (length src)) eqn:E2; bool_facts; cbn [andb];
    repeat case_decide; try lia; try done; do 2 f_equal; lia.
Qed.

Lemma byte_slice b off len x :
  0 <= off -> 0 <= x < len -> (slice b off len).[x] = b.[off + x].
Proof.
  intros Ho Hx. unfold byte_at. rewrite slice_lookup, decide_True by lia. do 2 f_equal. lia.
Qed.

Lemma byte_memmove b dst src len x :
  0 <= dst -> 0 <= src -> 0 <= len -> dst + len <= zlen b -> src + len <= zlen b -> 0 <= x ->
  (memmove b dst src len).[x] = if (dst <=? x) && (x <? dst + len) then b.[src + (x - dst)] else b.[x].
Proof.
  intros. unfold memmove. assert (Hl : zlen (slice b src len) = len) by (by apply length_slice).
  rewrite byte_splice, Hl by (rewrite ?Hl; lia).
  destruct (dst <=? x) eqn:E1, (x <? dst + len) eqn:E2; bool_facts; cbn [andb]; try done.
  apply byte_slice; lia.
Qed.

Lemma byte_store b i v x :
  0 <= i < zlen b -> 0 <= x ->
  (b.[i := v]).[x] = if (i <=? x) && (x <? i + 1) then v else b.[x].
Proof.
  intros Hi Hx. rewrite byte_splice by (unfold zlen in *; cbn; lia).
  change (zlen [v]) with 1. destruct (i <=? x) eqn:E1, (x <? i + 1) eqn:E2; bool_facts; cbn [andb]; try done.
  by replace (x - i) with 0 by lia.
Qed.

Lemma length_store (b : bytes) i v : 0 <= i < zlen b -> zlen (b.[i := v]) = zlen b.
Proof. intros. apply length_splice; [lia|]. change (zlen [v]) with 1. lia. Qed.

(** ** Rotating the metadata once *)

(** Decide the range test at the head of a byte read. *)
Ltac decide_range :=
  match goal with
  | |- context [if (?a <=? ?x) && (?x <? ?b) then _ else _] =>
      (rewrite (proj2 (Z.leb_le a x)) by lia; rewrite (proj2 (Z.ltb_lt x b)) by lia; cbn [andb])
      || (rewrite (proj2 (Z.leb_gt a x)) by lia; cbn [andb])
      || (rewrite (proj2 (Z.ltb_ge x b)) by lia; rewrite andb_false_r; cbn [andb])
  end.

Section Metadata.
Context (pool versions : bytes) (md sets keys : Z).
Hypothesis Hmd : 0 <= md.
Hypothesis Hsets : 2 <= sets <= 16.
Hypothesis Hkeys : 1 <= keys.
Hypothesis Hversions : keys <= zlen versions.
Hypothesis Hfit : md + (2 * sets + 2 + (sets - 1) * keys) <= zlen pool.

#[local] Abbreviation types := (md + sets).
#[local] Abbreviation mask_at := (md + 2 * sets).
#[local] Abbreviation additional := (md + 2 * sets + 2).
#[local] Abbreviation rest := ((sets - 2) * keys).

(** The mask after one rotation. *)
Definition rotated_mask (mask : Z) : Z :=
  if negb (Z.land mask 1 =? 0)
  then u16 (Z.lor (u16 (Z.shiftr mask 1)) (u16 (Z.shiftl 1 (sets - 1))))
  else u16 (Z.shiftr mask 1).

(** The pool after the versions of the keys moved. *)
Definition rotated_key_versions : bytes :=
  let pool1 := if DFC_KEY_SET_MINIMUM_COUNT <? sets
               then memmove pool additional (additional + keys)
                      ((sets - DFC_KEY_SET_MINIMUM_COUNT) * keys) else pool in
  splice pool1 (additional + (sets - DFC_KEY_SET_MINIMUM_COUNT) * keys) (slice versions 0 keys).

(** The pool after one rotation, as the code writes it. *)
Definition rotated_pool : bytes :=
  let pool2 := rotated_key_versions in
  let pool3 := memmove pool2 md (md + 1) (sets - 1) in
  let pool4 := memmove pool3 types (types + 1) (sets - 1) in
  let pool5 := pool4.[md + (sets - 1) := pool2.[md]] in
  let pool6 := pool5.[types + (sets - 1) := pool2.[types]] in
  store_metadata_mask pool6 mask_at (rotated_mask (metadata_mask pool mask_at)).

Definition rotated_versions : bytes := splice versions 0 (slice pool additional keys).

Lemma rest_bounds : 0 <= rest /\ additional + rest + keys <= zlen pool.
Proof. nia. Qed.

Lemma rotated_key_versions_bytes :
  zlen rotated_key_versions = zlen pool /\
  forall x, 0 <= x -> rotated_key_versions.[x] =
    if (additional <=? x) && (x <? additional + rest) then pool.[x + keys]
    else if (additional + rest <=? x) && (x <? additional + rest + keys)
    then versions.[x - (additional + rest)] else pool.[x].
Proof.
  pose proof rest_bounds as [Hr0 Hr1]. unfold rotated_key_versions. change DFC_KEY_SET_MINIMUM_COUNT with 2.
  set (r := rest) in *. set (pool1 := if 2 <? sets then _ else _).
  assert (H1 : zlen pool1 = zlen pool /\ forall x, 0 <= x -> pool1.[x] =
    if (additional <=? x) && (x <? additional + r) then pool.[x + keys] else pool.[x]).
  { unfold pool1. destruct (2 <? sets) eqn:E; bool_facts.
    - split; [unfold zlen; f_equal; apply length_memmove; lia|]. intros x Hx. rewrite byte_memmove by lia.
      destruct (_ && _); [|done]. f_equal. lia.
    - split; [done|]. intros x Hx. assert (r = 0) by (unfold r; nia). destruct (_ && _) eqn:Ec; [bool_facts; lia|done]. }
  destruct H1 as [Hl1 Hb1].
  assert (Hs : zlen (slice versions 0 keys) = keys) by (apply length_slice; lia).
  split; [rewrite length_splice; lia|]. intros x Hx. rewrite byte_splice, Hs, Hb1 by lia.
  destruct ((additional + r <=? x) && (x <? additional + r + keys)) eqn:E; [|done]. bool_facts.
  rewrite (proj2 (Z.ltb_ge x (additional + r))), andb_false_r by lia.
  rewrite byte_slice by lia. f_equal.
Qed.

(** Every octet of the rotated pool. *)
Lemma rotated_bytes :
  zlen rotated_pool = zlen pool /\
  forall x, 0 <= x ->
  rotated_pool.[x] =
    if (mask_at + 1 <=? x) && (x <? mask_at + 1 + 1)
    then u8 (Z.shiftr (rotated_mask (metadata_mask pool mask_at)) 8)
    else if (mask_at <=? x) && (x <? mask_at + 1)
    then u8 (rotated_mask (metadata_mask pool mask_at))
    else if (types + (sets - 1) <=? x) && (x <? types + (sets - 1) + 1) then pool.[types]
    else if (md + (sets - 1) <=? x) && (x <? md + (sets - 1) + 1) then pool.[md]
    else if (types <=? x) && (x <? types + (sets - 1)) then pool.[x + 1]
    else if (md <=? x) && (x <? md + (sets - 1)) then pool.[x + 1]
    else rotated_key_versions.[x].
Proof.
  pose proof rest_bounds as [Hr0 Hr1]. destruct rotated_key_versions_bytes as [Hl2 Hb2].
  assert (Hlow : forall x, 0 <= x < additional -> rotated_key_versions.[x] = pool.[x]).
  { intros x Hx. rewrite Hb2 by lia. decide_range. by decide_range. }
  unfold rotated_pool, store_metadata_mask. set (r := rest) in *. clearbody r.
  set (pool2 := rotated_key_versions) in *. clearbody pool2.
  set (pool3 := memmove pool2 _ _ _). set (pool4 := memmove pool3 _ _ _).
  assert (Hl3 : zlen pool3 = zlen pool2) by (unfold zlen; f_equal; apply length_memmove; lia).
  assert (Hl4 : zlen pool4 = zlen pool3) by (unfold zlen; f_equal; apply length_memmove; lia).
  set (pool5 := pool4.[_ := _]). assert (Hl5 : zlen pool5 = zlen pool4) by (apply length_store; lia).
  set (pool6 := pool5.[_ := _]). assert (Hl6 : zlen pool6 = zlen pool5) by (apply length_store; lia).
  split; [rewrite !length_store by (rewrite ?length_store; lia); lia|]. intros x Hx.
  rewrite byte_store by (rewrite ?length_store; lia).
  destruct ((mask_at + 1 <=? x) && (x <? mask_at + 1 + 1)); [done|].
  rewrite byte_store by lia. destruct ((mask_at <=? x) && (x <? mask_at + 1)); [done|].
  unfold pool6. rewrite byte_store, (Hlow types) by lia.
  destruct ((types + (sets - 1) <=? x) && (x <? types + (sets - 1) + 1)); [done|].
  unfold pool5. rewrite byte_store, (Hlow md) by lia.
  destruct ((md + (sets - 1) <=? x) && (x <? md + (sets - 1) + 1)); [done|].
  unfold pool4. rewrite byte_memmove by lia. unfold pool3.
  destruct ((types <=? x) && (x <? types + (sets - 1))) eqn:E4; bool_facts.
  - rewrite byte_memmove by lia. rewrite (proj2 (Z.ltb_ge (types + 1 + (x - types)) _)), andb_false_r by lia.
    rewrite Hlow by lia. f_equal. lia.
  - rewrite byte_memmove by lia. destruct ((md <=? x) && (x <? md + (sets - 1))) eqn:E3; bool_facts; [|done].
    rewrite Hlow by lia. f_equal. lia.
Qed.

End Metadata.

(** ** The mask of initialised sets *)

Lemma u16_testbit z i : 0 <= i < 16 -> Z.testbit (u16 z) i = Z.testbit z i.
Proof. intros. unfold u16. apply Z.mod_pow2_bits_low. lia. Qed.

Lemma u8_testbit z i : 0 <= i -> Z.testbit (u8 z) i = (i <? 8) && Z.testbit z i.
Proof.
  intros. unfold u8. destruct (i <? 8) eqn:E; bool_facts.
  - apply Z.mod_pow2_bits_low. lia.
  - apply Z.mod_pow2_bits_high. lia.
Qed.

(** The two mask octets read back as the mask stored. *)
Lemma mask_roundtrip m :
  0 <= m < 2 ^ 16 -> u16 (Z.lor (u8 m) (u16 (Z.shiftl (u8 (Z.shiftr m 8)) 8))) = m.
Proof.
  intros Hm. apply Z.bits_inj'. intros i Hi. destruct (Z.lt_ge_cases i 16) as [Hlt|Hge].
  - rewrite u16_testbit, Z.lor_spec, u8_testbit, u16_testbit, Z.shiftl_spec by lia.
    destruct (i <? 8) eqn:E; bool_facts; cbn [andb orb].
    + rewrite (Z.testbit_neg_r _ (i - 8)) by lia. apply orb_false_r.
    + rewrite u8_testbit, Z.shiftr_spec by lia. rewrite (proj2 (Z.ltb_lt (i - 8) 8)) by lia.
      cbn [andb]. f_equal. lia.
  - rewrite (testbit_high 16 m) by lia. apply (testbit_high 16); [apply u16_range|lia].
Qed.

Section Mask.
Context (sets mask : Z).
Hypothesis Hsets : 2 <= sets <= 16.
Hypothesis Hmask : 0 <= mask < 2 ^ sets.

Lemma mask_small : 0 <= mask < 2 ^ 16.
Proof. split; [lia|]. eapply Z.lt_le_trans; [apply Hmask|]. apply Z.pow_le_mono_r; lia. Qed.

Lemma land_one_testbit : negb (Z.land mask 1 =? 0) = Z.testbit mask 0.
Proof.
  change 1 with (Z.ones 1). rewrite Z.land_ones by lia. change (2 ^ 1) with 2.
  rewrite Zmod_odd, Z.bit0_odd. by destruct (Z.odd mask).
Qed.

(** Each set's flag moves to the set before it. *)
Lemma rotated_mask_testbit j :
  0 <= j < sets -> Z.testbit (rotated_mask sets mask) j = Z.testbit mask ((j + 1) mod sets).
Proof.
  intros Hj. unfold rotated_mask. rewrite land_one_testbit.
  assert (Hbit : forall b : bool, Z.testbit (if b then u16 (Z.lor (u16 (Z.shiftr mask 1)) (u16 (Z.shiftl 1 (sets - 1))))
    else u16 (Z.shiftr mask 1)) j = Z.testbit mask (j + 1) || (b && (j =? sets - 1))).
  { intros [|]; rewrite u16_testbit by lia.
    - rewrite Z.lor_spec, !u16_testbit, Z.shiftr_spec, Z.shiftl_1_l by lia. cbn [andb]. f_equal.
      destruct (j =? sets - 1) eqn:E; bool_facts; [subst j; apply Z.pow2_bits_true; lia|].
      apply Z.pow2_bits_false. lia.
    - rewrite Z.shiftr_spec by lia. by rewrite orb_false_r. }
  rewrite Hbit. destruct (j =? sets - 1) eqn:E; bool_facts.
  - replace ((j + 1) mod sets) with 0 by (replace (j + 1) with sets by lia; rewrite Z.mod_same; lia).
    rewrite (testbit_high sets mask (j + 1)) by lia. cbn. by rewrite andb_true_r.
  - rewrite Z.mod_small by lia. by rewrite andb_false_r, orb_false_r.
Qed.

Lemma rotated_mask_range : 0 <= rotated_mask sets mask < 2 ^ sets.
Proof.
  assert (H0 : 0 <= rotated_mask sets mask).
  { unfold rotated_mask. destruct (negb _); apply u16_range. }
  split; [done|]. apply Z_bounded_testbit; [lia|done|]. intros i Hi. unfold rotated_mask.
  destruct (Z.lt_ge_cases i 16) as [Hlt|Hge].
  - destruct (negb _); rewrite u16_testbit by lia.
    + rewrite Z.lor_spec, !u16_testbit, Z.shiftr_spec, Z.shiftl_1_l by lia.
      rewrite (testbit_high sets mask) by lia. cbn. apply Z.pow2_bits_false. lia.
    + rewrite Z.shiftr_spec by lia. apply (testbit_high sets mask); lia.
  - destruct (negb _); apply (testbit_high 16); (apply u16_range || lia).
Qed.

End Mask.

(** ** One rotation seen through the accessors *)

(** What the metadata at [md], for [sets] sets of [keys] keys, says of set [j]; the
    active set's key versions are the application's own [versions]. *)
Definition set_version (pool : bytes) (md j : Z) : Z := pool.[md + j].
Definition set_type (pool : bytes) (md sets j : Z) : Z := pool.[md + sets + j].
Definition set_flag (pool : bytes) (md sets j : Z) : bool := Z.testbit (metadata_mask pool (md + 2 * sets)) j.
Definition key_version (pool versions : bytes) (md sets keys j slot : Z) : Z :=
  if j =? 0 then versions.[slot] else pool.[md + (2 * sets + 2 + (j - 1) * keys + slot)].

(** [pool'] and [versions'] hold for each set what [pool] and [versions] held for the
    set [k] places further on. *)
Record rolled (pool versions pool' versions' : bytes) (md sets keys k : Z) : Prop := {
  ro_version : forall j, 0 <= j < sets -> set_version pool' md j = set_version pool md ((j + k) mod sets);
  ro_type : forall j, 0 <= j < sets -> set_type pool' md sets j = set_type pool md sets ((j + k) mod sets);
  ro_flag : forall j, 0 <= j < sets -> set_flag pool' md sets j = set_flag pool md sets ((j + k) mod sets);
  ro_key_version : forall j slot, 0 <= j < sets -> 0 <= slot < keys ->
    key_version pool' versions' md sets keys j slot =
    key_version pool versions md sets keys ((j + k) mod sets) slot;
}.

Lemma rolled_trans pool versions pool1 versions1 pool2 versions2 md sets keys k1 k2 :
  0 < sets ->
  rolled pool versions pool1 versions1 md sets keys k1 ->
  rolled pool1 versions1 pool2 versions2 md sets keys k2 ->
  rolled pool versions pool2 versions2 md sets keys (k2 + k1).
Proof.
  intros Hs [A1 A2 A3 A4] [B1 B2 B3 B4].
  assert (Hm : forall j, 0 <= (j + k2) mod sets < sets) by (intros; apply Z.mod_pos_bound; lia).
  assert (Hj : forall j, ((j + k2) mod sets + k1) mod sets = (j + (k2 + k1)) mod sets).
  { intros j. rewrite Z.add_mod_idemp_l by lia. f_equal. lia. }
  constructor; intros; rewrite ?B1, ?B2, ?B3, ?B4, ?A1, ?A2, ?A3, ?A4, ?Hj by auto; done.
Qed.

Section RotateOnce.
Context (pool versions : bytes) (md sets keys : Z).
Hypothesis Hmd : 0 <= md.
Hypothesis Hsets : 2 <= sets <= 16.
Hypothesis Hkeys : 1 <= keys.
Hypothesis Hversions : keys <= zlen versions.
Hypothesis Hfit : md + (2 * sets + 2 + (sets - 1) * keys) <= zlen pool.
Hypothesis Hmask : 0 <= metadata_mask pool (md + 2 * sets) < 2 ^ sets.

#[local] Abbreviation pool' := (rotated_pool pool versions md sets keys).
#[local] Abbreviation versions' := (rotated_versions pool versions md sets keys).

Lemma rotated_bytes_here :
  zlen pool' = zlen pool /\ zlen (rotated_key_versions pool versions md sets keys) = zlen pool.
Proof.
  split; [by apply rotated_bytes|by apply rotated_key_versions_bytes].
Qed.

Lemma rotated_mask_here :
  metadata_mask pool' (md + 2 * sets) = rotated_mask sets (metadata_mask pool (md + 2 * sets)).
Proof.
  destruct (rotated_bytes pool versions md sets keys) as [_ Hb]; try done.
  unfold metadata_mask at 1. rewrite !Hb by lia.
  rewrite (proj2 (Z.leb_gt (md + 2 * sets + 1) (md + 2 * sets))) by lia. cbn [andb].
  rewrite (proj2 (Z.leb_le (md + 2 * sets) (md + 2 * sets))) by lia.
  rewrite (proj2 (Z.ltb_lt (md + 2 * sets) (md + 2 * sets + 1))) by lia. cbn [andb].
  rewrite (proj2 (Z.leb_le (md + 2 * sets + 1) (md + 2 * sets + 1))) by lia.
  rewrite (proj2 (Z.ltb_lt (md + 2 * sets + 1) _)) by lia. cbn [andb].
  apply mask_roundtrip. pose proof (rotated_mask_range sets _ Hsets Hmask) as Hr.
  split; [lia|]. eapply Z.lt_le_trans; [apply Hr|]. apply Z.pow_le_mono_r; lia.
Qed.

Lemma rotate_once : rolled pool versions pool' versions' md sets keys 1.
Proof.
  destruct (rotated_bytes pool versions md sets keys) as [_ Hb]; try done.
  destruct (rotated_key_versions_bytes pool versions md sets keys) as [_ Hk]; try done.
  assert (Hmod : forall j, 0 <= j < sets -> (j + 1) mod sets = if j =? sets - 1 then 0 else j + 1).
  { intros j Hj. destruct (j =? sets - 1) eqn:E; bool_facts.
    - replace (j + 1) with sets by lia. apply Z.mod_same. lia.
    - apply Z.mod_small. lia. }
  constructor.
  - intros j Hj. unfold set_version. rewrite Hb, Hmod by lia. repeat decide_range.
    destruct (j =? sets - 1) eqn:E; bool_facts; repeat decide_range; f_equal; lia.
  - intros j Hj. unfold set_type. rewrite Hb, Hmod by lia. repeat decide_range.
    destruct (j =? sets - 1) eqn:E; bool_facts; repeat decide_range; f_equal; lia.
  - intros j Hj. unfold set_flag. rewrite rotated_mask_here. by apply rotated_mask_testbit.
  - intros j slot Hj Hslot. unfold key_version. rewrite Hmod by done.
    destruct (j =? 0) eqn:E0; bool_facts.
    + rewrite (proj2 (Z.eqb_neq j (sets - 1))), (proj2 (Z.eqb_neq (j + 1) 0)) by lia.
      unfold rotated_versions.
      assert (Hl : zlen (slice pool (md + 2 * sets + 2) keys) = keys) by (apply length_slice; nia).
      rewrite byte_splice, Hl by lia. decide_range. rewrite Z.sub_0_r, byte_slice by lia. f_equal. lia.
    + assert (Hy : 0 <= (j - 1) * keys /\ (j = sets - 1 \/ (j - 1) * keys + keys <= (sets - 2) * keys)) by nia.
      assert (Hnext : (j + 1 - 1) * keys = (j - 1) * keys + keys) by lia.
      assert (Hlast : j = sets - 1 -> (sets - 2) * keys = (j - 1) * keys) by (intros ->; f_equal; lia).
      set (y := (j - 1) * keys) in *. clearbody y. set (r := (sets - 2) * keys) in *. clearbody r.
      rewrite Hb, Hk by lia. do 6 decide_range. destruct (j =? sets - 1) eqn:E; bool_facts.
      * rewrite Hlast by done. cbn [Z.eqb]. do 2 decide_range. f_equal. lia.
      * rewrite (proj2 (Z.eqb_neq (j + 1) 0)) by lia. decide_range. rewrite Hnext. f_equal. lia.
Qed.

End RotateOnce.

(** ** The credential *)

(** An application at slot [i] with key sets: its metadata at [md], its key blocks
    allocated, its flags only for sets it has. *)
Record sets_ok (c : DfcCredential) (i : nat) (a : DfcApplication) (md : Z) : Prop := {
  so_app : apps c !! i = Some a;
  so_slice : dfc_key_set_metadata_slice c a = Some md;
  so_md : 0 <= md;
  so_num_keys : 0 <= app_num_keys a;
  so_pool : zlen (key_set_metadata_pool c) = DFC_KEY_SET_METADATA_POOL_SIZE;
  so_versions : zlen (app_key_versions a) = DFC_MAX_KEYS;
  so_mask : 0 <= metadata_mask (key_set_metadata_pool c) (md + 2 * num_key_sets a) < 2 ^ num_key_sets a;
}.

(** What the checks of [dfc_key_set_metadata_slice] guarantee. *)
Lemma sets_ok_bounds c i a md :
  sets_ok c i a md ->
  2 <= num_key_sets a <= 16 /\ 1 <= app_num_keys a <= DFC_MAX_KEYS /\
  md + (2 * num_key_sets a + 2 + (num_key_sets a - 1) * app_num_keys a) <= zlen (key_set_metadata_pool c).
Proof.
  intros [_ Hs Hmd Hk Hp _ _]. rewrite Hp. unfold dfc_key_set_metadata_slice in Hs.
  destruct (_ || (DFC_KEY_SET_METADATA_POOL_SIZE <? key_set_metadata_pool_used c)) eqn:E1; [done|].
  unfold dfc_key_set_metadata_length in Hs.
  destruct (_ || _ || (app_num_keys a =? 0) || (DFC_MAX_KEYS <? app_num_keys a)) eqn:E2; [done|].
  set (expected := 2 * num_key_sets a + 2 + _) in *.
  destruct (_ || _ || _ || _ || _ || _ || _) eqn:E3; [done|]. injection Hs as <-. bool_facts.
  split_and!; dlia.
Qed.

(** The credential after its metadata pool and its versions of one application change. *)
Definition with_metadata (c : DfcCredential) (i : nat) (a : DfcApplication) (pool versions : bytes)
  : DfcCredential :=
  set_key_set_metadata_pool pool (set_apps (<[i := set_app_key_versions versions a]> (apps c)) c).

Lemma rotate_metadata_step c i a md :
  sets_ok c i a md ->
  let pool' := rotated_pool (key_set_metadata_pool c) (app_key_versions a) md (num_key_sets a) (app_num_keys a) in
  let versions' := rotated_versions (key_set_metadata_pool c) (app_key_versions a) md (num_key_sets a)
                     (app_num_keys a) in
  let c' := with_metadata c i a pool' versions' in
  dfc_credential_rotate_key_set_metadata c (Z.of_nat i) = (true, c') /\
  sets_ok c' i (set_app_key_versions versions' a) md /\
  rolled (key_set_metadata_pool c) (app_key_versions a) pool' versions' md (num_key_sets a) (app_num_keys a) 1.
Proof.
  intros Hok pool' versions' c'. pose proof (sets_ok_bounds _ _ _ _ Hok) as (Hs & Hk & Hf).
  pose proof Hok as [Ha Hsl Hmd _ Hp Hv Hm].
  assert (Hkv : app_num_keys a <= zlen (app_key_versions a)) by lia.
  pose proof (rotated_bytes_here (key_set_metadata_pool c) (app_key_versions a) md (num_key_sets a)
                (app_num_keys a)) as Hl.
  pose proof (rotated_mask_here (key_set_metadata_pool c) (app_key_versions a) md (num_key_sets a)
                (app_num_keys a)) as Hmask.
  split_and!.
  - unfold dfc_credential_rotate_key_set_metadata, dfc_key_set_metadata_mutable.
    rewrite (app_at_lookup _ _ _ Ha), Hsl. f_equal. unfold c', with_metadata, update_app.
    rewrite Nat2Z.id, (list_alter_lookup _ _ _ _ Ha). reflexivity.
  - constructor; [|exact Hsl|exact Hmd|exact (so_num_keys _ _ _ _ Hok)|..].
    + unfold c', with_metadata. cbn. apply list_lookup_insert_eq. by eapply lookup_lt_Some.
    + change (zlen pool' = DFC_KEY_SET_METADATA_POOL_SIZE). rewrite <- Hp. apply Hl; (done || lia).
    + change (zlen versions' = DFC_MAX_KEYS). unfold versions', rotated_versions. rewrite length_splice; [done|lia|].
      rewrite length_slice; nia.
    + change (0 <= metadata_mask pool' (md + 2 * num_key_sets a) < 2 ^ num_key_sets a).
      unfold pool'. rewrite Hmask by (done || lia). by apply rotated_mask_range.
  - apply rotate_once; done || lia.
Qed.

Lemma rotate_metadata_times_correct k c i a md :
  sets_ok c i a md ->
  exists pool' versions',
    let c' := with_metadata c i a pool' versions' in
    rotate_metadata_times k c (Z.of_nat i) = (true, c') /\
    sets_ok c' i (set_app_key_versions versions' a) md /\
    rolled (key_set_metadata_pool c) (app_key_versions a) pool' versions' md (num_key_sets a)
      (app_num_keys a) (Z.of_nat k).
Proof.
  revert c a. induction k as [|k IH]; intros c a Hok.
  - exists (key_set_metadata_pool c), (app_key_versions a).
    assert (Hid : with_metadata c i a (key_set_metadata_pool c) (app_key_versions a) = c).
    { unfold with_metadata. rewrite list_insert_id; [by destruct c|]. rewrite (so_app _ _ _ _ Hok). by destruct a. }
    cbv zeta. rewrite Hid. split_and!; [done|by destruct a|].
    pose proof (sets_ok_bounds _ _ _ _ Hok) as (Hs & _).
    constructor; intros; rewrite Z.add_0_r, Z.mod_small by lia; done.
  - destruct (rotate_metadata_step c i a md Hok) as (Hr & Hok1 & Hro1).
    set (pool1 := rotated_pool _ _ _ _ _) in *. set (versions1 := rotated_versions _ _ _ _ _) in *.
    destruct (IH _ _ Hok1) as (pool2 & versions2 & Hr2 & Hok2 & Hro2). exists pool2, versions2. cbv zeta.
    assert (Hcomp : with_metadata (with_metadata c i a pool1 versions1) i (set_app_key_versions versions1 a)
                      pool2 versions2 = with_metadata c i a pool2 versions2).
    { unfold with_metadata. cbn. by rewrite list_insert_insert_eq. }
    rewrite Hcomp in Hr2, Hok2. split_and!; [|exact Hok2|].
    + cbn [rotate_metadata_times]. rewrite Hr. exact Hr2.
    + replace (Z.of_nat (S k)) with (Z.of_nat k + 1) by lia.
      pose proof (sets_ok_bounds _ _ _ _ Hok) as (Hs & _).
      eapply rolled_trans; [lia|exact Hro1|exact Hro2].
Qed.

(** Key [slot] of set [j], as [dfc_credential_key_in_set] finds it. *)
Definition key_of_set (c : DfcCredential) (i : nat) (j slot : Z) : option bytes :=
  off ← dfc_credential_key_in_set c (Z.of_nat i) j slot;
  Some (slice (key_pool c) off
          (dfc_credential_stored_key_length (app_key_storage_len (app_at c (Z.of_nat i))))).

(** The key slice of an application holds all the blocks of its sets. *)
Record blocks_ok (c : DfcCredential) (a : DfcApplication) : Prop := {
  bo_offset : 0 <= app_key_offset a < DFC_KEY_POOL_NONE;
  bo_length : app_key_pool_len a =
    app_num_keys a * num_key_sets a * dfc_credential_stored_key_length (app_key_storage_len a);
  bo_used : app_key_offset a + app_key_pool_len a <= key_pool_used c;
  bo_pool : key_pool_used c <= zlen (key_pool c);
}.

Lemma key_of_set_block c i a j slot :
  apps c !! i = Some a -> blocks_ok c a -> 0 <= j < num_key_sets a -> 0 <= slot < app_num_keys a ->
  key_of_set c i j slot =
  Some (block (app_key_offset a) (dfc_credential_stored_key_length (app_key_storage_len a)) (key_pool c)
          (j * app_num_keys a + slot)).
Proof.
  intros Ha [Ho Hl Hu Hp] Hj Hs. unfold key_of_set, dfc_credential_key_in_set.
  rewrite (app_at_lookup _ _ _ Ha). pose proof (stored_key_length_range (app_key_storage_len a)) as Hw.
  set (w := dfc_credential_stored_key_length (app_key_storage_len a)) in *.
  rewrite (proj2 (Z.leb_gt (num_key_sets a) j)), (proj2 (Z.leb_gt (app_num_keys a) slot)) by lia. cbn [orb].
  assert (Hidx : 0 <= j * app_num_keys a + slot < app_num_keys a * num_key_sets a) by nia.
  unfold dfc_credential_key_at. fold w.
  rewrite (proj2 (Z.eqb_neq (app_key_offset a) _)), (proj2 (Z.eqb_neq (app_key_pool_len a) 0)) by (lia || nia).
  cbn [orb]. rewrite (proj2 (Z.leb_gt _ _)) by lia. rewrite (proj2 (Z.ltb_ge (app_key_pool_len a) _)) by nia.
  rewrite (proj2 (Z.ltb_ge (key_pool_used c) _)) by lia. done.
Qed.

(** The block of a key after the shift of the roll. *)
Lemma roll_index sets keys j k slot :
  0 < sets -> 0 <= slot < keys -> 0 <= j -> 0 <= k ->
  (j * keys + slot + k * keys) mod (keys * sets) = (j + k) mod sets * keys + slot.
Proof.
  intros Hs Hslot Hj Hk. symmetry. apply (Z.mod_unique _ _ ((j + k) / sets)).
  - left. pose proof (Z.mod_pos_bound (j + k) sets Hs). nia.
  - pose proof (Z.div_mod (j + k) sets ltac:(lia)) as Hd. nia.
Qed.

Lemma active_type_offset c i a md :
  sets_ok c i a md -> dfc_credential_key_set_type c (Z.of_nat i) 0 = Some (md + num_key_sets a + 0).
Proof.
  intros Hok. pose proof (sets_ok_bounds _ _ _ _ Hok) as (Hs & _).
  unfold dfc_credential_key_set_type, dfc_key_set_metadata_mutable.
  rewrite (app_at_lookup _ _ _ (so_app _ _ _ _ Hok)), (so_slice _ _ _ _ Hok). cbn [mbind option_bind].
  by rewrite (proj2 (Z.ltb_lt 0 _)) by lia.
Qed.

(** C13: rolling to key set [k] makes it the active one. Every set [j] then holds what
    set [j + k] (modulo the number of sets) held: its keys, their versions, the set's
    version, type and initialised flag. The application takes the key length and key
    type of the new active set, nothing else of the pools or of other applications
    changes, and the in-place rotation ends for every number of sets and keys. *)
Theorem roll_key_set_correct c i a md k :
  sets_ok c i a md -> blocks_ok c a -> 0 < k < num_key_sets a ->
  exists c' a' versions',
    dfc_credential_roll_key_set c (Z.of_nat i) k = (true, c') /\
    apps c' = <[i := a']> (apps c) /\
    (forall j slot, 0 <= j < num_key_sets a -> 0 <= slot < app_num_keys a ->
       key_of_set c' i j slot = key_of_set c i ((j + k) mod num_key_sets a) slot) /\
    rolled (key_set_metadata_pool c) (app_key_versions a) (key_set_metadata_pool c') versions' md
      (num_key_sets a) (app_num_keys a) k /\
    app_key_versions a' = versions' /\
    app_key_len a' = u8 (dfc_key_set_type_length (set_type (key_set_metadata_pool c) md (num_key_sets a) k)) /\
    same_outside (app_key_offset a) (app_num_keys a * num_key_sets a)
      (dfc_credential_stored_key_length (app_key_storage_len a)) (key_pool c) (key_pool c').
Proof.
  intros Hok Hbl Hk. pose proof (sets_ok_bounds _ _ _ _ Hok) as (Hs & Hkeys & _).
  pose proof (so_app _ _ _ _ Hok) as Ha. pose proof Hbl as [Ho Hl Hu Hp].
  pose proof (stored_key_length_range (app_key_storage_len a)) as Hw.
  set (w := dfc_credential_stored_key_length (app_key_storage_len a)) in *.
  set (n := app_num_keys a * num_key_sets a) in *. set (shift := k * app_num_keys a).
  assert (Hshift : 0 < shift < n) by (unfold shift, n; nia).
  destruct (rotate_key_blocks_left_correct (key_pool c) (app_key_offset a) n w shift) as [Hout Hrot];
    [lia|lia|lia|done|]. set (kp := dfc_rotate_key_blocks_left _ _ _ _ _) in *.
  set (c0 := set_key_pool kp c).
  assert (Hok0 : sets_ok c0 i a md) by (destruct Hok; by constructor).
  destruct (rotate_metadata_times_correct (Z.to_nat k) c0 i a md Hok0) as (mp & versions' & Hrm & Hok1 & Hro).
  rewrite Z2Nat.id in Hro by lia. set (c1 := with_metadata c0 i a mp versions') in *.
  set (a1 := set_app_key_versions versions' a) in *.
  pose proof (so_app _ _ _ _ Hok1) as Ha1.
  pose proof (active_type_offset c1 i a1 md Hok1) as Htype.
  assert (Hact : mp.[md + num_key_sets a + 0] = set_type (key_set_metadata_pool c) md (num_key_sets a) k).
  { pose proof (ro_type _ _ _ _ _ _ _ _ Hro 0 ltac:(lia)) as Ht. unfold set_type at 1 in Ht. rewrite Ht.
    f_equal. apply Z.mod_small. lia. }
  set (g := fun a => set_app_key_settings_2
    (u8 (Z.lor (Z.land (app_key_settings_2 a) (Z.lnot DFC_KEY_TYPE_MASK))
           (dfc_key_type_for_set_type mp.[md + num_key_sets a1 + 0])))
    (set_app_key_len (u8 (dfc_key_set_type_length mp.[md + num_key_sets a1 + 0])) a)).
  pose proof (apps_update g c1 i a1 Ha1) as Ha2. change (apps c1) with (<[i := a1]> (apps c)) in Ha2.
  rewrite list_insert_insert_eq in Ha2. set (c2 := update_app g (Z.of_nat i) c1) in *.
  exists c2, (g a1), versions'. split_and!; [|exact Ha2| |exact Hro|done|by rewrite <- Hact|exact Hout].
  - unfold dfc_credential_roll_key_set. rewrite (app_at_lookup _ _ _ Ha).
    rewrite (proj2 (Z.eqb_neq k 0)), (proj2 (Z.leb_gt _ k)) by lia. cbn [orb negb].
    unfold dfc_key_set_metadata_mutable at 1. rewrite (app_at_lookup _ _ _ Ha), (so_slice _ _ _ _ Hok).
    fold w n shift kp c0. rewrite Hrm. fold c1. rewrite Htype. reflexivity.
  - intros j slot Hj Hslot. pose proof (Z.mod_pos_bound (j + k) (num_key_sets a) ltac:(lia)) as Hjk.
    rewrite (key_of_set_block c i a) by done.
    assert (Ha2' : apps c2 !! i = Some (g a1))
      by (rewrite Ha2; apply list_lookup_insert_eq; by eapply lookup_lt_Some).
    rewrite (key_of_set_block c2 i (g a1)); [| |constructor|done|done]; try done.
    + f_equal. change (key_pool c2) with kp. change (app_key_offset (g a1)) with (app_key_offset a).
      change (app_num_keys (g a1)) with (app_num_keys a). fold w.
      change (dfc_credential_stored_key_length (app_key_storage_len (g a1))) with w.
      rewrite Hrot by (unfold n; nia). f_equal. unfold shift, n. apply roll_index; lia.
    + change (key_pool_used c <= zlen kp). rewrite (proj1 Hout). done.
Qed.

(** ** Witness *)

(** A cleared credential whose first slot gets three key sets of two AES keys, keys and
    set types filled in. *)
Definition rolling : DfcCredential :=
  let (_, c) := dfc_credential_clear zero_credential in
  let (_, c) := dfc_credential_create_application_desfire_order c [1; 0; 0] 0x0F 0x82 in
  let (_, c) := dfc_credential_key_sets_resize c 0 3 2 16 16 in
  let c := set_key_set_metadata_pool (splice (key_set_metadata_pool c) 0 [0x10; 0x11; 0x12; 0x02; 0x02; 0x01]) c in
  set_key_pool (splice (key_pool c) (app_key_offset (app_at c 0)) (Z.of_nat <$> seq 1 96)) c.

Definition rolling_app : DfcApplication := app_at rolling 0.

Lemma roll_key_set_correct_witness :
  sets_ok rolling 0 rolling_app 0 /\ blocks_ok rolling rolling_app /\
  exists c' a' versions',
    dfc_credential_roll_key_set rolling (Z.of_nat 0) 2 = (true, c') /\
    apps c' = <[0%nat := a']> (apps rolling) /\ app_key_versions a' = versions'.
Proof.
  assert (Hs : sets_ok rolling 0 rolling_app 0).
  { constructor; try (vm_compute; reflexivity); try (vm_compute; discriminate).
    vm_compute. split; (discriminate || reflexivity). }
  assert (Hb : blocks_ok rolling rolling_app).
  { constructor; try (vm_compute; reflexivity); try (vm_compute; discriminate).
    vm_compute. split; (discriminate || reflexivity). }
  split; [exact Hs|split; [exact Hb|]].
  destruct (roll_key_set_correct rolling 0 rolling_app 0 2 Hs Hb ltac:(vm_compute; split; reflexivity))
    as (c' & a' & v & H1 & H2 & _ & _ & H3 & _).
  exists c', a', v. split; [exact H1|split; [exact H2|exact H3]].
Defined.
