(* ===== verification/Materialize.v ===== *)
(** [dfc_credential_materialize_contents] ([src/src/dfc_credential.c]): files loaded
    with only a known prefix grow to their declared size without losing it.

    A file that is last in the pool grows in place; any other is parked in the
    caller's scratch, resized (which zeroes it and moves the pool under it) and
    written back. Both come to the same update of the abstract file list. *)

From S2P Require Import Prelude Common Pool CredentialData Credential FileStore.

(** The file's octets after the call, when it succeeds: the known ones, then zeros. *)
Definition grown (d : bytes) (want : Z) : bytes := if want <=? zlen d then d else d ++ zeros (want - zlen d).

(** Whether the call can complete the file: the known octets fit in the scratch and
    the grown ones in the pool. *)
Definition can_grow (c : DfcCredential) (scratch : bytes) (f : DfcFile) (want : Z) : bool :=
  (want <=? data_len f) || ((data_len f <=? zlen scratch) && resize_fits c f want).

(** ** Growing in place *)

Lemma grow_in_place c i f want :
  files_wf c -> live_files c !! i = Some f -> 0 < data_len f -> data_len f < want ->
  data_offset f + data_len f = file_pool_used c ->
  want - data_len f <= dfc_credential_file_pool_free c ->
  let grow := want - data_len f in
  let c1 := set_file_pool (wipe (file_pool c) (file_pool_used c) grow) c in
  let c2 := set_file_pool_used (u16 (file_pool_used c1 + grow)) c1 in
  file_step c (update_file (set_contents_complete true) (Z.of_nat i)
                 (update_file (set_data_len (u16 want)) (Z.of_nat i) c2)) i
    (set_contents_complete true (sans_slice f),
     slice_contents (file_pool c) (file_slice f) ++ zeros (want - data_len f)).
Proof.
  intros Hwf Hi Hpos Hw Hlast Hfree grow c1 c2. pose proof Hwf as [Hfl Hfn Hp].
  pose proof (pool_bound _ _ _ _ Hp) as Hb. pose proof (file_held c i f Hwf Hi Hpos) as (Ho & _ & _).
  assert (Hfit : file_pool_used c + grow <= DFC_FILE_POOL_SIZE).
  { unfold dfc_credential_file_pool_free in Hfree. destruct (_ <=? _) eqn:E; bool_facts; unfold grow; lia. }
  assert (Hw16 : u16 want = want) by (apply u16_id; unfold grow in *; dlia).
  assert (Huw : u16 (file_pool_used c1 + grow) = file_pool_used c + grow) by (apply u16_id; cbn; dlia).
  set (g := set_contents_complete true (set_data_len want f)).
  set (c' := update_file _ _ _).
  assert (Hl : live_files c' = <[i := g]> (live_files c)).
  { unfold c'. rewrite !live_files_update, Nat2Z.id. change (live_files c2) with (live_files c).
    rewrite alter_compose_same, (list_alter_lookup _ _ _ _ Hi), Hw16. done. }
  assert (Hsi : map file_slice (live_files c) !! i = Some (data_offset f, data_len f))
    by (by rewrite list_lookup_fmap, Hi).
  assert (Hg : file_slice g = (data_offset f, data_len f + grow)) by (unfold file_slice, g, grow; cbn; f_equal; lia).
  pose proof (pool_extend_ok _ _ _ _ i _ _ grow Hp Hsi Hpos Hlast ltac:(lia) Hfit) as Hok.
  replace (set_contents_complete true (sans_slice f), _) with (file_view c' g).
  2: { unfold file_view. f_equal. rewrite Hg. change (file_pool c') with (wipe (file_pool c) (file_pool_used c) grow).
       apply (pool_extend_self _ _ _ _ i _ _ grow Hp Hsi Hpos Hlast); (done || lia). }
  constructor; [constructor| | |]; try done.
  - unfold c'. cbn. by rewrite !length_alter.
  - rewrite Hl, list_fmap_insert, Hg. change (file_pool_used c') with (u16 (file_pool_used c1 + grow)).
    rewrite Huw. exact Hok.
  - apply abs_files_ext; [by eapply lookup_lt_Some|by rewrite Hl, length_insert| |].
    + rewrite Hl. apply list_lookup_insert_eq. by eapply lookup_lt_Some.
    + intros j h Hj Hh. exists h. rewrite Hl, list_lookup_insert_ne by done. split; [done|].
      unfold file_view. f_equal.
      eapply (pool_extend_others DFC_FILE_POOL_SIZE _ _ (map file_slice (live_files c)) i); try done;
        [unfold grow; lia|]. by rewrite list_lookup_fmap, Hh.
Qed.

(** ** Parking the known octets *)

(** A step names the file its entry describes. *)
Lemma file_step_lookup c c' i e :
  files_wf c -> (i < length (live_files c))%nat -> file_step c c' i e ->
  exists g, live_files c' !! i = Some g /\ file_view c' g = e.
Proof.
  intros Hwf Hi Hst. pose proof (fs_wf _ _ _ _ Hst) as Hw1.
  assert (Hlt : (i < length (live_files c'))%nat).
  { pose proof (length_live_files _ Hwf). pose proof (length_live_files _ Hw1).
    pose proof (fs_count _ _ _ _ Hst). unfold zlen in *. lia. }
  destruct (lookup_lt_is_Some_2 _ _ Hlt) as [g Hg]. exists g. split; [done|].
  pose proof (f_equal (fun l => l !! i) (fs_abs _ _ _ _ Hst)) as Hl. cbn beta in Hl.
  rewrite list_lookup_insert_eq in Hl by (unfold abs_files; by rewrite length_map).
  unfold abs_files in Hl. rewrite list_lookup_fmap, Hg in Hl. by apply (inj Some) in Hl.
Qed.

(** The flag set on success. *)
Lemma mark_complete_correct c i f :
  files_wf c -> live_files c !! i = Some f ->
  file_step c (update_file (set_contents_complete true) (Z.of_nat i) c) i
    (set_contents_complete true (sans_slice f), slice_contents (file_pool c) (file_slice f)).
Proof.
  intros Hwf Hi. rewrite (update_file_const _ _ _ _ Hi).
  apply (file_update_correct c i f (set_contents_complete true f)); try done.
  intros H0. by apply (file_unheld c i f); [..|lia].
Qed.

(** The known octets written back over the zeros of the resized file. *)
Lemma splice_zeros d want : zlen d <= want -> splice (zeros want) 0 d = d ++ zeros (want - zlen d).
Proof.
  intros H. unfold splice, zeros. change (Z.to_nat 0) with O. rewrite take_0, app_nil_l, drop_replicate.
  f_equal. f_equal. unfold zlen. lia.
Qed.

Lemma write_back c i g d want :
  files_wf c -> live_files c !! i = Some g -> 0 < want ->
  slice_contents (file_pool c) (file_slice g) = zeros want -> zlen d <= want ->
  file_step c (restore_contents c (Z.of_nat i) d) i (sans_slice g, d ++ zeros (want - zlen d)).
Proof.
  intros Hwf Hi Hw Hz Hk. pose proof (file_slice_ok c i g Hwf Hi) as Hs.
  assert (Hlen : data_len g = want).
  { pose proof (f_equal zlen Hz) as Hl. rewrite length_zeros in Hl by lia. rewrite <- Hl.
    destruct Hs as [[H0 _]|(Hp & Ho & Hu)].
    - unfold slice_contents. rewrite H0, slice_nil. exact H0.
    - symmetry. pose proof (pool_bound _ _ _ _ (fw_pool _ Hwf)). pose proof (pool_size _ _ _ _ (fw_pool _ Hwf)).
      apply length_slice; cbn in *; lia. }
  pose proof (file_held c i g Hwf Hi ltac:(lia)) as (Ho & Hu & Hsz).
  unfold restore_contents, dfc_file_data, dfc_file_data_const. rewrite (file_at_live _ _ _ Hi).
  rewrite (proj2 (Z.eqb_neq (data_offset g) _)), (proj2 (Z.eqb_neq (data_len g) 0)),
    (proj2 (Z.ltb_ge _ _)) by dlia. cbn [orb]. destruct (0 <? zlen d) eqn:E; bool_facts.
  - pose proof (file_write_correct c i g 0 d Hwf Hi ltac:(lia) ltac:(lia) ltac:(lia)) as Hst.
    rewrite Z.add_0_r, Hz, splice_zeros in Hst by lia. exact Hst.
  - assert (d = []) as -> by (destruct d; [done|rewrite zlen_cons in E; pose proof (zlen_nonneg d); lia]).
    change (zlen []) with 0. rewrite Z.sub_0_r. cbn [app].
    rewrite <- Hz. constructor; try done. symmetry. apply list_insert_id. unfold abs_files.
    by rewrite list_lookup_fmap, Hi.
Qed.

(** ** One file *)

Lemma file_contents_length c i f :
  files_wf c -> live_files c !! i = Some f ->
  zlen (slice_contents (file_pool c) (file_slice f)) = data_len f.
Proof.
  intros Hwf Hi. pose proof (pool_bound _ _ _ _ (fw_pool _ Hwf)) as Hb.
  pose proof (pool_size _ _ _ _ (fw_pool _ Hwf)) as Hz.
  destruct (file_slice_ok c i f Hwf Hi) as [[H0 _]|(Hp & Ho & Hu)]; unfold slice_contents.
  - rewrite H0, slice_nil. symmetry. exact H0.
  - apply length_slice; cbn in *; lia.
Qed.

(** The scratch holds the known octets. *)
Lemma park_contents_correct c i f scratch :
  files_wf c -> live_files c !! i = Some f -> data_len f <= zlen scratch ->
  zlen (park_contents c f scratch) = zlen scratch /\
  slice (park_contents c f scratch) 0 (data_len f) = slice_contents (file_pool c) (file_slice f).
Proof.
  intros Hwf Hi Hle. pose proof (file_contents_length c i f Hwf Hi) as Hd. unfold park_contents, dfc_file_data_const.
  destruct (Z.lt_ge_cases 0 (data_len f)) as [Hpos|H0].
  - pose proof (file_held c i f Hwf Hi Hpos) as (Ho & Hu & Hsz).
    rewrite (proj2 (Z.eqb_neq (data_offset f) _)), (proj2 (Z.eqb_neq (data_len f) 0)),
      (proj2 (Z.ltb_ge _ _)), (proj2 (Z.ltb_lt 0 (data_len f))) by dlia. cbn [orb].
    change (slice (file_pool c) (data_offset f) (data_len f)) with (slice_contents (file_pool c) (file_slice f)).
    set (d := slice_contents _ _) in *. rewrite <- Hd. split; [apply length_splice; lia|].
    apply slice_splice_same; lia.
  - destruct (file_unheld c i f Hwf Hi H0) as [Hz _]. rewrite (proj2 (Z.eqb_eq (data_len f) 0) Hz), orb_true_r.
    unfold slice_contents. cbn [file_slice fst snd]. by rewrite Hz.
Qed.

(** What one file's turn does to the abstract list: nothing when the file has no octets
    of its own or cannot be completed, otherwise the known octets followed by zeros.
    The scratch keeps its length. *)
Lemma materialize_file_correct c scratch i f :
  files_wf c -> live_files c !! i = Some f -> (forall want, wanted_contents f = Some want -> 0 <= want) ->
  let '(ok, c', scratch') := materialize_file c scratch (Z.of_nat i) in
  zlen scratch' = zlen scratch /\
  match wanted_contents f with
  | None => ok = true /\ c' = c
  | Some want =>
      ok = can_grow c scratch f want /\
      (ok = false -> c' = c) /\
      (ok = true -> file_step c c' i (set_contents_complete true (sans_slice f),
                                      grown (slice_contents (file_pool c) (file_slice f)) want))
  end.
Proof.
  intros Hwf Hi Hnn. unfold materialize_file. rewrite (file_at_live _ _ _ Hi).
  destruct (wanted_contents f) as [want|]; [|done]. specialize (Hnn want eq_refl).
  set (d := slice_contents (file_pool c) (file_slice f)).
  pose proof (file_contents_length c i f Hwf Hi) as Hd. fold d in Hd. pose proof (zlen_nonneg d) as Hd0.
  unfold can_grow, grown. rewrite Hd. destruct (want <=? data_len f) eqn:E1; cbn [orb].
  { split_and!; try done. intros _. by apply mark_complete_correct. }
  bool_facts. destruct (zlen scratch <? data_len f) eqn:E2; bool_facts.
  { rewrite (proj2 (Z.leb_gt (data_len f) (zlen scratch))) by lia. done. }
  rewrite (proj2 (Z.leb_le (data_len f) (zlen scratch))) by lia. cbn [andb].
  destruct (_ && _ && _ && _ && _) eqn:E3.
  { bool_facts. split_and!; try done.
    - symmetry. unfold resize_fits. rewrite (proj2 (Z.leb_le want _)) by lia. apply Z.leb_le.
      unfold dfc_credential_file_pool_free in *. destruct (_ <=? _) eqn:E in *; bool_facts; lia.
    - intros _. by apply grow_in_place. }
  clear E3. destruct (park_contents_correct c i f scratch Hwf Hi E2) as [Hsl Hsd]. fold d in Hsd.
  set (scratch1 := park_contents c f scratch) in *.
  pose proof (dfc_file_resize_correct c i f want Hwf Hi Hnn) as Hr.
  destruct (dfc_file_resize c (Z.of_nat i) want) as [ok c1]. destruct Hr as (-> & Hno & Hyes).
  destruct (resize_fits c f want); cbn [negb]; [|by rewrite (Hno eq_refl)].
  destruct (Hyes eq_refl) as [Hst _]. split_and!; [done..|]. intros _.
  unfold resized_contents in Hst. rewrite (proj2 (Z.eqb_neq want (data_len f))) in Hst by lia.
  pose proof (lookup_lt_Some _ _ _ Hi) as Hlt.
  destruct (file_step_lookup c c1 i _ Hwf Hlt Hst) as (g & Hg & Hv).
  pose proof (f_equal snd Hv : slice_contents (file_pool c1) (file_slice g) = zeros want) as Hgz.
  rewrite Hsd. pose proof (write_back c1 i g d want (fs_wf _ _ _ _ Hst) Hg ltac:(lia) Hgz ltac:(lia)) as Hwb.
  rewrite Hd in Hwb. set (c2 := restore_contents c1 (Z.of_nat i) d) in *.
  pose proof (file_step_trans _ _ _ _ _ _ Hst Hwb) as Hst2.
  destruct (file_step_lookup c c2 i _ Hwf Hlt Hst2) as (h & Hh & Hvh).
  eapply file_step_trans; [exact Hst2|].
  pose proof (mark_complete_correct c2 i h (fs_wf _ _ _ _ Hst2) Hh) as Hm.
  rewrite (f_equal fst Hvh : sans_slice h = sans_slice g), (f_equal fst Hv : sans_slice g = sans_slice f) in Hm.
  rewrite (f_equal snd Hvh : slice_contents (file_pool c2) (file_slice h) = _) in Hm. exact Hm.
Qed.

(** ** All files *)

(** What became of one entry: its settings but for the completeness flag, its octets
    kept or grown; and grown when every file could be completed. *)
Definition materialized (ok : bool) (e e' : DfcFile * bytes) : Prop :=
  set_contents_complete true (fst e') = set_contents_complete true (fst e) /\
  match wanted_contents (fst e) with
  | None => e' = e
  | Some want =>
      (snd e' = snd e \/ snd e' = grown (snd e) want) /\
      (ok = true -> snd e' = grown (snd e) want /\ contents_complete (fst e') = true)
  end.

Lemma materialized_weaken ok ok1 ok2 e e' :
  (ok1 && ok2 = true -> ok = true) -> materialized ok e e' -> materialized (ok1 && ok2) e e'.
Proof.
  intros Hok [Hs Hm]. split; [done|]. destruct (wanted_contents (fst e)); [|done].
  destruct Hm as [H1 H2]. split; [done|]. auto.
Qed.

(** Record and data sizes are unsigned. *)
Definition sizes_nonneg (c : DfcCredential) : Prop :=
  Forall (fun e => forall want, wanted_contents (fst e) = Some want -> 0 <= want) (abs_files c).

(** The state of the loop after [m] files. *)
Definition materialize_loop (c : DfcCredential) (scratch : bytes) (m : nat) : bool * DfcCredential * bytes :=
  fold_left (fun '(complete, c, scratch) i =>
               let '(ok, c, scratch) := materialize_file c scratch i in
               (complete && ok, c, scratch))
    (seqZ 0 (Z.of_nat m)) (true, c, scratch).

Lemma materialize_loop_correct c scratch m :
  files_wf c -> sizes_nonneg c -> (m <= length (abs_files c))%nat ->
  let '(ok, c', scratch') := materialize_loop c scratch m in
  files_wf c' /\ sans_files c' = sans_files c /\ num_files c' = num_files c /\
  (forall i e, abs_files c !! i = Some e -> exists e', abs_files c' !! i = Some e' /\
     if decide (i < m)%nat then materialized ok e e' else e' = e).
Proof.
  intros Hwf Hnn. induction m as [|m IH]; intros Hm.
  { split_and!; try done. intros i e He. by exists e. }
  unfold materialize_loop in *. rewrite seqZ_S, fold_left_app. cbn [fold_left]. rewrite Z.add_0_l.
  destruct (fold_left _ (seqZ 0 (Z.of_nat m)) _) as [[ok c1] scratch1].
  destruct IH as (Hw1 & Hf1 & Hn1 & Habs1); [lia|].
  destruct (lookup_lt_is_Some_2 (abs_files c) m) as [e He]; [lia|].
  destruct (Habs1 m e He) as (e1 & He1 & Heq). rewrite decide_False in Heq by lia. subst e1.
  pose proof He1 as Hlive. unfold abs_files in Hlive. rewrite list_lookup_fmap in Hlive.
  destruct (live_files c1 !! m) as [f|] eqn:Hf; [|done]. apply (inj Some) in Hlive.
  assert (Hwant : wanted_contents f = wanted_contents (fst e)) by (by rewrite <- Hlive).
  pose proof (materialize_file_correct c1 scratch1 m f Hw1 Hf) as Hmf.
  destruct (materialize_file c1 scratch1 (Z.of_nat m)) as [[ok2 c2] scratch2].
  destruct Hmf as [_ Hmf].
  { intros want Hw. rewrite Hwant in Hw. exact (Forall_lookup_1 _ _ _ _ Hnn He want Hw). }
  assert (Hstep : files_wf c2 /\ sans_files c2 = sans_files c1 /\ num_files c2 = num_files c1 /\
    exists e2, abs_files c2 = <[m := e2]> (abs_files c1) /\ materialized ok2 e e2).
  { unfold materialized. rewrite Hwant in Hmf. destruct (wanted_contents (fst e)) as [want|].
    - destruct Hmf as (_ & Hno & Hyes). destruct ok2.
      + destruct (Hyes eq_refl) as [Hw2 Ha2 Hn2 Hf2]. split_and!; [done..|]. eexists. split; [exact Ha2|].
        rewrite <- Hlive. by split; [|split; [right|]].
      + rewrite (Hno eq_refl). split_and!; [done..|]. exists e. rewrite list_insert_id by done.
        split; [done|]. split; [done|]. by split; [left|].
    - destruct Hmf as [_ ->]. split_and!; [done..|]. exists e. by rewrite list_insert_id. }
  destruct Hstep as (Hw2 & Hf2 & Hn2 & e2 & Ha2 & Hm2).
  split_and!; [done|congruence|congruence|]. intros i e' He'. destruct (Habs1 i e' He') as (e1 & He1' & Hi).
  rewrite Ha2. destruct (decide (i = m)) as [->|Hne].
  - exists e2. rewrite list_lookup_insert_eq by (by eapply lookup_lt_Some). split; [done|].
    rewrite decide_True by lia. replace e' with e by congruence.
    apply (materialized_weaken ok2); [|done]. by intros [_ ?]%andb_true_iff.
  - exists e1. rewrite list_lookup_insert_ne by done. split; [done|].
    destruct (decide (i < m)%nat); [rewrite decide_True by lia|rewrite decide_False by lia; done].
    apply (materialized_weaken ok); [|done]. by intros [? _]%andb_true_iff.
Qed.

(** C14: completing the contents of a loaded credential never loses a known octet.
    Every file keeps its settings, and its octets are either what they were or those
    followed by zeros up to the wanted size; when the call reports completion, every
    data and record file holds at least its declared octets and is marked complete.
    Applications, keys and counts are untouched. *)
Theorem materialize_contents_correct c scratch :
  files_wf c -> sizes_nonneg c ->
  let '(ok, c', _) := dfc_credential_materialize_contents c scratch in
  files_wf c' /\ sans_files c' = sans_files c /\ num_files c' = num_files c /\
  (forall i e, abs_files c !! i = Some e -> exists e', abs_files c' !! i = Some e' /\ materialized ok e e').
Proof.
  intros Hwf Hnn. assert (Hl : length (abs_files c) = Z.to_nat (num_files c)).
  { pose proof (length_live_files c Hwf). unfold abs_files, zlen in *. rewrite length_map. lia. }
  pose proof (materialize_loop_correct c scratch _ Hwf Hnn ltac:(rewrite Hl; reflexivity)) as H.
  unfold materialize_loop in H. rewrite Z2Nat.id in H by (pose proof (fw_count _ Hwf); lia).
  unfold dfc_credential_materialize_contents. destruct (fold_left _ _ _) as [[ok c'] s'].
  destruct H as (H1 & H2 & H3 & H4). split_and!; [done..|]. intros i e He.
  destruct (H4 i e He) as (e' & He' & Hm). exists e'. split; [done|].
  rewrite decide_True in Hm; [done|]. apply lookup_lt_Some in He. lia.
Qed.

(** ** Witness *)

(** A credential with one standard file of ten declared octets, of which two are known. *)
Definition partial_file : DfcFile :=
  Build_DfcFile 0 0 2 0 0 1 0 0 false false false (StateData (Build_DfcDataFileState 10 zero_sdm 0)).

Definition partial : DfcCredential :=
  set_num_files 1 (set_files (partial_file :: replicate 31 zero_file)
    (set_file_pool_used 2 (set_file_pool (0xAB :: 0xCD :: zeros 8190) zero_credential))).

Lemma partial_wf : files_wf partial.
Proof.
  constructor; [reflexivity|vm_compute; split; discriminate|].
  change (pool_ok DFC_FILE_POOL_SIZE ([0xAB; 0xCD] ++ zeros (DFC_FILE_POOL_SIZE - zlen [0xAB; 0xCD]))
            (zlen [0xAB; 0xCD]) ((0, zlen [0xAB; 0xCD]) :: [])).
  apply pool_first_ok; [split; [reflexivity|discriminate]|reflexivity|constructor].
Qed.

Lemma materialize_contents_correct_witness :
  files_wf partial /\ sizes_nonneg partial /\
  let '(ok, c', _) := dfc_credential_materialize_contents partial (zeros 64) in
  files_wf c' /\ num_files c' = 1.
Proof.
  assert (Hn : sizes_nonneg partial).
  { constructor; [|constructor]. intros want [= <-]. discriminate. }
  split; [exact partial_wf|split; [exact Hn|]].
  pose proof (materialize_contents_correct partial (zeros 64) partial_wf Hn) as H.
  destruct (dfc_credential_materialize_contents partial (zeros 64)) as [[ok c'] s'].
  destruct H as (H1 & _ & H2 & _). split; [exact H1|exact H2].
Defined.
