(* ===== verification/EmulatorData.v ===== *)
(** The emulator's state: [DfcEmulator] of [src/src/dfc_emulator.h] in the default
    build, with the structs it embeds.

    The struct's fields keep their C names and are grouped by the function of the
    emulator that owns them, so that [memset(emulator, 0, sizeof)] is
    [zero_emulator]: the transaction journal, the transaction MAC, the native and the
    EV2 authentication, the command and response chains, and the state of the timer,
    the proximity check, virtual-card selection, the SDM read cache and delegated
    creation. An owned allocation is an [option]: [None] is the null pointer. The
    pending-authentication union is its storage, the octets of its longest arm. *)

From S2P Require Import Prelude Common Pool CredentialData.

Definition DFC_TRANSACTION_FILE_BITMAP_SIZE : Z := (DFC_MAX_FILES + 7) / 8.
Definition DFC_EMULATOR_CHAIN_BUFFER_SIZE : Z := DFC_MAX_FILE_DATA + 32.
Definition DFC_SDM_READ_CACHE_SIZE : Z := 192.
Definition DFC_PROXIMITY_RANDOM_LENGTH : Z := 8.
Definition DFC_PROXIMITY_TRANSCRIPT_MAX : Z := DFC_PROXIMITY_RANDOM_LENGTH * 2.
Definition DFC_DELEGATED_CREATE_MAX_HEADER_LENGTH : Z := 34.
Definition DFC_TRANSACTION_TIMER_EXPIRY_MILLISECONDS : Z := 1000.
Definition DFC_TRANSACTION_TIMER_CAPABILITY_OFFSET : Z := 5.
Definition DFC_TRANSACTION_TIMER_SHORT : Z := 0x01.
Definition DFC_LIMITED_CREDIT_TRANSACTION_CONSUMED : Z := -1.
Definition DFC_BYTEBUF_MAX : Z := 256.

#[export] Hint Unfold DFC_TRANSACTION_FILE_BITMAP_SIZE DFC_EMULATOR_CHAIN_BUFFER_SIZE
  DFC_SDM_READ_CACHE_SIZE DFC_PROXIMITY_RANDOM_LENGTH DFC_PROXIMITY_TRANSCRIPT_MAX
  DFC_DELEGATED_CREATE_MAX_HEADER_LENGTH DFC_TRANSACTION_TIMER_EXPIRY_MILLISECONDS
  DFC_TRANSACTION_TIMER_CAPABILITY_OFFSET DFC_LIMITED_CREDIT_TRANSACTION_CONSUMED
  DFC_BYTEBUF_MAX : dfc_const.

(** ** Field assignments of files the emulator makes *)

Definition set_transaction_pending (v : bool) (r : DfcFile) : DfcFile :=
  Build_DfcFile (file_app_index r) (data_offset r) (data_len r) (access_rights r)
    (file_iso_file_id r) (number r) (file_type r) (comm_settings r) (file_has_iso_file_id r)
    (contents_complete r) v (state r).

Definition set_record_count (v : Z) (r : DfcRecordFileState) : DfcRecordFileState :=
  Build_DfcRecordFileState (record_size r) (max_records r) v.

Definition set_current (v : Z) (r : DfcValueFileState) : DfcValueFileState :=
  Build_DfcValueFileState (lower_limit r) (upper_limit r) v (pending_delta r) (pending_value
    r) (limited_credit_value r) (limited_credit_pending r) (limited_credit r) (value_pending
    r) (pending_absolute r).

Definition set_limited_credit_value (v : Z) (r : DfcValueFileState) : DfcValueFileState :=
  Build_DfcValueFileState (lower_limit r) (upper_limit r) (current r) (pending_delta r)
    (pending_value r) v (limited_credit_pending r) (limited_credit r) (value_pending r)
    (pending_absolute r).

Definition zero_value : DfcValueFileState :=
  Build_DfcValueFileState 0 0 0 0 0 0 0 0 false false.

Definition state_value (s : DfcFileState) : DfcValueFileState :=
  match s with StateValue v => v | _ => zero_value end.

(** The record-count field of a record file. *)
Definition set_file_record_count (n : Z) (f : DfcFile) : DfcFile :=
  set_state (StateRecord (set_record_count n (state_record (state f)))) f.

(** ** Embedded structs *)

(** The response buffer. *)
Record DfcByteBuf := {
  bytebuf_data : bytes;
  size_bytes : Z;
}.

Definition set_size_bytes (v : Z) (r : DfcByteBuf) : DfcByteBuf :=
  Build_DfcByteBuf (bytebuf_data r) v.

Definition zero_bytebuf : DfcByteBuf :=
  Build_DfcByteBuf (zeros DFC_BYTEBUF_MAX) 0.

(** A native session: its cipher, key, key length, chained iv and side. *)
Record DfcSecureMessaging := {
  sm_cipher : Z;
  session_key : bytes;
  session_key_len : Z;
  sm_iv : bytes;
  pcd : bool;
}.

Definition zero_secure_messaging : DfcSecureMessaging :=
  Build_DfcSecureMessaging 0 (zeros DFC_MAX_KEY_LEN) 0 (zeros 16) false.

(** The running transaction MAC. *)
Record DfcTransactionMacAccumulator := {
  accumulator_session_key : bytes;
  accumulator_chain : bytes;
  accumulator_pending : bytes;
  accumulator_initialized : bool;
  has_pending : bool;
}.

Definition zero_accumulator : DfcTransactionMacAccumulator :=
  Build_DfcTransactionMacAccumulator (zeros 16) (zeros 16) (zeros 16) false false.

Inductive DfcEmulatorSelectedApplication :=
| DfcEmulatorSelectedApplicationNone
| DfcEmulatorSelectedApplicationPicc
| DfcEmulatorSelectedApplicationApp.

(** ** The groups of [DfcEmulator] *)

(** The preimages of the open transaction: [transaction_snapshot_*] and [transaction_record_*]. *)
Record TransactionJournal := {
  transaction_snapshot_pool : option bytes;
  transaction_snapshot_app_index : Z;
  transaction_snapshot_pool_length : Z;
  transaction_snapshot_pool_capacity : Z;
  transaction_snapshot_record_counts : list Z;
  transaction_snapshot_offsets : list Z;
  transaction_record_numbers : list Z;
  transaction_record_operations : bytes;
  transaction_snapshot_captured : bytes;
  transaction_snapshot_created : bytes;
  transaction_snapshot_active : bool;
  transaction_snapshot_dirty : bool;
}.

Definition set_transaction_snapshot_pool (v : option bytes) (r : TransactionJournal) : TransactionJournal :=
  Build_TransactionJournal v (transaction_snapshot_app_index r)
    (transaction_snapshot_pool_length r) (transaction_snapshot_pool_capacity r)
    (transaction_snapshot_record_counts r) (transaction_snapshot_offsets r)
    (transaction_record_numbers r) (transaction_record_operations r)
    (transaction_snapshot_captured r) (transaction_snapshot_created r)
    (transaction_snapshot_active r) (transaction_snapshot_dirty r).

Definition set_transaction_snapshot_app_index (v : Z) (r : TransactionJournal) : TransactionJournal :=
  Build_TransactionJournal (transaction_snapshot_pool r) v (transaction_snapshot_pool_length
    r) (transaction_snapshot_pool_capacity r) (transaction_snapshot_record_counts r)
    (transaction_snapshot_offsets r) (transaction_record_numbers r)
    (transaction_record_operations r) (transaction_snapshot_captured r)
    (transaction_snapshot_created r) (transaction_snapshot_active r)
    (transaction_snapshot_dirty r).

Definition set_transaction_snapshot_pool_length (v : Z) (r : TransactionJournal) : TransactionJournal :=
  Build_TransactionJournal (transaction_snapshot_pool r) (transaction_snapshot_app_index r)
    v (transaction_snapshot_pool_capacity r) (transaction_snapshot_record_counts r)
    (transaction_snapshot_offsets r) (transaction_record_numbers r)
    (transaction_record_operations r) (transaction_snapshot_captured r)
    (transaction_snapshot_created r) (transaction_snapshot_active r)
    (transaction_snapshot_dirty r).

Definition set_transaction_snapshot_pool_capacity (v : Z) (r : TransactionJournal) : TransactionJournal :=
  Build_TransactionJournal (transaction_snapshot_pool r) (transaction_snapshot_app_index r)
    (transaction_snapshot_pool_length r) v (transaction_snapshot_record_counts r)
    (transaction_snapshot_offsets r) (transaction_record_numbers r)
    (transaction_record_operations r) (transaction_snapshot_captured r)
    (transaction_snapshot_created r) (transaction_snapshot_active r)
    (transaction_snapshot_dirty r).

Definition set_transaction_snapshot_record_counts (v : list Z) (r : TransactionJournal) : TransactionJournal :=
  Build_TransactionJournal (transaction_snapshot_pool r) (transaction_snapshot_app_index r)
    (transaction_snapshot_pool_length r) (transaction_snapshot_pool_capacity r) v
    (transaction_snapshot_offsets r) (transaction_record_numbers r)
    (transaction_record_operations r) (transaction_snapshot_captured r)
    (transaction_snapshot_created r) (transaction_snapshot_active r)
    (transaction_snapshot_dirty r).

Definition set_transaction_snapshot_offsets (v : list Z) (r : TransactionJournal) : TransactionJournal :=
  Build_TransactionJournal (transaction_snapshot_pool r) (transaction_snapshot_app_index r)
    (transaction_snapshot_pool_length r) (transaction_snapshot_pool_capacity r)
    (transaction_snapshot_record_counts r) v (transaction_record_numbers r)
    (transaction_record_operations r) (transaction_snapshot_captured r)
    (transaction_snapshot_created r) (transaction_snapshot_active r)
    (transaction_snapshot_dirty r).

Definition set_transaction_record_numbers (v : list Z) (r : TransactionJournal) : TransactionJournal :=
  Build_TransactionJournal (transaction_snapshot_pool r) (transaction_snapshot_app_index r)
    (transaction_snapshot_pool_length r) (transaction_snapshot_pool_capacity r)
    (transaction_snapshot_record_counts r) (transaction_snapshot_offsets r) v
    (transaction_record_operations r) (transaction_snapshot_captured r)
    (transaction_snapshot_created r) (transaction_snapshot_active r)
    (transaction_snapshot_dirty r).

Definition set_transaction_record_operations (v : bytes) (r : TransactionJournal) : TransactionJournal :=
  Build_TransactionJournal (transaction_snapshot_pool r) (transaction_snapshot_app_index r)
    (transaction_snapshot_pool_length r) (transaction_snapshot_pool_capacity r)
    (transaction_snapshot_record_counts r) (transaction_snapshot_offsets r)
    (transaction_record_numbers r) v (transaction_snapshot_captured r)
    (transaction_snapshot_created r) (transaction_snapshot_active r)
    (transaction_snapshot_dirty r).

Definition set_transaction_snapshot_captured (v : bytes) (r : TransactionJournal) : TransactionJournal :=
  Build_TransactionJournal (transaction_snapshot_pool r) (transaction_snapshot_app_index r)
    (transaction_snapshot_pool_length r) (transaction_snapshot_pool_capacity r)
    (transaction_snapshot_record_counts r) (transaction_snapshot_offsets r)
    (transaction_record_numbers r) (transaction_record_operations r) v
    (transaction_snapshot_created r) (transaction_snapshot_active r)
    (transaction_snapshot_dirty r).

Definition set_transaction_snapshot_created (v : bytes) (r : TransactionJournal) : TransactionJournal :=
  Build_TransactionJournal (transaction_snapshot_pool r) (transaction_snapshot_app_index r)
    (transaction_snapshot_pool_length r) (transaction_snapshot_pool_capacity r)
    (transaction_snapshot_record_counts r) (transaction_snapshot_offsets r)
    (transaction_record_numbers r) (transaction_record_operations r)
    (transaction_snapshot_captured r) v (transaction_snapshot_active r)
    (transaction_snapshot_dirty r).

Definition set_transaction_snapshot_active (v : bool) (r : TransactionJournal) : TransactionJournal :=
  Build_TransactionJournal (transaction_snapshot_pool r) (transaction_snapshot_app_index r)
    (transaction_snapshot_pool_length r) (transaction_snapshot_pool_capacity r)
    (transaction_snapshot_record_counts r) (transaction_snapshot_offsets r)
    (transaction_record_numbers r) (transaction_record_operations r)
    (transaction_snapshot_captured r) (transaction_snapshot_created r) v
    (transaction_snapshot_dirty r).

Definition set_transaction_snapshot_dirty (v : bool) (r : TransactionJournal) : TransactionJournal :=
  Build_TransactionJournal (transaction_snapshot_pool r) (transaction_snapshot_app_index r)
    (transaction_snapshot_pool_length r) (transaction_snapshot_pool_capacity r)
    (transaction_snapshot_record_counts r) (transaction_snapshot_offsets r)
    (transaction_record_numbers r) (transaction_record_operations r)
    (transaction_snapshot_captured r) (transaction_snapshot_created r)
    (transaction_snapshot_active r) v.

Definition zero_journal : TransactionJournal :=
  Build_TransactionJournal None 0 0 0 (zeros DFC_MAX_FILES) (zeros DFC_MAX_FILES) (zeros
    DFC_MAX_FILES) (zeros DFC_MAX_FILES) (zeros DFC_TRANSACTION_FILE_BITMAP_SIZE) (zeros
    DFC_TRANSACTION_FILE_BITMAP_SIZE) false false.

(** The transaction MAC and the reader identity of the open transaction. *)
Record TransactionMacState := {
  transaction_mac : DfcTransactionMacAccumulator;
  transaction_reader_id_pending : bool;
  transaction_reader_id_persist : bool;
  transaction_mac_retryable_failure : bool;
  transaction_pending_reader_id : bytes;
}.

Definition set_transaction_mac (v : DfcTransactionMacAccumulator) (r : TransactionMacState) : TransactionMacState :=
  Build_TransactionMacState v (transaction_reader_id_pending r)
    (transaction_reader_id_persist r) (transaction_mac_retryable_failure r)
    (transaction_pending_reader_id r).

Definition set_transaction_reader_id_pending (v : bool) (r : TransactionMacState) : TransactionMacState :=
  Build_TransactionMacState (transaction_mac r) v (transaction_reader_id_persist r)
    (transaction_mac_retryable_failure r) (transaction_pending_reader_id r).

Definition set_transaction_reader_id_persist (v : bool) (r : TransactionMacState) : TransactionMacState :=
  Build_TransactionMacState (transaction_mac r) (transaction_reader_id_pending r) v
    (transaction_mac_retryable_failure r) (transaction_pending_reader_id r).

Definition set_transaction_mac_retryable_failure (v : bool) (r : TransactionMacState) : TransactionMacState :=
  Build_TransactionMacState (transaction_mac r) (transaction_reader_id_pending r)
    (transaction_reader_id_persist r) v (transaction_pending_reader_id r).

Definition set_transaction_pending_reader_id (v : bytes) (r : TransactionMacState) : TransactionMacState :=
  Build_TransactionMacState (transaction_mac r) (transaction_reader_id_pending r)
    (transaction_reader_id_persist r) (transaction_mac_retryable_failure r) v.

Definition zero_transaction_mac : TransactionMacState :=
  Build_TransactionMacState zero_accumulator false false false (zeros 16).

(** The union of the native, EV2 and ISO 7816 handshakes: the ISO arm, two challenges,
    an iv and a key, is the longest. *)
Definition PENDING_AUTHENTICATION_SIZE : Z := 16 + 16 + 16 + DFC_MAX_KEY_LEN.

(** Native and ISO 7816 authentication. *)
Record NativeAuthentication := {
  secure_messaging : option DfcSecureMessaging;
  auth_cipher : Z;
  auth_key_no : Z;
  pending_auth_cipher : Z;
  pending_auth_key_no : Z;
  pending_authentication : bytes;
  awaiting_step2 : bool;
  iso_auth_phase : Z;
  iso_auth_challenge_len : Z;
  iso_auth_key_no : Z;
  iso_auth_cipher : Z;
  iso_auth_reference : Z;
  iso_auth_key_len : Z;
}.

Definition set_secure_messaging (v : option DfcSecureMessaging) (r : NativeAuthentication) : NativeAuthentication :=
  Build_NativeAuthentication v (auth_cipher r) (auth_key_no r) (pending_auth_cipher r)
    (pending_auth_key_no r) (pending_authentication r) (awaiting_step2 r) (iso_auth_phase r)
    (iso_auth_challenge_len r) (iso_auth_key_no r) (iso_auth_cipher r) (iso_auth_reference
    r) (iso_auth_key_len r).

Definition set_auth_cipher (v : Z) (r : NativeAuthentication) : NativeAuthentication :=
  Build_NativeAuthentication (secure_messaging r) v (auth_key_no r) (pending_auth_cipher r)
    (pending_auth_key_no r) (pending_authentication r) (awaiting_step2 r) (iso_auth_phase r)
    (iso_auth_challenge_len r) (iso_auth_key_no r) (iso_auth_cipher r) (iso_auth_reference
    r) (iso_auth_key_len r).

Definition set_auth_key_no (v : Z) (r : NativeAuthentication) : NativeAuthentication :=
  Build_NativeAuthentication (secure_messaging r) (auth_cipher r) v (pending_auth_cipher r)
    (pending_auth_key_no r) (pending_authentication r) (awaiting_step2 r) (iso_auth_phase r)
    (iso_auth_challenge_len r) (iso_auth_key_no r) (iso_auth_cipher r) (iso_auth_reference
    r) (iso_auth_key_len r).

Definition set_pending_auth_cipher (v : Z) (r : NativeAuthentication) : NativeAuthentication :=
  Build_NativeAuthentication (secure_messaging r) (auth_cipher r) (auth_key_no r) v
    (pending_auth_key_no r) (pending_authentication r) (awaiting_step2 r) (iso_auth_phase r)
    (iso_auth_challenge_len r) (iso_auth_key_no r) (iso_auth_cipher r) (iso_auth_reference
    r) (iso_auth_key_len r).

Definition set_pending_auth_key_no (v : Z) (r : NativeAuthentication) : NativeAuthentication :=
  Build_NativeAuthentication (secure_messaging r) (auth_cipher r) (auth_key_no r)
    (pending_auth_cipher r) v (pending_authentication r) (awaiting_step2 r) (iso_auth_phase
    r) (iso_auth_challenge_len r) (iso_auth_key_no r) (iso_auth_cipher r)
    (iso_auth_reference r) (iso_auth_key_len r).

Definition set_pending_authentication (v : bytes) (r : NativeAuthentication) : NativeAuthentication :=
  Build_NativeAuthentication (secure_messaging r) (auth_cipher r) (auth_key_no r)
    (pending_auth_cipher r) (pending_auth_key_no r) v (awaiting_step2 r) (iso_auth_phase r)
    (iso_auth_challenge_len r) (iso_auth_key_no r) (iso_auth_cipher r) (iso_auth_reference
    r) (iso_auth_key_len r).

Definition set_awaiting_step2 (v : bool) (r : NativeAuthentication) : NativeAuthentication :=
  Build_NativeAuthentication (secure_messaging r) (auth_cipher r) (auth_key_no r)
    (pending_auth_cipher r) (pending_auth_key_no r) (pending_authentication r) v
    (iso_auth_phase r) (iso_auth_challenge_len r) (iso_auth_key_no r) (iso_auth_cipher r)
    (iso_auth_reference r) (iso_auth_key_len r).

Definition set_iso_auth_phase (v : Z) (r : NativeAuthentication) : NativeAuthentication :=
  Build_NativeAuthentication (secure_messaging r) (auth_cipher r) (auth_key_no r)
    (pending_auth_cipher r) (pending_auth_key_no r) (pending_authentication r)
    (awaiting_step2 r) v (iso_auth_challenge_len r) (iso_auth_key_no r) (iso_auth_cipher r)
    (iso_auth_reference r) (iso_auth_key_len r).

Definition set_iso_auth_challenge_len (v : Z) (r : NativeAuthentication) : NativeAuthentication :=
  Build_NativeAuthentication (secure_messaging r) (auth_cipher r) (auth_key_no r)
    (pending_auth_cipher r) (pending_auth_key_no r) (pending_authentication r)
    (awaiting_step2 r) (iso_auth_phase r) v (iso_auth_key_no r) (iso_auth_cipher r)
    (iso_auth_reference r) (iso_auth_key_len r).

Definition set_iso_auth_key_no (v : Z) (r : NativeAuthentication) : NativeAuthentication :=
  Build_NativeAuthentication (secure_messaging r) (auth_cipher r) (auth_key_no r)
    (pending_auth_cipher r) (pending_auth_key_no r) (pending_authentication r)
    (awaiting_step2 r) (iso_auth_phase r) (iso_auth_challenge_len r) v (iso_auth_cipher r)
    (iso_auth_reference r) (iso_auth_key_len r).

Definition set_iso_auth_cipher (v : Z) (r : NativeAuthentication) : NativeAuthentication :=
  Build_NativeAuthentication (secure_messaging r) (auth_cipher r) (auth_key_no r)
    (pending_auth_cipher r) (pending_auth_key_no r) (pending_authentication r)
    (awaiting_step2 r) (iso_auth_phase r) (iso_auth_challenge_len r) (iso_auth_key_no r) v
    (iso_auth_reference r) (iso_auth_key_len r).

Definition set_iso_auth_reference (v : Z) (r : NativeAuthentication) : NativeAuthentication :=
  Build_NativeAuthentication (secure_messaging r) (auth_cipher r) (auth_key_no r)
    (pending_auth_cipher r) (pending_auth_key_no r) (pending_authentication r)
    (awaiting_step2 r) (iso_auth_phase r) (iso_auth_challenge_len r) (iso_auth_key_no r)
    (iso_auth_cipher r) v (iso_auth_key_len r).

Definition set_iso_auth_key_len (v : Z) (r : NativeAuthentication) : NativeAuthentication :=
  Build_NativeAuthentication (secure_messaging r) (auth_cipher r) (auth_key_no r)
    (pending_auth_cipher r) (pending_auth_key_no r) (pending_authentication r)
    (awaiting_step2 r) (iso_auth_phase r) (iso_auth_challenge_len r) (iso_auth_key_no r)
    (iso_auth_cipher r) (iso_auth_reference r) v.

Definition zero_native : NativeAuthentication :=
  Build_NativeAuthentication None 0 0 0 0 (zeros PENDING_AUTHENTICATION_SIZE) false 0 0 0 0
    0 0.

(** EV2 authentication. *)
Record Ev2Authentication := {
  ev2_command_counter : Z;
  ev2_response_plain : bool;
  ev2_authentication_pending : bool;
  ev2_authentication_non_first : bool;
  ev2_session_active : bool;
  ev2_authenticated_key_no : Z;
  ev2_pending_authenticated_key_no : Z;
  ev2_transaction_identifier : bytes;
  ev2_card_capabilities : bytes;
  ev2_reader_capabilities : bytes;
  ev2_session_encryption_key : bytes;
  ev2_session_mac_key : bytes;
}.

Definition set_ev2_command_counter (v : Z) (r : Ev2Authentication) : Ev2Authentication :=
  Build_Ev2Authentication v (ev2_response_plain r) (ev2_authentication_pending r)
    (ev2_authentication_non_first r) (ev2_session_active r) (ev2_authenticated_key_no r)
    (ev2_pending_authenticated_key_no r) (ev2_transaction_identifier r)
    (ev2_card_capabilities r) (ev2_reader_capabilities r) (ev2_session_encryption_key r)
    (ev2_session_mac_key r).

Definition set_ev2_response_plain (v : bool) (r : Ev2Authentication) : Ev2Authentication :=
  Build_Ev2Authentication (ev2_command_counter r) v (ev2_authentication_pending r)
    (ev2_authentication_non_first r) (ev2_session_active r) (ev2_authenticated_key_no r)
    (ev2_pending_authenticated_key_no r) (ev2_transaction_identifier r)
    (ev2_card_capabilities r) (ev2_reader_capabilities r) (ev2_session_encryption_key r)
    (ev2_session_mac_key r).

Definition set_ev2_authentication_pending (v : bool) (r : Ev2Authentication) : Ev2Authentication :=
  Build_Ev2Authentication (ev2_command_counter r) (ev2_response_plain r) v
    (ev2_authentication_non_first r) (ev2_session_active r) (ev2_authenticated_key_no r)
    (ev2_pending_authenticated_key_no r) (ev2_transaction_identifier r)
    (ev2_card_capabilities r) (ev2_reader_capabilities r) (ev2_session_encryption_key r)
    (ev2_session_mac_key r).

Definition set_ev2_authentication_non_first (v : bool) (r : Ev2Authentication) : Ev2Authentication :=
  Build_Ev2Authentication (ev2_command_counter r) (ev2_response_plain r)
    (ev2_authentication_pending r) v (ev2_session_active r) (ev2_authenticated_key_no r)
    (ev2_pending_authenticated_key_no r) (ev2_transaction_identifier r)
    (ev2_card_capabilities r) (ev2_reader_capabilities r) (ev2_session_encryption_key r)
    (ev2_session_mac_key r).

Definition set_ev2_session_active (v : bool) (r : Ev2Authentication) : Ev2Authentication :=
  Build_Ev2Authentication (ev2_command_counter r) (ev2_response_plain r)
    (ev2_authentication_pending r) (ev2_authentication_non_first r) v
    (ev2_authenticated_key_no r) (ev2_pending_authenticated_key_no r)
    (ev2_transaction_identifier r) (ev2_card_capabilities r) (ev2_reader_capabilities r)
    (ev2_session_encryption_key r) (ev2_session_mac_key r).

Definition set_ev2_authenticated_key_no (v : Z) (r : Ev2Authentication) : Ev2Authentication :=
  Build_Ev2Authentication (ev2_command_counter r) (ev2_response_plain r)
    (ev2_authentication_pending r) (ev2_authentication_non_first r) (ev2_session_active r) v
    (ev2_pending_authenticated_key_no r) (ev2_transaction_identifier r)
    (ev2_card_capabilities r) (ev2_reader_capabilities r) (ev2_session_encryption_key r)
    (ev2_session_mac_key r).

Definition set_ev2_pending_authenticated_key_no (v : Z) (r : Ev2Authentication) : Ev2Authentication :=
  Build_Ev2Authentication (ev2_command_counter r) (ev2_response_plain r)
    (ev2_authentication_pending r) (ev2_authentication_non_first r) (ev2_session_active r)
    (ev2_authenticated_key_no r) v (ev2_transaction_identifier r) (ev2_card_capabilities r)
    (ev2_reader_capabilities r) (ev2_session_encryption_key r) (ev2_session_mac_key r).

Definition set_ev2_transaction_identifier (v : bytes) (r : Ev2Authentication) : Ev2Authentication :=
  Build_Ev2Authentication (ev2_command_counter r) (ev2_response_plain r)
    (ev2_authentication_pending r) (ev2_authentication_non_first r) (ev2_session_active r)
    (ev2_authenticated_key_no r) (ev2_pending_authenticated_key_no r) v
    (ev2_card_capabilities r) (ev2_reader_capabilities r) (ev2_session_encryption_key r)
    (ev2_session_mac_key r).

Definition set_ev2_card_capabilities (v : bytes) (r : Ev2Authentication) : Ev2Authentication :=
  Build_Ev2Authentication (ev2_command_counter r) (ev2_response_plain r)
    (ev2_authentication_pending r) (ev2_authentication_non_first r) (ev2_session_active r)
    (ev2_authenticated_key_no r) (ev2_pending_authenticated_key_no r)
    (ev2_transaction_identifier r) v (ev2_reader_capabilities r) (ev2_session_encryption_key
    r) (ev2_session_mac_key r).

Definition set_ev2_reader_capabilities (v : bytes) (r : Ev2Authentication) : Ev2Authentication :=
  Build_Ev2Authentication (ev2_command_counter r) (ev2_response_plain r)
    (ev2_authentication_pending r) (ev2_authentication_non_first r) (ev2_session_active r)
    (ev2_authenticated_key_no r) (ev2_pending_authenticated_key_no r)
    (ev2_transaction_identifier r) (ev2_card_capabilities r) v (ev2_session_encryption_key
    r) (ev2_session_mac_key r).

Definition set_ev2_session_encryption_key (v : bytes) (r : Ev2Authentication) : Ev2Authentication :=
  Build_Ev2Authentication (ev2_command_counter r) (ev2_response_plain r)
    (ev2_authentication_pending r) (ev2_authentication_non_first r) (ev2_session_active r)
    (ev2_authenticated_key_no r) (ev2_pending_authenticated_key_no r)
    (ev2_transaction_identifier r) (ev2_card_capabilities r) (ev2_reader_capabilities r) v
    (ev2_session_mac_key r).

Definition set_ev2_session_mac_key (v : bytes) (r : Ev2Authentication) : Ev2Authentication :=
  Build_Ev2Authentication (ev2_command_counter r) (ev2_response_plain r)
    (ev2_authentication_pending r) (ev2_authentication_non_first r) (ev2_session_active r)
    (ev2_authenticated_key_no r) (ev2_pending_authenticated_key_no r)
    (ev2_transaction_identifier r) (ev2_card_capabilities r) (ev2_reader_capabilities r)
    (ev2_session_encryption_key r) v.

Definition zero_ev2 : Ev2Authentication :=
  Build_Ev2Authentication 0 false false false false 0 0 (zeros 4) (zeros 6) (zeros 6) (zeros
    16) (zeros 16).

(** The command being reassembled and the response being sent. *)
Record CommandChains := {
  command_chain : option bytes;
  command_chain_active : bool;
  command_chain_len : Z;
  command_chain_expected : Z;
  pending_chain_len : Z;
  pending_chain_offset : Z;
  pending_chain_frame : Z;
  pending_chain_last : Z;
  pending_chain_zero : bool;
  pending_chain : bytes;
  pending_chain_chunks : bytes;
  pending_chain_chunk_count : Z;
  pending_chain_chunk_index : Z;
  df_names_pending : bool;
  df_names_next : Z;
  get_version_frame : Z;
}.

Definition set_command_chain (v : option bytes) (r : CommandChains) : CommandChains :=
  Build_CommandChains v (command_chain_active r) (command_chain_len r)
    (command_chain_expected r) (pending_chain_len r) (pending_chain_offset r)
    (pending_chain_frame r) (pending_chain_last r) (pending_chain_zero r) (pending_chain r)
    (pending_chain_chunks r) (pending_chain_chunk_count r) (pending_chain_chunk_index r)
    (df_names_pending r) (df_names_next r) (get_version_frame r).

Definition set_command_chain_active (v : bool) (r : CommandChains) : CommandChains :=
  Build_CommandChains (command_chain r) v (command_chain_len r) (command_chain_expected r)
    (pending_chain_len r) (pending_chain_offset r) (pending_chain_frame r)
    (pending_chain_last r) (pending_chain_zero r) (pending_chain r) (pending_chain_chunks r)
    (pending_chain_chunk_count r) (pending_chain_chunk_index r) (df_names_pending r)
    (df_names_next r) (get_version_frame r).

Definition set_command_chain_len (v : Z) (r : CommandChains) : CommandChains :=
  Build_CommandChains (command_chain r) (command_chain_active r) v (command_chain_expected
    r) (pending_chain_len r) (pending_chain_offset r) (pending_chain_frame r)
    (pending_chain_last r) (pending_chain_zero r) (pending_chain r) (pending_chain_chunks r)
    (pending_chain_chunk_count r) (pending_chain_chunk_index r) (df_names_pending r)
    (df_names_next r) (get_version_frame r).

Definition set_command_chain_expected (v : Z) (r : CommandChains) : CommandChains :=
  Build_CommandChains (command_chain r) (command_chain_active r) (command_chain_len r) v
    (pending_chain_len r) (pending_chain_offset r) (pending_chain_frame r)
    (pending_chain_last r) (pending_chain_zero r) (pending_chain r) (pending_chain_chunks r)
    (pending_chain_chunk_count r) (pending_chain_chunk_index r) (df_names_pending r)
    (df_names_next r) (get_version_frame r).

Definition set_pending_chain_len (v : Z) (r : CommandChains) : CommandChains :=
  Build_CommandChains (command_chain r) (command_chain_active r) (command_chain_len r)
    (command_chain_expected r) v (pending_chain_offset r) (pending_chain_frame r)
    (pending_chain_last r) (pending_chain_zero r) (pending_chain r) (pending_chain_chunks r)
    (pending_chain_chunk_count r) (pending_chain_chunk_index r) (df_names_pending r)
    (df_names_next r) (get_version_frame r).

Definition set_pending_chain_offset (v : Z) (r : CommandChains) : CommandChains :=
  Build_CommandChains (command_chain r) (command_chain_active r) (command_chain_len r)
    (command_chain_expected r) (pending_chain_len r) v (pending_chain_frame r)
    (pending_chain_last r) (pending_chain_zero r) (pending_chain r) (pending_chain_chunks r)
    (pending_chain_chunk_count r) (pending_chain_chunk_index r) (df_names_pending r)
    (df_names_next r) (get_version_frame r).

Definition set_pending_chain_frame (v : Z) (r : CommandChains) : CommandChains :=
  Build_CommandChains (command_chain r) (command_chain_active r) (command_chain_len r)
    (command_chain_expected r) (pending_chain_len r) (pending_chain_offset r) v
    (pending_chain_last r) (pending_chain_zero r) (pending_chain r) (pending_chain_chunks r)
    (pending_chain_chunk_count r) (pending_chain_chunk_index r) (df_names_pending r)
    (df_names_next r) (get_version_frame r).

Definition set_pending_chain_last (v : Z) (r : CommandChains) : CommandChains :=
  Build_CommandChains (command_chain r) (command_chain_active r) (command_chain_len r)
    (command_chain_expected r) (pending_chain_len r) (pending_chain_offset r)
    (pending_chain_frame r) v (pending_chain_zero r) (pending_chain r) (pending_chain_chunks
    r) (pending_chain_chunk_count r) (pending_chain_chunk_index r) (df_names_pending r)
    (df_names_next r) (get_version_frame r).

Definition set_pending_chain (v : bytes) (r : CommandChains) : CommandChains :=
  Build_CommandChains (command_chain r) (command_chain_active r) (command_chain_len r)
    (command_chain_expected r) (pending_chain_len r) (pending_chain_offset r)
    (pending_chain_frame r) (pending_chain_last r) (pending_chain_zero r) v
    (pending_chain_chunks r) (pending_chain_chunk_count r) (pending_chain_chunk_index r)
    (df_names_pending r) (df_names_next r) (get_version_frame r).

Definition set_pending_chain_chunks (v : bytes) (r : CommandChains) : CommandChains :=
  Build_CommandChains (command_chain r) (command_chain_active r) (command_chain_len r)
    (command_chain_expected r) (pending_chain_len r) (pending_chain_offset r)
    (pending_chain_frame r) (pending_chain_last r) (pending_chain_zero r) (pending_chain r)
    v (pending_chain_chunk_count r) (pending_chain_chunk_index r) (df_names_pending r)
    (df_names_next r) (get_version_frame r).

Definition set_pending_chain_chunk_count (v : Z) (r : CommandChains) : CommandChains :=
  Build_CommandChains (command_chain r) (command_chain_active r) (command_chain_len r)
    (command_chain_expected r) (pending_chain_len r) (pending_chain_offset r)
    (pending_chain_frame r) (pending_chain_last r) (pending_chain_zero r) (pending_chain r)
    (pending_chain_chunks r) v (pending_chain_chunk_index r) (df_names_pending r)
    (df_names_next r) (get_version_frame r).

Definition set_pending_chain_chunk_index (v : Z) (r : CommandChains) : CommandChains :=
  Build_CommandChains (command_chain r) (command_chain_active r) (command_chain_len r)
    (command_chain_expected r) (pending_chain_len r) (pending_chain_offset r)
    (pending_chain_frame r) (pending_chain_last r) (pending_chain_zero r) (pending_chain r)
    (pending_chain_chunks r) (pending_chain_chunk_count r) v (df_names_pending r)
    (df_names_next r) (get_version_frame r).

Definition set_df_names_pending (v : bool) (r : CommandChains) : CommandChains :=
  Build_CommandChains (command_chain r) (command_chain_active r) (command_chain_len r)
    (command_chain_expected r) (pending_chain_len r) (pending_chain_offset r)
    (pending_chain_frame r) (pending_chain_last r) (pending_chain_zero r) (pending_chain r)
    (pending_chain_chunks r) (pending_chain_chunk_count r) (pending_chain_chunk_index r) v
    (df_names_next r) (get_version_frame r).

Definition set_df_names_next (v : Z) (r : CommandChains) : CommandChains :=
  Build_CommandChains (command_chain r) (command_chain_active r) (command_chain_len r)
    (command_chain_expected r) (pending_chain_len r) (pending_chain_offset r)
    (pending_chain_frame r) (pending_chain_last r) (pending_chain_zero r) (pending_chain r)
    (pending_chain_chunks r) (pending_chain_chunk_count r) (pending_chain_chunk_index r)
    (df_names_pending r) v (get_version_frame r).

Definition set_get_version_frame (v : Z) (r : CommandChains) : CommandChains :=
  Build_CommandChains (command_chain r) (command_chain_active r) (command_chain_len r)
    (command_chain_expected r) (pending_chain_len r) (pending_chain_offset r)
    (pending_chain_frame r) (pending_chain_last r) (pending_chain_zero r) (pending_chain r)
    (pending_chain_chunks r) (pending_chain_chunk_count r) (pending_chain_chunk_index r)
    (df_names_pending r) (df_names_next r) v.

Definition zero_chains : CommandChains :=
  Build_CommandChains None false 0 0 0 0 0 0 false (zeros DFC_EMULATOR_CHAIN_BUFFER_SIZE)
    (zeros DFC_MAX_APPS) 0 0 false 0 0.

(** The proximity check. *)
Record ProximityCheck := {
  proximity_active : bool;
  proximity_verified : bool;
  proximity_offset : Z;
  proximity_published_len : Z;
  proximity_transcript_len : Z;
  proximity_random : bytes;
  proximity_published : bytes;
  proximity_transcript : bytes;
}.

Definition zero_proximity : ProximityCheck :=
  Build_ProximityCheck false false 0 0 0 (zeros DFC_PROXIMITY_RANDOM_LENGTH) (zeros 4)
    (zeros DFC_PROXIMITY_TRANSCRIPT_MAX).

(** The rendered SDM read. *)
Record SdmReadCache := {
  sdm_read_cache_valid : bool;
  sdm_read_cache_file_number : Z;
  sdm_read_cache_family : Z;
  sdm_read_cache_len : Z;
  sdm_read_cache : bytes;
}.

Definition zero_sdm_cache : SdmReadCache :=
  Build_SdmReadCache false 0 0 0 (zeros DFC_SDM_READ_CACHE_SIZE).

(** A delegated application creation in two frames. *)
Record DelegatedCreation := {
  delegated_creation_pending : bool;
  delegated_creation_header_length : Z;
  delegated_creation_header : bytes;
}.

Definition zero_delegated : DelegatedCreation :=
  Build_DelegatedCreation false 0 (zeros DFC_DELEGATED_CREATE_MAX_HEADER_LENGTH).

(** Virtual-card selection. *)
Record VirtualCardSelection := {
  virtual_card_authentication_expected : bool;
  virtual_card_selection_pending : bool;
  virtual_card_selected : bool;
  virtual_card_challenge : bytes;
  virtual_card_clear_data : bytes;
}.

Definition zero_virtual_card : VirtualCardSelection :=
  Build_VirtualCardSelection false false false (zeros 16) (zeros 16).

(** The emulator. Its credential pointer is never null and nothing else writes through it. *)
Record DfcEmulator := {
  tx_buffer : option DfcByteBuf;
  credential : DfcCredential;
  selected_application : DfcEmulatorSelectedApplication;
  selected_app_index : Z;
  journal : TransactionJournal;
  mac_state : TransactionMacState;
  native : NativeAuthentication;
  ev2 : Ev2Authentication;
  chains : CommandChains;
  proximity : ProximityCheck;
  sdm_cache : SdmReadCache;
  delegated_creation : DelegatedCreation;
  virtual_card : VirtualCardSelection;
  transaction_timer_enabled : bool;
  transaction_timer_elapsed_milliseconds : Z;
  data_written : bool;
  response_secured : bool;
  first_frame_logged : bool;
}.

Definition set_tx_buffer (v : option DfcByteBuf) (r : DfcEmulator) : DfcEmulator :=
  Build_DfcEmulator v (credential r) (selected_application r) (selected_app_index r)
    (journal r) (mac_state r) (native r) (ev2 r) (chains r) (proximity r) (sdm_cache r)
    (delegated_creation r) (virtual_card r) (transaction_timer_enabled r)
    (transaction_timer_elapsed_milliseconds r) (data_written r) (response_secured r)
    (first_frame_logged r).

Definition set_credential (v : DfcCredential) (r : DfcEmulator) : DfcEmulator :=
  Build_DfcEmulator (tx_buffer r) v (selected_application r) (selected_app_index r) (journal
    r) (mac_state r) (native r) (ev2 r) (chains r) (proximity r) (sdm_cache r)
    (delegated_creation r) (virtual_card r) (transaction_timer_enabled r)
    (transaction_timer_elapsed_milliseconds r) (data_written r) (response_secured r)
    (first_frame_logged r).

Definition set_selected_application (v : DfcEmulatorSelectedApplication) (r : DfcEmulator) : DfcEmulator :=
  Build_DfcEmulator (tx_buffer r) (credential r) v (selected_app_index r) (journal r)
    (mac_state r) (native r) (ev2 r) (chains r) (proximity r) (sdm_cache r)
    (delegated_creation r) (virtual_card r) (transaction_timer_enabled r)
    (transaction_timer_elapsed_milliseconds r) (data_written r) (response_secured r)
    (first_frame_logged r).

Definition set_selected_app_index (v : Z) (r : DfcEmulator) : DfcEmulator :=
  Build_DfcEmulator (tx_buffer r) (credential r) (selected_application r) v (journal r)
    (mac_state r) (native r) (ev2 r) (chains r) (proximity r) (sdm_cache r)
    (delegated_creation r) (virtual_card r) (transaction_timer_enabled r)
    (transaction_timer_elapsed_milliseconds r) (data_written r) (response_secured r)
    (first_frame_logged r).

Definition set_journal (v : TransactionJournal) (r : DfcEmulator) : DfcEmulator :=
  Build_DfcEmulator (tx_buffer r) (credential r) (selected_application r)
    (selected_app_index r) v (mac_state r) (native r) (ev2 r) (chains r) (proximity r)
    (sdm_cache r) (delegated_creation r) (virtual_card r) (transaction_timer_enabled r)
    (transaction_timer_elapsed_milliseconds r) (data_written r) (response_secured r)
    (first_frame_logged r).

Definition set_mac_state (v : TransactionMacState) (r : DfcEmulator) : DfcEmulator :=
  Build_DfcEmulator (tx_buffer r) (credential r) (selected_application r)
    (selected_app_index r) (journal r) v (native r) (ev2 r) (chains r) (proximity r)
    (sdm_cache r) (delegated_creation r) (virtual_card r) (transaction_timer_enabled r)
    (transaction_timer_elapsed_milliseconds r) (data_written r) (response_secured r)
    (first_frame_logged r).

Definition set_native (v : NativeAuthentication) (r : DfcEmulator) : DfcEmulator :=
  Build_DfcEmulator (tx_buffer r) (credential r) (selected_application r)
    (selected_app_index r) (journal r) (mac_state r) v (ev2 r) (chains r) (proximity r)
    (sdm_cache r) (delegated_creation r) (virtual_card r) (transaction_timer_enabled r)
    (transaction_timer_elapsed_milliseconds r) (data_written r) (response_secured r)
    (first_frame_logged r).

Definition set_ev2 (v : Ev2Authentication) (r : DfcEmulator) : DfcEmulator :=
  Build_DfcEmulator (tx_buffer r) (credential r) (selected_application r)
    (selected_app_index r) (journal r) (mac_state r) (native r) v (chains r) (proximity r)
    (sdm_cache r) (delegated_creation r) (virtual_card r) (transaction_timer_enabled r)
    (transaction_timer_elapsed_milliseconds r) (data_written r) (response_secured r)
    (first_frame_logged r).

Definition set_chains (v : CommandChains) (r : DfcEmulator) : DfcEmulator :=
  Build_DfcEmulator (tx_buffer r) (credential r) (selected_application r)
    (selected_app_index r) (journal r) (mac_state r) (native r) (ev2 r) v (proximity r)
    (sdm_cache r) (delegated_creation r) (virtual_card r) (transaction_timer_enabled r)
    (transaction_timer_elapsed_milliseconds r) (data_written r) (response_secured r)
    (first_frame_logged r).

Definition set_proximity (v : ProximityCheck) (r : DfcEmulator) : DfcEmulator :=
  Build_DfcEmulator (tx_buffer r) (credential r) (selected_application r)
    (selected_app_index r) (journal r) (mac_state r) (native r) (ev2 r) (chains r) v
    (sdm_cache r) (delegated_creation r) (virtual_card r) (transaction_timer_enabled r)
    (transaction_timer_elapsed_milliseconds r) (data_written r) (response_secured r)
    (first_frame_logged r).

Definition set_sdm_cache (v : SdmReadCache) (r : DfcEmulator) : DfcEmulator :=
  Build_DfcEmulator (tx_buffer r) (credential r) (selected_application r)
    (selected_app_index r) (journal r) (mac_state r) (native r) (ev2 r) (chains r)
    (proximity r) v (delegated_creation r) (virtual_card r) (transaction_timer_enabled r)
    (transaction_timer_elapsed_milliseconds r) (data_written r) (response_secured r)
    (first_frame_logged r).

Definition set_delegated_creation (v : DelegatedCreation) (r : DfcEmulator) : DfcEmulator :=
  Build_DfcEmulator (tx_buffer r) (credential r) (selected_application r)
    (selected_app_index r) (journal r) (mac_state r) (native r) (ev2 r) (chains r)
    (proximity r) (sdm_cache r) v (virtual_card r) (transaction_timer_enabled r)
    (transaction_timer_elapsed_milliseconds r) (data_written r) (response_secured r)
    (first_frame_logged r).

Definition set_transaction_timer_enabled (v : bool) (r : DfcEmulator) : DfcEmulator :=
  Build_DfcEmulator (tx_buffer r) (credential r) (selected_application r)
    (selected_app_index r) (journal r) (mac_state r) (native r) (ev2 r) (chains r)
    (proximity r) (sdm_cache r) (delegated_creation r) (virtual_card r) v
    (transaction_timer_elapsed_milliseconds r) (data_written r) (response_secured r)
    (first_frame_logged r).

Definition set_transaction_timer_elapsed_milliseconds (v : Z) (r : DfcEmulator) : DfcEmulator :=
  Build_DfcEmulator (tx_buffer r) (credential r) (selected_application r)
    (selected_app_index r) (journal r) (mac_state r) (native r) (ev2 r) (chains r)
    (proximity r) (sdm_cache r) (delegated_creation r) (virtual_card r)
    (transaction_timer_enabled r) v (data_written r) (response_secured r)
    (first_frame_logged r).

(** The zeroed emulator around a credential: the selection enum's zero is no
    application. *)
Definition zero_emulator (c : DfcCredential) : DfcEmulator :=
  Build_DfcEmulator None c DfcEmulatorSelectedApplicationNone 0 zero_journal
    zero_transaction_mac zero_native zero_ev2 zero_chains zero_proximity zero_sdm_cache
    zero_delegated zero_virtual_card false 0 false false false.
