(* ===== verification/Journal.v ===== *)
(** The transaction journal of the emulator: the snapshot functions of
    [src/src/dfc_emulator.c], and the functions of
    [src/src/dfc_emulator_commands_transactions.c] that open the journal and track the
    record operation of each file.

    Backup and record files are written in place; the journal keeps, per file index,
    a copy of the octets from before the transaction, taken when the file is first
    touched. A pointer to a file is its index in the credential. The host's allocator
    [dfc_platform_alloc] is an argument of the one function that allocates. *)

From S2P Require Import Prelude Common Pool CredentialData Credential EmulatorData.

Definition RecordTransactionNone : Z := 0.
Definition RecordTransactionWrite : Z := 1.
Definition RecordTransactionUpdate : Z := 2.
Definition RecordTransactionClear : Z := 3.

(** ** Bitmaps over file indices *)

Definition transaction_file_bit (bitmap : bytes) (index : Z) : bool :=
  (index <? DFC_MAX_FILES) &&
  negb (Z.land bitmap.[index / 8] (u8 (Z.shiftl 1 (index mod 8))) =? 0).

Definition transaction_file_bit_set (bitmap : bytes) (index : Z) (value : bool) : bytes :=
  guard! negb (DFC_MAX_FILES <=? index) else bitmap;
  let mask := u8 (Z.shiftl 1 (index mod 8)) in
  if value then bitmap.[index / 8 := Z.lor bitmap.[index / 8] mask]
  else bitmap.[index / 8 := Z.land bitmap.[index / 8] (u8 (Z.lnot mask))].

Definition transaction_file_has_data (file : DfcFile) : bool :=
  (file_type file =? DFC_FILE_TYPE_BACKUP_DATA) || (file_type file =? DFC_FILE_TYPE_LINEAR_RECORD) ||
  (file_type file =? DFC_FILE_TYPE_CYCLIC_RECORD).

Definition is_record_file (file : DfcFile) : bool :=
  (file_type file =? DFC_FILE_TYPE_LINEAR_RECORD) || (file_type file =? DFC_FILE_TYPE_CYCLIC_RECORD).

Definition record_count_of (file : DfcFile) : Z := record_count (state_record (state file)).

(** ** The preimage pool *)

Definition on_journal (g : TransactionJournal -> TransactionJournal) (e : DfcEmulator) : DfcEmulator :=
  set_journal (g (journal e)) e.

(** The released pool is wiped and freed: nothing of it remains in the state. *)
Definition transaction_snapshot_replace (replacement : option bytes) (replacement_capacity : Z)
  (j : TransactionJournal) : TransactionJournal :=
  set_transaction_snapshot_pool_capacity
    (match replacement with Some _ => replacement_capacity | None => 0 end)
    (set_transaction_snapshot_pool_length 0 (set_transaction_snapshot_pool replacement j)).

Definition dfc_emulator_discard_transaction_snapshot (e : DfcEmulator) : DfcEmulator :=
  on_journal (transaction_snapshot_replace None 0) e.

Definition transaction_snapshot_clear_state (e : DfcEmulator) : DfcEmulator :=
  let e := on_journal (fun j =>
    set_transaction_snapshot_dirty false
      (set_transaction_snapshot_app_index 0 (set_transaction_snapshot_active false j))) e in
  let e := dfc_emulator_discard_transaction_snapshot e in
  on_journal (fun j =>
    set_transaction_snapshot_created (zeros DFC_TRANSACTION_FILE_BITMAP_SIZE)
    (set_transaction_snapshot_captured (zeros DFC_TRANSACTION_FILE_BITMAP_SIZE)
    (set_transaction_record_numbers (zeros DFC_MAX_FILES)
    (set_transaction_record_operations (zeros DFC_MAX_FILES)
    (set_transaction_snapshot_offsets (zeros DFC_MAX_FILES)
    (set_transaction_snapshot_record_counts (zeros DFC_MAX_FILES) j)))))) e.

(** ** Files created and deleted inside a transaction *)

(** One assignment to index [to_index] of all six per-file arrays. *)
Definition store_slot (to_index count offset operation number : Z) (captured created : bool)
  (j : TransactionJournal) : TransactionJournal :=
  let j := set_transaction_snapshot_record_counts
             ((transaction_snapshot_record_counts j).[to_index := count]) j in
  let j := set_transaction_snapshot_offsets
             ((transaction_snapshot_offsets j).[to_index := offset]) j in
  let j := set_transaction_record_operations
             ((transaction_record_operations j).[to_index := operation]) j in
  let j := set_transaction_record_numbers
             ((transaction_record_numbers j).[to_index := number]) j in
  let j := set_transaction_snapshot_captured
             (transaction_file_bit_set (transaction_snapshot_captured j) to_index captured) j in
  set_transaction_snapshot_created
    (transaction_file_bit_set (transaction_snapshot_created j) to_index created) j.

(** The body of the shifting loops: [a[to_index] = a[from_index]] in each array. *)
Definition copy_slot (from_index to_index : Z) (j : TransactionJournal) : TransactionJournal :=
  store_slot to_index
    (transaction_snapshot_record_counts j).[from_index]
    (transaction_snapshot_offsets j).[from_index]
    (transaction_record_operations j).[from_index]
    (transaction_record_numbers j).[from_index]
    (transaction_file_bit (transaction_snapshot_captured j) from_index)
    (transaction_file_bit (transaction_snapshot_created j) from_index) j.

Definition dfc_emulator_transaction_snapshot_insert_file (e : DfcEmulator) (file_index : Z)
  : bool * DfcEmulator :=
  guard! transaction_snapshot_active (journal e) else (true, e);
  guard! negb (num_files (credential e) <=? file_index) else (false, e);
  let file := file_at (credential e) file_index in
  let created := (file_app_index file =? transaction_snapshot_app_index (journal e)) &&
                 transaction_file_has_data file in
  (true, on_journal (fun j =>
     let j := fold_left (fun j index => copy_slot (index - 1) index j)
                (reverse (seqZ (file_index + 1) (DFC_MAX_FILES - 1 - file_index))) j in
     store_slot file_index 0 0 0 0 false created j) e).

Definition dfc_emulator_transaction_snapshot_delete_file (e : DfcEmulator) (file_index : Z)
  : DfcEmulator :=
  guard! negb (negb (transaction_snapshot_active (journal e)) ||
               (num_files (credential e) <=? file_index)) else e;
  on_journal (fun j =>
    let j :=
      if transaction_file_bit (transaction_snapshot_captured j) file_index then
        let file := file_at (credential e) file_index in
        let offset := (transaction_snapshot_offsets j).[file_index] in
        if (offset <=? transaction_snapshot_pool_length j) &&
           (data_len file <=? transaction_snapshot_pool_length j - offset)
        then set_transaction_snapshot_pool
               ((fun pool => wipe pool offset (data_len file)) <$> transaction_snapshot_pool j) j
        else j
      else j in
    let j := fold_left (fun j index => copy_slot (index + 1) index j)
               (seqZ file_index (DFC_MAX_FILES - 1 - file_index)) j in
    store_slot (DFC_MAX_FILES - 1) 0 0 0 0 false false j) e.

(** ** Capture *)

Definition dfc_emulator_transaction_snapshot_capture_file (e : DfcEmulator) (file_index : Z)
  : bool * DfcEmulator :=
  let j := journal e in
  guard! transaction_snapshot_active j else (true, e);
  guard! negb (num_files (credential e) <=? file_index) else (false, e);
  let file := file_at (credential e) file_index in
  guard! negb (negb (file_app_index file =? transaction_snapshot_app_index j) ||
               negb (transaction_file_has_data file)) else (false, e);
  if transaction_file_bit (transaction_snapshot_created j) file_index ||
     transaction_file_bit (transaction_snapshot_captured j) file_index then (true, e) else
  guard! negb ((negb (data_len file =? 0) &&
                bool_decide (transaction_snapshot_pool j = None)) ||
               (transaction_snapshot_pool_capacity j <? data_len file) ||
               (transaction_snapshot_pool_capacity j - data_len file <?
                  transaction_snapshot_pool_length j)) else (false, e);
  let data := dfc_file_data_const (credential e) file in
  guard! negb (negb (data_len file =? 0) && bool_decide (data = None)) else (false, e);
  let offset := transaction_snapshot_pool_length j in
  let preimage := slice (file_pool (credential e)) (default 0 data) (data_len file) in
  let j := if negb (data_len file =? 0)
           then set_transaction_snapshot_pool
                  ((fun pool => splice pool offset preimage) <$> transaction_snapshot_pool j) j
           else j in
  let j := set_transaction_snapshot_offsets
             ((transaction_snapshot_offsets j).[file_index := u16 offset]) j in
  let j := set_transaction_snapshot_record_counts
             ((transaction_snapshot_record_counts j).[file_index :=
                u16 (if is_record_file file then record_count_of file else 0)]) j in
  let j := set_transaction_snapshot_pool_length (u64 (offset + data_len file)) j in
  let j := set_transaction_snapshot_captured
             (transaction_file_bit_set (transaction_snapshot_captured j) file_index true) j in
  (true, set_journal j e).

(** ** The committed view *)

(** What [dfc_emulator_transaction_snapshot_committed_data] answers: the null pointer
    without and with [*all_zero], a pointer into the file pool, or one into the
    preimage pool. *)
Inductive CommittedData :=
| CommittedNull
| CommittedAllZero
| CommittedInFilePool (offset : Z)
| CommittedInSnapshot (offset : Z).

Definition committed_in_file (data : option Z) : CommittedData :=
  match data with Some offset => CommittedInFilePool offset | None => CommittedNull end.

Definition dfc_emulator_transaction_snapshot_committed_data (e : DfcEmulator) (file_index : Z)
  : CommittedData :=
  let j := journal e in
  guard! negb (num_files (credential e) <=? file_index) else CommittedNull;
  let file := file_at (credential e) file_index in
  if negb (transaction_snapshot_active j) ||
     negb (file_app_index file =? transaction_snapshot_app_index j) ||
     negb (transaction_file_has_data file)
  then committed_in_file (dfc_file_data_const (credential e) file) else
  if transaction_file_bit (transaction_snapshot_created j) file_index then CommittedAllZero else
  if negb (transaction_file_bit (transaction_snapshot_captured j) file_index)
  then committed_in_file (dfc_file_data_const (credential e) file) else
  let offset := (transaction_snapshot_offsets j).[file_index] in
  if data_len file =? 0 then CommittedNull else
  if (negb (data_len file =? 0) && bool_decide (transaction_snapshot_pool j = None)) ||
     (transaction_snapshot_pool_length j <? offset) ||
     (transaction_snapshot_pool_length j - offset <? data_len file)
  then CommittedNull else CommittedInSnapshot offset.

Definition dfc_emulator_transaction_snapshot_committed_record_count (e : DfcEmulator)
  (file_index : Z) : Z :=
  let j := journal e in
  guard! negb (num_files (credential e) <=? file_index) else 0;
  let file := file_at (credential e) file_index in
  if negb (transaction_snapshot_active j) ||
     negb (file_app_index file =? transaction_snapshot_app_index j) || negb (is_record_file file)
  then record_count_of file else
  if transaction_file_bit (transaction_snapshot_created j) file_index then 0 else
  if transaction_file_bit (transaction_snapshot_captured j) file_index
  then (transaction_snapshot_record_counts j).[file_index]
  else record_count_of file.

(** ** Writes that bypass the transaction *)

Definition dfc_emulator_transaction_snapshot_note_persistent_change (e : DfcEmulator) : DfcEmulator :=
  if transaction_snapshot_active (journal e)
  then on_journal (set_transaction_snapshot_dirty true) e else e.

(** The data pointer is null exactly for an empty [data]. *)
Definition dfc_emulator_transaction_snapshot_can_mirror_write (e : DfcEmulator)
  (file_index offset length : Z) : bool :=
  guard! transaction_snapshot_active (journal e) else true;
  guard! negb (num_files (credential e) <=? file_index) else false;
  let file := file_at (credential e) file_index in
  (file_app_index file =? transaction_snapshot_app_index (journal e)) &&
  (offset <=? data_len file) && (length <=? data_len file - offset).

Definition dfc_emulator_transaction_snapshot_mirror_write (e : DfcEmulator)
  (file_index offset length : Z) : bool * DfcEmulator :=
  guard! dfc_emulator_transaction_snapshot_can_mirror_write e file_index offset length
    else (false, e);
  (true, dfc_emulator_transaction_snapshot_note_persistent_change e).

(** ** Abort *)

(** A pending file of the transaction whose preimage the journal must supply. *)
Definition abort_preimage_ok (e : DfcEmulator) (index : Z) : bool :=
  let j := journal e in
  let file := file_at (credential e) index in
  if negb (file_app_index file =? transaction_snapshot_app_index j) ||
     negb (transaction_pending file) || negb (transaction_file_has_data file) ||
     transaction_file_bit (transaction_snapshot_created j) index then true else
  let offset := (transaction_snapshot_offsets j).[index] in
  negb (negb (transaction_file_bit (transaction_snapshot_captured j) index) ||
        (negb (data_len file =? 0) && bool_decide (transaction_snapshot_pool j = None)) ||
        (transaction_snapshot_pool_length j <? offset) ||
        (transaction_snapshot_pool_length j - offset <? data_len file) ||
        (negb (data_len file =? 0) &&
         bool_decide (dfc_file_data_const (credential e) file = None))).

(** [memcpy(data, src, file->data_len)] where [data] is the file's octets. *)
Definition store_contents (c : DfcCredential) (file_index : Z) (src : bytes) : DfcCredential :=
  match dfc_file_data c file_index with
  | Some data => set_file_pool (splice (file_pool c) data src) c
  | None => c
  end.

(** No trustworthy preimage: the staged octets are destroyed. *)
Definition abort_destroy_file (app_index : Z) (c : DfcCredential) (index : Z) : DfcCredential :=
  let file := file_at c index in
  if negb (file_app_index file =? app_index) || negb (transaction_pending file) ||
     negb (transaction_file_has_data file) then c else
  let c := store_contents c index (zeros (data_len file)) in
  let c := if is_record_file file then update_file (set_file_record_count 0) index c else c in
  update_file (set_transaction_pending false) index c.

Definition abort_restore_file (j : TransactionJournal) (app_index : Z) (c : DfcCredential)
  (index : Z) : DfcCredential :=
  let file := file_at c index in
  if negb (file_app_index file =? app_index) then c else
  let c :=
    if transaction_pending file && transaction_file_has_data file then
      if transaction_file_bit (transaction_snapshot_created j) index then
        let c := store_contents c index (zeros (data_len file)) in
        if is_record_file file then update_file (set_file_record_count 0) index c else c
      else if transaction_file_bit (transaction_snapshot_captured j) index then
        let offset := (transaction_snapshot_offsets j).[index] in
        let c := store_contents c index
                   (slice (default [] (transaction_snapshot_pool j)) offset (data_len file)) in
        if is_record_file file
        then update_file (set_file_record_count (transaction_snapshot_record_counts j).[index])
               index c
        else c
      else c
    else c in
  update_file (set_transaction_pending false) index c.

Definition dfc_emulator_abort_transaction_snapshot (e : DfcEmulator) : bool * DfcEmulator :=
  let j := journal e in
  let c := credential e in
  guard! transaction_snapshot_active j else (false, e);
  let app_index := transaction_snapshot_app_index j in
  let indices := seqZ 0 (num_files c) in
  let valid := (transaction_snapshot_pool_length j <=? transaction_snapshot_pool_capacity j) &&
               forallb (abort_preimage_ok e) indices in
  let c := if valid
           then set_dirty (transaction_snapshot_dirty j)
                  (fold_left (abort_restore_file j app_index) indices c)
           else set_dirty true (fold_left (abort_destroy_file app_index) indices c) in
  (true, transaction_snapshot_clear_state (set_credential c e)).

(** ** Opening the journal *)

(** The octets of the selected application's transactional files; [None] when their
    sum passes the file pool. *)
Definition snapshot_capacity_step (selected : Z) (capacity : option Z) (file : DfcFile) : option Z :=
  capacity ← capacity;
  if negb (file_app_index file =? selected) || negb (transaction_file_has_data file)
  then Some capacity
  else if DFC_FILE_POOL_SIZE - capacity <? data_len file then None
  else Some (capacity + data_len file).

Definition snapshot_capacity (c : DfcCredential) (selected : Z) : option Z :=
  fold_left (snapshot_capacity_step selected) (take (Z.to_nat (num_files c)) (files c)) (Some 0).

Definition dfc_emulator_command_transaction_snapshot_begin
  (platform_alloc : Z -> option bytes) (e : DfcEmulator) : bool * DfcEmulator :=
  if transaction_snapshot_active (journal e)
  then (transaction_snapshot_app_index (journal e) =? selected_app_index e, e) else
  match snapshot_capacity (credential e) (selected_app_index e) with
  | None => (false, e)
  | Some capacity =>
      let size := if capacity =? 0 then 1 else capacity in
      match platform_alloc size with
      | None => (false, e)
      | Some snapshot =>
          (true, on_journal (fun j =>
             set_transaction_record_numbers (zeros DFC_MAX_FILES)
             (set_transaction_record_operations (zeros DFC_MAX_FILES)
             (set_transaction_snapshot_created (zeros DFC_TRANSACTION_FILE_BITMAP_SIZE)
             (set_transaction_snapshot_captured (zeros DFC_TRANSACTION_FILE_BITMAP_SIZE)
             (set_transaction_snapshot_offsets (zeros DFC_MAX_FILES)
             (set_transaction_snapshot_record_counts (zeros DFC_MAX_FILES)
             (set_transaction_snapshot_dirty (dirty (credential e))
             (set_transaction_snapshot_pool_capacity size
             (set_transaction_snapshot_pool_length 0
             (set_transaction_snapshot_app_index (selected_app_index e)
             (set_transaction_snapshot_active true
             (set_transaction_snapshot_pool (Some snapshot) j)))))))))))) e)
      end
  end.

(** ** The record operation of a file *)

Definition dfc_emulator_command_transaction_record_operation (e : DfcEmulator) (file_index : Z) : Z :=
  if file_index <? DFC_MAX_FILES then (transaction_record_operations (journal e)).[file_index]
  else RecordTransactionNone.

Definition dfc_emulator_command_transaction_set_record_operation (e : DfcEmulator)
  (file_index operation record_number : Z) : DfcEmulator :=
  guard! negb (DFC_MAX_FILES <=? file_index) else e;
  on_journal (fun j =>
    set_transaction_record_numbers ((transaction_record_numbers j).[file_index := record_number])
      (set_transaction_record_operations
         ((transaction_record_operations j).[file_index := operation]) j)) e.
