(* ===== verification/JournalSlots.v ===== *)
(** The per-file arrays of the transaction journal as one array of slots.

    The journal of [src/src/dfc_emulator.c] spreads what it knows of a file over four
    arrays and two bitmaps. [slot_at] gathers them, and the lemmas here state each loop
    of the journal as an update of slots: the insertion loop moves the slots past the
    new file up by one, the deletion loop moves them down. *)

From S2P Require Import Prelude Common Pool CredentialData EmulatorData Journal.

Record slot := Slot {
  slot_captured : bool;
  slot_created : bool;
  slot_offset : Z;
  slot_count : Z;
  slot_operation : Z;
  slot_number : Z;
}.

Definition empty_slot : slot := Slot false false 0 0 0 0.

Definition slot_at (j : TransactionJournal) (i : Z) : slot :=
  Slot (transaction_file_bit (transaction_snapshot_captured j) i)
    (transaction_file_bit (transaction_snapshot_created j) i)
    (transaction_snapshot_offsets j).[i] (transaction_snapshot_record_counts j).[i]
    (transaction_record_operations j).[i] (transaction_record_numbers j).[i].

(** The arrays have their C sizes. *)
Record journal_shape (j : TransactionJournal) : Prop := {
  js_counts : zlen (transaction_snapshot_record_counts j) = DFC_MAX_FILES;
  js_offsets : zlen (transaction_snapshot_offsets j) = DFC_MAX_FILES;
  js_numbers : zlen (transaction_record_numbers j) = DFC_MAX_FILES;
  js_operations : zlen (transaction_record_operations j) = DFC_MAX_FILES;
  js_captured : zlen (transaction_snapshot_captured j) = DFC_TRANSACTION_FILE_BITMAP_SIZE;
  js_created : zlen (transaction_snapshot_created j) = DFC_TRANSACTION_FILE_BITMAP_SIZE;
}.

(** What the slot operations leave alone. *)
Definition sans_slots (j : TransactionJournal) : TransactionJournal :=
  set_transaction_snapshot_created [] (set_transaction_snapshot_captured []
    (set_transaction_record_numbers [] (set_transaction_record_operations []
      (set_transaction_snapshot_offsets [] (set_transaction_snapshot_record_counts [] j))))).

(** ** Bits *)

Lemma land_pow2_eqb b k :
  0 <= k < 8 -> (Z.land b (u8 (Z.shiftl 1 k)) =? 0) = negb (Z.testbit b k).
Proof.
  intros Hk. assert (Hm : u8 (Z.shiftl 1 k) = 2 ^ k).
  { rewrite Z.shiftl_1_l. apply u8_id. split; [lia|]. apply Z.pow_lt_mono_r; lia. }
  rewrite Hm. destruct (Z.testbit b k) eqn:Eb; cbn [negb].
  - apply Z.eqb_neq. intros H0. pose proof (f_equal (fun z => Z.testbit z k) H0) as H.
    cbn beta in H. rewrite Z.land_spec, Eb, Z.pow2_bits_true, Z.bits_0 in H by lia. done.
  - apply Z.eqb_eq. apply Z.bits_inj'. intros n Hn. rewrite Z.land_spec, Z.bits_0.
    destruct (Z.eq_dec n k) as [->|Hne]; [by rewrite Eb|].
    rewrite Z.pow2_bits_false by lia. apply andb_false_r.
Qed.

Lemma file_bit_testbit bm i :
  0 <= i < DFC_MAX_FILES -> transaction_file_bit bm i = Z.testbit bm.[i / 8] (i mod 8).
Proof.
  intros Hi. unfold transaction_file_bit. rewrite (proj2 (Z.ltb_lt _ _)) by lia. cbn [andb].
  rewrite land_pow2_eqb by (apply Z.mod_pos_bound; lia). apply negb_involutive.
Qed.

Lemma byte_at_store (b : list Z) i v k :
  0 <= i < zlen b -> 0 <= k -> (b.[i := v]).[k] = if k =? i then v else b.[k].
Proof.
  intros Hi Hk. unfold byte_at, zlen in *. rewrite splice_lookup by (cbn; unfold zlen; lia || (unfold zlen; cbn; lia)).
  cbn [length]. destruct (k =? i) eqn:E; bool_facts.
  - subst k. rewrite !decide_False, decide_True by lia. rewrite Nat.sub_diag. done.
  - repeat case_decide; try done; lia.
Qed.

Lemma zlen_store (b : list Z) i v : 0 <= i < zlen b -> zlen (b.[i := v]) = zlen b.
Proof. intros Hi. apply length_splice; [lia|]. unfold zlen in *. cbn. lia. Qed.

Lemma bitmap_index (bm : bytes) i :
  zlen bm = DFC_TRANSACTION_FILE_BITMAP_SIZE -> 0 <= i < DFC_MAX_FILES -> 0 <= i / 8 < zlen bm.
Proof.
  change DFC_TRANSACTION_FILE_BITMAP_SIZE with 4. change DFC_MAX_FILES with 32. intros ->.
  split; [apply Z.div_pos; lia|]. apply Z.div_lt_upper_bound; lia.
Qed.

Lemma zlen_bit_set bm i v :
  zlen bm = DFC_TRANSACTION_FILE_BITMAP_SIZE -> 0 <= i -> zlen (transaction_file_bit_set bm i v) = zlen bm.
Proof.
  intros Hl Hi. unfold transaction_file_bit_set. destruct (DFC_MAX_FILES <=? i) eqn:E; [done|].
  cbn [negb]. bool_facts. pose proof (bitmap_index bm i Hl ltac:(lia)).
  destruct v; by apply zlen_store.
Qed.

Lemma file_bit_set bm i v k :
  zlen bm = DFC_TRANSACTION_FILE_BITMAP_SIZE -> 0 <= i < DFC_MAX_FILES -> 0 <= k < DFC_MAX_FILES ->
  transaction_file_bit (transaction_file_bit_set bm i v) k =
  if k =? i then v else transaction_file_bit bm k.
Proof.
  intros Hl Hi Hk. rewrite !file_bit_testbit by done. unfold transaction_file_bit_set.
  rewrite (proj2 (Z.leb_gt _ _)) by lia. cbn [negb].
  pose proof (bitmap_index bm i Hl Hi) as Hi8.
  pose proof (Z.mod_pos_bound i 8 eq_refl) as Him. pose proof (Z.mod_pos_bound k 8 eq_refl) as Hkm.
  assert (Hk8 : 0 <= k / 8) by (apply Z.div_pos; lia).
  assert (Hmask : u8 (Z.shiftl 1 (i mod 8)) = 2 ^ (i mod 8)).
  { rewrite Z.shiftl_1_l. apply u8_id. split; [lia|]. apply Z.pow_lt_mono_r; lia. }
  rewrite Hmask.
  assert (Heq : (k =? i) = (k / 8 =? i / 8) && (k mod 8 =? i mod 8)).
  { destruct (k =? i) eqn:E; bool_facts; [subst; by rewrite !Z.eqb_refl|].
    symmetry. apply andb_false_iff. rewrite !Z.eqb_neq.
    destruct (Z.eq_dec (k / 8) (i / 8)) as [Hd|]; [right|by left]. intros Hm. apply E.
    rewrite (Z.div_mod k 8), (Z.div_mod i 8) by lia. congruence. }
  rewrite Heq. destruct v.
  - rewrite byte_at_store by done. destruct (k / 8 =? i / 8) eqn:E8; [|done]. cbn [andb].
    apply Z.eqb_eq in E8. rewrite E8, Z.lor_spec. destruct (k mod 8 =? i mod 8) eqn:Em; bool_facts.
    + rewrite Em, Z.pow2_bits_true by lia. apply orb_true_r.
    + rewrite Z.pow2_bits_false by lia. apply orb_false_r.
  - rewrite byte_at_store by done. destruct (k / 8 =? i / 8) eqn:E8; [|done]. cbn [andb].
    apply Z.eqb_eq in E8. rewrite E8, Z.land_spec. unfold u8.
    rewrite Z.mod_pow2_bits_low, Z.lnot_spec by lia.
    destruct (k mod 8 =? i mod 8) eqn:Em; bool_facts.
    + rewrite Em, Z.pow2_bits_true by lia. apply andb_false_r.
    + rewrite Z.pow2_bits_false by lia. apply andb_true_r.
Qed.

(** ** Slots *)

Lemma store_slot_spec j i n o op num cap cre :
  journal_shape j -> 0 <= i < DFC_MAX_FILES ->
  let j' := store_slot i n o op num cap cre j in
  journal_shape j' /\ sans_slots j' = sans_slots j /\
  (forall k, 0 <= k < DFC_MAX_FILES ->
     slot_at j' k = if k =? i then Slot cap cre o n op num else slot_at j k).
Proof.
  intros [H1 H2 H3 H4 H5 H6] Hi j'. split_and!; [|done|].
  - constructor; cbn; rewrite ?zlen_store, ?zlen_bit_set by (done || lia); done.
  - intros k Hk. unfold slot_at, j', store_slot. cbn.
    rewrite !byte_at_store, !file_bit_set by (done || lia). by destruct (k =? i).
Qed.

Lemma copy_slot_spec j f i :
  journal_shape j -> 0 <= i < DFC_MAX_FILES ->
  let j' := copy_slot f i j in
  journal_shape j' /\ sans_slots j' = sans_slots j /\
  (forall k, 0 <= k < DFC_MAX_FILES -> slot_at j' k = if k =? i then slot_at j f else slot_at j k).
Proof. intros Hj Hi. exact (store_slot_spec j i _ _ _ _ _ _ Hj Hi). Qed.

(** The insertion loop: slots past [i] move up. *)
Lemma shift_up_spec n i j :
  journal_shape j -> 0 <= i -> i + Z.of_nat n < DFC_MAX_FILES ->
  let j' := fold_left (fun j index => copy_slot (index - 1) index j)
              (reverse (seqZ (i + 1) (Z.of_nat n))) j in
  journal_shape j' /\ sans_slots j' = sans_slots j /\
  (forall k, 0 <= k < DFC_MAX_FILES ->
     slot_at j' k = if (i <? k) && (k <=? i + Z.of_nat n) then slot_at j (k - 1) else slot_at j k).
Proof.
  revert j. induction n as [|n IH]; intros j Hj Hi Hn.
  { cbn. split_and!; [done|done|]. intros k Hk.
    destruct (_ && _) eqn:E; bool_facts; [lia|done]. }
  cbv zeta. replace (Z.of_nat (S n)) with (Z.of_nat n + 1) in * by lia.
  rewrite seqZ_app, (seqZ_cons _ 1), (seqZ_nil _ (Z.pred 1)) by lia.
  rewrite reverse_app, fold_left_app. cbn [reverse fold_left rev_append].
  set (t := i + 1 + Z.of_nat n). assert (Ht : t = i + Z.of_nat n + 1) by (unfold t; lia).
  destruct (copy_slot_spec j (t - 1) t Hj) as (Hs1 & Hf1 & Hk1); [lia|].
  destruct (IH _ Hs1 Hi) as (Hs & Hf & Hk); [lia|]. split_and!; [done|congruence|].
  intros k Hkb. rewrite Hk by done. destruct ((i <? k) && (k <=? i + Z.of_nat n)) eqn:E; bool_facts.
  - rewrite Hk1, (proj2 (Z.eqb_neq _ _)) by lia.
    rewrite (proj2 (Z.ltb_lt _ _)), (proj2 (Z.leb_le _ _)) by lia. done.
  - rewrite Hk1 by done. destruct (k =? t) eqn:Ek; bool_facts.
    + subst k. rewrite (proj2 (Z.ltb_lt _ _)), (proj2 (Z.leb_le _ _)) by lia. done.
    + apply andb_false_iff in E as [E|E]; rewrite ?E; [done|]. bool_facts.
      rewrite (proj2 (Z.leb_gt _ _)) by lia. by rewrite andb_false_r.
Qed.

(** The deletion loop: slots past [i] move down. *)
Lemma shift_down_spec n i j :
  journal_shape j -> 0 <= i -> i + Z.of_nat n < DFC_MAX_FILES ->
  let j' := fold_left (fun j index => copy_slot (index + 1) index j) (seqZ i (Z.of_nat n)) j in
  journal_shape j' /\ sans_slots j' = sans_slots j /\
  (forall k, 0 <= k < DFC_MAX_FILES ->
     slot_at j' k = if (i <=? k) && (k <? i + Z.of_nat n) then slot_at j (k + 1) else slot_at j k).
Proof.
  revert i j. induction n as [|n IH]; intros i j Hj Hi Hn.
  { cbn. split_and!; [done|done|]. intros k Hk.
    destruct (_ && _) eqn:E; bool_facts; [lia|done]. }
  cbv zeta. rewrite seqZ_cons by lia. cbn [fold_left].
  destruct (copy_slot_spec j (i + 1) i Hj) as (Hs1 & Hf1 & Hk1); [lia|].
  replace (Z.pred (Z.of_nat (S n))) with (Z.of_nat n) by lia.
  replace (Z.succ i) with (i + 1) by lia.
  destruct (IH (i + 1) _ Hs1) as (Hs & Hf & Hk); [lia|lia|].
  split_and!; [done|congruence|]. intros k Hkb. rewrite Hk by done.
  destruct ((i + 1 <=? k) && (k <? i + 1 + Z.of_nat n)) eqn:E; bool_facts.
  - rewrite Hk1, (proj2 (Z.eqb_neq _ _)) by lia.
    rewrite (proj2 (Z.leb_le _ _)), (proj2 (Z.ltb_lt _ _)) by lia. done.
  - rewrite Hk1 by done. destruct (k =? i) eqn:Ek; bool_facts.
    + subst k. rewrite (proj2 (Z.leb_le _ _)), (proj2 (Z.ltb_lt _ _)) by lia. done.
    + apply andb_false_iff in E. rewrite Z.leb_gt, Z.ltb_ge in E.
      destruct ((i <=? k) && (k <? i + Z.of_nat (S n))) eqn:E2; [|done]. bool_facts. lia.
Qed.
