(* ===== verification/JournalFacts.v ===== *)
(** The transaction journal is a shadow copy: what each file of the open transaction
    held before it, as seen through [abs_files].

    [committed_view] is what a reader is served while a transaction is open, read off
    the functions of [src/src/dfc_emulator.c] that resolve a committed file. [tx_wf] is
    the invariant of the journal and the credential, stated over the abstract file
    store, where a file is its settings and its octets. The lemmas identify the
    committed view with [commit_entry] of each file, and show that an abort makes it
    the contents of the file store again. *)

From S2P Require Import Prelude Common Pool CredentialData Credential FileStore.
From S2P Require Import EmulatorData Journal JournalSlots.

(** ** Steps on one file, and loops over all of them *)

(** A change of settings only. *)
Lemma file_settings_step c i f (h : DfcFile -> DfcFile) :
  files_wf c -> live_files c !! i = Some f ->
  data_len (h f) = data_len f -> data_offset (h f) = data_offset f ->
  file_step c (update_file h (Z.of_nat i) c) i
    (sans_slice (h f), slice_contents (file_pool c) (file_slice f)).
Proof.
  intros Hwf Hi Hl Ho. rewrite (update_file_const h _ _ _ Hi).
  apply file_update_correct; try done. intros H0. rewrite Ho.
  by apply (file_unheld c i f Hwf Hi); lia.
Qed.

Lemma file_data_resolve c i f :
  files_wf c -> live_files c !! i = Some f ->
  dfc_file_data_const c f = if data_len f =? 0 then None else Some (data_offset f).
Proof.
  intros Hwf Hi. unfold dfc_file_data_const. destruct (data_len f =? 0) eqn:E; bool_facts.
  { by rewrite orb_true_r. }
  assert (Hp : 0 < data_len f).
  { destruct (Z.lt_ge_cases 0 (data_len f)) as [|Hle]; [done|].
    destruct (file_unheld c i f Hwf Hi Hle). lia. }
  pose proof (file_held c i f Hwf Hi Hp). rewrite (proj2 (Z.eqb_neq _ _)) by dlia. cbn [orb].
  by rewrite (proj2 (Z.ltb_ge _ _)) by lia.
Qed.

Lemma contents_length c i f :
  files_wf c -> live_files c !! i = Some f ->
  zlen (slice_contents (file_pool c) (file_slice f)) = data_len f.
Proof.
  intros Hwf Hi. pose proof (pool_size _ _ _ _ (fw_pool _ Hwf)) as Hs.
  destruct (Z.lt_ge_cases 0 (data_len f)) as [Hp|Hle].
  - pose proof (file_held c i f Hwf Hi Hp). apply length_slice; cbn [file_slice fst snd]; lia.
  - destruct (file_unheld c i f Hwf Hi Hle) as [H0 _]. unfold slice_contents.
    cbn [file_slice fst snd]. by rewrite H0.
Qed.

Lemma data_len_nonneg c i f : files_wf c -> live_files c !! i = Some f -> 0 <= data_len f.
Proof. intros Hwf Hi. rewrite <- (contents_length c i f Hwf Hi). apply zlen_nonneg. Qed.

(** All the octets of a file are replaced. *)
Lemma store_contents_correct c i f src :
  files_wf c -> live_files c !! i = Some f -> zlen src = data_len f ->
  file_step c (store_contents c (Z.of_nat i) src) i (sans_slice f, src) /\
  live_files (store_contents c (Z.of_nat i) src) = live_files c.
Proof.
  intros Hwf Hi Hl. unfold store_contents, dfc_file_data. rewrite (file_at_live _ _ _ Hi).
  rewrite (file_data_resolve c i f Hwf Hi). pose proof (contents_length c i f Hwf Hi) as Hc.
  destruct (data_len f =? 0) eqn:E; bool_facts; (split; [|done]).
  - assert (src = []) as -> by (apply length_zero_iff_nil; unfold zlen in *; lia).
    constructor; try done. symmetry. apply list_insert_id. unfold abs_files.
    rewrite list_lookup_fmap, Hi. cbn. unfold file_view. do 2 f_equal.
    apply length_zero_iff_nil. unfold zlen in Hc. lia.
  - pose proof (zlen_nonneg src). pose proof (file_write_correct c i f 0 src Hwf Hi) as Hw.
    rewrite Z.add_0_r in Hw.
    replace (splice (slice_contents (file_pool c) (file_slice f)) 0 src) with src in Hw.
    { apply Hw; lia. }
    unfold splice. rewrite take_0, drop_ge, app_nil_r; [done|]. unfold zlen in *. lia.
Qed.

(** A loop over the live files that treats each by index and entry. *)
Lemma fold_files_correct (g : DfcCredential -> Z -> DfcCredential)
  (r : nat -> DfcFile * bytes -> DfcFile * bytes) (Q : nat -> DfcFile * bytes -> Prop) c :
  files_wf c ->
  (forall i ent, abs_files c !! i = Some ent -> Q i ent) ->
  (forall c' i f, files_wf c' -> live_files c' !! i = Some f -> Q i (file_view c' f) ->
     file_step c' (g c' (Z.of_nat i)) i (r i (file_view c' f))) ->
  let c' := fold_left g (seqZ 0 (num_files c)) c in
  files_wf c' /\ abs_files c' = imap r (abs_files c) /\ num_files c' = num_files c /\
  sans_files c' = sans_files c.
Proof.
  intros Hwf HQ Hstep.
  assert (Hlen : length (abs_files c) = Z.to_nat (num_files c)).
  { pose proof (length_live_files c Hwf). unfold abs_files, zlen in *. rewrite length_map. lia. }
  assert (Hgo : forall n, (n <= Z.to_nat (num_files c))%nat ->
    let c' := fold_left g (seqZ 0 (Z.of_nat n)) c in
    files_wf c' /\ num_files c' = num_files c /\ sans_files c' = sans_files c /\
    length (abs_files c') = length (abs_files c) /\
    (forall i, abs_files c' !! i =
       if decide (i < n)%nat then r i <$> abs_files c !! i else abs_files c !! i)).
  { induction n as [|n IH]; intros Hn; [by split_and!|].
    destruct (IH ltac:(lia)) as (Hw & Hnn & Hs & Hl & Ha). cbv zeta in *.
    replace (Z.of_nat (S n)) with (Z.of_nat n + 1) by lia.
    rewrite seqZ_app, (seqZ_cons _ 1), (seqZ_nil _ (Z.pred 1)), fold_left_app by lia. cbn [fold_left].
    rewrite Z.add_0_l. set (c' := fold_left g (seqZ 0 (Z.of_nat n)) c) in *.
    assert (Hll : length (live_files c') = length (abs_files c')) by (symmetry; apply length_map).
    destruct (lookup_lt_is_Some_2 (live_files c') n) as [f Hf]; [lia|].
    assert (Hv : abs_files c !! n = Some (file_view c' f)).
    { specialize (Ha n). rewrite decide_False in Ha by lia. rewrite <- Ha.
      unfold abs_files. by rewrite list_lookup_fmap, Hf. }
    destruct (Hstep c' n f Hw Hf (HQ _ _ Hv)) as [Hw2 Ha2 Hn2 Hs2].
    split_and!; [done|congruence|congruence|by rewrite Ha2, length_insert|].
    intros i. rewrite Ha2. destruct (decide (i = n)) as [->|Hne].
    - rewrite list_lookup_insert_eq, decide_True, Hv by lia. done.
    - rewrite list_lookup_insert_ne, Ha by done. repeat case_decide; (done || lia). }
  destruct (Hgo (Z.to_nat (num_files c)) ltac:(done)) as (Hw & Hn & Hs & _ & Ha).
  cbv zeta in *. rewrite Z2Nat.id in Hw, Hn, Hs, Ha by apply (fw_count _ Hwf).
  split_and!; try done. apply list_eq. intros i. rewrite Ha, list_lookup_imap.
  case_decide; [done|]. rewrite lookup_ge_None_2 by lia. done.
Qed.

(** ** The invariant *)

(** A file with its octets, as [abs_files] shows it. *)
#[local] Abbreviation entry := (DfcFile * bytes)%type.

Definition in_transaction (j : TransactionJournal) (f : DfcFile) : bool :=
  (file_app_index f =? transaction_snapshot_app_index j) && transaction_file_has_data f.

Definition captured (j : TransactionJournal) (i : nat) : bool := slot_captured (slot_at j (Z.of_nat i)).
Definition created (j : TransactionJournal) (i : nat) : bool := slot_created (slot_at j (Z.of_nat i)).
Definition preimage_at (j : TransactionJournal) (i : nat) : Z := slot_offset (slot_at j (Z.of_nat i)).

(** Octets the journal may still have to copy for file [i]. *)
Definition owed (j : TransactionJournal) (i : nat) (ent : entry) : Z :=
  if in_transaction j (fst ent) && negb (captured j i) && negb (created j i)
  then zlen (snd ent) else 0.

Definition sum_owed (j : TransactionJournal) (ents : list entry) : Z :=
  foldr Z.add 0 (imap (owed j) ents).

Definition with_count (n : Z) (f : DfcFile) : DfcFile :=
  if is_record_file f then set_file_record_count n f else f.

Definition preimage (j : TransactionJournal) (i : nat) (len : Z) : bytes :=
  slice (default [] (transaction_snapshot_pool j)) (preimage_at j i) len.

(** The committed form of an entry: from the journal when it has one, the entry
    itself otherwise. *)
Definition commit_entry (j : TransactionJournal) (i : nat) (ent : entry) : entry :=
  let (f, b) := ent in
  let f := set_transaction_pending false f in
  if transaction_snapshot_active j && in_transaction j f && (created j i || captured j i) then
    if created j i then (with_count 0 f, zeros (zlen b))
    else (with_count (slot_count (slot_at j (Z.of_nat i))) f, preimage j i (zlen b))
  else (f, b).

(** An open journal: every preimage lies in the used part of the pool, no two overlap,
    and the pool has room for all that is not yet captured. *)
Record journal_open (j : TransactionJournal) (ents : list entry) : Prop := {
  jo_pool : exists p, transaction_snapshot_pool j = Some p /\
              zlen p = transaction_snapshot_pool_capacity j;
  jo_capacity : transaction_snapshot_pool_capacity j <= DFC_FILE_POOL_SIZE;
  jo_length : 0 <= transaction_snapshot_pool_length j;
  jo_budget : transaction_snapshot_pool_length j + sum_owed j ents <=
              transaction_snapshot_pool_capacity j;
  jo_flags : forall i ent, ents !! i = Some ent -> captured j i || created j i = true ->
    in_transaction j (fst ent) = true;
  jo_preimage : forall i ent, ents !! i = Some ent -> captured j i = true ->
    0 <= preimage_at j i /\
    preimage_at j i + zlen (snd ent) <= transaction_snapshot_pool_length j;
  jo_counts : forall i ent, ents !! i = Some ent -> captured j i = true ->
    0 <= slot_count (slot_at j (Z.of_nat i)) < 2 ^ 16;
  jo_disjoint : forall i k a b, i <> k -> ents !! i = Some a -> ents !! k = Some b ->
    captured j i = true -> captured j k = true ->
    preimage_at j i + zlen (snd a) <= preimage_at j k \/
    preimage_at j k + zlen (snd b) <= preimage_at j i;
}.

(** A record file has a record count the journal can hold. *)
Definition record_file_ok (f : DfcFile) : Prop :=
  is_record_file f = true -> exists r, state f = StateRecord r /\ 0 <= record_count r < 2 ^ 16.

(** The journal agrees with the files: only its own files are pending, it can restore
    each of those, and a file that is not pending reads as committed. *)
Record journal_ok (j : TransactionJournal) (ents : list entry) : Prop := {
  jk_shape : journal_shape j;
  jk_count : zlen ents <= DFC_MAX_FILES;
  jk_records : Forall (fun ent => record_file_ok (fst ent)) ents;
  jk_open : transaction_snapshot_active j = true -> journal_open j ents;
  jk_pending : forall i ent, ents !! i = Some ent -> transaction_pending (fst ent) = true ->
    transaction_snapshot_active j = true /\ created j i || captured j i = true;
  jk_clean : forall i ent, ents !! i = Some ent -> transaction_pending (fst ent) = false ->
    commit_entry j i ent = ent;
}.

Definition tx_wf (e : DfcEmulator) : Prop :=
  files_wf (credential e) /\ journal_ok (journal e) (abs_files (credential e)).

(** ** The committed view *)

(** The octets a reader of file [i] is served. *)
Definition committed_octets (e : DfcEmulator) (i : Z) : bytes :=
  let len := data_len (file_at (credential e) i) in
  match dfc_emulator_transaction_snapshot_committed_data e i with
  | CommittedNull => []
  | CommittedAllZero => zeros len
  | CommittedInFilePool offset => slice (file_pool (credential e)) offset len
  | CommittedInSnapshot offset =>
      slice (default [] (transaction_snapshot_pool (journal e))) offset len
  end.

Definition committed_settings (e : DfcEmulator) (i : Z) (f : DfcFile) : DfcFile :=
  with_count (dfc_emulator_transaction_snapshot_committed_record_count e i)
    (set_transaction_pending false (sans_slice f)).

(** What the open transaction has not changed: the files as an abort must leave them. *)
Definition committed_view (e : DfcEmulator) : list entry :=
  imap (fun i f => (committed_settings e (Z.of_nat i) f, committed_octets e (Z.of_nat i)))
    (live_files (credential e)).

Lemma abs_lookup c i f : live_files c !! i = Some f -> abs_files c !! i = Some (file_view c f).
Proof. intros Hi. unfold abs_files. by rewrite list_lookup_fmap, Hi. Qed.

Lemma abs_lookup_inv c i ent :
  abs_files c !! i = Some ent -> exists f, live_files c !! i = Some f /\ ent = file_view c f.
Proof. unfold abs_files. rewrite list_lookup_fmap, fmap_Some. done. Qed.

Lemma pending_in_transaction j ents i ent :
  journal_ok j ents -> ents !! i = Some ent -> transaction_pending (fst ent) = true ->
  transaction_snapshot_active j = true /\ in_transaction j (fst ent) = true /\
  created j i || captured j i = true.
Proof.
  intros Hj Hi Hp. destruct (jk_pending _ _ Hj i ent Hi Hp) as [Ha Hc]. split_and!; [done| |done].
  apply (jo_flags _ _ (jk_open _ _ Hj Ha) i ent Hi). by rewrite orb_comm.
Qed.

Lemma with_count_same f : record_file_ok f -> with_count (record_count_of f) f = f.
Proof.
  unfold with_count, record_file_ok, record_count_of. destruct (is_record_file f); [|done].
  intros H. destruct (H eq_refl) as (r & Hr & _). unfold set_file_record_count. rewrite Hr.
  cbn. destruct f. cbn in *. subst. by destruct r.
Qed.

Lemma with_count_pending n f :
  with_count n (set_transaction_pending false f) = set_transaction_pending false (with_count n f).
Proof.
  unfold with_count. change (is_record_file (set_transaction_pending false f)) with (is_record_file f).
  by destruct (is_record_file f).
Qed.

Lemma set_pending_same f : transaction_pending f = false -> set_transaction_pending false f = f.
Proof. destruct f. cbn. by intros ->. Qed.

Lemma is_record_has_data f : is_record_file f = true -> transaction_file_has_data f = true.
Proof.
  unfold is_record_file, transaction_file_has_data. rewrite !orb_true_iff. tauto.
Qed.

Lemma sum_nonneg (l : list Z) : Forall (fun n => 0 <= n) l -> 0 <= foldr Z.add 0 l.
Proof. induction 1; cbn; lia. Qed.

Lemma owed_all_nonneg j ents : Forall (fun n => 0 <= n) (imap (owed j) ents).
Proof.
  apply Forall_lookup. intros i n. rewrite list_lookup_imap, fmap_Some.
  intros (ent & _ & ->). unfold owed. destruct (_ && _ && _); [apply zlen_nonneg|done].
Qed.

Lemma sum_owed_nonneg j ents : 0 <= sum_owed j ents.
Proof. apply sum_nonneg, owed_all_nonneg. Qed.

Lemma length_preimage j ents i ent :
  journal_open j ents -> ents !! i = Some ent -> captured j i = true ->
  zlen (preimage j i (zlen (snd ent))) = zlen (snd ent).
Proof.
  intros Hj Hi Hc. destruct (jo_pool _ _ Hj) as (p & Hp & Hz). unfold preimage. rewrite Hp.
  change (default [] (Some p)) with p. destruct (jo_preimage _ _ Hj i ent Hi Hc).
  pose proof (jo_budget _ _ Hj). pose proof (sum_owed_nonneg j ents). pose proof (zlen_nonneg (snd ent)).
  apply length_slice; lia.
Qed.

(** The functions that resolve committed files compute [commit_entry]. *)
Lemma committed_octets_live e i f :
  tx_wf e -> live_files (credential e) !! i = Some f ->
  committed_octets e (Z.of_nat i) = snd (commit_entry (journal e) i (file_view (credential e) f)).
Proof.
  intros [Hfw Hjk] Hi. pose proof (live_files_lt _ _ _ Hi) as Hb.
  pose proof (contents_length _ _ _ Hfw Hi) as Hc.
  unfold committed_octets, dfc_emulator_transaction_snapshot_committed_data.
  rewrite (proj2 (Z.leb_gt _ _)), (file_at_live _ _ _ Hi), (file_data_resolve _ _ _ Hfw Hi) by lia.
  cbn [negb]. unfold commit_entry, file_view. rewrite Hc.
  change (in_transaction (journal e) (set_transaction_pending false (sans_slice f)))
    with ((file_app_index f =? transaction_snapshot_app_index (journal e)) &&
          transaction_file_has_data f).
  change (transaction_file_bit (transaction_snapshot_created _) (Z.of_nat i)) with (created (journal e) i).
  change (transaction_file_bit (transaction_snapshot_captured _) (Z.of_nat i)) with (captured (journal e) i).
  change ((transaction_snapshot_offsets (journal e)).[Z.of_nat i]) with (preimage_at (journal e) i).
  assert (Hcur : match committed_in_file (if data_len f =? 0 then None else Some (data_offset f)) with
    | CommittedNull => [] | CommittedAllZero => zeros (data_len f)
    | CommittedInFilePool o => slice (file_pool (credential e)) o (data_len f)
    | CommittedInSnapshot o =>
        slice (default [] (transaction_snapshot_pool (journal e))) o (data_len f) end =
    slice_contents (file_pool (credential e)) (file_slice f)).
  { unfold slice_contents. cbn [file_slice fst snd].
    destruct (data_len f =? 0) eqn:E; bool_facts; cbn; [by rewrite E|done]. }
  destruct (transaction_snapshot_active (journal e)) eqn:Ea; cbn [negb orb andb]; [|exact Hcur].
  destruct (file_app_index f =? _) eqn:Ei; cbn [negb orb andb]; [|exact Hcur].
  destruct (transaction_file_has_data f) eqn:Ed; cbn [negb orb andb]; [|exact Hcur].
  destruct (created (journal e) i); cbn [orb]; [done|].
  destruct (captured (journal e) i) eqn:Ec; cbn [negb]; [|exact Hcur].
  unfold preimage. destruct (data_len f =? 0) eqn:E0; bool_facts; [by rewrite E0|]. cbn [negb andb].
  pose proof (jk_open _ _ Hjk Ea) as Hj. destruct (jo_pool _ _ Hj) as (p & -> & _).
  destruct (jo_preimage _ _ Hj i _ (abs_lookup _ _ _ Hi) Ec) as [H1 H2]. cbn [file_view snd] in H2.
  pose proof (data_len_nonneg _ _ _ Hfw Hi).
  rewrite bool_decide_eq_false_2 by done. cbn [orb].
  by rewrite !(proj2 (Z.ltb_ge _ _)) by lia.
Qed.

Lemma committed_settings_live e i f :
  tx_wf e -> live_files (credential e) !! i = Some f ->
  committed_settings e (Z.of_nat i) f =
  fst (commit_entry (journal e) i (file_view (credential e) f)).
Proof.
  intros [Hfw Hjk] Hi. pose proof (live_files_lt _ _ _ Hi) as Hb.
  unfold committed_settings, dfc_emulator_transaction_snapshot_committed_record_count.
  rewrite (proj2 (Z.leb_gt _ _)), (file_at_live _ _ _ Hi) by lia. cbn [negb].
  unfold commit_entry, file_view.
  set (g := set_transaction_pending false (sans_slice f)).
  assert (Hcur : with_count (record_count_of f) g = g).
  { apply (with_count_same g).
    apply (Forall_lookup_1 _ _ _ _ (jk_records _ _ Hjk) (abs_lookup _ _ _ Hi)). }
  change (in_transaction (journal e) g)
    with ((file_app_index f =? transaction_snapshot_app_index (journal e)) &&
          transaction_file_has_data f).
  change (transaction_file_bit (transaction_snapshot_created _) (Z.of_nat i)) with (created (journal e) i).
  change (transaction_file_bit (transaction_snapshot_captured _) (Z.of_nat i)) with (captured (journal e) i).
  change ((transaction_snapshot_record_counts (journal e)).[Z.of_nat i])
    with (slot_count (slot_at (journal e) (Z.of_nat i))).
  destruct (transaction_snapshot_active (journal e)); cbn [negb orb andb]; [|exact Hcur].
  destruct (file_app_index f =? _); cbn [negb orb andb]; [|exact Hcur].
  destruct (is_record_file f) eqn:Er; cbn [negb].
  - rewrite (is_record_has_data f Er). cbn [negb orb andb].
    destruct (created (journal e) i), (captured (journal e) i); cbn; (done || exact Hcur).
  - assert (Hno : forall n, with_count n g = g).
    { intros n. unfold with_count. change (is_record_file g) with (is_record_file f). by rewrite Er. }
    by destruct (transaction_file_has_data f), (created (journal e) i), (captured (journal e) i); cbn;
      rewrite ?Hno.
Qed.

Lemma committed_view_abs e :
  tx_wf e -> committed_view e = imap (commit_entry (journal e)) (abs_files (credential e)).
Proof.
  intros Hwf. unfold committed_view, abs_files. apply list_eq. intros i.
  rewrite !list_lookup_imap, list_lookup_fmap.
  destruct (live_files (credential e) !! i) as [f|] eqn:Hf; [|done]. cbn [fmap option_fmap option_map].
  rewrite (committed_settings_live e i f Hwf Hf), (committed_octets_live e i f Hwf Hf).
  by destruct (commit_entry _ _ _).
Qed.

(** ** Abort *)

(** [c1] is [c] with the record [f] and the octets [b] at index [i]. *)
Definition settled (c c1 : DfcCredential) (i : nat) (f : DfcFile) (b : bytes) : Prop :=
  file_step c c1 i (sans_slice f, b) /\ live_files c1 !! i = Some f.

Lemma settled_contents c c1 i f b :
  files_wf c -> (i < length (live_files c))%nat -> settled c c1 i f b ->
  slice_contents (file_pool c1) (file_slice f) = b.
Proof.
  intros Hwf Hi [Hst Hf]. pose proof (f_equal (fun l => l !! i) (fs_abs _ _ _ _ Hst)) as Hl.
  cbn beta in Hl. unfold abs_files in Hl.
  rewrite list_lookup_insert_eq, list_lookup_fmap, Hf in Hl by (by rewrite length_map).
  by injection Hl.
Qed.

Lemma settled_update c c1 i f b (h : DfcFile -> DfcFile) :
  files_wf c -> (i < length (live_files c))%nat ->
  data_len (h f) = data_len f -> data_offset (h f) = data_offset f ->
  settled c c1 i f b -> settled c (update_file h (Z.of_nat i) c1) i (h f) b.
Proof.
  intros Hwf Hi Hl Ho Hs. pose proof (settled_contents _ _ _ _ _ Hwf Hi Hs) as Hb.
  destruct Hs as [Hst Hf]. split.
  - eapply file_step_trans; [exact Hst|]. rewrite <- Hb.
    apply file_settings_step; [apply Hst|done..].
  - rewrite (update_file_const _ _ _ _ Hf), (live_files_set _ _ _ _ Hf).
    apply list_lookup_insert_eq. by eapply lookup_lt_Some.
Qed.

Lemma settled_store c i f src :
  files_wf c -> live_files c !! i = Some f -> zlen src = data_len f ->
  settled c (store_contents c (Z.of_nat i) src) i f src.
Proof.
  intros Hwf Hi Hl. destruct (store_contents_correct c i f src Hwf Hi Hl) as [Hst Hlv].
  split; [done|]. by rewrite Hlv.
Qed.

Lemma settled_refl c i f :
  files_wf c -> live_files c !! i = Some f ->
  settled c c i f (slice_contents (file_pool c) (file_slice f)).
Proof.
  intros Hwf Hi. split; [|done]. constructor; try done. symmetry. apply list_insert_id.
  unfold abs_files. by rewrite list_lookup_fmap, Hi.
Qed.


Lemma with_count_slice n f :
  data_len (with_count n f) = data_len f /\ data_offset (with_count n f) = data_offset f /\
  sans_slice (with_count n f) = with_count n (sans_slice f).
Proof.
  unfold with_count. change (is_record_file (sans_slice f)) with (is_record_file f).
  by destruct (is_record_file f).
Qed.

Lemma settled_count c c1 i f b n :
  files_wf c -> (i < length (live_files c))%nat -> settled c c1 i f b ->
  settled c (if is_record_file f then update_file (set_file_record_count n) (Z.of_nat i) c1 else c1)
    i (with_count n f) b.
Proof.
  intros Hwf Hi Hs. unfold with_count. destruct (is_record_file f); [|done].
  by apply (settled_update c c1 i f b (set_file_record_count n)).
Qed.

(** The restoring step on an entry of the abstract store. *)
Definition restore_entry (j : TransactionJournal) (i : nat) (ent : entry) : entry :=
  if negb (file_app_index (fst ent) =? transaction_snapshot_app_index j) then ent else
  let (f, b) :=
    if transaction_pending (fst ent) && transaction_file_has_data (fst ent) then
      if created j i then (with_count 0 (fst ent), zeros (zlen (snd ent)))
      else if captured j i
      then (with_count (slot_count (slot_at j (Z.of_nat i))) (fst ent), preimage j i (zlen (snd ent)))
      else ent
    else ent in
  (set_transaction_pending false f, b).

(** The journal can supply the preimage of the entry. *)
Definition restorable (j : TransactionJournal) (i : nat) (ent : entry) : Prop :=
  transaction_pending (fst ent) = true -> in_transaction j (fst ent) = true ->
  created j i = false -> captured j i = true -> zlen (preimage j i (zlen (snd ent))) = zlen (snd ent).

Lemma abort_restore_file_correct j c i f :
  files_wf c -> live_files c !! i = Some f -> restorable j i (file_view c f) ->
  file_step c (abort_restore_file j (transaction_snapshot_app_index j) c (Z.of_nat i)) i
    (restore_entry j i (file_view c f)).
Proof.
  intros Hwf Hi Hr. pose proof (contents_length c i f Hwf Hi) as Hc.
  assert (Hlt : (i < length (live_files c))%nat) by (by eapply lookup_lt_Some).
  assert (Hpend : forall c1 g b, settled c c1 i g b ->
    file_step c (update_file (set_transaction_pending false) (Z.of_nat i) c1) i
      (set_transaction_pending false (sans_slice g), b)).
  { intros c1 g b Hs. by apply (settled_update c c1 i g b (set_transaction_pending false)). }
  unfold abort_restore_file, restore_entry, restorable in *. rewrite (file_at_live _ _ _ Hi).
  unfold file_view in *. cbn [fst snd] in *. rewrite Hc in *.
  change (file_app_index (sans_slice f)) with (file_app_index f) in *.
  change (transaction_pending (sans_slice f)) with (transaction_pending f) in *.
  change (transaction_file_has_data (sans_slice f)) with (transaction_file_has_data f) in *.
  change (transaction_file_bit (transaction_snapshot_created j) (Z.of_nat i)) with (created j i).
  change (transaction_file_bit (transaction_snapshot_captured j) (Z.of_nat i)) with (captured j i).
  change (in_transaction j (sans_slice f)) with (in_transaction j f) in *.
  unfold in_transaction in Hr. destruct (file_app_index f =? _) eqn:Ea; cbn [negb andb] in *;
    [|by apply settled_refl].
  destruct (transaction_pending f && transaction_file_has_data f) eqn:Ep.
  2: { by apply Hpend, settled_refl. }
  apply andb_true_iff in Ep as [Ep Ed].
  assert (Hz : zlen (zeros (data_len f)) = data_len f)
    by (apply length_zeros; by eapply data_len_nonneg).
  destruct (created j i) eqn:Ecr; [|destruct (captured j i) eqn:Eca].
  - destruct (with_count_slice 0 f) as (_ & _ & <-).
    apply Hpend, settled_count; [done..|]. by apply settled_store.
  - destruct (with_count_slice (slot_count (slot_at j (Z.of_nat i))) f) as (_ & _ & <-).
    apply Hpend, settled_count; [done..|]. apply settled_store; [done..|]. by apply Hr.
  - by apply Hpend, settled_refl.
Qed.

(** What the abort writes is the committed entry. *)
Lemma restore_entry_committed j ents i ent :
  journal_ok j ents -> ents !! i = Some ent -> restore_entry j i ent = commit_entry j i ent.
Proof.
  intros Hjk Hi. destruct (transaction_pending (fst ent)) eqn:Ep.
  2: { rewrite (jk_clean _ _ Hjk i ent Hi Ep). unfold restore_entry. rewrite Ep. cbn [andb].
       destruct (negb _); [done|]. destruct ent. cbn [fst] in *. by rewrite set_pending_same. }
  destruct (pending_in_transaction j ents i ent Hjk Hi Ep) as (Ha & Hin & Hcc).
  destruct ent as [f b]. unfold restore_entry, commit_entry. cbn [fst snd] in *.
  change (in_transaction j (set_transaction_pending false f)) with (in_transaction j f).
  rewrite Ha, Hin, Hcc, Ep, !with_count_pending. apply andb_true_iff in Hin as [-> ->]. cbn [negb andb].
  destruct (created j i), (captured j i); done.
Qed.

Lemma abort_preimage_ok_live e i f :
  tx_wf e -> transaction_snapshot_active (journal e) = true ->
  live_files (credential e) !! i = Some f -> abort_preimage_ok e (Z.of_nat i) = true.
Proof.
  intros [Hfw Hjk] Ha Hf. pose proof (jk_open _ _ Hjk Ha) as Hj.
  unfold abort_preimage_ok. rewrite (file_at_live _ _ _ Hf), (file_data_resolve _ _ _ Hfw Hf).
  change (transaction_file_bit (transaction_snapshot_created _) (Z.of_nat i)) with (created (journal e) i).
  change (transaction_file_bit (transaction_snapshot_captured _) (Z.of_nat i)) with (captured (journal e) i).
  change ((transaction_snapshot_offsets (journal e)).[Z.of_nat i]) with (preimage_at (journal e) i).
  destruct (transaction_pending f) eqn:Ep; [|by rewrite orb_true_r].
  destruct (pending_in_transaction _ _ i _ Hjk (abs_lookup _ _ _ Hf) Ep) as (_ & Hin & Hcc).
  change (in_transaction (journal e) f = true) in Hin.
  apply andb_true_iff in Hin as [-> ->]. cbn [negb orb].
  destruct (created (journal e) i) eqn:Ecr; [done|]. cbn [orb] in Hcc. rewrite Hcc.
  destruct (jo_pool _ _ Hj) as (p & -> & _).
  destruct (jo_preimage _ _ Hj i _ (abs_lookup _ _ _ Hf) Hcc) as [H1 H2]. cbn [file_view snd] in H2.
  rewrite (contents_length _ _ _ Hfw Hf) in H2. pose proof (data_len_nonneg _ _ _ Hfw Hf).
  rewrite bool_decide_eq_false_2 by done. rewrite andb_false_r. cbn [negb orb].
  rewrite !(proj2 (Z.ltb_ge _ _)) by lia. cbn [orb]. by destruct (data_len f =? 0).
Qed.

(** The checks before the restore all pass. *)
Lemma abort_valid e :
  tx_wf e -> transaction_snapshot_active (journal e) = true ->
  (transaction_snapshot_pool_length (journal e) <=? transaction_snapshot_pool_capacity (journal e)) &&
  forallb (abort_preimage_ok e) (seqZ 0 (num_files (credential e))) = true.
Proof.
  intros Hwf Ha. pose proof Hwf as [Hfw Hjk]. pose proof (jk_open _ _ Hjk Ha) as Hj.
  pose proof (jo_budget _ _ Hj). pose proof (sum_owed_nonneg (journal e) (abs_files (credential e))).
  apply andb_true_iff. split; [apply Z.leb_le; lia|]. apply forallb_forall. intros x Hx.
  apply list_elem_of_In, elem_of_seqZ in Hx. pose proof (length_live_files _ Hfw) as Hl. unfold zlen in Hl.
  destruct (lookup_lt_is_Some_2 (live_files (credential e)) (Z.to_nat x)) as [f Hf]; [lia|].
  rewrite <- (Z2Nat.id x) by lia. by eapply abort_preimage_ok_live.
Qed.

(** An aborted transaction: the store reads what was committed, and the journal is
    closed and empty. *)
Lemma abort_correct e :
  tx_wf e -> transaction_snapshot_active (journal e) = true ->
  let '(ok, e') := dfc_emulator_abort_transaction_snapshot e in
  ok = true /\ files_wf (credential e') /\
  abs_files (credential e') = committed_view e /\
  num_files (credential e') = num_files (credential e) /\
  sans_files (credential e') =
    set_dirty (transaction_snapshot_dirty (journal e)) (sans_files (credential e)) /\
  e' = set_journal zero_journal (set_credential (credential e') e).
Proof.
  intros Hwf Ha. pose proof Hwf as [Hfw Hjk].
  unfold dfc_emulator_abort_transaction_snapshot. rewrite Ha, (abort_valid e Hwf Ha).
  pose proof (fold_files_correct
    (abort_restore_file (journal e) (transaction_snapshot_app_index (journal e)))
    (restore_entry (journal e)) (restorable (journal e)) (credential e) Hfw) as Hfold.
  destruct Hfold as (Hw & Habs & Hn & Hs).
  { intros i ent He _ _ _ Hcap. by apply (length_preimage _ _ i ent (jk_open _ _ Hjk Ha)). }
  { intros c i f Hc Hf Hr. by apply abort_restore_file_correct. }
  set (c1 := fold_left _ _ _) in *. split_and!; try done.
  - destruct Hw. by constructor.
  - rewrite (committed_view_abs e Hwf).
    change (abs_files (credential (transaction_snapshot_clear_state _))) with (abs_files c1).
    rewrite Habs. apply imap_ext. intros i ent Hi. by apply (restore_entry_committed _ _ _ _ Hjk).
  - rewrite <- Hs. done.
Qed.
