(* ===== verification/JournalSteps.v ===== *)
(** Each step inside a transaction, over the abstract file store.

    The functions of the journal in [src/src/dfc_emulator.c] and the writes of the
    command handlers between them keep [tx_wf]; none changes what is committed except
    the steps that bypass the transaction (creating and deleting a file, writing a
    standard file), and those change exactly their own file. *)

From S2P Require Import Prelude Common Pool CredentialData Credential FileStore.
From S2P Require Import EmulatorData Journal JournalSlots JournalFacts.

#[local] Abbreviation entry := (DfcFile * bytes)%type.

(** ** Sums over indexed lists *)

Lemma sum_insert (l : list Z) i a b :
  l !! i = Some a -> foldr Z.add 0 (<[i := b]> l) = foldr Z.add 0 l - a + b.
Proof.
  revert i. induction l as [|x l IH]; intros [|i] Hi; simplify_eq/=; [lia|].
  rewrite IH by done. lia.
Qed.

Lemma sum_delete (l : list Z) i a : l !! i = Some a -> foldr Z.add 0 (delete i l) = foldr Z.add 0 l - a.
Proof.
  revert i. induction l as [|x l IH]; intros [|i] Hi; simplify_eq/=; [lia|].
  rewrite IH by done. lia.
Qed.

Lemma sum_app (l k : list Z) : foldr Z.add 0 (l ++ k) = foldr Z.add 0 l + foldr Z.add 0 k.
Proof. induction l as [|x l IH]; cbn; lia. Qed.

Lemma imap_update {A B} (g h : nat -> A -> B) l i x y :
  l !! i = Some x -> (forall k z, k <> i -> l !! k = Some z -> h k z = g k z) ->
  imap h (<[i := y]> l) = <[i := h i y]> (imap g l).
Proof.
  intros Hi Hk. assert (Hlt : (i < length l)%nat) by (by eapply lookup_lt_Some).
  apply list_eq. intros k. rewrite list_lookup_imap. destruct (decide (k = i)) as [->|Hne].
  - rewrite !list_lookup_insert_eq by (rewrite ?length_imap; done). done.
  - rewrite !list_lookup_insert_ne, list_lookup_imap by done.
    destruct (l !! k) eqn:E; [|done]. cbn. f_equal. by apply Hk.
Qed.

Lemma imap_delete {A B} (g h : nat -> A -> B) l i :
  (forall k z, (k < i)%nat -> l !! k = Some z -> h k z = g k z) ->
  (forall k z, (i <= k)%nat -> l !! (S k) = Some z -> h k z = g (S k) z) ->
  imap h (delete i l) = delete i (imap g l).
Proof.
  intros Hlo Hhi. apply list_eq. intros k. rewrite list_lookup_imap.
  destruct (decide (k < i)%nat).
  - rewrite !list_lookup_delete_lt, list_lookup_imap by lia. destruct (l !! k) eqn:E; [|done].
    cbn. f_equal. by apply Hlo.
  - rewrite !list_lookup_delete_ge, list_lookup_imap by lia. destruct (l !! S k) eqn:E; [|done].
    cbn. f_equal. apply Hhi; [lia|done].
Qed.

Lemma splice_nil {A} (l : list A) o : splice l o [] = l.
Proof. unfold splice. cbn. rewrite Nat.add_0_r. apply take_drop. Qed.

(** ** Journals that agree *)

Lemma sans_slots_fields j j' :
  sans_slots j' = sans_slots j ->
  transaction_snapshot_pool j' = transaction_snapshot_pool j /\
  transaction_snapshot_app_index j' = transaction_snapshot_app_index j /\
  transaction_snapshot_pool_length j' = transaction_snapshot_pool_length j /\
  transaction_snapshot_pool_capacity j' = transaction_snapshot_pool_capacity j /\
  transaction_snapshot_active j' = transaction_snapshot_active j /\
  transaction_snapshot_dirty j' = transaction_snapshot_dirty j.
Proof. destruct j, j'. cbn. intros H. by injection H as -> -> -> -> -> ->. Qed.

Lemma in_transaction_app j j' f :
  transaction_snapshot_app_index j' = transaction_snapshot_app_index j ->
  in_transaction j' f = in_transaction j f.
Proof. unfold in_transaction. by intros ->. Qed.

(** Two journals with the same slot and the same preimage commit the same entry. *)
Lemma commit_entry_eq j j' i k ent :
  transaction_snapshot_active j' = transaction_snapshot_active j ->
  transaction_snapshot_app_index j' = transaction_snapshot_app_index j ->
  slot_at j' (Z.of_nat i) = slot_at j (Z.of_nat k) ->
  (captured j k = true -> preimage j' i (zlen (snd ent)) = preimage j k (zlen (snd ent))) ->
  commit_entry j' i ent = commit_entry j k ent.
Proof.
  intros Ha Happ Hs Hp. destruct ent as [f b]. unfold commit_entry, created, captured in *.
  rewrite Ha, (in_transaction_app j j'), Hs by done. cbn [snd] in Hp.
  destruct (_ && _ && _) eqn:E; [|done]. destruct (slot_created _); [done|].
  cbn [orb] in E. apply andb_true_iff in E as [_ E]. by rewrite Hp.
Qed.

(** Without pending files the store is what is committed. *)
Lemma commit_clean j ents :
  journal_ok j ents -> Forall (fun ent => transaction_pending (fst ent) = false) ents ->
  imap (commit_entry j) ents = ents.
Proof.
  intros Hj Hall. apply list_eq. intros i. rewrite list_lookup_imap.
  destruct (ents !! i) as [ent|] eqn:E; [|done]. cbn. f_equal. apply (jk_clean _ _ Hj i ent E).
  by apply (Forall_lookup_1 _ _ _ _ Hall E).
Qed.

Lemma inactive_clean j ents :
  journal_ok j ents -> transaction_snapshot_active j = false ->
  Forall (fun ent => transaction_pending (fst ent) = false) ents.
Proof.
  intros Hj Ha. apply Forall_lookup. intros i ent Hi.
  destruct (transaction_pending (fst ent)) eqn:E; [|done].
  destruct (jk_pending _ _ Hj i ent Hi E). congruence.
Qed.

(** A closed journal around files that are all committed. *)
Lemma journal_ok_closed j ents :
  journal_shape j -> zlen ents <= DFC_MAX_FILES ->
  Forall (fun ent => record_file_ok (fst ent)) ents -> transaction_snapshot_active j = false ->
  Forall (fun ent => transaction_pending (fst ent) = false) ents -> journal_ok j ents.
Proof.
  intros Hs Hl Hr Ha Hp. constructor; try done; [congruence| |].
  - intros i ent Hi Hpe. pose proof (Forall_lookup_1 _ _ _ _ Hp Hi). cbn in *. congruence.
  - intros i [f b] Hi Hpe. unfold commit_entry. rewrite Ha. cbn [andb fst] in *.
    by rewrite set_pending_same.
Qed.

(** ** Opening *)

Lemma bit_zeros i : transaction_file_bit (zeros DFC_TRANSACTION_FILE_BITMAP_SIZE) i = false.
Proof.
  unfold transaction_file_bit. destruct (i <? DFC_MAX_FILES); [|done]. cbn [andb].
  assert (H0 : forall k, (zeros DFC_TRANSACTION_FILE_BITMAP_SIZE).[k] = 0).
  { intros k. unfold byte_at. by destruct (Z.to_nat k) as [|[|[|[|[|n]]]]]. }
  by rewrite H0.
Qed.

Definition capacity_share (selected : Z) (f : DfcFile) : Z :=
  if (file_app_index f =? selected) && transaction_file_has_data f then data_len f else 0.

Lemma capacity_fold selected l a :
  Forall (fun f => 0 <= data_len f) l -> 0 <= a ->
  a + total_length (map file_slice l) <= DFC_FILE_POOL_SIZE ->
  fold_left (snapshot_capacity_step selected) l (Some a) =
  Some (a + foldr Z.add 0 (map (capacity_share selected) l)).
Proof.
  intros Hl. revert a. induction Hl as [|f l Hf Hl IH]; intros a Ha Ht; cbn in *; [by rewrite Z.add_0_r|].
  assert (Htl : 0 <= total_length (map file_slice l)).
  { clear -Hl. induction Hl; cbn; lia. }
  unfold capacity_share at 1. destruct (file_app_index f =? selected), (transaction_file_has_data f);
    cbn [negb orb andb]; try (rewrite IH by lia; f_equal; lia).
  rewrite (proj2 (Z.ltb_ge _ _)), IH by lia. f_equal. lia.
Qed.

Lemma snapshot_capacity_spec c selected :
  files_wf c -> snapshot_capacity c selected =
    Some (foldr Z.add 0 (map (capacity_share selected) (live_files c))).
Proof.
  intros Hwf. unfold snapshot_capacity. change (take _ (files c)) with (live_files c).
  pose proof (fw_pool _ Hwf) as Hp. rewrite capacity_fold; [by rewrite Z.add_0_l| |lia|].
  - apply Forall_lookup. intros i f Hf. by eapply data_len_nonneg.
  - rewrite (pool_total _ _ _ _ Hp). pose proof (pool_bound _ _ _ _ Hp). lia.
Qed.

Lemma capacity_bound selected c :
  files_wf c -> 0 <= foldr Z.add 0 (map (capacity_share selected) (live_files c)) <= DFC_FILE_POOL_SIZE.
Proof.
  intros Hwf. pose proof (fw_pool _ Hwf) as Hp. pose proof (pool_bound _ _ _ _ Hp).
  enough (0 <= foldr Z.add 0 (map (capacity_share selected) (live_files c)) <=
          total_length (map file_slice (live_files c))) by (rewrite (pool_total _ _ _ _ Hp) in *; lia).
  assert (Hall : Forall (fun f => 0 <= data_len f) (live_files c)).
  { apply Forall_lookup. intros i f Hf. by eapply data_len_nonneg. }
  clear -Hall. induction Hall as [|f l Hf Hl IH]; cbn; [lia|].
  assert (0 <= capacity_share selected f <= data_len f)
    by (unfold capacity_share; destruct (_ && _); lia). lia.
Qed.

(** A journal just opened. *)
Definition opened_journal (c : DfcCredential) (selected size : Z) (pool : bytes) : TransactionJournal :=
  Build_TransactionJournal (Some pool) selected 0 size (zeros DFC_MAX_FILES) (zeros DFC_MAX_FILES)
    (zeros DFC_MAX_FILES) (zeros DFC_MAX_FILES) (zeros DFC_TRANSACTION_FILE_BITMAP_SIZE)
    (zeros DFC_TRANSACTION_FILE_BITMAP_SIZE) true (dirty c).

Lemma opened_journal_ok c selected size pool :
  files_wf c -> Forall (fun ent => record_file_ok (fst ent)) (abs_files c) ->
  Forall (fun ent => transaction_pending (fst ent) = false) (abs_files c) ->
  zlen pool = size -> size <= DFC_FILE_POOL_SIZE ->
  foldr Z.add 0 (map (capacity_share selected) (live_files c)) <= size ->
  journal_ok (opened_journal c selected size pool) (abs_files c).
Proof.
  intros Hwf Hr Hp Hz Hs Hcap. set (j := opened_journal c selected size pool).
  assert (Hno : forall i, captured j i = false /\ created j i = false)
    by (intros i; split; apply bit_zeros).
  assert (Howed : sum_owed j (abs_files c) = foldr Z.add 0 (map (capacity_share selected) (live_files c))).
  { unfold sum_owed. f_equal. apply list_eq. intros i. unfold abs_files.
    rewrite list_lookup_imap, !list_lookup_fmap. destruct (live_files c !! i) as [f|] eqn:Hf; [|done].
    cbn. unfold owed, capacity_share. destruct (Hno i) as [-> ->]. cbn [fst snd file_view negb].
    rewrite !andb_true_r, (contents_length c i f Hwf Hf). done. }
  constructor; try done.
  - pose proof (length_live_files c Hwf). pose proof (fw_count _ Hwf). unfold abs_files, zlen in *.
    rewrite length_map. lia.
  - intros _. constructor; try done.
    + by exists pool.
    + rewrite Howed. cbn. lia.
    + intros i ent _. destruct (Hno i) as [-> ->]. done.
    + intros i ent _ H. destruct (Hno i). congruence.
    + intros i ent _ H. destruct (Hno i). congruence.
    + intros i k a b _ _ _ H. destruct (Hno i). congruence.
  - intros i ent Hi H. pose proof (Forall_lookup_1 _ _ _ _ Hp Hi). cbn in *. congruence.
  - intros i [f b] Hi H. unfold commit_entry. destruct (Hno i) as [-> ->]. cbn [orb].
    rewrite andb_false_r. cbn [fst] in H. by rewrite set_pending_same.
Qed.

(** What a step inside the transaction keeps. *)
Record tx_step (e e' : DfcEmulator) : Prop := {
  ts_wf : tx_wf e';
  ts_committed : committed_view e' = committed_view e;
  ts_selected : selected_app_index e' = selected_app_index e;
}.

Lemma tx_step_trans e1 e2 e3 : tx_step e1 e2 -> tx_step e2 e3 -> tx_step e1 e3.
Proof. intros [? ? ?] [? ? ?]. constructor; [done|congruence..]. Qed.

(** What the host's allocator promises: a granted block has the requested size. *)
Definition alloc_ok (alloc : Z -> option bytes) : Prop :=
  forall n p, 0 < n -> alloc n = Some p -> zlen p = n.

(** Opening a transaction fails only when the host has no memory, and changes nothing
    that is stored or committed. *)
Lemma begin_correct alloc e :
  tx_wf e -> alloc_ok alloc ->
  transaction_snapshot_active (journal e) = false ->
  let '(ok, e') := dfc_emulator_command_transaction_snapshot_begin alloc e in
  (ok = false -> e' = e /\ exists n, 0 < n <= DFC_FILE_POOL_SIZE /\ alloc n = None) /\
  (ok = true -> tx_step e e' /\ credential e' = credential e /\
     transaction_snapshot_active (journal e') = true /\
     transaction_snapshot_app_index (journal e') = selected_app_index e /\
     transaction_snapshot_dirty (journal e') = dirty (credential e)).
Proof.
  intros Hwf Halloc Ha. pose proof Hwf as [Hfw Hjk].
  unfold dfc_emulator_command_transaction_snapshot_begin. rewrite Ha, (snapshot_capacity_spec _ _ Hfw).
  pose proof (capacity_bound (selected_app_index e) _ Hfw) as Hb.
  set (cap := foldr Z.add 0 _) in *. set (size := if cap =? 0 then 1 else cap).
  assert (Hsz : 0 < size <= DFC_FILE_POOL_SIZE /\ cap <= size).
  { unfold size. destruct (cap =? 0) eqn:E; bool_facts; dlia. }
  destruct (alloc size) as [pool|] eqn:Eal; [|split; [intros _; split; [done|exists size; split; [lia|done]]|done]].
  split; [done|]. intros _. split_and!; try done. set (e' := on_journal _ e).
  assert (Hj' : journal e' = opened_journal (credential e) (selected_app_index e) size pool) by done.
  pose proof (inactive_clean _ _ Hjk Ha) as Hclean.
  assert (Hok : journal_ok (journal e') (abs_files (credential e))).
  { rewrite Hj'. pose proof (jk_records _ _ Hjk). apply opened_journal_ok; try done; [apply Halloc; (done || lia)|lia..]. }
  assert (Hwf' : tx_wf e') by (split; done). constructor; [done| |done].
  rewrite (committed_view_abs e' Hwf'), (committed_view_abs e Hwf).
  change (credential e') with (credential e). by rewrite !commit_clean.
Qed.

(** ** Capture *)

(** The journal with the preimage [b] of file [i] appended. *)
Definition captured_journal (j : TransactionJournal) (i n : Z) (b : bytes) : TransactionJournal :=
  let offset := transaction_snapshot_pool_length j in
  set_transaction_snapshot_captured (transaction_file_bit_set (transaction_snapshot_captured j) i true)
  (set_transaction_snapshot_pool_length (offset + zlen b)
  (set_transaction_snapshot_record_counts ((transaction_snapshot_record_counts j).[i := n])
  (set_transaction_snapshot_offsets ((transaction_snapshot_offsets j).[i := offset])
  (set_transaction_snapshot_pool ((fun pool => splice pool offset b) <$> transaction_snapshot_pool j) j)))).

Lemma captured_journal_slots j i n b :
  journal_shape j -> 0 <= i < DFC_MAX_FILES ->
  journal_shape (captured_journal j i n b) /\
  (forall k, 0 <= k < DFC_MAX_FILES -> slot_at (captured_journal j i n b) k =
     if k =? i then Slot true (slot_created (slot_at j i)) (transaction_snapshot_pool_length j) n
                      (slot_operation (slot_at j i)) (slot_number (slot_at j i))
     else slot_at j k).
Proof.
  intros [H1 H2 H3 H4 H5 H6] Hi. split.
  - constructor; cbn; rewrite ?zlen_store, ?zlen_bit_set by (done || lia); done.
  - intros k Hk. unfold slot_at. cbn. rewrite !byte_at_store, !file_bit_set by (done || lia).
    destruct (k =? i) eqn:E; bool_facts; [by subst|done].
Qed.

Section capture.
Context (j : TransactionJournal) (ents : list entry) (i : nat) (f : DfcFile) (b : bytes).
Context (Hjk : journal_ok j ents) (Ha : transaction_snapshot_active j = true).
Context (Hi : ents !! i = Some (f, b)) (Hin : in_transaction j f = true).
Context (Hcr : created j i = false) (Hca : captured j i = false).

#[local] Abbreviation j' := (captured_journal j (Z.of_nat i)
  (if is_record_file f then record_count_of f else 0) b).

Lemma capture_index : 0 <= Z.of_nat i < DFC_MAX_FILES.
Proof.
  pose proof (lookup_lt_Some _ _ _ Hi). pose proof (jk_count _ _ Hjk). unfold zlen in *. lia.
Qed.

Lemma entry_index k ent : ents !! k = Some ent -> 0 <= Z.of_nat k < DFC_MAX_FILES.
Proof.
  intros Hk. pose proof (lookup_lt_Some _ _ _ Hk). pose proof (jk_count _ _ Hjk). unfold zlen in *. lia.
Qed.

Lemma capture_not_pending : transaction_pending f = false.
Proof.
  destruct (transaction_pending f) eqn:E; [|done].
  destruct (jk_pending _ _ Hjk i _ Hi E) as [_ H]. rewrite Hcr, Hca in H. done.
Qed.

Lemma capture_owed : owed j i (f, b) = zlen b.
Proof. unfold owed. cbn [fst snd]. by rewrite Hin, Hca, Hcr. Qed.

Lemma capture_room :
  transaction_snapshot_pool_length j + zlen b <= transaction_snapshot_pool_capacity j.
Proof.
  pose proof (jo_budget _ _ (jk_open _ _ Hjk Ha)) as Hb.
  pose proof (sum_delete (imap (owed j) ents) i (zlen b)) as Hd.
  rewrite list_lookup_imap, Hi in Hd. cbn in Hd. rewrite capture_owed in Hd. specialize (Hd eq_refl).
  assert (Hnn : 0 <= foldr Z.add 0 (delete i (imap (owed j) ents)))
    by (apply sum_nonneg, Forall_delete, owed_all_nonneg).
  unfold sum_owed in Hb. lia.
Qed.

Lemma capture_slot k ent :
  ents !! k = Some ent ->
  (k = i -> captured j' k = true /\ created j' k = false /\
            preimage_at j' k = transaction_snapshot_pool_length j) /\
  (k <> i -> captured j' k = captured j k /\ created j' k = created j k /\
             preimage_at j' k = preimage_at j k /\
             slot_at j' (Z.of_nat k) = slot_at j (Z.of_nat k)).
Proof.
  intros Hk. destruct (captured_journal_slots j (Z.of_nat i)
    (if is_record_file f then record_count_of f else 0) b (jk_shape _ _ Hjk) capture_index) as [_ Hs].
  specialize (Hs (Z.of_nat k) (entry_index k ent Hk)). unfold captured, created, preimage_at in *.
  rewrite Hs. split; intros Hki.
  - subst k. rewrite Z.eqb_refl. cbn [slot_captured slot_created slot_offset]. done.
  - by rewrite (proj2 (Z.eqb_neq _ _)) by lia.
Qed.

Lemma capture_pool : exists p, default [] (transaction_snapshot_pool j) = p /\
  zlen p = transaction_snapshot_pool_capacity j /\
  default [] (transaction_snapshot_pool j') = splice p (transaction_snapshot_pool_length j) b.
Proof.
  destruct (jo_pool _ _ (jk_open _ _ Hjk Ha)) as (p & Hpool & Hz). exists p.
  unfold captured_journal. cbn [transaction_snapshot_pool set_transaction_snapshot_captured
    set_transaction_snapshot_pool_length set_transaction_snapshot_record_counts
    set_transaction_snapshot_offsets set_transaction_snapshot_pool]. by rewrite Hpool.
Qed.

Lemma capture_preimage_other k ent :
  ents !! k = Some ent -> k <> i -> captured j k = true ->
  preimage j' k (zlen (snd ent)) = preimage j k (zlen (snd ent)).
Proof.
  intros Hk Hne Hck. destruct (capture_slot k ent Hk) as [_ Hs]. destruct (Hs Hne) as (_ & _ & Hp & _).
  unfold preimage. rewrite Hp. pose proof (jk_open _ _ Hjk Ha) as Ho.
  destruct capture_pool as (p & Hpool & Hz & ->). rewrite ?Hpool.
  destruct (jo_preimage _ _ Ho k ent Hk Hck). pose proof capture_room. pose proof (zlen_nonneg (snd ent)).
  pose proof (zlen_nonneg b). pose proof (jo_length _ _ Ho). apply slice_splice_disjoint; lia.
Qed.

Lemma capture_preimage_self : preimage j' i (zlen b) = b.
Proof.
  destruct (capture_slot i _ Hi) as [Hs _]. destruct (Hs eq_refl) as (_ & _ & Hp).
  unfold preimage. rewrite Hp. pose proof (jk_open _ _ Hjk Ha) as Ho.
  destruct capture_pool as (p & Hpool & Hz & ->). rewrite ?Hpool.
  pose proof (jo_length _ _ Ho). pose proof capture_room. apply slice_splice_same; lia.
Qed.

Lemma capture_count :
  slot_count (slot_at j' (Z.of_nat i)) = if is_record_file f then record_count_of f else 0.
Proof.
  destruct (captured_journal_slots j (Z.of_nat i) (if is_record_file f then record_count_of f else 0)
    b (jk_shape _ _ Hjk) capture_index) as [_ Hsl].
  by rewrite (Hsl _ capture_index), Z.eqb_refl.
Qed.

Lemma capture_commit k ent : ents !! k = Some ent -> commit_entry j' k ent = commit_entry j k ent.
Proof.
  intros Hk. destruct (decide (k = i)) as [->|Hne].
  2: { destruct (capture_slot k ent Hk) as [_ Hs]. destruct (Hs Hne) as (_ & _ & _ & Hslot).
       apply commit_entry_eq; [done..|]. intros Hck. by apply capture_preimage_other. }
  assert (ent = (f, b)) as -> by congruence. destruct (capture_slot i _ Hi) as [Hs _].
  destruct (Hs eq_refl) as (H1 & H2 & H3). unfold commit_entry.
  change (transaction_snapshot_active j') with (transaction_snapshot_active j).
  rewrite Ha, H1, H2, Hcr, Hca, capture_preimage_self. cbn [orb]. rewrite andb_false_r.
  change (in_transaction j' (set_transaction_pending false f)) with (in_transaction j f). rewrite Hin.
  cbn [andb]. f_equal. rewrite with_count_pending. f_equal.
  rewrite capture_count. pose proof (Forall_lookup_1 _ _ _ _ (jk_records _ _ Hjk) Hi) as Hr. cbn [fst] in Hr.
  destruct (is_record_file f) eqn:Er; [by apply with_count_same|]. unfold with_count. by rewrite Er.
Qed.

Lemma capture_sum_owed : sum_owed j' ents = sum_owed j ents - zlen b.
Proof.
  unfold sum_owed. rewrite <- (list_insert_id ents i (f, b) Hi) at 1.
  rewrite (imap_update (owed j) (owed j') ents i (f, b) (f, b) Hi).
  - destruct (capture_slot i _ Hi) as [Hs _]. destruct (Hs eq_refl) as (H1 & H2 & _).
    rewrite (sum_insert _ i (zlen b)); [|by rewrite list_lookup_imap, Hi; cbn; rewrite capture_owed].
    unfold owed at 2. rewrite H1, andb_false_r. cbn [andb]. lia.
  - intros k ent Hne Hk. destruct (capture_slot k ent Hk) as [_ Hs].
    destruct (Hs Hne) as (H1 & H2 & _). unfold owed. by rewrite H1, H2.
Qed.

Lemma capture_slot_cases k ent :
  ents !! k = Some ent -> captured j' k = true ->
  (k = i /\ preimage_at j' k = transaction_snapshot_pool_length j /\ ent = (f, b)) \/
  (k <> i /\ preimage_at j' k = preimage_at j k /\ captured j k = true).
Proof.
  intros Hk Hck. destruct (capture_slot k ent Hk) as [Hs Ho].
  destruct (decide (k = i)) as [->|Hne].
  - left. destruct (Hs eq_refl) as (_ & _ & ?). split_and!; congruence.
  - right. destruct (Ho Hne) as (? & _ & ? & _). split_and!; congruence.
Qed.

Lemma capture_open : journal_open j' ents.
Proof.
  pose proof (jk_open _ _ Hjk Ha) as Ho. pose proof capture_sum_owed as Hsum.
  pose proof (zlen_nonneg b) as Hb0. pose proof capture_room as Hroom. pose proof (jo_length _ _ Ho) as Hl0.
  assert (Hlen : transaction_snapshot_pool_length j' = transaction_snapshot_pool_length j + zlen b) by done.
  assert (Hcap : transaction_snapshot_pool_capacity j' = transaction_snapshot_pool_capacity j) by done.
  constructor; rewrite ?Hlen, ?Hcap.
  - destruct (jo_pool _ _ Ho) as (p & Hpool & Hz).
    exists (splice p (transaction_snapshot_pool_length j) b). split.
    + unfold captured_journal. cbn [transaction_snapshot_pool set_transaction_snapshot_captured
        set_transaction_snapshot_pool_length set_transaction_snapshot_record_counts
        set_transaction_snapshot_offsets set_transaction_snapshot_pool]. by rewrite Hpool.
    + rewrite length_splice; lia.
  - apply (jo_capacity _ _ Ho).
  - lia.
  - rewrite Hsum. pose proof (jo_budget _ _ Ho). lia.
  - intros k ent Hk Hck. destruct (capture_slot k ent Hk) as [Hs Hs'].
    destruct (decide (k = i)) as [->|Hne]; [assert (ent = (f, b)) as -> by congruence; exact Hin|].
    destruct (Hs' Hne) as (H1 & H2 & _). rewrite H1, H2 in Hck. by apply (jo_flags _ _ Ho k ent Hk).
  - intros k ent Hk Hck. destruct (capture_slot_cases k ent Hk Hck) as [(-> & -> & ->)|(Hne & -> & Hc)].
    + cbn [snd]. lia.
    + destruct (jo_preimage _ _ Ho k ent Hk Hc). lia.
  - intros k ent Hk Hck. destruct (capture_slot_cases k ent Hk Hck) as [(-> & _ & ->)|(Hne & _ & Hc)].
    + rewrite capture_count. pose proof (Forall_lookup_1 _ _ _ _ (jk_records _ _ Hjk) Hi) as Hr.
      cbn [fst] in Hr. destruct (is_record_file f) eqn:Er; [|lia]. destruct (Hr Er) as (r & Hst & Hrange).
      unfold record_count_of. by rewrite Hst.
    + destruct (capture_slot k ent Hk) as [_ Hs]. destruct (Hs Hne) as (_ & _ & _ & ->).
      by apply (jo_counts _ _ Ho k ent).
  - intros k l x y Hkl Hk Hl Hck Hcl.
    destruct (capture_slot_cases k x Hk Hck) as [(-> & -> & ->)|(Hnk & -> & Hc1)];
    destruct (capture_slot_cases l y Hl Hcl) as [(-> & -> & ->)|(Hnl & -> & Hc2)]; [done|..].
    + right. apply (jo_preimage _ _ Ho l y Hl Hc2).
    + left. apply (jo_preimage _ _ Ho k x Hk Hc1).
    + by apply (jo_disjoint _ _ Ho k l x y).
Qed.

Lemma capture_ok : journal_ok j' ents /\ imap (commit_entry j') ents = imap (commit_entry j) ents.
Proof.
  split; [|apply imap_ext; intros k ent Hk; by apply capture_commit].
  constructor.
  - apply captured_journal_slots; [apply Hjk|apply capture_index].
  - apply Hjk.
  - apply Hjk.
  - intros _. apply capture_open.
  - intros k ent Hk Hp. split; [done|]. destruct (capture_slot k ent Hk) as [Hs Hs'].
    destruct (decide (k = i)) as [->|Hne]; [destruct (Hs eq_refl) as (-> & _); apply orb_true_r|].
    destruct (Hs' Hne) as (-> & -> & _). by apply (jk_pending _ _ Hjk k ent).
  - intros k ent Hk Hp. rewrite capture_commit by done. by apply (jk_clean _ _ Hjk).
Qed.

End capture.

(** Every file of the open transaction can be captured, once begun: the pool was sized
    for all of them. *)
Lemma capture_correct e i f :
  tx_wf e -> transaction_snapshot_active (journal e) = true ->
  live_files (credential e) !! i = Some f -> in_transaction (journal e) f = true ->
  let '(ok, e') := dfc_emulator_transaction_snapshot_capture_file e (Z.of_nat i) in
  ok = true /\ tx_step e e' /\ credential e' = credential e /\
  transaction_snapshot_active (journal e') = true /\
  transaction_snapshot_app_index (journal e') = transaction_snapshot_app_index (journal e) /\
  created (journal e') i || captured (journal e') i = true.
Proof.
  intros Hwf Ha Hi Hin. pose proof Hwf as [Hfw Hjk]. pose proof (live_files_lt _ _ _ Hi) as Hb.
  unfold dfc_emulator_transaction_snapshot_capture_file. rewrite Ha.
  rewrite (proj2 (Z.leb_gt _ _)), (file_at_live _ _ _ Hi) by lia. cbn [negb].
  pose proof Hin as Hin'. apply andb_true_iff in Hin' as [-> ->]. cbn [negb orb].
  change (transaction_file_bit (transaction_snapshot_created _) (Z.of_nat i)) with (created (journal e) i).
  change (transaction_file_bit (transaction_snapshot_captured _) (Z.of_nat i)) with (captured (journal e) i).
  destruct (created (journal e) i || captured (journal e) i) eqn:Ecc; [by split_and!|].
  apply orb_false_iff in Ecc as [Hcr Hca]. pose proof (abs_lookup _ _ _ Hi) as Hv.
  pose proof (capture_room _ _ i _ _ Hjk Ha Hv Hin Hcr Hca) as Hroom.
  rewrite (contents_length _ _ _ Hfw Hi) in Hroom. pose proof (jk_open _ _ Hjk Ha) as Ho.
  pose proof (jo_length _ _ Ho). pose proof (jo_capacity _ _ Ho). pose proof (data_len_nonneg _ _ _ Hfw Hi).
  destruct (jo_pool _ _ Ho) as (p & Hp & Hz). rewrite Hp, bool_decide_eq_false_2, andb_false_r by done.
  rewrite !(proj2 (Z.ltb_ge _ _)) by lia. rewrite (file_data_resolve _ _ _ Hfw Hi). cbn [orb negb].
  set (jn := captured_journal (journal e) (Z.of_nat i)
               (if is_record_file f then record_count_of f else 0)
               (slice_contents (file_pool (credential e)) (file_slice f))).
  assert (Hn16 : u16 (if is_record_file f then record_count_of f else 0) =
                 if is_record_file f then record_count_of f else 0).
  { pose proof (Forall_lookup_1 _ _ _ _ (jk_records _ _ Hjk) Hv) as Hr. cbn [fst file_view] in Hr.
    change (record_file_ok f) in Hr. destruct (is_record_file f) eqn:Er; [|done].
    destruct (Hr Er) as (r & Hst & Hrange). apply u16_id. unfold record_count_of. by rewrite Hst. }
  assert (Hlen : u64 (transaction_snapshot_pool_length (journal e) + data_len f) =
                 transaction_snapshot_pool_length (journal e) + data_len f) by (apply Z.mod_small; dlia).
  assert (Hoff : u16 (transaction_snapshot_pool_length (journal e)) =
                 transaction_snapshot_pool_length (journal e)) by (apply u16_id; dlia).
  destruct (capture_ok _ _ i _ _ Hjk Ha Hv Hin Hcr Hca) as [Hjk' Hcm].
  assert (Hgoal : tx_step e (set_journal jn e)).
  { assert (Hw' : tx_wf (set_journal jn e)) by (split; done). constructor; [done| |done].
    rewrite (committed_view_abs _ Hw'), (committed_view_abs e Hwf). exact Hcm. }
  assert (Hslot : created jn i || captured jn i = true).
  { destruct (capture_slot _ _ i _ _ Hjk Hv Hcr i _ Hv) as [Hs _]. destruct (Hs eq_refl) as (Hc & _ & _).
    change (captured jn i = true) in Hc. rewrite Hc. apply orb_true_r. }
  destruct (data_len f =? 0) eqn:E0; cbn [negb andb]; bool_facts.
  - replace (set_journal _ e) with (set_journal jn e); [by split_and!|].
    f_equal. unfold jn, captured_journal. rewrite Hn16, Hlen, Hoff, (contents_length _ _ _ Hfw Hi), Hp.
    unfold slice_contents. cbn [file_slice fst snd fmap option_fmap option_map]. rewrite E0, slice_nil, splice_nil.
    rewrite <- Hp. by destruct (journal e).
  - rewrite bool_decide_eq_false_2 by done. cbn [negb].
    replace (set_journal _ e) with (set_journal jn e); [by split_and!|].
    f_equal. unfold jn, captured_journal. by rewrite Hn16, Hlen, Hoff, Hp, (contents_length _ _ _ Hfw Hi).
Qed.

(** ** Staged writes *)

(** A write to a file of the transaction: new octets and, for a record file, a new
    count, with the file marked pending. *)
Definition staged_file (n : Z) (f : DfcFile) : DfcFile := set_transaction_pending true (with_count n f).

Lemma staged_file_fields j n f :
  in_transaction j (staged_file n f) = in_transaction j f /\ transaction_pending (staged_file n f) = true /\
  is_record_file (staged_file n f) = is_record_file f /\
  data_len (staged_file n f) = data_len f /\ data_offset (staged_file n f) = data_offset f /\
  sans_slice (staged_file n f) = staged_file n (sans_slice f).
Proof.
  unfold staged_file, with_count. change (is_record_file (sans_slice f)) with (is_record_file f).
  destruct (is_record_file f) eqn:E; split_and!; done.
Qed.

Lemma staged_file_commit m n f :
  with_count m (set_transaction_pending false (staged_file n f)) =
  with_count m (set_transaction_pending false f).
Proof.
  destruct (staged_file_fields zero_journal n f) as (_ & _ & Hr & _).
  unfold with_count. change (is_record_file (set_transaction_pending false f)) with (is_record_file f).
  change (is_record_file (set_transaction_pending false (staged_file n f)))
    with (is_record_file (staged_file n f)).
  rewrite Hr. unfold staged_file, with_count. by destruct (is_record_file f).
Qed.

Lemma staged_file_record_ok n f : record_file_ok f -> 0 <= n < 2 ^ 16 -> record_file_ok (staged_file n f).
Proof.
  intros _ Hn Hr. destruct (staged_file_fields zero_journal n f) as (_ & _ & Her & _). rewrite Her in Hr.
  unfold staged_file, with_count. rewrite Hr. cbn. by eexists.
Qed.

(** Replacing one entry keeps the invariant when the journal's view of it, its
    membership and what it is owed do not change. *)
Lemma journal_ok_insert j ents i old new :
  journal_ok j ents -> ents !! i = Some old ->
  in_transaction j (fst new) = in_transaction j (fst old) -> zlen (snd new) = zlen (snd old) ->
  record_file_ok (fst new) ->
  (transaction_pending (fst new) = true ->
     transaction_snapshot_active j = true /\ created j i || captured j i = true) ->
  (transaction_pending (fst new) = false -> commit_entry j i new = new) ->
  journal_ok j (<[i := new]> ents).
Proof.
  intros Hjk Hi Hin Hlen Hrec Hpend Hclean. pose proof (lookup_lt_Some _ _ _ Hi) as Hlt.
  assert (Hk : forall k ent, <[i := new]> ents !! k = Some ent ->
    exists ent0, ents !! k = Some ent0 /\ in_transaction j (fst ent) = in_transaction j (fst ent0) /\
                 zlen (snd ent) = zlen (snd ent0)).
  { intros k ent. destruct (decide (k = i)) as [->|Hne].
    - rewrite list_lookup_insert_eq by done. intros [= <-]. by exists old.
    - rewrite list_lookup_insert_ne by done. intros Hk. by exists ent. }
  constructor; [apply Hjk| | | | |].
  - unfold zlen. rewrite length_insert. apply Hjk.
  - apply Forall_insert; [apply Hjk|done].
  - intros Ha. pose proof (jk_open _ _ Hjk Ha) as Ho. constructor; try apply Ho.
    + replace (sum_owed j (<[i := new]> ents)) with (sum_owed j ents); [apply Ho|].
      unfold sum_owed. rewrite (imap_update (owed j) (owed j) ents i old new Hi) by done. f_equal.
      symmetry. apply list_insert_id. rewrite list_lookup_imap, Hi. cbn. f_equal. unfold owed.
      by rewrite Hin, Hlen.
    + intros k ent Hl Hc. destruct (Hk k ent Hl) as (ent0 & Hl0 & -> & _).
      by apply (jo_flags _ _ Ho k ent0).
    + intros k ent Hl Hc. destruct (Hk k ent Hl) as (ent0 & Hl0 & _ & ->).
      by apply (jo_preimage _ _ Ho k ent0).
    + intros k ent Hl Hc. destruct (Hk k ent Hl) as (ent0 & Hl0 & _ & _).
      by apply (jo_counts _ _ Ho k ent0).
    + intros k l x y Hkl Hx Hy. destruct (Hk k x Hx) as (x0 & Hx0 & _ & ->).
      destruct (Hk l y Hy) as (y0 & Hy0 & _ & ->). by apply (jo_disjoint _ _ Ho k l x0 y0).
  - intros k ent. destruct (decide (k = i)) as [->|Hne].
    + rewrite list_lookup_insert_eq by done. intros [= <-]. exact Hpend.
    + rewrite list_lookup_insert_ne by done. apply (jk_pending _ _ Hjk).
  - intros k ent. destruct (decide (k = i)) as [->|Hne].
    + rewrite list_lookup_insert_eq by done. intros [= <-]. exact Hclean.
    + rewrite list_lookup_insert_ne by done. apply (jk_clean _ _ Hjk).
Qed.

Lemma stage_ok j ents i f b n b' :
  journal_ok j ents -> ents !! i = Some (f, b) -> transaction_snapshot_active j = true ->
  created j i || captured j i = true -> zlen b' = zlen b -> 0 <= n < 2 ^ 16 ->
  journal_ok j (<[i := (staged_file n f, b')]> ents) /\
  imap (commit_entry j) (<[i := (staged_file n f, b')]> ents) = imap (commit_entry j) ents.
Proof.
  intros Hjk Hi Ha Hcc Hl Hn. destruct (staged_file_fields j n f) as (Hin & Hp & _).
  pose proof (Forall_lookup_1 _ _ _ _ (jk_records _ _ Hjk) Hi) as Hr.
  assert (Htx : in_transaction j f = true)
    by (apply (jo_flags _ _ (jk_open _ _ Hjk Ha) i _ Hi); by rewrite orb_comm).
  split.
  - apply (journal_ok_insert j ents i (f, b)); try done; cbn [fst snd];
      ((by apply staged_file_record_ok) || congruence).
  - rewrite (imap_update (commit_entry j) (commit_entry j) ents i (f, b) _ Hi) by done.
    apply list_insert_id. rewrite list_lookup_imap, Hi. cbn [fmap option_fmap option_map]. f_equal.
    unfold commit_entry. rewrite Ha, Hcc, !staged_file_commit, Hl.
    change (in_transaction j (set_transaction_pending false (staged_file n f)))
      with (in_transaction j (staged_file n f)).
    change (in_transaction j (set_transaction_pending false f)) with (in_transaction j f).
    rewrite Hin, Htx. done.
Qed.

(** ** Writes outside the transaction *)

(** A file that is no part of a transaction changes under the journal: committed
    at once. *)
Lemma direct_ok j ents i old new :
  journal_ok j ents -> ents !! i = Some old ->
  in_transaction j (fst old) = false -> in_transaction j (fst new) = false ->
  zlen (snd new) = zlen (snd old) -> record_file_ok (fst new) -> transaction_pending (fst new) = false ->
  journal_ok j (<[i := new]> ents) /\
  imap (commit_entry j) (<[i := new]> ents) = <[i := new]> (imap (commit_entry j) ents).
Proof.
  intros Hjk Hi Ho Hn Hl Hr Hp.
  assert (Hc : commit_entry j i new = new).
  { destruct new as [f b]. unfold commit_entry. cbn [fst] in *.
    change (in_transaction j (set_transaction_pending false f)) with (in_transaction j f).
    rewrite Hn, andb_false_r. cbn [andb]. by rewrite set_pending_same. }
  split.
  - apply (journal_ok_insert j ents i old); try done; congruence.
  - rewrite (imap_update (commit_entry j) (commit_entry j) ents i old new Hi) by done. by rewrite Hc.
Qed.

(** ** Files created and deleted inside a transaction *)

(** The journal after [dfc_emulator_transaction_snapshot_insert_file] at the end. *)
Record journal_appended (j j' : TransactionJournal) (n : nat) (f : DfcFile) : Prop := {
  ja_shape : journal_shape j';
  ja_frame : sans_slots j' = sans_slots j;
  ja_below : forall k, (k < n)%nat -> slot_at j' (Z.of_nat k) = slot_at j (Z.of_nat k);
  ja_last : transaction_snapshot_active j = true ->
            slot_at j' (Z.of_nat n) = Slot false (in_transaction j f) 0 0 0 0;
}.

Lemma insert_file_correct e n f :
  journal_shape (journal e) -> live_files (credential e) !! n = Some f ->
  num_files (credential e) <= DFC_MAX_FILES ->
  let '(ok, e') := dfc_emulator_transaction_snapshot_insert_file e (Z.of_nat n) in
  ok = true /\ journal_appended (journal e) (journal e') n f /\ e' = set_journal (journal e') e.
Proof.
  intros Hs Hf Hmax. pose proof (live_files_lt _ _ _ Hf) as Hlt.
  unfold dfc_emulator_transaction_snapshot_insert_file.
  destruct (transaction_snapshot_active (journal e)) eqn:Ea.
  2: { split_and!; [done|constructor; [done..|congruence]|]. by destruct e. }
  rewrite (proj2 (Z.leb_gt _ _)), (file_at_live _ _ _ Hf) by lia. cbn [negb].
  split_and!; [done| |done]. cbn [on_journal journal set_journal].
  pose proof (shift_up_spec (Z.to_nat (DFC_MAX_FILES - 1 - Z.of_nat n)) (Z.of_nat n) (journal e) Hs) as Hup.
  rewrite Z2Nat.id in Hup by lia. destruct Hup as (Hs1 & Hf1 & Hk1); [lia|lia|].
  set (j1 := fold_left _ _ _) in *.
  destruct (store_slot_spec j1 (Z.of_nat n) 0 0 0 0 false
    ((file_app_index f =? transaction_snapshot_app_index (journal e)) && transaction_file_has_data f) Hs1)
    as (Hs2 & Hf2 & Hk2); [lia|].
  constructor; [done|congruence| |].
  - intros k Hk. rewrite Hk2, (proj2 (Z.eqb_neq _ _)), Hk1 by lia.
    by rewrite (proj2 (Z.ltb_ge _ _)) by lia.
  - intros _. rewrite Hk2, Z.eqb_refl by lia. done.
Qed.

Lemma append_ok j j' ents f b :
  journal_ok j ents -> journal_appended j j' (length ents) f ->
  zlen ents < DFC_MAX_FILES -> transaction_pending f = false -> record_file_ok f ->
  with_count 0 f = f -> b = zeros (zlen b) ->
  journal_ok j' (ents ++ [(f, b)]) /\
  imap (commit_entry j') (ents ++ [(f, b)]) = imap (commit_entry j) ents ++ [(f, b)].
Proof.
  intros Hjk [Hs Hfr Hlo Hlast] Hlen Hp Hr Hwc Hb.
  destruct (sans_slots_fields _ _ Hfr) as (Hpool & Happ & Hpl & Hpc & Hact & _).
  assert (Hcm : forall k ent, ents !! k = Some ent -> commit_entry j' k ent = commit_entry j k ent).
  { intros k ent Hk. apply commit_entry_eq; try done; [by apply Hlo; eapply lookup_lt_Some|].
    intros _. unfold preimage, preimage_at. rewrite Hlo by (by eapply lookup_lt_Some). by rewrite Hpool. }
  assert (Hnew : commit_entry j' (length ents) (f, b) = (f, b)).
  { unfold commit_entry. change (in_transaction j' (set_transaction_pending false f)) with (in_transaction j' f).
    rewrite (in_transaction_app j j') by done. rewrite Hact.
    destruct (transaction_snapshot_active j) eqn:Ea; cbn [andb]; [|by rewrite set_pending_same].
    unfold created, captured. rewrite (Hlast eq_refl). cbn [slot_created slot_captured].
    destruct (in_transaction j f); cbn [andb orb]; [|by rewrite set_pending_same].
    by rewrite set_pending_same, Hwc, <- Hb. }
  assert (Hcase : forall k ent, (ents ++ [(f, b)]) !! k = Some ent ->
    (ents !! k = Some ent /\ slot_at j' (Z.of_nat k) = slot_at j (Z.of_nat k)) \/
    (k = length ents /\ ent = (f, b))).
  { intros k ent Hk. apply lookup_app_Some in Hk as [Hk|[Hge Hk]].
    - left. split; [done|]. apply Hlo. by eapply lookup_lt_Some.
    - right. apply list_lookup_singleton_Some in Hk as [? ->]. split; [lia|done]. }
  split.
  2: { rewrite imap_app. f_equal; [apply imap_ext; done|].
       change (imap _ [(f, b)]) with [commit_entry j' (length ents + 0)%nat (f, b)].
       by rewrite Nat.add_0_r, Hnew. }
  constructor; [done| | | | |].
  - rewrite zlen_app. unfold zlen in *. cbn [length]. lia.
  - apply Forall_app. split; [apply Hjk|]. by constructor.
  - rewrite Hact. intros Ha. pose proof (jk_open _ _ Hjk Ha) as Ho. specialize (Hlast Ha).
    assert (Hnc : captured j' (length ents) = false) by (unfold captured; by rewrite Hlast).
    constructor; rewrite ?Hpool, ?Hpl, ?Hpc; try apply Ho.
    + replace (sum_owed j' (ents ++ [(f, b)])) with (sum_owed j ents); [apply Ho|].
      unfold sum_owed. rewrite imap_app, sum_app.
      replace (imap (owed j') ents) with (imap (owed j) ents).
      2: { apply imap_ext. intros k ent Hk. unfold owed, captured, created.
           rewrite Hlo by (by eapply lookup_lt_Some). by rewrite (in_transaction_app j j'). }
      change (imap _ [(f, b)]) with [owed j' (length ents + 0)%nat (f, b)].
      assert (Hz : owed j' (length ents) (f, b) = 0).
      { unfold owed, captured, created. rewrite Hlast. cbn [fst slot_created slot_captured negb].
        rewrite (in_transaction_app j j') by done. by destruct (in_transaction j f). }
      rewrite Nat.add_0_r, Hz. cbn [foldr]. lia.
    + intros k ent Hk. destruct (Hcase k ent Hk) as [[Hk' Hsl]|[-> ->]].
      * unfold captured, created. rewrite Hsl, (in_transaction_app j j') by done.
        by apply (jo_flags _ _ Ho k ent).
      * unfold captured, created. rewrite Hlast. cbn [slot_captured slot_created orb fst].
        by rewrite (in_transaction_app j j').
    + intros k ent Hk. destruct (Hcase k ent Hk) as [[Hk' Hsl]|[-> ->]]; [|by rewrite Hnc].
      unfold captured, preimage_at. rewrite Hsl. by apply (jo_preimage _ _ Ho k ent).
    + intros k ent Hk. destruct (Hcase k ent Hk) as [[Hk' Hsl]|[-> ->]]; [|by rewrite Hnc].
      unfold captured. rewrite Hsl. by apply (jo_counts _ _ Ho k ent).
    + intros k l x y Hkl Hx Hy. destruct (Hcase k x Hx) as [[Hx' Hsx]|[-> ->]]; [|by rewrite Hnc].
      destruct (Hcase l y Hy) as [[Hy' Hsy]|[-> ->]]; [|by rewrite Hnc].
      unfold captured, preimage_at. rewrite Hsx, Hsy. by apply (jo_disjoint _ _ Ho k l x y).
  - intros k ent Hk Hpe. destruct (Hcase k ent Hk) as [[Hk' Hsl]|[-> ->]]; [|cbn in Hpe; congruence].
    unfold captured, created. rewrite Hsl, Hact. by apply (jk_pending _ _ Hjk k ent).
  - intros k ent Hk Hpe. destruct (Hcase k ent Hk) as [[Hk' Hsl]|[-> ->]]; [|done].
    rewrite Hcm by done. by apply (jk_clean _ _ Hjk).
Qed.

(** The journal after [dfc_emulator_transaction_snapshot_delete_file] of a file of
    [len] octets: its preimage is wiped and the later slots move down. *)
Record journal_deleted (j j' : TransactionJournal) (i : nat) (len : Z) : Prop := {
  jd_shape : journal_shape j';
  jd_frame : sans_slots (set_transaction_snapshot_pool None j') =
             sans_slots (set_transaction_snapshot_pool None j);
  jd_pool : transaction_snapshot_pool j' =
    (fun p => if captured j i then wipe p (preimage_at j i) len else p) <$> transaction_snapshot_pool j;
  jd_below : forall k, (k < i)%nat -> slot_at j' (Z.of_nat k) = slot_at j (Z.of_nat k);
  jd_above : forall k, (i <= k)%nat -> Z.of_nat (S k) < DFC_MAX_FILES ->
    slot_at j' (Z.of_nat k) = slot_at j (Z.of_nat (S k));
}.

Lemma delete_slots j i :
  journal_shape j -> (Z.of_nat i < DFC_MAX_FILES) ->
  let j' := store_slot (DFC_MAX_FILES - 1) 0 0 0 0 false false
              (fold_left (fun j index => copy_slot (index + 1) index j)
                 (seqZ (Z.of_nat i) (DFC_MAX_FILES - 1 - Z.of_nat i)) j) in
  journal_shape j' /\ sans_slots j' = sans_slots j /\
  (forall k, (k < i)%nat -> slot_at j' (Z.of_nat k) = slot_at j (Z.of_nat k)) /\
  (forall k, (i <= k)%nat -> Z.of_nat (S k) < DFC_MAX_FILES ->
     slot_at j' (Z.of_nat k) = slot_at j (Z.of_nat (S k))).
Proof.
  intros Hs Hi. cbv zeta.
  pose proof (shift_down_spec (Z.to_nat (DFC_MAX_FILES - 1 - Z.of_nat i)) (Z.of_nat i) j Hs) as Hd.
  rewrite Z2Nat.id in Hd by lia. destruct Hd as (Hs1 & Hf1 & Hk1); [lia|lia|].
  set (j1 := fold_left _ _ _) in *.
  destruct (store_slot_spec j1 (DFC_MAX_FILES - 1) 0 0 0 0 false false Hs1) as (Hs2 & Hf2 & Hk2); [dlia|].
  split_and!; [done|congruence| |].
  - intros k Hk. rewrite Hk2, (proj2 (Z.eqb_neq _ _)), Hk1 by lia. by rewrite (proj2 (Z.leb_gt _ _)) by lia.
  - intros k Hk Hk'. rewrite Hk2, (proj2 (Z.eqb_neq _ _)), Hk1 by lia.
    rewrite (proj2 (Z.leb_le _ _)), (proj2 (Z.ltb_lt _ _)) by lia. cbn [andb]. f_equal. lia.
Qed.

Lemma delete_file_journal e i f :
  tx_wf e -> transaction_snapshot_active (journal e) = true -> live_files (credential e) !! i = Some f ->
  let e' := dfc_emulator_transaction_snapshot_delete_file e (Z.of_nat i) in
  journal_deleted (journal e) (journal e') i (data_len f) /\ e' = set_journal (journal e') e.
Proof.
  intros [Hfw Hjk] Ha Hf. pose proof (live_files_lt _ _ _ Hf) as Hlt. pose proof (fw_count _ Hfw) as Hcnt.
  cbv zeta. unfold dfc_emulator_transaction_snapshot_delete_file. rewrite Ha.
  rewrite (proj2 (Z.leb_gt _ _)), (file_at_live _ _ _ Hf) by lia. cbn [negb orb]. split; [|done].
  cbn [on_journal journal set_journal]. pose proof (jk_open _ _ Hjk Ha) as Ho.
  change (transaction_file_bit (transaction_snapshot_captured _) (Z.of_nat i)) with (captured (journal e) i).
  change ((transaction_snapshot_offsets (journal e)).[Z.of_nat i]) with (preimage_at (journal e) i).
  pose proof (jk_shape _ _ Hjk) as Hs. destruct (captured (journal e) i) eqn:Eca.
  - destruct (jo_preimage _ _ Ho i _ (abs_lookup _ _ _ Hf) Eca) as [H1 H2]. cbn [file_view snd] in H2.
    rewrite (contents_length _ _ _ Hfw Hf) in H2. pose proof (data_len_nonneg _ _ _ Hfw Hf).
    rewrite !(proj2 (Z.leb_le _ _)) by lia. cbn [andb]. set (j0 := set_transaction_snapshot_pool _ _).
    destruct (delete_slots j0 i) as (Hs1 & Hf1 & Hlo & Hhi); [destruct Hs; by constructor|lia|].
    destruct (sans_slots_fields _ _ Hf1) as (Hp & _).
    constructor; [done| |by rewrite Hp, Eca|exact Hlo|exact Hhi].
    exact (f_equal (set_transaction_snapshot_pool None) Hf1).
  - destruct (delete_slots (journal e) i Hs) as (Hs1 & Hf1 & Hlo & Hhi); [lia|].
    destruct (sans_slots_fields _ _ Hf1) as (Hp & _).
    constructor; [done| | |exact Hlo|exact Hhi].
    + exact (f_equal (set_transaction_snapshot_pool None) Hf1).
    + rewrite Hp, Eca. by destruct (transaction_snapshot_pool (journal e)).
Qed.

Lemma delete_lookup {A} (l : list A) i k x :
  delete i l !! k = Some x ->
  ((k < i)%nat /\ l !! k = Some x) \/ ((i <= k)%nat /\ l !! S k = Some x).
Proof.
  destruct (decide (k < i)%nat).
  - rewrite list_lookup_delete_lt by lia. by left.
  - rewrite list_lookup_delete_ge by lia. right. split; [lia|done].
Qed.

Section delete_entry.
Context (j j' : TransactionJournal) (ents : list entry) (i : nat) (gone : entry).
Context (Hjk : journal_ok j ents) (Ha : transaction_snapshot_active j = true).
Context (Hi : ents !! i = Some gone) (Hd : journal_deleted j j' i (zlen (snd gone))).

Lemma delete_fields :
  transaction_snapshot_app_index j' = transaction_snapshot_app_index j /\
  transaction_snapshot_pool_length j' = transaction_snapshot_pool_length j /\
  transaction_snapshot_pool_capacity j' = transaction_snapshot_pool_capacity j /\
  transaction_snapshot_active j' = true.
Proof.
  destruct (sans_slots_fields _ _ (jd_frame _ _ _ _ Hd)) as (_ & H1 & H2 & H3 & H4 & _).
  split_and!; [exact H1|exact H2|exact H3|]. by rewrite <- Ha.
Qed.

(** The old index of the entry now at [k]. *)
Definition old_index (k : nat) : nat := if decide (k < i)%nat then k else S k.

Lemma delete_entry_slot k ent :
  delete i ents !! k = Some ent ->
  ents !! old_index k = Some ent /\ old_index k <> i /\
  slot_at j' (Z.of_nat k) = slot_at j (Z.of_nat (old_index k)).
Proof.
  intros Hk. unfold old_index. destruct (delete_lookup _ _ _ _ Hk) as [[Hlt Hk']|[Hge Hk']].
  - rewrite decide_True by done. split_and!; [done|lia|]. by apply (jd_below _ _ _ _ Hd).
  - rewrite decide_False by lia. split_and!; [done|lia|]. apply (jd_above _ _ _ _ Hd); [done|].
    pose proof (entry_index j ents Hjk _ _ Hk'). lia.
Qed.

Lemma delete_preimage k ent :
  delete i ents !! k = Some ent -> captured j (old_index k) = true ->
  preimage j' k (zlen (snd ent)) = preimage j (old_index k) (zlen (snd ent)).
Proof.
  intros Hk Hc. destruct (delete_entry_slot k ent Hk) as (Hk' & Hne & Hs).
  unfold preimage, preimage_at. rewrite Hs. rewrite (jd_pool _ _ _ _ Hd).
  pose proof (jk_open _ _ Hjk Ha) as Ho. destruct (jo_pool _ _ Ho) as (p & Hp & Hz).
  rewrite Hp. cbn [fmap option_fmap option_map from_option id].
  destruct (captured j i) eqn:Eci; [|done]. unfold wipe.
  pose proof (jo_preimage _ _ Ho i _ Hi Eci). pose proof (jo_preimage _ _ Ho _ _ Hk' Hc).
  pose proof (jo_disjoint _ _ Ho _ _ _ _ Hne Hk' Hi Hc Eci) as Hdis.
  pose proof (zlen_nonneg (snd gone)). pose proof (zlen_nonneg (snd ent)).
  pose proof (jo_budget _ _ Ho). pose proof (sum_owed_nonneg j ents).
  unfold preimage_at in *. apply slice_splice_disjoint; rewrite ?length_zeros by lia; lia.
Qed.

Lemma delete_commit k ent :
  delete i ents !! k = Some ent -> commit_entry j' k ent = commit_entry j (old_index k) ent.
Proof.
  intros Hk. destruct (delete_entry_slot k ent Hk) as (Hk' & Hne & Hs).
  destruct delete_fields as (H1 & _ & _ & H4).
  apply commit_entry_eq; [by rewrite Ha|done|done|]. by apply delete_preimage.
Qed.

Lemma delete_open : journal_open j' (delete i ents).
Proof.
  destruct delete_fields as (H1 & H2 & H3 & H4). pose proof (jk_open _ _ Hjk Ha) as Ho.
  assert (Hkey : forall k ent, delete i ents !! k = Some ent ->
    ents !! old_index k = Some ent /\ captured j' k = captured j (old_index k) /\
    created j' k = created j (old_index k) /\ preimage_at j' k = preimage_at j (old_index k)).
  { intros k ent Hk. destruct (delete_entry_slot k ent Hk) as (Hk' & _ & Hs).
    unfold captured, created, preimage_at. rewrite Hs. done. }
  constructor; rewrite ?H2, ?H3; try apply Ho.
  - destruct (jo_pool _ _ Ho) as (p & Hp & Hz). rewrite (jd_pool _ _ _ _ Hd), Hp. eexists. split; [done|].
    destruct (captured j i) eqn:Eci; [|done]. pose proof (jo_preimage _ _ Ho i _ Hi Eci).
    pose proof (jo_budget _ _ Ho). pose proof (sum_owed_nonneg j ents). pose proof (zlen_nonneg (snd gone)).
    unfold wipe. rewrite length_splice; rewrite ?length_zeros by lia; lia.
  - assert (Hsum : sum_owed j' (delete i ents) = sum_owed j ents - owed j i gone).
    { unfold sum_owed. rewrite (imap_delete (owed j) (owed j')).
      - apply sum_delete. by rewrite list_lookup_imap, Hi.
      - intros k ent Hk Hl. assert (Hl' : delete i ents !! k = Some ent)
          by (by rewrite list_lookup_delete_lt).
        destruct (Hkey k ent Hl') as (_ & Hc & Hr & _). unfold owed. rewrite Hc, Hr. unfold old_index.
        rewrite decide_True by done. by rewrite (in_transaction_app j j').
      - intros k ent Hk Hl. assert (Hl' : delete i ents !! k = Some ent)
          by (by rewrite list_lookup_delete_ge).
        destruct (Hkey k ent Hl') as (_ & Hc & Hr & _). unfold owed. rewrite Hc, Hr. unfold old_index.
        rewrite decide_False by lia. by rewrite (in_transaction_app j j'). }
    pose proof (jo_budget _ _ Ho). pose proof (Forall_lookup_1 _ _ i (owed j i gone) (owed_all_nonneg j ents)).
    rewrite list_lookup_imap, Hi in H0. specialize (H0 eq_refl). cbn in H0. lia.
  - intros k ent Hk. destruct (Hkey k ent Hk) as (Hk' & -> & -> & _). rewrite (in_transaction_app j j') by done.
    by apply (jo_flags _ _ Ho (old_index k) ent).
  - intros k ent Hk. destruct (Hkey k ent Hk) as (Hk' & -> & _ & ->). by apply (jo_preimage _ _ Ho (old_index k) ent).
  - intros k ent Hk. destruct (delete_entry_slot k ent Hk) as (Hk' & _ & Hs). unfold captured. rewrite Hs.
    by apply (jo_counts _ _ Ho (old_index k) ent).
  - intros k l x y Hkl Hx Hy. destruct (Hkey k x Hx) as (Hx' & -> & _ & ->).
    destruct (Hkey l y Hy) as (Hy' & -> & _ & ->). apply (jo_disjoint _ _ Ho _ _ x y); [|done..].
    unfold old_index. repeat case_decide; lia.
Qed.

Lemma delete_ok :
  journal_ok j' (delete i ents) /\
  imap (commit_entry j') (delete i ents) = delete i (imap (commit_entry j) ents).
Proof.
  destruct delete_fields as (H1 & H2 & H3 & H4). split.
  - constructor.
    + apply Hd.
    + pose proof (jk_count _ _ Hjk). pose proof (lookup_lt_Some _ _ _ Hi). unfold zlen in *.
      rewrite length_delete by done. lia.
    + apply Forall_delete, Hjk.
    + intros _. apply delete_open.
    + intros k ent Hk Hp. destruct (delete_entry_slot k ent Hk) as (Hk' & _ & Hs).
      unfold captured, created. rewrite Hs. split; [done|]. by apply (jk_pending _ _ Hjk _ ent).
    + intros k ent Hk Hp. rewrite (delete_commit k ent Hk).
      destruct (delete_entry_slot k ent Hk) as (Hk' & _). by apply (jk_clean _ _ Hjk).
  - apply imap_delete; intros k ent Hk Hl.
    + rewrite (delete_commit k ent) by (by rewrite list_lookup_delete_lt). unfold old_index.
      by rewrite decide_True.
    + rewrite (delete_commit k ent) by (by rewrite list_lookup_delete_ge). unfold old_index.
      by rewrite decide_False by lia.
Qed.

End delete_entry.
