(* ===== verification/Emulator.v ===== *)
(** The emulator's lifecycle: [src/src/dfc_emulator.c] without its journal, and
    [dfc_emulator_retire_sdm_read_cache] of [src/src/dfc_emulator_commands_data.c].

    Selection, authentication state, the end of a transaction on value files, and the
    resets. A pointer to an application is its index; a pointer to a key version is
    where the version lives. Freed and wiped allocations leave the state as [None]. *)

From S2P Require Import Prelude Common Pool CredentialData Credential EmulatorData Journal.
Import Rules.

Definition DFC_CMD_AUTHENTICATE_EV2_FIRST : Z := 0x71.
Definition DFC_CMD_AUTHENTICATE_EV2_NON_FIRST : Z := 0x77.
Definition DFC_SM_DISABLE_D40 : Z := 1.
Definition DFC_SM_DISABLE_EV1 : Z := 2.

(** ** Allocation *)

(** [emulator_block] and [buffer] are what the host's allocator answers for the struct
    and for its response buffer. *)
Definition dfc_emulator_alloc (emulator_block : bool) (buffer : option DfcByteBuf)
  (c : DfcCredential) : option DfcEmulator :=
  guard! emulator_block else None;
  match buffer with
  | None => None
  | Some b => Some (set_selected_application DfcEmulatorSelectedApplicationPicc
                      (set_tx_buffer (Some b) (zero_emulator c)))
  end.

Definition on_chains (g : CommandChains -> CommandChains) (e : DfcEmulator) : DfcEmulator :=
  set_chains (g (chains e)) e.

Definition dfc_emulator_discard_command_chain (e : DfcEmulator) : DfcEmulator :=
  on_chains (fun ch =>
    set_command_chain_expected 0 (set_command_chain_len 0
      (set_command_chain_active false (set_command_chain None ch)))) e.

(** ** The selected application *)

Definition dfc_emulator_current_app (e : DfcEmulator) : option Z :=
  match selected_application e with
  | DfcEmulatorSelectedApplicationApp =>
      dfc_credential_get_application (credential e) (selected_app_index e)
  | _ => None
  end.

Definition dfc_emulator_accepts_auth_cipher (e : DfcEmulator) (cipher : Z) : bool :=
  let c := credential e in
  let app := dfc_emulator_current_app e in
  let commands := match app with
                  | Some a => dfc_credential_app_auth_commands c (app_at c a)
                  | None => dfc_credential_picc_auth_commands c
                  end in
  let disabled := if picc_has_sm_disable (picc c) then picc_sm_disable (picc c) else 0 in
  let disabled := match app with
                  | Some a => if has_sm_disable (app_at c a)
                              then Z.lor disabled (sm_disable (app_at c a)) else disabled
                  | None => disabled
                  end in
  let offers bit := negb (Z.land commands bit =? 0) in
  let blocked bit := negb (Z.land disabled bit =? 0) in
  if cipher =? DFC_CMD_AUTHENTICATE_LEGACY then
    negb (blocked DFC_SM_DISABLE_D40) && offers DFC_AUTH_COMMAND_D40
  else if cipher =? DFC_CMD_AUTHENTICATE_ISO then
    negb (blocked DFC_SM_DISABLE_EV1) && offers DFC_AUTH_COMMAND_ISO_NATIVE
  else if cipher =? DFC_CMD_AUTHENTICATE_AES then
    negb (blocked DFC_SM_DISABLE_EV1) && offers DFC_AUTH_COMMAND_AES
  else if cipher =? DFC_CMD_AUTHENTICATE_EV2_FIRST then offers DFC_AUTH_COMMAND_EV2_FIRST
  else if cipher =? DFC_CMD_AUTHENTICATE_EV2_NON_FIRST then offers DFC_AUTH_COMMAND_EV2_NON_FIRST
  else false.

Definition dfc_emulator_key_len (e : DfcEmulator) : Z :=
  let c := credential e in
  match dfc_emulator_current_app e with
  | Some a =>
      if DFC_KEY_SET_MINIMUM_COUNT <=? num_key_sets (app_at c a) then
        match dfc_credential_key_set_type c a 0 with
        | Some type => dfc_key_set_type_length (key_set_metadata_pool c).[type]
        | None => 0
        end
      else app_key_len (app_at c a)
  | None => picc_key_len c
  end.

Definition dfc_emulator_num_keys (e : DfcEmulator) : Z :=
  match dfc_emulator_current_app e with
  | None => 1
  | Some a => let n := app_num_keys (app_at (credential e) a) in if n =? 0 then 1 else n
  end.

(** Offset of the key in the key pool. *)
Definition dfc_emulator_key (e : DfcEmulator) (key_no : Z) : option Z :=
  let app := dfc_emulator_current_app e in
  dfc_credential_key (credential e) app (match app with Some _ => key_no | None => 0 end).

(** The octet [&key_versions[slot]] of the application, or of the PICC for [None]. *)
Definition dfc_emulator_key_version (e : DfcEmulator) (key_no : Z) : option Z * Z :=
  match dfc_emulator_current_app e with
  | Some a => (Some a, key_no)
  | None => (None, 0)
  end.

(** ** Authentication *)

Definition on_native (g : NativeAuthentication -> NativeAuthentication) (e : DfcEmulator) : DfcEmulator :=
  set_native (g (native e)) e.

Definition on_ev2 (g : Ev2Authentication -> Ev2Authentication) (e : DfcEmulator) : DfcEmulator :=
  set_ev2 (g (ev2 e)) e.

Definition dfc_emulator_native_authentication_active (e : DfcEmulator) : bool :=
  negb (auth_cipher (native e) =? 0) &&
  match secure_messaging (native e) with
  | Some sm => sm_cipher sm =? auth_cipher (native e)
  | None => false
  end.

Definition clear_native_authentication (e : DfcEmulator) : DfcEmulator :=
  on_native (fun n =>
    set_auth_key_no 0 (set_auth_cipher 0
      (set_secure_messaging ((fun _ => zero_secure_messaging) <$> secure_messaging n) n))) e.

Definition clear_ev2_authentication (keep_transaction_context : bool) (e : DfcEmulator) : DfcEmulator :=
  on_ev2 (fun s =>
    let s := set_ev2_authenticated_key_no 0 (set_ev2_session_active false s) in
    let s := if keep_transaction_context then s else set_ev2_command_counter 0 s in
    let s := set_ev2_session_mac_key (zeros 16) (set_ev2_session_encryption_key (zeros 16) s) in
    if keep_transaction_context then s
    else set_ev2_reader_capabilities (zeros 6)
           (set_ev2_card_capabilities (zeros 6) (set_ev2_transaction_identifier (zeros 4) s))) e.

Definition dfc_emulator_clear_active_authentication (e : DfcEmulator) : DfcEmulator :=
  clear_ev2_authentication false (clear_native_authentication e).

Definition dfc_emulator_retire_ev2_non_first_authentication (e : DfcEmulator) : DfcEmulator :=
  clear_ev2_authentication true (clear_native_authentication e).

Inductive DfcEmulatorAuthFamily :=
| DfcEmulatorAuthFamilyNative
| DfcEmulatorAuthFamilyEv2.

Definition dfc_emulator_commit_auth_family (e : DfcEmulator) (family : DfcEmulatorAuthFamily)
  : DfcEmulator :=
  match family with
  | DfcEmulatorAuthFamilyEv2 => clear_native_authentication e
  | DfcEmulatorAuthFamilyNative => clear_ev2_authentication false e
  end.

Definition dfc_emulator_clear_pending_authentication_storage (e : DfcEmulator) : DfcEmulator :=
  on_native (set_pending_authentication (zeros PENDING_AUTHENTICATION_SIZE)) e.

Definition dfc_emulator_clear_iso_authentication (e : DfcEmulator) : DfcEmulator :=
  dfc_emulator_clear_pending_authentication_storage (on_native (fun n =>
    set_iso_auth_key_len 0 (set_iso_auth_reference 0 (set_iso_auth_cipher 0
      (set_iso_auth_key_no 0 (set_iso_auth_challenge_len 0 (set_iso_auth_phase 0 n)))))) e).

(** ** The end of a transaction *)

Definition dfc_transaction_mac_accumulator_clear (a : DfcTransactionMacAccumulator)
  : DfcTransactionMacAccumulator := zero_accumulator.

(** The accumulator and the reader identity of the transaction are wiped. *)
Definition clear_transaction_mac (e : DfcEmulator) : DfcEmulator :=
  let m := mac_state e in
  set_mac_state
    (set_transaction_mac_retryable_failure false (set_transaction_reader_id_persist false
      (set_transaction_reader_id_pending false (set_transaction_pending_reader_id (zeros 16)
        (set_transaction_mac (dfc_transaction_mac_accumulator_clear (transaction_mac m)) m))))) e.

(** The five assignments that forget a pending value. *)
Definition clear_pending_value (v : DfcValueFileState) : DfcValueFileState :=
  Build_DfcValueFileState (lower_limit v) (upper_limit v) (current v) 0 0 (limited_credit_value v) 0
    (limited_credit v) false false.

Definition pending_value_file (selected : Z) (f : DfcFile) : bool :=
  (file_app_index f =? selected) && (file_type f =? DFC_FILE_TYPE_VALUE) &&
  value_pending (state_value (state f)).

Definition abort_value_file (selected : Z) (c : DfcCredential) (index : Z) : DfcCredential :=
  let file := file_at c index in
  guard! pending_value_file selected file else c;
  update_file (set_state (StateValue (clear_pending_value (state_value (state file))))) index c.

Definition dfc_emulator_abort_transaction (e : DfcEmulator) : bool * DfcEmulator :=
  let mac_open := has_pending (transaction_mac (mac_state e)) ||
                  transaction_reader_id_pending (mac_state e) in
  let e := if mac_open then clear_transaction_mac e else e in
  let '(snapshot, e) := dfc_emulator_abort_transaction_snapshot e in
  let c := credential e in
  let pending_values := existsb (fun i => pending_value_file (selected_app_index e) (file_at c i))
                          (seqZ 0 (num_files c)) in
  (mac_open || snapshot || pending_values,
   set_credential (fold_left (abort_value_file (selected_app_index e)) (seqZ 0 (num_files c)) c) e).

(** The committed value of a value file with a pending change: stored as [int32_t]. *)
Definition i32 (z : Z) : Z := (z + 2 ^ 31) mod 2 ^ 32 - 2 ^ 31.

Definition publish_value (v : DfcValueFileState) : DfcValueFileState :=
  let v := set_current (if pending_absolute v then pending_value v
                        else i32 (current v + pending_delta v)) v in
  let v := if limited_credit_pending v =? DFC_LIMITED_CREDIT_TRANSACTION_CONSUMED
           then set_limited_credit_value 0 v
           else if 0 <? limited_credit_pending v
           then set_limited_credit_value (limited_credit_pending v) v else v in
  clear_pending_value v.

Definition publish_file (selected : Z) (c : DfcCredential) (index : Z) : DfcCredential :=
  let file := file_at c index in
  guard! file_app_index file =? selected else c;
  let c := if pending_value_file selected file
           then update_file (set_state (StateValue (publish_value (state_value (state file))))) index c
           else c in
  update_file (set_transaction_pending false) index c.

Definition dfc_emulator_publish_transaction (e : DfcEmulator) : DfcEmulator :=
  let c := credential e in
  let e := set_credential (fold_left (publish_file (selected_app_index e)) (seqZ 0 (num_files c)) c) e in
  let e := if transaction_snapshot_active (journal e) &&
              (transaction_snapshot_app_index (journal e) =? selected_app_index e)
           then transaction_snapshot_clear_state e else e in
  let e := clear_transaction_mac e in
  set_credential (dfc_credential_mark_dirty (credential e)) e.

(** ** Resets *)

Definition dfc_emulator_retire_sdm_read_cache (e : DfcEmulator) : DfcEmulator :=
  set_sdm_cache zero_sdm_cache e.

Definition dfc_emulator_retire_authentication (e : DfcEmulator) : DfcEmulator :=
  let chain_len := Z.min (pending_chain_len (chains e)) DFC_EMULATOR_CHAIN_BUFFER_SIZE in
  let chunk_count := Z.min (pending_chain_chunk_count (chains e)) DFC_MAX_APPS in
  let e := on_native (set_awaiting_step2 false) e in
  let e := dfc_emulator_clear_iso_authentication e in
  let e := clear_native_authentication e in
  let e := on_native (fun n => set_pending_auth_key_no 0 (set_pending_auth_cipher 0 n)) e in
  let e := on_chains (fun ch =>
    let ch := set_get_version_frame 0 ch in
    let ch := set_pending_chain_chunk_index 0 (set_pending_chain_chunk_count 0
      (set_pending_chain_last 0 (set_pending_chain_frame 0 (set_pending_chain_offset 0
        (set_pending_chain_len 0 ch))))) in
    set_pending_chain_chunks (wipe (pending_chain_chunks ch) 0 chunk_count)
      (set_pending_chain (wipe (pending_chain ch) 0 chain_len) ch)) e in
  let e := dfc_emulator_discard_command_chain e in
  let e := on_chains (fun ch => set_df_names_next 0 (set_df_names_pending false ch)) e in
  let e := set_delegated_creation zero_delegated e in
  let e := set_proximity zero_proximity e in
  let e := on_ev2 (fun s =>
    set_ev2_session_mac_key (zeros 16) (set_ev2_session_encryption_key (zeros 16)
      (set_ev2_reader_capabilities (zeros 6) (set_ev2_card_capabilities (zeros 6)
        (set_ev2_transaction_identifier (zeros 4) (set_ev2_command_counter 0
          (set_ev2_pending_authenticated_key_no 0 (set_ev2_authenticated_key_no 0
            (set_ev2_session_active false (set_ev2_authentication_non_first false
              (set_ev2_authentication_pending false (set_ev2_response_plain false s)))))))))))) e in
  dfc_emulator_retire_sdm_read_cache e.

Definition dfc_emulator_reset_session (e : DfcEmulator) : DfcEmulator :=
  dfc_emulator_retire_authentication (snd (dfc_emulator_abort_transaction e)).

Definition selection_eqb (a b : DfcEmulatorSelectedApplication) : bool :=
  match a, b with
  | DfcEmulatorSelectedApplicationNone, DfcEmulatorSelectedApplicationNone
  | DfcEmulatorSelectedApplicationPicc, DfcEmulatorSelectedApplicationPicc
  | DfcEmulatorSelectedApplicationApp, DfcEmulatorSelectedApplicationApp => true
  | _, _ => false
  end.

Definition dfc_emulator_select_application (e : DfcEmulator)
  (selection : DfcEmulatorSelectedApplication) (app_index : Z) : DfcEmulator :=
  let is_app := selection_eqb selection DfcEmulatorSelectedApplicationApp in
  let e := dfc_emulator_reset_session e in
  let e := set_selected_application selection e in
  let e := set_selected_app_index (if is_app then app_index else 0) e in
  let app := if is_app then dfc_credential_get_application (credential e) app_index else None in
  let enabled := match app with
                 | Some a => has_capability_data (app_at (credential e) a) &&
                             ((capability_data (app_at (credential e) a)).[DFC_TRANSACTION_TIMER_CAPABILITY_OFFSET]
                                =? DFC_TRANSACTION_TIMER_SHORT)
                 | None => false
                 end in
  set_transaction_timer_elapsed_milliseconds 0 (set_transaction_timer_enabled enabled e).

(** The response buffer and the session object survive the reset, wiped. *)
Definition dfc_emulator_reset_activation (e : DfcEmulator) : DfcEmulator :=
  let e := snd (dfc_emulator_abort_transaction e) in
  let buffer := (fun _ => zero_bytebuf) <$> tx_buffer e in
  let messaging := (fun _ => zero_secure_messaging) <$> secure_messaging (native e) in
  let e := zero_emulator (credential e) in
  let e := set_tx_buffer buffer e in
  let e := on_native (set_secure_messaging messaging) e in
  let e := set_selected_application DfcEmulatorSelectedApplicationPicc e in
  set_tx_buffer ((fun b => set_size_bytes 0 b) <$> tx_buffer e) e.

Definition dfc_emulator_advance_time (e : DfcEmulator) (elapsed : Z) : DfcEmulator :=
  guard! transaction_timer_enabled e else e;
  let total := if UINT32_MAX - transaction_timer_elapsed_milliseconds e <? elapsed then UINT32_MAX
               else u32 (transaction_timer_elapsed_milliseconds e + elapsed) in
  let e := set_transaction_timer_elapsed_milliseconds total e in
  if DFC_TRANSACTION_TIMER_EXPIRY_MILLISECONDS <=? transaction_timer_elapsed_milliseconds e
  then dfc_emulator_reset_activation e else e.
