(* ===== verification/Access.v ===== *)
(** File access and effective protection: [src/src/dfc_emulator_access.c].

    A file's rights word holds four nibbles, each a key number, free (0xE) or denied
    (0xF). The emulator grants an access when the session is authenticated with a key
    the access names, and picks the communication mode an exchange must use. *)

From S2P Require Import Prelude Common CredentialData EmulatorData Emulator.
Import Rules.

Definition DFC_COMM_MAC : Z := 0x01.
Definition DFC_COMM_ENCIPHERED : Z := 0x03.

Inductive DfcFileAccess :=
| DfcFileAccessRead
| DfcFileAccessWrite
| DfcFileAccessReadWrite
| DfcFileAccessChange.

Definition dfc_emulator_is_authenticated_with_key (e : DfcEmulator) (key_no : Z) : bool :=
  (dfc_emulator_native_authentication_active e && (auth_key_no (native e) =? key_no)) ||
  (ev2_session_active (ev2 e) && (ev2_authenticated_key_no (ev2 e) =? key_no)).

Definition dfc_emulator_access_nibble_allows (e : DfcEmulator) (nibble : Z) : bool :=
  if nibble =? DFC_ACCESS_FREE then true else
  if nibble =? DFC_ACCESS_DENY then false else
  dfc_emulator_is_authenticated_with_key e nibble.

(** The primary and the alternate nibble of an access. *)
Definition file_access_nibbles (file : DfcFile) (access : DfcFileAccess) : Z * Z :=
  match access with
  | DfcFileAccessRead =>
      (dfc_access_nibble (access_rights file) 12, dfc_access_nibble (access_rights file) 4)
  | DfcFileAccessWrite =>
      (dfc_access_nibble (access_rights file) 8, dfc_access_nibble (access_rights file) 4)
  | DfcFileAccessReadWrite => (dfc_access_nibble (access_rights file) 4, DFC_ACCESS_DENY)
  | DfcFileAccessChange => (dfc_access_nibble (access_rights file) 0, DFC_ACCESS_DENY)
  end.

Definition dfc_emulator_file_access_allowed (e : DfcEmulator) (file : DfcFile)
  (access : DfcFileAccess) : bool :=
  let '(primary, alternate) := file_access_nibbles file access in
  dfc_emulator_access_nibble_allows e primary || dfc_emulator_access_nibble_allows e alternate.

Definition dfc_emulator_file_access_is_free (file : DfcFile) (access : DfcFileAccess) : bool :=
  let '(primary, alternate) := file_access_nibbles file access in
  (primary =? DFC_ACCESS_FREE) || (alternate =? DFC_ACCESS_FREE).

Definition session_authenticated (e : DfcEmulator) : bool :=
  dfc_emulator_native_authentication_active e || ev2_session_active (ev2 e).

(** One round of the loop over the three nibbles: free and authenticated access. *)
Definition classify_nibble (e : DfcEmulator) (seen : bool * bool) (nibble : Z) : bool * bool :=
  let (free_access, authenticated_access) := seen in
  if nibble =? DFC_ACCESS_FREE then (true, authenticated_access) else
  if (nibble <? DFC_ACCESS_FREE) && dfc_emulator_is_authenticated_with_key e nibble
  then (free_access, true) else (free_access, authenticated_access).

Definition dfc_emulator_file_effective_comm_settings_for_rights (e : DfcEmulator) (file : DfcFile)
  (read write rw : bool) (configured_comm : Z) : Z :=
  let configured_comm := Z.land configured_comm DFC_COMM_MODE_MASK in
  guard! session_authenticated e else configured_comm;
  let nibbles :=
    [ if read then dfc_access_nibble (access_rights file) 12 else DFC_ACCESS_DENY;
      if write then dfc_access_nibble (access_rights file) 8 else DFC_ACCESS_DENY;
      if rw then dfc_access_nibble (access_rights file) 4 else DFC_ACCESS_DENY ] in
  let '(free_access, authenticated_access) := fold_left (classify_nibble e) nibbles (false, false) in
  if free_access && negb authenticated_access then DFC_COMM_PLAIN else configured_comm.

Definition dfc_emulator_file_effective_comm_settings (e : DfcEmulator) (file : DfcFile)
  (access : DfcFileAccess) (configured_comm : Z) : Z :=
  let configured_comm := Z.land configured_comm DFC_COMM_MODE_MASK in
  guard! session_authenticated e else configured_comm;
  let '(primary, alternate) := file_access_nibbles file access in
  let free_access := (primary =? DFC_ACCESS_FREE) || (alternate =? DFC_ACCESS_FREE) in
  let authenticated_access :=
    ((primary <? DFC_ACCESS_FREE) && dfc_emulator_is_authenticated_with_key e primary) ||
    ((alternate <? DFC_ACCESS_FREE) && dfc_emulator_is_authenticated_with_key e alternate) in
  if free_access && negb authenticated_access then DFC_COMM_PLAIN else configured_comm.

(** ** What the rights grant *)

(** The rights an access accepts, as shifts into the rights word. *)
Definition access_shifts (access : DfcFileAccess) : list Z :=
  match access with
  | DfcFileAccessRead => [12; 4]
  | DfcFileAccessWrite => [8; 4]
  | DfcFileAccessReadWrite => [4]
  | DfcFileAccessChange => [0]
  end.

(** The session holds a key named by one of [shifts]. *)
Definition holds_right (e : DfcEmulator) (file : DfcFile) (shifts : list Z) : Prop :=
  exists s k, s ∈ shifts /\ dfc_access_nibble (access_rights file) s = k /\
    k < DFC_ACCESS_FREE /\ dfc_emulator_is_authenticated_with_key e k = true.

Definition free_right (file : DfcFile) (shifts : list Z) : Prop :=
  exists s, s ∈ shifts /\ dfc_access_nibble (access_rights file) s = DFC_ACCESS_FREE.

Lemma nibble_range w s : 0 <= dfc_access_nibble w s <= DFC_ACCESS_DENY.
Proof.
  unfold dfc_access_nibble. change 15 with (Z.ones 4). rewrite Z.land_ones by lia.
  pose proof (Z.mod_pos_bound (Z.shiftr w s) (2 ^ 4) ltac:(lia)). unfold u8.
  rewrite Z.mod_small by lia. change DFC_ACCESS_DENY with 15. lia.
Qed.

Lemma nibble_allows_iff e w s :
  dfc_emulator_access_nibble_allows e (dfc_access_nibble w s) = true <->
  dfc_access_nibble w s = DFC_ACCESS_FREE \/
  (dfc_access_nibble w s < DFC_ACCESS_FREE /\
   dfc_emulator_is_authenticated_with_key e (dfc_access_nibble w s) = true).
Proof.
  pose proof (nibble_range w s) as Hr. unfold dfc_emulator_access_nibble_allows.
  change DFC_ACCESS_FREE with 14 in *. change DFC_ACCESS_DENY with 15 in *.
  destruct (dfc_access_nibble w s =? 14) eqn:E1; bool_facts; [tauto|].
  destruct (dfc_access_nibble w s =? 15) eqn:E2; bool_facts.
  - split; [done|]. intros [?|[? _]]; lia.
  - split; [intros H; right; split; [lia|done]|]. by intros [?|[_ ?]].
Qed.

Lemma deny_allows_nothing e : dfc_emulator_access_nibble_allows e DFC_ACCESS_DENY = false.
Proof. done. Qed.

Lemma allowed_by_shifts e file access :
  dfc_emulator_file_access_allowed e file access =
  existsb (fun s => dfc_emulator_access_nibble_allows e (dfc_access_nibble (access_rights file) s))
    (access_shifts access).
Proof.
  unfold dfc_emulator_file_access_allowed. destruct access; cbn [file_access_nibbles access_shifts existsb];
    rewrite ?deny_allows_nothing; by rewrite ?orb_false_r.
Qed.


Lemma fold_classify e l a b :
  fold_left (classify_nibble e) l (a, b) =
  (a || existsb (fun n => n =? DFC_ACCESS_FREE) l,
   b || existsb (fun n => (n <? DFC_ACCESS_FREE) && dfc_emulator_is_authenticated_with_key e n) l).
Proof.
  revert a b. induction l as [|n l IH]; intros a b; cbn [fold_left existsb]; [by rewrite !orb_false_r|].
  unfold classify_nibble at 2. destruct (n =? DFC_ACCESS_FREE) eqn:E1.
  - rewrite IH. apply Z.eqb_eq in E1. subst n.
    rewrite Z.ltb_irrefl, orb_true_r. cbn [andb orb]. by destruct a.
  - destruct (_ && _); rewrite IH; cbn [orb]; [|done]. by rewrite orb_true_r.
Qed.

(** The tests the code makes on the rights of an exchange. *)
Definition free_rightb (file : DfcFile) (shifts : list Z) : bool :=
  existsb (fun s => dfc_access_nibble (access_rights file) s =? DFC_ACCESS_FREE) shifts.

Definition holds_rightb (e : DfcEmulator) (file : DfcFile) (shifts : list Z) : bool :=
  existsb (fun s => (dfc_access_nibble (access_rights file) s <? DFC_ACCESS_FREE) &&
    dfc_emulator_is_authenticated_with_key e (dfc_access_nibble (access_rights file) s)) shifts.

Lemma free_rightb_iff file shifts : free_rightb file shifts = true <-> free_right file shifts.
Proof.
  unfold free_rightb, free_right. rewrite existsb_exists.
  split; intros (s & Hs & H); exists s; (split; [by apply list_elem_of_In|]); by apply Z.eqb_eq.
Qed.

Lemma holds_rightb_iff e file shifts : holds_rightb e file shifts = true <-> holds_right e file shifts.
Proof.
  unfold holds_rightb, holds_right. rewrite existsb_exists. split.
  - intros (s & Hs & H). apply andb_true_iff in H as [Hl Ha]. exists s, (dfc_access_nibble (access_rights file) s).
    split_and!; [by apply list_elem_of_In|done|by apply Z.ltb_lt|done].
  - intros (s & k & Hs & <- & Hl & Ha). exists s. split; [by apply list_elem_of_In|].
    apply andb_true_iff. split; [by apply Z.ltb_lt|done].
Qed.

(** The mode both functions compute, from the rights they consider. *)
Definition effective_mode (e : DfcEmulator) (file : DfcFile) (shifts : list Z) (comm : Z) : Z :=
  if session_authenticated e && free_rightb file shifts && negb (holds_rightb e file shifts)
  then DFC_COMM_PLAIN else Z.land comm DFC_COMM_MODE_MASK.

Definition rights_shifts (read write rw : bool) : list Z :=
  (if read then [12] else []) ++ (if write then [8] else []) ++ (if rw then [4] else []).

Lemma effective_for_rights e file read write rw comm :
  dfc_emulator_file_effective_comm_settings_for_rights e file read write rw comm =
  effective_mode e file (rights_shifts read write rw) comm.
Proof.
  unfold dfc_emulator_file_effective_comm_settings_for_rights, effective_mode.
  destruct (session_authenticated e); [|done]. rewrite fold_classify. cbn [orb andb].
  unfold free_rightb, holds_rightb, rights_shifts.
  change DFC_ACCESS_DENY with 15. change DFC_ACCESS_FREE with 14.
  destruct read, write, rw; reflexivity.
Qed.

Lemma effective_for_access e file access comm :
  dfc_emulator_file_effective_comm_settings e file access comm =
  effective_mode e file (access_shifts access) comm.
Proof.
  unfold dfc_emulator_file_effective_comm_settings, effective_mode.
  destruct (session_authenticated e); [|done]. unfold free_rightb, holds_rightb.
  change DFC_ACCESS_FREE with 14.
  destruct access; cbn [file_access_nibbles access_shifts existsb];
    change DFC_ACCESS_DENY with 15; rewrite ?orb_false_r; reflexivity.
Qed.


