(* ===== verification/Transaction.v ===== *)
(** Transactions end to end: the emulator refines a store with two copies of every
    file, the committed one and the staged one.

    The specification is [tx_state] with one function per operation. The operations are
    those of [src/src/dfc_emulator.c], [src/src/dfc_emulator_commands_data.c],
    [src/src/dfc_emulator_commands_records.c], [src/src/dfc_emulator_commands_transactions.c] and
    [src/src/dfc_emulator_commands_lifecycle.c] on the selected application's files,
    taken after access control and secure messaging have let the command through. *)

From S2P Require Import Prelude Common Pool CredentialData Credential FileStore.
From S2P Require Import KeyStore CredentialFacts CredentialSpec.
From S2P Require Import EmulatorData Journal JournalSlots JournalFacts JournalSteps Emulator.

#[local] Abbreviation entry := (DfcFile * bytes)%type.

(** ** The operations *)

(** The write of a handler between the capture and its answer: new octets for the
    file, its new record count, and the pending mark. *)
Definition stage_write (c : DfcCredential) (i n : Z) (b : bytes) : DfcCredential :=
  update_file (staged_file n) i (store_contents c i b).

(** A write to a backup or record file. [n] and [b] are the record count and the octets
    the handler computed; it only stages what fits the file. *)
Definition stage_file (alloc : Z -> option bytes) (e : DfcEmulator) (i n : Z) (b : bytes)
  : bool * DfcEmulator :=
  let file := file_at (credential e) i in
  guard! (0 <=? i) && (i <? num_files (credential e)) && (file_app_index file =? selected_app_index e) &&
         transaction_file_has_data file && (zlen b =? data_len file) && (0 <=? n) && (n <? 2 ^ 16)
    else (false, e);
  let '(begun, e) := dfc_emulator_command_transaction_snapshot_begin alloc e in
  guard! begun else (false, e);
  let '(captured, e) := dfc_emulator_transaction_snapshot_capture_file e i in
  guard! captured else (false, e);
  (true, set_credential (stage_write (credential e) i n b) e).

(** A write to a standard data file, committed at once. *)
Definition write_standard (e : DfcEmulator) (i offset : Z) (src : bytes) : bool * DfcEmulator :=
  let file := file_at (credential e) i in
  guard! (0 <=? i) && (i <? num_files (credential e)) && (file_app_index file =? selected_app_index e) &&
         (file_type file =? DFC_FILE_TYPE_STANDARD_DATA) else (false, e);
  guard! (0 <=? offset) && (offset + zlen src <=? data_len file) else (false, e);
  match dfc_file_data (credential e) i with
  | None => (false, e)
  | Some data =>
      let '(mirrored, e) :=
        dfc_emulator_transaction_snapshot_mirror_write e i offset (zlen src) in
      guard! mirrored else (false, e);
      let c := credential e in
      (true, set_credential
               (dfc_credential_mark_dirty (set_file_pool (splice (file_pool c) (data + offset) src) c)) e)
  end.

Definition publish_created_file (e : DfcEmulator) (i : Z) : bool * DfcEmulator :=
  let '(inserted, e) := dfc_emulator_transaction_snapshot_insert_file e i in
  guard! inserted else
    (false, set_credential (snd (dfc_credential_delete_file (credential e) (selected_app_index e)
                                   (number (file_at (credential e) i)))) e);
  let e := dfc_emulator_transaction_snapshot_note_persistent_change e in
  (true, set_credential (dfc_credential_mark_dirty (credential e)) e).

(** The end of the file-creation commands: [configure] is the handler's assignments to
    the new record, [data_file] whether it sizes it with [dfc_file_set_data_size]. *)
Definition create_and_publish (e : DfcEmulator) (file_no : Z) (configure : DfcFile -> DfcFile)
  (data_file : bool) (size : Z) : bool * DfcEmulator :=
  match dfc_credential_create_file (credential e) (selected_app_index e) file_no with
  | (None, c) => (false, set_credential c e)
  | (Some i, c) =>
      let c := update_file configure i c in
      let '(sized, c) := if data_file then dfc_file_set_data_size c i size else dfc_file_resize c i size in
      guard! sized else
        (false, set_credential (snd (dfc_credential_delete_file c (selected_app_index e) file_no)) e);
      publish_created_file (set_credential c e) i
  end.

(** [dfc_emulator_command_delete_file] after its access check. *)
Definition delete_file_command (e : DfcEmulator) (file_no : Z) : bool * DfcEmulator :=
  let file := dfc_credential_find_file_in_app (credential e) (selected_app_index e) file_no in
  let e := match file with
           | Some i =>
               if file_type (file_at (credential e) i) =? DFC_FILE_TYPE_TRANSACTION_MAC
               then snd (dfc_emulator_abort_transaction e)
               else dfc_emulator_transaction_snapshot_delete_file e i
           | None => e
           end in
  let '(deleted, c) := dfc_credential_delete_file (credential e) (selected_app_index e) file_no in
  let e := set_credential c e in
  guard! deleted else (false, e);
  let e := dfc_emulator_transaction_snapshot_note_persistent_change e in
  (true, set_credential (dfc_credential_mark_dirty (credential e)) e).

(** ** The end of a transaction, entry by entry *)

Definition abort_value_entry (selected : Z) (ent : entry) : entry :=
  let (f, b) := ent in
  if pending_value_file selected f
  then (set_state (StateValue (clear_pending_value (state_value (state f)))) f, b) else (f, b).

Definition publish_entry (selected : Z) (ent : entry) : entry :=
  let (f, b) := ent in
  if negb (file_app_index f =? selected) then (f, b) else
  (set_transaction_pending false
     (if pending_value_file selected f
      then set_state (StateValue (publish_value (state_value (state f)))) f else f), b).

Lemma abort_values_correct selected c :
  files_wf c ->
  let c' := fold_left (abort_value_file selected) (seqZ 0 (num_files c)) c in
  files_wf c' /\ abs_files c' = map (abort_value_entry selected) (abs_files c) /\
  num_files c' = num_files c /\ sans_files c' = sans_files c.
Proof.
  intros Hwf. pose proof (fold_files_correct (abort_value_file selected)
    (const (abort_value_entry selected)) (fun _ _ => True) c Hwf) as H.
  rewrite imap_const in H. apply H; [done|]. intros c' i f Hc Hf _. unfold const.
  unfold abort_value_file. rewrite (file_at_live _ _ _ Hf). unfold abort_value_entry, file_view.
  change (pending_value_file selected (sans_slice f)) with (pending_value_file selected f).
  destruct (pending_value_file selected f); [|by apply settled_refl].
  by apply (file_settings_step c' i f
    (set_state (StateValue (clear_pending_value (state_value (state f)))))).
Qed.

Lemma publish_files_correct selected c :
  files_wf c ->
  let c' := fold_left (publish_file selected) (seqZ 0 (num_files c)) c in
  files_wf c' /\ abs_files c' = map (publish_entry selected) (abs_files c) /\
  num_files c' = num_files c /\ sans_files c' = sans_files c.
Proof.
  intros Hwf. pose proof (fold_files_correct (publish_file selected)
    (const (publish_entry selected)) (fun _ _ => True) c Hwf) as H.
  rewrite imap_const in H. apply H; [done|]. intros c' i f Hc Hf _. unfold const.
  assert (Hlt : (i < length (live_files c'))%nat) by (by eapply lookup_lt_Some).
  unfold publish_file. rewrite (file_at_live _ _ _ Hf). unfold publish_entry, file_view.
  change (pending_value_file selected (sans_slice f)) with (pending_value_file selected f).
  change (file_app_index (sans_slice f)) with (file_app_index f).
  destruct (file_app_index f =? selected); cbn [negb]; [|by apply settled_refl].
  destruct (pending_value_file selected f).
  - apply (settled_update c' _ i (set_state (StateValue (publish_value (state_value (state f)))) f) _
             (set_transaction_pending false)); [done..|].
    by apply (settled_update c' _ i f _ (set_state (StateValue (publish_value (state_value (state f)))))),
      settled_refl.
  - by apply (settled_update c' _ i f _ (set_transaction_pending false)), settled_refl.
Qed.

(** ** The specification *)

(** Every file twice: as committed and as staged. *)
Record tx_state := TxState {
  st_committed : list entry;
  st_staged : list entry;
}.

Definition spec_of (e : DfcEmulator) : tx_state := TxState (committed_view e) (abs_files (credential e)).

Inductive tx_op :=
| TxStage (i n : Z) (b : bytes)
| TxWriteStandard (i offset : Z) (src : bytes)
| TxCreate (file_no : Z) (configure : DfcFile -> DfcFile) (data_file : bool) (size : Z)
| TxDelete (file_no : Z)
| TxCommit
| TxAbort.

Definition exec_tx (alloc : Z -> option bytes) (e : DfcEmulator) (op : tx_op) : bool * DfcEmulator :=
  match op with
  | TxStage i n b => stage_file alloc e i n b
  | TxWriteStandard i offset src => write_standard e i offset src
  | TxCreate file_no configure data_file size => create_and_publish e file_no configure data_file size
  | TxDelete file_no => delete_file_command e file_no
  | TxCommit => (true, dfc_emulator_publish_transaction e)
  | TxAbort => dfc_emulator_abort_transaction e
  end.

Definition on_both (g : list entry -> list entry) (st : tx_state) : tx_state :=
  TxState (g (st_committed st)) (g (st_staged st)).

Definition spec_abort (selected : Z) (st : tx_state) : tx_state :=
  let l := map (abort_value_entry selected) (st_committed st) in TxState l l.

Definition spec_commit (selected : Z) (st : tx_state) : tx_state :=
  let l := map (publish_entry selected) (st_staged st) in TxState l l.

Definition find_entry (selected file_no : Z) (l : list entry) : option Z :=
  find_from (fun ent => owns selected file_no (fst ent)) l 0.

(** A transaction MAC file takes the open transaction with it. *)
Definition spec_delete (selected file_no : Z) (st : tx_state) : tx_state :=
  match find_entry selected file_no (st_staged st) with
  | None => st
  | Some i =>
      let closes := match st_staged st !! Z.to_nat i with
                    | Some ent => file_type (fst ent) =? DFC_FILE_TYPE_TRANSACTION_MAC
                    | None => false
                    end in
      on_both (delete (Z.to_nat i)) (if closes then spec_abort selected st else st)
  end.

(** A new file reads zeros. *)
Definition new_entry (selected file_no : Z) (configure : DfcFile -> DfcFile) (data_file : bool) (size : Z)
  : entry :=
  let f := configure (fresh_file selected file_no) in
  (if data_file then sized_file f size else f, zeros size).

Definition spec_tx (selected : Z) (st : tx_state) (op : tx_op) : tx_state :=
  match op with
  | TxStage i n b =>
      TxState (st_committed st)
        (alter (fun ent => (staged_file n (fst ent), b)) (Z.to_nat i) (st_staged st))
  | TxWriteStandard i offset src =>
      on_both (alter (fun ent => (fst ent, splice (snd ent) offset src)) (Z.to_nat i)) st
  | TxCreate file_no configure data_file size =>
      on_both (fun l => l ++ [new_entry selected file_no configure data_file size]) st
  | TxDelete file_no => spec_delete selected file_no st
  | TxCommit => spec_commit selected st
  | TxAbort => spec_abort selected st
  end.

(** What a creation handler's assignments do not touch, and the type they leave. *)
Record configures (configure : DfcFile -> DfcFile) : Prop := {
  cf_slice : forall f, data_len (configure f) = data_len f /\ data_offset (configure f) = data_offset f;
  cf_sans : forall f, sans_slice (configure f) = configure (sans_slice f);
  cf_key : forall f, file_key (configure f) = file_key f;
  cf_pending : forall f, transaction_pending (configure f) = transaction_pending f;
  cf_record : forall f, is_record_file (configure f) = true ->
    exists r, state (configure f) = StateRecord r /\ record_count r = 0;
}.

Definition op_ok (op : tx_op) : Prop :=
  match op with
  | TxCreate _ configure data_file size =>
      configures configure /\ 0 <= size /\
      (data_file = true -> forall f, dfc_file_type_is_data (file_type (configure f)) = true)
  | _ => True
  end.

Record tx_inv (e : DfcEmulator) : Prop := {
  ti_wf : tx_wf e;
  ti_selected : 0 <= selected_app_index e < DFC_MAX_APPS;
  ti_own : transaction_snapshot_active (journal e) = true ->
           transaction_snapshot_app_index (journal e) = selected_app_index e;
}.

(** ** Refinement, operation by operation *)

Lemma abs_alter c i ent (g : entry -> entry) :
  abs_files c !! i = Some ent -> alter g i (abs_files c) = <[i := g ent]> (abs_files c).
Proof. apply list_alter_lookup. Qed.

Lemma tx_wf_abs e c' :
  files_wf c' -> journal_ok (journal e) (abs_files c') -> tx_wf (set_credential c' e).
Proof. by split. Qed.

Lemma spec_of_abs e :
  tx_wf e -> spec_of e = TxState (imap (commit_entry (journal e)) (abs_files (credential e)))
                           (abs_files (credential e)).
Proof. intros Hwf. unfold spec_of. by rewrite committed_view_abs. Qed.

(** The dirty mark is outside what files and journal say. *)
Lemma files_wf_dirty c d : files_wf c -> files_wf (set_dirty d c).
Proof. intros []. by constructor. Qed.

Lemma journal_ok_dirty j ents d :
  journal_ok j ents -> journal_ok (set_transaction_snapshot_dirty d j) ents /\
  imap (commit_entry (set_transaction_snapshot_dirty d j)) ents = imap (commit_entry j) ents.
Proof.
  intros [Hs Hc Hr Ho Hp Hcl]. split; [|done]. constructor; try done.
  - destruct Hs. by constructor.
  - intros Ha. destruct (Ho Ha). by constructor.
Qed.

(** What [dfc_emulator_transaction_snapshot_note_persistent_change] and
    [dfc_credential_mark_dirty] leave as it was. *)
Lemma note_change_correct e :
  tx_inv e ->
  let e1 := dfc_emulator_transaction_snapshot_note_persistent_change e in
  let e' := set_credential (dfc_credential_mark_dirty (credential e1)) e1 in
  tx_inv e' /\ spec_of e' = spec_of e /\ selected_app_index e' = selected_app_index e.
Proof.
  intros [[Hfw Hjk] Hsel Hown]. cbv zeta. unfold dfc_emulator_transaction_snapshot_note_persistent_change.
  assert (Hgo : forall j', journal_ok j' (abs_files (credential e)) ->
    imap (commit_entry j') (abs_files (credential e)) =
      imap (commit_entry (journal e)) (abs_files (credential e)) ->
    (transaction_snapshot_active j' = true -> transaction_snapshot_app_index j' = selected_app_index e) ->
    let e' := set_credential (dfc_credential_mark_dirty (credential e)) (set_journal j' e) in
    tx_inv e' /\ spec_of e' = spec_of e /\ selected_app_index e' = selected_app_index e).
  { intros j' Hj Hc Ho e'. assert (Hw : tx_wf e') by (split; [by apply files_wf_dirty|done]).
    split_and!; [by constructor| |done]. rewrite (spec_of_abs e' Hw), (spec_of_abs e) by done.
    change (abs_files (credential e')) with (abs_files (credential e)).
    change (journal e') with j'. by rewrite Hc. }
  destruct (transaction_snapshot_active (journal e)) eqn:Ea.
  - destruct (journal_ok_dirty _ _ true Hjk) as [H1 H2]. apply (Hgo _ H1 H2). by intros _; apply Hown.
  - specialize (Hgo (journal e) Hjk eq_refl). replace (set_journal (journal e) e) with e in Hgo by (by destruct e).
    apply Hgo. congruence.
Qed.

Lemma stage_write_correct c i f n b :
  files_wf c -> live_files c !! i = Some f -> zlen b = data_len f ->
  let c' := stage_write c (Z.of_nat i) n b in
  files_wf c' /\ abs_files c' = <[i := (staged_file n (sans_slice f), b)]> (abs_files c).
Proof.
  intros Hwf Hi Hb. cbv zeta. destruct (staged_file_fields zero_journal n f) as (_ & _ & _ & Hl & Ho & Hs).
  destruct (settled_update c (store_contents c (Z.of_nat i) b) i f b (staged_file n) Hwf)
    as [[Hw Ha _ _] _]; [by eapply lookup_lt_Some|done|done|by apply settled_store|].
  rewrite <- Hs. done.
Qed.

(** Begin and capture, from inside or outside a transaction. *)
Lemma begin_own alloc e :
  tx_inv e -> alloc_ok alloc ->
  let '(ok, e') := dfc_emulator_command_transaction_snapshot_begin alloc e in
  tx_inv e' /\ spec_of e' = spec_of e /\ credential e' = credential e /\
  selected_app_index e' = selected_app_index e /\
  (ok = true -> transaction_snapshot_active (journal e') = true) /\
  (ok = false -> exists n, 0 < n <= DFC_FILE_POOL_SIZE /\ alloc n = None).
Proof.
  intros [Hwf Hsel Hown] Halloc. destruct (transaction_snapshot_active (journal e)) eqn:Ea.
  - unfold dfc_emulator_command_transaction_snapshot_begin. rewrite Ea, (Hown eq_refl), Z.eqb_refl.
    split_and!; try done. by constructor; [..|rewrite Ea].
  - pose proof (begin_correct alloc e Hwf Halloc Ea) as H.
    destruct (dfc_emulator_command_transaction_snapshot_begin alloc e) as [[|] e'].
    + destruct H as [_ H]. destruct (H eq_refl) as ([Hw Hc Hs] & Hcr & Hact & Happ & _).
      split_and!; try done; [|by unfold spec_of; rewrite Hc, Hcr].
      constructor; [done|lia|]. intros _. by rewrite Happ, Hs.
    + destruct H as [H _]. destruct (H eq_refl) as [-> Hn]. split_and!; try done.
      constructor; try done. congruence.
Qed.

Lemma stage_refines alloc e i n b :
  tx_inv e -> alloc_ok alloc ->
  let '(ok, e') := stage_file alloc e i n b in
  tx_inv e' /\ selected_app_index e' = selected_app_index e /\
  (ok = true -> spec_of e' = spec_tx (selected_app_index e) (spec_of e) (TxStage i n b)) /\
  (ok = false -> spec_of e' = spec_of e).
Proof.
  intros Hinv Halloc. unfold stage_file. destruct (_ && _ && _ && _ && _ && _ && _) eqn:Eg; [|done].
  rewrite !andb_true_iff in Eg. destruct Eg as [[[[[[Hi0 Hi1] Ha] Hd] Hb] Hn0] Hn1]. bool_facts.
  pose proof (begin_own alloc e Hinv Halloc) as Hbeg.
  destruct (dfc_emulator_command_transaction_snapshot_begin alloc e) as [[|] e1].
  2: { by destruct Hbeg as (? & ? & _ & ? & _). }
  destruct Hbeg as (Hinv1 & Hsp1 & Hcr1 & Hsel1 & Hact1 & _). specialize (Hact1 eq_refl).
  destruct Hinv1 as [Hwf1 Hs1 Ho1]. pose proof Hwf1 as [Hfw1 Hjk1].
  pose proof (length_live_files _ Hfw1) as Hlen. unfold zlen in Hlen. rewrite Hcr1 in Hlen.
  destruct (lookup_lt_is_Some_2 (live_files (credential e1)) (Z.to_nat i)) as [f Hf]; [rewrite Hcr1; lia|].
  assert (Hat : file_at (credential e) i = f).
  { rewrite <- Hcr1, <- (Z2Nat.id i) by lia. by apply file_at_live. }
  rewrite Hat in *. assert (Hin : in_transaction (journal e1) f = true).
  { unfold in_transaction. rewrite (Ho1 Hact1), Hsel1, Hd. rewrite (proj2 (Z.eqb_eq _ _)) by done. done. }
  pose proof (capture_correct e1 (Z.to_nat i) f Hwf1 Hact1 Hf Hin) as Hcap. rewrite Z2Nat.id in Hcap by lia.
  destruct (dfc_emulator_transaction_snapshot_capture_file e1 i) as [ok e2].
  destruct Hcap as (-> & [Hw2 Hc2 Hsel2] & Hcr2 & Hact2 & Happ2 & Hcc). pose proof Hw2 as [Hfw2 Hjk2].
  rewrite <- Hcr2 in Hf. pose proof (abs_lookup _ _ _ Hf) as Hv.
  pose proof (stage_write_correct (credential e2) (Z.to_nat i) f n b Hfw2 Hf Hb) as [Hw3 Ha3].
  rewrite Z2Nat.id in Hw3, Ha3 by lia.
  destruct (stage_ok (journal e2) _ (Z.to_nat i) _ _ n b Hjk2 Hv Hact2 Hcc) as [Hjk3 Hc3]; [|lia|].
  { by rewrite (contents_length _ _ _ Hfw2 Hf). }
  rewrite <- Ha3 in Hjk3, Hc3. set (e3 := set_credential _ e2).
  assert (Hw : tx_wf e3) by (by apply tx_wf_abs).
  change (selected_app_index e3) with (selected_app_index e2).
  split_and!; [constructor; try done|congruence| |done].
  - cbn. by rewrite Hsel2.
  - intros _. cbn. rewrite Happ2, Hsel2. by apply Ho1.
  - intros _. rewrite (spec_of_abs e3 Hw). change (journal e3) with (journal e2).
    change (abs_files (credential e3)) with (abs_files (stage_write (credential e2) i n b)).
    rewrite Hc3, <- (committed_view_abs e2 Hw2), Hc2, Ha3.
    assert (Habs : abs_files (credential e2) = abs_files (credential e)) by congruence.
    cbn [spec_tx spec_of st_committed st_staged]. f_equal.
    + injection Hsp1. done.
    + rewrite Habs in *. symmetry. by rewrite (abs_alter _ _ _ _ Hv).
Qed.

Lemma standard_not_in_transaction j f :
  file_type f = DFC_FILE_TYPE_STANDARD_DATA -> in_transaction j f = false.
Proof. unfold in_transaction, transaction_file_has_data. intros ->. apply andb_false_r. Qed.

Lemma standard_not_pending j ents i ent :
  journal_ok j ents -> ents !! i = Some ent -> file_type (fst ent) = DFC_FILE_TYPE_STANDARD_DATA ->
  transaction_pending (fst ent) = false.
Proof.
  intros Hjk Hi Ht. destruct (transaction_pending (fst ent)) eqn:Ep; [|done].
  destruct (pending_in_transaction _ _ _ _ Hjk Hi Ep) as (_ & Hin & _).
  by rewrite standard_not_in_transaction in Hin.
Qed.

Lemma alter_imap_commit j i ent (g : entry -> entry) ents :
  ents !! i = Some ent -> commit_entry j i ent = ent ->
  alter g i (imap (commit_entry j) ents) = <[i := g ent]> (imap (commit_entry j) ents).
Proof. intros Hi Hc. apply list_alter_lookup. rewrite list_lookup_imap, Hi. cbn. by rewrite Hc. Qed.

Lemma write_standard_refines e i offset src :
  tx_inv e ->
  let '(ok, e') := write_standard e i offset src in
  tx_inv e' /\ selected_app_index e' = selected_app_index e /\
  (ok = true -> spec_of e' = spec_tx (selected_app_index e) (spec_of e) (TxWriteStandard i offset src)) /\
  (ok = false -> spec_of e' = spec_of e).
Proof.
  intros Hinv. unfold write_standard. destruct (_ && _ && _ && _) eqn:Eg; [|done].
  rewrite !andb_true_iff in Eg. destruct Eg as [[[Hi0 Hi1] Ha] Ht]. bool_facts.
  destruct ((0 <=? offset) && (offset + zlen src <=? _)) eqn:Eo; [|done]. bool_facts.
  pose proof Hinv as [Hwf Hsel Hown]. pose proof Hwf as [Hfw Hjk].
  pose proof (length_live_files _ Hfw) as Hlen. unfold zlen in Hlen.
  destruct (lookup_lt_is_Some_2 (live_files (credential e)) (Z.to_nat i)) as [f Hf]; [lia|].
  assert (Hat : file_at (credential e) i = f) by (rewrite <- (Z2Nat.id i) by lia; by apply file_at_live).
  unfold dfc_file_data. rewrite Hat in *. rewrite (file_data_resolve _ _ _ Hfw Hf).
  destruct (data_len f =? 0) eqn:E0; [done|]. bool_facts. pose proof (data_len_nonneg _ _ _ Hfw Hf).
  unfold dfc_emulator_transaction_snapshot_mirror_write.
  destruct (dfc_emulator_transaction_snapshot_can_mirror_write _ _ _ _); [|done].
  set (c1 := set_file_pool _ (credential _)).
  destruct (file_write_correct (credential e) (Z.to_nat i) f offset src Hfw Hf) as [Hw1 Ha1 _ _]; [lia..|].
  assert (Hc1 : c1 = set_file_pool (splice (file_pool (credential e)) (data_offset f + offset) src) (credential e)).
  { unfold c1, dfc_emulator_transaction_snapshot_note_persistent_change. by destruct (transaction_snapshot_active _). }
  rewrite <- Hc1 in Hw1, Ha1. pose proof (abs_lookup _ _ _ Hf) as Hv.
  pose proof (zlen_nonneg src). pose proof (contents_length _ _ _ Hfw Hf) as Hcl.
  destruct (direct_ok (journal e) _ (Z.to_nat i) _
    (sans_slice f, splice (slice_contents (file_pool (credential e)) (file_slice f)) offset src) Hjk Hv)
    as [Hjk1 Hcm1]; try by apply standard_not_in_transaction.
  { cbn [snd file_view]. apply length_splice; [lia|]. rewrite Hcl. lia. }
  { apply (Forall_lookup_1 _ _ _ _ (jk_records _ _ Hjk) Hv). }
  { by apply (standard_not_pending _ _ _ _ Hjk Hv). }
  rewrite <- Ha1 in Hjk1, Hcm1.
  assert (Hinv1 : tx_inv (set_credential c1 e)) by (constructor; [by apply tx_wf_abs|done|done]).
  destruct (note_change_correct _ Hinv1) as (Hinv2 & Hsp2 & Hsel2).
  set (e2 := set_credential (dfc_credential_mark_dirty c1) _).
  assert (He2 : e2 = set_credential (dfc_credential_mark_dirty (credential
    (dfc_emulator_transaction_snapshot_note_persistent_change (set_credential c1 e))))
    (dfc_emulator_transaction_snapshot_note_persistent_change (set_credential c1 e))).
  { unfold e2, dfc_emulator_transaction_snapshot_note_persistent_change. cbn [journal set_credential].
    by destruct (transaction_snapshot_active (journal e)). }
  rewrite He2. split_and!; [done|done| |done]. intros _. rewrite Hsp2.
  rewrite (spec_of_abs _ (ti_wf _ Hinv1)), (spec_of_abs e Hwf). cbn [credential set_credential journal].
  rewrite Hcm1, Ha1. unfold spec_tx, on_both. cbn [st_committed st_staged].
  rewrite (list_alter_lookup _ _ _ _ Hv). f_equal. rewrite (alter_imap_commit _ _ _ _ _ Hv); [done|].
  by apply (jk_clean _ _ Hjk _ _ Hv), (standard_not_pending _ _ _ _ Hjk Hv).
Qed.

(** *** Ending the transaction *)

Lemma commit_entry_settled j ents i ent :
  journal_ok j ents -> ents !! i = Some ent ->
  transaction_pending (fst (commit_entry j i ent)) = false /\
  record_file_ok (fst (commit_entry j i ent)).
Proof.
  intros Hjk Hi. pose proof (Forall_lookup_1 _ _ _ _ (jk_records _ _ Hjk) Hi) as Hr.
  destruct ent as [f b]. unfold commit_entry. cbn [fst] in Hr.
  assert (Hwc : forall n, 0 <= n < 2 ^ 16 ->
    transaction_pending (with_count n (set_transaction_pending false f)) = false /\
    record_file_ok (with_count n (set_transaction_pending false f))).
  { intros n Hn. unfold with_count.
    change (is_record_file (set_transaction_pending false f)) with (is_record_file f).
    destruct (is_record_file f) eqn:Er; (split; [done|]).
    - intros _. cbn. by eexists.
    - intros H. change (is_record_file f = true) in H. congruence. }
  destruct (_ && _ && _) eqn:Esh; [|split; [done|exact Hr]]. rewrite !andb_true_iff in Esh.
  destruct Esh as [[Ha _] Hc]. destruct (created j i) eqn:Ecr; cbn [fst]; [by apply Hwc|].
  apply Hwc, (jo_counts _ _ (jk_open _ _ Hjk Ha) i _ Hi). done.
Qed.

Lemma committed_all_settled e :
  tx_wf e -> Forall (fun ent => transaction_pending (fst ent) = false /\ record_file_ok (fst ent))
               (committed_view e).
Proof.
  intros Hwf. rewrite (committed_view_abs e Hwf). apply Forall_lookup. intros i x.
  rewrite list_lookup_imap, fmap_Some. intros (ent & Hi & ->).
  by apply (commit_entry_settled _ _ _ _ (proj2 Hwf)).
Qed.

Lemma zlen_abs c : files_wf c -> zlen (abs_files c) <= DFC_MAX_FILES.
Proof.
  intros Hwf. pose proof (length_live_files c Hwf). pose proof (fw_count _ Hwf).
  unfold abs_files, zlen in *. rewrite length_map. lia.
Qed.

(** A closed journal around settled files: both copies are the store. *)
Lemma closed_inv e :
  files_wf (credential e) -> journal_shape (journal e) ->
  transaction_snapshot_active (journal e) = false -> 0 <= selected_app_index e < DFC_MAX_APPS ->
  Forall (fun ent => transaction_pending (fst ent) = false /\ record_file_ok (fst ent))
    (abs_files (credential e)) ->
  tx_inv e /\ spec_of e = TxState (abs_files (credential e)) (abs_files (credential e)).
Proof.
  intros Hfw Hs Ha Hsel Hall. apply List.Forall_and_inv in Hall as [Hp Hr].
  assert (Hjk : journal_ok (journal e) (abs_files (credential e)))
    by (apply journal_ok_closed; try done; by apply zlen_abs).
  assert (Hwf : tx_wf e) by done. split; [constructor; [done|done|congruence]|].
  rewrite (spec_of_abs e Hwf). by rewrite commit_clean.
Qed.

Lemma abort_snapshot_inv e :
  tx_inv e ->
  let '(changed, e') := dfc_emulator_abort_transaction_snapshot e in
  files_wf (credential e') /\ abs_files (credential e') = committed_view e /\
  journal_shape (journal e') /\ transaction_snapshot_active (journal e') = false /\
  selected_app_index e' = selected_app_index e /\ changed = transaction_snapshot_active (journal e) /\
  num_files (credential e') = num_files (credential e) /\ (changed = false -> e' = e).
Proof.
  intros [Hwf Hsel Hown]. pose proof Hwf as [Hfw Hjk].
  destruct (transaction_snapshot_active (journal e)) eqn:Ea.
  - pose proof (abort_correct e Hwf Ea) as H. destruct (dfc_emulator_abort_transaction_snapshot e) as [ok e'].
    destruct H as (-> & Hw & Habs & Hn & _ & ->). split_and!; done.
  - unfold dfc_emulator_abort_transaction_snapshot. rewrite Ea. split_and!; try done.
    + rewrite (committed_view_abs e Hwf). symmetry. apply commit_clean; [done|].
      by apply (inactive_clean _ _ Hjk).
    + apply Hjk.
Qed.

Lemma abort_value_entry_settled selected ent :
  transaction_pending (fst ent) = false /\ record_file_ok (fst ent) ->
  transaction_pending (fst (abort_value_entry selected ent)) = false /\
  record_file_ok (fst (abort_value_entry selected ent)).
Proof.
  destruct ent as [f b]. unfold abort_value_entry. destruct (pending_value_file selected f) eqn:E; [|done].
  intros [Hp _]. split; [done|]. intros Hr. exfalso. unfold pending_value_file in E.
  rewrite !andb_true_iff in E. destruct E as [[_ Ht] _]. apply Z.eqb_eq in Ht.
  unfold is_record_file in Hr. cbn in Hr. rewrite Ht in Hr. done.
Qed.

(** The answer of the abort: something was open. *)
Definition transaction_open (e : DfcEmulator) : bool :=
  has_pending (transaction_mac (mac_state e)) || transaction_reader_id_pending (mac_state e) ||
  transaction_snapshot_active (journal e) ||
  existsb (fun ent => pending_value_file (selected_app_index e) (fst ent)) (committed_view e).

Lemma existsb_files (p : DfcFile -> bool) c :
  files_wf c -> (forall f, p (sans_slice f) = p f) ->
  existsb (fun i => p (file_at c i)) (seqZ 0 (num_files c)) = existsb (fun ent => p (fst ent)) (abs_files c).
Proof.
  intros Hwf Hp. pose proof (length_live_files c Hwf) as Hl. unfold zlen in Hl.
  apply eq_true_iff_eq. rewrite !existsb_exists. split.
  - intros (x & Hx & Hpx). apply list_elem_of_In, elem_of_seqZ in Hx.
    destruct (lookup_lt_is_Some_2 (live_files c) (Z.to_nat x)) as [f Hf]; [lia|].
    exists (file_view c f). split.
    + apply list_elem_of_In. eapply list_elem_of_lookup_2. by apply abs_lookup.
    + cbn [fst file_view]. rewrite Hp. rewrite <- (Z2Nat.id x), (file_at_live _ _ _ Hf) in Hpx by lia. done.
  - intros (ent & He & Hpe). apply list_elem_of_In, list_elem_of_lookup in He as [i Hi].
    destruct (abs_lookup_inv _ _ _ Hi) as (f & Hf & ->). exists (Z.of_nat i). split.
    + apply list_elem_of_In, elem_of_seqZ. pose proof (live_files_lt _ _ _ Hf). lia.
    + rewrite (file_at_live _ _ _ Hf). by rewrite <- Hp.
Qed.

Lemma abort_values_none selected l :
  existsb (fun ent : entry => pending_value_file selected (fst ent)) l = false ->
  map (abort_value_entry selected) l = l.
Proof.
  induction l as [|[f b] l IH]; cbn; [done|]. intros H. apply orb_false_iff in H as [Hf Hl].
  by rewrite Hf, IH.
Qed.

Lemma abort_transaction_correct e :
  tx_inv e ->
  let '(changed, e') := dfc_emulator_abort_transaction e in
  tx_inv e' /\ selected_app_index e' = selected_app_index e /\
  spec_of e' = spec_abort (selected_app_index e) (spec_of e) /\ changed = transaction_open e /\
  transaction_snapshot_active (journal e') = false /\
  num_files (credential e') = num_files (credential e).
Proof.
  intros Hinv. unfold dfc_emulator_abort_transaction, transaction_open.
  set (mac_open := has_pending _ || _).
  set (e0 := if mac_open then _ else e).
  assert (Hinv0 : tx_inv e0 /\ committed_view e0 = committed_view e /\ journal e0 = journal e /\
                  selected_app_index e0 = selected_app_index e /\ credential e0 = credential e).
  { unfold e0. destruct mac_open; [|done]. split_and!; try done.
    destruct Hinv as [Hw Hs Ho]. by constructor. }
  destruct Hinv0 as (Hinv0 & Hcv & Hj0 & Hs0 & Hc0).
  pose proof (abort_snapshot_inv e0 Hinv0) as H.
  destruct (dfc_emulator_abort_transaction_snapshot e0) as [snap e1].
  destruct H as (Hw1 & Ha1 & Hsh1 & Hact1 & Hsel1 & Hsnap & Hn1 & _).
  destruct (abort_values_correct (selected_app_index e1) (credential e1) Hw1) as (Hw2 & Ha2 & Hn2 & _).
  rewrite Hsel1, Hs0 in *. rewrite Ha1, Hcv in Ha2.
  set (e2 := set_credential (fold_left _ _ _) e1).
  assert (Hall : Forall (fun ent => transaction_pending (fst ent) = false /\ record_file_ok (fst ent))
                   (abs_files (credential e2))).
  { unfold e2. cbn [credential set_credential]. rewrite Ha2. apply List.Forall_map.
    pose proof (committed_all_settled e (ti_wf _ Hinv)) as Hset.
    eapply Forall_impl; [|exact Hset]. intros ent. apply abort_value_entry_settled. }
  destruct (closed_inv e2) as [Hinv2 Hsp2]; try done; [cbn; rewrite Hsel1; apply Hinv|].
  split_and!; try done.
  - rewrite Hsp2. unfold spec_abort. cbn [spec_of st_committed credential e2 set_credential]. by rewrite Ha2.
  - rewrite existsb_files, Ha1, Hcv, Hsnap, Hj0 by done. done.
  - cbn. rewrite Hn2, Hn1. by rewrite Hc0.
Qed.

Lemma abort_refines e :
  tx_inv e ->
  let '(ok, e') := dfc_emulator_abort_transaction e in
  tx_inv e' /\ selected_app_index e' = selected_app_index e /\
  (ok = true -> spec_of e' = spec_abort (selected_app_index e) (spec_of e)) /\
  (ok = false -> spec_of e' = spec_of e).
Proof.
  intros Hinv. pose proof (abort_transaction_correct e Hinv) as H.
  destruct (dfc_emulator_abort_transaction e) as [ok e']. destruct H as (Hi & Hs & Hsp & -> & _).
  split_and!; try done. intros Hopen. unfold transaction_open in Hopen.
  rewrite !orb_false_iff in Hopen. destruct Hopen as [[_ Hact] Hval].
  rewrite Hsp. unfold spec_abort, spec_of. cbn [st_committed]. rewrite abort_values_none by done.
  pose proof (ti_wf _ Hinv) as [Hfw Hjk]. f_equal.
  rewrite (committed_view_abs e (ti_wf _ Hinv)). apply commit_clean; [done|]. by apply (inactive_clean _ _ Hjk).
Qed.

Lemma publish_entry_settled j ents i ent selected :
  journal_ok j ents -> ents !! i = Some ent ->
  (transaction_snapshot_active j = true -> transaction_snapshot_app_index j = selected) ->
  transaction_pending (fst (publish_entry selected ent)) = false /\
  record_file_ok (fst (publish_entry selected ent)).
Proof.
  intros Hjk Hi Hown. pose proof (Forall_lookup_1 _ _ _ _ (jk_records _ _ Hjk) Hi) as Hr.
  destruct ent as [f b]. unfold publish_entry. cbn [fst] in Hr.
  destruct (file_app_index f =? selected) eqn:Ea; cbn [negb]; bool_facts.
  - split; [done|]. destruct (pending_value_file selected f) eqn:Ev; [|exact Hr].
    intros Hrec. exfalso. unfold pending_value_file in Ev. rewrite !andb_true_iff in Ev.
    destruct Ev as [[_ Ht] _]. apply Z.eqb_eq in Ht. unfold is_record_file in Hrec. cbn in Hrec.
    rewrite Ht in Hrec. done.
  - split; [|exact Hr]. destruct (transaction_pending f) eqn:Ep; [|done]. exfalso.
    destruct (pending_in_transaction _ _ _ _ Hjk Hi Ep) as (Hact & Hin & _).
    apply andb_true_iff in Hin as [Hin _]. apply Z.eqb_eq in Hin. cbn [fst] in Hin.
    rewrite (Hown Hact) in Hin. done.
Qed.

Lemma commit_refines e :
  tx_inv e ->
  let e' := dfc_emulator_publish_transaction e in
  tx_inv e' /\ selected_app_index e' = selected_app_index e /\
  spec_of e' = spec_commit (selected_app_index e) (spec_of e).
Proof.
  intros [Hwf Hsel Hown]. pose proof Hwf as [Hfw Hjk]. cbv zeta.
  destruct (publish_files_correct (selected_app_index e) (credential e) Hfw) as (Hw & Ha & _ & _).
  unfold dfc_emulator_publish_transaction. set (c1 := fold_left _ _ _) in *.
  change (journal (set_credential c1 e)) with (journal e).
  change (selected_app_index (set_credential c1 e)) with (selected_app_index e).
  set (e1 := if transaction_snapshot_active (journal e) &&
                (transaction_snapshot_app_index (journal e) =? selected_app_index e)
             then transaction_snapshot_clear_state (set_credential c1 e) else set_credential c1 e).
  assert (He1 : credential e1 = c1 /\ journal_shape (journal e1) /\ selected_app_index e1 = selected_app_index e /\
                transaction_snapshot_active (journal e1) = false).
  { unfold e1. destruct (transaction_snapshot_active (journal e)) eqn:Eact.
    - rewrite (Hown eq_refl), Z.eqb_refl. cbn [andb]. split_and!; try done.
    - cbn [andb]. split_and!; try done. apply Hjk. }
  destruct He1 as (Hc1 & Hs1 & Hsel1 & Hact1). set (e2 := set_credential _ _).
  assert (Habs : abs_files (credential e2) = map (publish_entry (selected_app_index e)) (abs_files (credential e))).
  { rewrite <- Ha, <- Hc1. done. }
  destruct (closed_inv e2) as [Hinv Hsp].
  - apply files_wf_dirty. change (files_wf (credential e1)). by rewrite Hc1.
  - exact Hs1.
  - exact Hact1.
  - change (selected_app_index e2) with (selected_app_index e1). by rewrite Hsel1.
  - rewrite Habs. apply List.Forall_map, Forall_lookup. intros i ent Hi.
    by apply (publish_entry_settled (journal e) (abs_files (credential e)) i).
  - split_and!; [done|done|]. rewrite Hsp, Habs. done.
Qed.

(** *** Creating a file *)

Lemma owns_slice selected file_no f : owns selected file_no (sans_slice f) = owns selected file_no f.
Proof. done. Qed.

(** The freshly created and configured record, with its octets. *)
Lemma create_sized_correct c selected file_no configure data_file size i c1 :
  files_wf c -> 0 <= selected < DFC_MAX_APPS -> op_ok (TxCreate file_no configure data_file size) ->
  dfc_credential_create_file c selected file_no = (Some i, c1) ->
  let c2 := update_file configure i c1 in
  let '(ok, c3) := if data_file then dfc_file_set_data_size c2 i size else dfc_file_resize c2 i size in
  i = num_files c /\ num_files c < DFC_MAX_FILES /\
  Forall (fun f => file_key f <> (selected, file_no)) (live_files c) /\
  files_wf c3 /\ num_files c3 = num_files c + 1 /\
  (ok = true -> abs_files c3 = abs_files c ++ [new_entry selected file_no configure data_file size]) /\
  (ok = false -> abs_files c3 = abs_files c ++ [(configure (fresh_file selected file_no), [])]).
Proof.
  intros Hwf Hsel (Hcf & Hsz & Hdt) Hcr.
  destruct (create_file_correct c selected file_no i c1 Hwf Hcr) as (-> & _ & Huniq & Hw1 & Ha1 & Hn1 & _).
  pose proof (fw_count _ Hwf) as Hcnt. set (n := Z.to_nat (num_files c)).
  assert (Hn : num_files c = Z.of_nat n) by (unfold n; lia).
  assert (Hlen : length (abs_files c) = n).
  { pose proof (length_live_files c Hwf). unfold abs_files, zlen in *. rewrite length_map. lia. }
  assert (Hv1 : abs_files c1 !! n = Some (fresh_file selected file_no, [])).
  { rewrite Ha1, lookup_app_r, Hlen, Nat.sub_diag by lia. done. }
  destruct (abs_lookup_inv _ _ _ Hv1) as (f1 & Hf1 & Hview). rewrite Hn. cbv zeta.
  destruct (cf_slice _ Hcf f1) as [Hl1 Ho1].
  destruct (settled_update c1 c1 n f1 _ configure Hw1 (lookup_lt_Some _ _ _ Hf1) Hl1 Ho1
              (settled_refl _ _ _ Hw1 Hf1)) as [[Hw2 Ha2 Hn2 _] Hf2].
  set (c2 := update_file configure (Z.of_nat n) c1) in *.
  assert (Hs1 : sans_slice f1 = fresh_file selected file_no) by (symmetry; exact (f_equal fst Hview)).
  assert (Hb1 : slice_contents (file_pool c1) (file_slice f1) = [])
    by (symmetry; exact (f_equal snd Hview)).
  assert (H0 : data_len (configure f1) = 0).
  { rewrite Hl1, <- (contents_length _ _ _ Hw1 Hf1), Hb1. done. }
  assert (Hins : forall ent, <[n := ent]> (abs_files c1) = abs_files c ++ [ent]).
  { intros ent. rewrite Ha1. rewrite insert_app_r_alt, Hlen, Nat.sub_diag by lia. done. }
  rewrite (cf_sans _ Hcf), Hs1, Hb1, Hins in Ha2.
  assert (Hres : resized_contents c2 (configure f1) size = zeros size).
  { unfold resized_contents. destruct (size =? data_len (configure f1)) eqn:E; [|done]. bool_facts.
    rewrite H0 in E. subst size. unfold slice_contents. cbn [file_slice fst snd]. by rewrite H0. }
  assert (Hmax : num_files c < DFC_MAX_FILES) by (pose proof (fw_count _ Hw1); lia).
  assert (Hins2 : forall ent, <[n := ent]> (abs_files c2) = abs_files c ++ [ent]).
  { intros ent. rewrite Ha2, insert_app_r_alt, Hlen, Nat.sub_diag by lia. done. }
  destruct data_file.
  - pose proof (set_data_size_correct c2 n _ size Hw2 Hf2 Hsz) as H.
    destruct (dfc_file_set_data_size c2 (Z.of_nat n) size) as [ok c3]. destruct H as (_ & Hno & Hyes).
    split_and!; try done; try lia.
    all: destruct ok; try (specialize (Hno eq_refl); subst c3); try destruct (Hyes eq_refl) as [Hw3 Ha3 Hn3 _];
      try done; try lia.
    intros _. rewrite Ha3, Hins2, Hres, (cf_sans _ Hcf), Hs1. done.
  - pose proof (dfc_file_resize_correct c2 n _ size Hw2 Hf2 Hsz) as H.
    destruct (dfc_file_resize c2 (Z.of_nat n) size) as [ok c3]. destruct H as (_ & Hno & Hyes).
    split_and!; try done; try lia.
    all: destruct ok; try (specialize (Hno eq_refl); subst c3); try destruct (Hyes eq_refl) as [[Hw3 Ha3 Hn3 _] _];
      try done; try lia.
    intros _. rewrite Ha3, Hins2, Hres, (cf_sans _ Hcf), Hs1. done.
Qed.

Lemma fresh_key selected file_no configure :
  configures configure -> 0 <= selected < DFC_MAX_APPS ->
  file_key (configure (fresh_file selected file_no)) = (selected, file_no).
Proof.
  intros Hcf Hs. rewrite (cf_key _ Hcf). unfold file_key, fresh_file. cbn. by rewrite u8_id by dlia.
Qed.

(** Taking back a file that was just appended. *)
Lemma delete_last c c3 selected file_no ent :
  files_wf c3 -> abs_files c3 = abs_files c ++ [ent] -> file_key (fst ent) = (selected, file_no) ->
  Forall (fun f => file_key f <> (selected, file_no)) (live_files c) ->
  let c4 := snd (dfc_credential_delete_file c3 selected file_no) in
  files_wf c4 /\ abs_files c4 = abs_files c.
Proof.
  intros Hwf Habs Hkey Huniq. cbv zeta. pose proof (delete_file_correct c3 selected file_no Hwf) as H.
  set (n := length (abs_files c)) in *.
  assert (Hn : abs_files c3 !! n = Some ent)
    by (rewrite Habs, lookup_app_r, Nat.sub_diag by (unfold n; lia); done).
  destruct (abs_lookup_inv _ _ _ Hn) as (g & Hg & Hent).
  destruct (dfc_credential_delete_file c3 selected file_no) as [[|] c4]; cbn [snd].
  2: { destruct H as [H _]. destruct (H eq_refl) as [_ Hall].
       pose proof (Forall_lookup_1 _ _ _ _ Hall Hg) as Hne. exfalso. apply Hne. by rewrite Hent in Hkey. }
  destruct H as [_ H]. destruct (H eq_refl) as (k & f & Hk & Hfk & Hw4 & Ha4 & _). split; [done|].
  assert (k = n) as ->.
  { pose proof (lookup_lt_Some _ _ _ (abs_lookup _ _ _ Hk)) as Hlt. rewrite Habs, length_app in Hlt. cbn in Hlt.
    destruct (decide (k = n)) as [|Hne]; [done|]. exfalso. fold n in Hlt.
    pose proof (abs_lookup _ _ _ Hk) as Hvk. rewrite Habs, lookup_app_l in Hvk by (fold n; lia).
    destruct (abs_lookup_inv _ _ _ Hvk) as (h & Hh & Hvh).
    apply (Forall_lookup_1 _ _ _ _ Huniq Hh). rewrite <- Hfk.
    exact (f_equal (fun x => file_key (fst x)) (eq_sym Hvh)). }
  rewrite Ha4, Habs. unfold n. rewrite delete_take_drop, take_app_length, drop_ge by (rewrite length_app; cbn; lia).
  apply app_nil_r.
Qed.

(** A new entry is settled. *)
Lemma new_entry_settled selected file_no configure data_file size :
  op_ok (TxCreate file_no configure data_file size) ->
  let ent := new_entry selected file_no configure data_file size in
  transaction_pending (fst ent) = false /\ record_file_ok (fst ent) /\ with_count 0 (fst ent) = fst ent /\
  snd ent = zeros (zlen (snd ent)).
Proof.
  intros (Hcf & Hsz & Hdt). cbv zeta. unfold new_entry. cbn [fst snd].
  rewrite (length_zeros size Hsz). set (f := configure (fresh_file selected file_no)).
  assert (Hp : transaction_pending f = false) by (unfold f; rewrite (cf_pending _ Hcf); done).
  destruct data_file.
  - assert (Hnr : is_record_file (sized_file f size) = false).
    { specialize (Hdt eq_refl (fresh_file selected file_no)). fold f in Hdt.
      change (is_record_file (sized_file f size)) with (is_record_file f).
      unfold dfc_file_type_is_data in Hdt. unfold is_record_file.
      apply orb_true_iff in Hdt as [Ht|Ht]; apply Z.eqb_eq in Ht; by rewrite Ht. }
    split_and!; [done|by intros H; rewrite Hnr in H|by unfold with_count; rewrite Hnr|done].
  - pose proof (cf_record _ Hcf (fresh_file selected file_no)) as Hrec. fold f in Hrec.
    split_and!; [done| | |done].
    + intros Hr. destruct (Hrec Hr) as (r & Hst & Hc). exists r. split; [done|]. lia.
    + unfold with_count. destruct (is_record_file f) eqn:Er; [|done].
      destruct (Hrec eq_refl) as (r & Hst & Hc). unfold set_file_record_count. rewrite Hst. cbn [state_record].
      destruct f, r. cbn in *. by subst.
Qed.

Lemma create_refines e file_no configure data_file size :
  tx_inv e -> op_ok (TxCreate file_no configure data_file size) ->
  let '(ok, e') := create_and_publish e file_no configure data_file size in
  tx_inv e' /\ selected_app_index e' = selected_app_index e /\
  (ok = true -> spec_of e' = spec_tx (selected_app_index e) (spec_of e)
                               (TxCreate file_no configure data_file size)) /\
  (ok = false -> spec_of e' = spec_of e).
Proof.
  intros Hinv Hop. pose proof Hinv as [Hwf Hsel Hown]. pose proof Hwf as [Hfw Hjk].
  assert (Hsame : forall c', files_wf c' -> abs_files c' = abs_files (credential e) ->
    tx_inv (set_credential c' e) /\ spec_of (set_credential c' e) = spec_of e).
  { intros c' Hw' Ha'. assert (Hwf' : tx_wf (set_credential c' e))
      by (apply tx_wf_abs; [done|by rewrite Ha']).
    split; [by constructor|]. rewrite (spec_of_abs _ Hwf'), (spec_of_abs e Hwf). cbn [credential set_credential journal].
    by rewrite Ha'. }
  unfold create_and_publish.
  destruct (dfc_credential_create_file (credential e) (selected_app_index e) file_no) as [[i|] c1] eqn:Ecr.
  2: { assert (c1 = credential e) as ->.
       { unfold dfc_credential_create_file in Ecr. repeat case_match; by simplify_eq. }
       by destruct (Hsame (credential e) Hfw eq_refl). }
  pose proof (create_sized_correct _ _ _ _ _ _ _ _ Hfw Hsel Hop Ecr) as Hcs. cbv zeta in Hcs.
  destruct (if data_file then _ else _) as [sized c3].
  destruct Hcs as (-> & Hmax & Huniq & Hw3 & Hn3 & Hyes & Hno).
  destruct sized.
  2: { specialize (Hno eq_refl). destruct (delete_last (credential e) c3 (selected_app_index e) file_no _
         Hw3 Hno) as [Hw4 Ha4]; [apply fresh_key; [apply Hop|done]|done|].
       by destruct (Hsame _ Hw4 Ha4). }
  specialize (Hyes eq_refl). clear Hno. unfold publish_created_file.
  set (e3 := set_credential c3 e). set (ent := new_entry _ _ _ _ _) in *.
  destruct (new_entry_settled (selected_app_index e) file_no configure data_file size Hop) as (Hp & Hr & Hwc & Hz).
  fold ent in Hp, Hr, Hwc, Hz.
  set (n := length (abs_files (credential e))) in *.
  assert (Hn : num_files (credential e) = Z.of_nat n).
  { pose proof (length_live_files _ Hfw). unfold n, abs_files, zlen in *. rewrite length_map. lia. }
  assert (Hv : abs_files c3 !! n = Some ent)
    by (rewrite Hyes, lookup_app_r, Nat.sub_diag by (unfold n; lia); done).
  destruct (abs_lookup_inv _ _ _ Hv) as (f & Hf & Hview).
  pose proof (insert_file_correct e3 n f (jk_shape _ _ Hjk) Hf) as Hins. rewrite Hn.
  destruct (dfc_emulator_transaction_snapshot_insert_file e3 (Z.of_nat n)) as [ok e4].
  destruct Hins as (-> & Hja & He4); [change (num_files c3 <= DFC_MAX_FILES); lia|].
  assert (Hja' : journal_appended (journal e) (journal e4) (length (abs_files (credential e))) (fst ent)).
  { destruct Hja as [H1 H2 H3 H4]. constructor; [done..|]. intros Ha. fold n. rewrite (H4 Ha), Hview. done. }
  destruct (append_ok _ _ _ (fst ent) (snd ent) Hjk Hja') as [Hjk4 Hcm4]; [unfold zlen; fold n; lia|done..|].
  rewrite <- surjective_pairing, <- Hyes in Hjk4, Hcm4.
  destruct (sans_slots_fields _ _ (ja_frame _ _ _ _ Hja)) as (_ & Happ & _ & _ & Hact & _).
  assert (Hinv4 : tx_inv e4).
  { rewrite He4. constructor; [split; done|done|]. cbn. rewrite Happ, Hact. done. }
  destruct (note_change_correct e4 Hinv4) as (Hinv5 & Hsp5 & Hsel5).
  split_and!; [done|by rewrite Hsel5, He4| |done]. intros _. rewrite Hsp5, (spec_of_abs e4 (ti_wf _ Hinv4)).
  assert (Hc4 : credential e4 = c3) by (by rewrite He4). by rewrite Hc4, Hcm4, Hyes, (spec_of_abs e Hwf).
Qed.

(** *** Deleting a file *)

Lemma find_from_map {A B} (p : B -> bool) (g : A -> B) l i :
  find_from p (map g l) i = find_from (fun x => p (g x)) l i.
Proof. revert i. induction l as [|x l IH]; intros i; cbn; [done|]. by rewrite IH. Qed.

Lemma find_from_ext {A} (p q : A -> bool) l i :
  (forall x, x ∈ l -> p x = q x) -> find_from p l i = find_from q l i.
Proof.
  revert i. induction l as [|x l IH]; intros i H; cbn; [done|].
  rewrite (H x) by constructor. destruct (q x); [done|]. apply IH. intros y Hy. apply H. by constructor.
Qed.

Lemma find_from_imap {A B} (p : B -> bool) (q : A -> bool) (g : nat -> A -> B) l i :
  (forall k x, p (g k x) = q x) -> find_from p (imap g l) i = find_from q l i.
Proof.
  revert g i. induction l as [|x l IH]; intros g i H; [done|]. rewrite imap_cons. cbn [find_from].
  rewrite H. destruct (q x); [done|]. apply IH. intros k y. apply (H (S k)).
Qed.

Lemma find_entry_abs c selected file_no :
  find_entry selected file_no (abs_files c) = dfc_credential_find_file_in_app c selected file_no.
Proof. unfold find_entry, abs_files. rewrite find_from_map. done. Qed.

Lemma commit_entry_key j i ent : file_key (fst (commit_entry j i ent)) = file_key (fst ent).
Proof.
  destruct ent as [f b]. unfold commit_entry, with_count.
  destruct (_ && _ && _); [|done]. destruct (created j i); cbn [fst]; by destruct (is_record_file _).
Qed.

Lemma abort_value_entry_key selected ent : file_key (fst (abort_value_entry selected ent)) = file_key (fst ent).
Proof. destruct ent as [f b]. unfold abort_value_entry. by destruct (pending_value_file selected f). Qed.

Lemma owns_key selected file_no f g : file_key f = file_key g -> owns selected file_no f = owns selected file_no g.
Proof. unfold file_key, owns. intros H. injection H as H1 H2. by rewrite H1, H2. Qed.

Lemma delete_core e file_no j f :
  tx_inv e -> live_files (credential e) !! j = Some f ->
  dfc_credential_find_file_in_app (credential e) (selected_app_index e) file_no = Some (Z.of_nat j) ->
  let e1 := dfc_emulator_transaction_snapshot_delete_file e (Z.of_nat j) in
  let '(ok, c) := dfc_credential_delete_file (credential e1) (selected_app_index e1) file_no in
  let e2 := set_credential c e1 in
  ok = true /\ tx_inv e2 /\ spec_of e2 = on_both (delete j) (spec_of e) /\
  selected_app_index e2 = selected_app_index e.
Proof.
  intros Hinv Hf Hfind. pose proof Hinv as [Hwf Hsel Hown]. pose proof Hwf as [Hfw Hjk]. cbv zeta.
  pose proof (abs_lookup _ _ _ Hf) as Hv. pose proof (contents_length _ _ _ Hfw Hf) as Hcl.
  destruct (drop_file_correct (credential e) j f Hfw Hf) as (Hw2 & Ha2 & _ & _).
  set (e1 := dfc_emulator_transaction_snapshot_delete_file e (Z.of_nat j)).
  assert (He1 : e1 = set_journal (journal e1) e /\
    journal_ok (journal e1) (delete j (abs_files (credential e))) /\
    imap (commit_entry (journal e1)) (delete j (abs_files (credential e))) =
      delete j (imap (commit_entry (journal e)) (abs_files (credential e))) /\
    (transaction_snapshot_active (journal e1) = true ->
       transaction_snapshot_app_index (journal e1) = selected_app_index e)).
  { destruct (transaction_snapshot_active (journal e)) eqn:Ea.
    - destruct (delete_file_journal e j f Hwf Ea Hf) as [Hd He1]. fold e1 in Hd, He1.
      rewrite <- Hcl in Hd. destruct (delete_ok _ _ _ j _ Hjk Ea Hv Hd) as [Hjk1 Hcm1].
      split_and!; [done..|]. intros _.
      destruct (delete_fields _ _ j (file_view (credential e) f) Ea Hd) as (-> & _). by apply Hown.
    - assert (e1 = e) as -> by (unfold e1, dfc_emulator_transaction_snapshot_delete_file; by rewrite Ea).
      pose proof (inactive_clean _ _ Hjk Ea) as Hcl0.
      assert (Hjk1 : journal_ok (journal e) (delete j (abs_files (credential e)))).
      { apply journal_ok_closed; [apply Hjk| |apply Forall_delete, Hjk|done|by apply Forall_delete].
        pose proof (jk_count _ _ Hjk). pose proof (lookup_lt_Some _ _ _ Hv). unfold zlen in *.
        rewrite length_delete by done. lia. }
      split_and!; [by destruct e|done| |congruence].
      by rewrite !commit_clean by (done || by apply Forall_delete). }
  destruct He1 as (He1 & Hjk1 & Hcm1 & Hown1).
  assert (Hc1 : credential e1 = credential e /\ selected_app_index e1 = selected_app_index e)
    by (rewrite He1; done). destruct Hc1 as [-> ->].
  unfold dfc_credential_delete_file. rewrite Hfind. set (c2 := remove_file_slot _ _) in *.
  rewrite <- Ha2 in Hjk1, Hcm1. assert (Hw : tx_wf (set_credential c2 e1)) by (by apply tx_wf_abs).
  split_and!; [done| | |by rewrite He1].
  - constructor; [done|by rewrite He1|]. cbn. rewrite He1. cbn. rewrite He1 in Hown1. exact Hown1.
  - rewrite (spec_of_abs _ Hw), (spec_of_abs e Hwf). cbn [credential set_credential journal].
    rewrite Hcm1, Ha2. done.
Qed.

Lemma delete_refines e file_no :
  tx_inv e ->
  let '(ok, e') := delete_file_command e file_no in
  tx_inv e' /\ selected_app_index e' = selected_app_index e /\
  (ok = true -> spec_of e' = spec_delete (selected_app_index e) file_no (spec_of e)) /\
  (ok = false -> spec_of e' = spec_of e).
Proof.
  intros Hinv. unfold delete_file_command, spec_delete. cbn [st_staged spec_of]. rewrite find_entry_abs.
  pose proof (find_file_spec (credential e) (selected_app_index e) file_no) as Hspec.
  destruct (dfc_credential_find_file_in_app (credential e) (selected_app_index e) file_no) as [k|] eqn:Efind.
  2: { unfold dfc_credential_delete_file. rewrite Efind. by destruct e. }
  destruct Hspec as (j & f & -> & Hf & Hkey). rewrite (file_at_live _ _ _ Hf), Nat2Z.id.
  rewrite (abs_lookup _ _ _ Hf). change (file_type (fst (file_view (credential e) f))) with (file_type f).
  assert (Hgo : forall e0 f0, tx_inv e0 -> live_files (credential e0) !! j = Some f0 ->
    dfc_credential_find_file_in_app (credential e0) (selected_app_index e0) file_no = Some (Z.of_nat j) ->
    let e1 := dfc_emulator_transaction_snapshot_delete_file e0 (Z.of_nat j) in
    let '(ok, e') :=
      (let '(deleted, c) := dfc_credential_delete_file (credential e1) (selected_app_index e1) file_no in
       let e2 := set_credential c e1 in
       if deleted then
         let e3 := dfc_emulator_transaction_snapshot_note_persistent_change e2 in
         (true, set_credential (dfc_credential_mark_dirty (credential e3)) e3)
       else (false, e2)) in
    ok = true /\ tx_inv e' /\ selected_app_index e' = selected_app_index e0 /\
    spec_of e' = on_both (delete j) (spec_of e0)).
  { intros e0 f0 Hinv0 Hf0 Hfind0 e1. pose proof (delete_core e0 file_no j f0 Hinv0 Hf0 Hfind0) as H.
    cbv zeta in H. fold e1 in H. destruct (dfc_credential_delete_file _ _ _) as [deleted c].
    destruct H as (-> & Hinv2 & Hsp2 & Hsel2). destruct (note_change_correct _ Hinv2) as (Hi3 & Hs3 & Hl3).
    split_and!; [done|done|congruence|congruence]. }
  destruct (file_type f =? DFC_FILE_TYPE_TRANSACTION_MAC).
  2: { specialize (Hgo e f Hinv Hf Efind). cbv zeta in Hgo.
       destruct (dfc_credential_delete_file _ _ _) as [[|] c]; destruct Hgo as (Hok & Hi & Hs & Hsp); [|done].
       by split_and!. }
  pose proof (abort_transaction_correct e Hinv) as Hab.
  destruct (dfc_emulator_abort_transaction e) as [changed e1]. cbn [snd].
  destruct Hab as (Hinv1 & Hsel1 & Hsp1 & _ & Hact1 & _).
  assert (Habs1 : abs_files (credential e1) = map (abort_value_entry (selected_app_index e)) (committed_view e))
    by exact (f_equal st_staged Hsp1).
  assert (Hfind1 : dfc_credential_find_file_in_app (credential e1) (selected_app_index e1) file_no = Some (Z.of_nat j)).
  { rewrite Hsel1, <- find_entry_abs, Habs1, (committed_view_abs e (ti_wf _ Hinv)). unfold find_entry.
    rewrite find_from_map. erewrite find_from_imap; [rewrite <- Efind; apply find_entry_abs|].
    intros k x. cbn beta. apply owns_key. by rewrite abort_value_entry_key, commit_entry_key. }
  pose proof (find_file_spec (credential e1) (selected_app_index e1) file_no) as Hspec1. rewrite Hfind1 in Hspec1.
  destruct Hspec1 as (j1 & f1 & Hj1 & Hf1 & _). assert (j1 = j) as -> by lia.
  specialize (Hgo e1 f1 Hinv1 Hf1 Hfind1). cbv zeta in Hgo.
  assert (Hid : dfc_emulator_transaction_snapshot_delete_file e1 (Z.of_nat j) = e1)
    by (unfold dfc_emulator_transaction_snapshot_delete_file; by rewrite Hact1).
  rewrite Hid in Hgo.
  destruct (dfc_credential_delete_file _ _ _) as [[|] c]; destruct Hgo as (Hok & Hi & Hs & Hsp); [|done].
  split_and!; [done|congruence| |done]. intros _. by rewrite Hsp, Hsp1.
Qed.


(** ** A concrete transaction *)

(** An emulator that has selected application 0 of the sample credential. *)
Definition sample_emulator : DfcEmulator :=
  set_selected_application DfcEmulatorSelectedApplicationApp
    (set_tx_buffer (Some zero_bytebuf) (zero_emulator sample)).

Definition settled_entryb (ent : entry) : bool :=
  negb (transaction_pending (fst ent)) && negb (is_record_file (fst ent)).

Lemma settled_entryb_all l :
  forallb settled_entryb l = true ->
  Forall (fun ent => transaction_pending (fst ent) = false /\ record_file_ok (fst ent)) l.
Proof.
  intros H. apply Forall_forall. intros ent Hin.
  apply (proj1 (forallb_forall _ _) H) in Hin. apply andb_true_iff in Hin as [H1 H2].
  apply negb_true_iff in H1, H2. split; [done|]. intros Hr. congruence.
Qed.

Lemma sample_emulator_inv : tx_inv sample_emulator.
Proof.
  apply closed_inv.
  - exact (cw_files _ (reachable_cred_wf _ sample_reachable)).
  - constructor; reflexivity.
  - reflexivity.
  - cbn. dlia.
  - apply settled_entryb_all. vm_compute. reflexivity.
Qed.

(** A linear record file of four 8-octet records, and a backup file. *)
Definition configure_record (f : DfcFile) : DfcFile :=
  set_state (StateRecord (Build_DfcRecordFileState 8 4 0)) (set_file_type DFC_FILE_TYPE_LINEAR_RECORD f).

Definition configure_backup (f : DfcFile) : DfcFile := set_file_type DFC_FILE_TYPE_BACKUP_DATA f.

Lemma configure_record_ok : op_ok (TxCreate 7 configure_record false 32).
Proof. split; [constructor; try done|done]. intros f _. by eexists. Qed.

Lemma configure_backup_ok : op_ok (TxCreate 8 configure_backup true 16).
Proof. split; [constructor; done|done]. Qed.

Definition host_alloc (n : Z) : option bytes := Some (zeros n).

Lemma host_alloc_ok : alloc_ok host_alloc.
Proof. intros n p Hn H. injection H as <-. apply length_zeros. lia. Qed.

(** The sample emulator after creating a record file and a backup file. *)
Definition sample_tx : DfcEmulator :=
  snd (create_and_publish
         (snd (create_and_publish sample_emulator 7 configure_record false 32))
         8 configure_backup true 16).

Lemma create_inv e file_no configure data_file size :
  tx_inv e -> op_ok (TxCreate file_no configure data_file size) ->
  tx_inv (snd (create_and_publish e file_no configure data_file size)).
Proof.
  intros Hinv Hop. pose proof (create_refines e file_no configure data_file size Hinv Hop) as H.
  destruct (create_and_publish e file_no configure data_file size). apply H.
Qed.

Lemma sample_tx_inv : tx_inv sample_tx.
Proof.
  apply create_inv; [|exact configure_backup_ok].
  apply create_inv; [exact sample_emulator_inv|exact configure_record_ok].
Qed.

