(* ===== verification/Atomicity.v ===== *)
(** Atomicity and durability of transactions on the emulator of
    [src/src/dfc_emulator.c]: what a whole transaction does to the files, that a write
    always finds room in the journal, and what an abort leaves when the journal cannot
    be trusted. *)

From S2P Require Import Prelude Common Pool CredentialData Credential FileStore.
From S2P Require Import EmulatorData Journal JournalSlots JournalFacts JournalSteps Emulator Transaction.

#[local] Abbreviation entry := (DfcFile * bytes)%type.

(** ** A whole transaction *)

(** One staged write: file index, record count, octets. *)
#[local] Abbreviation write := (Z * Z * bytes)%type.

Definition run_stages (alloc : Z -> option bytes) (e : DfcEmulator) (writes : list write) : DfcEmulator :=
  fold_left (fun e '(i, n, b) => snd (stage_file alloc e i n b)) writes e.

Lemma run_stages_isolated alloc e writes :
  alloc_ok alloc -> tx_inv e ->
  let e' := run_stages alloc e writes in
  tx_inv e' /\ committed_view e' = committed_view e /\ selected_app_index e' = selected_app_index e.
Proof.
  intros Halloc. revert e. induction writes as [|[[i n] b] writes IH]; intros e Hinv; [done|].
  cbv zeta. unfold run_stages. cbn [fold_left]. fold (run_stages alloc (snd (stage_file alloc e i n b)) writes).
  pose proof (stage_refines alloc e i n b Hinv Halloc) as H.
  destruct (stage_file alloc e i n b) as [ok e1]. cbn [snd]. destruct H as (Hinv1 & Hsel1 & Hyes & Hno).
  destruct (IH e1 Hinv1) as (Hinv' & Hc' & Hs'). split_and!; [done| |congruence]. rewrite Hc'.
  destruct ok; [exact (f_equal st_committed (Hyes eq_refl))|exact (f_equal st_committed (Hno eq_refl))].
Qed.

Lemma not_open_clean e :
  tx_inv e -> transaction_open e = false ->
  committed_view e = abs_files (credential e) /\
  map (abort_value_entry (selected_app_index e)) (committed_view e) = committed_view e.
Proof.
  intros Hinv Hopen. unfold transaction_open in Hopen. rewrite !orb_false_iff in Hopen.
  destruct Hopen as [[_ Hact] Hval]. split; [|by apply abort_values_none].
  rewrite (committed_view_abs e (ti_wf _ Hinv)). pose proof (ti_wf _ Hinv) as [_ Hjk].
  apply commit_clean; [done|]. by apply (inactive_clean _ _ Hjk).
Qed.

Lemma publish_keeps_octets selected (l : list entry) : map snd (map (publish_entry selected) l) = map snd l.
Proof.
  rewrite map_map. apply map_ext. intros [f b]. unfold publish_entry. by destruct (negb _).
Qed.



(** ** The journal never runs out *)

(** C19. A write to a file of the selected application is refused only for want of host
    memory: whatever the transaction has done before, the journal opened for it has
    room for the preimage of every file it may still touch. *)
Theorem stage_succeeds (alloc : Z -> option bytes) (e : DfcEmulator) (i : nat) (f : DfcFile)
  (n : Z) (b : bytes)
  (Halloc : alloc_ok alloc) (Hmemory : forall k, 0 < k <= DFC_FILE_POOL_SIZE -> alloc k <> None)
  (Hinv : tx_inv e) (Hf : live_files (credential e) !! i = Some f)
  (Hown : file_app_index f = selected_app_index e) (Hdata : transaction_file_has_data f = true)
  (Hlen : zlen b = data_len f) (Hn : 0 <= n < 2 ^ 16) :
  let '(ok, e') := stage_file alloc e (Z.of_nat i) n b in
  ok = true /\ abs_files (credential e') =
    <[i := (staged_file n (sans_slice f), b)]> (abs_files (credential e)) /\
  committed_view e' = committed_view e.
Proof.
  pose proof (stage_refines alloc e (Z.of_nat i) n b Hinv Halloc) as Href.
  pose proof (live_files_lt _ _ _ Hf) as Hlt. unfold stage_file in *.
  rewrite (file_at_live _ _ _ Hf) in *.
  rewrite (proj2 (Z.leb_le 0 (Z.of_nat i))), (proj2 (Z.ltb_lt _ _) Hlt), (proj2 (Z.eqb_eq _ _) Hown), Hdata,
    (proj2 (Z.eqb_eq _ _) Hlen), (proj2 (Z.leb_le 0 n)), (proj2 (Z.ltb_lt n (2 ^ 16))) in * by lia.
  cbn [andb] in *. pose proof (begin_own alloc e Hinv Halloc) as Hbeg.
  destruct (dfc_emulator_command_transaction_snapshot_begin alloc e) as [[|] e1].
  2: { destruct Hbeg as (_ & _ & _ & _ & _ & H). destruct (H eq_refl) as (k & Hk & Hno).
       by destruct (Hmemory k Hk). }
  destruct Hbeg as ([Hwf1 _ Ho1] & _ & Hcr1 & Hsel1 & Hact1 & _). specialize (Hact1 eq_refl).
  assert (Hin : in_transaction (journal e1) f = true).
  { unfold in_transaction. rewrite (Ho1 Hact1), Hsel1, Hdata. by rewrite (proj2 (Z.eqb_eq _ _) Hown). }
  rewrite <- Hcr1 in Hf. pose proof (capture_correct e1 i f Hwf1 Hact1 Hf Hin) as Hcap.
  destruct (dfc_emulator_transaction_snapshot_capture_file e1 (Z.of_nat i)) as [ok e2].
  destruct Hcap as (-> & _). split; [done|]. destruct Href as (_ & _ & Hsp & _). specialize (Hsp eq_refl).
  pose proof (f_equal st_staged Hsp) as Hst. cbn [spec_of spec_tx st_staged] in Hst.
  rewrite Hcr1 in Hf. rewrite Nat2Z.id, (list_alter_lookup _ _ _ _ (abs_lookup _ _ _ Hf)) in Hst.
  split; [exact Hst|exact (f_equal st_committed Hsp)].
Qed.

Lemma stage_succeeds_witness :
  let '(ok, e') := stage_file host_alloc sample_tx (Z.of_nat 1) 1 (replicate 32 0x11) in
  ok = true /\ committed_view e' = committed_view sample_tx.
Proof.
  assert (Hf : exists f, live_files (credential sample_tx) !! 1%nat = Some f /\
    file_app_index f = 0 /\ transaction_file_has_data f = true /\ data_len f = 32).
  { eexists. split; [vm_compute; reflexivity|]. split; [reflexivity|]. split; reflexivity. }
  destruct Hf as (f & Hf & Ho & Hd & Hl).
  pose proof (stage_succeeds host_alloc sample_tx 1 f 1 (replicate 32 0x11) host_alloc_ok
    (fun k _ => ltac:(discriminate)) sample_tx_inv Hf Ho Hd (eq_sym Hl) ltac:(lia)) as H.
  destruct (stage_file host_alloc sample_tx (Z.of_nat 1) 1 (replicate 32 0x11)) as [ok e'].
  destruct H as (-> & _ & Hc). split; [reflexivity|exact Hc].
Defined.

(** ** Aborting without a trustworthy journal *)

Definition destroy_entry (app_index : Z) (ent : entry) : entry :=
  let (f, b) := ent in
  if negb (file_app_index f =? app_index) || negb (transaction_pending f) ||
     negb (transaction_file_has_data f) then (f, b)
  else (set_transaction_pending false (with_count 0 f), zeros (zlen b)).

Lemma abort_destroy_file_correct app_index c i f :
  files_wf c -> live_files c !! i = Some f ->
  file_step c (abort_destroy_file app_index c (Z.of_nat i)) i (destroy_entry app_index (file_view c f)).
Proof.
  intros Hwf Hi. unfold abort_destroy_file, destroy_entry, file_view. rewrite (file_at_live _ _ _ Hi).
  change (file_app_index (sans_slice f)) with (file_app_index f).
  change (transaction_pending (sans_slice f)) with (transaction_pending f).
  change (transaction_file_has_data (sans_slice f)) with (transaction_file_has_data f).
  destruct (_ || _ || _); [by apply settled_refl|]. rewrite (contents_length c i f Hwf Hi).
  assert (Hlt : (i < length (live_files c))%nat) by (by eapply lookup_lt_Some).
  destruct (with_count_slice 0 f) as (_ & _ & <-).
  apply (settled_update c _ i (with_count 0 f) _ (set_transaction_pending false)); [done..|].
  apply settled_count; [done..|]. apply settled_store; [done..|].
  apply length_zeros. by eapply data_len_nonneg.
Qed.

(** The allocation behind the journal: its size is its recorded capacity, and the
    16-bit offsets into it are not negative. *)
Definition journal_memory_ok (j : TransactionJournal) : Prop :=
  (forall p, transaction_snapshot_pool j = Some p -> zlen p = transaction_snapshot_pool_capacity j) /\
  (forall i, 0 <= preimage_at j i).

Lemma checked_restorable e i f :
  files_wf (credential e) -> journal_memory_ok (journal e) ->
  transaction_snapshot_pool_length (journal e) <= transaction_snapshot_pool_capacity (journal e) ->
  live_files (credential e) !! i = Some f -> abort_preimage_ok e (Z.of_nat i) = true ->
  restorable (journal e) i (file_view (credential e) f) /\
  (transaction_pending f = true -> in_transaction (journal e) f = true ->
   created (journal e) i = false -> captured (journal e) i = true).
Proof.
  intros Hfw [Hmem Hoff] Hcap Hf Hok. pose proof (contents_length _ _ _ Hfw Hf) as Hcl.
  pose proof (data_len_nonneg _ _ _ Hfw Hf) as H0. unfold abort_preimage_ok in Hok.
  rewrite (file_at_live _ _ _ Hf) in Hok.
  change (transaction_file_bit (transaction_snapshot_created _) (Z.of_nat i)) with (created (journal e) i) in Hok.
  change (transaction_file_bit (transaction_snapshot_captured _) (Z.of_nat i)) with (captured (journal e) i) in Hok.
  change ((transaction_snapshot_offsets (journal e)).[Z.of_nat i]) with (preimage_at (journal e) i) in Hok.
  assert (Hkey : transaction_pending f = true -> in_transaction (journal e) f = true ->
    created (journal e) i = false -> captured (journal e) i = true /\
    zlen (preimage (journal e) i (data_len f)) = data_len f).
  { intros Hp Hin Hcr. unfold in_transaction in Hin. apply andb_true_iff in Hin as [Ha Hd].
    rewrite Hp, Ha, Hd, Hcr in Hok. cbn [negb orb] in Hok. apply negb_true_iff in Hok.
    rewrite !orb_false_iff in Hok. destruct Hok as [[[[Hc Hnone] Hl1] Hl2] _]. bool_facts. split; [done|].
    unfold preimage. specialize (Hoff i). destruct (transaction_snapshot_pool (journal e)) as [p|] eqn:Ep.
    - specialize (Hmem p eq_refl). change (default [] (Some p)) with p. apply length_slice; lia.
    - rewrite bool_decide_eq_true_2, andb_true_r in Hnone by done. bool_facts. rewrite Hnone. done. }
  split.
  - intros Hp Hin Hcr _. cbn [snd file_view]. rewrite Hcl. by apply Hkey.
  - intros Hp Hin Hcr. by apply Hkey.
Qed.

(** How a pending file reads after an abort: zeros, or the preimage captured for it. *)
Definition undone (j : TransactionJournal) (i : nat) (len : Z) (ent : entry) : Prop :=
  transaction_pending (fst ent) = false /\ zlen (snd ent) = len /\
  (snd ent = zeros len \/ captured j i = true /\ snd ent = preimage j i len).

Lemma restore_pending_undone j c i f :
  files_wf c -> live_files c !! i = Some f -> transaction_pending f = true -> in_transaction j f = true ->
  restorable j i (file_view c f) -> (created j i = false -> captured j i = true) ->
  undone j i (data_len f) (restore_entry j i (file_view c f)).
Proof.
  intros Hfw Hf Hp Hin Hres Hcap. pose proof (contents_length _ _ _ Hfw Hf) as Hcl.
  pose proof (data_len_nonneg _ _ _ Hfw Hf) as H0. pose proof Hin as Hin'.
  apply andb_true_iff in Hin' as [Ha Hd]. unfold restorable in Hres. specialize (Hres Hp Hin).
  unfold restore_entry, undone in *. cbn [fst snd file_view] in *. rewrite Hcl in *.
  change (file_app_index (sans_slice f)) with (file_app_index f).
  change (transaction_pending (sans_slice f)) with (transaction_pending f).
  change (transaction_file_has_data (sans_slice f)) with (transaction_file_has_data f).
  rewrite Ha, Hp, Hd. cbn [negb andb]. destruct (created j i) eqn:Ecr; cbn [fst snd].
  - split_and!; [done|by apply length_zeros|by left].
  - specialize (Hcap eq_refl). rewrite Hcap. cbn [fst snd]. split_and!; [done|by apply Hres|by right].
Qed.

Lemma destroy_pending_undone j c i f :
  files_wf c -> live_files c !! i = Some f -> transaction_pending f = true -> in_transaction j f = true ->
  undone j i (data_len f) (destroy_entry (transaction_snapshot_app_index j) (file_view c f)).
Proof.
  intros Hfw Hf Hp Hin. apply andb_true_iff in Hin as [Ha Hd]. unfold destroy_entry, file_view.
  change (file_app_index (sans_slice f)) with (file_app_index f).
  change (transaction_pending (sans_slice f)) with (transaction_pending f).
  change (transaction_file_has_data (sans_slice f)) with (transaction_file_has_data f).
  rewrite (contents_length _ _ _ Hfw Hf), Ha, Hp, Hd. cbn [negb orb]. unfold undone. cbn [fst snd].
  split_and!; [done| |by left]. apply length_zeros. by eapply data_len_nonneg.
Qed.


(** A staged write whose journal has lost its pool mark: the abort wipes the file. *)
Definition broken_tx : DfcEmulator :=
  on_journal (set_transaction_snapshot_pool_length 0)
    (snd (stage_file host_alloc sample_tx 2 0 (replicate 16 0xA5))).

