(* ===== verification/Session.v ===== *)
(** Sessions of the emulator: what ends them and what is left of them. The functions are
    those of [src/src/dfc_emulator.c] and [src/src/dfc_emulator_access.c]. *)

From S2P Require Import Prelude Common Pool CredentialData Credential EmulatorData Journal Emulator Access.

(** ** The end of a session *)

(** What an abort leaves alone. *)
Lemma abort_snapshot_frame e :
  let e' := snd (dfc_emulator_abort_transaction_snapshot e) in
  native e' = native e /\ ev2 e' = ev2 e /\ tx_buffer e' = tx_buffer e /\ chains e' = chains e.
Proof.
  unfold dfc_emulator_abort_transaction_snapshot.
  by destruct (transaction_snapshot_active _); [destruct (_ && _)|].
Qed.

Lemma abort_frame e :
  let e' := snd (dfc_emulator_abort_transaction e) in
  native e' = native e /\ ev2 e' = ev2 e /\ tx_buffer e' = tx_buffer e /\ chains e' = chains e.
Proof.
  cbv zeta. unfold dfc_emulator_abort_transaction.
  set (mac_open := has_pending _ || _). set (e0 := if mac_open then clear_transaction_mac e else e).
  assert (H0 : native e0 = native e /\ ev2 e0 = ev2 e /\ tx_buffer e0 = tx_buffer e /\ chains e0 = chains e)
    by (unfold e0; by destruct mac_open).
  destruct H0 as (<- & <- & <- & <-). pose proof (abort_snapshot_frame e0) as H.
  by destruct (dfc_emulator_abort_transaction_snapshot e0).
Qed.

(** Authentication state after a session: every field zero, the session object wiped
    in place. *)
Definition wiped_native (n : NativeAuthentication) : NativeAuthentication :=
  set_secure_messaging ((fun _ => zero_secure_messaging) <$> secure_messaging n) zero_native.

Lemma wiped_revokes e n file access :
  native e = wiped_native n -> ev2 e = zero_ev2 ->
  session_authenticated e = false /\
  dfc_emulator_file_access_allowed e file access = dfc_emulator_file_access_is_free file access.
Proof.
  intros Hn He.
  assert (Hnat : dfc_emulator_native_authentication_active e = false)
    by (unfold dfc_emulator_native_authentication_active; by rewrite Hn).
  assert (Hkey : forall k, dfc_emulator_is_authenticated_with_key e k = false)
    by (intros k; unfold dfc_emulator_is_authenticated_with_key; by rewrite Hnat, He).
  split; [unfold session_authenticated; by rewrite Hnat, He|].
  unfold dfc_emulator_file_access_allowed, dfc_emulator_file_access_is_free.
  destruct (file_access_nibbles file access) as [p a]. unfold dfc_emulator_access_nibble_allows.
  rewrite !Hkey. by destruct (p =? DFC_ACCESS_FREE), (p =? DFC_ACCESS_DENY), (a =? DFC_ACCESS_FREE),
    (a =? DFC_ACCESS_DENY).
Qed.

Lemma retire_state e :
  native (dfc_emulator_retire_authentication e) = wiped_native (native e) /\
  ev2 (dfc_emulator_retire_authentication e) = zero_ev2.
Proof. done. Qed.

Lemma reset_session_state e :
  native (dfc_emulator_reset_session e) = wiped_native (native e) /\
  ev2 (dfc_emulator_reset_session e) = zero_ev2.
Proof.
  unfold dfc_emulator_reset_session. destruct (abort_frame e) as (Hn & _).
  destruct (retire_state (snd (dfc_emulator_abort_transaction e))) as [-> ->]. by rewrite Hn.
Qed.

Lemma reset_activation_state e :
  native (dfc_emulator_reset_activation e) = wiped_native (native e) /\
  ev2 (dfc_emulator_reset_activation e) = zero_ev2.
Proof.
  unfold dfc_emulator_reset_activation. destruct (abort_frame e) as (Hn & _).
  split; [|done]. cbn. by rewrite Hn.
Qed.

Lemma select_application_state e selection app_index :
  native (dfc_emulator_select_application e selection app_index) = wiped_native (native e) /\
  ev2 (dfc_emulator_select_application e selection app_index) = zero_ev2.
Proof.
  unfold dfc_emulator_select_application. pose proof (reset_session_state e) as H.
  generalize dependent (dfc_emulator_reset_session e). intros e1 H. cbv zeta.
  cbn [native ev2 set_selected_application set_selected_app_index set_transaction_timer_enabled
    set_transaction_timer_elapsed_milliseconds]. exact H.
Qed.

(** C21. Ending a session revokes everything it granted. After a session reset, the
    selection of any application, or a reset of the activation, every authentication
    field is zero, handshakes and session keys included, the session object is wiped,
    and a file access is allowed exactly where it is free to all. *)
Theorem session_end_revokes (e e' : DfcEmulator) (selection : DfcEmulatorSelectedApplication)
  (app_index : Z) (file : DfcFile) (access : DfcFileAccess)
  (Hend : e' = dfc_emulator_reset_session e \/
          e' = dfc_emulator_select_application e selection app_index \/
          e' = dfc_emulator_reset_activation e) :
  native e' = wiped_native (native e) /\ ev2 e' = zero_ev2 /\ session_authenticated e' = false /\
  dfc_emulator_file_access_allowed e' file access = dfc_emulator_file_access_is_free file access.
Proof.
  assert (Hst : native e' = wiped_native (native e) /\ ev2 e' = zero_ev2).
  { destruct Hend as [->|[->| ->]]; [exact (reset_session_state e)
    |exact (select_application_state e selection app_index)|exact (reset_activation_state e)]. }
  destruct Hst as [Hn He]. split_and!; [done|done|..]; by eapply (wiped_revokes e' (native e)).
Qed.

(** A session with AES key 1, ended by selecting application 0. *)
Definition sample_session : DfcEmulator :=
  set_native (Build_NativeAuthentication
    (Some (Build_DfcSecureMessaging DFC_CMD_AUTHENTICATE_AES (replicate 24 7) 16 (zeros 16) false))
    DFC_CMD_AUTHENTICATE_AES 1 0 0 (zeros 72) false 0 0 0 0 0 0) (zero_emulator zero_credential).

Lemma session_end_revokes_witness :
  let file := set_access_rights 0x1F1F zero_file in
  let e' := dfc_emulator_select_application sample_session DfcEmulatorSelectedApplicationApp 0 in
  dfc_emulator_file_access_allowed sample_session file DfcFileAccessRead = true /\
  dfc_emulator_file_access_allowed e' file DfcFileAccessRead = false.
Proof.
  cbv zeta. split; [reflexivity|].
  destruct (session_end_revokes sample_session
    (dfc_emulator_select_application sample_session DfcEmulatorSelectedApplicationApp 0)
    DfcEmulatorSelectedApplicationApp 0 (set_access_rights 0x1F1F zero_file) DfcFileAccessRead
    (or_intror (or_introl eq_refl))) as (_ & _ & _ & H).
  rewrite H. reflexivity.
Defined.

(** ** The transaction timer *)

Lemma reset_activation_timer e ms :
  dfc_emulator_reset_activation (set_transaction_timer_elapsed_milliseconds ms e) =
  dfc_emulator_reset_activation e.
Proof.
  unfold dfc_emulator_reset_activation, dfc_emulator_abort_transaction.
  set (mac_open := has_pending (transaction_mac (mac_state e)) || _).
  change (has_pending (transaction_mac (mac_state (set_transaction_timer_elapsed_milliseconds ms e))) || _)
    with mac_open.
  destruct mac_open; unfold dfc_emulator_abort_transaction_snapshot;
    (match goal with |- context [transaction_snapshot_active ?j] => change (transaction_snapshot_active _)
       with (transaction_snapshot_active (journal e)) end);
    by destruct (transaction_snapshot_active (journal e)).
Qed.

Lemma disabled_timer e ticks :
  transaction_timer_enabled e = false -> fold_left dfc_emulator_advance_time ticks e = e.
Proof.
  intros He. induction ticks as [|t ticks IH]; [done|]. cbn [fold_left].
  unfold dfc_emulator_advance_time at 2. by rewrite He.
Qed.

Definition total_time (ticks : list Z) : Z := foldr Z.add 0 ticks.

(** C22. The transaction timer ends the activation exactly when a second has passed. For
    any sequence of reported intervals, as long as they add up to less than 1000
    milliseconds the emulator is unchanged but for the sum, and as soon as they reach it
    the activation is reset, once, with no overflow of the 32-bit counter on the way. *)
Theorem timer_expires_exactly (e : DfcEmulator) (ticks : list Z)
  (Henabled : transaction_timer_enabled e = true)
  (Hstart : 0 <= transaction_timer_elapsed_milliseconds e < DFC_TRANSACTION_TIMER_EXPIRY_MILLISECONDS)
  (Hticks : Forall (fun t => 0 <= t <= UINT32_MAX) ticks) :
  let total := transaction_timer_elapsed_milliseconds e + total_time ticks in
  fold_left dfc_emulator_advance_time ticks e =
  if total <? DFC_TRANSACTION_TIMER_EXPIRY_MILLISECONDS
  then set_transaction_timer_elapsed_milliseconds total e
  else dfc_emulator_reset_activation e.
Proof.
  cbv zeta. revert e Henabled Hstart. induction Hticks as [|t ticks Ht Hticks IH]; intros e Hen Hst.
  { cbn. rewrite Z.add_0_r, (proj2 (Z.ltb_lt _ _)) by lia. by destruct e. }
  cbn [fold_left total_time foldr]. fold (total_time ticks).
  assert (Hnn : 0 <= total_time ticks).
  { unfold total_time. clear -Hticks. induction Hticks; cbn; lia. }
  set (el := transaction_timer_elapsed_milliseconds e) in *.
  assert (Hstep : dfc_emulator_advance_time e t =
    if el + t <? DFC_TRANSACTION_TIMER_EXPIRY_MILLISECONDS
    then set_transaction_timer_elapsed_milliseconds (el + t) e else dfc_emulator_reset_activation e).
  { unfold dfc_emulator_advance_time. rewrite Hen. fold el.
    destruct (UINT32_MAX - el <? t) eqn:E1; bool_facts; cbn [transaction_timer_elapsed_milliseconds
      set_transaction_timer_elapsed_milliseconds].
    - rewrite (proj2 (Z.leb_le _ _)) by dlia. rewrite (proj2 (Z.ltb_ge _ _)) by dlia.
      apply reset_activation_timer.
    - rewrite u32_id by dlia. destruct (el + t <? _) eqn:E2; bool_facts.
      + by rewrite (proj2 (Z.leb_gt _ _)) by lia.
      + rewrite (proj2 (Z.leb_le _ _)) by lia. apply reset_activation_timer. }
  rewrite Hstep. destruct (el + t <? _) eqn:E2; bool_facts.
  - rewrite IH by (done || (cbn; lia)). cbn [transaction_timer_elapsed_milliseconds
      set_transaction_timer_elapsed_milliseconds]. rewrite Z.add_assoc.
    destruct (_ <? _); [done|]. apply reset_activation_timer.
  - rewrite (proj2 (Z.ltb_ge _ _)) by lia. by apply disabled_timer.
Qed.

Lemma timer_expires_exactly_witness :
  let e := set_transaction_timer_enabled true sample_session in
  fold_left dfc_emulator_advance_time [400; 599] e = set_transaction_timer_elapsed_milliseconds 999 e /\
  fold_left dfc_emulator_advance_time [400; 600; 4294967295] e = dfc_emulator_reset_activation e.
Proof.
  cbv zeta. split.
  - apply (timer_expires_exactly (set_transaction_timer_enabled true sample_session) [400; 599]);
      [reflexivity|split; [discriminate|reflexivity]|].
    repeat constructor; discriminate.
  - apply (timer_expires_exactly (set_transaction_timer_enabled true sample_session) [400; 600; 4294967295]);
      [reflexivity|split; [discriminate|reflexivity]|].
    repeat constructor; discriminate.
Defined.
